(* ===== verification/_CoqProject ===== *)
-Q . S2P
Prelude.v
JsString.v
Regex.v
Double.v
Html.v
Markdown.v
Shell.v
Saving.v
Router.v
Logs.v
Fields.v
Subjects.v
HostForm.v
HostSaved.v
Editors.v
Acl.v
Streams.v
WireGuard.v
Portal.v
Sites.v
Charts.v
TimeChart.v
Traffic.v
Listings.v
HostEditor.v
Hosts.v
Settings.v
Account.v
Policies.v
Devices.v
Vpn.v
VpnPage.v
Tables.v
Workbench.v
Maintenance.v
Docker.v
Overview.v
Markup.v
