(* ===== verification/Prelude.v ===== *)
(** * A model of quicgate's browser code

    quicgate is a reverse proxy with a VPN.  Its server is written in Go; what
    is modelled here is the JavaScript the browser runs: the admin application
    (src/web/app.js), its charts (src/web/charts.js), the renderer of its
    guides (src/web/md.js), the script before the first paint
    (src/web/theme-init.js), and the page on which the people of the VPN add
    their devices (src/internal/engine/portal/portal.js).

    ** How the program is modelled

    A JavaScript string is its sequence of code units, a number read from a
    form is an integer, a number of the traffic report is a binary64 value.  A
    form is a record of its controls; a page is a record of what it shows, of
    the requests it has sent and of the calls in flight.  A handler that
    awaits is cut at its awaits: the part up to an await sends the request and
    adds a job, the part after it is the function [.._continue] or [.._reply]
    from the job and the reply to the page.  An event is something the user
    does, a timer, or a reply to the n-th job, so that replies come in every
    order; [.._step] is one event and [.._run] a sequence of them.  The server
    is what answers: its replies are free unless a theorem says otherwise, and
    in Listings it is a state of its own.  Where a theorem is about what the
    server makes of what it is sent, the Go function is a definition beside
    it: the checks on a provider and the mask of its secret (Tables, from
    internal/store/oidc.go and internal/admin/oidcproviders.go), what it
    clears of a host by its type (HostForm, from internal/store/store.go), and
    what it uses for a setting that is empty or missing (Settings, from
    internal/engine/engine.go and main.go).  A call that throws without a
    [catch] ends its handler, which is what [None] or the unchanged page says.

    ** The files

    The language and the browser:
    - Prelude: strings as [jstr], the shared tactics, lemmas on lists, maps
      and sorting;
    - JsString: [trim], [split], [join], [includes], [slice], [parseInt],
      [String(n)], with the round trips between them;
    - Regex: the regular expressions of the sources with the matcher of
      ECMA-262, sound and complete for a declarative meaning;
    - Double: the operations on binary64 numbers, computed exactly;
    - Html: [esc] of app.js and [mdEscape] of md.js, a tokenizer of HTML, and
      markup as a list of literals and escaped values; [contained] says that
      the values leave the markup alone;
    - Fields: a value assigned to a control and read back, and the row editors
      the forms share ([parsePool], [addHdrRow], [addAuthRuleRow],
      [addLocationRow], [addRouteRow], and the functions that read them back).

    The application, app.js where no other file is named:
    - Shell: theme-init.js, [applySkin], [applyTheme], the user menu, and
      [openGuide] of the help page;
    - Router: [switchPage], [showSection], [setRoute], [routeFromHash], [show];
    - Saving: [api], [setSaving] and the listener of submits;
    - Account: [afterLogin], the sign-in and password forms, [refresh2FA], the
      forms of the account page;
    - Traffic: [ovLoadTraffic], [ovSchedule], [ovRenderCharts] and what they
      make of the report; Overview: the tiles and lists of the same page;
      Charts: the marks, scales and tables of charts.js; TimeChart: its charts
      over time, with their axes, pointer and tooltip, lines and columns as
      two instances of one interface;
    - Hosts: [refresh], [renderHosts], [refreshCerts]; HostForm: [openModal]
      and the submit of host-form, field by field, [readPortalOptions];
      HostSaved: the type of what that submit makes of any form; HostEditor: the window it is in, [switchTab], [syncHostType],
      [syncCertMode], [fillPortalBlock], [closeModal];
    - Acl: [openAclModal], [addAclRuleRow], the submit of acl-form; Streams:
      the stream editor; Tables: [loadBans], [refreshAcls], [renderIdps],
      [openIdpModal], [refreshStreams], [refreshCustomCerts], [openCertModal];
    - Listings: the life of a table, loaded, deleted from and switched, and
      Editors: the life of an editor, opened, loaded, typed in, closed and
      saved, each as an interface; their instances are in Tables, HostEditor
      and Acl; Workbench: a table, the editor of its rows and the server they
      share, for every pair of instances;
    - Logs: [loadLogs], [refreshLogs], [renderLogs], [logRow],
      [fillLogScopes], [openHostLogs];
    - Settings: [loadSettings], [syncSettingsDisclosure], [saveSettings] and
      the panels; Docker: [refreshDocker], [refreshGeoIP],
      [refreshOwnAddresses]; Maintenance: importing, restoring, resetting the
      server key, making a token, the test alert;
    - Subjects: [knownPeople], [makeSubjectPicker], [describeSubject];
      WireGuard: keys and configuration texts, of app.js and portal.js; Sites,
      Devices, Policies: the editors of the VPN page; Vpn: what [refreshVPN]
      and [refreshVPNDevices] make of the server's data; VpnPage: how they
      load it, in steps and several at a time;
    - Markup: the places of all pages where text is written as markup.

    The portal: Portal is portal.js.

    Account calls Router for the views; HostForm, Acl, Streams, Sites and
    Policies are built on Fields and Subjects; the pages share the people
    loaded ([people] of Subjects).  Listings states what a table needs of its
    page, and Editors what an editor needs of its form, and prove the theorems
    on that; the pages and forms discharge it.  Workbench composes the two: a
    save of the editor is a change of the table, which is then loaded again.

    ** The theorems

    - Editing loses nothing: opening a stored host, stream, access list,
      identity provider, site, policy or setting and saving it sends it back
      as it was, or with what the theorem names: leftovers the type of the
      record does not use, and defaults written out ([opened_host_saved], [..edit_identity],
      [settings_save_identity]), and the rows and pickers inside read back what
      they were given ([rows_reopen], [auth_rules_reopen], [picker_reopens]).  Each states
      which records the editor can show, as a predicate ([host_ok],
      [stream_ok], [acl_ok], [idp_ok], [stored_ok]); lemmas beside it prove what
      happens to others ([missing_references_dropped],
      [auth_rule_policy_dropped], [unlisted_country_dropped],
      [scheme_left_blank], [environment_overridden]).
      Whatever is typed into the host editor, what it saves has the type of a
      host ([saved_host_typed]).
    - A page with its editor is a list the server keeps: what the server has
      is the list as it was with some of the changes asked for, each once and
      the saves in order, and at rest the table shows it, unless a list the
      server made before arrived after its newest ([bench_refines]).  Nothing
      in the pages orders the replies to their loads; [w_news] of Listings
      follows which list has arrived, and [older_list_stays] is a run that
      ends with the wrong one.
    - What is on the screen: the address, the page and the section agree
      ([view_matches_address], [back_returns], [view_follows_replies]); the
      host editor shows what belongs to the choices made in it
      ([window_follows_choices]); a table
      shows the server's rows once nothing is under way and its newest list
      arrived last, and comes to rest
      ([table_shows_server], [table_settles], [hosts_table_shows_server]), and
      so does the VPN page, however many of its loads overlap, while the
      server does not change ([vpn_page_settles], [late_answer_stays]); the log's pages are complete; charts draw every number and their tables
      hold the same ([line_draws_runs], [table_is_chart_twin], [timeTicks_spec],
      [tooltip_shows_data]); badges tell the truth ([vpn_states_honest]); a
      reload paints what was chosen ([reload_paints_same]).
    - What may be sent: deletes are confirmed ones, switches change one field,
      a session of the stream editor makes one stream, Save buttons that nothing else
      writes come back ([deletes_are_confirmed],
      [host_changes_safe], [stream_saved_once], [saving_reflects_changes]); an
      editor sends what is submitted, to where it was opened from, one change
      at a time ([sent_as_submitted]); keys are reset and backups restored
      when confirmed ([destructive_confirmed]).
    - Secrets: the private keys of the browser reach nothing but the
      configuration that shows them ([private_keys_stay]); the configuration,
      read by the rules of its format ([conf_read], a specification of ours),
      says what is meant ([new_device_config]); it is in the page until the
      user is done with it, also after the session has ended
      ([portal_shows_account], [logout_keeps_config]).
    - Markup: text from outside stays text, but for the link targets of the
      built-in guides ([esc_faithful],
      [renderMarkdown_tags], [pages_contained]).
    - Termination: [renderMarkdown_total], [axis_gridlines]; the overview's
      loop goes on ([overview_keeps_polling]); a page with loads under way
      comes to rest ([table_settles], [vpn_page_settles]).

    ** Bounds and fuel

    [md_loop] has the number of lines as fuel and every step takes one line
    ([renderMarkdown_total]); the scan of a regular expression over a text has
    its length plus one, since a match that takes nothing moves on by one
    unit; [html_decode] has the length of the text, and every step takes a
    unit ([html_text_fuel]); [js_of_N] has the number of bits, at least the
    number of digits; [starts_from] and [ticks_from] have the number of points
    and of ticks ([starts_from_groups], [ticks_from_spec]); [shortest] stops
    at 17 digits, which tell any two binary64 numbers apart, and [pow10_above]
    at 20 steps from an estimate that is less than three off for every
    binary64 number; [thousands] divides at most four times, once for each
    unit the source names; the loop over the lines of an axis has 64 rounds,
    and ends before them on an axis of at most 62 steps ([axis_gridlines]),
    where [niceScale] asks for about four.

    ** Parameters

    The browser's tables are parameters, of which nothing is assumed unless a
    theorem names it: [localeCompare], [toLowerCase], [toUpperCase], dates and
    numbers in the locale, the names of countries, the serialised address of a
    link, [Math.log10] and [Math.pow], whether [JSON.parse] throws, the keys
    WebCrypto makes, and the text of the clock.

    ** Not modelled

    The Go server under src/internal and src/main.go, which the pages see as
    replies, but for the four functions named above; the third-party Swagger UI and the lines that start it (docs.js);
    the clipboard and download buttons; the resize observer of the charts,
    which draws them again; which text a browser selects or scrolls to.  The
    wiring of a button to its handler is the choice of the event that the step
    function names. *)

From Stdlib Require Import Ascii String ZArith NArith Lia Sorted.
From stdpp Require Import base list gmap strings numbers.

(** ** JavaScript strings

    A JavaScript string is a sequence of UTF-16 code units; [jstr] is that
    sequence, a code unit being a number.  [js] turns a literal of the source
    into one, and [jq] does the same for literals that hold double quotes,
    which are written as backticks there. *)

Abbreviation jstr := (list N).

Declare Scope jstr_scope.
Delimit Scope jstr_scope with jstr.

Definition js (s : string) : jstr := map N_of_ascii (list_ascii_of_string s).
Arguments js s%_string_scope : simpl never.

Definition jq (s : string) : jstr :=
  map (fun c => if N.eqb c 96 then 34%N else c) (js s).
Arguments jq s%_string_scope : simpl never.

(** The code unit of an ASCII character. *)
Definition ch (a : ascii) : N := N_of_ascii a.
Arguments ch a%_char_scope : simpl never.

(** [s || d] on strings: the empty string is falsy. *)
Definition str_or (s d : jstr) : jstr := match s with [] => d | _ => s end.

(** [!!s] on a string. *)
Definition truthy (s : jstr) : bool := match s with [] => false | _ => true end.

(** [n || d] on the result of [parseInt]: NaN ([None]) and 0 are falsy. *)
Definition int_or (n : option Z) (d : Z) : Z :=
  match n with Some 0%Z | None => d | Some z => z end.

(** [Math.round(n / d)] of integers. *)
Definition round_div (n d : Z) : Z := ((2 * n + d) / (2 * d))%Z.

(** ** Shared tactics *)

(** Turns boolean tests in hypotheses and goals into propositions. *)
Ltac boolify :=
  repeat match goal with
  | H : negb _ = true |- _ => apply negb_true_iff in H
  | H : negb _ = false |- _ => apply negb_false_iff in H
  | H : andb _ _ = true |- _ => apply andb_true_iff in H; destruct H
  | H : orb _ _ = false |- _ => apply orb_false_iff in H; destruct H
  | H : N.eqb _ _ = true |- _ => apply N.eqb_eq in H
  | H : N.eqb _ _ = false |- _ => apply N.eqb_neq in H
  | H : N.leb _ _ = true |- _ => apply N.leb_le in H
  | H : N.leb _ _ = false |- _ => apply N.leb_gt in H
  | H : N.ltb _ _ = true |- _ => apply N.ltb_lt in H
  | H : N.ltb _ _ = false |- _ => apply N.ltb_ge in H
  | H : Z.eqb _ _ = true |- _ => apply Z.eqb_eq in H
  | H : Z.eqb _ _ = false |- _ => apply Z.eqb_neq in H
  | H : Z.leb _ _ = true |- _ => apply Z.leb_le in H
  | H : Z.leb _ _ = false |- _ => apply Z.leb_gt in H
  | H : Z.ltb _ _ = true |- _ => apply Z.ltb_lt in H
  | H : Z.ltb _ _ = false |- _ => apply Z.ltb_ge in H
  end.

(** Decides a closed goal by evaluation. *)
Ltac by_compute := vm_compute; reflexivity.

(** Splits every [match] of the goal and closes what evaluation closes. *)
Ltac split_match := repeat (case_match; simplify_eq/=; try done).

(** ** Shared hint databases

    [jsdb] holds the lemmas that decide membership of code units in the
    strings the library builds; [jsrw] the rewriting equations. *)

Create HintDb jsdb discriminated.
Create Rewrite HintDb jsrw.

(** [contained] proves that templates keep their values in place. *)
Create HintDb contained discriminated.

(** ** Lists *)

Section lists.
Context {A : Type}.
Implicit Types (l k : list A) (p : A → bool).

(** [takeWhile] and [dropWhile]. *)
Fixpoint take_while p l : list A :=
  match l with
  | [] => []
  | x :: t => if p x then x :: take_while p t else []
  end.
Fixpoint drop_while p l : list A :=
  match l with
  | [] => []
  | x :: t => if p x then drop_while p t else l
  end.

Lemma take_drop_while p l : take_while p l ++ drop_while p l = l.
Proof. induction l as [|x l IH]; simpl; [done|]. case_match; simpl; congruence. Qed.

Lemma take_while_Forall p l : Forall (λ x, p x = true) (take_while p l).
Proof. induction l as [|x l IH]; simpl; [constructor|]. case_match; auto. Qed.

Lemma drop_while_all p l : Forall (λ x, p x = true) l → drop_while p l = [].
Proof. induction 1 as [|x l Hx _ IH]; simpl; [done|]. by rewrite Hx. Qed.

Lemma drop_while_app p l k :
  Forall (λ x, p x = true) l → drop_while p (l ++ k) = drop_while p k.
Proof. induction 1 as [|x l Hx _ IH]; simpl; [done|]. by rewrite Hx. Qed.

Lemma take_while_app p l k :
  Forall (λ x, p x = true) l → take_while p (l ++ k) = l ++ take_while p k.
Proof. induction 1 as [|x l Hx _ IH]; simpl; [done|]. rewrite Hx. by f_equal. Qed.

Lemma drop_while_head p l x t : drop_while p l = x :: t → p x = false.
Proof. induction l as [|y l IH]; simpl; [done|]. case_match; [done|]. by intros [= -> ->]. Qed.

Lemma drop_while_stop p l :
  match l with [] => True | x :: _ => p x = false end → drop_while p l = l.
Proof. destruct l as [|x l]; simpl; [done|]. by intros ->. Qed.

Lemma drop_while_suffix p l : ∃ k, l = k ++ drop_while p l.
Proof. exists (take_while p l). by rewrite take_drop_while. Qed.
End lists.

Lemma filter_delete {A} (p : A → bool) (l : list A) j x : l !! j = Some x → p x = false →
  List.filter p (delete j l) = List.filter p l.
Proof.
  intros H Hp. rewrite delete_take_drop. rewrite <- (take_drop_middle _ _ _ H) at 3. rewrite !List.filter_app. cbn. by rewrite Hp.
Qed.

Lemma map_delete {A B} (f : A → B) i l : map f (delete i l) = delete i (map f l).
Proof. revert i. induction l as [|x l IH]; intros [|i]; cbn; [done..|]. f_equal. apply IH. Qed.

(** [l.slice(a, b)]: a negative index counts from the end. *)
Definition slice_index {A} (l : list A) (x : Z) : Z :=
  let n := Z.of_nat (length l) in
  if (x <? 0)%Z then Z.max (n + x) 0 else Z.min x n.
Definition js_slice {A} (a b : Z) (l : list A) : list A :=
  take (Z.to_nat (slice_index l b - slice_index l a)) (drop (Z.to_nat (slice_index l a)) l).

Lemma js_slice_spec {A} (l : list A) (a b : Z) :
  (0 <= a <= b)%Z → js_slice a b l = take (Z.to_nat (b - a)) (drop (Z.to_nat a) l).
Proof.
  intros H. unfold js_slice, slice_index.
  destruct (Z.ltb_spec a 0); [lia|]. destruct (Z.ltb_spec b 0); [lia|].
  destruct (Z.le_gt_cases a (Z.of_nat (length l))) as [Ha|Ha].
  - rewrite (Z.min_l a) by done. destruct (Z.le_gt_cases b (Z.of_nat (length l))) as [Hb|Hb].
    + by rewrite Z.min_l.
    + rewrite Z.min_r by lia. rewrite (take_ge _ (Z.to_nat (Z.of_nat (length l) - a))), take_ge; [done|rewrite length_drop; lia..].
  - rewrite !Z.min_r by lia. rewrite Z.sub_diag. cbn [Z.to_nat take].
    rewrite (drop_ge l (Z.to_nat a)) by lia. by rewrite take_nil.
Qed.

(** Cutting a list in pieces of [n] and joining them. *)
Lemma concat_pages {A} (l : list A) (n k : nat) :
  (length l <= n * k)%nat → concat (map (λ i, take n (drop (n * i) l)) (seq 0 k)) = l.
Proof.
  revert l. induction k as [|k IH]; intros l Hl.
  { destruct l; [done|cbn in Hl; lia]. }
  cbn [seq map concat]. rewrite Nat.mul_0_r, drop_0.
  rewrite <- seq_shift, map_map. transitivity (take n l ++ drop n l); [|apply take_drop]. f_equal.
  rewrite <- (IH (drop n l)) by (rewrite length_drop; lia). f_equal. apply map_ext. intros i.
  rewrite drop_drop. do 2 f_equal. lia.
Qed.

(** ** Sorting

    [Array.prototype.sort] with a comparison, as a stable insertion sort. *)
Section sorting.
Context {A : Type} (le : A → A → bool).

Fixpoint insert_by (x : A) (l : list A) : list A :=
  match l with
  | [] => [x]
  | y :: t => if le x y then x :: l else y :: insert_by x t
  end.
Definition sort_by (l : list A) : list A := foldr insert_by [] l.

Lemma insert_by_perm x l : insert_by x l ≡ₚ x :: l.
Proof. induction l as [|y l IH]; cbn; [done|]. destruct (le x y); [done|]. rewrite IH. constructor. Qed.
Lemma sort_by_perm l : sort_by l ≡ₚ l.
Proof. induction l as [|x l IH]; [done|]. cbn. by rewrite insert_by_perm, IH. Qed.

(** In the order [R] of a comparison that can tell any two. *)
Context (R : A → A → Prop) (le_true : ∀ a b, le a b = true → R a b) (le_false : ∀ a b, le a b = false → R b a).

Lemma insert_by_hd x y l : HdRel R y l → R y x → HdRel R y (insert_by x l).
Proof. intros H Hx. destruct H; cbn; [by constructor|]. destruct (le x _); by constructor. Qed.
Lemma insert_by_sorted x l : Sorted R l → Sorted R (insert_by x l).
Proof.
  induction 1 as [|y l Hl IH Hd]; cbn; [by repeat constructor|]. destruct (le x y) eqn:E.
  - constructor; [by constructor|]. constructor. by apply le_true.
  - constructor; [done|]. apply insert_by_hd; [done|by apply le_false].
Qed.
Lemma sort_by_sorted l : Sorted R (sort_by l).
Proof. induction l as [|x l IH]; [constructor|by apply insert_by_sorted]. Qed.
End sorting.

(** ** Objects filled by a loop *)

Lemma fold_insert_lookup {A V} (key : A → jstr) (val : A → option V) (l : list A) : ∀ (m : gmap jstr V) k v,
  NoDup (map key l) →
  fold_left (λ m x, match val x with Some v => <[key x := v]> m | None => m end) l m !! k = Some v ↔
  (∃ x, x ∈ l ∧ key x = k ∧ val x = Some v) ∨ (m !! k = Some v ∧ ∀ x, x ∈ l → key x = k → val x = None).
Proof.
  induction l as [|x l IH]; intros m k v Hn; cbn [fold_left map] in *.
  - split; [by right; split; [|intros ? ?%not_elem_of_nil]|]. intros [(? & ?%not_elem_of_nil & _)|[? _]]; done.
  - apply list.NoDup_cons in Hn as [Hx Hn]. rewrite IH by done. clear IH.
    assert (∀ y, y ∈ l → key y = key x → False) as Hd.
    { intros y Hy E. apply Hx. rewrite <- E. apply list_elem_of_fmap. by exists y. }
    split.
    + intros [(y & Hy & E & Ev)|[Hm Hl]]; [left; exists y; by split; [right|]|].
      destruct (val x) as [w|] eqn:Ex.
      * destruct (decide (key x = k)) as [E|Hne].
        { subst k. rewrite lookup_insert_eq in Hm. left. exists x. split; [left|]. by split; [|congruence]. }
        rewrite lookup_insert_ne in Hm by done. right. split; [done|]. intros y [->|Hy]%elem_of_cons E; [done|by apply Hl].
      * right. split; [done|]. intros y [->|Hy]%elem_of_cons E; [done|by apply Hl].
    + intros [(y & [->|Hy]%elem_of_cons & E & Ev)|[Hm Hl]].
      * right. rewrite Ev. subst k. rewrite lookup_insert_eq. split; [done|]. intros y Hy E. destruct (Hd y Hy E).
      * left. by exists y.
      * right. split; [|intros y Hy; apply Hl; by right].
        destruct (val x) as [w|] eqn:Ex; [|done]. rewrite lookup_insert_ne; [done|]. intros E.
        rewrite (Hl x) in Ex; [done|by left|done].
Qed.
