(* ===== verification/JsString.v ===== *)
(** * The string operations the browser code uses

    [String.prototype.trim], [split], [join], [startsWith], [includes],
    [slice], [parseInt] and the decimal printing of integers, on sequences of
    code units, with the round trips the forms rely on. *)

From Stdlib Require Import Ascii String ZArith NArith Lia.
From stdpp Require Import base list strings numbers sorting.
From S2P Require Import Prelude.

Local Open Scope N_scope.

(** WhiteSpace and LineTerminator of ECMA-262: what [trim] and the class
    [\s] mean. *)
Definition is_space (c : N) : bool :=
  ((9 <=? c) && (c <=? 13)) || (c =? 32) || (c =? 160) || (c =? 5760)
  || ((8192 <=? c) && (c <=? 8202)) || (c =? 8232) || (c =? 8233)
  || (c =? 8239) || (c =? 8287) || (c =? 12288) || (c =? 65279).

Arguments is_space c : simpl never.

Definition is_digit (c : N) : bool := (48 <=? c) && (c <=? 57).

Arguments is_digit c : simpl never.

Definition trim_start (s : jstr) : jstr := drop_while is_space s.
Definition trim_end (s : jstr) : jstr := rev (drop_while is_space (rev s)).
Definition trim (s : jstr) : jstr := trim_end (trim_start s).

(** [s.split(sep)] for a separator of one code unit. *)
Fixpoint split_ch (sep : N) (s : jstr) : list jstr :=
  match s with
  | [] => [[]]
  | c :: t =>
      if c =? sep then [] :: split_ch sep t
      else match split_ch sep t with
           | [] => [[c]]
           | w :: ws => (c :: w) :: ws
           end
  end.

(** [l.join(sep)]. *)
Fixpoint join (sep : jstr) (l : list jstr) : jstr :=
  match l with
  | [] => []
  | [w] => w
  | w :: ws => w ++ sep ++ join sep ws
  end.

(** [s.startsWith(p)]. *)
Fixpoint starts_with (p s : jstr) : bool :=
  match p, s with
  | [], _ => true
  | a :: p', b :: s' => (a =? b) && starts_with p' s'
  | _ :: _, [] => false
  end.

(** [s.includes(p)]. *)
Fixpoint includes (p s : jstr) : bool :=
  starts_with p s || match s with [] => false | _ :: t => includes p t end.

(** [s.slice(0, n)] and [s.slice(n)] for [n >= 0]. *)
Definition slice_to (n : nat) (s : jstr) : jstr := take n s.
Definition slice_from (n : nat) (s : jstr) : jstr := drop n s.

Arguments trim s : simpl never.

(** [.map(s => s.trim()).filter(Boolean)], the idiom of every list field. *)
Definition trim_all (l : list jstr) : list jstr := List.filter truthy (map trim l).

(** [text.split('\n').map(trim).filter(Boolean)] and the same at commas. *)
Definition lines_of (s : jstr) : list jstr := trim_all (split_ch 10 s).
Definition commas_of (s : jstr) : list jstr := trim_all (split_ch 44 s).

(** ** Integers in decimal *)

Fixpoint digits_fuel (k : nat) (n : N) : jstr :=
  match k with
  | O => []
  | S k' => (if n <? 10 then [] else digits_fuel k' (n / 10)) ++ [48 + n mod 10]
  end.

(** [String(n)] of a natural number and of an integer. *)
Definition js_of_N (n : N) : jstr := digits_fuel (S (N.size_nat n)) n.
Definition js_of_Z (z : Z) : jstr :=
  if (z <? 0)%Z then 45 :: js_of_N (Z.to_N (- z)) else js_of_N (Z.to_N z).

Definition js_of_nat (n : nat) : jstr := js_of_Z (Z.of_nat n).

(** [toLowerCase] on ASCII, which the properties are tried at. *)
Definition ascii_lower (s : jstr) : jstr := map (fun c => if (65 <=? c) && (c <=? 90) then c + 32 else c) s.

Definition digits_value (s : jstr) : N :=
  fold_left (fun acc c => acc * 10 + (c - 48)) s 0.

(** [parseInt(s, 10)]: leading white space, a sign, then the longest run of
    digits; NaN, here [None], when there is none. *)
Definition parse_digits (s : jstr) : option Z :=
  match take_while is_digit s with
  | [] => None
  | ds => Some (Z.of_N (digits_value ds))
  end.
Definition parse_int (s : jstr) : option Z :=
  match trim_start s with
  | [] => None
  | c :: t =>
      if c =? 45 then option_map Z.opp (parse_digits t)
      else if c =? 43 then parse_digits t
      else parse_digits (c :: t)
  end.

Example parse_int_ex1 : parse_int (js "  -42px") = Some (-42)%Z.
Proof. reflexivity. Qed.
Example parse_int_ex2 : parse_int (js "x1") = None.
Proof. reflexivity. Qed.
Example js_of_Z_ex : js_of_Z (-1207) = js "-1207".
Proof. reflexivity. Qed.
Example split_ex : split_ch 44 (js "a,,b") = [js "a"; js ""; js "b"].
Proof. reflexivity. Qed.

(** ** Splitting and joining *)

Lemma split_ch_cons sep s : ∃ w ws, split_ch sep s = w :: ws.
Proof.
  induction s as [|c s (w & ws & IH)]; simpl; [by eauto|].
  rewrite IH. case_match; eauto.
Qed.

Lemma join_cons sep w w' l : join sep (w :: w' :: l) = w ++ sep ++ join sep (w' :: l).
Proof. done. Qed.

(** [s.split(sep).join(sep) = s]. *)
Lemma join_split_ch sep s : join [sep] (split_ch sep s) = s.
Proof.
  induction s as [|c s IH]; [done|]. cbn [split_ch].
  destruct (split_ch_cons sep s) as (w & ws & E). rewrite E in IH |- *.
  destruct (N.eqb_spec c sep) as [->|].
  - rewrite join_cons, IH. done.
  - destruct ws; cbn in *; congruence.
Qed.

Lemma split_ch_app sep s t :
  sep ∉ s → split_ch sep (s ++ t) =
    match split_ch sep t with [] => [s] | w :: ws => (s ++ w) :: ws end.
Proof.
  induction s as [|c s IH]; intros Hs; cbn [app split_ch].
  - destruct (split_ch_cons sep t) as (w & ws & ->); done.
  - apply not_elem_of_cons in Hs as [Hc Hs]. rewrite (IH Hs).
    destruct (N.eqb_spec c sep); [congruence|]. by destruct (split_ch sep t).
Qed.

Lemma split_ch_word sep s : sep ∉ s → split_ch sep s = [s].
Proof.
  intros Hs. rewrite <- (app_nil_r s) at 1. rewrite split_ch_app by done.
  simpl. by rewrite app_nil_r.
Qed.

(** [l.join(sep).split(sep) = l] for a non-empty list of words without the
    separator. *)
Lemma split_join_ch sep l :
  l ≠ [] → Forall (λ w, sep ∉ w) l → split_ch sep (join [sep] l) = l.
Proof.
  intros Hne Hl. induction Hl as [|w l Hw Hl IH]; [done|].
  destruct l as [|w' l]; [by apply split_ch_word|].
  rewrite join_cons, split_ch_app by done. cbn [app split_ch].
  rewrite N.eqb_refl, IH by done. by rewrite app_nil_r.
Qed.

Lemma split_ch_no_sep sep s : Forall (λ w, sep ∉ w) (split_ch sep s).
Proof.
  induction s as [|c s IH]; cbn [split_ch]; [repeat constructor; apply not_elem_of_nil|].
  destruct (split_ch_cons sep s) as (w & ws & E). rewrite E in IH |- *.
  destruct (N.eqb_spec c sep).
  - constructor; [apply not_elem_of_nil|done].
  - inv IH. constructor; [|done]. rewrite not_elem_of_cons. split; [congruence|done].
Qed.

(** ** Trimming *)

(** A word that [trim] leaves alone and [filter(Boolean)] keeps. *)
Definition tidy (s : jstr) : bool :=
  match s with
  | [] => false
  | c :: _ => negb (is_space c) && match rev s with [] => false | d :: _ => negb (is_space d) end
  end.

Lemma trim_tidy s : tidy s = true → trim s = s.
Proof.
  unfold tidy, trim, trim_end, trim_start. destruct s as [|c s]; [done|].
  intros H. boolify. simpl drop_while. rewrite H.
  destruct (rev (c :: s)) as [|d r] eqn:E; [done|]. boolify.
  rewrite drop_while_stop by done. rewrite <- E. apply rev_involutive.
Qed.

Lemma tidy_ne s : tidy s = true → s ≠ [].
Proof. by destruct s. Qed.

Lemma trim_idemp_cons s c t : trim s = c :: t → tidy (c :: t) = true.
Proof.
  unfold trim, trim_end. intros H.
  destruct (drop_while is_space (rev (trim_start s))) as [|d r] eqn:E; [done|].
  pose proof (drop_while_head _ _ _ _ E) as Hd.
  assert (rev (c :: t) = d :: r) as Hr by (rewrite <- H; apply rev_involutive).
  unfold tidy. rewrite Hr, Hd. rewrite andb_true_r.
  destruct (drop_while_suffix is_space (rev (trim_start s))) as [k Hk].
  rewrite E in Hk. apply (f_equal (@rev N)) in Hk.
  rewrite rev_involutive, rev_app_distr, H in Hk. cbn in Hk.
  apply drop_while_head in Hk. by rewrite Hk.
Qed.

(** [trim] is idempotent: its result is empty or tidy. *)
Lemma trim_result s : trim s = [] ∨ tidy (trim s) = true.
Proof. destruct (trim s) eqn:E; [by left|right]. by eapply trim_idemp_cons. Qed.

Lemma trim_trim s : trim (trim s) = trim s.
Proof. destruct (trim_result s) as [->|]; [done|]. by apply trim_tidy. Qed.

Lemma truthy_trim s : truthy (trim s) = tidy (trim s).
Proof. destruct (trim_result s) as [->|H]; [done|]. rewrite H. by destruct (trim s). Qed.

(** Every word of a list field is tidy. *)
Lemma trim_all_tidy l : Forall (λ w, tidy w = true) (trim_all l).
Proof.
  unfold trim_all. induction l as [|w l IH]; simpl; [constructor|].
  case_match eqn:E; [|done]. constructor; [|done]. by rewrite <- truthy_trim.
Qed.

Lemma trim_all_id l : Forall (λ w, tidy w = true) l → trim_all l = l.
Proof.
  unfold trim_all. induction 1 as [|w l Hw _ IH]; [done|].
  simpl. rewrite trim_tidy by done. destruct w; [done|]. simpl. by f_equal.
Qed.

(** A tidy word padded in front with white space is trimmed back to itself. *)
Lemma trim_pad pad w :
  Forall (λ c, is_space c = true) pad → tidy w = true → trim (pad ++ w) = w.
Proof.
  intros Hp Hw. rewrite <- (trim_tidy w Hw) at 2.
  unfold trim, trim_start. by rewrite drop_while_app.
Qed.

(** A list of tidy words survives being shown with a separator, followed by
    any white space, and read back. *)
Lemma trim_all_join sep pad l :
  Forall (λ c, is_space c = true ∧ c ≠ sep) pad →
  Forall (λ w, tidy w = true ∧ sep ∉ w) l →
  trim_all (split_ch sep (join (sep :: pad) l)) = l.
Proof.
  intros Hpad Hl. apply list.Forall_and in Hpad as [Hsp Hns].
  assert (sep ∉ pad) as Hpadsep.
  { intros Hin. rewrite list.Forall_forall in Hns. by eapply Hns. }
  assert (∀ q, Forall (λ c, is_space c = true) q → sep ∉ q →
    trim_all (split_ch sep (q ++ join (sep :: pad) l)) = l) as Hgen;
    [|apply (Hgen []); [constructor|apply not_elem_of_nil]].
  induction Hl as [|w l [Hw Hsep] Hl IH]; intros q Hq Hqs.
  - simpl. rewrite app_nil_r, split_ch_word by done. unfold trim_all; simpl.
    unfold trim, trim_start. by rewrite drop_while_all.
  - destruct l as [|w' l].
    + simpl. rewrite split_ch_word by by apply not_elem_of_app. unfold trim_all; simpl.
      rewrite trim_pad by done. by destruct w.
    + rewrite join_cons, app_assoc, split_ch_app by by apply not_elem_of_app.
      cbn [app split_ch]. rewrite N.eqb_refl, app_nil_r.
      specialize (IH pad Hsp Hpadsep). unfold trim_all in *.
      cbn [map List.filter]. rewrite trim_pad by done. rewrite IH.
      by destruct w.
Qed.

Lemma lines_of_join l :
  Forall (λ w, tidy w = true ∧ 10 ∉ w) l → lines_of (join [10] l) = l.
Proof. apply (trim_all_join _ []). constructor. Qed.

Lemma commas_of_join l :
  Forall (λ w, tidy w = true ∧ 44 ∉ w) l → commas_of (join [44; 32] l) = l.
Proof. apply (trim_all_join _ [32]). by repeat constructor. Qed.

Lemma commas_of_join_tight l :
  Forall (λ w, tidy w = true ∧ 44 ∉ w) l → commas_of (join [44] l) = l.
Proof. apply (trim_all_join _ []). constructor. Qed.

(** ** Decimal printing and [parseInt] *)

Lemma digits_value_app s c : digits_value (s ++ [c]) = digits_value s * 10 + (c - 48).
Proof. unfold digits_value. by rewrite fold_left_app. Qed.

Lemma digits_fuel_value k n :
  (N.size_nat n < k)%nat → digits_value (digits_fuel k n) = n.
Proof.
  revert n. induction k as [|k IH]; intros n Hk; [lia|]. cbn [digits_fuel].
  rewrite digits_value_app.
  pose proof (N.mod_lt n 10 ltac:(lia)) as Hm.
  pose proof (N.div_mod n 10 ltac:(lia)) as Hd.
  destruct (N.ltb_spec n 10) as [Hn|Hn].
  - cbn. rewrite N.mod_small by lia. lia.
  - rewrite IH; [rewrite (N.add_comm 48), N.add_sub, N.mul_comm; by symmetry|].
    assert (N.size_nat (n / 10) < N.size_nat n)%nat; [|lia].
    assert (N.size (n / 10) < N.size n).
    { assert (0 < n / 10) by (apply N.div_str_pos; lia).
      rewrite !N.size_log2 by lia.
      assert (N.log2 (n / 10) < N.log2 n); [|lia].
      apply N.log2_lt_pow2; [lia|].
      apply N.Div0.div_lt_upper_bound.
      pose proof (N.log2_spec n ltac:(lia)) as [_ ?].
      rewrite N.pow_succ_r' in *. lia. }
    destruct n as [|p]; [lia|]. destruct (N.pos p / 10) as [|q]; [cbn; destruct p; cbn; lia|].
    cbn [N.size_nat N.size] in *.
    assert (∀ p, N.of_nat (Pos.size_nat p) = N.pos (Pos.size p)) as Hs.
    { clear. induction p; cbn; lia. }
    pose proof (Hs p). pose proof (Hs q). lia.
Qed.

Lemma digits_fuel_digits k n : Forall (λ c, is_digit c = true) (digits_fuel k n).
Proof.
  revert n. induction k as [|k IH]; intros n; [constructor|]. cbn [digits_fuel].
  apply Forall_app. split; [by case_match; [constructor|]|].
  repeat constructor. pose proof (N.mod_lt n 10 ltac:(lia)) as Hm.
  generalize dependent (n mod 10). intros d Hd.
  unfold is_digit. apply andb_true_iff. split; apply N.leb_le; lia.
Qed.

Lemma js_of_N_digits n : Forall (λ c, is_digit c = true) (js_of_N n).
Proof. apply digits_fuel_digits. Qed.

Lemma js_of_N_ne (n : N) : js_of_N n ≠ [].
Proof. unfold js_of_N. cbn [digits_fuel]. intros H. by apply app_eq_nil in H as [_ ?]. Qed.

Lemma js_of_N_value n : digits_value (js_of_N n) = n.
Proof. apply digits_fuel_value. lia. Qed.

Lemma is_digit_not_space c : is_digit c = true → is_space c = false.
Proof.
  unfold is_digit, is_space. intros H. boolify.
  repeat (apply orb_false_iff; split); try apply andb_false_iff;
    rewrite ?N.leb_gt, ?N.eqb_neq; lia.
Qed.

Lemma take_while_all {A} (p : A → bool) l : Forall (λ x, p x = true) l → take_while p l = l.
Proof. intros H. rewrite <- (app_nil_r l) at 1. rewrite take_while_app by done. apply app_nil_r. Qed.

Lemma parse_digits_js_of_N n : parse_digits (js_of_N n) = Some (Z.of_N n).
Proof.
  unfold parse_digits. rewrite take_while_all by apply js_of_N_digits.
  pose proof (js_of_N_ne n). destruct (js_of_N n) eqn:E; [done|].
  by rewrite <- E, js_of_N_value.
Qed.

Lemma parse_int_js_of_N n : parse_int (js_of_N n) = Some (Z.of_N n).
Proof.
  pose proof (js_of_N_digits n) as Hd. pose proof (js_of_N_ne n) as Hne.
  unfold parse_int, trim_start. destruct (js_of_N n) as [|c s] eqn:E; [done|].
  inv Hd. rewrite drop_while_stop by by apply is_digit_not_space.
  unfold is_digit in *. boolify.
  destruct (N.eqb_spec c 45); [lia|]. destruct (N.eqb_spec c 43); [lia|].
  by rewrite <- E, parse_digits_js_of_N.
Qed.

(** [parseInt(String(z), 10) = z]. *)
Lemma parse_int_js_of_Z z : parse_int (js_of_Z z) = Some z.
Proof.
  unfold js_of_Z. destruct (Z.ltb_spec z 0).
  - unfold parse_int, trim_start. simpl. rewrite parse_digits_js_of_N. simpl. f_equal. lia.
  - rewrite parse_int_js_of_N. f_equal. lia.
Qed.

Lemma js_of_Z_inj z z' : js_of_Z z = js_of_Z z' → z = z'.
Proof. intros H. apply (f_equal parse_int) in H. rewrite !parse_int_js_of_Z in H. congruence. Qed.

Lemma js_of_Z_ne z : js_of_Z z ≠ [].
Proof. unfold js_of_Z. case_match; [done|]. apply js_of_N_ne. Qed.

Lemma js_of_Z_nonneg z : (0 <= z)%Z → Forall (λ c, is_digit c = true) (js_of_Z z).
Proof.
  intros Hz. unfold js_of_Z. destruct (Z.ltb_spec z 0); [lia|]. apply js_of_N_digits.
Qed.

(** Prefix tests. *)
Lemma starts_with_app p s : starts_with p (p ++ s) = true.
Proof. induction p as [|c p IH]; simpl; [done|]. by rewrite N.eqb_refl. Qed.

Lemma starts_with_spec p s : starts_with p s = true ↔ ∃ t, s = p ++ t.
Proof.
  split; [|by intros [t ->]; apply starts_with_app].
  revert s. induction p as [|c p IH]; intros s H; [by exists s|].
  destruct s as [|d s]; [done|]. simpl in H. boolify. subst.
  destruct (IH _ H0) as [t ->]. by exists t.
Qed.

#[export] Hint Resolve js_of_N_digits js_of_N_ne js_of_Z_ne : jsdb.
#[export] Hint Rewrite parse_int_js_of_Z trim_trim : jsrw.

(** ** Sorting and sets of strings *)

(** The order of [Array.prototype.sort] on strings: by code units. *)
Fixpoint str_leb (a b : jstr) : bool :=
  match a, b with
  | [], _ => true
  | _ :: _, [] => false
  | x :: a, y :: b => N.ltb x y || (N.eqb x y && str_leb a b)
  end.
Fixpoint sort_insert (x : jstr) (l : list jstr) : list jstr :=
  match l with
  | [] => [x]
  | y :: t => if str_leb x y then x :: l else y :: sort_insert x t
  end.
Definition str_sort (l : list jstr) : list jstr := foldr sort_insert [] l.

(** [s.split(/[..]+/).filter(Boolean)]: the runs of the characters that do not
    separate. *)
Fixpoint split_by (sep : N → bool) (s : jstr) : list jstr :=
  match s with
  | [] => [[]]
  | c :: t =>
      if sep c then [] :: split_by sep t
      else match split_by sep t with w :: ws => (c :: w) :: ws | [] => [[c]] end
  end.
Definition words_by (sep : N → bool) (s : jstr) : list jstr := List.filter truthy (split_by sep s).

Lemma split_by_cons sep s : ∃ w ws, split_by sep s = w :: ws.
Proof. induction s as [|c s (w & ws & E)]; [by eexists _, _|]. cbn. rewrite E. destruct (sep c); by eexists _, _. Qed.

Lemma words_by_sep sep pad s : Forall (λ c, sep c = true) pad → words_by sep (pad ++ s) = words_by sep s.
Proof. induction 1 as [|c pad Hc _ IH]; [done|]. unfold words_by in *. cbn [app split_by]. by rewrite Hc. Qed.

Lemma words_by_word sep w s : Forall (λ c, sep c = false) w → w ≠ [] →
  match s with [] => True | c :: _ => sep c = true end → words_by sep (w ++ s) = w :: words_by sep s.
Proof.
  intros Hw Hne Hs. assert (∀ w, Forall (λ c, sep c = false) w →
    ∃ ws, split_by sep (w ++ s) = w :: ws ∧ List.filter truthy ws = words_by sep s) as H.
  { clear w Hw Hne. induction 1 as [|c w Hc _ (ws & E & F)].
    - cbn [app]. unfold words_by. destruct s as [|c s]; [by exists []|]. cbn [split_by]. rewrite Hs. by eexists.
    - exists ws. split; [|done]. cbn [app split_by]. by rewrite Hc, E. }
  destruct (H w Hw) as (ws & E & F). unfold words_by at 1. rewrite E. cbn. destruct w; [done|]. cbn. by rewrite F.
Qed.

(** Words joined with separators are the same words again. *)
Definition word_by (sep : N → bool) (w : jstr) : Prop := w ≠ [] ∧ Forall (λ c, sep c = false) w.

Lemma words_by_join sep pad l : pad ≠ [] → Forall (λ c, sep c = true) pad → Forall (word_by sep) l → words_by sep (join pad l) = l.
Proof.
  intros Hne Hp. induction 1 as [|w l [Hw Hn] Hl IH]; [done|]. destruct l as [|w' l].
  - cbn [join]. rewrite <- (app_nil_r w) at 1. by rewrite words_by_word.
  - rewrite join_cons, words_by_word, words_by_sep, IH; [done..|]. destruct pad as [|c pad]; [done|]. by apply list.Forall_cons in Hp as [? _].
Qed.

Lemma words_by_words sep s : Forall (word_by sep) (words_by sep s).
Proof.
  apply list.Forall_forall. intros w Hw%list_elem_of_In. apply filter_In in Hw as [Hw Ht]. split; [by destruct w|]. clear Ht.
  revert w Hw. assert (Forall (Forall (λ c, sep c = false)) (split_by sep s)) as F.
  { induction s as [|c s IH]; cbn; [by repeat constructor|]. destruct (sep c) eqn:E; [by constructor|].
    destruct (split_by sep s) as [|w ws]; [by repeat constructor|]. apply list.Forall_cons in IH as [? ?].
    constructor; [by constructor|done]. }
  intros w Hw%list_elem_of_In. rewrite list.Forall_forall in F. by apply F.
Qed.

(** [[...new Set(l)]]: the first of equal elements. *)
Fixpoint set_of (seen l : list jstr) : list jstr :=
  match l with
  | [] => []
  | x :: t => if decide (x ∈ seen) then set_of seen t else x :: set_of (x :: seen) t
  end.

Lemma str_leb_total a b : str_leb a b = true ∨ str_leb b a = true.
Proof.
  revert b. induction a as [|x a IH]; intros [|y b]; [by left|by left|by right|]. cbn.
  destruct (N.lt_trichotomy x y) as [H|[->|H]].
  - left. apply N.ltb_lt in H. by rewrite H.
  - rewrite N.ltb_irrefl, N.eqb_refl. apply IH.
  - right. apply N.ltb_lt in H. by rewrite H.
Qed.

Lemma sort_insert_perm x l : sort_insert x l ≡ₚ x :: l.
Proof.
  induction l as [|y l IH]; [done|]. cbn. case_match; [done|]. rewrite IH. apply Permutation_swap.
Qed.
Lemma str_sort_perm l : str_sort l ≡ₚ l.
Proof. induction l as [|x l IH]; [done|]. cbn. by rewrite sort_insert_perm, IH. Qed.

Lemma sort_insert_sorted x l :
  Sorted (λ a b, str_leb a b = true) l → Sorted (λ a b, str_leb a b = true) (sort_insert x l).
Proof.
  induction 1 as [|y l Hl IH Hd]; [by repeat constructor|]. cbn. destruct (str_leb x y) eqn:E.
  - by repeat constructor.
  - constructor; [done|]. destruct (str_leb_total x y) as [|Hyx]; [congruence|].
    destruct l as [|z l]; cbn; [by constructor|]. inv Hd. case_match; by constructor.
Qed.
Lemma str_sort_sorted l : Sorted (λ a b, str_leb a b = true) (str_sort l).
Proof. induction l; cbn; [constructor|by apply sort_insert_sorted]. Qed.

Lemma elem_of_set_of seen l x : x ∈ set_of seen l ↔ x ∈ l ∧ x ∉ seen.
Proof.
  revert seen. induction l as [|y l IH]; intros seen; cbn.
  - rewrite elem_of_nil. tauto.
  - case_decide as H; rewrite ?elem_of_cons, IH, ?elem_of_cons.
    + split; [tauto|]. intros [[->|?] ?]; [done|tauto].
    + split; [|destruct (decide (x = y)); tauto]. intros [->|(? & ?)]; tauto.
Qed.
Lemma set_of_nodup seen l : NoDup (set_of seen l).
Proof.
  revert seen. induction l as [|y l IH]; intros seen; cbn; [constructor|]. case_decide; [done|].
  constructor; [|done]. rewrite elem_of_set_of, elem_of_cons. tauto.
Qed.
