(* ===== verification/Regex.v ===== *)
(** * Regular expressions of the browser code

    The literals of [web/*.js] are translated to [re] one constructor at a
    time and run by [rexec], the backtracking matcher of ECMA-262 in
    continuation-passing style.  Every quantifier of the sources applies to a
    single-unit class, is greedy, and no literal uses look-around, back
    references or the flags [m], [i], [s], [u]; [re] has what is left.

    [rmatch] is the declarative meaning.  The matcher is sound and complete
    for it ([rexec_sound], [rexec_complete]), so theorems about the parsers
    of the forms can be proved on [rmatch] and evaluated with [rexec]. *)

From Stdlib Require Import Ascii String ZArith NArith Lia.
From stdpp Require Import base list strings numbers.
From S2P Require Import Prelude JsString.

Local Open Scope N_scope.

(** ** Character classes *)

Definition cls_of (s : string) (c : N) : bool := existsb (N.eqb c) (js s).
Arguments cls_of s%_string_scope c : simpl never.
Definition cls_not (p : N → bool) (c : N) : bool := negb (p c).
Definition cls_or (p q : N → bool) (c : N) : bool := p c || q c.
Definition cls_range (a b : ascii) (c : N) : bool := (ch a <=? c) && (c <=? ch b).
Arguments cls_range (a b)%_char_scope c : simpl never.
(** [\d], [\s], [\w], [\S] and the dot. *)
Definition cls_d := is_digit.
Definition cls_s := is_space.
Definition cls_S := cls_not is_space.
Definition cls_w : N → bool :=
  cls_or (cls_or (cls_range "a" "z") (cls_range "A" "Z")) (cls_or is_digit (cls_of "_")).
Definition cls_dot (c : N) : bool :=
  negb ((c =? 10) || (c =? 13) || (c =? 8232) || (c =? 8233)).

(** ** Syntax *)

Inductive re : Type :=
  | REps
  | RBol                                   (* ^ *)
  | REol                                   (* $ *)
  | RCls (p : N → bool)                    (* one code unit of a class *)
  | RRep (p : N → bool) (lo : nat) (hi : option nat)   (* greedy {lo,hi} *)
  | RSeq (a b : re)
  | RAlt (a b : re)
  | RGrp (n : nat) (a : re).               (* capturing group n *)

(** A literal string. *)
Fixpoint rlit (s : jstr) : re :=
  match s with
  | [] => REps
  | [c] => RCls (N.eqb c)
  | c :: t => RSeq (RCls (N.eqb c)) (rlit t)
  end.
Definition rstr (s : string) : re := rlit (js s).
Arguments rstr s%_string_scope.
Definition rstar p := RRep p 0 None.
Definition rplus p := RRep p 1 None.
Definition ropt p := RRep p 0 (Some 1%nat).
(** One after the other. *)
Fixpoint rseq (l : list re) : re :=
  match l with
  | [] => REps
  | [a] => a
  | a :: l => RSeq a (rseq l)
  end.

(** ** The matcher *)

(** Captures: group number and captured text, latest first. *)
Abbreviation caps := (list (nat * jstr)).

(** Where the matcher stands: whether it is at index 0, the rest of the
    input, and the captures so far. *)
Record mst : Type := MSt { m_bol : bool; m_rest : jstr; m_caps : caps }.

(** The rest [t] of [s] was reached by consuming the difference. *)
Definition consumed (s t : jstr) : jstr := take (length s - length t) s.

Arguments consumed s t : simpl never.

Section rep.
Context (p : N → bool) (cs : caps) (k : mst → option mst).
Fixpoint rep (bol : bool) (lo : nat) (hi : option nat) (s : jstr) : option mst :=
  let here := match lo with O => k (MSt bol s cs) | S _ => None end in
  match hi with
  | Some O => here
  | _ =>
      match s with
      | c :: t =>
          if p c then
            match rep false (pred lo) (option_map pred hi) t with
            | Some m => Some m
            | None => here
            end
          else here
      | [] => here
      end
  end.
End rep.

Fixpoint rexec (r : re) (m : mst) (k : mst → option mst) : option mst :=
  match r with
  | REps => k m
  | RBol => if m_bol m then k m else None
  | REol => match m_rest m with [] => k m | _ => None end
  | RCls p =>
      match m_rest m with
      | c :: t => if p c then k (MSt false t (m_caps m)) else None
      | [] => None
      end
  | RRep p lo hi => rep p (m_caps m) k (m_bol m) lo hi (m_rest m)
  | RSeq a b => rexec a m (λ m', rexec b m' k)
  | RAlt a b => match rexec a m k with Some m' => Some m' | None => rexec b m k end
  | RGrp n a =>
      rexec a m (λ m', k (MSt (m_bol m') (m_rest m')
                            ((n, consumed (m_rest m) (m_rest m')) :: m_caps m')))
  end.

(** A match at the current position. *)
Definition rat (r : re) (bol : bool) (s : jstr) : option mst := rexec r (MSt bol s []) Some.

(** [r.exec(s)]: the leftmost match, as the text before it, the match, the
    captures and the text after it. *)
Record rmat : Type := RMat { r_pre : jstr; r_hit : jstr; r_caps : caps; r_post : jstr }.

Fixpoint rfind (r : re) (bol : bool) (s : jstr) : option rmat :=
  match rat r bol s with
  | Some m => Some (RMat [] (consumed s (m_rest m)) (m_caps m) (m_rest m))
  | None =>
      match s with
      | [] => None
      | c :: t =>
          match rfind r false t with
          | Some f => Some (RMat (c :: r_pre f) (r_hit f) (r_caps f) (r_post f))
          | None => None
          end
      end
  end.

Definition re_exec (r : re) (s : jstr) : option rmat := rfind r true s.
(** [r.test(s)]. *)
Definition re_test (r : re) (s : jstr) : bool :=
  match re_exec r s with Some _ => true | None => false end.
(** [m[n]]: the text of group [n], empty when it did not take part. *)
Fixpoint cap (n : nat) (cs : caps) : jstr :=
  match cs with
  | [] => []
  | (i, s) :: cs => if Nat.eqb i n then s else cap n cs
  end.

(** All the matches of [s.replace(/r/g, ...)] and [s.split(/r/)]: each with
    the text between it and the match before, and the text after the last.
    Every global literal of the sources matches at least one unit, so a match
    that is empty ends the scan. *)
Fixpoint rscan (fuel : nat) (r : re) (bol : bool) (s : jstr) : list rmat * jstr :=
  match fuel with
  | O => ([], s)
  | S f =>
      match rfind r bol s with
      | None => ([], s)
      | Some m =>
          match r_hit m with
          | [] => ([], s)
          | _ :: _ => let '(l, e) := rscan f r false (r_post m) in (m :: l, e)
          end
      end
  end.
Definition re_scan (r : re) (s : jstr) : list rmat * jstr := rscan (S (length s)) r true s.

(** [s.replace(/r/g, f)]. *)
Definition replace_all (r : re) (f : rmat → jstr) (s : jstr) : jstr :=
  let '(l, e) := re_scan r s in
  concat (map (λ m, r_pre m ++ f m) l) ++ e.
(** [s.replace(/r/, f)]: the first match only. *)
Definition replace_first (r : re) (f : rmat → jstr) (s : jstr) : jstr :=
  match re_exec r s with
  | Some m => r_pre m ++ f m ++ r_post m
  | None => s
  end.
(** [s.split(/r/)] for a literal with no group, and with group 1. *)
Definition re_split (r : re) (s : jstr) : list jstr :=
  let '(l, e) := re_scan r s in map r_pre l ++ [e].
Definition re_split1 (r : re) (s : jstr) : list jstr :=
  let '(l, e) := re_scan r s in
  concat (map (λ m, [r_pre m; cap 1 (r_caps m)]) l) ++ [e].

Arguments re_exec r s : simpl never.
Arguments re_test r s : simpl never.
Arguments re_scan r s : simpl never.
Arguments replace_all r f s : simpl never.
Arguments replace_first r f s : simpl never.
Arguments re_split r s : simpl never.
Arguments re_split1 r s : simpl never.

(** ** What a literal means *)

(** [rmatch r bol s cs m t cs']: at a position that is index 0 when [bol]
    holds, with the rest of the input [s = m ++ t], [r] can consume [m] and
    turn the captures [cs] into [cs']. *)
Definition le_hi (n : nat) (hi : option nat) : Prop :=
  match hi with None => True | Some h => (n <= h)%nat end.

Inductive rmatch : re → bool → caps → jstr → jstr → caps → Prop :=
  | rm_eps b cs t : rmatch REps b cs [] t cs
  | rm_bol cs t : rmatch RBol true cs [] t cs
  | rm_eol b cs : rmatch REol b cs [] [] cs
  | rm_cls p b cs c t : p c = true → rmatch (RCls p) b cs [c] t cs
  | rm_rep p lo hi b cs m t :
      Forall (λ c, p c = true) m → (lo <= length m)%nat → le_hi (length m) hi →
      rmatch (RRep p lo hi) b cs m t cs
  | rm_seq r1 r2 b cs cs1 cs2 m1 m2 t :
      rmatch r1 b cs m1 (m2 ++ t) cs1 →
      rmatch r2 (b && negb (truthy m1)) cs1 m2 t cs2 →
      rmatch (RSeq r1 r2) b cs (m1 ++ m2) t cs2
  | rm_alt_l r1 r2 b cs cs' m t : rmatch r1 b cs m t cs' → rmatch (RAlt r1 r2) b cs m t cs'
  | rm_alt_r r1 r2 b cs cs' m t : rmatch r2 b cs m t cs' → rmatch (RAlt r1 r2) b cs m t cs'
  | rm_grp n r b cs cs' m t :
      rmatch r b cs m t cs' → rmatch (RGrp n r) b cs m t ((n, m) :: cs').

Lemma consumed_app m t : consumed (m ++ t) t = m.
Proof.
  unfold consumed. rewrite length_app. replace (_ + _ - _)%nat with (length m) by lia.
  by rewrite take_app_length.
Qed.

Lemma negb_truthy_app m1 m2 b :
  (b && negb (truthy m1)) && negb (truthy m2) = b && negb (truthy (m1 ++ m2)).
Proof. destruct b, m1, m2; done. Qed.

(** ** Soundness and completeness of the matcher *)

Lemma rep_sound p cs k x bol lo hi s :
  rep p cs k bol lo hi s = Some x →
  ∃ m t, s = m ++ t ∧ Forall (λ c, p c = true) m ∧ (lo <= length m)%nat ∧
         le_hi (length m) hi ∧ k (MSt (bol && negb (truthy m)) t cs) = Some x.
Proof.
  revert bol lo hi. induction s as [|c s IH]; intros bol lo hi H.
  - assert (lo = O ∧ k (MSt bol [] cs) = Some x) as [-> Hk].
    { cbn in H. by destruct hi as [[|h]|], lo. }
    exists [], []. rewrite andb_true_r. repeat split; try done. destruct hi; cbn; [lia|done].
  - assert ((lo = O ∧ k (MSt bol (c :: s) cs) = Some x) ∨
            (hi ≠ Some O ∧ p c = true ∧
             rep p cs k false (pred lo) (option_map pred hi) s = Some x)) as [[-> Hk]|(Hhi & Hp & Hr)].
    { cbn in H. destruct hi as [[|h]|]; [left; by destruct lo| |];
        (destruct (p c); [|left; by destruct lo]);
        (case_match eqn:E; [right; rewrite <- H; by repeat split|left; by destruct lo]). }
    + exists [], (c :: s). rewrite andb_true_r. repeat split; try done. destruct hi; cbn; [lia|done].
    + apply IH in Hr as (m & t & -> & Hm & Hlo & Hle & Hk).
      exists (c :: m), t. cbn. rewrite andb_false_r. repeat split; [by constructor|lia| |done].
      destruct hi as [[|h]|]; cbn in *; [done|lia|done].
Qed.

Lemma rep_complete p cs k bol lo hi m t :
  Forall (λ c, p c = true) m → (lo <= length m)%nat → le_hi (length m) hi →
  k (MSt (bol && negb (truthy m)) t cs) ≠ None →
  rep p cs k bol lo hi (m ++ t) ≠ None.
Proof.
  intros Hm. revert bol lo hi. induction Hm as [|c m Hc Hm IH]; intros bol lo hi Hlo Hhi Hk.
  - rewrite andb_true_r in Hk. destruct lo; [|cbn in *; lia].
    destruct t as [|c t]; cbn; destruct hi as [[|h]|]; try done;
      (destruct (p c); [|done]); by case_match.
  - cbn in Hk. rewrite andb_false_r in Hk. cbn in *.
    destruct hi as [[|h]|]; [cbn in *; lia| |]; rewrite Hc.
    + specialize (IH false (pred lo) (Some h) ltac:(lia) ltac:(cbn in *; lia) Hk).
      cbn. case_match; [done|congruence].
    + specialize (IH false (pred lo) None ltac:(lia) I Hk). cbn. case_match; [done|congruence].
Qed.

(** Every run of the matcher is a match of the literal. *)
Lemma rexec_sound r bol s cs k x :
  rexec r (MSt bol s cs) k = Some x →
  ∃ m t cs', s = m ++ t ∧ rmatch r bol cs m t cs' ∧
             k (MSt (bol && negb (truthy m)) t cs') = Some x.
Proof.
  revert bol s cs k. induction r as [| | |p|p lo hi|a IHa b IHb|a IHa b IHb|n a IHa];
    intros bol s cs k H; cbn in H.
  - exists [], s, cs. rewrite andb_true_r. by repeat constructor.
  - destruct bol; [|done]. exists [], s, cs. by repeat constructor.
  - destruct s; [|done]. exists [], [], cs. rewrite andb_true_r. by repeat constructor.
  - destruct s as [|c s]; [done|]. destruct (p c) eqn:E; [|done].
    exists [c], s, cs. rewrite andb_false_r. by repeat constructor.
  - apply rep_sound in H as (m & t & -> & ? & ? & ? & ?). exists m, t, cs. by repeat constructor.
  - apply IHa in H as (m1 & t1 & cs1 & -> & H1 & H).
    apply IHb in H as (m2 & t2 & cs2 & -> & H2 & H).
    exists (m1 ++ m2), t2, cs2. rewrite <- negb_truthy_app, <- app_assoc.
    repeat split; [|done]. by econstructor.
  - case_match eqn:E.
    + simplify_eq. apply IHa in E as (m & t & cs' & -> & ? & ?).
      exists m, t, cs'. repeat split; [by constructor|done].
    + apply IHb in H as (m & t & cs' & -> & ? & ?).
      exists m, t, cs'. repeat split; [by apply rm_alt_r|done].
  - apply IHa in H as (m & t & cs' & -> & ? & H). cbn in H. rewrite consumed_app in H.
    exists m, t, ((n, m) :: cs'). repeat split; [by constructor|done].
Qed.

(** Every match the continuation accepts is found, if not it then another. *)
Lemma rexec_complete r bol cs m t cs' k :
  rmatch r bol cs m t cs' →
  k (MSt (bol && negb (truthy m)) t cs') ≠ None →
  rexec r (MSt bol (m ++ t) cs) k ≠ None.
Proof.
  intros H. revert k.
  induction H as [b cs t|cs t|b cs|p b cs c t Hc|p lo hi b cs m t ? ? ?
    |r1 r2 b cs cs1 cs2 m1 m2 t H1 IH1 H2 IH2|r1 r2 b cs cs' m t H IH
    |r1 r2 b cs cs' m t H IH|n r b cs cs' m t H IH]; intros k Hk; cbn.
  - by rewrite andb_true_r in Hk.
  - done.
  - by rewrite andb_true_r in Hk.
  - rewrite Hc. by rewrite andb_false_r in Hk.
  - by apply rep_complete.
  - rewrite <- app_assoc. apply IH1. apply IH2. by rewrite negb_truthy_app.
  - specialize (IH k Hk). case_match; [done|congruence].
  - case_match; [done|]. by apply IH.
  - apply IH. cbn. by rewrite consumed_app.
Qed.

(** [rfind] splits the input in the text before, a match, and the rest. *)
Lemma rfind_sound r bol s f :
  rfind r bol s = Some f →
  s = r_pre f ++ r_hit f ++ r_post f ∧
  rmatch r (bol && negb (truthy (r_pre f))) [] (r_hit f) (r_post f) (r_caps f).
Proof.
  revert bol f. induction s as [|c s IH]; intros bol f H; cbn [rfind] in H;
    (destruct (rat r bol _) as [x|] eqn:E;
     [simplify_eq; apply rexec_sound in E as (m & t & cs & Es & Hm & [= <-]);
      cbn; rewrite Es, consumed_app, andb_true_r; by split|]).
  - done.
  - destruct (rfind r false s) as [g|] eqn:Eg; [|done]. simplify_eq.
    apply IH in Eg as [-> Hm]. cbn. by rewrite andb_false_r.
Qed.

(** A literal that matches somewhere is found. *)
Lemma rfind_complete r bol pre m t cs :
  rmatch r (bol && negb (truthy pre)) [] m t cs → rfind r bol (pre ++ m ++ t) ≠ None.
Proof.
  revert bol. induction pre as [|c pre IH]; intros bol H.
  - rewrite andb_true_r in H. cbn [app]. unfold rfind, rat.
    pose proof (rexec_complete r bol [] m t cs Some H ltac:(done)) as Hx.
    destruct (m ++ t); by destruct (rexec r _ Some).
  - cbn in H. rewrite andb_false_r in H. specialize (IH false H). cbn.
    case_match; [done|]. by case_match.
Qed.

Lemma re_test_true r s :
  re_test r s = true ↔
  ∃ pre m t cs, s = pre ++ m ++ t ∧ rmatch r (negb (truthy pre)) [] m t cs.
Proof.
  unfold re_test, re_exec. split.
  - destruct (rfind r true s) as [f|] eqn:E; [|done]. intros _.
    apply rfind_sound in E as [-> Hm]. eauto 10.
  - intros (pre & m & t & cs & -> & Hm).
    pose proof (rfind_complete r true pre m t cs Hm). by case_match.
Qed.

(** A literal that starts with [^] matches at index 0 only. *)
Lemma rmatch_bol_seq r cs m t cs' b :
  rmatch (RSeq RBol r) b cs m t cs' → b = true ∧ rmatch r true cs m t cs'.
Proof.
  intros H. inv H. match goal with H1 : rmatch RBol _ _ _ _ _ |- _ => inv H1 end.
  cbn in *. by split.
Qed.

(** The scan splits the input, and its fuel is enough. *)
Lemma rscan_sound fuel r bol s l e :
  rscan fuel r bol s = (l, e) →
  s = concat (map (λ m, r_pre m ++ r_hit m) l) ++ e ∧
  Forall (λ m, ∃ b, rmatch r b [] (r_hit m) (r_post m) (r_caps m)) l.
Proof.
  revert bol s l. induction fuel as [|n IH]; intros bol s l H; cbn in H; [by simplify_eq|].
  destruct (rfind r bol s) as [f|] eqn:E; [|by simplify_eq].
  destruct (r_hit f) as [|c h] eqn:Eh; [by simplify_eq|].
  destruct (rscan n r false (r_post f)) as [l' e'] eqn:Es. simplify_eq.
  apply rfind_sound in E as [Hs Hm]. apply IH in Es as [Ht Hl].
  split; [|constructor; [eauto|done]].
  cbn. rewrite <- !app_assoc, <- Ht. done.
Qed.

Lemma rscan_fuel n k r bol s :
  (length s < n)%nat → (length s < k)%nat → rscan n r bol s = rscan k r bol s.
Proof.
  revert k bol s. induction n as [|n IH]; intros k bol s Hn Hk; [lia|].
  destruct k as [|k]; [lia|]. cbn. destruct (rfind r bol s) as [f|] eqn:E; [|done].
  apply rfind_sound in E as [Hs _]. destruct (r_hit f) as [|c h] eqn:Eh; [done|].
  rewrite (IH k); [done| |]; apply (f_equal length) in Hs;
    rewrite !length_app in Hs; cbn in Hs; lia.
Qed.

(** After the last match there is none, unless a match is empty. *)
Lemma re_scan_sound r s l e :
  re_scan r s = (l, e) →
  s = concat (map (λ m, r_pre m ++ r_hit m) l) ++ e ∧
  Forall (λ m, ∃ b, rmatch r b [] (r_hit m) (r_post m) (r_caps m)) l.
Proof. apply rscan_sound. Qed.

(** A literal string matches itself. *)
Lemma rmatch_rlit s b cs m t cs' : rmatch (rlit s) b cs m t cs' ↔ m = s ∧ cs' = cs.
Proof.
  revert b m. induction s as [|c s IH]; intros b m; [cbn; split; [by inversion 1|by intros [-> ->]; constructor]|].
  assert (∀ p, rmatch (RSeq (RCls (N.eqb c)) p) b cs m t cs' ↔
    ∃ m', m = c :: m' ∧ rmatch p false cs m' t cs') as Hseq.
  { intros p. split.
    - intros H. inv H. match goal with H : rmatch (RCls _) _ _ _ _ _ |- _ => inv H end.
      match goal with H : (_ =? _) = true |- _ => apply N.eqb_eq in H as <- end.
      cbn in *. rewrite andb_false_r in *. eauto.
    - intros (m' & -> & H). change (c :: m') with ([c] ++ m'). econstructor.
      + constructor. apply N.eqb_refl.
      + cbn. by rewrite andb_false_r. }
  destruct s as [|d s].
  - cbn. split.
    + intros H. inv H. match goal with H : (_ =? _) = true |- _ => by apply N.eqb_eq in H as <- end.
    + intros [-> ->]. constructor. apply N.eqb_refl.
  - change (rlit (c :: d :: s)) with (RSeq (RCls (N.eqb c)) (rlit (d :: s))). rewrite Hseq. split.
    + intros (m' & -> & [-> ->]%IH). done.
    + intros [-> ->]. exists (d :: s). split; [done|]. by apply IH.
Qed.

Arguments rlit s : simpl never.

(** Takes a match of a concrete literal apart. *)
Ltac rm_inv :=
  unfold rstar, rplus, ropt, rstr in *; cbn [rseq] in *;
  repeat match goal with
  | H : rmatch (rlit _) _ _ _ _ _ |- _ => apply rmatch_rlit in H as [-> ->]
  | H : rmatch REps _ _ _ _ _ |- _ => inv H
  | H : rmatch RBol _ _ _ _ _ |- _ => inv H
  | H : rmatch REol _ _ _ _ _ |- _ => inv H
  | H : rmatch (RCls _) _ _ _ _ _ |- _ => inv H
  | H : rmatch (RRep _ _ _) _ _ _ _ _ |- _ => inv H
  | H : rmatch (RSeq _ _) _ _ _ _ _ |- _ => inv H
  | H : rmatch (RAlt _ _) _ _ _ _ _ |- _ => inv H
  | H : rmatch (RGrp _ _) _ _ _ _ _ |- _ => inv H
  end.

(** [r.exec] and [r.test] of a literal that spans the whole input. *)
Lemma re_exec_sound r s f :
  re_exec r s = Some f →
  s = r_pre f ++ r_hit f ++ r_post f ∧
  rmatch r (negb (truthy (r_pre f))) [] (r_hit f) (r_post f) (r_caps f).
Proof. apply rfind_sound. Qed.

Lemma rmatch_whole r b m t cs :
  rmatch (RSeq RBol r) b [] m t cs → b = true ∧ rmatch r true [] m t cs.
Proof. apply rmatch_bol_seq. Qed.

(** A class of one unit. *)
Lemma cls_of_1 a c : cls_of (String a EmptyString) c = true → c = ch a.
Proof.
  unfold cls_of. change (js (String a EmptyString)) with [ch a]. cbn [existsb].
  rewrite orb_false_r. intros H. by apply N.eqb_eq in H.
Qed.

(** ** Replacing the runs of a class *)

Section runs.
Context (p : N → bool).

Lemma rep_run cs bol s : ∃ b, rep p cs Some bol 0 None s = Some (MSt b (drop_while p s) cs).
Proof.
  revert bol. induction s as [|c s IH]; intros bol; [by exists bol|]. cbn. destruct (p c); [|by exists bol].
  destruct (IH false) as [b ->]. by exists b.
Qed.

Lemma rat_run bol s : match s with
  | c :: t => if p c then ∃ b, rat (rplus p) bol s = Some (MSt b (drop_while p t) []) else rat (rplus p) bol s = None
  | [] => rat (rplus p) bol s = None
  end.
Proof.
  destruct s as [|c t]; [done|]. unfold rat, rplus. cbn. destruct (p c); [|done].
  destruct (rep_run [] false t) as [b ->]. by exists b.
Qed.

(** The first run: what is before it, and the rest after it. *)
Lemma rfind_run bol s :
  match drop_while (λ c, negb (p c)) s with
  | [] => rfind (rplus p) bol s = None
  | c :: t => ∃ cs, rfind (rplus p) bol s =
      Some (RMat (take_while (λ c, negb (p c)) s) (c :: take_while p t) cs (drop_while p t))
  end.
Proof.
  revert bol. induction s as [|c s IH]; intros bol; [done|]. cbn [drop_while take_while rfind].
  pose proof (rat_run bol (c :: s)) as H. cbv beta iota in H. destruct (p c) eqn:E; cbn [negb].
  - destruct H as [b ->]. exists []. cbn [m_rest m_caps]. do 2 f_equal.
    transitivity (consumed ((c :: take_while p s) ++ drop_while p s) (drop_while p s)); [|apply consumed_app].
    cbn [app]. by rewrite take_drop_while.
  - rewrite H. specialize (IH false). destruct (drop_while _ s) as [|d t]; [by rewrite IH|].
    destruct IH as [cs ->]. by exists cs.
Qed.

(** Replacing every run with a unit outside the class leaves no unit of the
    class, and does not empty the text. *)
Lemma replace_runs d s : p d = false → let r := replace_all (rplus p) (λ _, [d]) s in
  Forall (λ c, p c = false) r ∧ (s ≠ [] → r ≠ []).
Proof.
  intros Hd r. unfold r, replace_all, re_scan.
  assert (∀ n bol s, (length s < n)%nat → let '(l, e) := rscan n (rplus p) bol s in
    Forall (λ c, p c = false) (concat (map (λ m, r_pre m ++ [d]) l) ++ e) ∧
    (s ≠ [] → concat (map (λ m, r_pre m ++ [d]) l) ++ e ≠ [])) as H;
    [|specialize (H (S (length s)) true s ltac:(lia)); by destruct (rscan _ _ _ _)].
  clear r s. induction n as [|n IH]; intros bol s Hn; [lia|]. cbn [rscan].
  pose proof (rfind_run bol s) as H. destruct (drop_while _ s) as [|c t] eqn:E.
  - rewrite H. cbn. split; [|done]. pose proof (take_drop_while (λ c, negb (p c)) s) as Es.
    rewrite E, app_nil_r in Es. rewrite <- Es. apply (list.Forall_impl _ _ _ (take_while_Forall _ s)).
    intros x Hx. by apply negb_true_iff.
  - destruct H as [cs ->]. cbn [r_hit r_post].
    assert (length (drop_while p t) < n)%nat as Hl.
    { pose proof (take_drop_while (λ c, negb (p c)) s) as Es. rewrite E in Es.
      destruct (drop_while_suffix p t) as [k Ek]. apply (f_equal length) in Es, Ek.
      rewrite length_app in Es, Ek. cbn in Es. lia. }
    specialize (IH false (drop_while p t) Hl). destruct (rscan n (rplus p) false (drop_while p t)) as [l e].
    destruct IH as [IH _]. cbn [map concat r_pre]. rewrite <- !app_assoc. split.
    + rewrite !list.Forall_app. split; [|split; [by constructor|by apply list.Forall_app]].
      apply (list.Forall_impl _ _ _ (take_while_Forall _ s)). intros x Hx. by apply negb_true_iff.
    + intros _ Hn'. by destruct (take_while _ s).
Qed.
End runs.
