(* ===== verification/Double.v ===== *)
(** * Numbers

    A JavaScript number is an IEEE 754 binary64 value; the operations are the
    Standard Library's executable specification of them.  This file adds what
    the sources use besides arithmetic: [Math.max], [Math.min], [Math.floor],
    [Math.round], [toFixed] and [String], all computed exactly, and the order
    lemmas the theorems on maxima need. *)

From Stdlib Require Import Ascii String ZArith NArith Lia.
From Stdlib Require Import SpecFloat.
From stdpp Require Import base list strings numbers.
From S2P Require Import Prelude JsString.

Local Open Scope Z_scope.

Abbreviation f64 := spec_float.

Definition f_of_Z (z : Z) : f64 := binary_normalize 53 1024 z 0 false.
Definition fadd : f64 → f64 → f64 := SFadd 53 1024.
Definition fsub : f64 → f64 → f64 := SFsub 53 1024.
Definition fmul : f64 → f64 → f64 := SFmul 53 1024.
Definition fdiv : f64 → f64 → f64 := SFdiv 53 1024.
Definition fltb : f64 → f64 → bool := SFltb.
Definition fleb : f64 → f64 → bool := SFleb.
Definition feqb : f64 → f64 → bool := SFeqb.
Definition f_zero : f64 := S754_zero false.

Definition is_nan (x : f64) : bool := match x with S754_nan => true | _ => false end.
(** [Number.isFinite]. *)
Definition is_finite (x : f64) : bool := match x with S754_zero _ | S754_finite _ _ _ => true | _ => false end.
(** Whether [x || d] is [x]. *)
Definition f_truthy (x : f64) : bool := match x with S754_zero _ | S754_nan => false | _ => true end.
Definition f_or (x d : f64) : f64 := if f_truthy x then x else d.

(** [Math.max] and [Math.min]: NaN wins, and [-0] is below [+0]. *)
Definition fmax (x y : f64) : f64 :=
  if is_nan x || is_nan y then S754_nan
  else if fltb x y then y else if fltb y x then x
  else match x with S754_zero true => y | _ => x end.
Definition fmin (x y : f64) : f64 :=
  if is_nan x || is_nan y then S754_nan
  else if fltb x y then x else if fltb y x then y
  else match x with S754_zero false => y | _ => x end.
(** [Math.max(...l)]. *)
Definition fmax_all (l : list f64) : f64 := fold_left fmax l (S754_infinity true).

(** A ratio of integers, rounded to the nearest value, ties to even: the
    quotient with 60 bits to spare, its last bit set when it is not exact. *)
Definition f_of_ratio (n d : Z) : f64 :=
  let s := Z.max 0 (Z.log2 d - Z.log2 n + 60) in
  let (q, r) := Z.div_eucl (Z.shiftl n s) d in
  binary_normalize 53 1024 (2 * q + (if r =? 0 then 0 else 1)) (- s - 1) false.

(** The exact value of a finite number as a ratio with positive denominator. *)
Definition f_ratio (x : f64) : Z * Z :=
  match x with
  | S754_finite s m e =>
      let z := if s then Zneg m else Zpos m in if e <? 0 then (z, 2 ^ (- e)) else (z * 2 ^ e, 1)
  | _ => (0, 1)
  end.

(** [Math.floor] and [Math.round] of a finite number. *)
Definition floor_Z (x : f64) : Z := let (n, d) := f_ratio x in n / d.
Definition round_Z (x : f64) : Z := let (n, d) := f_ratio x in (2 * n + d) / (2 * d).
Definition f_floor (x : f64) : f64 :=
  match x with S754_finite _ _ _ => f_of_Z (floor_Z x) | _ => x end.
Definition f_round (x : f64) : f64 :=
  match x with S754_finite s _ _ => if round_Z x =? 0 then S754_zero s else f_of_Z (round_Z x) | _ => x end.
Definition f_ceil (x : f64) : f64 := SFopp (f_floor (SFopp x)).

(** ** Numbers as text *)

(** The least exponent [p] with [n / d < 10 ^ p], for [n, d > 0]. *)
Fixpoint pow10_above (fuel : nat) (n d p : Z) : Z :=
  match fuel with
  | O => p
  | S k =>
      if p <=? 0 then if n * 10 ^ (- p) <? d then (if n * 10 ^ (1 - p) <? d then pow10_above k n d (p - 1) else p)
                      else pow10_above k n d (p + 1)
      else if n <? d * 10 ^ p then (if n <? d * 10 ^ (p - 1) then pow10_above k n d (p - 1) else p)
      else pow10_above k n d (p + 1)
  end.

(** [k] decimal digits of [n / d], whose least exponent above is [p]. *)
Definition digits_at (n d p : Z) (k : Z) : Z :=
  let e := k - p in
  if 0 <=? e then (2 * n * 10 ^ e + d) / (2 * d) else (2 * n + d * 10 ^ (- e)) / (2 * d * 10 ^ (- e)).
Definition digits_back (m p k : Z) : f64 := if 0 <=? k - p then f_of_ratio m (10 ^ (k - p)) else f_of_Z (m * 10 ^ (p - k)).

(** The fewest digits that read back as the number. *)
Fixpoint shortest (fuel : nat) (x : f64) (n d p k : Z) : Z * Z :=
  let m := digits_at n d p k in
  match fuel with
  | O => (m, k)
  | S f => if feqb (digits_back m p k) x then (m, k) else shortest f x n d p (k + 1)
  end.

Definition zeros (k : Z) : jstr := repeat (ch "0") (Z.to_nat k).

(** [Number::toString] of a positive number: digits [s], [k] of them, with
    the point after the [n]th. *)
Definition place (s : jstr) (k n : Z) : jstr :=
  if (k <=? n) && (n <=? 21) then s ++ zeros (n - k)
  else if (0 <? n) && (n <=? 21) then take (Z.to_nat n) s ++ js "." ++ drop (Z.to_nat n) s
  else if (-6 <? n) && (n <=? 0) then js "0." ++ zeros (- n) ++ s
  else
    let e := n - 1 in
    let ex := (if e <? 0 then js "e-" else js "e+") ++ js_of_Z (Z.abs e) in
    match s with [c] => s ++ ex | c :: t => c :: js "." ++ t ++ ex | [] => [] end.

(** [String(x)]. *)
Definition num_string (x : f64) : jstr :=
  match x with
  | S754_nan => js "NaN"
  | S754_zero _ => js "0"
  | S754_infinity s => if s then js "-Infinity" else js "Infinity"
  | S754_finite s _ _ =>
      let a := SFabs x in let (n, d) := f_ratio a in
      let p := pow10_above 20 n d ((Z.log2 n - Z.log2 d) * 3 / 10) in
      let (m, k) := shortest 17 a n d p 1 in
      (* a carry to 10^k is one digit more *)
      let (m, p) := if m =? 10 ^ k then (1, p + 1) else (m, p) in
      let ds := js_of_Z m in
      (if s then js "-" else []) ++ place ds (Z.of_nat (length ds)) p
  end.

(** [x.toFixed(d)]. *)
Definition to_fixed (d : nat) (x : f64) : jstr :=
  match x with
  | S754_nan | S754_infinity _ => num_string x
  | _ =>
      let (n, q) := f_ratio (SFabs x) in
      if 10 ^ 21 * q <=? n then num_string x
      else
        let v := (2 * n * 10 ^ Z.of_nat d + q) / (2 * q) in
        let ds := js_of_Z v in
        let ds := zeros (Z.of_nat (S d) - Z.of_nat (length ds)) ++ ds in
        let k := (length ds - d)%nat in
        (if fltb x f_zero then js "-" else []) ++ take k ds ++ (match d with O => [] | _ => js "." ++ drop k ds end)
  end.

Example num_string_ex :
  map num_string [f_of_ratio 1 10; f_of_Z 1000; fadd (f_of_ratio 1 10) (f_of_ratio 2 10); f_of_Z (10 ^ 21); f_of_Z (-1234567);
    f_of_ratio 15 (10 ^ 8); fdiv (f_of_Z 2) (f_of_Z 3); f_of_ratio 99 100] =
  map js ["0.1"; "1000"; "0.30000000000000004"; "1e+21"; "-1234567"; "1.5e-7"; "0.6666666666666666"; "0.99"].
Proof. by_compute. Qed.
Example to_fixed_ex :
  map (to_fixed 1) [f_of_ratio 145 100; f_of_ratio 25 100; f_of_Z 12; f_of_ratio (-4) 100] = map js ["1.4"; "0.3"; "12.0"; "-0.0"].
Proof. by_compute. Qed.

(** ** Order *)

(** The place of a number in the order: by sign and kind, then by exponent,
    then by mantissa. *)
Definition f_key (x : f64) : Z * Z * Z :=
  match x with
  | S754_infinity true => (-2, 0, 0)
  | S754_finite true m e => (-1, - e, Zneg m)
  | S754_zero _ | S754_nan => (0, 0, 0)
  | S754_finite false m e => (1, e, Zpos m)
  | S754_infinity false => (2, 0, 0)
  end.
Definition key_lt (a b : Z * Z * Z) : Prop :=
  let '(a1, a2, a3) := a in let '(b1, b2, b3) := b in a1 < b1 ∨ a1 = b1 ∧ (a2 < b2 ∨ a2 = b2 ∧ a3 < b3).

Lemma fltb_key x y : is_nan x = false → is_nan y = false → fltb x y = true ↔ key_lt (f_key x) (f_key y).
Proof.
  intros Hx Hy. unfold fltb, SFltb.
  destruct x as [sx|sx| |sx mx ex], y as [sy|sy| |sy my ey]; try done; destruct sx, sy; cbn; try first [split; [done|lia] | split; [lia|done]].
  - destruct (Z.compare_spec ex ey) as [->|H|H]; cbn; [|split; [done|lia]|split; [lia|done]].
    change (Pos.compare_cont Eq mx my) with (Pos.compare mx my).
    destruct (Pos.compare_spec mx my); cbn; split; first [done | lia].
  - destruct (Z.compare_spec ex ey) as [->|H|H]; cbn; [|split; [lia|done]|split; [done|lia]].
    change (Pos.compare_cont Eq mx my) with (Pos.compare mx my).
    destruct (Pos.compare_spec mx my); cbn; split; first [done | lia].
Qed.

Definition num (x : f64) : Prop := is_nan x = false.

Lemma fltb_irrefl x : fltb x x = false.
Proof.
  destruct (is_nan x) eqn:E; [by destruct x|]. apply not_true_iff_false. rewrite fltb_key by done.
  destruct (f_key x) as [[a b] c]. cbn. lia.
Qed.

Lemma fltb_trans x y z : num y → fltb x y = true → fltb y z = true → fltb x z = true.
Proof.
  intros Hy H1 H2. assert (num x) by (by destruct x). assert (num z) by (by destruct z, y).
  rewrite fltb_key in * by done. destruct (f_key x) as [[a b] c], (f_key y) as [[a' b'] c'], (f_key z) as [[u v] w]. cbn in *. lia.
Qed.

(** [x <= y] of numbers is the negation of [y < x]. *)
Lemma flt_total x y : num x → num y → fltb x y = false → fltb y x = false → f_key x = f_key y.
Proof.
  intros Hx Hy H1 H2. apply not_true_iff_false in H1, H2. rewrite fltb_key in * by done.
  destruct (f_key x) as [[a b] c], (f_key y) as [[a' b'] c']. cbn in *. repeat f_equal; lia.
Qed.

Definition f_le (x y : f64) : Prop := fltb y x = false.

Lemma f_le_refl x : f_le x x.
Proof. apply fltb_irrefl. Qed.
Lemma f_le_trans x y z : num x → num y → num z → f_le x y → f_le y z → f_le x z.
Proof.
  unfold f_le. intros Hx Hy Hz H1%not_true_iff_false H2%not_true_iff_false. apply not_true_iff_false.
  rewrite fltb_key in * by done. destruct (f_key x) as [[a b] c], (f_key y) as [[a' b'] c'], (f_key z) as [[u v] w]. cbn in *. lia.
Qed.
Lemma f_lt_le x y : num x → num y → fltb x y = true → f_le x y.
Proof.
  unfold f_le. intros Hx Hy H. apply not_true_iff_false. rewrite fltb_key in * by done.
  destruct (f_key x) as [[a b] c], (f_key y) as [[a' b'] c']. cbn in *. lia.
Qed.

(** [Math.max] of numbers is one of them and no less than either. *)
Lemma fmax_spec x y : num x → num y → num (fmax x y) ∧ (fmax x y = x ∨ fmax x y = y) ∧ f_le x (fmax x y) ∧ f_le y (fmax x y).
Proof.
  intros Hx Hy. unfold fmax. rewrite Hx, Hy. cbn [orb].
  destruct (fltb x y) eqn:E1.
  { split; [done|]. split; [by right|]. split; [by apply f_lt_le|apply f_le_refl]. }
  destruct (fltb y x) eqn:E2.
  { split; [done|]. split; [by left|]. split; [apply f_le_refl|done]. }
  destruct x as [[]|?| |?]; try done; (split; [done|]; split; [by (left + right)|]; split; done || apply f_le_refl).
Qed.

Lemma fmax_all_spec l : Forall num l → l ≠ [] →
  fmax_all l ∈ l ∧ Forall (λ x, f_le x (fmax_all l)) l.
Proof.
  intros Hl Hne. assert (∀ a, num a → num (fold_left fmax l a) ∧ f_le a (fold_left fmax l a)
    ∧ Forall (λ x, f_le x (fold_left fmax l a)) l ∧ (fold_left fmax l a = a ∨ fold_left fmax l a ∈ l)) as H.
  { clear Hne. induction Hl as [|x l Hx Hl IH]; intros a Ha; cbn [fold_left].
    - split; [done|]. split; [apply f_le_refl|]. split; [constructor|by left].
    - destruct (fmax_spec a x Ha Hx) as (Hn & Hor & Hle & Hle'). destruct (IH (fmax a x) Hn) as (Hr & Hb & HF & Ho).
      split; [done|]. split; [by eapply f_le_trans, Hb|]. split; [constructor; [by eapply f_le_trans, Hb|done]|].
      rewrite elem_of_cons. destruct Ho as [->|Ho]; [|by right; right]. destruct Hor as [-> | ->]; [by left|by right; left]. }
  destruct (H (S754_infinity true) eq_refl) as (Hr & _ & HF & Ho). split; [|done].
  unfold fmax_all in *. destruct Ho as [E|Ho]; [|done]. rewrite E.
  (* all are minus infinity: the first is one of them *)
  destruct l as [|x l]; [done|]. apply Forall_inv in HF, Hl. rewrite E in HF. apply elem_of_cons. left.
  destruct x as [|[]| |[]]; try done.
Qed.

(** ** Exact results

    [dy m e] is [m * 2 ^ e] as a double.  While the numerator has at most 53
    bits nothing is rounded: sums and products of such numbers, their halves
    and their order are those of the numerators. *)

Definition dy (m e : Z) : f64 := binary_normalize 53 1024 m e false.

Lemma digits2_log2 p : Zpos (digits2_pos p) = Z.log2 (Zpos p) + 1.
Proof.
  induction p as [p IH|p IH|]; cbn [digits2_pos]; [| |done]; rewrite Pos2Z.inj_succ, IH.
  - rewrite Pos2Z.inj_xI. rewrite Z.log2_succ_double; lia.
  - rewrite Pos2Z.inj_xO. rewrite Z.log2_double; lia.
Qed.

Lemma log2_shift m k : 0 < m → 0 <= k → Z.log2 (m * 2 ^ k) = Z.log2 m + k.
Proof. intros. rewrite <- Z.log2_shiftl, Z.shiftl_mul_pow2 by lia. done. Qed.

Lemma iter_double m p : Zpos (Pos.iter xO m p) = Zpos m * 2 ^ Zpos p.
Proof.
  induction p as [|p IH] using Pos.peano_ind; [cbn; lia|]. rewrite Pos.iter_succ, Pos2Z.inj_xO, IH, Pos2Z.inj_succ, Z.pow_succ_r; lia.
Qed.

Lemma shl_align_spec m e k : 0 <= k → shl_align m e (e - k) = (Z.to_pos (Zpos m * 2 ^ k), e - k).
Proof.
  intros Hk. unfold shl_align. replace (e - k - e) with (- k) by lia. destruct k as [|p|p]; [|..|lia]; cbn [Z.opp].
  - rewrite Z.mul_1_r. f_equal. lia.
  - by rewrite <- iter_double.
Qed.

(** Shifting zeros out loses nothing. *)
Lemma shr_zeros p m : 0 < m → SpecFloat.iter_pos shr_1 p (Build_shr_record (m * 2 ^ Zpos p) false false) = Build_shr_record m false false.
Proof.
  assert (∀ m, 0 < m → shr_1 (Build_shr_record (m * 2) false false) = Build_shr_record m false false) as H1.
  { intros [|q|q] Hq; [lia| |lia]. rewrite Z.mul_comm. done. }
  revert m. induction p as [p IH|p IH|]; intros m Hm; cbn [SpecFloat.iter_pos].
  - replace (Zpos p~1) with (Zpos p + Zpos p + 1) by lia. rewrite !Z.pow_add_r by lia. change (2 ^ 1) with 2.
    replace (m * (2 ^ Zpos p * 2 ^ Zpos p * 2)) with (m * 2 ^ Zpos p * 2 ^ Zpos p * 2) by ring.
    rewrite H1, !IH; [done|lia..].
  - replace (Zpos p~0) with (Zpos p + Zpos p) by lia. rewrite !Z.pow_add_r by lia.
    replace (m * (2 ^ Zpos p * 2 ^ Zpos p)) with (m * 2 ^ Zpos p * 2 ^ Zpos p) by ring.
    rewrite !IH; [done|lia..].
  - change (2 ^ 1) with 2. by apply H1.
Qed.

(** Rounding a numerator that has no more than 53 bits and zeros. *)
Lemma round_exact m e n : Z.log2 (Zpos m) = 52 → 0 <= n → -1074 <= e <= 971 →
  binary_round_aux 53 1024 false (Zpos m * 2 ^ n) (e - n) loc_Exact = S754_finite false m e.
Proof.
  intros Hm Hn He. assert (Zdigits2 (Zpos m * 2 ^ n) = 53 + n) as Hd.
  { assert (0 < Zpos m * 2 ^ n) as Hp by lia. pose proof (log2_shift (Zpos m) n ltac:(lia) Hn) as L.
    destruct (Zpos m * 2 ^ n) as [|q|q]; [lia| |lia]. cbn [Zdigits2]. rewrite digits2_log2, L. lia. }
  assert (fexp 53 1024 (53 + n + (e - n)) - (e - n) = n) as Hf by (unfold fexp, emin; lia).
  assert (fexp 53 1024 (52 + 1 + e) - e = 0) as Hf0 by (unfold fexp, emin; lia).
  assert (shr_fexp 53 1024 (Zpos m) e loc_Exact = (Build_shr_record (Zpos m) false false, e)) as E2.
  { unfold shr_fexp. cbn [Zdigits2]. rewrite digits2_log2, Hm, Hf0. done. }
  assert (shr_fexp 53 1024 (Zpos m * 2 ^ n) (e - n) loc_Exact = (Build_shr_record (Zpos m) false false, e)) as E1.
  { unfold shr_fexp. rewrite Hd, Hf. destruct n as [|p|p]; [|..|lia]; cbn [shr shr_record_of_loc].
    - rewrite Z.mul_1_r. f_equal. lia.
    - rewrite shr_zeros by lia. f_equal. lia. }
  unfold binary_round_aux. rewrite E1. cbn [shr_m loc_of_shr_record round_nearest_even]. rewrite E2. cbn [shr_m].
  destruct (Z.leb_spec e (1024 - 53)); [done|lia].
Qed.

(** The normal form: a numerator of exactly 53 bits. *)
Definition norm (m : positive) : positive := Z.to_pos (Zpos m * 2 ^ (52 - Z.log2 (Zpos m))).
Lemma norm_spec m : Z.log2 (Zpos m) <= 52 → Zpos (norm m) = Zpos m * 2 ^ (52 - Z.log2 (Zpos m)) ∧ Z.log2 (Zpos (norm m)) = 52.
Proof.
  intros H. unfold norm. rewrite Z2Pos.id by (apply Z.mul_pos_pos; [lia|apply Z.pow_pos_nonneg; lia]). split; [done|].
  rewrite log2_shift; lia.
Qed.

Lemma dy_scale m j e : Z.log2 (Zpos m) <= 52 → 0 <= j → -1000 <= e <= 900 → e + j <= 900 →
  dy (Zpos m * 2 ^ j) e = S754_finite false (norm m) (e + j - (52 - Z.log2 (Zpos m))).
Proof.
  intros Hm Hj He Hej. destruct (norm_spec m Hm) as [En Ln]. set (l := Z.log2 (Zpos m)) in *.
  assert (0 <= l) as Hl by apply Z.log2_nonneg.
  assert (0 < Zpos m * 2 ^ j) as Hp by lia. pose proof (log2_shift (Zpos m) j ltac:(lia) Hj) as L. fold l in L.
  unfold dy, binary_normalize. destruct (Zpos m * 2 ^ j) as [|q|q] eqn:Eq; [lia| |lia]. unfold binary_round.
  rewrite digits2_log2, L.
  assert (fexp 53 1024 (l + j + 1 + e) = e - (52 - l - j)) as -> by (unfold fexp, emin; lia).
  destruct (Z.leb_spec 0 (52 - l - j)) as [Hk|Hk].
  - rewrite shl_align_spec by done. rewrite <- Eq, <- Z.mul_assoc, <- Z.pow_add_r by lia.
    replace (j + (52 - l - j)) with (52 - l) by lia. rewrite <- En, Pos2Z.id.
    replace (Zpos (norm m)) with (Zpos (norm m) * 2 ^ 0) by lia.
    replace (e - (52 - l - j)) with (e + j - (52 - l) - 0) by lia. apply round_exact; lia.
  - unfold shl_align. replace (e - (52 - l - j) - e) with (j - (52 - l)) by lia.
    destruct (j - (52 - l)) as [|p|p] eqn:Ep; [lia| |lia]. rewrite <- Eq.
    replace (Zpos m * 2 ^ j) with (Zpos (norm m) * 2 ^ (j - (52 - l))) by (rewrite En, <- Z.mul_assoc, <- Z.pow_add_r by lia; do 2 f_equal; lia).
    replace e with (e + j - (52 - l) - (j - (52 - l))) at 1 by lia. apply round_exact; lia.
Qed.

Definition mid (e : Z) : Prop := -900 <= e <= 900.
Lemma log2_53 m : m < 2 ^ 53 → Z.log2 m <= 52.
Proof.
  intros H. destruct (Z.le_gt_cases m 0); [rewrite Z.log2_nonpos by done; lia|].
  assert (Z.log2 m < 53); [by apply Z.log2_lt_pow2|lia].
Qed.

Lemma dy_pos m e : Zpos m < 2 ^ 53 → mid e → dy (Zpos m) e = S754_finite false (norm m) (e - (52 - Z.log2 (Zpos m))).
Proof.
  unfold mid. intros Hm%log2_53 He. pose proof (dy_scale m 0 e Hm) as H. rewrite Z.mul_1_r in H. rewrite H by lia. f_equal. lia.
Qed.

Lemma dy_shift m j e : 0 <= m < 2 ^ 53 → 0 <= j → mid e → mid (e + j) → dy (m * 2 ^ j) e = dy m (e + j).
Proof.
  unfold mid. intros [H0 Hm] Hj He Hej. destruct m as [|m|m]; [done| |lia].
  rewrite dy_scale by (try apply log2_53; lia). by rewrite dy_pos.
Qed.

(** Two normal forms at a common exponent. *)
Lemma shl_norm m e ez : Z.log2 (Zpos m) <= 52 → ez <= e - (52 - Z.log2 (Zpos m)) →
  Zpos (fst (shl_align (norm m) (e - (52 - Z.log2 (Zpos m))) ez)) = Zpos m * 2 ^ (e - ez).
Proof.
  intros Lm Hz. replace ez with (e - (52 - Z.log2 (Zpos m)) - (e - (52 - Z.log2 (Zpos m)) - ez)) at 1 by lia.
  rewrite shl_align_spec by lia. cbn [fst]. destruct (norm_spec m Lm) as [-> _].
  rewrite Z2Pos.id, <- Z.mul_assoc, <- Z.pow_add_r; [do 2 f_equal; lia|lia|lia|].
  apply Z.mul_pos_pos; [|apply Z.pow_pos_nonneg; lia]. apply Z.mul_pos_pos; [lia|apply Z.pow_pos_nonneg; lia].
Qed.

Lemma dy_add a b e : 0 <= a → 0 <= b → a + b < 2 ^ 53 → mid e → fadd (dy a e) (dy b e) = dy (a + b) e.
Proof.
  intros Ha Hb Hab He. destruct a as [|a|a], b as [|b|b]; try done; try lia.
  - rewrite Z.add_0_l, dy_pos by (done || lia). done.
  - rewrite Z.add_0_r, dy_pos by (done || lia). done.
  - rewrite (dy_pos a), (dy_pos b) by (done || lia). unfold fadd, SFadd.
    assert (Z.log2 (Zpos a) <= 52 ∧ Z.log2 (Zpos b) <= 52) as [La Lb] by (split; apply log2_53; lia).
    pose proof (Z.log2_nonneg (Zpos a)). pose proof (Z.log2_nonneg (Zpos b)). set (ez := Z.min _ _).
    rewrite !shl_norm by lia. cbn [cond_Zopp]. rewrite <- Z.mul_add_distr_r.
    change (dy ((Zpos a + Zpos b) * 2 ^ (e - ez)) ez = dy (Zpos a + Zpos b) e). unfold mid in *.
    change (Zpos a + Zpos b) with (Zpos (a + b)) in *. rewrite dy_scale; [|apply log2_53; lia|lia..].
    rewrite dy_pos by (done || lia). f_equal. lia.
Qed.

Lemma dy_sub a b e : 0 <= b <= a → a < 2 ^ 53 → mid e → fsub (dy a e) (dy b e) = dy (a - b) e.
Proof.
  intros [Hb Hba] Ha He. destruct b as [|b|b]; [|..|lia].
  { rewrite Z.sub_0_r. destruct a as [|a|a]; [done| |lia]. by rewrite dy_pos. }
  destruct a as [|a|a]; [lia| |lia]. rewrite (dy_pos a), (dy_pos b) by (done || lia). unfold fsub, SFsub.
  assert (Z.log2 (Zpos a) <= 52 ∧ Z.log2 (Zpos b) <= 52) as [La Lb] by (split; apply log2_53; lia).
  pose proof (Z.log2_nonneg (Zpos a)). pose proof (Z.log2_nonneg (Zpos b)). set (ez := Z.min _ _).
  rewrite !shl_norm by lia. cbn [cond_Zopp]. rewrite <- Z.mul_sub_distr_r.
  change (dy ((Zpos a - Zpos b) * 2 ^ (e - ez)) ez = dy (Zpos a - Zpos b) e). unfold mid in *.
  destruct (Zpos a - Zpos b) as [|d|d] eqn:E; [done| |lia]. rewrite dy_scale; [|apply log2_53; lia|lia..].
  rewrite dy_pos by (done || lia). f_equal. lia.
Qed.

Lemma norm_le a b : Z.log2 (Zpos a) = Z.log2 (Zpos b) → Z.log2 (Zpos a) <= 52 →
  Pos.compare (norm a) (norm b) = Pos.compare a b.
Proof.
  intros E H. pose proof (norm_spec a H) as [Ea _]. pose proof (norm_spec b ltac:(lia)) as [Eb _]. rewrite E in Ea.
  assert (0 < 2 ^ (52 - Z.log2 (Zpos b))) by (apply Z.pow_pos_nonneg; lia).
  destruct (Pos.compare_spec a b) as [->|C|C]; [apply Pos.compare_refl|apply Pos.compare_lt_iff|apply Pos.compare_gt_iff]; nia.
Qed.

Lemma dy_le a b e : 0 <= a < 2 ^ 53 → 0 <= b < 2 ^ 53 → mid e → fleb (dy a e) (dy b e) = (a <=? b).
Proof.
  intros [Ha La] [Hb Lb] He. destruct a as [|a|a], b as [|b|b]; try done; try lia.
  - by rewrite dy_pos.
  - by rewrite dy_pos.
  - rewrite (dy_pos a), (dy_pos b) by done. apply log2_53 in La, Lb. unfold fleb, SFleb, SFcompare.
    change (Pos.compare_cont Eq (norm a) (norm b)) with (Pos.compare (norm a) (norm b)).
    destruct (Z.compare_spec (e - (52 - Z.log2 (Zpos a))) (e - (52 - Z.log2 (Zpos b)))) as [C|C|C].
    + rewrite norm_le by lia. unfold Z.leb. cbn [Z.compare]. by destruct (Pos.compare a b).
    + symmetry. apply Z.leb_le. apply Z.lt_le_incl, Z.log2_lt_cancel. lia.
    + symmetry. apply Z.leb_gt. apply Z.log2_lt_cancel. lia.
Qed.

Lemma dy_mul a b e e' : 0 < a → 0 < b → a * b < 2 ^ 53 → mid e → mid e' → mid (e + e') → fmul (dy a e) (dy b e') = dy (a * b) (e + e').
Proof.
  unfold mid. intros Ha Hb Hab He He' Hee. destruct a as [|a|a], b as [|b|b]; try done; try lia.
  assert (Zpos a < 2 ^ 53 ∧ Zpos b < 2 ^ 53) as [La Lb] by nia.
  rewrite (dy_pos a), (dy_pos b) by (done || lia). change (Zpos a * Zpos b) with (Zpos (a * b)) in *. rewrite dy_pos by (done || lia).
  apply log2_53 in La, Lb. pose proof (log2_53 _ Hab) as Lab. unfold fmul, SFmul. cbn [xorb].
  destruct (norm_spec a La) as [Ea _], (norm_spec b Lb) as [Eb _], (norm_spec (a * b) Lab) as [Eab Lab'].
  pose proof (Z.log2_nonneg (Zpos a)). pose proof (Z.log2_nonneg (Zpos b)). pose proof (Z.log2_nonneg (Zpos (a * b))).
  pose proof (Z.log2_mul_below (Zpos a) (Zpos b) ltac:(lia) ltac:(lia)) as M. change (Zpos a * Zpos b) with (Zpos (a * b)) in M.
  set (n := 52 - Z.log2 (Zpos a) + (52 - Z.log2 (Zpos b)) - (52 - Z.log2 (Zpos (a * b)))).
  pose proof (Z.log2_mul_above (Zpos a) (Zpos b) ltac:(lia) ltac:(lia)) as M'. change (Zpos a * Zpos b) with (Zpos (a * b)) in M'.
  assert (0 <= n) as Hn by lia.
  replace (Zpos (norm a * norm b)) with (Zpos (norm (a * b)) * 2 ^ n).
  2: { rewrite Pos2Z.inj_mul, Ea, Eb, Eab, <- Z.mul_assoc, <- Z.pow_add_r by lia.
       replace (52 - Z.log2 (Zpos (a * b)) + n) with (52 - Z.log2 (Zpos a) + (52 - Z.log2 (Zpos b))) by lia.
       rewrite Z.pow_add_r, Pos2Z.inj_mul by lia. ring. }
  replace (e - (52 - Z.log2 (Zpos a)) + (e' - (52 - Z.log2 (Zpos b)))) with (e + e' - (52 - Z.log2 (Zpos (a * b))) - n) by lia.
  apply round_exact; lia.
Qed.

Lemma dy_half a e : 0 <= a < 2 ^ 53 → mid e → fdiv (dy a e) (f_of_Z 2) = dy a (e - 1).
Proof.
  unfold mid. intros [Ha La] He. destruct a as [|a|a]; [done| |lia]. 
  rewrite dy_pos by done. pose proof (log2_53 _ La) as L. unfold dy. pose proof (dy_scale a 0 (e - 1) L ltac:(lia) ltac:(lia) ltac:(lia)) as E.
  unfold dy in E. rewrite Z.mul_1_r in E. rewrite E. change (f_of_Z 2) with (S754_finite false (2 ^ 52)%positive (-51)).
  destruct (norm_spec a L) as [_ En]. pose proof (Z.log2_nonneg (Zpos a)). set (e1 := e - (52 - Z.log2 (Zpos a))).
  unfold fdiv, SFdiv, SFdiv_core_binary. cbn [Zdigits2 xorb]. rewrite !digits2_log2, En.
  assert (Z.min (fexp 53 1024 (52 + 1 + e1 - (Z.log2 (Zpos (2 ^ 52)) + 1 + -51))) (e1 - -51) = e1 - 2) as ->.
  { change (Z.log2 (Zpos (2 ^ 52))) with 52. unfold fexp, emin. lia. }
  replace (e1 - -51 - (e1 - 2)) with 53 by lia. cbv iota. rewrite Z.shiftl_mul_pow2 by lia.
  assert (Z.div_eucl (Zpos (norm a) * 2 ^ 53) (Zpos (2 ^ 52)) = (Zpos (norm a) * 2 ^ 1, 0)) as ->.
  { change (Zpos (2 ^ 52)) with (2 ^ 52). replace (Zpos (norm a) * 2 ^ 53) with (Zpos (norm a) * 2 ^ 1 * 2 ^ 52) by (change (2 ^ 53) with (2 ^ 1 * 2 ^ 52); ring).
    pose proof (Z.div_mul (Zpos (norm a) * 2 ^ 1) (2 ^ 52) ltac:(lia)) as D. pose proof (Z_mod_mult (Zpos (norm a) * 2 ^ 1) (2 ^ 52)) as M.
    unfold Z.div, Z.modulo in D, M. destruct (Z.div_eucl _ _) as [q r]. by subst. }
  change (new_location (Zpos (2 ^ 52)) 0) with loc_Exact. replace (e1 - 2) with (e1 - 1 - 1) by lia.
  rewrite round_exact by lia. f_equal. lia.
Qed.
