(* ===== verification/Html.v ===== *)
(** * Escaping for HTML

    [esc] of [web/app.js] and [mdEscape] of [web/md.js], and what they buy: a
    tokenizer of HTML that has read markup with escaped values in it is in a
    state that does not depend on the values. *)

From Stdlib Require Import Ascii String ZArith NArith Lia.
From stdpp Require Import base list strings numbers.
From S2P Require Import Prelude JsString Regex.

Local Open Scope N_scope.

(** ** The two functions *)

(** The class of [esc] (ampersand, angle brackets, both quotes) and its table. *)
Definition esc_class : N → bool := cls_or (cls_of "&<>'") (N.eqb 34).
Definition esc_entity (c : N) : jstr :=
  if c =? ch "&" then js "&amp;"
  else if c =? ch "<" then js "&lt;"
  else if c =? ch ">" then js "&gt;"
  else if c =? 34 then js "&quot;"
  else js "&#39;".

(** [esc]: [None] is [null] or [undefined]. *)
Definition esc (s : option jstr) : jstr :=
  replace_all (RCls esc_class) (λ m, flat_map esc_entity (r_hit m)) (default [] s).

(** [mdEscape]: three passes, the ampersands first. *)
Definition md_escape (s : jstr) : jstr :=
  replace_all (RCls (cls_of ">")) (λ _, js "&gt;")
    (replace_all (RCls (cls_of "<")) (λ _, js "&lt;")
       (replace_all (RCls (cls_of "&")) (λ _, js "&amp;") s)).

Example esc_ex : esc (Some (jq "<a href=`x'&`>")) = js "&lt;a href=&quot;x&#39;&amp;&quot;&gt;".
Proof. by_compute. Qed.

(** ** Replacing single units *)

Lemma rfind_cls_cons p bol c s :
  rfind (RCls p) bol (c :: s) =
    if p c then Some (RMat [] [c] [] s)
    else match rfind (RCls p) false s with
         | Some f => Some (RMat (c :: r_pre f) (r_hit f) (r_caps f) (r_post f))
         | None => None
         end.
Proof.
  cbn [rfind]. unfold rat. cbn [rexec m_rest m_caps]. destruct (p c); [|done].
  cbn [m_rest m_caps]. change (c :: s) with ([c] ++ s). by rewrite consumed_app.
Qed.

Lemma rfind_cls_bol p b b' s : rfind (RCls p) b s = rfind (RCls p) b' s.
Proof. destruct s; [done|]. by rewrite !rfind_cls_cons. Qed.

(** A replacement of the units of a class is a map over the units. *)
Lemma replace_all_cls p f s :
  replace_all (RCls p) (λ m, f (r_hit m)) s =
  flat_map (λ c, if p c then f [c] else [c]) s.
Proof.
  unfold replace_all, re_scan.
  assert (∀ n b, (length s < n)%nat →
    (let '(l, e) := rscan n (RCls p) b s in
     concat (map (λ m, r_pre m ++ f (r_hit m)) l) ++ e)
    = flat_map (λ c, if p c then f [c] else [c]) s) as H; [|apply H; lia].
  induction s as [|c s IH]; intros n b Hn; (destruct n as [|n]; [lia|]); [done|].
  cbn [rscan flat_map]. rewrite rfind_cls_cons. destruct (p c).
  - cbn [r_hit r_post]. specialize (IH n false ltac:(cbn in Hn; lia)).
    destruct (rscan n (RCls p) false s) as [ms e]. cbn in *. by rewrite <- IH, app_assoc.
  - specialize (IH (S n) false ltac:(cbn in Hn; lia)). cbn [rscan] in IH. rewrite <- IH.
    destruct (rfind (RCls p) false s) as [g|]; [|done]. cbn [r_hit r_post r_pre].
    destruct (r_hit g) eqn:E; [done|].
    destruct (rscan n (RCls p) false (r_post g)) as [ms e]. cbn.
    by rewrite E.
Qed.

(** What one unit becomes. *)
Definition esc_char (c : N) : jstr := if esc_class c then esc_entity c else [c].
Definition md_escape_char (c : N) : jstr :=
  if c =? ch "&" then js "&amp;"
  else if c =? ch "<" then js "&lt;"
  else if c =? ch ">" then js "&gt;"
  else [c].

Lemma esc_flat s : esc s = flat_map esc_char (default [] s).
Proof.
  unfold esc. rewrite (replace_all_cls _ (flat_map esc_entity)). apply flat_map_ext.
  intros c. unfold esc_char. case_match; [|done]. cbn. by rewrite app_nil_r.
Qed.

Lemma flat_map_flat_map {A B C} (f : A → list B) (g : B → list C) l :
  flat_map g (flat_map f l) = flat_map (λ x, flat_map g (f x)) l.
Proof. induction l as [|x l IH]; [done|]. cbn. by rewrite flat_map_app, IH. Qed.

(** The three passes of [mdEscape] are one: no pass touches what an earlier
    one wrote. *)
Lemma md_escape_flat s : md_escape s = flat_map md_escape_char s.
Proof.
  unfold md_escape.
  rewrite (replace_all_cls _ (λ _, js "&amp;")), (replace_all_cls _ (λ _, js "&lt;")),
    (replace_all_cls _ (λ _, js "&gt;")), !flat_map_flat_map.
  apply flat_map_ext. intros c. unfold cls_of, md_escape_char. cbn [existsb js].
  change (js "&") with [ch "&"]. change (js "<") with [ch "<"]. change (js ">") with [ch ">"].
  cbn [existsb]. rewrite !orb_false_r.
  destruct (N.eqb_spec c (ch "&")) as [->|]; [done|]. cbn [flat_map].
  rewrite orb_false_r.
  destruct (N.eqb_spec c (ch "<")) as [->|]; [done|]. cbn [flat_map app].
  rewrite orb_false_r. destruct (N.eqb_spec c (ch ">")) as [->|]; done.
Qed.

(** ** Reading escaped text back

    [html_text] is how an HTML parser reads character data: the named and
    numeric references [esc] writes stand for one character each, any other
    ampersand for itself. *)
Fixpoint html_text (fuel : nat) (s : jstr) : jstr :=
  match fuel, s with
  | O, _ | _, [] => []
  | S n, c :: t =>
      if starts_with (js "&amp;") s then ch "&" :: html_text n (drop 5 s)
      else if starts_with (js "&lt;") s then ch "<" :: html_text n (drop 4 s)
      else if starts_with (js "&gt;") s then ch ">" :: html_text n (drop 4 s)
      else if starts_with (js "&quot;") s then 34 :: html_text n (drop 6 s)
      else if starts_with (js "&#39;") s then ch "'" :: html_text n (drop 5 s)
      else c :: html_text n t
  end.
Definition html_decode (s : jstr) : jstr := html_text (length s) s.

Lemma starts_with_js_cons a (w s : jstr) c : a ≠ c → starts_with (a :: w) (c :: s) = false.
Proof. intros. cbn. destruct (N.eqb_spec a c); [congruence|done]. Qed.

Lemma html_text_plain n c s : c ≠ ch "&" → html_text (S n) (c :: s) = c :: html_text n s.
Proof.
  intros Hc. cbn [html_text].
  change (js "&amp;") with (ch "&" :: js "amp;"). change (js "&lt;") with (ch "&" :: js "lt;").
  change (js "&gt;") with (ch "&" :: js "gt;"). change (js "&quot;") with (ch "&" :: js "quot;").
  change (js "&#39;") with (ch "&" :: js "#39;").
  rewrite !starts_with_js_cons; done.
Qed.

(** [esc_class] by cases. *)
Lemma esc_class_spec c :
  esc_class c = true ↔ c = ch "&" ∨ c = ch "<" ∨ c = ch ">" ∨ c = ch "'" ∨ c = 34.
Proof.
  unfold esc_class, cls_or, cls_of. change (js "&<>'") with [ch "&"; ch "<"; ch ">"; ch "'"].
  cbn [existsb].
  rewrite orb_false_r, !orb_true_iff, !N.eqb_eq. intuition congruence.
Qed.

Lemma esc_char_length c : (1 <= length (esc_char c))%nat.
Proof.
  unfold esc_char. destruct (esc_class c) eqn:E; [|cbn; lia].
  apply esc_class_spec in E as [-> | [-> | [-> | [-> | ->]]]];
    apply Nat.leb_le; reflexivity.
Qed.

Lemma html_text_esc_char n c t :
  (length (esc_char c) <= n)%nat →
  ∃ k, (n - length (esc_char c) <= k)%nat ∧ html_text n (esc_char c ++ t) = c :: html_text k t.
Proof.
  intros Hn. pose proof (esc_char_length c) as Hl. destruct n as [|n]; [lia|].
  exists n. split; [lia|]. clear Hn Hl. unfold esc_char. destruct (esc_class c) eqn:E.
  - by apply esc_class_spec in E as [-> | [-> | [-> | [-> | ->]]]].
  - apply html_text_plain. by intros ->.
Qed.

(** With enough fuel, the result does not depend on it. *)
Lemma html_text_fuel n k s :
  (length s <= n)%nat → (length s <= k)%nat → html_text n s = html_text k s.
Proof.
  revert k s. induction n as [|n IH]; intros k s Hn Hk.
  { destruct s; [by destruct k|cbn in Hn; lia]. }
  destruct s as [|c t]; [by destruct k|]. destruct k as [|k]; [cbn in Hk; lia|].
  cbn [html_text].
  repeat (case_match; [f_equal; apply IH; rewrite ?length_drop; cbn [length] in *; lia|]).
  f_equal. apply IH; cbn [length] in *; lia.
Qed.

Lemma html_decode_esc_app s t : html_decode (esc s ++ t) = default [] s ++ html_decode t.
Proof.
  rewrite esc_flat. unfold html_decode. induction (default [] s) as [|c w IH]; [done|].
  cbn [flat_map]. rewrite <- app_assoc.
  set (r := flat_map esc_char w ++ t) in *.
  destruct (html_text_esc_char (length (esc_char c ++ r)) c r) as (k & Hk & ->).
  { rewrite length_app. lia. }
  cbn [app]. rewrite <- IH. f_equal. apply html_text_fuel; [|lia].
  rewrite length_app in Hk. lia.
Qed.

(** ** An HTML tokenizer's state *)

(** Where a tokenizer stands: in character data, inside a tag, or inside an
    attribute value in double or single quotes. *)
Inductive hstate : Type := HText | HTag | HDq | HSq.
#[export] Instance hstate_eq_dec : EqDecision hstate.
Proof. solve_decision. Defined.

Definition hstep (st : hstate) (c : N) : hstate :=
  match st with
  | HText => if c =? ch "<" then HTag else HText
  | HTag => if c =? ch ">" then HText else if c =? 34 then HDq else if c =? ch "'" then HSq else HTag
  | HDq => if c =? 34 then HTag else HDq
  | HSq => if c =? ch "'" then HTag else HSq
  end.
Definition hrun (st : hstate) (s : jstr) : hstate := fold_left hstep s st.

(** The markup of a string: the units that belong to tags, not to character
    data or attribute values. *)
Fixpoint hskel (st : hstate) (s : jstr) : jstr :=
  match s with
  | [] => []
  | c :: t =>
      match st, hstep st c with
      | HText, HText | HDq, HDq | HSq, HSq => hskel (hstep st c) t
      | _, _ => c :: hskel (hstep st c) t
      end
  end.

Lemma hskel_app st a b : hskel st (a ++ b) = hskel st a ++ hskel (hrun st a) b.
Proof.
  revert st. induction a as [|c a IH]; intros st; [done|]. cbn [app hskel]. rewrite IH.
  unfold hrun. cbn [fold_left]. by destruct st, (hstep _ c).
Qed.

Lemma hrun_app st a b : hrun st (a ++ b) = hrun (hrun st a) b.
Proof. apply fold_left_app. Qed.

(** A string without the five units leaves text and values where they are. *)
Lemma hrun_inert st s :
  st ≠ HTag → Forall (λ c, c ≠ ch "<" ∧ c ≠ 34 ∧ c ≠ ch "'") s →
  hrun st s = st ∧ hskel st s = [].
Proof.
  intros Hst Hs. induction Hs as [|c s (H1 & H2 & H3) Hs [IH1 IH2]]; [done|].
  assert (hstep st c = st) as E.
  { unfold hstep. apply N.eqb_neq in H1, H2, H3. destruct st; rewrite ?H1, ?H2, ?H3; congruence. }
  unfold hrun in *. cbn [fold_left hskel]. rewrite E. split; [done|].
  destruct st; rewrite ?E; congruence.
Qed.

Lemma esc_inert s : Forall (λ c, c ≠ ch "<" ∧ c ≠ 34 ∧ c ≠ ch "'") (esc s).
Proof.
  rewrite esc_flat. induction (default [] s) as [|c t IH]; [constructor|].
  cbn. apply Forall_app. split; [|done]. unfold esc_char. destruct (esc_class c) eqn:E.
  - apply esc_class_spec in E as [-> | [-> | [-> | [-> | ->]]]];
      vm_compute; repeat constructor; discriminate.
  - constructor; [|constructor]. split_and!; by intros ->.
Qed.

Lemma hrun_esc st s : st ≠ HTag → hrun st (esc s) = st.
Proof. intros. by apply hrun_inert, esc_inert. Qed.
Lemma hskel_esc st s : st ≠ HTag → hskel st (esc s) = [].
Proof. intros. by apply hrun_inert, esc_inert. Qed.

(** Two pieces of HTML with the same markup: a tokenizer walks both through
    the same tags and ends in the same state. *)
Definition same_markup (a b : jstr) : Prop :=
  hskel HText a = hskel HText b ∧ hrun HText a = hrun HText b.

(** ** Templates

    A template literal of the sources is a list of pieces: its own text, and
    the values put into it. *)
Inductive piece : Type := Lit (s : jstr) | Val (s : jstr).
Definition piece_text (p : piece) : jstr := match p with Lit s | Val s => s end.
Definition tpl (l : list piece) : jstr := concat (map piece_text l).

(** No value of the template is put inside a tag. *)
Fixpoint slots_ok (st : hstate) (l : list piece) : bool :=
  match l with
  | [] => true
  | Lit s :: l => slots_ok (hrun st s) l
  | Val _ :: l => match st with HTag => false | _ => slots_ok st l end
  end.

Definition inert (s : jstr) : Prop := Forall (λ c, c ≠ ch "<" ∧ c ≠ 34 ∧ c ≠ ch "'") s.

(** The same template with other, inert, values. *)
Inductive same_piece : piece → piece → Prop :=
  | same_lit s : same_piece (Lit s) (Lit s)
  | same_val s s' : inert s → inert s' → same_piece (Val s) (Val s').

Lemma tpl_same st l l' :
  Forall2 same_piece l l' → slots_ok st l = true →
  hskel st (tpl l) = hskel st (tpl l') ∧ hrun st (tpl l) = hrun st (tpl l').
Proof.
  intros Hl. revert st. induction Hl as [|x y l l' Hx Hl IH]; intros st Hs; [done|].
  unfold tpl in *. cbn [map concat]. rewrite !hskel_app, !hrun_app.
  destruct Hx as [s|s s' Hi Hi']; cbn [piece_text slots_ok] in *.
  - destruct (IH _ Hs) as [-> ->]. done.
  - assert (st ≠ HTag) as Hst by (by intros ->).
    destruct (hrun_inert st s Hst Hi) as [-> ->], (hrun_inert st s' Hst Hi') as [-> ->].
    apply IH. by destruct st.
Qed.

(** A template that ends where it began, outside of every tag, and whose
    values are inert: whatever the values are, its tags are its own. *)
Definition val_inert (p : piece) : Prop := match p with Lit _ => True | Val s => inert s end.
Definition blank (p : piece) : piece := match p with Lit s => Lit s | Val _ => Val [] end.
Fixpoint tpl_end (st : hstate) (l : list piece) : option hstate :=
  match l with
  | [] => Some st
  | Lit s :: l => tpl_end (hrun st s) l
  | Val _ :: l => match st with HTag => None | _ => tpl_end st l end
  end.
Definition contained (l : list piece) : Prop := tpl_end HText l = Some HText ∧ Forall val_inert l.

Lemma tpl_end_app st l l' : tpl_end st (l ++ l') = tpl_end st l ≫= λ st', tpl_end st' l'.
Proof. revert st. induction l as [|[s|s] l IH]; intros st; [done| |]; cbn; [|destruct st; [|done| |]]; apply IH. Qed.

Lemma tpl_end_blank st l : tpl_end st l = tpl_end st (map blank l).
Proof. revert st. induction l as [|[s|s] l IH]; intros st; [done| |]; cbn; [|destruct st; [|done| |]]; apply IH. Qed.

Lemma tpl_end_slots st l st' : tpl_end st l = Some st' → slots_ok st l = true.
Proof. revert st. induction l as [|[s|s] l IH]; intros st; [done| |]; cbn; [|destruct st; [|done| |]]; apply IH. Qed.

Lemma contained_nil : contained [].
Proof. by split. Qed.

Lemma contained_app l l' : contained l → contained l' → contained (l ++ l').
Proof. intros [H1 H2] [H3 H4]. split; [by rewrite tpl_end_app, H1|by apply list.Forall_app]. Qed.

Lemma contained_concat ls : Forall contained ls → contained (concat ls).
Proof. induction 1; [apply contained_nil|by apply contained_app]. Qed.

Lemma map_contained {A} (f : A → list piece) l : (∀ x, contained (f x)) → Forall contained (map f l).
Proof. intros H. induction l as [|x l IH]; constructor; [apply H|done]. Qed.

Lemma contained_if (b : bool) l l' : contained l → contained l' → contained (if b then l else l').
Proof. by destruct b. Qed.

Lemma contained_markup l : contained l → same_markup (tpl l) (tpl (map blank l)) ∧ hrun HText (tpl l) = HText.
Proof.
  intros [H Hi]. assert (Forall2 same_piece l (map blank l)) as F.
  { clear H. induction Hi as [|[s|s] l Hs _ IH]; cbn; constructor; try done; constructor; [done|constructor]. }
  split; [apply (tpl_same HText _ _ F); by eapply tpl_end_slots|].
  revert H Hi. generalize HText at 1 3. clear. unfold tpl. induction l as [|[s|s] l IH]; intros st H Hi; cbn [map concat piece_text] in *.
  - by injection H.
  - apply list.Forall_cons in Hi as [_ Hi]. rewrite hrun_app. by apply IH.
  - apply list.Forall_cons in Hi as [Hs Hi]. cbn in H. assert (st ≠ HTag) as Hst by (by intros ->).
    rewrite hrun_app. destruct (hrun_inert st s Hst Hs) as [-> _]. apply IH; [by destruct st|done].
Qed.

(** [${esc(s)}]. *)
Definition ev (s : jstr) : piece := Val (esc (Some s)).

(** [l.join(sep)] for a separator that is a text of the sources. *)
Fixpoint join_tpl (sep : jstr) (ls : list (list piece)) : list piece :=
  match ls with
  | [] => []
  | [l] => l
  | l :: ls => l ++ Lit sep :: join_tpl sep ls
  end.

Lemma join_contained sep ls : hrun HText sep = HText → Forall contained ls → contained (join_tpl sep ls).
Proof.
  intros Hs. induction 1 as [|l ls Hl Hls IH]; [apply contained_nil|]. destruct ls as [|l' ls]; [done|].
  change (join_tpl sep (l :: l' :: ls)) with (l ++ [Lit sep] ++ join_tpl sep (l' :: ls)).
  apply contained_app; [done|]. apply contained_app; [|done]. split; [by cbn; rewrite Hs|repeat constructor].
Qed.

#[export] Hint Resolve contained_nil contained_app contained_if : contained.

Lemma contained_cons_lit s l : hrun HText s = HText → contained l → contained (Lit s :: l).
Proof. intros Hs [H1 H2]. split; [by cbn; rewrite Hs|by constructor]. Qed.

Lemma contained_cons_val s l : inert s → contained l → contained (Val s :: l).
Proof. intros Hs [H1 H2]. split; [done|by constructor]. Qed.

Lemma inert_js_of_N n : inert (js_of_N n).
Proof.
  apply (list.Forall_impl _ _ _ (js_of_N_digits n)). intros c Hc. unfold is_digit in Hc. boolify.
  repeat split; intros ->; vm_compute in *; congruence.
Qed.
Lemma inert_js_of_Z z : inert (js_of_Z z).
Proof.
  unfold js_of_Z. destruct (z <? 0)%Z; [|apply inert_js_of_N]. apply list.Forall_cons. split; [|apply inert_js_of_N].
  by vm_compute.
Qed.
#[export] Hint Resolve contained_cons_val esc_inert inert_js_of_Z : contained.

Lemma inert_js_of_nat n : inert (js_of_nat n).
Proof. apply inert_js_of_Z. Qed.

(** Closes [contained] for a template written out: the values are escaped or
    numbers. *)
Ltac inert_by :=
  lazymatch goal with
  | |- val_inert (Lit _) => exact I
  | |- val_inert (ev _) => apply esc_inert
  | |- val_inert (Val (esc _)) => apply esc_inert
  | |- val_inert (Val (js_of_Z _)) => apply inert_js_of_Z
  | |- val_inert (Val (js_of_nat _)) => apply inert_js_of_nat
  end.
Ltac inerts_by :=
  lazymatch goal with
  | |- Forall val_inert [] => apply list.Forall_nil; exact I
  | |- Forall val_inert (_ :: _) => refine (proj2 (list.Forall_cons _ _ _) (conj _ _)); [inert_by|inerts_by]
  end.
Ltac tpl_end_by :=
  cbn [tpl_end ev];
  repeat match goal with
  | |- context [hrun ?st ?s] => let h := eval vm_compute in (hrun st s) in change (hrun st s) with h; cbn iota
  end; reflexivity.
Ltac contained_by := split; [tpl_end_by|inerts_by].

(** The markdown escape reads back as well. *)
Lemma html_decode_md_escape s : html_decode (md_escape s) = s.
Proof.
  rewrite md_escape_flat. unfold html_decode.
  assert (∀ c n t, (length (md_escape_char c) <= n)%nat →
    ∃ k, (n - length (md_escape_char c) <= k)%nat ∧ html_text n (md_escape_char c ++ t) = c :: html_text k t)
    as Hc.
  { intros c n t Hn.
    assert (1 <= length (md_escape_char c))%nat as Hl.
    { unfold md_escape_char. repeat case_match; apply Nat.leb_le; reflexivity. }
    unfold md_escape_char in *.
    destruct (N.eqb_spec c (ch "&")) as [->|H1]; [exists (pred n)|
    destruct (N.eqb_spec c (ch "<")) as [->|H2]; [exists (pred n)|
    destruct (N.eqb_spec c (ch ">")) as [->|H3]; [exists (pred n)|]]].
    1-3: destruct n as [|n]; [lia|]; split; [lia|done].
    destruct n as [|n]; [lia|]. exists n. split; [lia|]. by apply html_text_plain. }
  induction s as [|c w IH]; [done|]. cbn [flat_map]. set (r := flat_map md_escape_char w) in *.
  destruct (Hc c (length (md_escape_char c ++ r)) r) as (k & Hk & ->); [rewrite length_app; lia|].
  f_equal. transitivity (html_text (length r) r); [|exact IH].
  apply html_text_fuel; [|lia]. rewrite length_app in Hk. lia.
Qed.

(** ** Properties *)

(** C10. A value written with [esc] shows as itself and cannot leave its place:
    a browser reads back exactly the value ([null] and [undefined] as the
    empty string), and wherever a template puts it, in text or in a quoted
    attribute value, the tags of the page are the template's own. *)
Theorem esc_faithful s :
  html_decode (esc s) = default [] s
  ∧ ∀ a b, hrun HText a ≠ HTag → same_markup (a ++ esc s ++ b) (a ++ b).
Proof.
  split.
  - rewrite <- (app_nil_r (esc s)), html_decode_esc_app. apply app_nil_r.
  - intros a b Ha. unfold same_markup. rewrite !hskel_app, !hrun_app.
    by rewrite (hrun_esc _ s Ha), (hskel_esc _ s Ha).
Qed.

Lemma esc_faithful_witness :
  let v := Some (jq "x` onerror=`alert(1)<script>") in
  same_markup (jq "<td title=`" ++ esc v ++ jq "`>a</td>") (jq "<td title=`" ++ jq "`>a</td>").
Proof. intros v. destruct (esc_faithful v) as [_ H]. apply (H (jq "<td title=`") (jq "`>a</td>")). by vm_compute. Defined.
