(* ===== verification/Markdown.v ===== *)
(** * The renderer of the built-in guides: [web/md.js]

    [md_inline] is [mdInline], [renderMarkdown] the block loop.  The lines
    that are left play the part of the index [i]; the inner loops of the
    source are functions from the lines left to what they collect and the
    lines left after it.  Fuel bounds the outer loop by the number of lines,
    and [renderMarkdown_total] shows that it is always enough. *)

From Stdlib Require Import Ascii String ZArith NArith Lia.
From stdpp Require Import base list strings numbers.
From S2P Require Import Prelude JsString Regex Html.

Local Open Scope N_scope.

(** ** Inline spans *)

Definition bt : N := 96.
(* the split of code spans: a backtick, no backticks, a backtick *)
Definition re_code : re := RGrp 1 (rseq [RCls (N.eqb bt); rstar (cls_not (N.eqb bt)); RCls (N.eqb bt)]).
(* bold: two stars, text without stars, two stars *)
Definition re_bold : re :=
  rseq [RCls (cls_of "*"); RCls (cls_of "*"); RGrp 1 (rplus (cls_not (cls_of "*")));
        RCls (cls_of "*"); RCls (cls_of "*")].
(* italic: at the start or after white space or a parenthesis, a star, text
   without stars that does not begin with white space, a star *)
Definition re_em : re :=
  rseq [RGrp 1 (RAlt RBol (RCls (cls_or cls_s (cls_of "("))));
        RCls (cls_of "*");
        RGrp 2 (RSeq (RCls (cls_not (cls_or (cls_of "*") cls_s))) (rstar (cls_not (cls_of "*"))));
        RCls (cls_of "*")].
(* a link: text in brackets, target in parentheses *)
Definition re_link : re :=
  rseq [RCls (cls_of "["); RGrp 1 (rplus (cls_not (cls_of "]"))); RCls (cls_of "]");
        RCls (cls_of "("); RGrp 2 (rplus (cls_not (cls_or (cls_of ")") cls_s))); RCls (cls_of ")")].
(* /^[\w-]+\.md$/ *)
Definition re_guide : re := rseq [RBol; rplus (cls_or cls_w (cls_of "-")); rstr ".md"; REol].
(* http:// or https:// at the start *)
Definition re_http : re := rseq [RBol; rstr "http"; ropt (cls_of "s"); rstr "://"].

Definition md_link (text href : jstr) : jstr :=
  if re_test re_guide href then
    jq "<a href=`#` data-guide=`" ++ take (length href - 3) href ++ jq "`>" ++ text ++ js "</a>"
  else if re_test re_http href then
    jq "<a href=`" ++ href ++ jq "` target=`_blank` rel=`noopener`>" ++ text ++ js "</a>"
  else jq "<a href=`" ++ href ++ jq "`>" ++ text ++ js "</a>".

Definition md_bold_rep (m : rmat) : jstr := js "<strong>" ++ cap 1 (r_caps m) ++ js "</strong>".
Definition md_em_rep (m : rmat) : jstr :=
  cap 1 (r_caps m) ++ js "<em>" ++ cap 2 (r_caps m) ++ js "</em>".
Definition md_link_rep (m : rmat) : jstr := md_link (cap 1 (r_caps m)) (cap 2 (r_caps m)).

(** A part of the split: a code span, literal, or text. *)
Definition md_part (part : jstr) : jstr :=
  if starts_with [bt] part && starts_with [bt] (rev part) && (1 <? length part)%nat then
    js "<code>" ++ drop 1 (take (length part - 1) part) ++ js "</code>"
  else
    replace_all re_link md_link_rep (replace_all re_em md_em_rep (replace_all re_bold md_bold_rep part)).

Definition md_inline (s : jstr) : jstr := concat (map md_part (re_split1 re_code s)).

Example md_inline_ex :
  md_inline (js "a **b** (*c*) `x *y*` [vpn](vpn.md)") =
  js "a <strong>b</strong> (<em>c</em>) <code>x *y*</code> " ++ jq "<a href=`#` data-guide=`vpn`>vpn</a>".
Proof. by_compute. Qed.

(** ** Blocks *)

(* one to four #, white space, the rest of the line *)
Definition re_heading : re :=
  rseq [RBol; RGrp 1 (RRep (cls_of "#") 1 (Some 4%nat)); rplus cls_s; RGrp 2 (rstar cls_dot); REol].
(* three or more dashes, or stars *)
Definition re_hr : re :=
  rseq [RBol; RGrp 1 (RAlt (RRep (cls_of "-") 3 None) (RRep (cls_of "*") 3 None)); rstar cls_s; REol].
(* a bar at the start; a bar at the end, with white space *)
Definition re_bar_l : re := rseq [RBol; RCls (cls_of "|")].
Definition re_bar_r : re := rseq [RCls (cls_of "|"); rstar cls_s; REol].
(* /^:?-+:?$/ *)
Definition re_sep : re := rseq [RBol; ropt (cls_of ":"); rplus (cls_of "-"); ropt (cls_of ":"); REol].
(* a dash or a star, or digits and a dot *)
Definition re_bullet : re := RGrp 2 (RAlt (RCls (cls_of "-*")) (RSeq (rplus cls_d) (RCls (cls_of ".")))).
(* an item: indent, bullet, white space, the rest of the line *)
Definition re_li : re :=
  rseq [RBol; RGrp 1 (rstar cls_s); re_bullet; rplus cls_s; RGrp 3 (rstar cls_dot); REol].
(* the start of an item *)
Definition re_li_start : re := rseq [RBol; RGrp 1 (rstar cls_s); re_bullet; RCls cls_s].
(* /^\d+\.$/ *)
Definition re_ordered : re := rseq [RBol; rplus cls_d; RCls (cls_of "."); REol].
(* /^\s{2,}\S/ *)
Definition re_indent : re := rseq [RBol; RRep cls_s 2 None; RCls cls_S].
(* /^>\s?/ *)
Definition re_quote : re := rseq [RBol; RCls (cls_of ">"); ropt cls_s].
(* /\r\n/g *)
Definition re_crlf : re := rseq [RCls (N.eqb 13); RCls (N.eqb 10)].

Definition fence : jstr := [bt; bt; bt].

(** The lines of a code block up to the closing fence, which is dropped. *)
Fixpoint md_fence (ls : list jstr) : list jstr * list jstr :=
  match ls with
  | [] => ([], [])
  | l :: t =>
      if starts_with fence l then ([], t)
      else let '(code, r) := md_fence t in (md_escape l :: code, r)
  end.

Definition md_cells (l : jstr) : list jstr :=
  map trim (split_ch (ch "|")
    (replace_first re_bar_r (λ _, []) (replace_first re_bar_l (λ _, []) (md_escape l)))).

Fixpoint md_rows (ls : list jstr) : list (list jstr) * list jstr :=
  match ls with
  | [] => ([], [])
  | l :: t =>
      if starts_with (js "|") l then let '(rows, r) := md_rows t in (md_cells l :: rows, r)
      else ([], ls)
  end.

Definition md_sep_row (cells : list jstr) : bool :=
  forallb (λ c, re_test re_sep c || negb (truthy c)) cells.

Definition tagged (tag s : jstr) : jstr := js "<" ++ tag ++ js ">" ++ s ++ js "</" ++ tag ++ js ">".

Definition md_tr (tag : jstr) (cells : list jstr) : jstr :=
  js "<tr>" ++ concat (map (λ c, tagged tag (md_inline c)) cells) ++ js "</tr>".

Definition md_table (rows : list (list jstr)) : jstr :=
  let body :=
    match rows with
    | hd :: s :: tl =>
        if md_sep_row s then md_tr (js "th") hd ++ concat (map (md_tr (js "td")) tl)
        else concat (map (md_tr (js "td")) rows)
    | _ => concat (map (md_tr (js "td")) rows)
    end in
  jq "<div class=`md-tablewrap`><table>" ++ body ++ js "</table></div>".

(** The continuation lines of a list item. *)
Fixpoint md_conts (ls : list jstr) : list jstr * list jstr :=
  match ls with
  | [] => ([], [])
  | l :: t =>
      if re_test re_indent l && negb (re_test re_li_start l) then
        let '(cs, r) := md_conts t in (trim l :: cs, r)
      else ([], ls)
  end.

Fixpoint md_items (fuel : nat) (ordered : bool) (ls : list jstr) : list jstr * list jstr :=
  match fuel, ls with
  | S f, l :: t =>
      match re_exec re_li l with
      | Some m =>
          if Bool.eqb (re_test re_ordered (cap 2 (r_caps m))) ordered then
            let '(cs, t') := md_conts t in
            let item := cap 3 (r_caps m) ++ concat (map (λ c, 32 :: c) cs) in
            let '(items, r) := md_items f ordered t' in
            (tagged (js "li") (md_inline (md_escape item)) :: items, r)
          else ([], ls)
      | None => ([], ls)
      end
  | _, _ => ([], ls)
  end.

Fixpoint md_quote (ls : list jstr) : list jstr * list jstr :=
  match ls with
  | [] => ([], [])
  | l :: t =>
      if starts_with (js ">") l then
        let '(q, r) := md_quote t in (md_escape (replace_first re_quote (λ _, []) l) :: q, r)
      else ([], ls)
  end.

(** [flushPara]. *)
Definition md_flush (para html : list jstr) : list jstr :=
  match para with
  | [] => html
  | _ => html ++ [tagged (js "p") (md_inline (join [32] para))]
  end.

(** One turn of the loop: the block that starts at [raw], as the HTML it
    pushes, the paragraph after it, and the lines left. *)
Definition md_block (raw : jstr) (t : list jstr) (para html : list jstr)
    : list jstr * list jstr * list jstr :=
  let line := md_escape raw in
  if starts_with fence raw then
    let '(code, r) := md_fence t in
    (r, [], md_flush para html ++ [js "<pre><code>" ++ join [10] code ++ js "</code></pre>"])
  else match re_exec re_heading line with
  | Some h =>
      (t, [], md_flush para html ++
        [tagged (js "h" ++ js_of_N (N.of_nat (length (cap 1 (r_caps h))))) (md_inline (cap 2 (r_caps h)))])
  | None =>
  if re_test re_hr raw then (t, [], md_flush para html ++ [js "<hr>"])
  else if starts_with (js "|") raw then
    let '(rows, r) := md_rows (raw :: t) in (r, [], md_flush para html ++ [md_table rows])
  else match re_exec re_li raw with
  | Some li =>
      let ordered := re_test re_ordered (cap 2 (r_caps li)) in
      let '(items, r) := md_items (length (raw :: t)) ordered (raw :: t) in
      (r, [], md_flush para html ++ [tagged (if ordered then js "ol" else js "ul") (concat items)])
  | None =>
  if starts_with (js ">") raw then
    let '(q, r) := md_quote (raw :: t) in
    (r, [], md_flush para html ++ [tagged (js "blockquote") (tagged (js "p") (md_inline (join [32] q)))])
  else if negb (truthy (trim raw)) then (t, [], md_flush para html)
  else (t, para ++ [line], html)
  end end.

Fixpoint md_loop (fuel : nat) (ls : list jstr) (para html : list jstr) : option (list jstr) :=
  match ls with
  | [] => Some (md_flush para html)
  | raw :: t =>
      match fuel with
      | O => None
      | S f => let '(r, para', html') := md_block raw t para html in md_loop f r para' html'
      end
  end.

Definition md_lines (src : jstr) : list jstr := split_ch 10 (replace_all re_crlf (λ _, [10]) src).

Definition renderMarkdown (src : jstr) : option jstr :=
  let ls := md_lines src in option_map (join [10]) (md_loop (length ls) ls [] []).

Example renderMarkdown_ex :
  renderMarkdown (join [10] (map js
    ["# T `x`"; ""; "a"; "b <i>"; "- one"; "  more"; "- two"; "```"; "<x>"; "```"; "| a | b |"; "|---|---|"; "| 1 | 2 |"; "> q"]))
  = Some (join [10] (map jq
    ["<h1>T <code>x</code></h1>"; "<p>a b &lt;i&gt;</p>"; "<ul><li>one more</li><li>two</li></ul>";
     "<pre><code>&lt;x&gt;</code></pre>";
     "<div class=`md-tablewrap`><table><tr><th>a</th><th>b</th></tr><tr><td>1</td><td>2</td></tr></table></div>";
     "<blockquote><p>q</p></blockquote>"])).
Proof. by_compute. Qed.

(** ** The loop ends

    Every block consumes the line it starts at. *)

Lemma md_fence_length ls c r : md_fence ls = (c, r) → (length r <= length ls)%nat.
Proof.
  revert c r. induction ls as [|l t IH]; cbn; intros c r H; [by simplify_eq|].
  case_match; simplify_eq; [lia|]. destruct (md_fence t) as [c' r']. simplify_eq.
  specialize (IH _ _ eq_refl). lia.
Qed.

Lemma md_rows_length ls c r : md_rows ls = (c, r) → (length r <= length ls)%nat.
Proof.
  revert c r. induction ls as [|l t IH]; cbn; intros c r H; [by simplify_eq|].
  case_match; [|by simplify_eq]. destruct (md_rows t) as [c' r']. simplify_eq.
  specialize (IH _ _ eq_refl). lia.
Qed.

Lemma md_conts_length ls c r : md_conts ls = (c, r) → (length r <= length ls)%nat.
Proof.
  revert c r. induction ls as [|l t IH]; cbn; intros c r H; [by simplify_eq|].
  case_match; [|by simplify_eq]. destruct (md_conts t) as [c' r']. simplify_eq.
  specialize (IH _ _ eq_refl). lia.
Qed.

Lemma md_quote_length ls c r : md_quote ls = (c, r) → (length r <= length ls)%nat.
Proof.
  revert c r. induction ls as [|l t IH]; cbn; intros c r H; [by simplify_eq|].
  case_match; [|by simplify_eq]. destruct (md_quote t) as [c' r']. simplify_eq.
  specialize (IH _ _ eq_refl). lia.
Qed.

Lemma md_items_length f o ls c r : md_items f o ls = (c, r) → (length r <= length ls)%nat.
Proof.
  revert ls c r. induction f as [|f IH]; intros ls c r H; [cbn in H; by simplify_eq|].
  destruct ls as [|l t]; [cbn in H; by simplify_eq|]. cbn [md_items] in H.
  destruct (re_exec re_li l) as [m|]; [|simplify_eq; lia].
  case_match; [|simplify_eq; lia]. destruct (md_conts t) as [cs t'] eqn:Ec.
  destruct (md_items f o t') as [its r'] eqn:Ei. simplify_eq.
  apply md_conts_length in Ec. apply IH in Ei. cbn [length]. lia.
Qed.

(** A block always consumes its first line. *)
Lemma md_block_progress raw t para html r para' html' :
  md_block raw t para html = (r, para', html') → (length r <= length t)%nat.
Proof.
  unfold md_block. intros H. case_match.
  { destruct (md_fence t) as [c r'] eqn:E. simplify_eq. by eapply md_fence_length. }
  destruct (re_exec re_heading _); [simplify_eq; lia|].
  destruct (re_test re_hr raw); [simplify_eq; lia|].
  destruct (starts_with (js "|") raw) eqn:Eb.
  { cbn [md_rows] in H. rewrite Eb in H. destruct (md_rows t) as [c r'] eqn:E.
    simplify_eq. by eapply md_rows_length. }
  destruct (re_exec re_li raw) as [li|] eqn:El.
  { cbn [md_items length] in H. rewrite El, Bool.eqb_reflx in H.
    destruct (md_conts t) as [cs t'] eqn:Ec.
    destruct (md_items _ _ t') as [its r'] eqn:Ei. simplify_eq.
    apply md_conts_length in Ec. apply md_items_length in Ei. lia. }
  destruct (starts_with (js ">") raw) eqn:Eq.
  { cbn [md_quote] in H. rewrite Eq in H. destruct (md_quote t) as [c r'] eqn:E.
    simplify_eq. by eapply md_quote_length. }
  case_match; simplify_eq; lia.
Qed.

Lemma md_loop_total f ls para html : (length ls <= f)%nat → md_loop f ls para html ≠ None.
Proof.
  revert ls para html. induction f as [|f IH]; intros ls para html Hf.
  - by destruct ls; [|cbn in Hf; lia].
  - destruct ls as [|raw t]; [done|]. cbn [md_loop].
    destruct (md_block raw t para html) as [[r para'] html'] eqn:E.
    apply IH. apply md_block_progress in E. cbn in Hf. lia.
Qed.

(** ** Every tag is the renderer's own *)

(** The openings the renderer writes itself. *)
Definition inline_tags : list jstr := map js ["<strong>"; "</strong>"; "<em>"; "</em>"].
Definition md_tags : list jstr :=
  inline_tags ++ map jq
    ["<a href=`"; "</a>"; "<code>"; "</code>"; "<p>"; "</p>"; "<hr>"; "<pre>"; "</pre>";
     "<h1>"; "<h2>"; "<h3>"; "<h4>"; "</h1>"; "</h2>"; "</h3>"; "</h4>";
     "<ul>"; "</ul>"; "<ol>"; "</ol>"; "<li>"; "</li>"; "<blockquote>"; "</blockquote>";
     "<div class=`md-tablewrap`>"; "</div>"; "<table>"; "</table>"; "<tr>"; "</tr>";
     "<th>"; "</th>"; "<td>"; "</td>"].

(** Every [<] of [s] opens one of the tags [T]. *)
Fixpoint lt_ok (T : list jstr) (s : jstr) : bool :=
  match s with
  | [] => true
  | c :: t => (negb (c =? ch "<") || existsb (λ tg, starts_with tg s) T) && lt_ok T t
  end.

Lemma starts_with_weaken tg a b : starts_with tg a = true → starts_with tg (a ++ b) = true.
Proof. rewrite !starts_with_spec. intros [t ->]. exists (t ++ b). by rewrite app_assoc. Qed.

Lemma lt_ok_app T a b : lt_ok T a = true → lt_ok T b = true → lt_ok T (a ++ b) = true.
Proof.
  intros Ha Hb. induction a as [|c a IH]; [done|]. cbn [app lt_ok] in *.
  apply andb_true_iff in Ha as [H1 H2]. rewrite IH by done. rewrite andb_true_r.
  apply orb_true_iff in H1 as [->|H1]; [done|]. apply orb_true_iff. right.
  apply existsb_exists in H1 as (tg & Hin & Htg). apply existsb_exists.
  exists tg. split; [done|]. apply (starts_with_weaken _ (c :: a)). done.
Qed.

Lemma lt_ok_concat T l : Forall (λ s, lt_ok T s = true) l → lt_ok T (concat l) = true.
Proof. induction 1; [done|]. by apply lt_ok_app. Qed.

Lemma starts_with_cut tg a c b :
  c ∉ tg → starts_with tg (a ++ c :: b) = true → starts_with tg a = true.
Proof.
  revert a. induction tg as [|x tg IH]; intros a Hc H; [by destruct a|].
  apply not_elem_of_cons in Hc as [Hx Hc]. destruct a as [|y a]; cbn in H.
  - apply andb_true_iff in H as [H _]. apply N.eqb_eq in H. congruence.
  - apply andb_true_iff in H as [H1 H2]. cbn. rewrite H1. by apply IH.
Qed.

(** A string may be cut at a unit no tag contains. *)
Lemma lt_ok_cut T a c b :
  Forall (λ tg, c ∉ tg) T → lt_ok T (a ++ c :: b) = true →
  lt_ok T a = true ∧ lt_ok T b = true.
Proof.
  intros HT H. induction a as [|x a IH]; cbn [app lt_ok] in H;
    apply andb_true_iff in H as [H1 H2]; [done|].
  destruct (IH H2) as [Ha Hb]. split; [|done]. cbn [lt_ok]. rewrite Ha, andb_true_r.
  apply orb_true_iff in H1 as [->|H1]; [done|]. apply orb_true_iff. right.
  apply existsb_exists in H1 as (tg & Hin & Htg). apply existsb_exists.
  exists tg. split; [done|]. eapply Forall_forall in HT; [|exact Hin].
  by apply (starts_with_cut _ (x :: a) c b).
Qed.

Lemma lt_ok_mono T T' s : incl T T' → lt_ok T s = true → lt_ok T' s = true.
Proof.
  intros HT. induction s as [|c s IH]; [done|]. cbn [lt_ok]. rewrite !andb_true_iff, !orb_true_iff.
  intros [[H|H] Hs]; (split; [|by apply IH]); [by left|right].
  apply existsb_exists in H as (tg & Hin & Htg). apply existsb_exists. eauto.
Qed.

(** No [<] at all. *)
Definition lt_free (s : jstr) : Prop := ch "<" ∉ s.

Lemma lt_free_ok T s : lt_free s → lt_ok T s = true.
Proof.
  unfold lt_free. induction s as [|c s IH]; [done|]. rewrite not_elem_of_cons. intros [Hc Hs].
  cbn [lt_ok]. rewrite IH, andb_true_r by done. destruct (N.eqb_spec c (ch "<")); [congruence|done].
Qed.

Lemma lt_free_sub a b c : lt_free (a ++ b ++ c) → lt_free b.
Proof. unfold lt_free. rewrite !not_elem_of_app. tauto. Qed.

(** A global replacement keeps tags whole when every match can be cut out of
    the text around it and its replacement is in order. *)
Lemma replace_all_lt T T' r f s :
  incl T T' →
  (∀ b m, rmatch r b [] (r_hit m) (r_post m) (r_caps m) →
    ∀ pre post, lt_ok T (pre ++ r_hit m ++ post) = true →
      lt_ok T pre = true ∧ lt_ok T' (f m) = true ∧ lt_ok T post = true) →
  lt_ok T s = true → lt_ok T' (replace_all r f s) = true.
Proof.
  intros HT Hf Hs. unfold replace_all. destruct (re_scan r s) as [ms e] eqn:E.
  apply re_scan_sound in E as [-> Hm]. induction Hm as [|m ms [b Hm] _ IH]; cbn in *.
  - by eapply lt_ok_mono.
  - rewrite <- !app_assoc in *.
    destruct (Hf b m Hm _ _ Hs) as (Hpre & Hfm & Hpost).
    apply lt_ok_app; [by eapply lt_ok_mono|]. by apply lt_ok_app; [|apply IH].
Qed.

(** The units at which matches are cut occur in no inline tag. *)
Definition cutter (c : N) : bool := cls_of "*[]()" c || is_space c.

Lemma inline_tags_cut c : cutter c = true → Forall (λ tg, c ∉ tg) inline_tags.
Proof.
  intros Hc. apply list.Forall_forall. intros tg Htg Hin.
  assert (forallb (forallb (λ x, negb (cutter x))) inline_tags = true) as H by by_compute.
  rewrite forallb_forall in H. apply list_elem_of_In in Htg, Hin.
  specialize (H tg Htg). rewrite forallb_forall in H. specialize (H c Hin). by rewrite Hc in H.
Qed.

(** [lt_ok] of the inline tags at a cut, with nothing or something before. *)
Lemma lt_cut a c b : cutter c = true →
  lt_ok inline_tags (a ++ c :: b) = true →
  lt_ok inline_tags a = true ∧ lt_ok inline_tags b = true.
Proof. intros Hc. by apply lt_ok_cut, inline_tags_cut. Qed.
Lemma lt_cut0 c b : cutter c = true →
  lt_ok inline_tags (c :: b) = true → lt_ok inline_tags b = true.
Proof. intros Hc H. by apply (lt_cut [] c b Hc) in H as [_ ?]. Qed.

Lemma bold_lt s : lt_ok inline_tags s = true →
  lt_ok inline_tags (replace_all re_bold md_bold_rep s) = true.
Proof.
  apply replace_all_lt; [by apply incl_refl|]. intros b m Hm pre post Hs.
  unfold re_bold in Hm. cbn [rseq] in Hm. remember (r_hit m) as h. remember (r_caps m) as cs.
  unfold md_bold_rep. rewrite <- Heqcs. clear Heqh Heqcs. rm_inv.
  repeat match goal with H : cls_of _ _ = true |- _ => apply cls_of_1 in H as -> end.
  rewrite <- !app_assoc in Hs. cbn [app] in Hs.
  apply lt_cut in Hs as [Hpre Hs]; [|done]. apply lt_cut0 in Hs; [|done].
  apply lt_cut in Hs as [Hg Hs]; [|done]. apply lt_cut0 in Hs; [|done].
  split_and!; [done| |done]. cbn [cap Nat.eqb].
  apply lt_ok_app; [by_compute|]. by apply lt_ok_app; [|by_compute].
Qed.

Lemma em_lt s : lt_ok inline_tags s = true →
  lt_ok inline_tags (replace_all re_em md_em_rep s) = true.
Proof.
  apply replace_all_lt; [by apply incl_refl|]. intros b m Hm pre post Hs.
  unfold re_em in Hm. cbn [rseq] in Hm. remember (r_hit m) as h. remember (r_caps m) as cs.
  unfold md_em_rep. rewrite <- Heqcs. clear Heqh Heqcs. rm_inv.
  all: repeat match goal with H : cls_of _ _ = true |- _ => apply cls_of_1 in H as -> end.
  all: cbn [cap Nat.eqb]; rewrite <- ?app_assoc in Hs; cbn [app] in Hs.
  all: match type of Hs with
       | context [?c :: ?g ++ ch "*" :: ?q] =>
           change (c :: g ++ ch "*" :: q) with ((c :: g) ++ ch "*" :: q) in Hs
       end.
  - apply lt_cut in Hs as [Hpre Hs]; [|done]. apply lt_cut in Hs as [Hg Hs]; [|done].
    split_and!; [done| |done]. apply (lt_ok_app _ (js "<em>")); [by_compute|].
    by apply lt_ok_app; [|by_compute].
  - match goal with H : cls_or cls_s _ ?c = true |- _ => rename H into Hd, c into d end.
    assert (cutter d = true) as Hc.
    { unfold cls_or, cls_s in Hd. unfold cutter. apply orb_true_iff in Hd as [->|Hd];
        [by rewrite orb_true_r|]. by apply cls_of_1 in Hd as ->. }
    apply lt_cut in Hs as [Hpre Hs]; [|done].
    apply lt_cut0 in Hs; [|done]. apply lt_cut in Hs as [Hg Hs]; [|done].
    split_and!; [done| |done]. apply lt_ok_app.
    + cbn. rewrite andb_true_r. destruct (N.eqb_spec d (ch "<")) as [->|]; [done|done].
    + apply lt_ok_app; [by_compute|]. by apply lt_ok_app; [|by_compute].
Qed.

(** A guide's file name holds no markup. *)
Lemma guide_lt_free href : re_test re_guide href = true → lt_free href.
Proof.
  intros H. apply re_test_true in H as (pre & m & t & cs & -> & Hm).
  unfold re_guide in Hm. rm_inv. destruct pre; [|done].
  unfold lt_free. rewrite !not_elem_of_app. split_and!; try apply not_elem_of_nil.
  - intros Hin. match goal with H : Forall _ _ |- _ => rewrite list.Forall_forall in H; by apply H in Hin end.
  - by apply (bool_decide_unpack _); by_compute.
Qed.

Lemma lt_free_take n s : lt_free s → lt_free (take n s).
Proof. unfold lt_free. intros H Hin. apply H. rewrite <- (take_drop n s). apply elem_of_app. by left. Qed.

Lemma link_lt s : lt_ok inline_tags s = true →
  lt_ok md_tags (replace_all re_link md_link_rep s) = true.
Proof.
  assert (incl inline_tags md_tags) as Hincl by by apply incl_appl, incl_refl.
  apply replace_all_lt; [done|]. intros b m Hm pre post Hs.
  unfold re_link in Hm. cbn [rseq] in Hm. remember (r_hit m) as h. remember (r_caps m) as cs.
  unfold md_link_rep. rewrite <- Heqcs. clear Heqh Heqcs. rm_inv.
  repeat match goal with H : cls_of _ _ = true |- _ => apply cls_of_1 in H as -> end.
  cbn [cap Nat.eqb]. rewrite <- ?app_assoc in Hs. cbn [app] in Hs.
  apply lt_cut in Hs as [Hpre Hs]; [|done]. apply lt_cut in Hs as [Htext Hs]; [|done].
  apply lt_cut0 in Hs; [|done]. apply lt_cut in Hs as [Hhref Hs]; [|done].
  split_and!; [done| |done]. apply (lt_ok_mono _ _ _ Hincl) in Htext, Hhref.
  assert (∀ a b, lt_ok md_tags a = true → lt_ok md_tags b = true → lt_ok md_tags (a ++ b) = true)
    as Happ by (intros; by apply lt_ok_app).
  unfold md_link. destruct (re_test re_guide _) eqn:Eg; [|destruct (re_test re_http _)];
    repeat (apply Happ; try by_compute; try done).
  by apply lt_free_ok, lt_free_take, guide_lt_free.
Qed.

(** ** Lines and cells hold no markup of their own *)

Lemma md_escape_lt_free s : lt_free (md_escape s).
Proof.
  rewrite md_escape_flat. unfold lt_free. induction s as [|c s IH]; [apply not_elem_of_nil|].
  cbn [flat_map]. rewrite not_elem_of_app. split; [|done]. unfold md_escape_char.
  destruct (c =? ch "&"); [by apply (bool_decide_unpack _); by_compute|].
  destruct (N.eqb_spec c (ch "<")); [by apply (bool_decide_unpack _); by_compute|].
  destruct (c =? ch ">"); [by apply (bool_decide_unpack _); by_compute|].
  rewrite list_elem_of_singleton. congruence.
Qed.

Lemma lt_free_app a b : lt_free (a ++ b) ↔ lt_free a ∧ lt_free b.
Proof. unfold lt_free. apply not_elem_of_app. Qed.

Lemma lt_free_concat l : lt_free (concat l) ↔ Forall lt_free l.
Proof.
  induction l as [|s l IH]; cbn; [split; [constructor|intros _; apply not_elem_of_nil]|].
  by rewrite lt_free_app, IH, list.Forall_cons.
Qed.

Lemma lt_free_join sep l : lt_free sep → Forall lt_free l → lt_free (join sep l).
Proof.
  intros Hsep. induction 1 as [|w l Hw Hl IH]; [apply not_elem_of_nil|].
  destruct l; [done|]. rewrite join_cons, !lt_free_app. done.
Qed.

Lemma lt_free_split sep s : lt_free s → Forall lt_free (split_ch sep s).
Proof.
  intros Hs. induction s as [|c s IH]; cbn [split_ch]; [repeat constructor; apply not_elem_of_nil|].
  apply (lt_free_app [c]) in Hs as [Hc Hs]. specialize (IH Hs).
  destruct (split_ch_cons sep s) as (w & ws & E). rewrite E in IH |- *. inv IH.
  case_match; constructor; try done.
  - apply not_elem_of_nil.
  - by constructor.
  - by apply (lt_free_app [c]).
Qed.

Lemma lt_free_trim s : lt_free s → lt_free (trim s).
Proof.
  intros Hs. unfold trim, trim_end, trim_start.
  destruct (drop_while_suffix is_space s) as [k Hk]. rewrite Hk in Hs.
  apply lt_free_app in Hs as [_ Hs]. set (u := drop_while is_space s) in *.
  destruct (drop_while_suffix is_space (rev u)) as [k' Hk'].
  apply (f_equal (@rev N)) in Hk'. rewrite rev_involutive, rev_app_distr in Hk'.
  rewrite Hk' in Hs. by apply lt_free_app in Hs as [? _].
Qed.

Lemma lt_free_replace_first r s : lt_free s → lt_free (replace_first r (λ _, []) s).
Proof.
  intros Hs. unfold replace_first. destruct (re_exec r s) as [m|] eqn:E; [|done].
  apply re_exec_sound in E as [-> _]. rewrite !lt_free_app in Hs. apply lt_free_app. tauto.
Qed.

(** The captures of a whole-line literal are pieces of the line. *)
Lemma cap_sub r b m cs t cs' n :
  rmatch r b cs m t cs' →
  lt_free m → (∀ n, lt_free (cap n cs)) → lt_free (cap n cs').
Proof.
  intros H. revert n. induction H; intros n' Hm Hcs; try done.
  - apply lt_free_app in Hm as [? ?]. by eauto.
  - by eauto.
  - by eauto.
  - cbn. case_match; [done|]. by eauto.
Qed.

Lemma re_exec_cap_lt_free r s f n : re_exec r s = Some f → lt_free s → lt_free (cap n (r_caps f)).
Proof.
  intros E Hs. apply re_exec_sound in E as [-> Hm]. rewrite !lt_free_app in Hs.
  eapply cap_sub; [exact Hm|tauto|intros; apply not_elem_of_nil].
Qed.

Lemma re_split1_lt_free r s : lt_free s → Forall lt_free (re_split1 r s).
Proof.
  intros Hs. unfold re_split1. destruct (re_scan r s) as [ms e] eqn:E.
  apply re_scan_sound in E as [-> Hm]. apply lt_free_app in Hs as [Hs He].
  apply list.Forall_app. split; [|by constructor]. clear e He.
  induction Hm as [|m ms [b Hm] _ IH]; [constructor|]. cbn in *.
  rewrite !lt_free_app in Hs. destruct Hs as [[Hp Hh] Hs].
  constructor; [done|]. constructor; [|by apply IH].
  eapply cap_sub; [exact Hm|done|intros; apply not_elem_of_nil].
Qed.

Lemma md_part_lt part : lt_free part → lt_ok md_tags (md_part part) = true.
Proof.
  intros Hp. unfold md_part. case_match.
  - apply lt_ok_app; [by_compute|]. apply lt_ok_app; [|by_compute].
    apply lt_free_ok. rewrite <- (take_drop (length part - 1) part) in Hp.
    apply lt_free_app in Hp as [Hp _]. rewrite <- (take_drop 1 (take _ part)) in Hp.
    by apply lt_free_app in Hp as [_ ?].
  - by apply link_lt, em_lt, bold_lt, lt_free_ok.
Qed.

Lemma md_inline_lt s : lt_free s → lt_ok md_tags (md_inline s) = true.
Proof.
  intros Hs. apply lt_ok_concat, list.Forall_forall. intros p Hp.
  apply list_elem_of_In, in_map_iff in Hp as (q & <- & Hq). apply md_part_lt.
  pose proof (re_split1_lt_free re_code s Hs) as H. rewrite list.Forall_forall in H.
  apply H. by apply list_elem_of_In.
Qed.

(** The tag names of the renderer. *)
Definition md_names : list jstr :=
  map js ["p"; "h1"; "h2"; "h3"; "h4"; "ul"; "ol"; "li"; "blockquote"; "th"; "td"].

Lemma tagged_lt tag s : tag ∈ md_names → lt_ok md_tags s = true → lt_ok md_tags (tagged tag s) = true.
Proof.
  intros Ht Hs. unfold tagged.
  assert (forallb (λ tg, lt_ok md_tags (js "<" ++ tg ++ js ">") && lt_ok md_tags (js "</" ++ tg ++ js ">"))
    md_names = true) as H by by_compute.
  rewrite forallb_forall in H. apply list_elem_of_In in Ht. specialize (H _ Ht).
  apply andb_true_iff in H as [H1 H2].
  replace (js "<" ++ tag ++ js ">" ++ s ++ js "</" ++ tag ++ js ">")
    with ((js "<" ++ tag ++ js ">") ++ s ++ (js "</" ++ tag ++ js ">")) by by rewrite <- !app_assoc.
  apply lt_ok_app; [done|]. by apply lt_ok_app.
Qed.

Ltac in_names := apply (bool_decide_unpack _); by_compute.

Lemma md_cells_lt_free l : Forall lt_free (md_cells l).
Proof.
  unfold md_cells. apply list.Forall_forall. intros c Hc.
  apply list_elem_of_In, in_map_iff in Hc as (d & <- & Hd). apply lt_free_trim.
  pose proof (lt_free_split (ch "|") _ (lt_free_replace_first re_bar_r _
    (lt_free_replace_first re_bar_l _ (md_escape_lt_free l)))) as H.
  rewrite list.Forall_forall in H. apply H. by apply list_elem_of_In.
Qed.

Lemma md_rows_lt ls rows r : md_rows ls = (rows, r) → Forall (Forall lt_free) rows.
Proof.
  revert rows r. induction ls as [|l t IH]; cbn [md_rows]; intros rows r H; [by simplify_eq|].
  case_match; [|simplify_eq; constructor]. destruct (md_rows t) as [rows' r'] eqn:E. simplify_eq.
  constructor; [apply md_cells_lt_free|by eapply IH].
Qed.

Lemma md_tr_lt tag cells :
  tag ∈ md_names → Forall lt_free cells → lt_ok md_tags (md_tr tag cells) = true.
Proof.
  intros Ht Hc. unfold md_tr. apply lt_ok_app; [by_compute|]. apply lt_ok_app; [|by_compute].
  apply lt_ok_concat. induction Hc; cbn; constructor; [|done].
  by apply tagged_lt, md_inline_lt.
Qed.

Lemma md_trs_lt tag rows :
  tag ∈ md_names → Forall (Forall lt_free) rows →
  lt_ok md_tags (concat (map (md_tr tag) rows)) = true.
Proof. intros Ht Hr. apply lt_ok_concat. induction Hr; cbn; constructor; [by apply md_tr_lt|done]. Qed.

Lemma md_table_lt rows : Forall (Forall lt_free) rows → lt_ok md_tags (md_table rows) = true.
Proof.
  intros Hr. unfold md_table.
  assert (∀ rows, Forall (Forall lt_free) rows →
    lt_ok md_tags (concat (map (md_tr (js "td")) rows)) = true) as Htd
    by (intros; apply md_trs_lt; [in_names|done]).
  apply lt_ok_app; [by_compute|]. apply lt_ok_app; [|by_compute].
  destruct Hr as [|hd rows Hhd Hr]; [done|]. destruct Hr as [|s tl Hs Htl]; [by apply Htd; repeat constructor|].
  case_match; [|by apply Htd; repeat constructor].
  apply lt_ok_app; [apply md_tr_lt; [in_names|done]|by apply Htd].
Qed.

Lemma md_items_lt f o ls items r :
  md_items f o ls = (items, r) → Forall (λ s, lt_ok md_tags s = true) items.
Proof.
  revert ls items r. induction f as [|f IH]; intros ls items r H; [cbn in H; by simplify_eq|].
  destruct ls as [|l t]; [cbn in H; by simplify_eq|]. cbn [md_items] in H.
  destruct (re_exec re_li l) as [m|]; [|simplify_eq; constructor].
  case_match; [|simplify_eq; constructor]. destruct (md_conts t) as [cs t'].
  destruct (md_items f o t') as [its r'] eqn:Ei. simplify_eq.
  constructor; [|by eapply IH]. apply tagged_lt; [in_names|]. apply md_inline_lt, md_escape_lt_free.
Qed.

Lemma md_quote_lt ls q r : md_quote ls = (q, r) → Forall lt_free q.
Proof.
  revert q r. induction ls as [|l t IH]; cbn [md_quote]; intros q r H; [by simplify_eq|].
  case_match; [|simplify_eq; constructor]. destruct (md_quote t) as [q' r'] eqn:E. simplify_eq.
  constructor; [apply md_escape_lt_free|by eapply IH].
Qed.

Lemma md_fence_lt ls code r : md_fence ls = (code, r) → Forall lt_free code.
Proof.
  revert code r. induction ls as [|l t IH]; cbn [md_fence]; intros q r H; [by simplify_eq|].
  case_match; [simplify_eq; constructor|]. destruct (md_fence t) as [q' r'] eqn:E. simplify_eq.
  constructor; [apply md_escape_lt_free|by eapply IH].
Qed.

(** A heading has one to four number signs. *)
Lemma heading_level s h :
  re_exec re_heading s = Some h → (1 <= length (cap 1 (r_caps h)) <= 4)%nat.
Proof.
  intros E. apply re_exec_sound in E as [_ Hm]. remember (r_caps h) as cs. clear Heqcs.
  unfold re_heading in Hm. rm_inv. cbn in *. lia.
Qed.

Lemma heading_name s h :
  re_exec re_heading s = Some h →
  js "h" ++ js_of_N (N.of_nat (length (cap 1 (r_caps h)))) ∈ md_names.
Proof.
  intros E. apply heading_level in E. destruct (length (cap 1 (r_caps h))) as [|[|[|[|[|n]]]]];
    try lia; in_names.
Qed.

Definition html_ok (html : list jstr) : Prop := Forall (λ s, lt_ok md_tags s = true) html.

Lemma html_ok_snoc html s : html_ok html → lt_ok md_tags s = true → html_ok (html ++ [s]).
Proof. intros. apply list.Forall_app. by repeat constructor. Qed.

Lemma space_lt_free : lt_free [32].
Proof. apply (bool_decide_unpack _). by_compute. Qed.

Lemma md_para_lt q : Forall lt_free q →
  lt_ok md_tags (tagged (js "p") (md_inline (join [32] q))) = true.
Proof.
  intros. apply tagged_lt; [in_names|]. apply md_inline_lt, lt_free_join; [apply space_lt_free|done].
Qed.

Lemma md_flush_ok para html : Forall lt_free para → html_ok html → html_ok (md_flush para html).
Proof. intros Hp Hh. destruct Hp; [done|]. apply html_ok_snoc; [done|]. apply md_para_lt. by constructor. Qed.

(** The invariant of the block loop. *)
Lemma md_block_ok raw t para html r para' html' :
  md_block raw t para html = (r, para', html') →
  Forall lt_free para → html_ok html → Forall lt_free para' ∧ html_ok html'.
Proof.
  unfold md_block. intros H Hp Hh. pose proof (md_flush_ok _ _ Hp Hh) as Hf. case_match.
  { destruct (md_fence t) as [c r'] eqn:E. simplify_eq. split; [constructor|].
    apply html_ok_snoc; [done|]. apply lt_ok_app; [by_compute|]. apply lt_ok_app; [|by_compute].
    apply lt_free_ok, lt_free_join; [apply (bool_decide_unpack _); by_compute|by eapply md_fence_lt]. }
  destruct (re_exec re_heading _) as [h|] eqn:Eh.
  { simplify_eq. split; [constructor|]. apply html_ok_snoc; [done|].
    apply tagged_lt; [by eapply heading_name|]. apply md_inline_lt.
    eapply re_exec_cap_lt_free; [done|]. apply md_escape_lt_free. }
  destruct (re_test re_hr raw).
  { simplify_eq. split; [constructor|]. apply html_ok_snoc; [done|by_compute]. }
  destruct (starts_with (js "|") raw) eqn:Eb.
  { destruct (md_rows (raw :: t)) as [rows r'] eqn:E. simplify_eq. split; [constructor|].
    apply html_ok_snoc; [done|]. by eapply md_table_lt, md_rows_lt. }
  destruct (re_exec re_li raw) as [li|] eqn:El.
  { destruct (md_items _ _ (raw :: t)) as [its r'] eqn:E. simplify_eq. split; [constructor|].
    apply html_ok_snoc; [done|]. apply tagged_lt; [case_match; in_names|].
    by eapply lt_ok_concat, md_items_lt. }
  destruct (starts_with (js ">") raw) eqn:Eq.
  { destruct (md_quote (raw :: t)) as [q r'] eqn:E. simplify_eq. split; [constructor|].
    apply html_ok_snoc; [done|]. apply tagged_lt; [in_names|]. by eapply md_para_lt, md_quote_lt. }
  case_match; simplify_eq; (split; [|done]); [constructor|].
  apply list.Forall_app. split; [done|]. repeat constructor. apply md_escape_lt_free.
Qed.

Lemma md_loop_ok f ls para html out :
  md_loop f ls para html = Some out → Forall lt_free para → html_ok html → html_ok out.
Proof.
  revert ls para html. induction f as [|f IH]; intros ls para html H Hp Hh;
    (destruct ls as [|raw t]; [cbn in H; simplify_eq; by apply md_flush_ok|]); [done|].
  cbn [md_loop] in H. destruct (md_block raw t para html) as [[r para'] html'] eqn:E.
  eapply md_block_ok in E as [??]; [|done..]. by eapply IH.
Qed.

(** ** Properties *)

Lemma renderMarkdown_some src : ∃ s, renderMarkdown src = Some s.
Proof.
  unfold renderMarkdown. pose proof (md_loop_total (length (md_lines src)) (md_lines src) [] []) as H.
  destruct (md_loop _ _ _ _) as [l|]; [by exists (join [10] l)|]. by destruct H.
Qed.

(** [renderMarkdown] terminates on every source: the fuel of the model,
    the number of lines, is always enough, because every block consumes the
    line it starts at (the inner loops of code, tables, lists and quotes
    included). *)
Theorem renderMarkdown_total src : renderMarkdown src ≠ None.
Proof. by destruct (renderMarkdown_some src) as [s ->]. Qed.

(** C30. The renderer never injects a tag from the source: whatever the source
    holds, every [<] of the HTML opens one of the renderer's own tags
    ([md_tags]).  Bold, italic and links nest and overlap freely in the
    source; the matches of the three passes never cut one of the tags. *)
Theorem renderMarkdown_tags src out :
  renderMarkdown src = Some out → lt_ok md_tags out = true.
Proof.
  unfold renderMarkdown. destruct (md_loop _ _ _ _) as [html|] eqn:E; [|done].
  intros [= <-]. apply md_loop_ok in E; [|constructor|constructor].
  induction E as [|s l Hs Hl IH]; [done|]. destruct l; [done|].
  rewrite join_cons. apply lt_ok_app; [done|]. by apply lt_ok_app; [by_compute|].
Qed.

Lemma renderMarkdown_tags_witness :
  ∃ out, renderMarkdown (js "**a [x*](<b>) *c* <script>") = Some out ∧ lt_ok md_tags out = true.
Proof.
  eexists. split; [vm_compute; reflexivity|].
  apply (renderMarkdown_tags (js "**a [x*](<b>) *c* <script>")). vm_compute. reflexivity.
Defined.

(** The render of a source that is one code block. *)
Lemma replace_all_none r f s : rfind r true s = None → replace_all r f s = s.
Proof. intros H. unfold replace_all, re_scan. cbn [rscan]. by rewrite H. Qed.

Lemma crlf_free s : 13 ∉ s → replace_all re_crlf (λ _, [10]) s = s.
Proof.
  intros Hs. apply replace_all_none. destruct (rfind re_crlf true s) as [m|] eqn:E; [|done].
  exfalso. apply rfind_sound in E as [-> H]. apply Hs. unfold re_crlf in H. rm_inv. boolify. subst.
  apply elem_of_app. right. left.
Qed.

Lemma md_fence_code code : Forall (λ l, starts_with fence l = false) code →
  md_fence (code ++ [fence]) = (map md_escape code, []).
Proof. induction 1 as [|l code Hl _ IH]; [done|]. cbn [app md_fence]. by rewrite Hl, IH. Qed.

Lemma md_escape_join l : join [10] (map md_escape l) = md_escape (join [10] l).
Proof.
  induction l as [|w [|w' l] IH]; [done..|]. cbn [map]. rewrite !join_cons.
  change (md_escape w' :: map md_escape l) with (map md_escape (w' :: l)). rewrite IH.
  by rewrite !md_escape_flat, !flat_map_app.
Qed.

Lemma not_elem_join c sep l : c ∉ sep → Forall (λ w, c ∉ w) l → c ∉ join sep l.
Proof.
  intros Hs Hl. induction Hl as [|w l Hw Hl IH]; [apply not_elem_of_nil|].
  destruct l; [done|]. rewrite join_cons, !not_elem_of_app. done.
Qed.

(** A fenced code block shows verbatim: whatever the lines hold, tags,
    entities and markdown included, a browser reads back exactly those lines
    from the rendered block. *)
Theorem code_block_verbatim info code :
  10 ∉ info → 13 ∉ info →
  Forall (λ l, 10 ∉ l ∧ 13 ∉ l ∧ starts_with fence l = false) code →
  ∃ body,
    renderMarkdown (join [10] ((fence ++ info) :: code ++ [fence]))
      = Some (js "<pre><code>" ++ body ++ js "</code></pre>")
    ∧ html_decode body = join [10] code.
Proof.
  intros Hi Hi' Hc. exists (md_escape (join [10] code)). split; [|apply html_decode_md_escape].
  apply list.Forall_and in Hc as [Hc [Hc' Hf]%list.Forall_and].
  assert (10 ∉ fence ∧ 13 ∉ fence) as [F1 F2] by (split; apply (bool_decide_unpack _); by_compute).
  unfold renderMarkdown, md_lines. rewrite crlf_free, split_join_ch.
  - cbn [length md_loop]. unfold md_block.
    assert (starts_with fence (fence ++ info) = true) as -> by (apply starts_with_app).
    rewrite (md_fence_code code Hf), md_escape_join. cbn [md_flush app].
    by destruct (length (code ++ [fence])).
  - done.
  - repeat constructor; [by rewrite not_elem_of_app|]. apply list.Forall_app. split; [done|by repeat constructor].
  - apply not_elem_join; [apply (bool_decide_unpack _); by_compute|].
    constructor; [by rewrite not_elem_of_app|]. apply list.Forall_app. split; [done|by repeat constructor].
Qed.

Lemma code_block_verbatim_witness :
  ∃ body, renderMarkdown (join [10] (map js ["```sh"; "a <b> & `c`"; "# d"; "```"]))
      = Some (js "<pre><code>" ++ body ++ js "</code></pre>")
    ∧ html_decode body = join [10] (map js ["a <b> & `c`"; "# d"]).
Proof.
  apply (code_block_verbatim (js "sh") (map js ["a <b> & `c`"; "# d"]));
    apply (bool_decide_unpack _); vm_compute; reflexivity.
Defined.

(** The escape does not cover quotes, so a link target can end the attribute
    it is written into and add attributes of its own. *)
Theorem link_target_adds_attributes :
  renderMarkdown (jq "[x](https://a/`onmouseover=`alert(1))")
  = Some (jq "<p><a href=`https://a/`onmouseover=`alert(1` target=`_blank` rel=`noopener`>x</a>)</p>").
Proof. by_compute. Qed.
