(* ===== verification/Shell.v ===== *)
(** * Theme, user menu and guides (web/app.js, web/theme-init.js)

    The skin and the light or dark theme, kept in the browser's storage and
    put on the page once before the first paint and once by the application;
    the menu of the signed-in user with the listeners that close it; and the
    guides of the help page, which are loaded when they are opened. *)

From Stdlib Require Import Ascii String ZArith NArith Lia.
From stdpp Require Import base list gmap strings numbers.
From S2P Require Import Prelude JsString Markdown.

(** ** Theme *)

Record skin : Type := Skin { sk_id : jstr; sk_name : jstr }.
Definition SKINS : list skin := [Skin (js "console") (js "Console"); Skin (js "brass") (js "Brass & Iron")].

(** The two attributes of the page, the ticks of the menu and of the switch,
    and what is stored. *)
Record theme : Type := Theme {
  th_skin : jstr; th_theme : jstr; th_ticks : list bool; th_light : bool; th_stored : gmap jstr jstr }.

Definition applyTheme (t : jstr) (p : theme) : theme :=
  Theme (th_skin p) t (th_ticks p) (bool_decide (t = js "light")) (<[js "qg_theme" := t]> (th_stored p)).
Definition chosen_skin (s : jstr) : skin := default (Skin (js "console") (js "Console")) (List.find (λ k, bool_decide (sk_id k = s)) SKINS).
Definition applySkin (s : jstr) (p : theme) : theme :=
  let c := sk_id (chosen_skin s) in
  Theme c (th_theme p) (map (λ k, bool_decide (sk_id k = c)) SKINS) (th_light p) (<[js "qg_skin" := c]> (th_stored p)).
(** [localStorage.getItem(k) || d]. *)
Definition stored_or (k d : string) (m : gmap jstr jstr) : jstr := str_or (default [] (m !! js k)) (js d).
(** theme-init.js, before the first paint. *)
Definition theme_init (stored : gmap jstr jstr) : theme :=
  Theme (stored_or "qg_skin" "console" stored) (stored_or "qg_theme" "dark" stored) [] false stored.
(** app.js as it runs. *)
Definition theme_boot (p : theme) : theme :=
  let p := applyTheme (stored_or "qg_theme" "dark" (th_stored p)) p in
  applySkin (stored_or "qg_skin" "console" (th_stored p)) p.

Inductive theme_event : Type := HLight (b : bool) | HSkin (i : nat) | HReload.
Definition theme_step (p : theme) (e : theme_event) : theme :=
  match e with
  | HLight b => applyTheme (if b then js "light" else js "dark") p
  | HSkin i => match SKINS !! i with Some k => applySkin (sk_id k) p | None => p end
  | HReload => theme_boot (theme_init (th_stored p))
  end.
Definition theme_run (p : theme) (es : list theme_event) : theme := fold_left theme_step es p.

(** ** The user menu *)

(** Whether it is open, whether its two listeners are on the document, and
    whether its button has the focus. *)
Record menu : Type := Menu { mn_open : bool; mn_expanded : bool; mn_click : bool; mn_key : bool; mn_focus : bool }.
Definition openMenu (m : menu) : menu := Menu true true true true (mn_focus m).
Definition closeUserMenu (m : menu) : menu := Menu false false false false (mn_focus m).
Inductive menu_event : Type :=
  | MButton | MClick (inside : bool)  (* a click that is not on the button *) | MItem  (* an account entry *) | MKey (escape : bool) | MSignOut.
(** The capturing listener of the document runs first. *)
Definition menu_step (m : menu) (e : menu_event) : menu :=
  match e with
  | MButton => if mn_open m then closeUserMenu m else openMenu m
  | MClick inside => if mn_click m && negb inside then closeUserMenu m else m
  | MItem => if mn_open m then closeUserMenu m else m
  | MKey escape => if mn_key m && escape then let m := closeUserMenu m in Menu (mn_open m) (mn_expanded m) (mn_click m) (mn_key m) true else m
  | MSignOut => closeUserMenu m
  end.
Definition menu_run (m : menu) (es : list menu_event) : menu := fold_left menu_step es m.
Definition menu_html : menu := Menu false false false false false.

(** ** Guides *)

Definition GUIDES : list (string * string) :=
  [("getting-started", "Getting started"); ("configuration", "Configuration reference"); ("sso", "Access control & SSO");
   ("docker", "Docker labels"); ("streams", "Streams & port forwards"); ("vpn", "VPN: devices, portal, LAN access")]%string.
Definition guide_title (id : jstr) : option jstr :=
  option_map (λ g : string * string, js g.2) (List.find (λ g, bool_decide (js g.1 = id)) GUIDES).
Definition unavailable : jstr := js "# Unavailable" ++ [10; 10]%N ++ js "This guide could not be loaded.".

(** [gd_cards]: the cards of the index; [gd_jobs]: the guides being loaded. *)
Record guides : Type := Guides {
  gd_cards : nat; gd_index_hidden : bool; gd_view_hidden : bool; gd_back_hidden : bool; gd_faq_hidden : bool; gd_title : jstr; gd_view : jstr;
  gd_jobs : list jstr }.
Definition renderGuideIndex (g : guides) : guides :=
  if (gd_cards g =? 0)%nat then
    Guides (length GUIDES) (gd_index_hidden g) (gd_view_hidden g) (gd_back_hidden g) (gd_faq_hidden g) (gd_title g) (gd_view g) (gd_jobs g)
  else g.
Definition guide_jobs (l : list jstr) (g : guides) : guides :=
  Guides (gd_cards g) (gd_index_hidden g) (gd_view_hidden g) (gd_back_hidden g) (gd_faq_hidden g) (gd_title g) (gd_view g) l.
Definition openGuide (id : jstr) (g : guides) : guides :=
  match guide_title id with Some _ => guide_jobs (gd_jobs g ++ [id]) g | None => g end.
(** From the reply on, [None] when it failed. *)
Definition guide_reply (id : jstr) (md : option jstr) (g : guides) : guides :=
  Guides (gd_cards g) true false false true (default [] (guide_title id)) (default [] (renderMarkdown (default unavailable md))) (gd_jobs g).
Definition closeGuide (g : guides) : guides :=
  Guides (gd_cards g) false true true false (js "Guides") (gd_view g) (gd_jobs g).

(** [docs] are the files of the guides, by name; a load that works brings its
    file. *)
Inductive guide_event : Type := UIndex | UOpen (id : jstr) | UBack | UReply (i : nat) (ok : bool).
Section guides.
Context (docs : jstr → jstr).
Definition guide_step (g : guides) (e : guide_event) : guides :=
  match e with
  | UIndex => renderGuideIndex g
  | UOpen id => openGuide id g
  | UBack => closeGuide g
  | UReply i ok =>
      match gd_jobs g !! i with
      | Some id => guide_reply id (if ok then Some (docs id) else None) (guide_jobs (delete i (gd_jobs g)) g)
      | None => g
      end
  end.
Definition guide_run (g : guides) (es : list guide_event) : guides := fold_left guide_step es g.
End guides.
Definition guides_html : guides := Guides 0 false true true false (js "Guides") [] [].

(** ** Properties *)

Definition skin_id (s : jstr) : Prop := s ∈ map sk_id SKINS.
Lemma chosen_in s : skin_id (sk_id (chosen_skin s)).
Proof.
  unfold chosen_skin. destruct (List.find _ SKINS) as [k|] eqn:E; [|by left]. apply find_some in E as [H%list_elem_of_In _].
  apply list_elem_of_fmap. by exists k.
Qed.
Lemma chosen_known s : skin_id s → sk_id (chosen_skin s) = s.
Proof.
  revert s. apply (list.Forall_forall (λ s, sk_id (chosen_skin s) = s)). apply (bool_decide_unpack _). by_compute.
Qed.

Lemma qg_keys : js "qg_theme" ≠ js "qg_skin".
Proof. apply (bool_decide_unpack _). by_compute. Qed.

(** The page and the storage say the same. *)
Record theme_ok (p : theme) : Prop := {
  tk_skin : th_stored p !! js "qg_skin" = Some (th_skin p);
  tk_known : skin_id (th_skin p);
  tk_theme : th_stored p !! js "qg_theme" = Some (th_theme p);
  tk_set : th_theme p ≠ [];
  tk_light : th_light p = bool_decide (th_theme p = js "light");
  tk_ticks : th_ticks p = map (λ k, bool_decide (sk_id k = th_skin p)) SKINS }.

Lemma applyTheme_ok t p : t ≠ [] → theme_ok p → theme_ok (applyTheme t p).
Proof.
  intros Ht [H1 H2 H3 H4 H5 H6]. constructor; cbn; try done; [|by rewrite lookup_insert_eq].
  by rewrite lookup_insert_ne by apply qg_keys.
Qed.
Lemma applySkin_ok s p : th_stored p !! js "qg_theme" = Some (th_theme p) → th_theme p ≠ [] →
  th_light p = bool_decide (th_theme p = js "light") → theme_ok (applySkin s p).
Proof.
  intros H1 H2 H3. constructor; cbn; try done; [by rewrite lookup_insert_eq|apply chosen_in|].
  rewrite lookup_insert_ne; [done|]. intros E. by apply qg_keys.
Qed.
Lemma theme_boot_ok p : theme_ok (theme_boot p).
Proof.
  unfold theme_boot. apply applySkin_ok; cbn; [by rewrite lookup_insert_eq| |done].
  unfold stored_or. destruct (default [] _); cbn; [apply (bool_decide_unpack _); by_compute|done].
Qed.
Lemma theme_step_ok p e : theme_ok p → theme_ok (theme_step p e).
Proof.
  intros H. destruct e as [b|i|]; cbn [theme_step].
  - apply applyTheme_ok; [|done]. destruct b; apply (bool_decide_unpack _); by_compute.
  - destruct (SKINS !! i) as [k|]; [|done]. destruct H. by apply applySkin_ok.
  - apply theme_boot_ok.
Qed.

Lemma stored_or_some k d m s : m !! js k = Some s → s ≠ [] → stored_or k d m = s.
Proof. intros H Hs. unfold stored_or. rewrite H. by destruct s. Qed.

(** C29. No flash of the wrong palette: once the application has run, whatever
    was stored before and whatever is chosen since, a reload paints first with
    exactly the skin and theme the application then applies, which are those
    that were shown before; the skin is one there is, and the menu ticks it
    and no other. *)
Theorem reload_paints_same stored es (p := theme_run (theme_boot (theme_init stored)) es) :
  let first := theme_init (th_stored p) in
  let again := theme_boot first in
  (th_skin first, th_theme first) = (th_skin p, th_theme p)
  ∧ (th_skin again, th_theme again, th_light again, th_ticks again) = (th_skin p, th_theme p, th_light p, th_ticks p)
  ∧ skin_id (th_skin p) ∧ th_ticks p = map (λ k, bool_decide (sk_id k = th_skin p)) SKINS
  ∧ th_light p = bool_decide (th_theme p = js "light").
Proof.
  assert (theme_ok p) as [H1 H2 H3 H4 H5 H6].
  { unfold p, theme_run. generalize (theme_boot_ok (theme_init stored)). generalize (theme_boot (theme_init stored)).
    induction es as [|e es IH]; intros q Hq; [done|]. cbn [fold_left]. by apply IH, theme_step_ok. }
  assert (th_skin p ≠ []) as Hs.
  { intros E. rewrite E in H2. revert H2. apply (bool_decide_unpack _). by_compute. }
  cbv zeta. unfold theme_init at 1 2. cbn [th_skin th_theme].
  rewrite (stored_or_some _ _ _ _ H1 Hs), (stored_or_some _ _ _ _ H3 H4). split; [done|]. split; [|done].
  unfold theme_boot, applyTheme, applySkin. cbn [theme_init th_skin th_theme th_light th_ticks th_stored].
  rewrite (stored_or_some _ _ _ _ H3 H4).
  assert (stored_or "qg_skin" "console" (<[js "qg_theme" := th_theme p]> (th_stored p)) = th_skin p) as ->.
  { apply stored_or_some; [|done]. by rewrite lookup_insert_ne by apply qg_keys. }
  by rewrite (chosen_known _ H2), <- H5, <- H6.
Qed.

(** The listeners are on the document exactly while the menu is open: no
    click or key is watched for nothing, and none is watched twice. *)
Lemma menu_listens es : let m := menu_run menu_html es in
  mn_expanded m = mn_open m ∧ mn_click m = mn_open m ∧ mn_key m = mn_open m.
Proof.
  assert (∀ m, mn_expanded m = mn_open m ∧ mn_click m = mn_open m ∧ mn_key m = mn_open m →
    let m' := fold_left menu_step es m in mn_expanded m' = mn_open m' ∧ mn_click m' = mn_open m' ∧ mn_key m' = mn_open m') as H; [|by apply H].
  induction es as [|e es IH]; intros m H; [done|]. apply IH. destruct m as [o x c k f]. cbn in H. destruct H as (-> & -> & ->).
  destruct e as [|[]| |[]|]; cbn; by destruct o.
Qed.

(** The guide that is shown. *)
Section shown.
Context (docs : jstr → jstr).

(** The guide [id] on the page, or the note in its place. *)
Definition shows_guide (id : jstr) (g : guides) : Prop :=
  guide_title id = Some (gd_title g)
  ∧ (renderMarkdown (docs id) = Some (gd_view g) ∨ renderMarkdown unavailable = Some (gd_view g)).
Record guides_ok (g : guides) : Prop := {
  gk_jobs : Forall (λ id, guide_title id ≠ None) (gd_jobs g);
  gk_hidden : gd_index_hidden g = negb (gd_view_hidden g) ∧ gd_back_hidden g = gd_view_hidden g ∧ gd_faq_hidden g = negb (gd_view_hidden g);
  gk_view : if gd_view_hidden g then gd_title g = js "Guides" else ∃ id, shows_guide id g }.

Lemma guide_step_ok g e : guides_ok g → guides_ok (guide_step docs g e).
Proof.
  intros [H1 H2 H3]. destruct e as [|id| |i ok]; cbn [guide_step].
  - unfold renderGuideIndex. by destruct (gd_cards g =? 0)%nat.
  - unfold openGuide. destruct (guide_title id) eqn:E; [|done]. constructor; [|done..]. cbn. apply list.Forall_app. split; [done|].
    apply list.Forall_singleton. by rewrite E.
  - by constructor.
  - destruct (gd_jobs g !! i) as [id|] eqn:E; [|done]. pose proof (list.Forall_lookup_1 _ _ _ _ H1 E) as Hid. cbv beta in Hid. constructor; cbn.
    + by apply list.Forall_delete.
    + done.
    + exists id. unfold shows_guide. cbn. destruct (guide_title id); [|done]. split; [done|].
      destruct (renderMarkdown_some (docs id)) as [s Es], (renderMarkdown_some unavailable) as [s' Es'].
      destruct ok; [left|right]; cbn; by rewrite ?Es, ?Es'.
Qed.

(** The help page: after any events, with guides opened while others are
    still being loaded, going back before a guide arrives, and loads that
    fail, either the index is shown with its title, or one guide is: the text
    under its title is the file of that guide, rendered, or the note that it
    could not be loaded, and the button back is there. *)
Theorem guide_matches_title es (g := guide_run docs guides_html es) :
  (gd_index_hidden g = negb (gd_view_hidden g) ∧ gd_back_hidden g = gd_view_hidden g ∧ gd_faq_hidden g = negb (gd_view_hidden g))
  ∧ (if gd_view_hidden g then gd_title g = js "Guides" else ∃ id, shows_guide id g).
Proof.
  assert (guides_ok g) as [_ H1 H2]; [|done]. unfold g, guide_run.
  assert (guides_ok guides_html) as H0 by (constructor; [by apply list.Forall_nil|done..]). revert H0. generalize guides_html.
  induction es as [|e es IH]; intros q Hq; [done|]. cbn [fold_left]. by apply IH, guide_step_ok.
Qed.
End shown.
