(* ===== verification/Saving.v ===== *)
(** * Requests and the Save buttons (web/app.js, [setSaving], [api])

    Every change goes through [api], which counts the changes in flight and
    hides the labels of the Save buttons while there is one.  The model keeps
    the page's buttons, the counter and the calls in flight; the steps are
    the start of a call, the arrival of its reply, and the one place that
    writes a submit button's [disabled] from outside ([refreshVPNDevices], line 3372).

    - [set_saving], [submit_passes], [api_result] translate the three pieces;
    - [sstep] and [srun] interleave calls and replies in any order;
    - the theorems say that the counter is the number of changes in flight,
      that a button nothing else writes comes back as it was, that one
      written meanwhile may not, and that a submit passes exactly when no
      change is in flight. *)

From Stdlib Require Import Ascii String ZArith NArith Lia.
From stdpp Require Import base list strings numbers.
From S2P Require Import Prelude JsString.

(** ** JSON values *)

(** What [JSON.parse] returns.  A number is what [String] prints for it. *)
Inductive json : Type :=
  | JNull
  | JBool (b : bool)
  | JNum (r : jstr)
  | JStr (s : jstr)
  | JArr (l : list json)
  | JObj (fields : list (jstr * json)).

(** [v.name] of an object literal: the last field of that name. *)
Fixpoint json_field (name : jstr) (fs : list (jstr * json)) : option json :=
  match fs with
  | [] => None
  | (k, v) :: fs =>
      match json_field name fs with
      | Some w => Some w
      | None => if decide (k = name) then Some v else None
      end
  end.

(** Whether [v || d] is [v]. *)
Definition json_truthy (v : json) : bool :=
  match v with
  | JNull => false
  | JBool b => b
  | JNum r => negb (bool_decide (r = js "0"))
  | JStr s => truthy s
  | JArr _ | JObj _ => true
  end.

(** [String(v)]. *)
Fixpoint json_string (v : json) : jstr :=
  match v with
  | JNull => js "null"
  | JBool b => if b then js "true" else js "false"
  | JNum r => r
  | JStr s => s
  | JArr l =>
      join (js ",") ((fix go (l : list json) : list jstr :=
        match l with
        | [] => []
        | JNull :: l => [] :: go l
        | v :: l => json_string v :: go l
        end) l)
  | JObj _ => js "[object Object]"
  end.

(** ** [api] *)

(** What [fetch] settles with: a rejected promise, or a response with its
    body when that is JSON. *)
Inductive reply : Type :=
  | NetworkError
  | Response (status : Z) (statusText : jstr) (body : option json).

(** What the promise [api] returns settles with.  [OTypeError] is the
    exception of reading a property of [null]. *)
Inductive outcome : Type :=
  | OData (data : json)
  | OError (message : jstr)
  | OTypeError
  | ONetwork.

Definition res_ok (status : Z) : bool := (200 <=? status)%Z && (status <=? 299)%Z.

Definition api_result (r : reply) : outcome :=
  match r with
  | NetworkError => ONetwork
  | Response status statusText body =>
      let data := if (status =? 204)%Z then JObj [] else default (JObj []) body in
      if res_ok status then OData data
      else
        match data with
        | JNull => OTypeError
        | JObj fs =>
            match json_field (js "error") fs with
            | Some e => OError (if json_truthy e then json_string e else statusText)
            | None => OError statusText
            end
        | _ => OError statusText
        end
  end.

(** ** The page *)

(** A submit button: its text, [disabled], and [dataset.savingLabel]. *)
Record button : Type := Button { b_text : jstr; b_disabled : bool; b_label : option jstr }.

Record page : Type := Page {
  p_inflight : Z;               (* savesInFlight *)
  p_saving : bool;              (* class is-saving of the body *)
  p_buttons : list button }.

Definition saving_text : jstr := js "Saving...".

Definition mark_button (saving : bool) (b : button) : button :=
  if saving && negb (b_disabled b) then Button saving_text true (Some (b_text b))
  else
    match b_label b with
    | Some l => if saving then b else Button l false None
    | None => b
    end.

(** [setSaving]. *)
Definition set_saving (delta : Z) (p : page) : page :=
  let n := (p_inflight p + delta)%Z in
  let saving := (0 <? n)%Z in
  Page n saving (map (mark_button saving) (p_buttons p)).

(** The capture listener of [submit]: whether the form's own handler sees it. *)
Definition submit_passes (p : page) : bool := negb (0 <? p_inflight p)%Z.

(** ** Calls in flight *)

Record sstate : Type := SState { s_page : page; s_calls : list jstr }.

Inductive sevent : Type :=
  | ECall (method : jstr)            (* api is called *)
  | ESettle (i : nat) (r : reply)    (* the reply of the i-th call arrives *)
  | EDisable (i : nat) (off : bool). (* the i-th submit button's disabled is written *)

Definition changes (method : jstr) : bool := negb (bool_decide (method = js "GET")).

Definition sstep (st : sstate) (e : sevent) : sstate :=
  match e with
  | ECall m =>
      SState (if changes m then set_saving 1 (s_page st) else s_page st) (s_calls st ++ [m])
  | ESettle i r =>
      match s_calls st !! i with
      | Some m =>
          SState (if changes m then set_saving (-1) (s_page st) else s_page st)
            (delete i (s_calls st))
      | None => st
      end
  | EDisable i off =>
      let p := s_page st in
      SState (Page (p_inflight p) (p_saving p)
        (alter (λ b, Button (b_text b) off (b_label b)) i (p_buttons p))) (s_calls st)
  end.

Definition srun (st : sstate) (es : list sevent) : sstate := fold_left sstep es st.

(** The number of changes in flight. *)
Definition in_flight (calls : list jstr) : nat := length (List.filter changes calls).
Arguments in_flight calls : simpl never.

(** A page nobody is saving on. *)
Definition idle (bs : list button) : sstate := SState (Page 0 false bs) [].
Definition fresh (b : button) : Prop := b_label b = None.

Example saving_ex :
  let bs := [Button (js "Save") false None; Button (js "Add device") true None] in
  p_buttons (s_page (srun (idle bs) [ECall (js "PUT"); ECall (js "GET"); ECall (js "DELETE"); ESettle 0 NetworkError]))
  = [Button saving_text true (Some (js "Save")); Button (js "Add device") true None].
Proof. by_compute. Qed.

(** ** Lemmas *)

(** A button while a change is in flight, or not. *)
Definition shown (saving : bool) (b : button) : button :=
  if saving then if b_disabled b then b else Button saving_text true (Some (b_text b)) else b.

Lemma mark_shown saving saving' b : fresh b → mark_button saving' (shown saving b) = shown saving' b.
Proof. destruct b as [t d l]. unfold fresh. cbn. intros ->. by destruct saving, saving', d. Qed.

Lemma in_flight_snoc calls m :
  in_flight (calls ++ [m]) = (in_flight calls + if changes m then 1 else 0)%nat.
Proof. unfold in_flight. rewrite List.filter_app, length_app. cbn. by destruct (changes m). Qed.

Lemma in_flight_delete calls i m :
  calls !! i = Some m →
  in_flight calls = (in_flight (delete i calls) + if changes m then 1 else 0)%nat.
Proof.
  unfold in_flight. intros H. rewrite <- (take_drop_middle _ _ _ H) at 1.
  rewrite delete_take_drop, !List.filter_app, !length_app. cbn.
  destruct (changes m); cbn; lia.
Qed.

(** The counter and the mark say how many changes are in flight. *)
Definition counts (st : sstate) : Prop :=
  p_inflight (s_page st) = Z.of_nat (in_flight (s_calls st))
  ∧ p_saving (s_page st) = bool_decide (0 < in_flight (s_calls st))%nat.

(** A call or a reply, as the page and its buttons see it. *)
Lemma step_marks st e : (∀ i off, e ≠ EDisable i off) →
  p_buttons (s_page (sstep st e)) = p_buttons (s_page st) ∧ in_flight (s_calls (sstep st e)) = in_flight (s_calls st)
    ∧ s_page (sstep st e) = s_page st
  ∨ ∃ d, s_page (sstep st e) = set_saving d (s_page st)
      ∧ Z.of_nat (in_flight (s_calls (sstep st e))) = (Z.of_nat (in_flight (s_calls st)) + d)%Z.
Proof.
  intros He. destruct e as [m|i r|i off]; [| |by destruct (He i off)]; cbn [sstep].
  - cbn [s_calls s_page]. rewrite in_flight_snoc. destruct (changes m); [|left; split; [done|]; split; [lia|done]].
    right. exists 1%Z. split; [done|lia].
  - destruct (s_calls st !! i) as [m|] eqn:E; [|by left]. cbn [s_calls s_page]. apply in_flight_delete in E.
    destruct (changes m); [|left; split; [done|]; split; [lia|done]]. right. exists (-1)%Z. split; [done|lia].
Qed.

Lemma saving_bool n : (0 <? Z.of_nat n)%Z = bool_decide (0 < n)%nat.
Proof. case_bool_decide; [apply Z.ltb_lt|apply Z.ltb_ge]; lia. Qed.

Lemma counts_step st e : counts st → counts (sstep st e).
Proof.
  intros [H1 H2]. destruct e as [m|i r|i off]; [| |done].
  all: match goal with |- counts (sstep ?s ?e) => destruct (step_marks s e ltac:(done)) as [(_ & En & Ep)|(d & Ep & En)] end.
  1, 3: unfold counts; by rewrite Ep, En.
  all: unfold counts; rewrite Ep; cbn [set_saving p_inflight p_saving]; by rewrite H1, <- En, saving_bool.
Qed.

(** Nothing else writes the state of the [k]th button. *)
Definition untouched (k : nat) (e : sevent) : Prop := match e with EDisable i _ => i ≠ k | _ => True end.

Lemma button_step k b st e : fresh b → untouched k e → counts st →
  p_buttons (s_page st) !! k = Some (shown (bool_decide (0 < in_flight (s_calls st))%nat) b) →
  p_buttons (s_page (sstep st e)) !! k = Some (shown (bool_decide (0 < in_flight (s_calls (sstep st e)))%nat) b).
Proof.
  intros Hb Hu Hc Hk. destruct e as [m|i r|i off]; [| |cbn in *; by rewrite list_lookup_alter_ne].
  all: match goal with |- context [sstep ?s ?e] => destruct (step_marks s e ltac:(done)) as [(Eb & En & _)|(d & Ep & En)] end.
  1, 3: by rewrite Eb, En.
  all: rewrite Ep; cbn [set_saving p_buttons]; rewrite list_lookup_fmap, Hk; cbn [fmap option_fmap option_map].
  all: rewrite (proj1 Hc), <- En, saving_bool; by rewrite mark_shown.
Qed.

Lemma srun_buttons k b es st : fresh b → Forall (untouched k) es → counts st →
  p_buttons (s_page st) !! k = Some (shown (bool_decide (0 < in_flight (s_calls st))%nat) b) →
  p_buttons (s_page (srun st es)) !! k = Some (shown (bool_decide (0 < in_flight (s_calls (srun st es)))%nat) b).
Proof.
  intros Hb He. revert st. induction He as [|e es Hu _ IH]; intros st Hc Hk; [done|].
  cbn [srun fold_left]. apply IH; [by apply counts_step|by apply button_step].
Qed.

Lemma srun_counts es st : counts st → counts (srun st es).
Proof. revert st. induction es as [|e es IH]; intros st H; [done|]. cbn [srun fold_left]. by apply IH, counts_step. Qed.

(** ** Properties *)

(** C18. However calls, replies and other code that enables or disables buttons
    interleave, the counter is the number of changes in flight and the body
    is marked as saving exactly while there is one.  A submit button whose
    state no other code writes meanwhile shows the same: while a change is in
    flight it is disabled and says so, or is as it was when it was disabled
    already, and with none left it has its own text and state back.  (Where
    other code does write one, [saving_label_lost].) *)
Theorem saving_reflects_changes bs es :
  let st := srun (idle bs) es in
  let n := in_flight (s_calls st) in
  p_inflight (s_page st) = Z.of_nat n
  ∧ p_saving (s_page st) = bool_decide (0 < n)%nat
  ∧ ∀ k b, bs !! k = Some b → fresh b → Forall (untouched k) es →
      p_buttons (s_page st) !! k =
        Some (if decide (0 < n)%nat then if b_disabled b then b else Button saving_text true (Some (b_text b)) else b).
Proof.
  intros st n. assert (counts (idle bs)) as Hc by done. destruct (srun_counts es _ Hc) as [H1 H2].
  split; [done|]. split; [done|]. intros k b Hk Hb Hu.
  pose proof (srun_buttons k b es _ Hb Hu Hc Hk) as E. fold st in E. fold n in E. rewrite E. unfold shown.
  by case_decide as Hn; [rewrite bool_decide_true by done|rewrite bool_decide_false by done].
Qed.

Lemma saving_reflects_changes_witness :
  let es := [ECall (js "PUT"); ECall (js "POST"); EDisable 1 false; ESettle 1 NetworkError; ESettle 0 NetworkError] in
  let st := srun (idle [Button (js "Save") false None; Button (js "Save settings") true None]) es in
  p_buttons (s_page st) !! 0%nat = Some (Button (js "Save") false None) ∧ p_saving (s_page st) = false.
Proof.
  intros es st. destruct (saving_reflects_changes [Button (js "Save") false None; Button (js "Save settings") true None] es) as (_ & H2 & H3).
  split; [|exact H2]. exact (H3 0%nat _ eq_refl eq_refl ltac:(repeat constructor; done)).
Defined.

(** No double submit: in every run, the buttons rewritten from outside
    included, a submit reaches its handler exactly when no change is in
    flight. *)
Theorem submit_passes_idle bs es :
  let st := srun (idle bs) es in
  submit_passes (s_page st) = bool_decide (in_flight (s_calls st) = 0%nat).
Proof.
  intros st. assert (counts (idle bs)) as Hc by done. destruct (srun_counts es _ Hc) as [H _]. fold st in H. unfold submit_passes. rewrite H.
  case_bool_decide as E; [rewrite E; done|]. apply negb_false_iff, Z.ltb_lt. lia.
Qed.

(** A button rewritten from outside while a change is in flight loses its
    text: the next change stores [Saving...] as the text to restore. *)
Theorem saving_label_lost :
  ∃ bs es, Forall fresh bs
    ∧ in_flight (s_calls (srun (idle bs) es)) = 0%nat
    ∧ p_buttons (s_page (srun (idle bs) es)) ≠ bs
    ∧ map b_text (p_buttons (s_page (srun (idle bs) es))) = [saving_text].
Proof.
  exists [Button (js "Save") false None].
  exists [ECall (js "PUT"); EDisable 0 false; ECall (js "DELETE"); ESettle 0 NetworkError; ESettle 0 NetworkError].
  split_and!; [repeat constructor|by_compute|by vm_compute|by_compute].
Qed.

(** C39. [api] returns data only for a successful reply, and every other reply
    throws: an answer of the server carries its [error] text, or its status
    text when there is none. *)
Theorem api_result_spec status txt body :
  let o := api_result (Response status txt body) in
  (res_ok status = true → o = OData (if decide (status = 204)%Z then JObj [] else default (JObj []) body))
  ∧ (res_ok status = false →
      (∀ fs s, body = Some (JObj fs) → json_field (js "error") fs = Some (JStr s) → s ≠ [] → o = OError s)
      ∧ (body = None → o = OError txt)
      ∧ ∀ d, o ≠ OData d).
Proof.
  cbn. destruct (Z.eqb_spec status 204) as [->|Hs].
  { split; [done|]. unfold res_ok. cbn. done. }
  split; intros Hok; rewrite Hok; [by rewrite decide_False|].
  split_and!.
  - intros fs s -> Hf Hs'. cbn. rewrite Hf. cbn. by destruct s.
  - by intros ->.
  - intros d. destruct (default _ _); try done. by case_match.
Qed.

Lemma api_result_spec_witness :
  api_result (Response 409 (js "Conflict") (Some (JObj [(js "error", JStr (js "domain in use"))])))
  = OError (js "domain in use").
Proof.
  destruct (api_result_spec 409 (js "Conflict") (Some (JObj [(js "error", JStr (js "domain in use"))]))) as [_ H].
  destruct (H eq_refl) as [H1 _]. by apply (H1 _ _ eq_refl eq_refl).
Defined.
