(* ===== verification/Router.v ===== *)
(** * Pages, sections and the address bar (web/app.js, page nav)

    The page on screen, the section within Settings or Account, and the
    address are kept in step by [switchPage], [showSection], [setRoute] and
    [routeFromHash].  The model keeps what those read and write: the three
    views of [show], the [hidden] flags of the pages and sections, the active
    navigation buttons, [currentSection], and the session history as the
    browser keeps it (the entries behind, the current one, those ahead).

    - [switchPage], [showSection], [setRoute], [routeFromHash] are the
      functions, their exceptions included ([None]);
    - [rstep] is one event: a click, signing in or out, Back, Forward, or an
      address typed by hand, which the [popstate] listener answers;
    - the theorems say that one page is on screen and the address names it,
      that a reload or a shared link opens the same view, and that Back
      returns to the view before. *)

From Stdlib Require Import Ascii String ZArith NArith Lia.
From stdpp Require Import base list strings numbers gmap.
From S2P Require Import Prelude JsString Regex.

Local Open Scope N_scope.

(** ** The tables *)

(** The keys of [pageLoaders], in order. *)
Definition pageLoaders : list jstr :=
  map js ["overview"; "hosts"; "access"; "streams"; "vpn"; "docker"; "certs"; "logs"; "settings"; "account"; "help"].

(** The buttons of [pagenav]. *)
Definition pagenav : list jstr :=
  map js ["overview"; "hosts"; "streams"; "vpn"; "access"; "certs"; "docker"; "logs"; "settings"].

(** [sectionNavs], with the [data-section] of the navs' buttons. *)
Definition sectionNavs (page : jstr) : option (list jstr) :=
  if decide (page = js "settings") then
    Some (map js ["general"; "certificates"; "network"; "protection"; "notifications"; "signin"; "backup"])
  else if decide (page = js "account") then Some (map js ["security"; "sessions"; "tokens"])
  else None.

(** The names an object literal inherits: [o[name]] is truthy for them. *)
Definition object_proto : list jstr :=
  map js ["constructor"; "__defineGetter__"; "__defineSetter__"; "hasOwnProperty"; "__lookupGetter__";
          "__lookupSetter__"; "isPrototypeOf"; "propertyIsEnumerable"; "toString"; "valueOf"; "__proto__";
          "toLocaleString"].

Definition has_loader (name : jstr) : bool := bool_decide (name ∈ pageLoaders ∨ name ∈ object_proto).

(** ** The page *)

(** One entry per element: its name and its flag. *)
Abbreviation flags := (list (jstr * bool)).

Record ui : Type := Ui {
  u_views : flags;                (* hidden, of view-login, view-password, view-app *)
  u_nav : flags;                  (* is-active, of the buttons of pagenav *)
  u_pages : flags;                (* hidden, of page-<name> *)
  u_current : gmap jstr jstr;     (* currentSection *)
  u_secnav : gmap jstr flags;     (* is-active, of the section buttons of a page *)
  u_secs : gmap jstr flags;       (* hidden, of the sections of a page *)
  u_back : list jstr;             (* the entries behind, nearest first *)
  u_hash : jstr;                  (* location.hash *)
  u_fwd : list jstr;              (* the entries ahead, nearest first *)
  u_loaded : list jstr }.         (* the loaders run, latest first *)

(** [hidden = name !== want] and [toggle('is-active', name === want)]. *)
Definition hide_others (ids : list jstr) (want : jstr) : flags :=
  map (λ p, (p, negb (bool_decide (p = want)))) ids.
Definition mark_only (ids : list jstr) (want : jstr) : flags :=
  map (λ p, (p, bool_decide (p = want))) ids.

Arguments hide_others ids want : simpl never.
Arguments mark_only ids want : simpl never.
Arguments pageLoaders : simpl never.
Arguments pagenav : simpl never.

Definition views : list jstr := map js ["view-login"; "view-password"; "view-app"].

Definition set_views v (u : ui) : ui :=
  Ui v (u_nav u) (u_pages u) (u_current u) (u_secnav u) (u_secs u) (u_back u) (u_hash u) (u_fwd u) (u_loaded u).
Definition set_pages nav pages (u : ui) : ui :=
  Ui (u_views u) nav pages (u_current u) (u_secnav u) (u_secs u) (u_back u) (u_hash u) (u_fwd u) (u_loaded u).
Definition set_sections cur nav secs (u : ui) : ui :=
  Ui (u_views u) (u_nav u) (u_pages u) cur nav secs (u_back u) (u_hash u) (u_fwd u) (u_loaded u).
Definition set_history back hash fwd (u : ui) : ui :=
  Ui (u_views u) (u_nav u) (u_pages u) (u_current u) (u_secnav u) (u_secs u) back hash fwd (u_loaded u).
Definition set_loaded l (u : ui) : ui :=
  Ui (u_views u) (u_nav u) (u_pages u) (u_current u) (u_secnav u) (u_secs u) (u_back u) (u_hash u) (u_fwd u) l.

(** [show]. *)
Definition show (view : jstr) (u : ui) : ui := set_views (hide_others views view) u.

(** The browser's side of [history.pushState] and [replaceState]. *)
Definition push_state (hash : jstr) (u : ui) : ui := set_history (u_hash u :: u_back u) hash [] u.
Definition replace_state (hash : jstr) (u : ui) : ui := set_history (u_back u) hash (u_fwd u) u.

Definition setRoute (hash : jstr) (replace : bool) (u : ui) : ui :=
  if decide (u_hash u = hash) then u
  else if replace then replace_state hash u else push_state hash u.

(** [showSection]; [None] is the exception of a nav that does not exist. *)
Definition showSection (page : jstr) (section : option jstr) (u : ui) : option ui :=
  match sectionNavs page with
  | None => None
  | Some ids =>
      let fallback := match u_current u !! page with Some c => str_or c (default [] (head ids)) | None => default [] (head ids) end in
      let want := match section with Some s => if decide (s ∈ ids) then s else fallback | None => fallback end in
      Some (set_sections (<[page := want]> (u_current u)) (<[page := mark_only ids want]> (u_secnav u))
              (<[page := hide_others ids want]> (u_secs u)) u)
  end.

(** The address of a page. *)
Definition hash_for (name : jstr) (u : ui) : jstr :=
  js "#/" ++ name ++
  match sectionNavs name with Some _ => js "/" ++ default [] (u_current u !! name) | None => [] end.

(** [switchPage]: the page after it, and whether it ran to its end. *)
Definition switchPage (name0 : jstr) (section : option jstr) (replace : bool) (u : ui) : ui * bool :=
  let name := if has_loader name0 then name0 else js "overview" in
  let u1 := set_pages (mark_only pagenav name) (hide_others pageLoaders name) u in
  let finish u2 := (set_loaded (name :: u_loaded u2) (setRoute (hash_for name u2) replace u2), true) in
  if bool_decide (is_Some (sectionNavs name) ∨ name ∈ object_proto) then
    match showSection name section u1 with
    | Some u2 => finish u2
    | None => (u1, false)
    end
  else finish u1.

Definition re_hash : re := rseq [RBol; RCls (cls_of "#"); ropt (cls_of "/")].

Definition routeFromHash (hash : jstr) : jstr * option jstr :=
  let parts := split_ch (ch "/") (replace_first re_hash (λ _, []) hash) in
  (str_or (default [] (parts !! 0%nat)) (js "overview"), parts !! 1%nat).

(** Restoring a route, on signing in and on [popstate]. *)
Definition restore (u : ui) : ui :=
  let '(page, section) := routeFromHash (u_hash u) in (switchPage page section true u).1.

Definition app_hidden (u : ui) : bool := default true (snd <$> (u_views u !! 2%nat)).
Definition popstate (u : ui) : ui := if app_hidden u then u else restore u.

(** ** Events *)

Inductive revent : Type :=
  | EGoto (page : jstr) (section : option jstr)   (* a click that calls switchPage *)
  | ESection (page section : jstr)                (* a click on a section button *)
  | ELogin (mustChange : bool)                    (* afterLogin *)
  | EPassword                                     (* the forced password change *)
  | ELogout
  | EBack
  | EForward
  | ETyped (hash : jstr).                         (* an address typed by hand *)

Definition page_shown (page : jstr) (u : ui) : bool := bool_decide ((page, false) ∈ u_pages u).

(** One event.  What is not on screen cannot be clicked. *)
Definition rstep (u : ui) (e : revent) : ui :=
  match e with
  | EGoto page section => if app_hidden u then u else (switchPage page section false u).1
  | ESection page section =>
      if app_hidden u || negb (page_shown page u) then u
      else
        match showSection page (Some section) u with
        | Some u' => setRoute (js "#/" ++ page ++ js "/" ++ section) false u'
        | None => u
        end
  | ELogin true => show (js "view-password") u
  | ELogin false => restore (show (js "view-app") u)
  | EPassword => (switchPage (js "overview") None false (show (js "view-app") u)).1
  | ELogout => show (js "view-login") u
  | EBack =>
      match u_back u with
      | [] => u
      | h :: back => popstate (set_history back h (u_hash u :: u_fwd u) u)
      end
  | EForward =>
      match u_fwd u with
      | [] => u
      | h :: fwd => popstate (set_history (u_hash u :: u_back u) h fwd u)
      end
  | ETyped h =>
      popstate (if decide (u_hash u = h) then u else set_history (u_hash u :: u_back u) h [] u)
  end.

Definition rrun (u : ui) (es : list revent) : ui := fold_left rstep es u.

(** The document as it is loaded at an address, with the history around it. *)
Definition first_sections (f : list jstr → jstr → flags) : gmap jstr flags :=
  list_to_map (omap (λ p, match sectionNavs p with
    | Some ids => Some (p, f ids (default [] (head ids)))
    | None => None end) pageLoaders).
Definition loaded_at (back : list jstr) (hash : jstr) (fwd : list jstr) : ui :=
  Ui (hide_others views []) (mark_only pagenav (js "overview")) (hide_others pageLoaders (js "overview")) ∅
     (first_sections mark_only) (first_sections hide_others) back hash fwd [].

(** What is on screen: the pages, and the sections of those pages. *)
Definition shown_of (f : flags) : list jstr := map fst (List.filter (λ x, negb (snd x)) f).
Arguments shown_of f : simpl never.
Definition view_of (u : ui) : list jstr * list jstr :=
  let pages := shown_of (u_pages u) in
  (pages, flat_map (λ p, match sectionNavs p with
                          | Some _ => shown_of (default [] (u_secs u !! p))
                          | None => [] end) pages).

Example view_ex :
  let u := rrun (loaded_at [] [] []) [ELogin false; EGoto (js "settings") None; ESection (js "settings") (js "backup");
             EGoto (js "help") None; EBack] in
  (view_of u, u_hash u, u_back u) =
  (([js "settings"], [js "backup"]), js "#/settings/backup", [js "#/settings/general"; js "#/overview"]).
Proof. by_compute. Qed.

(** ** Routes *)

(** The routes the page can be at, and their addresses. *)
Definition routes : list (jstr * option jstr) :=
  flat_map (λ p, match sectionNavs p with
                 | Some ids => map (λ s, (p, Some s)) ids
                 | None => [(p, None)] end) pageLoaders.
Definition route_hash (r : jstr * option jstr) : jstr :=
  js "#/" ++ r.1 ++ match r.2 with Some s => js "/" ++ s | None => [] end.

Lemma routes_parse r : r ∈ routes → routeFromHash (route_hash r) = r ∧ r.1 ∈ pageLoaders ∧ r.1 ∉ object_proto.
Proof.
  revert r. apply (list.Forall_forall (λ r, routeFromHash (route_hash r) = r ∧ r.1 ∈ pageLoaders ∧ r.1 ∉ object_proto)).
  apply (bool_decide_unpack _). by_compute.
Qed.

Lemma elem_of_routes p so :
  (p, so) ∈ routes ↔ p ∈ pageLoaders ∧
    match sectionNavs p, so with
    | Some ids, Some s => s ∈ ids
    | None, None => True
    | _, _ => False
    end.
Proof.
  unfold routes. rewrite list_elem_of_In, in_flat_map. split.
  - intros (q & Hq & H). apply list_elem_of_In in Hq. destruct (sectionNavs q) as [ids|] eqn:E.
    + apply in_map_iff in H as (s & [= <- <-] & H). rewrite E. by apply list_elem_of_In in H.
    + destruct H as [[= <- <-]|[]]. by rewrite E.
  - intros [Hp H]. exists p. rewrite <- list_elem_of_In. split; [done|].
    destruct (sectionNavs p) as [ids|], so as [s|]; try done; [|by left].
    apply in_map_iff. exists s. by rewrite <- list_elem_of_In.
Qed.

(** The page [u] shows, the section it is at, and the address, agree. *)
Definition at_route (r : jstr * option jstr) (u : ui) : Prop :=
  r ∈ routes ∧ u_pages u = hide_others pageLoaders r.1 ∧ u_nav u = mark_only pagenav r.1
  ∧ u_hash u = route_hash r
  ∧ match r.2 with
    | None => True
    | Some s => ∃ ids, sectionNavs r.1 = Some ids ∧ u_current u !! r.1 = Some s
        ∧ u_secnav u !! r.1 = Some (mark_only ids s) ∧ u_secs u !! r.1 = Some (hide_others ids s)
    end.

(** The remembered sections exist. *)
Definition current_ok (u : ui) : Prop :=
  ∀ page s, u_current u !! page = Some s → ∃ ids, sectionNavs page = Some ids ∧ s ∈ ids.

Definition ok_hash (h : jstr) : Prop := (routeFromHash h).1 ∉ object_proto.
Definition history (u : ui) : list jstr := u_back u ++ u_hash u :: u_fwd u.

Definition rinv (u : ui) : Prop :=
  current_ok u ∧ Forall ok_hash (history u) ∧ (app_hidden u = false → ∃ r, at_route r u).

(** An event the page's own elements can cause; typed addresses may be
    anything but the names an object literal inherits. *)
Definition revent_ok (e : revent) : Prop :=
  match e with
  | EGoto page _ => page ∈ pageLoaders
  | ESection page section => ∃ ids, sectionNavs page = Some ids ∧ section ∈ ids
  | ETyped h => ok_hash h
  | _ => True
  end.

Lemma shown_hide_others ids want : NoDup ids → want ∈ ids → shown_of (hide_others ids want) = [want].
Proof.
  unfold shown_of, hide_others. intros Hd Hw. induction Hd as [|p ids Hp Hd IH]; [by apply elem_of_nil in Hw|].
  cbn. destruct (decide (p = want)) as [->|Hne].
  - rewrite bool_decide_true by done. cbn. f_equal. clear -Hp.
    induction ids as [|q ids IH]; [done|]. apply not_elem_of_cons in Hp as [? ?].
    cbn. rewrite bool_decide_false by done. cbn. by apply IH.
  - rewrite bool_decide_false by done. cbn. apply IH. apply elem_of_cons in Hw as [|]; congruence.
Qed.

Lemma sections_facts page ids :
  sectionNavs page = Some ids → NoDup ids ∧ default [] (head ids) ∈ ids ∧ Forall (λ s, s ≠ []) ids ∧ page ∈ pageLoaders.
Proof.
  unfold sectionNavs. intros H.
  repeat case_decide; simplify_eq; apply (bool_decide_unpack _); by_compute.
Qed.

Lemma pageLoaders_nodup : NoDup pageLoaders.
Proof. apply (bool_decide_unpack _). by_compute. Qed.

Lemma at_route_view r u : at_route r u → view_of u = ([r.1], option_list r.2).
Proof.
  intros (Hr & Hp & _ & _ & Hs). destruct r as [p so]. cbn in *. unfold view_of.
  pose proof (proj1 (elem_of_routes _ _) Hr) as [Hin Hm].
  rewrite Hp, shown_hide_others by (done || apply pageLoaders_nodup). cbn.
  destruct (sectionNavs p) as [ids|] eqn:E, so as [s|]; try done.
  destruct Hs as (ids' & [= <-] & _ & _ & ->). cbn.
  rewrite shown_hide_others; [done|by apply sections_facts in E as [? _]|done].
Qed.

(** ** What [switchPage] does *)

(** The section [showSection] picks. *)
Definition wanted (page : jstr) (ids : list jstr) (section : option jstr) (u : ui) : jstr :=
  let fallback := default (default [] (head ids)) (u_current u !! page) in
  match section with Some s => if decide (s ∈ ids) then s else fallback | None => fallback end.

Lemma wanted_in page ids section u :
  sectionNavs page = Some ids → current_ok u → wanted page ids section u ∈ ids.
Proof.
  intros E Hc. apply sections_facts in E as F. destruct F as (_ & Hh & _ & _). unfold wanted.
  assert (default (default [] (head ids)) (u_current u !! page) ∈ ids).
  { destruct (u_current u !! page) as [c|] eqn:Ec; [cbn|done].
    apply Hc in Ec as (ids' & E' & Hin). congruence. }
  destruct section; [case_decide|]; done.
Qed.

Lemma showSection_eq page section u ids :
  sectionNavs page = Some ids → current_ok u →
  showSection page section u =
    let want := wanted page ids section u in
    Some (set_sections (<[page := want]> (u_current u)) (<[page := mark_only ids want]> (u_secnav u))
            (<[page := hide_others ids want]> (u_secs u)) u).
Proof.
  intros E Hc. unfold showSection. rewrite E. unfold wanted.
  destruct (u_current u !! page) as [c|] eqn:Ec; [|done]. cbn [default].
  apply Hc in Ec as (ids' & E' & Hin). assert (ids' = ids) as -> by congruence.
  apply sections_facts in E as (_ & _ & Hne & _).
  rewrite list.Forall_forall in Hne. specialize (Hne c Hin). by destruct c.
Qed.

Lemma current_ok_insert page ids s u u' :
  sectionNavs page = Some ids → s ∈ ids → current_ok u → u_current u' = <[page := s]> (u_current u) → current_ok u'.
Proof.
  intros E Hs Hc Eu p t. rewrite Eu, lookup_insert_Some. intros [[<- <-]|[_ H]]; [eauto|by apply Hc in H].
Qed.

(** The page [switchPage] opens, and the route. *)
Definition opened (name : jstr) : jstr := if decide (name ∈ pageLoaders) then name else js "overview".
Definition opened_route (name : jstr) (section : option jstr) (u : ui) : jstr * option jstr :=
  (opened name, (λ ids, wanted (opened name) ids section u) <$> sectionNavs (opened name)).

Lemma opened_in name : opened name ∈ pageLoaders ∧ opened name ∉ object_proto.
Proof.
  assert (Forall (λ p, p ∉ object_proto) pageLoaders) as H by (apply (bool_decide_unpack _); by_compute).
  rewrite list.Forall_forall in H. unfold opened. case_decide; [auto|].
  split; apply (bool_decide_unpack _); by_compute.
Qed.

Lemma opened_route_in name section u : current_ok u → opened_route name section u ∈ routes.
Proof.
  intros Hc. apply elem_of_routes. destruct (opened_in name) as [H _]. split; [done|].
  destruct (sectionNavs (opened name)) as [ids|] eqn:E; cbn; [|done]. by apply wanted_in.
Qed.

Lemma setRoute_hash h r u : u_hash (setRoute h r u) = h.
Proof. unfold setRoute. case_decide; [done|]. by destruct r. Qed.

(** [switchPage] runs to its end, and the page it opens is the one on screen
    and in the address; only [setRoute] touches the history. *)
Lemma switchPage_ok name section replace u :
  name ∉ object_proto → current_ok u →
  let r := opened_route name section u in
  let res := switchPage name section replace u in
  res.2 = true ∧ at_route r res.1 ∧ current_ok res.1 ∧ u_views res.1 = u_views u
  ∧ (∃ u2, u_back u2 = u_back u ∧ u_hash u2 = u_hash u ∧ u_fwd u2 = u_fwd u
      ∧ history res.1 = history (setRoute (route_hash r) replace u2)
      ∧ u_back res.1 = u_back (setRoute (route_hash r) replace u2)
      ∧ u_fwd res.1 = u_fwd (setRoute (route_hash r) replace u2)).
Proof.
  intros Hn Hc r res. pose proof (opened_route_in name section u Hc) as Hr. fold r in Hr.
  destruct (opened_in name) as [Ho Ho'].
  assert ((if has_loader name then name else js "overview") = opened name) as En.
  { unfold has_loader, opened. repeat case_decide; case_bool_decide; tauto. }
  unfold res, switchPage. rewrite En. set (u1 := set_pages _ _ u).
  assert (Hc1 : current_ok u1) by done.
  destruct (sectionNavs (opened name)) as [ids|] eqn:E.
  - rewrite bool_decide_true by (left; eauto). rewrite (showSection_eq _ _ _ ids E Hc1).
    cbv beta iota zeta. change (wanted (opened name) ids section u1) with (wanted (opened name) ids section u).
    set (want := wanted _ _ _ u). assert (r = (opened name, Some want)) as Er.
    { unfold r, opened_route. by rewrite E. }
    set (u2 := set_sections _ _ _ u1).
    assert (hash_for (opened name) u2 = route_hash r) as Eh.
    { unfold hash_for. rewrite E, Er. cbn. by rewrite lookup_insert_eq. }
    rewrite Eh. cbn [fst snd]. split; [done|]. split; [|split; [|split]].
    + split; [done|]. rewrite Er. unfold setRoute.
      destruct (decide _) as [<-|]; destruct replace; cbn; rewrite ?lookup_insert_eq; eauto 10.
    + eapply (current_ok_insert (opened name) ids want u); [done|by apply wanted_in|done|].
      unfold setRoute. case_decide; [done|]. by destruct replace.
    + unfold setRoute. case_decide; [done|]. by destruct replace.
    + exists u2. done.
  - rewrite bool_decide_false by (intros [[? ?]|?]; done).
    cbv beta iota zeta.
    assert (r = (opened name, None)) as Er. { unfold r, opened_route. by rewrite E. }
    assert (hash_for (opened name) u1 = route_hash r) as Eh. { unfold hash_for. by rewrite E, Er. }
    rewrite Eh. cbn [fst snd]. split; [done|]. split; [|split; [|split]].
    + split; [done|]. rewrite Er. unfold setRoute.
      destruct (decide _) as [<-|]; destruct replace; cbn; eauto 10.
    + unfold setRoute. case_decide; [done|]. by destruct replace.
    + unfold setRoute. case_decide; [done|]. by destruct replace.
    + exists u1. done.
Qed.

Lemma setRoute_history h r u :
  ok_hash h → Forall ok_hash (history u) → Forall ok_hash (history (setRoute h r u)).
Proof.
  unfold setRoute, history. intros Hh Hu. case_decide; [done|].
  apply list.Forall_app in Hu as [Hb Hf]. apply list.Forall_cons in Hf as [Hc Hf].
  destruct r; cbn; [apply list.Forall_app; split; [done|by constructor]|].
  constructor; [done|]. apply list.Forall_app. split; [done|]. by repeat constructor.
Qed.

Lemma history_same u v :
  u_back u = u_back v → u_hash u = u_hash v → u_fwd u = u_fwd v → history u = history v.
Proof. unfold history. by intros -> -> ->. Qed.

(** Restoring a route opens it and leaves the history alone. *)
Lemma restore_at r v :
  current_ok v → r ∈ routes → u_hash v = route_hash r →
  at_route r (restore v) ∧ u_back (restore v) = u_back v ∧ u_fwd (restore v) = u_fwd v.
Proof.
  intros Hc Hr Hh. destruct (routes_parse r Hr) as (Hp & Hin & Hn). unfold restore. rewrite Hh, Hp.
  destruct r as [p so]. cbn in Hin, Hn.
  destruct (switchPage_ok p so true v Hn Hc) as (_ & Ha & _ & _ & u2 & H1 & H2 & H3 & _ & H4 & H5).
  assert (opened_route p so v = (p, so)) as E.
  { unfold opened_route, opened. rewrite decide_True by done. f_equal.
    pose proof (proj1 (elem_of_routes _ _) Hr) as [_ Hm].
    destruct (sectionNavs p) as [ids|], so as [s|]; try done. cbn. f_equal. unfold wanted.
    by rewrite decide_True. }
  rewrite E in *. split; [done|]. unfold setRoute in H4, H5.
  rewrite decide_True in H4, H5 by congruence. split; congruence.
Qed.

Lemma app_hidden_views u v : u_views u = u_views v → app_hidden u = app_hidden v.
Proof. unfold app_hidden. by intros ->. Qed.

Lemma switch_rinv name section replace u :
  name ∉ object_proto → current_ok u → Forall ok_hash (history u) → rinv (switchPage name section replace u).1.
Proof.
  intros Hn Hc Hh.
  destruct (switchPage_ok name section replace u Hn Hc) as (_ & Ha & Hc' & _ & u2 & H1 & H2 & H3 & H4 & _).
  split; [done|]. split; [|by eauto]. rewrite H4. apply setRoute_history.
  - destruct (routes_parse _ (opened_route_in name section u Hc)) as (E & _ & Hp).
    unfold ok_hash. by rewrite E.
  - by rewrite (history_same u2 u).
Qed.

Lemma restore_rinv u : current_ok u → Forall ok_hash (history u) → rinv (restore u).
Proof.
  intros Hc Hh. unfold restore. destruct (routeFromHash (u_hash u)) as [p so] eqn:E.
  apply switch_rinv; [|done..]. unfold history in Hh. apply list.Forall_app in Hh as [_ Hh].
  apply list.Forall_cons in Hh as [Hh _]. unfold ok_hash in Hh. by rewrite E in Hh.
Qed.

Lemma popstate_rinv u : current_ok u → Forall ok_hash (history u) → rinv (popstate u).
Proof.
  intros Hc Hh. unfold popstate. destruct (app_hidden u) eqn:E; [|by apply restore_rinv].
  split; [done|]. split; [done|]. by rewrite E.
Qed.

(** The section a click opens, on the page that is on screen. *)
Lemma section_click page s ids u :
  sectionNavs page = Some ids → s ∈ ids → rinv u → app_hidden u = false → page_shown page u = true →
  ∃ u2, rstep u (ESection page s) = setRoute (route_hash (page, Some s)) false u2
    ∧ u_back u2 = u_back u ∧ u_hash u2 = u_hash u ∧ u_fwd u2 = u_fwd u ∧ u_views u2 = u_views u
    ∧ at_route (page, Some s) (setRoute (route_hash (page, Some s)) false u2) ∧ current_ok u2.
Proof.
  intros E Hs (Hc & Hh & Hv) Ha Hp. cbn [rstep]. rewrite Ha, Hp. cbn [orb negb].
  rewrite (showSection_eq _ _ _ ids E Hc). cbv zeta.
  assert (wanted page ids (Some s) u = s) as -> by (unfold wanted; by rewrite decide_True).
  eexists. split; [reflexivity|]. do 4 (split; [done|]).
  destruct (Hv Ha) as ([p so] & Hr & Hpg & Hnav & _). cbn in Hpg, Hnav.
  assert (p = page) as ->.
  { unfold page_shown in Hp. apply bool_decide_eq_true in Hp. rewrite Hpg in Hp.
    unfold hide_others in Hp. apply list_elem_of_fmap in Hp as (q & [= <- Hq] & _).
    symmetry in Hq. by apply negb_false_iff, bool_decide_eq_true in Hq. }
  split.
  - split; [apply elem_of_routes; rewrite E; split; [by apply sections_facts in E as (_ & _ & _ & ?)|done]|].
    unfold setRoute. destruct (decide _) as [<-|]; cbn; rewrite ?lookup_insert_eq; eauto 10.
  - eapply (current_ok_insert page ids s u); done.
Qed.

Lemma rstep_rinv u e : rinv u → revent_ok e → rinv (rstep u e).
Proof.
  intros Hu He. pose proof Hu as (Hc & Hh & Hv).
  assert (∀ a h b, history (set_history a h b u) = a ++ h :: b) as Hset by done.
  pose proof Hh as Hh'. unfold history in Hh'. apply list.Forall_app in Hh' as [Hb Hf].
  apply list.Forall_cons in Hf as [Hc0 Hf].
  destruct e as [p so|p s|[]| | | | |h]; cbn [rstep].
  - destruct (app_hidden u); [done|]. apply switch_rinv; try done.
    destruct (opened_in p) as [_ H]. unfold opened in H. by rewrite decide_True in H.
  - destruct He as (ids & E & Hs). destruct (app_hidden u) eqn:Ea; [done|].
    destruct (page_shown p u) eqn:Ep; [|done].
    destruct (section_click p s ids u E Hs Hu Ea Ep) as (u2 & Hst & B & H & F & V & A & C).
    cbn [rstep] in Hst. rewrite Ea, Ep in Hst. cbn [orb negb] in Hst |- *. rewrite Hst.
    split; [|split; [|by eauto]].
    + unfold setRoute. by case_decide.
    + apply setRoute_history; [|by rewrite (history_same u2 u)].
      destruct A as [A _]. destruct (routes_parse _ A) as (E' & _ & ?). unfold ok_hash. by rewrite E'.
  - by split; [|split].
  - by apply restore_rinv.
  - apply switch_rinv; [apply (bool_decide_unpack _); by_compute|done..].
  - by split; [|split].
  - destruct (u_back u) as [|h back] eqn:E; [done|]. apply popstate_rinv; [done|]. rewrite Hset.
    apply list.Forall_cons in Hb as [? ?].
    apply list.Forall_app; split; [done|]. by repeat constructor.
  - destruct (u_fwd u) as [|h fwd] eqn:E; [done|]. apply popstate_rinv; [done|]. rewrite Hset.
    apply list.Forall_cons in Hf as [? ?]. constructor; [done|].
    apply list.Forall_app; split; [done|]. by repeat constructor.
  - apply popstate_rinv; [by case_decide|]. case_decide; [done|]. rewrite Hset.
    constructor; [done|]. apply list.Forall_app; split; [done|]. by repeat constructor.
Qed.

(** The states the page can be in. *)
Definition reachable (u : ui) : Prop :=
  ∃ back hash fwd es, Forall ok_hash (back ++ hash :: fwd) ∧ Forall revent_ok es
    ∧ u = rrun (loaded_at back hash fwd) es.

Lemma reachable_rinv u : reachable u → rinv u.
Proof.
  intros (back & hash & fwd & es & Hh & He & ->).
  assert (rinv (loaded_at back hash fwd)) as H.
  { split; [intros ? ?; cbn; by rewrite lookup_empty|]. by split. }
  revert H. generalize (loaded_at back hash fwd). clear Hh. induction He as [|e es He _ IH]; intros u Hu; [done|].
  cbn. by apply IH, rstep_rinv.
Qed.

(** ** Properties *)

(** C5. The view and the address agree: at any time after signing in, in any
    order of clicks, Back, Forward and typed addresses, exactly one page is
    on screen, with exactly one section when it has sections, and the address
    reads back as that page and section. *)
Theorem view_matches_address u :
  reachable u → app_hidden u = false →
  ∃ page section, view_of u = ([page], option_list section)
    ∧ routeFromHash (u_hash u) = (page, section)
    ∧ (page, section) ∈ routes
    ∧ u_nav u = mark_only pagenav page.
Proof.
  intros Hu Ha. apply reachable_rinv in Hu as (_ & _ & Hv). destruct (Hv Ha) as ([p so] & Hr).
  exists p, so. rewrite (at_route_view _ _ Hr). destruct Hr as (Hr & _ & Hn & Hh & _).
  rewrite Hh. by destruct (routes_parse _ Hr) as (-> & _).
Qed.

(** A reload, or a link shared with somebody else, opens the view it was
    taken from. *)
Theorem reload_same_view u :
  reachable u → app_hidden u = false →
  let u' := rstep (loaded_at (u_back u) (u_hash u) (u_fwd u)) (ELogin false) in
  view_of u' = view_of u ∧ history u' = history u.
Proof.
  intros Hu Ha u'. apply reachable_rinv in Hu as (_ & _ & Hv). destruct (Hv Ha) as (r & Hr).
  pose proof Hr as (Hin & _ & _ & Hh & _).
  assert (current_ok (show (js "view-app") (loaded_at (u_back u) (u_hash u) (u_fwd u)))) as Hc.
  { intros ? ?. cbn. by rewrite lookup_empty. }
  destruct (restore_at r _ Hc Hin Hh) as (Hr' & Hb & Hf).
  unfold u'. cbn [rstep]. split; [by rewrite (at_route_view _ _ Hr), (at_route_view _ _ Hr')|].
  apply history_same; [done| |done]. destruct Hr' as (_ & _ & _ & -> & _). by rewrite Hh.
Qed.

Definition is_click (e : revent) : Prop :=
  match e with EGoto _ _ | ESection _ _ => True | _ => False end.

Lemma click_history u e :
  rinv u → app_hidden u = false → is_click e → revent_ok e →
  app_hidden (rstep u e) = false
  ∧ (u_hash (rstep u e) = u_hash u ∧ u_back (rstep u e) = u_back u ∧ u_fwd (rstep u e) = u_fwd u
     ∨ u_hash (rstep u e) ≠ u_hash u ∧ u_back (rstep u e) = u_hash u :: u_back u ∧ u_fwd (rstep u e) = []).
Proof.
  intros Hu Ha Hc He. assert (∀ h u2, u_back u2 = u_back u → u_hash u2 = u_hash u → u_fwd u2 = u_fwd u →
    let v := setRoute h false u2 in
    u_hash v = u_hash u ∧ u_back v = u_back u ∧ u_fwd v = u_fwd u
    ∨ u_hash v ≠ u_hash u ∧ u_back v = u_hash u :: u_back u ∧ u_fwd v = []) as Hset.
  { intros h u2 B H F v. unfold v, setRoute. case_decide as D; [by left|right]. cbn. split_and!; congruence. }
  destruct e as [p so|p s| | | | | |]; try done.
  - cbn [rstep] in *. rewrite Ha. destruct (opened_in p) as [_ Hn]. unfold opened in Hn.
    rewrite decide_True in Hn by done. pose proof Hu as (Hcur & _).
    destruct (switchPage_ok p so false u Hn Hcur) as (_ & A & _ & V & u2 & B & H & F & _ & H4 & H5).
    rewrite (app_hidden_views _ _ V). split; [done|].
    specialize (Hset (route_hash (opened_route p so u)) u2 B H F). cbn in Hset.
    rewrite H4, H5. destruct A as (_ & _ & _ & -> & _). by rewrite setRoute_hash in Hset.
  - destruct He as (ids & E & Hs). destruct (page_shown p u) eqn:Ep.
    + destruct (section_click p s ids u E Hs Hu Ha Ep) as (u2 & -> & B & H & F & V & _).
      split; [|by apply Hset]. transitivity (app_hidden u); [|done].
      apply app_hidden_views. rewrite <- V.
      unfold setRoute. by case_decide.
    + cbn [rstep]. rewrite Ha, Ep. cbn. split; [done|by left].
Qed.

(** C33. A page or section somebody opens is one entry of the browser's
    history, and opening the view that is on screen adds none.  Back then
    returns to the view before, and Forward to the one it left. *)
Theorem back_returns u e :
  reachable u → app_hidden u = false → is_click e → revent_ok e →
  let u1 := rstep u e in
  if decide (u_hash u1 = u_hash u) then u_back u1 = u_back u ∧ u_fwd u1 = u_fwd u
  else
    u_back u1 = u_hash u :: u_back u
    ∧ view_of (rstep u1 EBack) = view_of u ∧ u_hash (rstep u1 EBack) = u_hash u
    ∧ view_of (rstep (rstep u1 EBack) EForward) = view_of u1.
Proof.
  intros Hr Ha Hcl He u1. apply reachable_rinv in Hr as Hu.
  destruct (click_history u e Hu Ha Hcl He) as [Ha1 H]. pose proof (rstep_rinv u e Hu He) as Hu1.
  fold u1 in Ha1, H, Hu1. clearbody u1. destruct Hu1 as (Hc1 & Hh1 & Hv1). case_decide as D; destruct H as [(He1 & HB & HF)|(Hne & HB & HF)]; try done.
  destruct Hu as (Hc & _ & Hv). destruct (Hv Ha) as (r & Hat). destruct (Hv1 Ha1) as (r1 & Hat1).
  pose proof Hat as (Hin & _ & _ & Hh & _). pose proof Hat1 as (Hin1 & _ & _ & Hh1' & _).
  set (v := set_history (u_back u) (u_hash u) (u_hash u1 :: u_fwd u1) u1).
  assert (rstep u1 EBack = restore v) as ->.
  { cbn [rstep]. rewrite HB. change (popstate v = restore v). unfold popstate. by rewrite (app_hidden_views v u1), Ha1 by done. }
  destruct (restore_at r v Hc1 Hin Hh) as (Hatv & Hbv & Hfv). cbn [v u_fwd set_history] in Hfv.
  assert (rinv (restore v)) as (Hcv & _ & _).
  { apply restore_rinv; [done|]. unfold history in Hh1 |- *. cbn.
    rewrite HB in Hh1. apply list.Forall_app in Hh1 as [Hb Hf]. apply list.Forall_cons in Hb as [? ?].
    apply list.Forall_app. split; [done|]. by constructor. }
  assert (app_hidden (restore v) = false) as Hav.
  { transitivity (app_hidden u1); [|done]. apply app_hidden_views. unfold restore.
    change (u_hash v) with (u_hash u).
    rewrite Hh. destruct (routes_parse _ Hin) as (E & _ & Hn). rewrite E. destruct r as [p so].
    by destruct (switchPage_ok p so true v Hn Hc1) as (_ & _ & _ & -> & _). }
  set (w := set_history (u_hash (restore v) :: u_back (restore v)) (u_hash u1) (u_fwd u1) (restore v)).
  assert (rstep (restore v) EForward = restore w) as ->.
  { cbn [rstep]. rewrite Hfv. change (popstate w = restore w). unfold popstate. by rewrite (app_hidden_views w (restore v)), Hav by done. }
  destruct (restore_at r1 w Hcv Hin1 Hh1') as (Hatw & _).
  rewrite (at_route_view _ _ Hatv), (at_route_view _ _ Hat), (at_route_view _ _ Hatw), (at_route_view _ _ Hat1).
  destruct Hatv as (_ & _ & _ & -> & _). by split_and!.
Qed.

(** An open page of the history, for the witnesses: signed in at an empty
    address, then Settings. *)
Definition sample_ui : ui := rrun (loaded_at [] [] []) [ELogin false; EGoto (js "settings") None].
Lemma sample_reachable : reachable sample_ui.
Proof.
  exists [], [], [], [ELogin false; EGoto (js "settings") None].
  split_and!; [..|done]; repeat constructor; apply (bool_decide_unpack _); by_compute.
Qed.

Lemma view_matches_address_witness :
  ∃ page section, view_of sample_ui = ([page], option_list section)
    ∧ routeFromHash (u_hash sample_ui) = (page, section) ∧ page = js "settings".
Proof.
  destruct (view_matches_address sample_ui sample_reachable) as (p & s & H1 & H2 & _); [by_compute|].
  exists p, s. split_and!; [done..|]. vm_compute in H1. injection H1 as <- _. by_compute.
Defined.

Lemma reload_same_view_witness :
  view_of (rstep (loaded_at (u_back sample_ui) (u_hash sample_ui) (u_fwd sample_ui)) (ELogin false)) = view_of sample_ui.
Proof. apply (reload_same_view sample_ui sample_reachable). by_compute. Defined.

Lemma back_returns_witness :
  view_of (rstep (rstep sample_ui (ESection (js "settings") (js "backup"))) EBack) = ([js "settings"], [js "general"]).
Proof.
  pose proof (back_returns sample_ui (ESection (js "settings") (js "backup")) sample_reachable) as H.
  cbv zeta in H. rewrite decide_False in H by (intros E; vm_compute in E; discriminate).
  destruct H as (_ & H & _); [by_compute|done| |].
  - eexists. split; [reflexivity|]. apply (bool_decide_unpack _). by_compute.
  - rewrite H. by_compute.
Defined.

(** An address that names a property every object inherits passes the test of
    [switchPage] for a page that exists: the page goes blank, no section and
    no loader runs, and the address stays. *)
Theorem inherited_name_blanks :
  let u := rstep sample_ui (ETyped (js "#/constructor")) in
  app_hidden u = false ∧ view_of u = ([], []) ∧ u_hash u = js "#/constructor" ∧ u_loaded u = u_loaded sample_ui.
Proof. split_and!; by_compute. Qed.
