(* ===== verification/Logs.v ===== *)
(** * The log viewer (web/app.js, logs page)

    One viewer for every access log.  The server returns the newest entries;
    scope, filter and paging happen in the page.  The model keeps [logState],
    the fields the functions read (scope, filter, rows per page) and what
    [renderLogs] writes.

    [String.prototype.toLowerCase] and the locale's date formats are the
    browser's tables; they are variables of the section, and nothing is
    assumed of them. *)

From Stdlib Require Import Ascii String ZArith NArith Lia.
From stdpp Require Import base list strings numbers sorting.
From S2P Require Import Prelude JsString Regex Html.

Local Open Scope Z_scope.

(** ** Scopes *)

(** [encodeURIComponent]: unreserved units stand for themselves, the others
    for the bytes of their UTF-8 encoding; a lone surrogate is an exception,
    here [None]. *)
Definition uri_unreserved (c : N) : bool :=
  cls_or (cls_or (cls_range "a" "z") (cls_range "A" "Z")) (cls_or is_digit (cls_of "-_.!~*'()")) c.
Definition hex_digit (n : N) : N := if N.ltb n 10 then (48 + n)%N else (55 + n)%N.
Definition pct (b : N) : jstr := [ch "%"; hex_digit (b / 16); hex_digit (b mod 16)].
Definition utf8 (cp : N) : list N :=
  (if N.ltb cp 128 then [cp]
   else if N.ltb cp 2048 then [192 + cp / 64; 128 + cp mod 64]
   else if N.ltb cp 65536 then [224 + cp / 4096; 128 + (cp / 64) mod 64; 128 + cp mod 64]
   else [240 + cp / 262144; 128 + (cp / 4096) mod 64; 128 + (cp / 64) mod 64; 128 + cp mod 64])%N.
Fixpoint encodeURIComponent (s : jstr) : option jstr :=
  match s with
  | [] => Some []
  | c :: t =>
      if uri_unreserved c then option_map (cons c) (encodeURIComponent t)
      else if N.leb 56320 c && N.leb c 57343 then None
      else if N.leb 55296 c && N.leb c 56319 then
        match t with
        | d :: t' =>
            if N.leb 56320 d && N.leb d 57343 then
              option_map (app (flat_map pct (utf8 ((c - 55296) * 1024 + (d - 56320) + 65536)%N)))
                (encodeURIComponent t')
            else None
        | [] => None
        end
      else option_map (app (flat_map pct (utf8 c))) (encodeURIComponent t)
  end.

Definition re_host : re := rseq [RBol; rstr "host:"].

Definition logScopeQuery (scope : jstr) : option jstr :=
  if decide (scope = js "unmatched") then Some (js "&general=1")
  else if decide (scope = js "all") then Some []
  else option_map (app (js "&host=")) (encodeURIComponent (replace_first re_host (λ _, []) scope)).

Definition log_domains (hosts : list (list jstr)) : list jstr := str_sort (set_of [] (concat hosts)).

(** The options of the scope menu, and the one it selects. *)
Definition scope_options (hosts : list (list jstr)) : list jstr :=
  js "unmatched" :: js "all" :: map (app (js "host:")) (log_domains hosts).

(** ** Entries *)

Record entry : Type := Entry {
  e_ts : jstr; e_client_ip : jstr; e_host : jstr; e_method : jstr; e_path : jstr;
  e_status : Z; e_dur_ms : Z }.

(** [logState], the fields of the page, and what [renderLogs] writes. *)
Record log_view : Type := LogView {
  v_rows : list jstr; v_empty_hidden : bool; v_count : jstr; v_page : jstr;
  v_prev_disabled : bool; v_next_disabled : bool }.

Record log_state : Type := LogState {
  l_entries : list entry; l_page : Z; l_status : jstr; l_pending : jstr;
  l_scope : jstr;              (* logs-scope *)
  l_filter : jstr;             (* logs-filter *)
  l_size : jstr;               (* logs-pagesize *)
  l_host_hidden : bool;        (* logs-host-col *)
  l_view : log_view }.

Section logs.
Context (toLowerCase : jstr → jstr).
Context (is_today : jstr → bool) (time_string date_time_string : jstr → jstr).

Definition fillLogScopes (hosts : list (list jstr)) (st : log_state) : log_state :=
  let keep := str_or (str_or (l_pending st) (l_scope st)) (js "unmatched") in
  let scope := if decide (keep ∈ scope_options hosts) then keep else js "unmatched" in
  LogState (l_entries st) (l_page st) (l_status st) [] scope (l_filter st) (l_size st) (l_host_hidden st) (l_view st).

(** The text the filter is looked up in. *)
Definition entry_text (e : entry) : jstr :=
  (e_host e ++ js " " ++ e_client_ip e ++ js " " ++ e_method e ++ js " " ++ e_path e ++ js " " ++ js_of_Z (e_status e)).

Definition log_matches (status filter : jstr) (e : entry) : bool :=
  let q := toLowerCase (trim filter) in
  if truthy status && negb (bool_decide (take 1 (js_of_Z (e_status e)) = status)) then false
  else negb (truthy q) || includes q (toLowerCase (entry_text e)).

Definition filteredLogs (st : log_state) : list entry :=
  List.filter (log_matches (l_status st) (l_filter st)) (l_entries st).

Definition fmtLogTime (ts : jstr) : jstr :=
  match ts with
  | [] => []
  | _ => if is_today ts then time_string ts else date_time_string ts
  end.

Definition status_class (status : Z) : jstr :=
  if 500 <=? status then js "st--5" else if 400 <=? status then js "st--4"
  else if 300 <=? status then js "st--3" else js "st--2".

Definition cell (open : jstr) (s : jstr) : jstr := open ++ esc (Some s) ++ js "</td>".
Definition logRow (withHost : bool) (e : entry) : jstr :=
  cell (jq "<td class=`mono nowrap`>") (fmtLogTime (e_ts e))
  ++ cell (jq "<td class=`mono nowrap`>") (e_client_ip e)
  ++ (if withHost then cell (jq "<td class=`mono`>") (e_host e) else [])
  ++ cell (jq "<td class=`mono`>") (e_method e)
  ++ jq "<td class=`mono logpath` title=`" ++ esc (Some (e_path e)) ++ jq "`>" ++ esc (Some (e_path e)) ++ js "</td>"
  ++ jq "<td><span class=`st " ++ status_class (e_status e) ++ jq "`>" ++ esc (Some (js_of_Z (e_status e))) ++ js "</span></td>"
  ++ cell (jq "<td class=`mono num`>") (js_of_Z (e_dur_ms e)).

(** ** Paging *)

(** [Math.ceil(n / size)] for integers. *)
Definition ceil_div (n size : Z) : Z := - ((- n) / size).
Definition page_size (st : log_state) : Z := int_or (parse_int (l_size st)) 50.
Definition page_count (n size : Z) : Z := Z.max 1 (ceil_div n size).

Arguments page_count n size : simpl never.
Arguments page_size st : simpl never.
Arguments filteredLogs st : simpl never.
Arguments js_slice {A} a b l : simpl never.

Definition renderLogs (st : log_state) : log_state :=
  let rows := filteredLogs st in
  let n := Z.of_nat (length rows) in
  let size := page_size st in
  let pages := page_count n size in
  let page := Z.max 0 (Z.min (l_page st) (pages - 1)) in
  let start := page * size in
  let slice := js_slice start (start + size) rows in
  let withHost := negb (starts_with (js "host:") (l_scope st)) in
  LogState (l_entries st) page (l_status st) (l_pending st) (l_scope st) (l_filter st) (l_size st) (l_host_hidden st)
    (LogView (map (logRow withHost) slice) (0 <? n)
       (if n =? 0 then js "0 entries"
        else js_of_Z (start + 1) ++ js "-" ++ js_of_Z (start + Z.of_nat (length slice)) ++ js " of " ++ js_of_Z n)
       (js_of_Z (page + 1) ++ js " / " ++ js_of_Z pages)
       (page =? 0) (pages - 1 <=? page)).

Definition set_page (page : Z) (st : log_state) : log_state :=
  LogState (l_entries st) page (l_status st) (l_pending st) (l_scope st) (l_filter st) (l_size st) (l_host_hidden st) (l_view st).

Definition logsToPage (delta : Z) (st : log_state) : log_state := renderLogs (set_page (l_page st + delta) st).

(** [refreshLogs] after its request for [scope] is answered. *)
Definition logs_reply (scope : jstr) (reply : option (list entry)) (st : log_state) : log_state :=
  renderLogs (LogState (default [] reply) 0 (l_status st) (l_pending st) (l_scope st) (l_filter st) (l_size st)
    (starts_with (js "host:") scope) (l_view st)).

(** ** Events *)

Inductive levent : Type :=
  | LReply (scope : jstr) (reply : option (list entry))
  | LScope (scope : jstr)       (* the menu; its request is answered later *)
  | LFilter (text : jstr)
  | LSize (size : jstr)
  | LStatus (status : jstr)
  | LPrev
  | LNext
  | LHosts (hosts fetched : list (list jstr))   (* [loadLogs]; its request is answered later *)
  | LOpenHost (domains : list jstr).    (* the Logs button of a host *)

(** [loadLogs]: hosts that are known are not asked for again. *)
Definition loadLogs (hosts fetched : list (list jstr)) (st : log_state) : log_state :=
  fillLogScopes (match hosts with [] => fetched | _ => hosts end) st.
(** [openHostLogs], before the page is switched to. *)
Definition openHostLogs (domains : list jstr) (st : log_state) : log_state :=
  LogState (l_entries st) (l_page st) (l_status st) (js "host:" ++ default (js "undefined") (head domains)) (l_scope st) (l_filter st)
    (l_size st) (l_host_hidden st) (l_view st).

Definition lstep (st : log_state) (e : levent) : log_state :=
  match e with
  | LReply scope reply => logs_reply scope reply st
  | LScope scope =>
      LogState (l_entries st) (l_page st) (l_status st) (l_pending st) scope (l_filter st) (l_size st) (l_host_hidden st) (l_view st)
  | LFilter text =>
      renderLogs (LogState (l_entries st) 0 (l_status st) (l_pending st) (l_scope st) text (l_size st) (l_host_hidden st) (l_view st))
  | LSize size =>
      renderLogs (LogState (l_entries st) 0 (l_status st) (l_pending st) (l_scope st) (l_filter st) size (l_host_hidden st) (l_view st))
  | LStatus status =>
      renderLogs (LogState (l_entries st) 0 status (l_pending st) (l_scope st) (l_filter st) (l_size st) (l_host_hidden st) (l_view st))
  | LPrev => if v_prev_disabled (l_view st) then st else logsToPage (-1) st
  | LNext => if v_next_disabled (l_view st) then st else logsToPage 1 st
  | LHosts hosts fetched => loadLogs hosts fetched st
  | LOpenHost domains => openHostLogs domains st
  end.

Definition lrun (st : log_state) (es : list levent) : log_state := fold_left lstep es st.

(** The options of the rows menu. *)
Definition page_sizes : list jstr := map js ["50"; "100"; "250"].

Lemma page_sizes_pos st : l_size st ∈ page_sizes → 0 < page_size st.
Proof.
  unfold page_size. intros H.
  assert (Forall (λ s, 0 < int_or (parse_int s) 50) page_sizes) as F by (repeat constructor).
  by apply (proj1 (list.Forall_forall _ _) F) in H.
Qed.

Lemma ceil_div_spec n size : 0 < size → 0 <= n → n <= size * ceil_div n size < n + size.
Proof.
  intros Hs Hn. unfold ceil_div. pose proof (Z.div_mod (- n) size ltac:(lia)).
  pose proof (Z.mod_pos_bound (- n) size Hs). lia.
Qed.

(** ** One page after another *)

Lemma page_count_pos n size : 1 <= page_count n size.
Proof. unfold page_count. lia. Qed.

Lemma page_starts_inside n size page :
  0 < size → 0 < n → 0 <= page < page_count n size → page * size < n.
Proof.
  intros Hs Hn Hp. pose proof (ceil_div_spec n size Hs ltac:(lia)) as Hc. unfold page_count in Hp.
  assert (0 < ceil_div n size) by nia. nia.
Qed.

(** The pages of [renderLogs] cut the rows: together they are all the rows. *)
Lemma pages_partition (rows : list entry) size :
  0 < size →
  let pages := Z.to_nat (page_count (Z.of_nat (length rows)) size) in
  concat (map (λ i, js_slice (Z.of_nat i * size) (Z.of_nat i * size + size) rows) (seq 0 pages)) = rows.
Proof.
  intros Hs pages. pose proof (ceil_div_spec (Z.of_nat (length rows)) size Hs ltac:(lia)) as Hc.
  etransitivity; [|apply (concat_pages rows (Z.to_nat size) pages)].
  - f_equal. apply map_ext. intros i. rewrite js_slice_spec by nia. f_equal; [f_equal; lia|].
    f_equal. nia.
  - unfold pages, page_count. apply Nat2Z.inj_le. rewrite Nat2Z.inj_mul, !Z2Nat.id by lia. nia.
Qed.

(** What [renderLogs] shows, and where [Previous] and [Next] end. *)
Definition view_ok (st : log_state) : Prop :=
  let rows := filteredLogs st in
  let n := Z.of_nat (length rows) in
  let size := page_size st in
  let pages := page_count n size in
  0 <= l_page st < pages
  ∧ v_prev_disabled (l_view st) = bool_decide (l_page st = 0)
  ∧ v_next_disabled (l_view st) = bool_decide (l_page st = pages - 1)
  ∧ (∃ withHost, v_rows (l_view st) = map (logRow withHost) (js_slice (l_page st * size) (l_page st * size + size) rows))
  ∧ (rows ≠ [] → v_rows (l_view st) ≠ [])
  ∧ v_empty_hidden (l_view st) = bool_decide (rows ≠ []).

Lemma renderLogs_ok st : 0 < page_size st → view_ok (renderLogs st).
Proof.
  intros Hs. unfold view_ok, renderLogs. cbn.
  change (filteredLogs (LogState _ _ _ _ _ _ _ _ _)) with (filteredLogs st).
  change (page_size (LogState _ _ _ _ _ _ _ _ _)) with (page_size st).
  set (rows := filteredLogs st). set (n := Z.of_nat (length rows)). set (size := page_size st) in *.
  pose proof (page_count_pos n size) as Hp. set (pages := page_count n size) in *.
  set (page := Z.max 0 (Z.min (l_page st) (pages - 1))). split; [unfold page; lia|]. split_and!.
  - case_bool_decide; [apply Z.eqb_eq|apply Z.eqb_neq]; done.
  - case_bool_decide; [apply Z.leb_le|apply Z.leb_gt]; unfold page in *; lia.
  - by eexists.
  - intros Hne He. apply map_eq_nil in He. apply (f_equal length) in He.
    rewrite js_slice_spec in He by (unfold page; nia). rewrite length_take, length_drop in He. cbn in He.
    assert (length rows ≠ 0%nat) by (by rewrite length_zero_iff_nil).
    assert (0 < n) by (unfold n; lia).
    assert (page * size < n) by (apply page_starts_inside; unfold page, pages in *; lia).
    fold n in He. lia.
  - unfold n.
    case_bool_decide as E; rewrite <- length_zero_iff_nil in E; [apply Z.ltb_lt|apply Z.ltb_ge]; unfold n in *; lia.
Qed.

Lemma filtered_render st : filteredLogs (renderLogs st) = filteredLogs st.
Proof. done. Qed.
Lemma size_render st : page_size (renderLogs st) = page_size st.
Proof. done. Qed.

(** The page [renderLogs] settles on. *)
Definition pages_of (st : log_state) : Z := page_count (Z.of_nat (length (filteredLogs st))) (page_size st).
Lemma page_render st : l_page (renderLogs st) = Z.max 0 (Z.min (l_page st) (pages_of st - 1)).
Proof. done. Qed.

(** The slice of page [i], as [renderLogs] cuts it. *)
Definition page_rows (st : log_state) (i : Z) : list jstr :=
  map (logRow (negb (starts_with (js "host:") (l_scope st))))
    (js_slice (i * page_size st) (i * page_size st + page_size st) (filteredLogs st)).
Lemma rows_render st : v_rows (l_view (renderLogs st)) = page_rows st (l_page (renderLogs st)).
Proof. done. Qed.

Definition same_list (st st' : log_state) : Prop :=
  filteredLogs st' = filteredLogs st ∧ page_size st' = page_size st ∧ l_scope st' = l_scope st.

Lemma next_page st :
  0 < page_size st → view_ok st → l_page st < pages_of st - 1 →
  let st' := lstep st LNext in
  l_page st' = l_page st + 1 ∧ same_list st st' ∧ view_ok st' ∧ v_rows (l_view st') = page_rows st (l_page st + 1).
Proof.
  intros Hs Hv Hp. destruct Hv as (H1 & _ & Hn & _). cbn [lstep].
  rewrite Hn, bool_decide_false by (unfold pages_of in Hp; lia). unfold logsToPage.
  set (st1 := set_page _ st).
  assert (l_page (renderLogs st1) = l_page st + 1) as E.
  { rewrite page_render. change (pages_of st1) with (pages_of st). cbn. unfold pages_of in *. lia. }
  split; [done|]. split; [done|]. split; [by apply renderLogs_ok|].
  by rewrite rows_render, E.
Qed.

(** [k] clicks on [Next]. *)
Definition nexts (k : nat) (st : log_state) : log_state := Nat.iter k (λ st, lstep st LNext) st.

Lemma nexts_page k st :
  0 < page_size st → view_ok st → l_page st = 0 → v_rows (l_view st) = page_rows st 0 →
  Z.of_nat k < pages_of st →
  l_page (nexts k st) = Z.of_nat k ∧ same_list st (nexts k st) ∧ view_ok (nexts k st)
  ∧ v_rows (l_view (nexts k st)) = page_rows st (Z.of_nat k).
Proof.
  intros Hs Hv H0 Hr. induction k as [|k IH]; intros Hk; [done|].
  destruct IH as (E & (F1 & F2 & F3) & Hv' & _); [lia|]. change (nexts (S k) st) with (lstep (nexts k st) LNext).
  destruct (next_page (nexts k st)) as (G1 & (G2 & G3 & G4) & G5 & G6); [by rewrite F2|done| |].
  { rewrite E. unfold pages_of in *. rewrite F1, F2. lia. }
  rewrite G1, E, G6. split; [lia|]. split; [split_and!; congruence|]. split; [done|].
  unfold page_rows. rewrite F1, F2, F3, E. by replace (Z.of_nat k + 1) with (Z.of_nat (S k)) by lia.
Qed.

(** An event the page's own menus can cause. *)
Definition levent_ok (e : levent) : Prop := match e with LSize s => s ∈ page_sizes | _ => True end.

Lemma lstep_ok st e :
  l_size st ∈ page_sizes → levent_ok e → (view_ok st ∨ ∃ scope reply, e = LReply scope reply) →
  l_size (lstep st e) ∈ page_sizes ∧ view_ok (lstep st e).
Proof.
  intros Hs He Hv. pose proof (page_sizes_pos st Hs) as Hp.
  destruct e as [scope reply|scope|text|size|status| | |hosts fetched|domains]; cbn [lstep].
  - split; [done|]. by apply renderLogs_ok.
  - split; [done|]. destruct Hv as [Hv|(? & ? & ?)]; done.
  - split; [done|]. by apply renderLogs_ok.
  - split; [done|]. by apply renderLogs_ok, page_sizes_pos.
  - split; [done|]. by apply renderLogs_ok.
  - destruct Hv as [Hv|(? & ? & ?)]; [|done]. case_match; [done|]. split; [done|]. by apply renderLogs_ok.
  - destruct Hv as [Hv|(? & ? & ?)]; [|done]. case_match; [done|]. split; [done|]. by apply renderLogs_ok.
  - split; [done|]. by destruct Hv as [Hv|(? & ? & ?)].
  - split; [done|]. by destruct Hv as [Hv|(? & ? & ?)].
Qed.

Lemma lrun_ok st es :
  l_size st ∈ page_sizes → Forall levent_ok es → view_ok st →
  l_size (lrun st es) ∈ page_sizes ∧ view_ok (lrun st es).
Proof.
  intros Hs He. revert st Hs. induction He as [|e es He _ IH]; intros st Hs Hv; [done|]. cbn.
  destruct (lstep_ok st e Hs He) as [? ?]; [by left|]. by apply IH.
Qed.

(** ** Rows *)

Definition cell_pieces (open : jstr) (s : jstr) : list piece := [Lit open; Val (esc (Some s)); Lit (js "</td>")].
Definition row_pieces (withHost : bool) (e : entry) : list piece :=
  cell_pieces (jq "<td class=`mono nowrap`>") (fmtLogTime (e_ts e))
  ++ cell_pieces (jq "<td class=`mono nowrap`>") (e_client_ip e)
  ++ (if withHost then cell_pieces (jq "<td class=`mono`>") (e_host e) else [])
  ++ cell_pieces (jq "<td class=`mono`>") (e_method e)
  ++ [Lit (jq "<td class=`mono logpath` title=`"); Val (esc (Some (e_path e))); Lit (jq "`>");
      Val (esc (Some (e_path e))); Lit (js "</td>")]
  ++ [Lit (jq "<td><span class=`st "); Val (status_class (e_status e)); Lit (jq "`>");
      Val (esc (Some (js_of_Z (e_status e)))); Lit (js "</span></td>")]
  ++ cell_pieces (jq "<td class=`mono num`>") (js_of_Z (e_dur_ms e)).

(** The row up to the text of its path. *)
Definition path_pieces (withHost : bool) (e : entry) : list piece :=
  cell_pieces (jq "<td class=`mono nowrap`>") (fmtLogTime (e_ts e))
  ++ cell_pieces (jq "<td class=`mono nowrap`>") (e_client_ip e)
  ++ (if withHost then cell_pieces (jq "<td class=`mono`>") (e_host e) else [])
  ++ cell_pieces (jq "<td class=`mono`>") (e_method e)
  ++ [Lit (jq "<td class=`mono logpath` title=`"); Val (esc (Some (e_path e))); Lit (jq "`>")].

Lemma logRow_pieces withHost e : logRow withHost e = tpl (row_pieces withHost e).
Proof.
  unfold logRow, row_pieces, cell, cell_pieces, tpl. destruct withHost; cbn [map app concat piece_text];
    by rewrite <- ?app_assoc, ?app_nil_r.
Qed.

Lemma row_pieces_contained withHost e : contained (row_pieces withHost e).
Proof.
  split; [rewrite tpl_end_blank; destruct withHost; by_compute|].
  assert (inert (status_class (e_status e))) as Hc.
  { unfold inert, status_class. repeat case_match; vm_compute; repeat constructor; discriminate. }
  unfold row_pieces, cell_pieces. destruct withHost; cbn [app];
    repeat (refine (proj2 (list.Forall_cons _ _ _) (conj _ _)); [first [inert_by | exact Hc]|]); by apply list.Forall_nil.
Qed.

Lemma row_pieces_same withHost e e' : Forall2 same_piece (row_pieces withHost e) (row_pieces withHost e').
Proof.
  assert (∀ z, inert (status_class z)) as Hc.
  { intros z. unfold inert, status_class.
    repeat case_match; vm_compute; repeat constructor; discriminate. }
  unfold row_pieces, cell_pieces. destruct withHost; cbn [app]; repeat constructor; try apply esc_inert; apply Hc.
Qed.

(** ** Properties *)

(** C22. Paging shows every entry once: from the first page, clicking [Next]
    until it is disabled walks through the pages, and the rows shown on them
    are the filtered entries, in order, none skipped or repeated. *)
Theorem logs_paging_complete st :
  l_size st ∈ page_sizes → view_ok st → l_page st = 0 → v_rows (l_view st) = page_rows st 0 →
  let pages := Z.to_nat (pages_of st) in
  concat (map (λ k, v_rows (l_view (nexts k st))) (seq 0 pages))
    = map (logRow (negb (starts_with (js "host:") (l_scope st)))) (filteredLogs st)
  ∧ ∀ k, (k < pages)%nat → v_next_disabled (l_view (nexts k st)) = bool_decide (k = pred pages).
Proof.
  intros Hsz Hv H0 Hr pages. pose proof (page_sizes_pos st Hsz) as Hs.
  pose proof (page_count_pos (Z.of_nat (length (filteredLogs st))) (page_size st)) as Hp.
  fold (pages_of st) in Hp. split.
  - etransitivity; [|apply (f_equal (map _)), (pages_partition (filteredLogs st) (page_size st) Hs)].
    fold (pages_of st). fold pages. rewrite concat_map, map_map. f_equal. apply map_ext_in. intros k Hk. apply in_seq in Hk.
    destruct (nexts_page k st Hs Hv H0 Hr) as (_ & _ & _ & ->); [unfold pages in Hk; lia|]. done.
  - intros k Hk. destruct (nexts_page k st Hs Hv H0 Hr) as (E & (F1 & F2 & F3) & Hv' & _); [unfold pages in Hk; lia|].
    destruct Hv' as (_ & _ & -> & _). rewrite F1, F2, E. fold (pages_of st).
    unfold pages in *. apply bool_decide_ext. lia.
Qed.

(** After the first reply, whatever filters, menus and buttons do, the
    page shown exists, it has rows when any entry passes the filter, and
    [Previous] and [Next] are disabled exactly on the first and last page. *)
Theorem logs_view_invariant st scope reply es :
  l_size st ∈ page_sizes → Forall levent_ok es → view_ok (lrun (lstep st (LReply scope reply)) es).
Proof.
  intros Hs He. destruct (lstep_ok st (LReply scope reply) Hs) as [? ?]; [done|by eauto|].
  by apply lrun_ok.
Qed.

(** Nothing a client sends changes the markup of the table: the rows of
    any two entries have the same tags, and the path is read back from its
    cell exactly as it was requested. *)
Theorem logRow_markup withHost e e' :
  same_markup (logRow withHost e) (logRow withHost e')
  ∧ ∃ a b, logRow withHost e = a ++ esc (Some (e_path e)) ++ b ∧ hrun HText a = HText
      ∧ starts_with (js "</td>") b = true
      ∧ html_decode (esc (Some (e_path e))) = e_path e.
Proof.
  split.
  - rewrite !logRow_pieces. apply tpl_same; [apply row_pieces_same|]. by destruct withHost.
  - exists (tpl (path_pieces withHost e)), (js "</td>" ++ jq "<td><span class=`st " ++ status_class (e_status e)
      ++ jq "`>" ++ esc (Some (js_of_Z (e_status e))) ++ js "</span></td>"
      ++ cell (jq "<td class=`mono num`>") (js_of_Z (e_dur_ms e))).
    split; [|split; [|split]].
    + unfold logRow, path_pieces, cell, cell_pieces, tpl. destruct withHost; cbn [map app concat piece_text];
        rewrite ?app_nil_r, <- ?app_assoc; reflexivity.
    + destruct (tpl_same HText (path_pieces withHost e) (path_pieces withHost (Entry [] [] [] [] [] 0 0))) as [_ ->].
      * unfold path_pieces, cell_pieces. destruct withHost; cbn [app]; repeat constructor; apply esc_inert.
      * by destruct withHost.
      * by destruct withHost.
    + apply starts_with_app.
    + rewrite <- (app_nil_r (esc _)), html_decode_esc_app. apply app_nil_r.
Qed.
End logs.

(** ** The scope menu *)

(** The scope menu lists every domain of every host once, in order, and
    keeps its choice: the scope a host's Logs button asks for, or the one that
    was selected, as long as it still exists, and unmatched traffic
    otherwise. *)
Theorem fillLogScopes_spec hosts st :
  let st' := fillLogScopes hosts st in
  NoDup (log_domains hosts) ∧ Sorted (λ a b, str_leb a b = true) (log_domains hosts)
  ∧ (∀ d, js "host:" ++ d ∈ scope_options hosts ↔ ∃ h, h ∈ hosts ∧ d ∈ h)
  ∧ l_scope st' ∈ scope_options hosts
  ∧ l_pending st' = []
  ∧ (l_pending st ≠ [] → l_pending st ∈ scope_options hosts → l_scope st' = l_pending st)
  ∧ (l_pending st = [] → l_scope st ∈ scope_options hosts → l_scope st' = l_scope st).
Proof.
  cbn. set (keep := str_or _ (js "unmatched")). split; [|split; [|split; [|split; [|split; [|split]]]]].
  - unfold log_domains. rewrite str_sort_perm. apply set_of_nodup.
  - apply str_sort_sorted.
  - intros d. unfold scope_options. rewrite !elem_of_cons, list_elem_of_fmap. unfold log_domains.
    assert (∀ y, y ∈ concat hosts ↔ ∃ h, h ∈ hosts ∧ y ∈ h) as Hc.
    { intros y. rewrite list_elem_of_In, in_concat. by setoid_rewrite list_elem_of_In. }
    split.
    + intros [H|[H|(y & H & Hy)]]; [done|done|]. apply app_inv_head in H as <-.
      rewrite str_sort_perm, elem_of_set_of, Hc in Hy. by destruct Hy.
    + intros (h & Hh & Hd). right; right. exists d. split; [done|].
      rewrite str_sort_perm, elem_of_set_of, Hc. split; [eauto|apply not_elem_of_nil].
  - case_decide; [done|]. left.
  - done.
  - intros Hne Hin. assert (keep = l_pending st) as -> by (unfold keep; by destruct (l_pending st)).
    by rewrite decide_True.
  - intros He Hin. assert (keep = l_scope st) as ->.
    { unfold keep. rewrite He. cbn. destruct (l_scope st) eqn:E; [|done]. exfalso.
      unfold scope_options in Hin. rewrite !elem_of_cons, list_elem_of_fmap in Hin.
      destruct Hin as [|[|(? & ? & _)]]; done. }
    by rewrite decide_True.
Qed.

(** The Logs button of a host opens the viewer on that host, when it is among
    the hosts known, or fetched if none are. *)
Lemma host_logs_open hosts fetched h d t st : h = d :: t → h ∈ match hosts with [] => fetched | _ => hosts end →
  l_scope (loadLogs hosts fetched (openHostLogs h st)) = js "host:" ++ d.
Proof.
  intros -> Hin. unfold loadLogs. set (known := match hosts with [] => _ | _ => _ end) in *.
  destruct (fillLogScopes_spec known (openHostLogs (d :: t) st)) as (_ & _ & Hd & _ & _ & Hp & _).
  apply Hp; [done|]. apply Hd. exists (d :: t). split; [done|by left].
Qed.

(** ** Witnesses: a log of 51 entries, with nothing folded or formatted. *)

Definition sample_entry : entry :=
  Entry (js "2026-01-02T03:04:05Z") (js "192.0.2.7") (js "a.example") (js "GET") (jq "/<b>`x") 404 3.
Definition sample_log : log_state :=
  renderLogs id (λ _, true) id id
    (LogState (repeat sample_entry 51) 0 [] (js "host:a.example") (js "all") (js "a.EX") (js "50") false
      (LogView [] false [] [] false false)).

Lemma logs_paging_complete_witness :
  let st := lstep id (λ _, true) id id sample_log (LFilter (js "GET")) in
  concat (map (λ k, v_rows (l_view (nexts id (λ _, true) id id k st))) (seq 0 2))
    = map (logRow (λ _, true) id id true) (repeat sample_entry 51).
Proof.
  intros st. destruct (logs_paging_complete id (λ _, true) id id st) as [H _].
  - apply (bool_decide_unpack _). by_compute.
  - apply renderLogs_ok. by_compute.
  - by_compute.
  - done.
  - assert (Z.to_nat (pages_of id st) = 2%nat) as E by by_compute. rewrite E in H. rewrite H. by_compute.
Defined.

Lemma logs_view_invariant_witness :
  view_ok id (λ _, true) id id (lrun id (λ _, true) id id
    (lstep id (λ _, true) id id sample_log (LReply (js "all") None)) [LSize (js "100"); LStatus (js "4"); LNext]).
Proof.
  apply (logs_view_invariant id (λ _, true) id id sample_log (js "all") None);
    [|repeat constructor]; apply (bool_decide_unpack _); by_compute.
Defined.

Lemma fillLogScopes_spec_witness :
  l_scope (fillLogScopes [[js "b.example"]; [js "a.example"; js "b.example"]] sample_log) = js "host:a.example".
Proof.
  destruct (fillLogScopes_spec [[js "b.example"]; [js "a.example"; js "b.example"]] sample_log)
    as (_ & _ & _ & _ & _ & H & _).
  apply H; [done|]. apply (bool_decide_unpack _). by_compute.
Defined.

(** Two refreshes in flight: the reply that arrives last is the one shown,
    whatever scope the menu is at. *)
Theorem late_reply_shown :
  let st := lrun id (λ _, true) id id sample_log
    [LScope (js "host:a.example"); LScope (js "unmatched"); LReply (js "unmatched") (Some []);
     LReply (js "host:a.example") (Some [sample_entry])] in
  l_scope st = js "unmatched" ∧ l_entries st = [sample_entry] ∧ l_host_hidden st = true.
Proof. split_and!; by_compute. Qed.
