(* ===== verification/Fields.v ===== *)
(** * Form controls and the row editors (web/app.js)

    What a browser does with a value assigned to a control, and the row
    editors the forms share: backend pools, header rules, path authentication
    rules, custom locations and LAN routes.  Each editor is a pair: the
    function that fills a row from a stored record, and the one that reads the
    rows back when the form is saved.  The theorems say which records survive
    the round trip. *)

From Stdlib Require Import Ascii String ZArith NArith Lia.
From stdpp Require Import base list strings numbers.
From S2P Require Import Prelude JsString Regex.

Local Open Scope Z_scope.

(** ** Controls *)

(** [select.value = v]: a value no option has deselects, and reads as the
    empty string; [sel_first] is the value of a menu nothing was assigned to. *)
Definition sel_set (opts : list jstr) (v : jstr) : jstr := if decide (v ∈ opts) then v else [].
Definition sel_first (opts : list jstr) : jstr := default [] (head opts).

(** A text input drops line breaks from an assigned value. *)
Definition text_set (s : jstr) : jstr := List.filter (λ c, negb (N.eqb c 10 || N.eqb c 13)) s.

(** A textarea reads line breaks back as line feeds. *)
Fixpoint area_from (after_cr : bool) (s : jstr) : jstr :=
  match s with
  | [] => []
  | c :: t =>
      if N.eqb c 13 then 10%N :: area_from true t
      else if after_cr && N.eqb c 10 then area_from false t
      else c :: area_from false t
  end.
Definition area_set (s : jstr) : jstr := area_from false s.

(** A number input keeps a value that is a floating-point number. *)
Definition re_float : re :=
  rseq [RBol; ropt (cls_of "-");
        RAlt (RSeq (rplus cls_d) (RAlt (RSeq (RCls (cls_of ".")) (rplus cls_d)) REps))
             (RSeq (RCls (cls_of ".")) (rplus cls_d));
        RAlt (rseq [RCls (cls_of "eE"); ropt (cls_of "+-"); rplus cls_d]) REps; REol].
Definition number_set (s : jstr) : jstr := if re_test re_float s then s else [].

(** [n || ''] written into a number input. *)
Definition number_of (n : Z) : jstr := if n =? 0 then [] else number_set (js_of_Z n).

(** ** Upstreams *)

(** A port that is not a number is NaN in the page and null in JSON. *)
Record upstream : Type := Upstream { u_scheme : jstr; u_host : jstr; u_port : option Z; u_via : Z }.

Definition port_text (p : option Z) : jstr := match p with Some z => js_of_Z z | None => js "null" end.
Definition url_of (u : upstream) : jstr := u_scheme u ++ js "://" ++ u_host u ++ js ":" ++ port_text (u_port u).

Definition host_unit (c : N) : bool := negb (cls_of ":/" c || is_space c).
Definition re_up : re :=
  rseq [RBol; RGrp 1 (RSeq (rstr "http") (ropt (cls_of "s"))); rstr "://"; RGrp 2 (rplus host_unit);
        RCls (cls_of ":"); RGrp 3 (rplus cls_d); REol].

Definition parse_up (s : jstr) : option upstream :=
  match re_exec re_up s with
  | Some m => Some (Upstream (cap 1 (r_caps m)) (cap 2 (r_caps m)) (parse_int (cap 3 (r_caps m))) 0)
  | None => None
  end.

Definition parsePool (text : jstr) : list upstream := omap parse_up (lines_of text).

(** ** Header rules *)

Record hdr : Type := Hdr { h_op : jstr; h_name : jstr; h_value : jstr }.

Definition hdr_ops : list jstr := map js ["set"; "add"; "remove"].
(** A row holds the three controls. *)
Definition addHdrRow (r : hdr) : hdr := Hdr (sel_set hdr_ops (h_op r)) (text_set (h_name r)) (text_set (h_value r)).
Definition blankHdrRow : hdr := Hdr (js "set") [] [].
Definition readHdrRow (row : hdr) : option hdr :=
  let name := trim (h_name row) in
  if negb (truthy name) then None
  else Some (Hdr (h_op row) name (if decide (h_op row = js "remove") then [] else h_value row)).
Definition readHdrRows (rows : list hdr) : list hdr := omap readHdrRow rows.

(** ** Path authentication rules *)

Record oidc_auth : Type := OidcAuth {
  oi_provider : Z; oi_emails : list jstr; oi_domains : list jstr; oi_groups : list jstr; oi_pass : bool }.

Record auth_rule : Type := AuthRule {
  ar_path : jstr; ar_exact : bool; ar_mode : jstr; ar_acl : option Z; ar_oidc : option oidc_auth;
  ar_methods : list jstr }.

Record auth_row : Type := AuthRow {
  a_path : jstr; a_match : jstr; a_mode : jstr; a_acl : jstr; a_prov : jstr; a_groups : jstr;
  a_chips : list (jstr * bool) }.

Definition verbs : list jstr := map js ["GET"; "HEAD"; "POST"; "PUT"; "PATCH"; "DELETE"].
Definition auth_modes : list jstr := map js ["public"; "accessList"; "forwardAuth"; "oidc"].
Definition match_kinds : list jstr := map js ["prefix"; "exact"].

Definition id_opts (ids : list Z) : list jstr := map js_of_Z ids.
(** [classList.add('on')] on the chip of each method. *)
Definition chips_of (methods : list jstr) : list (jstr * bool) :=
  map (λ v, (v, bool_decide (v ∈ methods))) verbs.
Definition chips_on (chips : list (jstr * bool)) : list jstr := map fst (List.filter snd chips).

(** [addAuthRuleRow] with the access lists and identity providers that are
    loaded. *)
Definition blankAuthRow (accessLists : list Z) : auth_row :=
  AuthRow [] (js "prefix") (js "public") (sel_first (id_opts accessLists)) [] [] (chips_of []).
Definition addAuthRuleRow (accessLists oidcProviders : list Z) (r : auth_rule) : auth_row :=
  AuthRow (text_set (ar_path r)) (if ar_exact r then js "exact" else js "prefix")
    (sel_set auth_modes (str_or (ar_mode r) (js "public")))
    (match ar_acl r with
     | Some id => if id =? 0 then sel_first (id_opts accessLists) else sel_set (id_opts accessLists) (js_of_Z id)
     | None => sel_first (id_opts accessLists)
     end)
    (match ar_oidc r with Some o => sel_set ([] :: id_opts oidcProviders) (js_of_Z (oi_provider o)) | None => [] end)
    (match ar_oidc r with Some o => text_set (join (js ", ") (oi_groups o)) | None => [] end)
    (chips_of (ar_methods r)).

Definition readAuthRule (row : auth_row) : option auth_rule :=
  let path := trim (a_path row) in
  let mode := a_mode row in
  if negb (truthy path) then None
  else if bool_decide (mode = js "accessList") && negb (truthy (a_acl row)) then None
  else Some (AuthRule path (bool_decide (a_match row = js "exact")) mode
    (if bool_decide (mode = js "accessList") then parse_int (a_acl row) else None)
    (if bool_decide (mode = js "oidc") && truthy (a_prov row) then
       option_map (λ p, OidcAuth p [] [] (commas_of (a_groups row)) true) (parse_int (a_prov row))
     else None)
    (chips_on (a_chips row))).
Definition readAuthRules (rows : list auth_row) : list auth_rule := omap readAuthRule rows.

(** ** Custom locations *)

Record rewrite : Type := Rewrite { rw_strip : jstr; rw_add : jstr; rw_regex : jstr; rw_repl : jstr }.
Record location : Type := Location { lo_path : jstr; lo_up : upstream; lo_rewrite : option rewrite }.
Record loc_row : Type := LocRow { lr_path : jstr; lr_up : jstr; lr_strip : jstr }.

Definition blankLocRow : loc_row := LocRow [] [] [].
Definition addLocationRow (l : location) : loc_row :=
  LocRow (text_set (lo_path l)) (text_set (url_of (lo_up l)))
    (match lo_rewrite l with Some rw => text_set (rw_strip rw) | None => [] end).
Definition readLocation (row : loc_row) : option location :=
  let path := trim (lr_path row) in
  let strip := trim (lr_strip row) in
  match parse_up (trim (lr_up row)) with
  | Some u =>
      if truthy path then
        Some (Location path u (if truthy strip then Some (Rewrite strip [] [] []) else None))
      else None
  | None => None
  end.
Definition readLocations (rows : list loc_row) : list location := omap readLocation rows.

(** ** LAN routes *)

Record route : Type := Route { rt_cidr : jstr; rt_proto : jstr; rt_ports : jstr }.
Definition protos : list jstr := map js ["any"; "tcp"; "udp"].
Definition addRouteRow (r : route) : route :=
  Route (text_set (rt_cidr r)) (sel_set protos (str_or (rt_proto r) (js "any"))) (text_set (rt_ports r)).
Definition readRoute (row : route) : option route :=
  let cidr := trim (rt_cidr row) in
  if truthy cidr then
    Some (Route (if includes (js "/") cidr then cidr else cidr ++ js "/32") (rt_proto row) (trim (rt_ports row)))
  else None.
Definition readRoutes (rows : list route) : list route := omap readRoute rows.
Definition describeRoute (r : route) : jstr :=
  rt_cidr r ++
  (if truthy (rt_ports r) then
     js " " ++ (if decide (rt_proto r = js "any") then js "tcp+udp" else rt_proto r) ++ js " " ++ rt_ports r
   else if truthy (rt_proto r) && negb (bool_decide (rt_proto r = js "any")) then js " " ++ rt_proto r else []).

#[export] Instance upstream_eq_dec : EqDecision upstream.
Proof. solve_decision. Defined.
#[export] Instance hdr_eq_dec : EqDecision hdr.
Proof. solve_decision. Defined.
#[export] Instance oidc_auth_eq_dec : EqDecision oidc_auth.
Proof. solve_decision. Defined.
#[export] Instance auth_rule_eq_dec : EqDecision auth_rule.
Proof. solve_decision. Defined.
#[export] Instance rewrite_eq_dec : EqDecision rewrite.
Proof. solve_decision. Defined.
#[export] Instance location_eq_dec : EqDecision location.
Proof. solve_decision. Defined.

Example parse_up_ex : parse_up (js "https://10.0.0.2:8443") = Some (Upstream (js "https") (js "10.0.0.2") (Some 8443) 0).
Proof. by_compute. Qed.
Example parsePool_ex :
  parsePool (join [10%N] [js " http://a:80"; js "ftp://b:1"; []; js "https://c:443 "])
  = [Upstream (js "http") (js "a") (Some 80) 0; Upstream (js "https") (js "c") (Some 443) 0].
Proof. by_compute. Qed.
Example number_ex : map number_set [js "-12"; js "0.5"; js "1e+21"; js "1."; js "x"] = [js "-12"; js "0.5"; js "1e+21"; []; []].
Proof. by_compute. Qed.

(** ** Controls that keep a value *)

(** A value without line breaks, and one that also survives [trim]. *)
Definition one_line (s : jstr) : bool := forallb (λ c, negb (N.eqb c 10 || N.eqb c 13)) s.
Definition word (s : jstr) : bool := one_line s && bool_decide (trim s = s).

Lemma text_set_id s : one_line s = true → text_set s = s.
Proof.
  unfold one_line, text_set. induction s as [|c s IH]; [done|]. cbn. intros [H1 H2]%andb_true_iff.
  rewrite H1. f_equal. by apply IH.
Qed.

Lemma text_set_word s : word s = true → text_set s = s ∧ trim (text_set s) = s.
Proof.
  unfold word. intros H. boolify. rewrite text_set_id by done. split; [done|].
  match goal with H : bool_decide _ = true |- _ => by apply bool_decide_eq_true in H end.
Qed.

Lemma area_set_id s : 13%N ∉ s → area_set s = s.
Proof.
  unfold area_set. induction s as [|c s IH]; intros Hs; [done|]. apply not_elem_of_cons in Hs as [Hc Hs].
  cbn. destruct (N.eqb_spec c 13); [congruence|]. f_equal. by apply IH.
Qed.

Lemma sel_set_in opts v : v ∈ opts → sel_set opts v = v.
Proof. intros. unfold sel_set. by rewrite decide_True. Qed.

Lemma elem_of_id_opts id ids : id ∈ ids → js_of_Z id ∈ id_opts ids.
Proof. intros. apply list_elem_of_fmap. eauto. Qed.

Lemma number_set_int z : number_set (js_of_Z z) = js_of_Z z.
Proof.
  unfold number_set. assert (re_test re_float (js_of_Z z) = true) as ->; [|done].
  assert (∀ n, Forall (λ c, cls_d c = true) (js_of_N n) ∧ (1 <= length (js_of_N n))%nat) as Hn.
  { intros n. split; [apply js_of_N_digits|]. pose proof (js_of_N_ne n). destruct (js_of_N n); [done|cbn; lia]. }
  assert (∀ s t, rmatch (RAlt (rseq [RCls (cls_of "eE"); ropt (cls_of "+-"); rplus cls_d]) REps) s t [] [] t) as He
    by (intros; apply rm_alt_r; constructor).
  assert (∀ n, rmatch (RSeq (rplus cls_d) (RAlt (RSeq (RCls (cls_of ".")) (rplus cls_d)) REps)) false [] (js_of_N n) [] []
    ∧ rmatch (RSeq (rplus cls_d) (RAlt (RSeq (RCls (cls_of ".")) (rplus cls_d)) REps)) true [] (js_of_N n) [] []) as Hd.
  { intros n. destruct (Hn n). rewrite <- (app_nil_r (js_of_N n)).
    split; (econstructor; [by constructor|apply rm_alt_r; constructor]). }
  apply re_test_true. exists [], (js_of_Z z), [], []. split; [by rewrite app_nil_r|].
  unfold re_float. cbn [rseq]. change (js_of_Z z) with ([] ++ js_of_Z z). econstructor; [constructor|].
  unfold js_of_Z. destruct (z <? 0).
  - change (45%N :: js_of_N (Z.to_N (- z))) with ([45%N] ++ js_of_N (Z.to_N (- z))). econstructor.
    + constructor; [by repeat constructor|cbn; lia..].
    + cbn [andb negb truthy app]. rewrite <- (app_nil_r (js_of_N _)). econstructor; [apply rm_alt_l; apply Hd|].
      change (@nil N) with (@nil N ++ []) at 1. econstructor; [apply He|]. constructor.
  - change (js_of_N (Z.to_N z)) with ([] ++ js_of_N (Z.to_N z)). econstructor.
    + constructor; [constructor|cbn; lia..].
    + cbn [andb negb truthy app]. rewrite <- (app_nil_r (js_of_N _)). econstructor; [apply rm_alt_l; apply Hd|].
      change (@nil N) with (@nil N ++ []) at 1. econstructor; [apply He|]. constructor.
Qed.

Lemma parse_number_of n d : int_or (parse_int (number_of n)) d = if n =? 0 then d else n.
Proof.
  unfold number_of. destruct (Z.eqb_spec n 0) as [->|Hn]; [done|].
  rewrite number_set_int, parse_int_js_of_Z. cbn. by destruct n.
Qed.

(** ** Upstream addresses *)

Definition http_schemes : list jstr := map js ["http"; "https"].
Definition up_parts (sch host d : jstr) : Prop :=
  sch ∈ http_schemes ∧ host ≠ [] ∧ Forall (λ c, host_unit c = true) host
  ∧ d ≠ [] ∧ Forall (λ c, is_digit c = true) d.

Lemma up_split sch host d :
  up_parts sch host d →
  split_ch (ch ":") (sch ++ js "://" ++ host ++ js ":" ++ d) = [sch; js "//" ++ host; d].
Proof.
  intros (Hs & _ & Hh & _ & Hd).
  change (js "://" ++ host ++ js ":" ++ d) with ([ch ":"] ++ (js "//" ++ host) ++ [ch ":"] ++ d).
  apply (split_join_ch (ch ":") [sch; js "//" ++ host; d]); [done|].
  repeat constructor.
  - assert (Forall (λ s, ch ":" ∉ s) http_schemes) as F by (apply (bool_decide_unpack _); by_compute).
    by apply (proj1 (list.Forall_forall _ _) F).
  - apply not_elem_of_app. split; [apply (bool_decide_unpack _); by_compute|]. intros Hin.
    apply (proj1 (list.Forall_forall _ _) Hh) in Hin. by vm_compute in Hin.
  - intros Hin. apply (proj1 (list.Forall_forall _ _) Hd) in Hin. by vm_compute in Hin.
Qed.

Lemma re_up_parts s f :
  re_exec re_up s = Some f →
  ∃ sch host d, up_parts sch host d ∧ s = sch ++ js "://" ++ host ++ js ":" ++ d
    ∧ cap 1 (r_caps f) = sch ∧ cap 2 (r_caps f) = host ∧ cap 3 (r_caps f) = d.
Proof.
  intros H. apply re_exec_sound in H as [Hs Hm]. unfold re_up in Hm. rm_inv.
  destruct (r_pre f); [|done].
  match goal with H : cls_of ":" ?c = true |- _ => apply cls_of_1 in H as -> end.
  exists (js "http" ++ m4), m0, m2. cbn [cap Nat.eqb].
  split; [|split; [|done]].
  - split; [|split; [|split; [|split]]]; try done; [|by destruct m0; cbn in *; [lia|]|by destruct m2; cbn in *; [lia|]].
    assert (m4 = [] ∨ m4 = js "s") as [-> | ->]; [|left|right; left].
    destruct m4 as [|c [|c' m4]]; [by left|right|cbn in *; lia].
    match goal with H : Forall _ [c] |- _ => inv H end.
    match goal with H : cls_of "s" c = true |- _ => by apply cls_of_1 in H as -> end.
  - match goal with H : _ = r_hit f |- _ => rewrite <- H end.
    rewrite !app_nil_r. cbn [app]. by rewrite <- ?app_assoc.
Qed.

Lemma re_up_found sch host d :
  up_parts sch host d → re_exec re_up (sch ++ js "://" ++ host ++ js ":" ++ d) ≠ None.
Proof.
  intros (Hs & Hne & Hh & Hne' & Hd). unfold re_exec.
  set (s := sch ++ _). rewrite <- (app_nil_r s).
  apply (rfind_complete re_up true [] s [] [(3%nat, d); (2%nat, host); (1%nat, sch)]). subst s.
  unfold re_up. cbn [rseq negb truthy andb].
  change (sch ++ js "://" ++ host ++ js ":" ++ d) with ([] ++ sch ++ js "://" ++ host ++ js ":" ++ d).
  econstructor; [constructor|]. cbn [negb truthy andb].
  apply (rm_seq _ _ _ _ [(1%nat, sch)]).
  { constructor. assert (∃ x, sch = js "http" ++ x ∧ Forall (λ c, cls_of "s" c = true) x ∧ (length x <= 1)%nat)
      as (x & -> & Hx & Hl).
    { apply elem_of_cons in Hs as [->|Hs]; [exists []; split; [done|split; [constructor|cbn; lia]]|].
      apply list_elem_of_singleton in Hs as ->. exists (js "s"). split; [done|split; [by repeat constructor|vm_compute; lia]]. }
    econstructor; [by apply rmatch_rlit|]. by constructor; [|lia|]. }
  econstructor; [by apply rmatch_rlit|].
  apply (rm_seq _ _ _ _ [(2%nat, host); (1%nat, sch)]).
  { constructor. constructor; [done| |done]. destruct host; [done|cbn; lia]. }
  change (js ":" ++ d) with ([ch ":"] ++ d). econstructor; [by constructor|].
  match goal with |- rmatch _ ?b ?cs _ _ ?cs' =>
    assert (rmatch (RSeq (RGrp 3 (rplus cls_d)) REol) b cs (d ++ []) [] cs') as H end.
  { econstructor; [|constructor]. constructor. constructor; [done| |done]. destruct d; [done|cbn; lia]. }
  by rewrite app_nil_r in H.
Qed.

(** An address the editor writes is read back as it was. *)
Definition up_ok (u : upstream) : bool :=
  bool_decide (u_scheme u ∈ http_schemes) && truthy (u_host u) && forallb host_unit (u_host u)
  && match u_port u with Some p => 0 <=? p | None => false end.

Lemma up_ok_parts u : up_ok u = true →
  ∃ p, u_port u = Some p ∧ 0 <= p ∧ up_parts (u_scheme u) (u_host u) (js_of_Z p).
Proof.
  unfold up_ok. destruct (u_port u) as [p|]; [|by rewrite andb_false_r]. intros H. boolify. exists p.
  split; [done|]. split; [done|]. split_and!.
  - match goal with H : bool_decide _ = true |- _ => by apply bool_decide_eq_true in H end.
  - by destruct (u_host u).
  - apply list.Forall_forall. intros x Hx%list_elem_of_In.
    match goal with H : forallb _ _ = true |- _ => by apply (proj1 (forallb_forall _ _) H) end.
  - apply js_of_Z_ne.
  - by apply js_of_Z_nonneg.
Qed.

Lemma parse_up_url u : up_ok u = true → parse_up (url_of u) = Some (Upstream (u_scheme u) (u_host u) (u_port u) 0).
Proof.
  intros Hu. apply up_ok_parts in Hu as (p & Hp & Hp0 & Hok). unfold parse_up, url_of. rewrite Hp. cbn [port_text].
  pose proof (re_up_found _ _ _ Hok) as Hf. destruct (re_exec re_up _) as [m|] eqn:E; [|done].
  apply re_up_parts in E as (sch & host & d & Hok' & Hs & -> & -> & ->).
  apply (f_equal (split_ch (ch ":"))) in Hs. rewrite !up_split in Hs by done.
  injection Hs as <- <- <-. by rewrite parse_int_js_of_Z.
Qed.

Lemma url_of_word u : up_ok u = true → word (url_of u) = true ∧ (10%N ∉ url_of u) ∧ tidy (url_of u) = true.
Proof.
  intros Hu. apply up_ok_parts in Hu as (p & Hp & Hp0 & (Hs & Hne & Hh & Hne' & Hd)).
  assert (∀ c, c ∈ url_of u → is_space c = false) as Hall.
  { unfold url_of. rewrite Hp. cbn [port_text]. intros c. rewrite !elem_of_app. intros [H|[H|[H|[H|H]]]].
    - assert (Forall (λ s, Forall (λ c, is_space c = false) s) http_schemes) as F
        by (apply (bool_decide_unpack _); by_compute).
      rewrite list.Forall_forall in F. specialize (F _ Hs). rewrite list.Forall_forall in F. by apply F.
    - revert c H. apply list.Forall_forall. apply (bool_decide_unpack _). by_compute.
    - rewrite list.Forall_forall in Hh. specialize (Hh c H). unfold host_unit in Hh. boolify. done.
    - revert c H. apply list.Forall_forall. apply (bool_decide_unpack _). by_compute.
    - rewrite list.Forall_forall in Hd. by apply is_digit_not_space, Hd. }
  assert (tidy (url_of u) = true) as Ht.
  { unfold tidy. destruct (url_of u) as [|c t] eqn:E.
    - unfold url_of in E. by apply app_eq_nil in E as [_ [E _]%app_eq_nil].
    - rewrite (Hall c) by left. cbn [negb andb].
      destruct (rev (c :: t)) as [|d r] eqn:Er; [by apply (f_equal length) in Er; rewrite length_rev in Er|].
      rewrite (Hall d); [done|]. apply list_elem_of_In, in_rev. rewrite Er. by left. }
  split; [|split]; [|intros H; by apply Hall in H|done].
  unfold word. rewrite (bool_decide_true _ (trim_tidy _ Ht)), andb_true_r.
  apply forallb_forall. intros c Hc%list_elem_of_In%Hall. apply negb_true_iff.
  destruct (N.eqb_spec c 10) as [->|]; [done|]. by destruct (N.eqb_spec c 13) as [->|].
Qed.

(** ** Rows that survive *)

Arguments chips_of methods : simpl never.
Arguments chips_on chips : simpl never.
Arguments text_set s : simpl never.
Arguments sel_set opts v : simpl never.
Arguments verbs : simpl never.
Arguments commas_of s : simpl never.
Arguments lines_of s : simpl never.
Arguments join sep l : simpl never.

Definition no_via (u : upstream) : upstream := Upstream (u_scheme u) (u_host u) (u_port u) 0.
Definition set_via (via : Z) (u : upstream) : upstream := Upstream (u_scheme u) (u_host u) (u_port u) via.

(** A field whose text the editor keeps: a trimmed line. *)
Definition field (s : jstr) : bool := word s && truthy s.

Lemma field_spec s : field s = true → text_set s = s ∧ trim s = s ∧ truthy s = true.
Proof.
  unfold field. intros H. boolify. destruct (text_set_word s) as [E1 E2]; [done|].
  rewrite E1 in E2. done.
Qed.

Lemma omap_map {A B C} (f : B → option C) (g : A → B) l : omap f (map g l) = omap (λ x, f (g x)) l.
Proof. induction l as [|x l IH]; [done|]. cbn. by rewrite IH. Qed.

Lemma omap_Some {A B} (f : A → option B) (g : A → B) l :
  Forall (λ x, f x = Some (g x)) l → omap f l = map g l.
Proof. induction 1 as [|x l Hx _ IH]; [done|]. cbn. rewrite Hx. by f_equal. Qed.

Definition pool_text (l : list upstream) : jstr := join [10%N] (map url_of l).

Lemma parsePool_round l :
  forallb up_ok l = true → parsePool (area_set (pool_text l)) = map no_via l.
Proof.
  intros Hl. assert (Forall (λ u, up_ok u = true) l) as Hok.
  { apply list.Forall_forall. intros u Hu%list_elem_of_In. by apply (proj1 (forallb_forall _ _) Hl). }
  clear Hl. unfold parsePool, pool_text. rewrite area_set_id.
  - rewrite lines_of_join.
    + rewrite omap_map. apply omap_Some. apply (list.Forall_impl _ _ _ Hok). intros u Hu.
      by apply parse_up_url.
    + apply Forall_map. apply (list.Forall_impl _ _ _ Hok). intros u Hu.
      apply url_of_word in Hu as (_ & ? & ?). done.
  - induction Hok as [|u l Hu _ IH]; [apply not_elem_of_nil|].
    assert (13%N ∉ url_of u) as Hn.
    { apply url_of_word in Hu as (Hw & _). unfold word, one_line in Hw. boolify. intros Hin%list_elem_of_In.
      match goal with H : forallb _ _ = true |- _ => apply (proj1 (forallb_forall _ _) H) in Hin end. done. }
    destruct l as [|u' l]; [done|]. cbn [map]. rewrite join_cons, !not_elem_of_app.
    split; [done|]. split; [apply (bool_decide_unpack _); by_compute|done].
Qed.

Definition hdr_ok (r : hdr) : bool :=
  bool_decide (h_op r ∈ hdr_ops) && field (h_name r) && one_line (h_value r)
  && (bool_decide (h_op r ≠ js "remove") || negb (truthy (h_value r))).

Lemma readHdrRow_round r : hdr_ok r = true → readHdrRow (addHdrRow r) = Some r.
Proof.
  unfold hdr_ok. intros [[[H1 H2]%andb_true_iff H3]%andb_true_iff H4]%andb_true_iff.
  apply bool_decide_eq_true in H1. apply field_spec in H2 as (E1 & E2 & E3).
  unfold readHdrRow, addHdrRow. cbn. rewrite E1, E2, E3, sel_set_in, text_set_id by done. cbn.
  destruct r as [op name value]. cbn in *. case_decide as D; [|done]. subst. cbn in H4.
  by destruct value.
Qed.

Lemma readHdrRows_round l : forallb hdr_ok l = true → readHdrRows (map addHdrRow l) = l.
Proof.
  unfold readHdrRows. rewrite omap_map. induction l as [|r l IH]; [done|]. cbn.
  intros [Hr Hl]%andb_true_iff. rewrite readHdrRow_round by done. f_equal. by apply IH.
Qed.

Definition list_words (l : list jstr) : bool := forallb (λ w, tidy w && one_line w && negb (bool_decide (44%N ∈ w))) l.

Lemma list_words_spec l : list_words l = true →
  Forall (λ w, tidy w = true ∧ 44%N ∉ w) l ∧ ∀ sep, one_line sep = true → one_line (join sep l) = true.
Proof.
  unfold list_words. intros H. assert (Forall (λ w, tidy w = true ∧ one_line w = true ∧ 44%N ∉ w) l) as F.
  { apply list.Forall_forall. intros w Hw%list_elem_of_In. apply (proj1 (forallb_forall _ _) H) in Hw.
    apply andb_true_iff in Hw as [[? ?]%andb_true_iff Hn]. apply negb_true_iff, bool_decide_eq_false in Hn. done. }
  split; [apply (list.Forall_impl _ _ _ F); tauto|]. clear H. intros sep Hsep.
  induction F as [|w l (_ & Hw & _) _ IH]; [done|]. destruct l; [done|]. rewrite join_cons.
  unfold one_line in *. by rewrite !forallb_app, Hsep, Hw, IH.
Qed.

Lemma commas_text l : list_words l = true →
  commas_of (text_set (join (js ", ") l)) = l ∧ commas_of (text_set (join (js ",") l)) = l.
Proof.
  intros H. apply list_words_spec in H as [F O]. rewrite !text_set_id by (by apply O).
  split; [by apply commas_of_join|by apply commas_of_join_tight].
Qed.

(** A list written one to a line. *)
Lemma domains_round ds :
  forallb (λ d, tidy d && one_line d) ds = true → lines_of (area_set (join [10%N] ds)) = ds.
Proof.
  intros H. assert (Forall (λ d, (tidy d = true ∧ 10%N ∉ d) ∧ 13%N ∉ d) ds) as F.
  { apply list.Forall_forall. intros d Hd%list_elem_of_In. apply (proj1 (forallb_forall _ _) H) in Hd.
    apply andb_true_iff in Hd as [Ht Ho]. unfold one_line in Ho.
    assert (∀ c, c ∈ d → negb (N.eqb c 10 || N.eqb c 13) = true) as Hc.
    { intros c Hc%list_elem_of_In. by apply (proj1 (forallb_forall _ _) Ho). }
    split; [split; [done|]|]; intros Hin%Hc; done. }
  rewrite area_set_id.
  - apply lines_of_join. apply (list.Forall_impl _ _ _ F). tauto.
  - clear H. induction F as [|d ds [_ Hd] _ IH]; [apply not_elem_of_nil|].
    destruct ds; [done|]. rewrite join_cons, !not_elem_of_app.
    split; [done|]. split; [apply (bool_decide_unpack _); by_compute|done].
Qed.

Definition rule_oidc_ok (provs : list Z) (o : oidc_auth) : bool :=
  bool_decide (oi_provider o ∈ provs) && bool_decide (oi_emails o = []) && bool_decide (oi_domains o = [])
  && list_words (oi_groups o) && oi_pass o.

Definition auth_rule_ok (acls provs : list Z) (r : auth_rule) : bool :=
  field (ar_path r) && bool_decide (ar_mode r ∈ auth_modes)
  && match ar_acl r with
     | Some id => bool_decide (ar_mode r = js "accessList") && negb (id =? 0) && bool_decide (id ∈ acls)
     | None => negb (bool_decide (ar_mode r = js "accessList"))
     end
  && match ar_oidc r with
     | Some o => bool_decide (ar_mode r = js "oidc") && rule_oidc_ok provs o
     | None => true
     end
  && bool_decide (List.filter (λ v, bool_decide (v ∈ ar_methods r)) verbs = ar_methods r).

Lemma chips_round methods : chips_on (chips_of methods) = List.filter (λ v, bool_decide (v ∈ methods)) verbs.
Proof.
  unfold chips_on, chips_of. induction verbs as [|v l IH]; [done|]. cbn. case_bool_decide; cbn; by rewrite IH.
Qed.

Lemma readAuthRule_round acls provs r :
  auth_rule_ok acls provs r = true → readAuthRule (addAuthRuleRow acls provs r) = Some r.
Proof.
  unfold auth_rule_ok.
  intros [[[[Hp Hm]%andb_true_iff Ha]%andb_true_iff Ho]%andb_true_iff Hv]%andb_true_iff.
  apply field_spec in Hp as (E1 & E2 & E3). apply bool_decide_eq_true in Hm, Hv.
  destruct r as [path exact mode acl oidc methods]. cbn in *.
  assert (str_or mode (js "public") = mode) as Em.
  { destruct mode; [|done]. exfalso. revert Hm. apply (bool_decide_unpack _). by_compute. }
  unfold readAuthRule, addAuthRuleRow. cbn. rewrite E1, E2, E3, Em, sel_set_in by done. cbn.
  rewrite chips_round, Hv.
  assert (bool_decide ((if exact then js "exact" else js "prefix") = js "exact") = exact) as -> by (by destruct exact).
  destruct acl as [id|].
  - apply andb_true_iff in Ha as [[Hma Hid]%andb_true_iff Hin].
    rewrite Hma. apply bool_decide_eq_true in Hma, Hin. subst mode. apply negb_true_iff in Hid. rewrite Hid.
    rewrite sel_set_in by (by apply elem_of_id_opts). rewrite parse_int_js_of_Z.
    assert (truthy (js_of_Z id) = true) as -> by (pose proof (js_of_Z_ne id); by destruct (js_of_Z id)).
    cbn. destruct oidc; [|done]. cbn in Ho. done.
  - apply negb_true_iff in Ha. rewrite Ha. cbn. destruct oidc as [o|]; cbn; [|by rewrite andb_false_r].
    apply andb_true_iff in Ho as [Hmo Ho]. rewrite Hmo.
    unfold rule_oidc_ok in Ho. apply andb_true_iff in Ho as [[[[Hpr He]%andb_true_iff Hd]%andb_true_iff Hg]%andb_true_iff Hps].
    apply bool_decide_eq_true in Hpr, He, Hd.
    rewrite sel_set_in by (right; by apply elem_of_id_opts). rewrite parse_int_js_of_Z.
    assert (truthy (js_of_Z (oi_provider o)) = true) as -> by (pose proof (js_of_Z_ne (oi_provider o)); by destruct (js_of_Z _)).
    destruct (commas_text _ Hg) as [-> _]. destruct o as [p e d g ps]. cbn in *. by subst.
Qed.

Lemma readAuthRules_round acls provs l :
  forallb (auth_rule_ok acls provs) l = true → readAuthRules (map (addAuthRuleRow acls provs) l) = l.
Proof.
  unfold readAuthRules. rewrite omap_map. induction l as [|r l IH]; [done|]. cbn.
  intros [Hr Hl]%andb_true_iff. rewrite readAuthRule_round by done. f_equal. by apply IH.
Qed.

Definition location_ok (l : location) : bool :=
  field (lo_path l) && up_ok (lo_up l)
  && match lo_rewrite l with
     | Some rw => field (rw_strip rw) && bool_decide (rw = Rewrite (rw_strip rw) [] [] [])
     | None => true
     end.

Lemma readLocation_round l :
  location_ok l = true → readLocation (addLocationRow l) = Some (Location (lo_path l) (no_via (lo_up l)) (lo_rewrite l)).
Proof.
  unfold location_ok. intros [[Hp Hu]%andb_true_iff Hr]%andb_true_iff. apply field_spec in Hp as (E1 & E2 & E3).
  unfold readLocation, addLocationRow. cbn [lr_path lr_up lr_strip]. pose proof (url_of_word _ Hu) as (Hw & _ & _).
  destruct (text_set_word _ Hw) as [_ ->]. rewrite parse_up_url by done. rewrite E1, E2, E3.
  destruct (lo_rewrite l) as [rw|]; [|done].
  apply andb_true_iff in Hr as [Hs Hrw]. apply field_spec in Hs as (-> & -> & ->).
  apply bool_decide_eq_true in Hrw. by rewrite <- Hrw.
Qed.

Lemma readLocations_round l :
  forallb location_ok l = true →
  readLocations (map addLocationRow l) = map (λ l, Location (lo_path l) (no_via (lo_up l)) (lo_rewrite l)) l.
Proof.
  unfold readLocations. rewrite omap_map. induction l as [|r l IH]; [done|]. cbn [forallb].
  intros [Hr Hl]%andb_true_iff. cbn. rewrite readLocation_round by done. f_equal. by apply IH.
Qed.

(** ** What the editors read is what they keep *)

Lemma one_line_sub a b c : one_line (a ++ b ++ c) = true → one_line b = true.
Proof. unfold one_line. rewrite !forallb_app. intros H. by boolify. Qed.

Lemma trim_sub s : ∃ a b, s = a ++ trim s ++ b.
Proof.
  unfold trim, trim_end, trim_start.
  destruct (drop_while_suffix is_space s) as [a Ha], (drop_while_suffix is_space (rev (drop_while is_space s))) as [b Hb].
  exists a, (rev b). apply (f_equal (@rev N)) in Hb. rewrite rev_involutive, rev_app_distr in Hb.
  by rewrite <- Hb.
Qed.

Lemma trim_word s : one_line s = true → word (trim s) = true.
Proof.
  intros Hs. unfold word. rewrite (bool_decide_true _ (trim_trim s)), andb_true_r.
  destruct (trim_sub s) as (a & b & E). rewrite E in Hs. by apply one_line_sub in Hs.
Qed.

Lemma trim_field s : one_line s = true → truthy (trim s) = true → field (trim s) = true.
Proof.
  intros Hs Ht. unfold field. by rewrite trim_word, Ht.
Qed.

Lemma split_ch_sub sep s x : x ∈ split_ch sep s → ∃ a b, s = a ++ x ++ b.
Proof.
  intros (l1 & l2 & E)%list_elem_of_split. rewrite <- (join_split_ch sep s), E. clear. induction l1 as [|y l1 IH]; cbn [app].
  - exists []. destruct l2 as [|z l2]; [exists []; by rewrite app_nil_r|]. rewrite join_cons. by eexists.
  - destruct IH as (a & b & IH). destruct (l1 ++ x :: l2) eqn:E; [by destruct l1|].
    rewrite join_cons, IH. exists (y ++ [sep] ++ a), b. by rewrite <- !app_assoc.
Qed.

Lemma commas_words s : one_line s = true → list_words (commas_of s) = true.
Proof.
  intros Hs. unfold list_words. apply forallb_forall. intros w Hw%list_elem_of_In. unfold commas_of in Hw.
  pose proof (proj1 (list.Forall_forall _ _) (trim_all_tidy (split_ch 44 s)) w Hw) as Ht. cbn in Ht. rewrite Ht.
  unfold trim_all in Hw. apply list_elem_of_In, filter_In in Hw as [Hw _].
  apply in_map_iff in Hw as (x & <- & Hx). apply list_elem_of_In in Hx.
  pose proof (split_ch_no_sep 44 s) as Hn. rewrite list.Forall_forall in Hn. specialize (Hn x Hx).
  destruct (split_ch_sub _ _ _ Hx) as (a & b & ->).
  destruct (trim_sub x) as (a' & b' & Ex). rewrite Ex in Hs, Hn.
  apply one_line_sub, one_line_sub in Hs. rewrite Hs. cbn. rewrite !not_elem_of_app in Hn.
  apply negb_true_iff, bool_decide_eq_false. tauto.
Qed.

(** The spec of the address parser. *)
Lemma parse_up_iff s u :
  parse_up s = Some u ↔
  ∃ d, up_parts (u_scheme u) (u_host u) d ∧ s = u_scheme u ++ js "://" ++ u_host u ++ js ":" ++ d
    ∧ u_port u = Some (Z.of_N (digits_value d)) ∧ u_via u = 0.
Proof.
  assert (∀ d, d ≠ [] → Forall (λ c, is_digit c = true) d → parse_int d = Some (Z.of_N (digits_value d))) as Hint.
  { intros d Hne Hd. destruct d as [|c d]; [done|]. unfold parse_int, trim_start.
    inv Hd. rewrite drop_while_stop by (by apply is_digit_not_space).
    assert (is_digit c = true) as Hc by done. unfold is_digit in Hc. boolify.
    destruct (N.eqb_spec c 45); [lia|]. destruct (N.eqb_spec c 43); [lia|].
    unfold parse_digits. rewrite take_while_all by (by constructor). done. }
  unfold parse_up. split.
  - destruct (re_exec re_up s) as [m|] eqn:E; [|done]. intros [= <-].
    apply re_up_parts in E as (sch & host & d & Hok & -> & -> & -> & ->). exists d. cbn.
    split; [done|]. split; [done|]. split; [|done]. destruct Hok as (_ & _ & _ & ? & ?). by apply Hint.
  - intros (d & Hok & -> & Hp & Hv). pose proof (re_up_found _ _ _ Hok) as Hf.
    destruct (re_exec re_up _) as [m|] eqn:E; [|done].
    apply re_up_parts in E as (sch & host & d' & Hok' & Hs & -> & -> & ->).
    apply (f_equal (split_ch (ch ":"))) in Hs. rewrite !up_split in Hs by done.
    injection Hs as <- <- <-. destruct Hok as (_ & _ & _ & ? & ?). rewrite Hint by done.
    destruct u. cbn in *. congruence.
Qed.

Lemma parse_up_ok s u : parse_up s = Some u → up_ok u = true ∧ no_via u = u.
Proof.
  intros (d & (H1 & H2 & H3 & H4 & H5) & _ & Hp & Hv)%parse_up_iff. split; [|destruct u; cbn in *; by subst].
  unfold up_ok. rewrite Hp, (bool_decide_true _ H1). cbn [andb].
  assert (truthy (u_host u) = true) as -> by (by destruct (u_host u)).
  rewrite (proj2 (Z.leb_le _ _)) by lia. rewrite andb_true_r. apply forallb_forall. intros c Hc%list_elem_of_In.
  by apply (proj1 (list.Forall_forall _ _) H3).
Qed.

Definition hdr_row_wf (row : hdr) : bool :=
  bool_decide (h_op row ∈ hdr_ops) && one_line (h_name row) && one_line (h_value row).

Lemma readHdrRow_ok row r : hdr_row_wf row = true → readHdrRow row = Some r → hdr_ok r = true.
Proof.
  unfold hdr_row_wf, readHdrRow. intros [[Ho Hn]%andb_true_iff Hv]%andb_true_iff.
  destruct (truthy (trim (h_name row))) eqn:Et; [|done]. cbn. intros [= <-].
  unfold hdr_ok. cbn [h_op h_name h_value]. rewrite Ho, (trim_field _ Hn Et). cbn [andb]. destruct (decide (h_op row = js "remove")) as [D|D]; [apply orb_true_r|].
  rewrite Hv. by rewrite bool_decide_true.
Qed.

Definition auth_row_wf (acls provs : list Z) (row : auth_row) : bool :=
  one_line (a_path row) && bool_decide (a_match row ∈ match_kinds) && bool_decide (a_mode row ∈ auth_modes)
  && bool_decide (a_acl row ∈ [] :: id_opts acls) && bool_decide (a_prov row ∈ [] :: id_opts provs)
  && one_line (a_groups row) && bool_decide (map fst (a_chips row) = verbs).

Lemma chips_on_filter chips :
  NoDup (map fst chips) →
  List.filter (λ v, bool_decide (v ∈ chips_on chips)) (map fst chips) = chips_on chips.
Proof.
  unfold chips_on. induction chips as [|[v b] chips IH]; [done|]. cbn [map fst]. intros Hd. inv Hd.
  cbn [List.filter snd]. specialize (IH ltac:(done)).
  assert (∀ w, w ∈ map fst (List.filter snd chips) → w ∈ map fst chips) as Hsub.
  { intros w (x & -> & Hx%list_elem_of_In%filter_In)%list_elem_of_fmap. apply list_elem_of_fmap.
    exists x. split; [done|]. apply list_elem_of_In. by destruct Hx. }
  destruct b; cbn [map fst].
  - rewrite bool_decide_true by left. f_equal. etransitivity; [|exact IH]. apply filter_ext_in. intros w Hw%list_elem_of_In.
    apply bool_decide_ext. rewrite elem_of_cons. split; [intros [->|?]; [done|done]|by right].
  - rewrite bool_decide_false by (intros ?%Hsub; done). done.
Qed.

Lemma readAuthRule_ok acls provs row r :
  0 ∉ acls → auth_row_wf acls provs row = true → readAuthRule row = Some r → auth_rule_ok acls provs r = true.
Proof.
  intros H0. unfold auth_row_wf, readAuthRule.
  intros [[[[[[Hp Hk]%andb_true_iff Hm]%andb_true_iff Ha]%andb_true_iff Hpr]%andb_true_iff Hg]%andb_true_iff Hc]%andb_true_iff.
  apply bool_decide_eq_true in Ha, Hpr, Hc.
  destruct (truthy (trim (a_path row))) eqn:Et; [|done]. cbn [negb].
  destruct (bool_decide (a_mode row = js "accessList") && negb (truthy (a_acl row))) eqn:Ea; [done|]. intros [= <-].
  assert (bool_decide (List.filter (λ v, bool_decide (v ∈ chips_on (a_chips row))) verbs = chips_on (a_chips row)) = true) as Hchips.
  { apply bool_decide_eq_true. rewrite <- Hc. apply chips_on_filter. rewrite Hc.
    apply (bool_decide_unpack _). by_compute. }
  assert (∀ s ids, s ∈ [] :: id_opts ids → truthy s = true → ∃ id, id ∈ ids ∧ s = js_of_Z id) as Hid.
  { intros s ids [->|Hs]%elem_of_cons Hs'; [done|]. apply list_elem_of_fmap in Hs as (id & -> & ?). eauto. }
  unfold auth_rule_ok. cbn [ar_path ar_mode ar_acl ar_oidc ar_methods].
  rewrite (trim_field _ Hp Et), Hm, Hchips. cbn [andb]. rewrite andb_true_r. apply andb_true_iff. split.
  - destruct (bool_decide (a_mode row = js "accessList")) eqn:Em; [|done]. cbn in Ea. apply negb_false_iff in Ea.
    destruct (Hid _ _ Ha Ea) as (id & Hin & ->). rewrite parse_int_js_of_Z. cbn.
    rewrite (bool_decide_true _ Hin). destruct (Z.eqb_spec id 0) as [->|]; done.
  - destruct (bool_decide (a_mode row = js "oidc")) eqn:Em; [|done]. cbn [andb].
    destruct (truthy (a_prov row)) eqn:Epv; [|done].
    destruct (Hid _ _ Hpr Epv) as (id & Hin & ->). rewrite parse_int_js_of_Z. cbn [option_map].
    unfold rule_oidc_ok. cbn [oi_provider oi_emails oi_domains oi_groups oi_pass].
    by rewrite (bool_decide_true _ Hin), (commas_words _ Hg).
Qed.

Definition loc_row_wf (row : loc_row) : bool := one_line (lr_path row) && one_line (lr_strip row).

Lemma readLocation_ok row l : loc_row_wf row = true → readLocation row = Some l →
  location_ok l = true ∧ no_via (lo_up l) = lo_up l.
Proof.
  unfold loc_row_wf, readLocation. intros [Hp Hs]%andb_true_iff.
  destruct (parse_up (trim (lr_up row))) as [u|] eqn:Eu; [|done].
  destruct (truthy (trim (lr_path row))) eqn:Et; [|done]. intros [= <-].
  apply parse_up_ok in Eu as [Hu Hv]. split; [|done]. unfold location_ok. cbn [lo_path lo_up lo_rewrite].
  rewrite (trim_field _ Hp Et), Hu. cbn [andb]. destruct (truthy (trim (lr_strip row))) eqn:E; [|done].
  cbn [rw_strip]. by rewrite (trim_field _ Hs E), bool_decide_true.
Qed.

Definition route_row_wf (row : route) : bool :=
  one_line (rt_cidr row) && bool_decide (rt_proto row ∈ protos) && one_line (rt_ports row).
Definition route_ok (r : route) : bool :=
  field (rt_cidr r) && includes (js "/") (rt_cidr r) && bool_decide (rt_proto r ∈ protos) && word (rt_ports r).

Lemma readRoute_round r : route_ok r = true → readRoute (addRouteRow r) = Some r.
Proof.
  unfold route_ok. intros [[[Hc Hi]%andb_true_iff Hp]%andb_true_iff Hw]%andb_true_iff.
  apply field_spec in Hc as (E1 & E2 & E3). apply text_set_word in Hw as [E4 E5]. rewrite E4 in E5.
  apply bool_decide_eq_true in Hp. destruct r as [cidr proto ports]. cbn in *.
  assert (str_or proto (js "any") = proto) as Em.
  { destruct proto; [|done]. exfalso. revert Hp. apply (bool_decide_unpack _). by_compute. }
  unfold readRoute, addRouteRow. cbn. by rewrite E1, E2, E3, Hi, Em, sel_set_in, E4, E5.
Qed.

Lemma includes_app_l p b : includes p (p ++ b) = true.
Proof. pose proof (starts_with_app p b) as H. destruct (p ++ b) as [|c t] eqn:E; cbn; by rewrite H. Qed.

Lemma includes_app_r p a b : includes p b = true → includes p (a ++ b) = true.
Proof. intros H. induction a as [|c a IH]; [done|]. cbn. by rewrite IH, orb_true_r. Qed.

Lemma tidy_app a b : tidy a = true → tidy b = true → tidy (a ++ b) = true.
Proof.
  unfold tidy. destruct a as [|c a]; [done|]. cbn [app]. intros [H1 _]%andb_true_iff H2. rewrite H1. cbn [andb].
  destruct b as [|d b]; [done|]. apply andb_true_iff in H2 as [_ H2]. rewrite app_comm_cons, rev_app_distr.
  destruct (rev (d :: b)); done.
Qed.

Lemma readRoute_ok row r : route_row_wf row = true → readRoute row = Some r → route_ok r = true.
Proof.
  unfold route_row_wf, readRoute. intros [[Hc Hp]%andb_true_iff Hs]%andb_true_iff.
  destruct (truthy (trim (rt_cidr row))) eqn:Et; [|done]. intros [= <-]. unfold route_ok. cbn [rt_cidr rt_proto rt_ports].
  rewrite Hp. pose proof (trim_field _ Hc Et) as Hf.
  rewrite (trim_word _ Hs), !andb_true_r. destruct (includes (js "/") (trim (rt_cidr row))) eqn:Ei; [by rewrite Hf|].
  rewrite includes_app_r by done. rewrite andb_true_r. unfold field, word in *. apply andb_true_iff in Hf as [[H1 H2]%andb_true_iff H3].
  assert (tidy (trim (rt_cidr row)) = true) as Ht by (by rewrite <- truthy_trim).
  pose proof (tidy_app _ (js "/32") Ht eq_refl) as Ht'. rewrite (bool_decide_true _ (trim_tidy _ Ht')).
  unfold one_line in *. rewrite forallb_app, H1. by destruct (trim (rt_cidr row)).
Qed.

Lemma omap_stable {A B} (read : A → option B) (fill : B → A) (wf : A → bool) (ok : B → bool) rows :
  (∀ a b, wf a = true → read a = Some b → ok b = true) → (∀ b, ok b = true → read (fill b) = Some b) →
  forallb wf rows = true → omap read (map fill (omap read rows)) = omap read rows.
Proof.
  intros Hok Hr. induction rows as [|a rows IH]; [done|]. cbn. intros [Ha Hrows]%andb_true_iff.
  destruct (read a) as [b|] eqn:E; cbn; [|by apply IH].
  rewrite (Hr b) by eauto. f_equal. by apply IH.
Qed.

Lemma no_via_idem u : no_via (no_via u) = no_via u.
Proof. done. Qed.

(** ** Properties *)

(** Saving a form twice saves the same: whatever somebody typed, the
    backends, header rules, locations and routes the editors read from it are
    filled back into the rows when the record is opened again, and read from
    them unchanged. *)
Theorem rows_reopen text hdrs locs routes :
  forallb hdr_row_wf hdrs = true → forallb loc_row_wf locs = true → forallb route_row_wf routes = true →
  parsePool (area_set (pool_text (parsePool text))) = parsePool text
  ∧ readHdrRows (map addHdrRow (readHdrRows hdrs)) = readHdrRows hdrs
  ∧ readLocations (map addLocationRow (readLocations locs)) = readLocations locs
  ∧ readRoutes (map addRouteRow (readRoutes routes)) = readRoutes routes.
Proof.
  intros Hh Hl Hr. split; [|split; [|split]].
  - assert (Forall (λ u, up_ok u = true ∧ no_via u = u) (parsePool text)) as F.
    { unfold parsePool. induction (lines_of text) as [|s l IH]; [constructor|]. cbn.
      destruct (parse_up s) as [u|] eqn:E; [|done]. constructor; [|done]. by apply parse_up_ok in E. }
    rewrite parsePool_round.
    + induction F as [|u l [_ Hu] _ IH]; [done|]. cbn. by rewrite Hu, IH.
    + apply forallb_forall. intros u Hu%list_elem_of_In. by apply (proj1 (list.Forall_forall _ _) F).
  - eapply (omap_stable _ _ hdr_row_wf hdr_ok); [apply readHdrRow_ok|apply readHdrRow_round|done].
  - eapply (omap_stable _ _ loc_row_wf (λ l, location_ok l && bool_decide (no_via (lo_up l) = lo_up l))); [| |done].
    + intros a b Ha Hb. destruct (readLocation_ok a b Ha Hb) as [-> Hv]. by rewrite bool_decide_true.
    + intros b [Hb Hv]%andb_true_iff. rewrite readLocation_round by done.
      apply bool_decide_eq_true in Hv. rewrite Hv. by destruct b.
  - eapply (omap_stable _ _ route_row_wf route_ok); [apply readRoute_ok|apply readRoute_round|done].
Qed.

Lemma rows_reopen_witness :
  let routes := [Route (js " 10.1.0.9 ") (js "tcp") (js "80, 443 "); Route [] (js "any") []] in
  readRoutes (map addRouteRow (readRoutes routes)) = [Route (js "10.1.0.9/32") (js "tcp") (js "80, 443")].
Proof.
  intros routes. transitivity (readRoutes routes); [|by_compute].
  destruct (rows_reopen (js "http://a:1") [Hdr (js "set") (js "X-A ") (js "1")] [LocRow (js "/a") (js "http://b:2") []] routes)
    as (_ & _ & _ & H); [by_compute..|exact H].
Defined.

(** The same for the path rules: every rule the editor reads, with any of
    the access lists and providers it offers, comes back as it was. *)
Theorem auth_rules_reopen acls provs rows :
  0 ∉ acls → forallb (auth_row_wf acls provs) rows = true →
  readAuthRules (map (addAuthRuleRow acls provs) (readAuthRules rows)) = readAuthRules rows.
Proof.
  intros H0 Hr. eapply (omap_stable _ _ (auth_row_wf acls provs) (auth_rule_ok acls provs)); [| |done].
  - intros a b. by apply readAuthRule_ok.
  - apply readAuthRule_round.
Qed.

Definition sample_auth_row : auth_row :=
  AuthRow (js "/api/") (js "exact") (js "oidc") (js "3") (js "7") (js "staff, ops") (map (λ v, (v, bool_decide (v = js "PUT"))) verbs).
Lemma auth_rules_reopen_witness :
  readAuthRules (map (addAuthRuleRow [3] [7]) (readAuthRules [sample_auth_row]))
  = [AuthRule (js "/api/") true (js "oidc") None (Some (OidcAuth 7 [] [] [js "staff"; js "ops"] true)) [js "PUT"]].
Proof.
  transitivity (readAuthRules [sample_auth_row]); [|by_compute].
  apply auth_rules_reopen; [apply (bool_decide_unpack _)|]; by_compute.
Defined.

(** What the path-rule editor cannot show it does not keep: opening a
    stored rule with its own provider and saving it drops the rule's allowed
    addresses and domains, and switches identity headers on. *)
Theorem auth_rule_policy_dropped acls provs r o :
  field (ar_path r) = true → ar_mode r = js "oidc" → ar_oidc r = Some o →
  oi_provider o ∈ provs → list_words (oi_groups o) = true →
  ∃ r', readAuthRule (addAuthRuleRow acls provs r) = Some r'
    ∧ ar_oidc r' = Some (OidcAuth (oi_provider o) [] [] (oi_groups o) true).
Proof.
  intros Hp Hm Ho Hin Hg. apply field_spec in Hp as (E1 & E2 & E3). destruct r as [path exact mode acl oidc methods].
  cbn in *. subst mode oidc. unfold readAuthRule, addAuthRuleRow. cbn [a_path a_mode a_acl a_prov a_groups a_match a_chips
    ar_path ar_exact ar_mode ar_acl ar_oidc ar_methods]. rewrite E1, E2, E3. cbn [negb].
  assert (sel_set auth_modes (str_or (js "oidc") (js "public")) = js "oidc") as -> by by_compute.
  rewrite sel_set_in by (right; by apply elem_of_id_opts).
  assert (truthy (js_of_Z (oi_provider o)) = true) as -> by (pose proof (js_of_Z_ne (oi_provider o)); by destruct (js_of_Z _)).
  rewrite (bool_decide_false (js "oidc" = js "accessList")) by done.
  rewrite (bool_decide_true (js "oidc" = js "oidc")) by done. rewrite parse_int_js_of_Z. cbn [andb option_map].
  eexists. split; [reflexivity|]. cbn. by destruct (commas_text _ Hg) as [-> _].
Qed.

Lemma auth_rule_policy_dropped_witness :
  ∃ r', readAuthRule (addAuthRuleRow [] [7] (AuthRule (js "/admin") false (js "oidc") None
      (Some (OidcAuth 7 [js "boss@example.com"] [] [js "staff"] false)) [])) = Some r'
    ∧ ar_oidc r' = Some (OidcAuth 7 [] [] [js "staff"] true).
Proof.
  apply (auth_rule_policy_dropped [] [7] (AuthRule (js "/admin") false (js "oidc") None
    (Some (OidcAuth 7 [js "boss@example.com"] [] [js "staff"] false)) [])
    (OidcAuth 7 [js "boss@example.com"] [] [js "staff"] false));
    [by_compute|done|done|apply (bool_decide_unpack _); by_compute|by_compute].
Defined.

(** Other records the rows lose: an IPv6 backend, the rewrites of a location
    beyond its prefix, and the verbs without a chip, without which a rule for
    them becomes a rule for every method. *)
Theorem ipv6_backend_dropped :
  parsePool (area_set (pool_text [Upstream (js "http") (js "2001:db8::1") (Some 8080) 0])) = [].
Proof. by_compute. Qed.
Theorem location_rewrite_dropped :
  readLocations (map addLocationRow [Location (js "/a") (Upstream (js "http") (js "b") (Some 80) 0)
    (Some (Rewrite [] (js "/v2") [] []))])
  = [Location (js "/a") (Upstream (js "http") (js "b") (Some 80) 0) None].
Proof. by_compute. Qed.
Theorem options_rule_widened :
  readAuthRules (map (addAuthRuleRow [] []) [AuthRule (js "/") false (js "public") None None [js "OPTIONS"]])
  = [AuthRule (js "/") false (js "public") None None []].
Proof. by_compute. Qed.
