(* ===== verification/Subjects.v ===== *)
(** * People, sites and the subject pickers (web/app.js, VPN section)

    A rule, a policy or an enrolment is about somebody: anyone on the VPN, a
    site, a device, a group, a person.  [makeSubjectPicker] builds the
    controls that choose one and returns the function that reads them;
    [knownPeople] and [knownGroups] are what it offers, [describeSubject] is
    how the tables print one.

    The picker is its state: the two menus and the control in the slot.
    [pick_build] is the closure [build], [pick_make] opens a picker on a
    stored subject, the [pick_set_*] functions are what the listeners do, and
    [pick_read] is the returned function.  [localeCompare] is the browser's
    and a variable of the section. *)

From Stdlib Require Import Ascii String ZArith NArith Lia.
From stdpp Require Import base list strings numbers.
From S2P Require Import Prelude JsString Regex Fields.

Local Open Scope Z_scope.

(** ** Data *)

Record site : Type := Site { si_id : Z; si_name : jstr; si_networks : list jstr; si_enabled : bool }.
Record device : Type := Device {
  d_id : Z; d_kind : jstr; d_name : jstr; d_provider : Z; d_sub : jstr; d_email : jstr; d_revoked : bool }.
Record session : Type := Session { se_provider : Z; se_sub : jstr; se_email : jstr; se_groups : list jstr }.
Record provider : Type := Provider { pv_id : Z; pv_name : jstr }.

(** The tables the page has loaded. *)
Record people : Type := People {
  wgSites : list site; wgDevices : list device; vpnSessions : list session; oidcProviders : list provider }.

Record subject : Type := Subject { s_kind : jstr; s_peer : jstr; s_provider : Z; s_sub : jstr; s_group : jstr }.

#[export] Instance subject_eq_dec : EqDecision subject.
Proof. solve_decision. Defined.

(** ** Names *)

Definition wgSiteName (p : people) (id : Z) : jstr :=
  match List.find (λ s, si_id s =? id) (wgSites p) with Some s => si_name s | None => js "site " ++ js_of_Z id end.
Definition providerName (p : people) (id : Z) : jstr :=
  match List.find (λ x, pv_id x =? id) (oidcProviders p) with Some x => pv_name x | None => js "provider " ++ js_of_Z id end.

(** [viaOn] and the reach-through menu. *)
Definition via_value (sel : jstr) : Z := int_or (parse_int sel) 0.
Definition viaOn (sel : jstr) (u : upstream) : upstream := if via_value sel =? 0 then u else set_via (via_value sel) u.
Definition via_opts (p : people) : list jstr := js "0" :: map (λ s, js_of_Z (si_id s)) (wgSites p).
Definition fillViaSelect (p : people) (value : Z) : jstr * bool :=
  let v := sel_set (via_opts p) (js_of_Z value) in
  (if decide (v = js_of_Z value) then v else js "0", bool_decide (wgSites p = []) && (value =? 0)).

(** [new Map] in insertion order: setting a key again keeps its place. *)
Fixpoint map_set (k v : jstr) (m : list (jstr * jstr)) : list (jstr * jstr) :=
  match m with
  | [] => [(k, v)]
  | (k', v') :: m => if decide (k = k') then (k, v) :: m else (k', v') :: map_set k v m
  end.
Definition map_has (k : jstr) (m : list (jstr * jstr)) : bool := existsb (λ x, bool_decide (x.1 = k)) m.

(** [Set.prototype.add] in insertion order. *)
Definition set_add (x : jstr) (l : list jstr) : list jstr := if decide (x ∈ l) then l else l ++ [x].

Section subjects.
Context (localeLeb : jstr → jstr → bool).

(** A stable sort by the second component. *)
Fixpoint people_insert (x : jstr * jstr) (l : list (jstr * jstr)) : list (jstr * jstr) :=
  match l with
  | [] => [x]
  | y :: t => if localeLeb x.2 y.2 then x :: l else y :: people_insert x t
  end.
Definition people_sort (l : list (jstr * jstr)) : list (jstr * jstr) := foldr people_insert [] l.

(** Everybody seen at a portal of the provider: subject and address. *)
Definition knownPeople (p : people) (prov : Z) : list (jstr * jstr) :=
  let seen := fold_left (λ m s, if se_provider s =? prov then map_set (se_sub s) (str_or (se_email s) (se_sub s)) m else m)
                (vpnSessions p) [] in
  let seen := fold_left (λ m d,
      if bool_decide (d_kind d = js "sso") && (d_provider d =? prov) && negb (map_has (d_sub d) m)
      then map_set (d_sub d) (str_or (d_email d) (d_sub d)) m else m) (wgDevices p) seen in
  people_sort seen.

Definition knownGroups (p : people) (prov : Z) : list jstr :=
  str_sort (fold_left (λ m s, if se_provider s =? prov then fold_left (λ m g, set_add g m) (se_groups s) m else m)
    (vpnSessions p) []).

Definition describeSubject (p : people) (v : subject) : jstr :=
  let k := s_kind v in
  let prov := js " (" ++ providerName p (s_provider v) ++ js ")" in
  if decide (k = js "any") then js "anyone on the VPN"
  else if decide (k = js "site") then js "any site"
  else if decide (k = js "device") then js "any device"
  else if decide (k = js "peer") then
    let parts := split_ch (ch ":") (s_peer v) in
    let id := default (js "undefined") (parts !! 1%nat) in
    let n := parse_int id in
    if decide (default [] (parts !! 0%nat) = js "site") then
      js "site " ++ match n with Some n => wgSiteName p n | None => js "site NaN" end
    else match n ≫= λ n, List.find (λ d, d_id d =? n) (wgDevices p) with
         | Some d => js "device " ++ d_name d
         | None => js "device " ++ id
         end
  else if decide (k = js "group") then js "group " ++ s_group v ++ prov
  else if decide (k = js "user") then
    match List.find (λ x, bool_decide (x.1 = s_sub v)) (knownPeople p (s_provider v)) with
    | Some x => x.2 ++ prov
    | None => s_sub v ++ prov
    end
  else if decide (k = js "any-user") then js "everybody from " ++ providerName p (s_provider v)
  else k.

(** ** The picker *)

Inductive control : Type :=
  | CNone
  | CMenu (opts : list jstr) (value : jstr)
  | CText (value : jstr).
Definition control_value (c : control) : jstr := match c with CNone => [] | CMenu _ v | CText v => v end.

Record picker : Type := Picker { k_identity_only : bool; k_kind : jstr; k_prov : jstr; k_control : control }.

Definition subject_kinds (identityOnly : bool) : list jstr :=
  (if identityOnly then [] else map js ["any"; "site"; "device"; "peer"]) ++ map js ["group"; "user"; "any-user"].
Definition identity_kind (k : jstr) : bool := bool_decide (k ∈ map js ["group"; "user"; "any-user"]).

(** [providerID]: the fixed provider of the host editor, or the menu's. *)
Definition provider_id (fixed : option Z) (prov : jstr) : Z :=
  match fixed with Some id => id | None => int_or (parse_int prov) 0 end.

Definition menu (opts : list jstr) (cur : jstr) : control :=
  CMenu opts (if truthy cur then sel_set opts cur else sel_first opts).

Definition peer_opts (p : people) : list jstr :=
  let opts := map (λ s, js "site:" ++ js_of_Z (si_id s)) (wgSites p)
    ++ map (λ d, js "device:" ++ js_of_Z (d_id d)) (List.filter (λ d, negb (d_revoked d)) (wgDevices p)) in
  match opts with [] => [[]] | _ => opts end.

Definition user_opts (p : people) (prov : Z) (cur : jstr) : list jstr :=
  let subs := map fst (knownPeople p prov) in
  let opts := if truthy cur && negb (bool_decide (cur ∈ subs)) then subs ++ [cur] else subs in
  match opts with [] => [[]] | _ => opts end.

(** [build(cur)]: the control of the chosen kind. *)
Definition pick_build (p : people) (fixed : option Z) (kind prov : jstr) (cur : option subject) : control :=
  let prov_id := provider_id fixed prov in
  if decide (kind = js "peer") then menu (peer_opts p) (match cur with Some v => s_peer v | None => [] end)
  else if decide (kind = js "user") then
    let sub := match cur with Some v => s_sub v | None => [] end in menu (user_opts p prov_id sub) sub
  else if decide (kind = js "group") then CText (match cur with Some v => text_set (s_group v) | None => [] end)
  else CNone.

Definition provider_opts (p : people) : list jstr := map (λ x, js_of_Z (pv_id x)) (oidcProviders p).

(** Opening a picker on a stored subject, or on none. *)
Definition pick_make (p : people) (identityOnly : bool) (fixed : option Z) (cur : option subject) : picker :=
  let kind := match cur with
    | Some v => sel_set (subject_kinds identityOnly) (s_kind v)
    | None => if identityOnly then js "group" else sel_first (subject_kinds identityOnly)
    end in
  let prov := match cur with
    | Some v => if s_provider v =? 0 then sel_first (provider_opts p) else sel_set (provider_opts p) (js_of_Z (s_provider v))
    | None => sel_first (provider_opts p)
    end in
  Picker identityOnly kind prov (pick_build p fixed kind prov cur).

(** Choosing another kind or provider, and the value. *)
Definition pick_set_kind (p : people) (fixed : option Z) (kind : jstr) (k : picker) : picker :=
  Picker (k_identity_only k) kind (k_prov k) (pick_build p fixed kind (k_prov k) None).
Definition pick_set_prov (p : people) (fixed : option Z) (prov : jstr) (k : picker) : picker :=
  Picker (k_identity_only k) (k_kind k) prov (pick_build p fixed (k_kind k) prov None).
Definition pick_set_value (v : jstr) (k : picker) : picker :=
  Picker (k_identity_only k) (k_kind k) (k_prov k)
    (match k_control k with CNone => CNone | CMenu opts _ => CMenu opts (sel_set opts v) | CText _ => CText (text_set v) end).

(** The function the picker returns. *)
Definition pick_read (fixed : option Z) (k : picker) : subject :=
  let kind := k_kind k in
  Subject kind
    (if decide (kind = js "peer") then control_value (k_control k) else [])
    (if identity_kind kind then provider_id fixed (k_prov k) else 0)
    (if decide (kind = js "user") then control_value (k_control k) else [])
    (if decide (kind = js "group") then trim (control_value (k_control k)) else []).

(** ** A stored subject comes back *)

(** A subject as the server stores it: only the fields of its kind, the
    provider one the menu lists (or the host's own), the site or device
    still there. *)
Definition subject_ok (p : people) (identityOnly : bool) (fixed : option Z) (v : subject) : bool :=
  bool_decide (s_kind v ∈ subject_kinds identityOnly)
  && (if identity_kind (s_kind v) then
        match fixed with
        | Some id => s_provider v =? id
        | None => negb (s_provider v =? 0) && bool_decide (js_of_Z (s_provider v) ∈ provider_opts p)
        end
      else s_provider v =? 0)
  && (if decide (s_kind v = js "peer") then truthy (s_peer v) && bool_decide (s_peer v ∈ peer_opts p)
      else negb (truthy (s_peer v)))
  && (if decide (s_kind v = js "user") then truthy (s_sub v) else negb (truthy (s_sub v)))
  && (if decide (s_kind v = js "group") then word (s_group v) else negb (truthy (s_group v))).

Lemma menu_value opts cur : truthy cur = true → cur ∈ opts → control_value (menu opts cur) = cur.
Proof. intros Ht Hin. unfold menu. cbn. rewrite Ht. by apply sel_set_in. Qed.

Lemma user_opts_in p prov cur : truthy cur = true → cur ∈ user_opts p prov cur.
Proof.
  intros Ht. unfold user_opts. rewrite Ht. cbn [andb]. set (subs := map fst _).
  case_bool_decide as E; cbn [negb].
  - destruct subs; [by apply elem_of_nil in E|done].
  - assert (cur ∈ subs ++ [cur]) as H by (apply elem_of_app; right; by left).
    destruct (subs ++ [cur]); [by apply elem_of_nil in H|done].
Qed.

Lemma pick_round p identityOnly fixed v :
  subject_ok p identityOnly fixed v = true → pick_read fixed (pick_make p identityOnly fixed (Some v)) = v.
Proof.
  unfold subject_ok. intros [[[[Hk Hp]%andb_true_iff Hpeer]%andb_true_iff Hsub]%andb_true_iff Hgrp]%andb_true_iff.
  apply bool_decide_eq_true in Hk. unfold pick_make, pick_read. cbn [k_kind k_prov k_control].
  rewrite (sel_set_in _ (s_kind v)) by done. set (prov := if s_provider v =? 0 then _ else _).
  assert (∀ s, negb (truthy s) = true → s = []) as Hnil by (by intros []).
  assert ((if identity_kind (s_kind v) then provider_id fixed prov else 0) = s_provider v) as ->.
  { destruct (identity_kind (s_kind v)); [|lia]. destruct fixed as [id|]; cbn; [lia|].
    apply andb_true_iff in Hp as [Hz Hin]. apply bool_decide_eq_true in Hin. apply negb_true_iff in Hz.
    unfold prov. rewrite Hz, sel_set_in by done. rewrite parse_int_js_of_Z. cbn. by destruct (s_provider v). }
  destruct v as [kind peer pr sub grp]. cbn [s_kind s_peer s_provider s_sub s_group] in *.
  unfold pick_build. destruct (decide (kind = js "peer")) as [->|Hnp].
  - rewrite !decide_False in * by done. apply andb_true_iff in Hpeer as [Ht Hin].
    apply bool_decide_eq_true in Hin. rewrite menu_value by done. f_equal; symmetry; by apply Hnil.
  - apply Hnil in Hpeer as ->. destruct (decide (kind = js "user")) as [->|Hnu].
    + rewrite !decide_False in * by done. rewrite menu_value by (done || by apply user_opts_in).
      f_equal. symmetry. by apply Hnil.
    + apply Hnil in Hsub as ->. destruct (decide (kind = js "group")) as [->|Hng].
      * cbn. by destruct (text_set_word _ Hgrp) as [_ ->].
      * by apply Hnil in Hgrp as ->.
Qed.

(** ** What the picker offers *)

Lemma map_set_keys k v m : map fst (map_set k v m) = if decide (k ∈ map fst m) then map fst m else map fst m ++ [k].
Proof.
  induction m as [|[k' v'] m IH]; [done|]. cbn. destruct (decide (k = k')) as [->|E].
  - cbn. by rewrite decide_True by left.
  - cbn. rewrite IH. destruct (decide (k ∈ map fst m)) as [H|H].
    + by rewrite decide_True by (by right).
    + rewrite decide_False; [done|]. rewrite elem_of_cons. tauto.
Qed.

Lemma map_set_nodup k v m : NoDup (map fst m) → NoDup (map fst (map_set k v m)).
Proof.
  intros H. rewrite map_set_keys. case_decide; [done|]. apply list.NoDup_app. split; [done|].
  split; [|apply NoDup_singleton]. intros x Hx ->%list_elem_of_singleton. done.
Qed.

Lemma people_insert_perm x l : people_insert x l ≡ₚ x :: l.
Proof. induction l as [|y l IH]; [done|]. cbn. case_match; [done|]. rewrite IH. apply Permutation_swap. Qed.
Lemma people_sort_perm l : people_sort l ≡ₚ l.
Proof. induction l as [|x l IH]; [done|]. cbn. by rewrite people_insert_perm, IH. Qed.

Lemma map_has_spec k m : map_has k m = true ↔ k ∈ map fst m.
Proof.
  unfold map_has. rewrite existsb_exists, list_elem_of_fmap. split.
  - intros (x & Hx & E%bool_decide_eq_true). exists x. by rewrite list_elem_of_In.
  - intros (x & -> & Hx). exists x. rewrite <- list_elem_of_In. by rewrite bool_decide_true.
Qed.

Lemma seen_sessions prov l m sub :
  NoDup (map fst m) →
  let m' := fold_left (λ m s, if se_provider s =? prov then map_set (se_sub s) (str_or (se_email s) (se_sub s)) m else m) l m in
  NoDup (map fst m') ∧ (sub ∈ map fst m' ↔ sub ∈ map fst m ∨ ∃ s, s ∈ l ∧ se_provider s = prov ∧ se_sub s = sub).
Proof.
  cbn. revert m. induction l as [|s l IH]; intros m Hm; cbn [fold_left].
  - split; [done|]. split; [by intros; left|]. intros [?|(? & ?%elem_of_nil & _)]; done.
  - destruct (Z.eqb_spec (se_provider s) prov) as [Hp|Hp].
    + destruct (IH (map_set (se_sub s) (str_or (se_email s) (se_sub s)) m) (map_set_nodup _ _ _ Hm)) as [H1 H2].
      split; [done|]. rewrite H2, map_set_keys. setoid_rewrite elem_of_cons. clear - Hp.
      case_decide as D; [|rewrite elem_of_app, list_elem_of_singleton]; split.
      * intros [?|(x & ? & ?)]; [by left|right; eauto].
      * intros [?|(x & [->|?] & ? & <-)]; [by left|by left|right; eauto].
      * intros [[?| ->]|(x & ? & ?)]; [by left|right; eauto|right; eauto].
      * intros [?|(x & [->|?] & ? & <-)]; [by left; left|by left; right|right; eauto].
    + destruct (IH m Hm) as [H1 H2]. split; [done|]. rewrite H2. setoid_rewrite elem_of_cons. clear - Hp.
      split; [intros [?|(x & ? & ?)]; eauto|]. intros [?|(x & [->|?] & ? & ?)]; [by left|done|eauto].
Qed.

Lemma seen_devices prov l m sub :
  NoDup (map fst m) →
  let m' := fold_left (λ m d,
      if bool_decide (d_kind d = js "sso") && (d_provider d =? prov) && negb (map_has (d_sub d) m)
      then map_set (d_sub d) (str_or (d_email d) (d_sub d)) m else m) l m in
  NoDup (map fst m')
  ∧ (sub ∈ map fst m' ↔ sub ∈ map fst m ∨ ∃ d, d ∈ l ∧ d_kind d = js "sso" ∧ d_provider d = prov ∧ d_sub d = sub).
Proof.
  cbn. revert m. induction l as [|d l IH]; intros m Hm; cbn [fold_left].
  - split; [done|]. split; [by intros; left|]. intros [?|(? & ?%elem_of_nil & _)]; done.
  - destruct (bool_decide (d_kind d = js "sso") && (d_provider d =? prov)) eqn:E.
    + apply andb_true_iff in E as [Ek Ep]. apply bool_decide_eq_true in Ek. apply Z.eqb_eq in Ep.
      destruct (map_has (d_sub d) m) eqn:Eh; cbn [andb negb].
      * apply map_has_spec in Eh. destruct (IH m Hm) as [H1 H2]. split; [done|]. rewrite H2.
        setoid_rewrite elem_of_cons. clear - Eh. split; [intros [?|(x & ? & ?)]; eauto|].
        intros [?|(x & [->|?] & ? & ? & <-)]; [by left|by left|right; eauto].
      * destruct (IH (map_set (d_sub d) (str_or (d_email d) (d_sub d)) m) (map_set_nodup _ _ _ Hm)) as [H1 H2].
        split; [done|]. rewrite H2, map_set_keys. rewrite decide_False.
        2: { intros H. apply map_has_spec in H. congruence. }
        rewrite elem_of_app, list_elem_of_singleton. setoid_rewrite elem_of_cons. clear - Ek Ep. split.
        -- intros [[?| ->]|(x & ? & ?)]; [by left|right; eauto 10|right; eauto].
        -- intros [?|(x & [->|?] & ? & ? & <-)]; [by left; left|by left; right|right; eauto 10].
    + cbn [andb]. destruct (IH m Hm) as [H1 H2]. split; [done|]. rewrite H2. setoid_rewrite elem_of_cons. clear - E.
      split; [intros [?|(x & ? & ?)]; eauto|]. intros [?|(x & [->|?] & Hk & Hp & ?)]; [by left| |eauto 10].
      by rewrite Hk, Hp, bool_decide_true, Z.eqb_refl in E.
Qed.

(** The pickers a person can bring about. *)
Inductive picked (p : people) (identityOnly : bool) (fixed : option Z) : picker → Prop :=
  | picked_new : picked p identityOnly fixed (pick_make p identityOnly fixed None)
  | picked_stored v : subject_ok p identityOnly fixed v = true → picked p identityOnly fixed (pick_make p identityOnly fixed (Some v))
  | picked_kind k kind : picked p identityOnly fixed k → kind ∈ subject_kinds identityOnly →
      picked p identityOnly fixed (pick_set_kind p fixed kind k)
  | picked_prov k prov : picked p identityOnly fixed k → prov ∈ provider_opts p →
      picked p identityOnly fixed (pick_set_prov p fixed prov k)
  | picked_value k v : picked p identityOnly fixed k →
      (∀ opts w, k_control k = CMenu opts w → v ∈ opts) →
      picked p identityOnly fixed (pick_set_value v k).

(** The control fits the menus. *)
Definition control_ok (p : people) (fixed : option Z) (kind prov : jstr) (c : control) : Prop :=
  if decide (kind = js "peer") then ∃ w, c = CMenu (peer_opts p) w ∧ w ∈ peer_opts p
  else if decide (kind = js "user") then
    ∃ cur w, c = CMenu (user_opts p (provider_id fixed prov) cur) w ∧ w ∈ user_opts p (provider_id fixed prov) cur
  else if decide (kind = js "group") then ∃ t, c = CText (text_set t)
  else c = CNone.

Lemma menu_in opts cur : opts ≠ [] → (truthy cur = true → cur ∈ opts) → ∃ w, menu opts cur = CMenu opts w ∧ w ∈ opts.
Proof.
  intros Hne Hc. unfold menu. eexists. split; [done|]. destruct (truthy cur).
  - rewrite sel_set_in by auto. auto.
  - destruct opts; [done|]. by left.
Qed.

Lemma peer_opts_ne p : peer_opts p ≠ [].
Proof. unfold peer_opts. by case_match. Qed.
Lemma user_opts_ne p prov cur : user_opts p prov cur ≠ [].
Proof. unfold user_opts. by case_match. Qed.

Lemma build_ok p fixed kind prov cur :
  (∀ v, cur = Some v → kind = js "peer" → truthy (s_peer v) = true → s_peer v ∈ peer_opts p) →
  control_ok p fixed kind prov (pick_build p fixed kind prov cur).
Proof.
  intros Hcur. unfold control_ok, pick_build. case_decide as D1.
  - apply menu_in; [apply peer_opts_ne|]. destruct cur as [v|]; [|done]. auto.
  - case_decide as D2; [|case_decide].
    + eexists. apply menu_in; [apply user_opts_ne|apply user_opts_in].
    + destruct cur as [v|]; [by eexists|by exists []].
    + done.
Qed.

Definition picker_ok (p : people) (identityOnly : bool) (fixed : option Z) (k : picker) : Prop :=
  k_kind k ∈ subject_kinds identityOnly ∧ (fixed = None → k_prov k = sel_first (provider_opts p) ∨ k_prov k ∈ provider_opts p)
  ∧ control_ok p fixed (k_kind k) (k_prov k) (k_control k).

Lemma text_set_one_line s : one_line (text_set s) = true.
Proof.
  unfold one_line, text_set. apply forallb_forall. intros c Hc%filter_In. tauto.
Qed.

Lemma picked_ok p identityOnly fixed k : picked p identityOnly fixed k → picker_ok p identityOnly fixed k.
Proof.
  induction 1 as [|v Hv|k kind _ (_ & H2 & _) Hk|k prov _ (H1 & _ & _) Hp|k v _ (H1 & H2 & H3) Hv].
  - split; [|split].
    + cbn. destruct identityOnly; [|unfold subject_kinds]; apply (bool_decide_unpack _); by_compute.
    + by left.
    + cbn. by apply build_ok.
  - unfold subject_ok in Hv. apply andb_true_iff in Hv as [[[[Hk Hp]%andb_true_iff Hpeer]%andb_true_iff _]%andb_true_iff _].
    apply bool_decide_eq_true in Hk. unfold picker_ok, pick_make. cbn [k_kind k_prov k_control].
    rewrite sel_set_in by done. split; [done|]. split.
    + intros ->. destruct (Z.eqb_spec (s_provider v) 0) as [|Hz]; [by left|]. right.
      destruct (identity_kind (s_kind v)); [|lia]. apply andb_true_iff in Hp as [_ Hp%bool_decide_eq_true].
      by rewrite sel_set_in.
    + apply build_ok. intros w [= <-] Hw Ht. rewrite decide_True in Hpeer by done.
      by apply andb_true_iff in Hpeer as [_ ?%bool_decide_eq_true].
  - split; [done|]. split; [done|]. by apply build_ok.
  - split; [done|]. split; [by right|]. by apply build_ok.
  - split; [done|]. split; [done|]. cbn. unfold control_ok in *. repeat case_decide.
    + destruct H3 as (w & E & Hw). rewrite E in *. eexists. split; [done|].
      rewrite sel_set_in by eauto. by eauto.
    + destruct H3 as (cur & w & E & Hw). rewrite E in *. do 2 eexists. split; [done|].
      rewrite sel_set_in by eauto. by eauto.
    + destruct H3 as (t & ->). by eexists.
    + by rewrite H3.
Qed.

(** Tables as the server sends them: ids are positive, people have a subject. *)
Definition people_wf (p : people) : Prop :=
  Forall (λ x, pv_id x ≠ 0) (oidcProviders p) ∧ Forall (λ s, se_sub s ≠ []) (vpnSessions p)
  ∧ Forall (λ d, d_kind d = js "sso" → d_sub d ≠ []) (wgDevices p).

Lemma knownPeople_seen p prov sub :
  NoDup (map fst (knownPeople p prov))
  ∧ (sub ∈ map fst (knownPeople p prov) ↔
      (∃ s, s ∈ vpnSessions p ∧ se_provider s = prov ∧ se_sub s = sub)
      ∨ (∃ d, d ∈ wgDevices p ∧ d_kind d = js "sso" ∧ d_provider d = prov ∧ d_sub d = sub)).
Proof.
  unfold knownPeople. cbv zeta.
  destruct (seen_sessions prov (vpnSessions p) [] sub) as [N1 M1]; [constructor|].
  set (m1 := fold_left _ (vpnSessions p) []) in *.
  destruct (seen_devices prov (wgDevices p) m1 sub N1) as [N2 M2].
  set (m2 := fold_left _ (wgDevices p) m1) in *.
  assert (map fst (people_sort m2) ≡ₚ map fst m2) as E by (apply Permutation_map, people_sort_perm).
  rewrite E, M2, M1. split; [done|]. split; [intros [[?%elem_of_nil|?]|?]; tauto|tauto].
Qed.

Lemma user_opts_empty p prov : people_wf p → [] ∉ map fst (knownPeople p prov).
Proof.
  intros (_ & Hs & Hd). rewrite list.Forall_forall in Hs. rewrite list.Forall_forall in Hd.
  destruct (knownPeople_seen p prov []) as [_ ->]. intros [(s & Hin & _ & E)|(d & Hin & Hk & _ & E)].
  - by apply (Hs s).
  - by apply (Hd d).
Qed.

Lemma peer_opts_empty p : [] ∈ peer_opts p → sel_first (peer_opts p) = [].
Proof.
  unfold peer_opts. cbv zeta. destruct (_ ++ _) as [|x l] eqn:E; [done|]. rewrite <- E. intros Hw. exfalso.
  apply elem_of_app in Hw as [Hw|Hw]; by apply list_elem_of_fmap in Hw as (? & ? & _).
Qed.

(** ** Properties *)

(** C24. What a picker reads, it shows: take any picker a person can bring
    about, by opening it on a stored subject or a new row and changing its
    menus, and read it; opening a picker on the result reads the same
    subject. *)
Theorem picker_reopens p identityOnly fixed k :
  people_wf p → picked p identityOnly fixed k →
  pick_read fixed (pick_make p identityOnly fixed (Some (pick_read fixed k))) = pick_read fixed k.
Proof.
  intros Hwf Hk. apply picked_ok in Hk as (Hkind & Hprov & Hc). destruct k as [io kind prov c].
  cbn [k_kind k_prov k_control] in *. unfold pick_read, pick_make.
  cbn [k_kind k_prov k_control s_kind s_peer s_provider s_sub s_group]. rewrite (sel_set_in _ kind) by done.
  set (prov' := if _ =? 0 then sel_first _ else _).
  assert ((if identity_kind kind then provider_id fixed prov' else 0) = if identity_kind kind then provider_id fixed prov else 0)
    as Hpv.
  { destruct (identity_kind kind); [|done]. destruct fixed as [id|]; [done|]. cbn in *. unfold prov'.
    destruct Hwf as (Hids & _ & _). rewrite list.Forall_forall in Hids.
    assert (provider_opts p = [] ∧ prov = [] ∨ prov ∈ provider_opts p) as [[E ->]|Hin].
    { destruct (Hprov eq_refl) as [E|]; [|by right]. destruct (provider_opts p) eqn:Eo; [by left|right].
      rewrite E. by left. }
    - rewrite E. done.
    - unfold provider_opts in Hin. apply list_elem_of_fmap in Hin as (x & -> & Hx). rewrite parse_int_js_of_Z.
      cbn [int_or]. assert (pv_id x ≠ 0) as Hne by (by apply Hids). unfold int_or.
      destruct (pv_id x) eqn:Ei; [done| |]; cbn [Z.eqb]; rewrite <- Ei; unfold sel_set;
        (rewrite decide_True; [rewrite parse_int_js_of_Z; by rewrite Ei|]);
        apply list_elem_of_fmap; eauto. }
  rewrite Hpv. f_equal; unfold pick_build, control_ok in *.
  - destruct (decide (kind = js "peer")) as [->|]; [|done]. cbn [s_peer].
    destruct Hc as (w & -> & Hw). cbn [control_value menu]. destruct (truthy w) eqn:Et.
    + rewrite sel_set_in by done. done.
    + destruct w; [|done]. by apply peer_opts_empty.
  - destruct (decide (kind = js "user")) as [->|]; [|done]. rewrite decide_False in * by done.
    destruct Hc as (cur & w & -> & Hw). cbn [s_sub control_value menu].
    assert (provider_id fixed prov' = provider_id fixed prov) as -> by exact Hpv.
    destruct (truthy w) eqn:Et; [rewrite sel_set_in by (by apply user_opts_in); done|].
    destruct w; [|done]. pose proof (user_opts_empty p (provider_id fixed prov) Hwf) as He.
    unfold user_opts in Hw |- *. cbv zeta in *. cbn [truthy andb].
    destruct (map fst (knownPeople p (provider_id fixed prov))) as [|s l]; [done|]. exfalso.
    destruct (truthy cur) eqn:Ec; cbn [andb] in Hw; [|done].
    destruct (negb _) in Hw; [|done]. cbn [app] in Hw. rewrite app_comm_cons, elem_of_app in Hw.
    destruct Hw as [?|Hw%list_elem_of_singleton]; [done|by subst].
  - destruct (decide (kind = js "group")) as [->|]; [|done]. rewrite !decide_False in * by done.
    destruct Hc as (t & ->). cbn [s_group control_value]. rewrite text_set_id; [by rewrite trim_trim|].
    destruct (trim_sub (text_set t)) as (a & b & E). pose proof (text_set_one_line t) as H. rewrite E in H.
    by apply one_line_sub in H.
Qed.

(** [knownPeople] offers everybody seen at a portal of the provider, by a
    session or by a device of theirs, each once, and nobody else. *)
Theorem knownPeople_spec p prov :
  NoDup (map fst (knownPeople p prov))
  ∧ ∀ sub, sub ∈ map fst (knownPeople p prov) ↔
      (∃ s, s ∈ vpnSessions p ∧ se_provider s = prov ∧ se_sub s = sub)
      ∨ (∃ d, d ∈ wgDevices p ∧ d_kind d = js "sso" ∧ d_provider d = prov ∧ d_sub d = sub).
Proof. split; [apply (knownPeople_seen p prov [])|]. intros sub. apply knownPeople_seen. Qed.
End subjects.

Definition sample_people : people :=
  People [Site 1 (js "office") [] true] [Device 4 (js "sso") (js "phone") 7 (js "u-2") (js "b@x") false]
    [Session 7 (js "u-1") (js "a@x") [js "staff"]; Session 8 (js "u-9") [] []]
    [Provider 7 (js "work"); Provider 8 (js "partner")].

Lemma picker_reopens_witness :
  let leb := λ _ _, true in
  let k := pick_set_value (js "u-2") (pick_set_kind leb sample_people None (js "user")
    (pick_make leb sample_people false None None)) in
  pick_read None (pick_make leb sample_people false None (Some (pick_read None k)))
  = Subject (js "user") [] 7 (js "u-2") [].
Proof.
  intros leb k. transitivity (pick_read None k); [|by_compute]. apply (picker_reopens leb).
  - split; [|split]; repeat constructor; done.
  - constructor; [constructor; [constructor|]|].
    + apply (bool_decide_unpack _); by_compute.
    + intros opts w E. vm_compute in E. injection E as <- _. apply (bool_decide_unpack _); by_compute.
Defined.

(** With the host's provider fixed, a row keeps the person it shows when the
    host's provider changes, and is read under the new provider. *)
Theorem portal_person_moves :
  let leb := λ _ _, true in
  let k := pick_make leb sample_people true (Some 7) (Some (Subject (js "user") [] 7 (js "u-1") [])) in
  pick_read (Some 8) k = Subject (js "user") [] 8 (js "u-1") []
  ∧ js "u-1" ∉ map fst (knownPeople leb sample_people 8).
Proof. split; [by_compute|]. apply (bool_decide_unpack _). by_compute. Qed.
