(* ===== verification/HostForm.v ===== *)
(** * The host editor (web/app.js, [openModal] and the submit of host-form)

    The largest form of the page: [openModal] fills about sixty controls from
    a stored host, and the submit handler builds the host it sends from them.
    [form] is the state of those controls once the editor is open (the portal
    block and the reach-through menu are filled from what has been loaded),
    [open_modal] and [host_submit] are the two functions, field by field and
    in the order of the code.

    The main theorem is that editing is faithful: a host the editor can show
    ([host_ok]) that is opened and saved is sent back as it was ([as_sent] says
    which zeros of the store it writes out).  The
    hosts it cannot show are the ones the theorems at the end are about. *)

From Stdlib Require Import Ascii String ZArith NArith Lia.
From stdpp Require Import base list strings numbers.
From S2P Require Import Prelude JsString Regex Fields Subjects.

Local Open Scope Z_scope.

(** ** A host, as the API has it

    An absent optional field is the zero of its type; the two flags that
    default to true keep the difference between absent and true. *)

Record redirect : Type := Redirect { rd_code : option Z; rd_scheme : jstr; rd_host : jstr; rd_path : bool }.
Record forward_auth : Type := ForwardAuth { fa_url : jstr; fa_headers : list jstr; fa_skip : bool }.
Record client_cert : Type := ClientCert { cc_mode : jstr; cc_pem : jstr }.
Record hsts : Type := Hsts { hs_enabled : bool; hs_age : Z; hs_sub : bool; hs_preload : bool }.
Record portal : Type := Portal { po_provider : Z; po_claims : jstr; po_enrol : list subject }.
(** A rate is a number as [String] prints it. *)
Record rate : Type := Rate { ra_rps : jstr; ra_burst : Z }.

Record options : Type := Options {
  o_vpnOnly : bool; o_portal : option portal; o_preserveHost : bool; o_hostOverride : jstr;
  o_skipTlsVerify : bool; o_upstreamSni : jstr; o_dialTimeoutSec : Z; o_responseHeaderTimeoutSec : Z;
  o_idleTimeoutSec : Z; o_maxIdleConnsPerHost : Z; o_maxBodyMb : Z; o_buffering : option bool;
  o_blockIndexing : bool; o_blockExploits : bool; o_blockBadBots : bool; o_compression : bool;
  o_stickySessions : bool; o_cacheSec : Z; o_maintenance : bool; o_maintenanceHtml : jstr;
  o_badGatewayHtml : jstr; o_pathRewrite : option rewrite; o_rateLimit : option rate;
  o_forwardAuth : option forward_auth; o_oidc : option oidc_auth; o_authRules : list auth_rule;
  o_clientCert : option client_cert; o_requestHeaders : list hdr; o_responseHeaders : list hdr;
  o_hsts : hsts; o_minTlsVersion : jstr; o_http3 : option bool }.

Record host : Type := Host {
  h_type : jstr; h_domains : list jstr; h_upstream : upstream; h_upstreams : list upstream;
  h_locations : list location; h_staticRoot : jstr; h_redirect : option redirect; h_certMode : jstr;
  h_certId : option Z; h_forceSsl : bool; h_enabled : bool; h_accessListId : option Z; h_options : options }.

(** ** The controls *)

Record form : Type := Form {
  f_type : jstr; f_domains : jstr; f_scheme : jstr; f_uhost : jstr; f_uport : jstr; f_via : jstr;
  f_rcode : jstr; f_rscheme : jstr; f_rhost : jstr; f_rpath : bool; f_staticroot : jstr; f_pool : jstr;
  f_rw_strip : jstr; f_rw_add : jstr; f_rw_regex : jstr; f_rw_repl : jstr; f_locations : list loc_row;
  f_badbots : bool; f_badgateway : jstr; f_enabled : bool; f_accesslist : jstr; f_certmode : jstr;
  f_certid : jstr; f_forcessl : bool; f_http3 : bool; f_mintls : jstr; f_hsts : bool; f_hsts_age : jstr;
  f_hsts_sub : bool; f_hsts_preload : bool; f_noindex : bool; f_exploits : bool; f_compress : bool;
  f_sticky : bool; f_cachesec : jstr; f_maintenance : bool; f_maintenance_html : jstr; f_ratelimit : bool;
  f_rate_rps : jstr; f_rate_burst : jstr; f_fauth : bool; f_fauth_url : jstr; f_fauth_headers : jstr;
  f_fauth_skipverify : bool; f_vpnonly : bool; f_portal_provider : jstr; f_portal_claims : jstr;
  f_portal_enrol : list picker; f_oidc : bool; f_oidc_provider : jstr; f_oidc_pass : bool;
  f_oidc_emails : jstr; f_oidc_domains : jstr; f_oidc_groups : jstr; f_auth_rules : list auth_row;
  f_mtls_mode : jstr; f_mtls_ca : jstr; f_preservehost : bool; f_hostoverride : jstr; f_skipverify : bool;
  f_sni : jstr; f_dialto : jstr; f_respto : jstr; f_idleto : jstr; f_maxidle : jstr; f_maxbody : jstr;
  f_buffering : bool; f_req_headers : list hdr; f_resp_headers : list hdr }.

Definition host_types : list jstr := map js ["proxy"; "redirect"; "dead"; "static"; "vpn-portal"].
Definition redirect_codes : list jstr := map js ["301"; "302"; "307"; "308"; "300"].
Definition redirect_schemes : list jstr := map js ["auto"; "https"; "http"].
Definition cert_modes : list jstr := map js ["auto"; "custom"; "none"].
Definition tls_versions : list jstr := [[]; js "1.3"].
Definition mtls_modes : list jstr := [[]; js "require"; js "request"].
Definition claim_sources : list jstr := map js ["id_token"; "userinfo"].

(** What the page has loaded: access lists, certificates, and the tables of
    the pickers. *)
Record env : Type := Env { accessLists : list Z; customCerts : list Z; tables : people }.

Definition provider_ids (e : env) : list Z := map pv_id (Subjects.oidcProviders (tables e)).

Definition no_options : options :=
  Options false None false [] false [] 0 0 0 0 0 None false false false false false 0 false [] [] None None
    None None [] None [] [] (Hsts false 0 false false) [] None.

(** [sel.value = id ? String(id) : ''] *)
Definition id_value (opts : list jstr) (id : option Z) : jstr :=
  match id with Some n => if n =? 0 then sel_set opts [] else sel_set opts (js_of_Z n) | None => sel_set opts [] end.

(** [parseInt(sel.value, 10)] when something is selected, and null. *)
Definition id_read (v : jstr) : option Z := if truthy v then parse_int v else None.

Section editor.
Context (localeLeb : jstr → jstr → bool) (number : jstr → jstr).

(** [parseFloat]: the longest decimal prefix, rounded to a Number, which
    [number] prints. *)
Definition re_decimal : re :=
  rseq [RBol; ropt (cls_of "+-");
        RAlt (RSeq (rplus cls_d) (RAlt (RSeq (RCls (cls_of ".")) (rstar cls_d)) REps))
             (RSeq (RCls (cls_of ".")) (rplus cls_d));
        RAlt (rseq [RCls (cls_of "eE"); ropt (cls_of "+-"); rplus cls_d]) REps].
Definition parseFloat (s : jstr) : option jstr :=
  option_map (λ m, number (r_hit m)) (re_exec re_decimal (trim_start s)).
Definition float_or (r : option jstr) (d : jstr) : jstr :=
  match r with Some x => if decide (x = js "0") then d else x | None => d end.

(** A row of the people a portal enrols, with the picker of its subject. *)
Definition addPortalEnrolRow (p : people) (provider : jstr) (s : option subject) : picker :=
  pick_make localeLeb p true (Some (int_or (parse_int provider) 0)) s.

(** [openModal]. *)
Definition open_modal (e : env) (h : option host) : form :=
  let o := match h with Some h => h_options h | None => no_options end in
  let rd := h ≫= h_redirect in
  let prw := default (Rewrite [] [] [] []) (o_pathRewrite o) in
  let provs := id_opts (provider_ids e) in
  let po := h ≫= λ h, o_portal (h_options h) in
  let portal_prov := match po with Some po => sel_set provs (js_of_Z (po_provider po)) | None => sel_first provs end in
  {| f_type := match h with Some h => sel_set host_types (h_type h) | None => js "proxy" end;
     f_domains := match h with Some h => area_set (join [10%N] (h_domains h)) | None => [] end;
     f_scheme := match h with Some h => sel_set http_schemes (u_scheme (h_upstream h)) | None => js "http" end;
     f_uhost := match h with Some h => text_set (u_host (h_upstream h)) | None => [] end;
     f_uport := match h ≫= λ h, u_port (h_upstream h) with Some p => number_of p | None => [] end;
     f_via := (fillViaSelect (tables e) (match h with Some h => u_via (h_upstream h) | None => 0 end)).1;
     f_rcode := sel_set redirect_codes (js_of_Z (match rd with Some r => int_or (rd_code r) 301 | None => 301 end));
     f_rscheme := sel_set redirect_schemes (match rd with Some r => str_or (rd_scheme r) (js "auto") | None => js "auto" end);
     f_rhost := match rd with Some r => text_set (rd_host r) | None => [] end;
     f_rpath := match rd with Some r => rd_path r | None => true end;
     f_staticroot := match h with Some h => text_set (h_staticRoot h) | None => [] end;
     f_pool := match h with Some h => area_set (pool_text (h_upstreams h)) | None => [] end;
     f_rw_strip := text_set (rw_strip prw);
     f_rw_add := text_set (rw_add prw);
     f_rw_regex := text_set (rw_regex prw);
     f_rw_repl := text_set (rw_repl prw);
     f_locations := match h with Some h => map addLocationRow (h_locations h) | None => [] end;
     f_badbots := o_blockBadBots o;
     f_badgateway := area_set (o_badGatewayHtml o);
     f_enabled := match h with Some h => h_enabled h | None => true end;
     f_accesslist := id_value ([] :: id_opts (accessLists e)) (h ≫= h_accessListId);
     f_certmode := match h with Some h => sel_set cert_modes (h_certMode h) | None => js "auto" end;
     f_certid := id_value (id_opts (customCerts e)) (h ≫= h_certId);
     f_forcessl := match h with Some h => h_forceSsl h | None => true end;
     f_http3 := negb (bool_decide (o_http3 o = Some false));
     f_mintls := sel_set tls_versions (o_minTlsVersion o);
     f_hsts := hs_enabled (o_hsts o);
     f_hsts_age := number_of (if hs_age (o_hsts o) =? 0 then 15552000 else hs_age (o_hsts o));
     f_hsts_sub := hs_sub (o_hsts o);
     f_hsts_preload := hs_preload (o_hsts o);
     f_noindex := o_blockIndexing o;
     f_exploits := o_blockExploits o;
     f_compress := o_compression o;
     f_sticky := o_stickySessions o;
     f_cachesec := number_of (o_cacheSec o);
     f_maintenance := o_maintenance o;
     f_maintenance_html := area_set (o_maintenanceHtml o);
     f_ratelimit := match o_rateLimit o with Some _ => true | None => false end;
     f_rate_rps := match o_rateLimit o with Some r => number_set (ra_rps r) | None => [] end;
     f_rate_burst := match o_rateLimit o with Some r => number_set (js_of_Z (ra_burst r)) | None => [] end;
     f_fauth := match o_forwardAuth o with Some _ => true | None => false end;
     f_fauth_url := match o_forwardAuth o with Some a => text_set (fa_url a) | None => [] end;
     f_fauth_headers := match o_forwardAuth o with Some a => text_set (join (js ",") (fa_headers a)) | None => [] end;
     f_fauth_skipverify := match o_forwardAuth o with Some a => fa_skip a | None => false end;
     f_vpnonly := o_vpnOnly o;
     f_portal_provider := portal_prov;
     f_portal_claims := sel_set claim_sources (match po with Some po => str_or (po_claims po) (js "id_token") | None => js "id_token" end);
     f_portal_enrol :=
       match po with
       | Some po => map (λ s, addPortalEnrolRow (tables e) portal_prov (Some s)) (po_enrol po)
       | None => [addPortalEnrolRow (tables e) portal_prov None]
       end;
     f_oidc := match o_oidc o with Some _ => true | None => false end;
     f_oidc_provider :=
       match o_oidc o with
       | Some oi => if oi_provider oi =? 0 then sel_first provs else sel_set provs (js_of_Z (oi_provider oi))
       | None => sel_first provs
       end;
     f_oidc_pass := match o_oidc o with Some oi => oi_pass oi | None => true end;
     f_oidc_emails := match o_oidc o with Some oi => text_set (join (js ", ") (oi_emails oi)) | None => [] end;
     f_oidc_domains := match o_oidc o with Some oi => text_set (join (js ", ") (oi_domains oi)) | None => [] end;
     f_oidc_groups := match o_oidc o with Some oi => text_set (join (js ", ") (oi_groups oi)) | None => [] end;
     f_auth_rules := map (addAuthRuleRow (accessLists e) (provider_ids e)) (o_authRules o);
     f_mtls_mode := sel_set mtls_modes (match o_clientCert o with Some c => cc_mode c | None => [] end);
     f_mtls_ca := area_set (match o_clientCert o with Some c => cc_pem c | None => [] end);
     f_preservehost := o_preserveHost o;
     f_hostoverride := text_set (o_hostOverride o);
     f_skipverify := o_skipTlsVerify o;
     f_sni := text_set (o_upstreamSni o);
     f_dialto := number_of (o_dialTimeoutSec o);
     f_respto := number_of (o_responseHeaderTimeoutSec o);
     f_idleto := number_of (o_idleTimeoutSec o);
     f_maxidle := number_of (o_maxIdleConnsPerHost o);
     f_maxbody := number_of (o_maxBodyMb o);
     f_buffering := negb (bool_decide (o_buffering o = Some false));
     f_req_headers := map addHdrRow (o_requestHeaders o);
     f_resp_headers := map addHdrRow (o_responseHeaders o) |}.

(** [readPortalOptions]. *)
Definition readPortalOptions (f : form) : portal :=
  let providerId := int_or (parse_int (f_portal_provider f)) 0 in
  Portal providerId (f_portal_claims f)
    (List.filter (λ s, negb (bool_decide (s_kind s = js "group")) || truthy (s_group s))
      (map (pick_read (Some providerId)) (f_portal_enrol f))).

(** The submit handler of host-form. *)
Definition host_submit (f : form) : host :=
  let type := f_type f in
  let is_t (t : string) := bool_decide (type = js t) in
  let certMode := f_certmode f in
  let via u := viaOn (f_via f) u in
  let int_of s := int_or (parse_int s) 0 in
  {| h_type := type;
     h_domains := lines_of (f_domains f);
     h_upstream :=
       if is_t "proxy" then via (Upstream (f_scheme f) (trim (f_uhost f)) (parse_int (f_uport f)) 0)
       else Upstream (js "http") [] (Some 0) 0;
     h_upstreams := if is_t "proxy" then map via (parsePool (f_pool f)) else [];
     h_locations :=
       if is_t "proxy" then
         map (λ l, Location (lo_path l) (via (lo_up l)) (lo_rewrite l)) (readLocations (f_locations f))
       else [];
     h_staticRoot := if is_t "static" then trim (f_staticroot f) else [];
     h_redirect :=
       if is_t "redirect" then
         Some (Redirect (parse_int (f_rcode f)) (f_rscheme f) (trim (f_rhost f)) (f_rpath f))
       else None;
     h_certMode := certMode;
     h_certId := if bool_decide (certMode = js "custom") then id_read (f_certid f) else None;
     h_forceSsl := bool_decide (certMode = js "auto" ∨ certMode = js "custom") && f_forcessl f;
     h_enabled := f_enabled f;
     h_accessListId := id_read (f_accesslist f);
     h_options :=
       {| o_vpnOnly := negb (is_t "vpn-portal") && f_vpnonly f;
          o_portal := if is_t "vpn-portal" then Some (readPortalOptions f) else None;
          o_preserveHost := f_preservehost f;
          o_hostOverride := trim (f_hostoverride f);
          o_skipTlsVerify := f_skipverify f;
          o_upstreamSni := trim (f_sni f);
          o_dialTimeoutSec := int_of (f_dialto f);
          o_responseHeaderTimeoutSec := int_of (f_respto f);
          o_idleTimeoutSec := int_of (f_idleto f);
          o_maxIdleConnsPerHost := int_of (f_maxidle f);
          o_maxBodyMb := int_of (f_maxbody f);
          o_buffering := if f_buffering f then None else Some false;
          o_blockIndexing := f_noindex f;
          o_blockExploits := f_exploits f;
          o_blockBadBots := f_badbots f;
          o_compression := f_compress f;
          o_stickySessions := f_sticky f;
          o_cacheSec := int_of (f_cachesec f);
          o_maintenance := f_maintenance f;
          o_maintenanceHtml := f_maintenance_html f;
          o_badGatewayHtml := f_badgateway f;
          o_pathRewrite :=
            if truthy (trim (f_rw_strip f)) || truthy (trim (f_rw_add f)) || truthy (trim (f_rw_regex f)) then
              Some (Rewrite (trim (f_rw_strip f)) (trim (f_rw_add f)) (trim (f_rw_regex f)) (f_rw_repl f))
            else None;
          o_rateLimit :=
            if f_ratelimit f then
              Some (Rate (float_or (parseFloat (f_rate_rps f)) (js "10")) (int_or (parse_int (f_rate_burst f)) 20))
            else None;
          o_forwardAuth :=
            if f_fauth f && truthy (trim (f_fauth_url f)) then
              Some (ForwardAuth (trim (f_fauth_url f)) (commas_of (f_fauth_headers f)) (f_fauth_skipverify f))
            else None;
          o_oidc :=
            if is_t "proxy" && f_oidc f && truthy (f_oidc_provider f) then
              option_map (λ p, OidcAuth p (commas_of (f_oidc_emails f)) (commas_of (f_oidc_domains f))
                (commas_of (f_oidc_groups f)) (f_oidc_pass f)) (parse_int (f_oidc_provider f))
            else None;
          o_authRules := if is_t "proxy" then readAuthRules (f_auth_rules f) else [];
          o_clientCert := if truthy (f_mtls_mode f) then Some (ClientCert (f_mtls_mode f) (f_mtls_ca f)) else None;
          o_requestHeaders := readHdrRows (f_req_headers f);
          o_responseHeaders := readHdrRows (f_resp_headers f);
          o_hsts := Hsts (f_hsts f) (int_or (parse_int (f_hsts_age f)) 15552000) (f_hsts_sub f) (f_hsts_preload f);
          o_minTlsVersion := f_mintls f;
          o_http3 := if f_http3 f then None else Some false |} |}.

(** ** The hosts the editor can show *)

Definition is_type (t : string) (h : host) : bool := bool_decide (h_type h = js t).

Definition via_ids (e : env) : list Z := 0 :: map si_id (wgSites (tables e)).

(** The primary upstream; its pool and locations are reached the same way. *)
Record primary_ok (e : env) (u : upstream) : Prop := {
  up_scheme : u_scheme u ∈ http_schemes;
  up_host : word (u_host u) = true;
  up_via : u_via u ∈ via_ids e }.

Definition id_ok (ids : list Z) (id : option Z) : bool :=
  match id with Some n => negb (n =? 0) && bool_decide (n ∈ ids) | None => true end.

Definition rewrite_ok (rw : rewrite) : bool :=
  word (rw_strip rw) && word (rw_add rw) && word (rw_regex rw) && one_line (rw_repl rw)
  && (truthy (rw_strip rw) || truthy (rw_add rw) || truthy (rw_regex rw)).

Definition rate_typed (r : rate) : bool := negb (bool_decide (ra_rps r = js "0")) && negb (ra_burst r =? 0).
Definition rate_shown (r : rate) : bool :=
  bool_decide (number_set (ra_rps r) = ra_rps r) && bool_decide (parseFloat (ra_rps r) = Some (ra_rps r)).

Definition oidc_ok (e : env) (o : oidc_auth) : bool :=
  negb (oi_provider o =? 0) && bool_decide (oi_provider o ∈ provider_ids e)
  && list_words (oi_emails o) && list_words (oi_domains o) && list_words (oi_groups o).

(** Somebody a portal enrols: of its provider, with the fields of the kind. *)
Definition enrol_typed (prov : Z) (v : subject) : bool :=
  bool_decide (s_kind v ∈ subject_kinds true) && (s_provider v =? prov) && negb (truthy (s_peer v))
  && (bool_decide (s_kind v = js "user") || negb (truthy (s_sub v)))
  && (if bool_decide (s_kind v = js "group") then field (s_group v) else negb (truthy (s_group v))).
Definition enrol_shown (v : subject) : bool := negb (bool_decide (s_kind v = js "user")) || truthy (s_sub v).
Definition portal_typed (e : env) (po : portal) : bool :=
  bool_decide (po_provider po ∈ 0 :: provider_ids e) && bool_decide (po_claims po ∈ claim_sources)
  && forallb (enrol_typed (po_provider po)) (po_enrol po).

Definition no_cr (s : jstr) : bool := negb (bool_decide (13%N ∈ s)).

Record options_ok (e : env) (proxy portal : bool) (o : options) : Prop := {
  ok_vpn : negb portal || negb (o_vpnOnly o) = true;
  ok_portal : match o_portal o with Some po => portal && portal_typed e po | None => negb portal end = true;
  ok_override : word (o_hostOverride o) = true;
  ok_sni : word (o_upstreamSni o) = true;
  ok_buffering : o_buffering o ≠ Some true;
  ok_http3 : o_http3 o ≠ Some true;
  ok_maintenance : no_cr (o_maintenanceHtml o) = true;
  ok_badgateway : no_cr (o_badGatewayHtml o) = true;
  ok_rewrite : match o_pathRewrite o with Some rw => rewrite_ok rw | None => true end = true;
  ok_rate : match o_rateLimit o with Some r => rate_typed r | None => true end = true;
  ok_fauth : match o_forwardAuth o with Some a => field (fa_url a) && list_words (fa_headers a) | None => true end = true;
  ok_oidc : match o_oidc o with Some oi => proxy && oidc_ok e oi | None => true end = true;
  ok_rules : (if proxy then forallb (auth_rule_ok (accessLists e) (provider_ids e)) (o_authRules o)
              else bool_decide (o_authRules o = [])) = true;
  ok_cert : match o_clientCert o with
            | Some c => bool_decide (cc_mode c ∈ mtls_modes) && truthy (cc_mode c) && no_cr (cc_pem c)
            | None => true end = true;
  ok_reqh : forallb hdr_ok (o_requestHeaders o) = true;
  ok_resph : forallb hdr_ok (o_responseHeaders o) = true;
  ok_hsts : hs_age (o_hsts o) ≠ 0;
  ok_tls : o_minTlsVersion o ∈ tls_versions }.

(** A host as the form sends it: with the fields of its type, each of its
    kind.  For the upstream of a type that has none the form sends one of its
    own. *)
Record host_typed (e : env) (h : host) : Prop := {
  ok_type : h_type h ∈ host_types;
  ok_domains : forallb (λ d, tidy d && one_line d) (h_domains h) = true;
  ok_upstreams :
    if is_type "proxy" h then
      primary_ok e (h_upstream h)
      ∧ forallb (λ u, up_ok u && (u_via u =? u_via (h_upstream h))) (h_upstreams h) = true
      ∧ forallb (λ l, location_ok l && (u_via (lo_up l) =? u_via (h_upstream h))) (h_locations h) = true
    else h_upstream h = Upstream (js "http") [] (Some 0) 0 ∧ h_upstreams h = [] ∧ h_locations h = [];
  ok_static : if is_type "static" h then word (h_staticRoot h) = true else h_staticRoot h = [];
  ok_redirect :
    match h_redirect h with
    | Some r => is_type "redirect" h = true ∧ rd_code r ≠ Some 0 ∧ js_of_Z (int_or (rd_code r) 301) ∈ redirect_codes
        ∧ rd_code r ≠ None ∧ rd_scheme r ∈ redirect_schemes ∧ word (rd_host r) = true
    | None => is_type "redirect" h = false
    end;
  ok_certMode : h_certMode h ∈ cert_modes;
  ok_certId : id_ok (customCerts e) (h_certId h) = true ∧ (h_certMode h = js "custom" ∨ h_certId h = None);
  ok_ssl : h_forceSsl h = true → h_certMode h = js "auto" ∨ h_certMode h = js "custom";
  ok_acl : id_ok (accessLists e) (h_accessListId h) = true;
  ok_options : options_ok e (is_type "proxy" h) (is_type "vpn-portal" h) (h_options h) }.

(** What the controls show of it: a port, a rate that is a number as it is
    printed, and people who are named. *)
Definition host_shown (h : host) : bool :=
  (negb (is_type "proxy" h) || match u_port (h_upstream h) with Some p => negb (p =? 0) | None => false end)
  && match o_rateLimit (h_options h) with Some r => rate_shown r | None => true end
  && match o_portal (h_options h) with Some po => forallb enrol_shown (po_enrol po) | None => true end.

(** What the form sends for a stored host: the upstream the server keeps for
    a type that has none is all zeros, and it sends another; the two flags
    that default to true are sent absent, and an HSTS age of zero is sent as
    the default the form shows. *)
Definition flag_sent (b : option bool) : option bool := if negb (bool_decide (b = Some false)) then None else Some false.
Definition options_sent (o : options) : options :=
  Options (o_vpnOnly o) (o_portal o) (o_preserveHost o) (o_hostOverride o) (o_skipTlsVerify o) (o_upstreamSni o) (o_dialTimeoutSec o)
    (o_responseHeaderTimeoutSec o) (o_idleTimeoutSec o) (o_maxIdleConnsPerHost o) (o_maxBodyMb o) (flag_sent (o_buffering o))
    (o_blockIndexing o) (o_blockExploits o) (o_blockBadBots o) (o_compression o) (o_stickySessions o) (o_cacheSec o) (o_maintenance o)
    (o_maintenanceHtml o) (o_badGatewayHtml o) (o_pathRewrite o) (o_rateLimit o) (o_forwardAuth o) (o_oidc o) (o_authRules o)
    (o_clientCert o) (o_requestHeaders o) (o_responseHeaders o)
    (Hsts (hs_enabled (o_hsts o)) (if hs_age (o_hsts o) =? 0 then 15552000 else hs_age (o_hsts o)) (hs_sub (o_hsts o)) (hs_preload (o_hsts o)))
    (o_minTlsVersion o) (flag_sent (o_http3 o)).
Definition with_options (o : options) (h : host) : host :=
  Host (h_type h) (h_domains h) (h_upstream h) (h_upstreams h) (h_locations h) (h_staticRoot h) (h_redirect h) (h_certMode h) (h_certId h)
    (h_forceSsl h) (h_enabled h) (h_accessListId h) o.
Definition with_upstream (u : upstream) (h : host) : host :=
  Host (h_type h) (h_domains h) u (h_upstreams h) (h_locations h) (h_staticRoot h) (h_redirect h) (h_certMode h) (h_certId h)
    (h_forceSsl h) (h_enabled h) (h_accessListId h) (h_options h).
Definition as_sent (h : host) : host :=
  with_options (options_sent (h_options h))
    (if is_type "proxy" h then h else with_upstream (Upstream (js "http") [] (Some 0) 0) h).
Record host_ok (e : env) (h : host) : Prop := { ok_typed : host_typed e (as_sent h); ok_shown : host_shown (as_sent h) = true }.

(** What the server clears of a host it is sent, by its type (Host.Validate
    of internal/store/store.go). *)
Definition no_upstream : upstream := Upstream [] [] (Some 0) 0.
Definition host_cleared (h : host) : host :=
  let clear u us ls st rd :=
    Host (h_type h) (h_domains h) u us ls st rd (h_certMode h) (h_certId h) (h_forceSsl h) (h_enabled h) (h_accessListId h) (h_options h) in
  if is_type "proxy" h then clear (h_upstream h) (h_upstreams h) (h_locations h) [] None
  else if is_type "vpn-portal" h then clear no_upstream [] [] [] None
  else if is_type "static" h then clear no_upstream [] (h_locations h) (h_staticRoot h) None
  else if is_type "redirect" h then clear no_upstream (h_upstreams h) (h_locations h) (h_staticRoot h) (h_redirect h)
  else if is_type "dead" h then clear no_upstream [] (h_locations h) [] None
  else h.

(** ** Field by field *)

Lemma int_round n : int_or (parse_int (number_of n)) 0 = n.
Proof. rewrite parse_number_of. by destruct (Z.eqb_spec n 0). Qed.

Lemma text_round s : word s = true → trim (text_set s) = s.
Proof. apply text_set_word. Qed.

Lemma area_round s : no_cr s = true → area_set s = s.
Proof. intros H. apply area_set_id. unfold no_cr in H. by apply negb_true_iff, bool_decide_eq_false in H. Qed.

Lemma flag_round b : b ≠ Some true → (if negb (bool_decide (b = Some false)) then None else Some false) = b.
Proof. destruct b as [[]|]; done. Qed.

Lemma truthy_id n : truthy (js_of_Z n) = true.
Proof. pose proof (js_of_Z_ne n). by destruct (js_of_Z n). Qed.

Lemma id_round opts ids id :
  (∀ n, n ∈ ids → js_of_Z n ∈ opts) → id_ok ids id = true → id_read (id_value opts id) = id.
Proof.
  intros Hin. unfold id_ok, id_value, id_read. destruct id as [n|].
  - intros [Hz Hn]%andb_true_iff. apply negb_true_iff in Hz. rewrite Hz. apply bool_decide_eq_true in Hn.
    rewrite sel_set_in by auto. by rewrite truthy_id, parse_int_js_of_Z.
  - intros _. unfold sel_set. by case_decide.
Qed.

Lemma via_round e via u :
  via ∈ via_ids e → u_via u = via → viaOn (fillViaSelect (tables e) via).1 (no_via u) = u.
Proof.
  intros Hv Hu. assert (js_of_Z via ∈ via_opts (tables e)) as Hin.
  { unfold via_ids in Hv. unfold via_opts. apply elem_of_cons in Hv as [->|Hv]; [by left|right].
    apply list_elem_of_fmap in Hv as (s & -> & Hs). apply list_elem_of_fmap. eauto. }
  unfold fillViaSelect. rewrite sel_set_in by done. cbn [fst]. rewrite decide_True by done.
  unfold viaOn, via_value. rewrite parse_int_js_of_Z.
  assert (int_or (Some via) 0 = via) as -> by (by destruct via). destruct u as [sch ho po vi]. cbn in *. subst.
  by destruct (Z.eqb_spec via 0) as [->|].
Qed.

Lemma proxy_round e u pool locs :
  primary_ok e u → match u_port u with Some p => negb (p =? 0) | None => false end = true →
  forallb (λ x, up_ok x && (u_via x =? u_via u)) pool = true →
  forallb (λ l, location_ok l && (u_via (lo_up l) =? u_via u)) locs = true →
  let via := viaOn (fillViaSelect (tables e) (u_via u)).1 in
  via (Upstream (sel_set http_schemes (u_scheme u)) (trim (text_set (u_host u)))
         (parse_int (match u_port u with Some p => number_of p | None => [] end)) 0) = u
  ∧ map via (parsePool (area_set (pool_text pool))) = pool
  ∧ map (λ l, Location (lo_path l) (via (lo_up l)) (lo_rewrite l)) (readLocations (map addLocationRow locs)) = locs.
Proof.
  intros [Hs Hh Hv] Hp0 Hpool Hlocs via. split; [|split].
  - rewrite sel_set_in, text_round by done. destruct (u_port u) as [p|] eqn:Hp; [|done]. apply negb_true_iff in Hp0. unfold number_of.
    rewrite Hp0, number_set_int, parse_int_js_of_Z, <- Hp.
    exact (via_round e (u_via u) u Hv eq_refl).
  - assert (Forall (λ x, up_ok x = true ∧ u_via x = u_via u) pool) as F.
    { apply list.Forall_forall. intros x Hx%list_elem_of_In. apply (proj1 (forallb_forall _ _) Hpool) in Hx.
      apply andb_true_iff in Hx as [? ?%Z.eqb_eq]. done. }
    rewrite parsePool_round by (apply forallb_forall; intros x Hx%list_elem_of_In;
      by apply (proj1 (list.Forall_forall _ _) F)).
    rewrite map_map. transitivity (map id pool); [|apply map_id]. apply map_ext_in.
    intros x Hx%list_elem_of_In. apply (proj1 (list.Forall_forall _ _) F) in Hx as [_ Hx]. by apply via_round.
  - assert (Forall (λ x, location_ok x = true ∧ u_via (lo_up x) = u_via u) locs) as F.
    { apply list.Forall_forall. intros x Hx%list_elem_of_In. apply (proj1 (forallb_forall _ _) Hlocs) in Hx.
      apply andb_true_iff in Hx as [? ?%Z.eqb_eq]. done. }
    rewrite readLocations_round by (apply forallb_forall; intros x Hx%list_elem_of_In;
      by apply (proj1 (list.Forall_forall _ _) F)).
    rewrite map_map. transitivity (map id locs); [|apply map_id]. apply map_ext_in.
    intros x Hx%list_elem_of_In. apply (proj1 (list.Forall_forall _ _) F) in Hx as [_ Hx]. cbn.
    unfold via. rewrite via_round by done. by destruct x.
Qed.

Lemma rewrite_round rw :
  match rw with Some rw => rewrite_ok rw | None => true end = true →
  let prw := default (Rewrite [] [] [] []) rw in
  let strip := trim (text_set (rw_strip prw)) in
  let add := trim (text_set (rw_add prw)) in
  let regex := trim (text_set (rw_regex prw)) in
  (if truthy strip || truthy add || truthy regex then Some (Rewrite strip add regex (text_set (rw_repl prw))) else None) = rw.
Proof.
  destruct rw as [rw|]; [|done]. change (default (Rewrite [] [] [] []) (Some rw)) with rw. unfold rewrite_ok.
  intros [[[[H1 H2]%andb_true_iff H3]%andb_true_iff H4]%andb_true_iff H5]%andb_true_iff.
  cbv zeta. rewrite !text_round, H5, text_set_id by done. by destruct rw.
Qed.

Lemma rate_round r :
  match r with Some r => rate_typed r | None => true end = true → match r with Some r => rate_shown r | None => true end = true →
  (if match r with Some _ => true | None => false end then
     Some (Rate (float_or (parseFloat (match r with Some r => number_set (ra_rps r) | None => [] end)) (js "10"))
       (int_or (parse_int (match r with Some r => number_set (js_of_Z (ra_burst r)) | None => [] end)) 20))
   else None) = r.
Proof.
  destruct r as [r|]; [|done]. unfold rate_typed, rate_shown.
  intros [H3 H4]%andb_true_iff [H1 H2]%andb_true_iff.
  apply bool_decide_eq_true in H1, H2. apply negb_true_iff, bool_decide_eq_false in H3. apply negb_true_iff in H4.
  rewrite H1, H2, number_set_int, parse_int_js_of_Z. cbn. rewrite decide_False by done.
  destruct r as [rps burst]. cbn in *. by destruct burst.
Qed.

Lemma fauth_round a :
  match a with Some a => field (fa_url a) && list_words (fa_headers a) | None => true end = true →
  let url := trim (match a with Some a => text_set (fa_url a) | None => [] end) in
  (if match a with Some _ => true | None => false end && truthy url then
     Some (ForwardAuth url (commas_of (match a with Some a => text_set (join (js ",") (fa_headers a)) | None => [] end))
       (match a with Some a => fa_skip a | None => false end))
   else None) = a.
Proof.
  destruct a as [a|]; [|done]. intros [H1 H2]%andb_true_iff. apply field_spec in H1 as (E1 & E2 & E3).
  destruct (commas_text _ H2) as [_ E]. cbv zeta. rewrite E1, E2, E3, E. by destruct a.
Qed.

Lemma oidc_round e proxy o :
  match o with Some oi => proxy && oidc_ok e oi | None => true end = true →
  let provs := id_opts (provider_ids e) in
  let prov := match o with
    | Some oi => if oi_provider oi =? 0 then sel_first provs else sel_set provs (js_of_Z (oi_provider oi))
    | None => sel_first provs end in
  (if proxy && match o with Some _ => true | None => false end && truthy prov then
     option_map (λ p, OidcAuth p
       (commas_of (match o with Some oi => text_set (join (js ", ") (oi_emails oi)) | None => [] end))
       (commas_of (match o with Some oi => text_set (join (js ", ") (oi_domains oi)) | None => [] end))
       (commas_of (match o with Some oi => text_set (join (js ", ") (oi_groups oi)) | None => [] end))
       (match o with Some oi => oi_pass oi | None => true end)) (parse_int prov)
   else None) = o.
Proof.
  destruct o as [o|]; [|cbv zeta; by rewrite andb_false_r]. intros [Hpx Ho]%andb_true_iff. unfold oidc_ok in Ho.
  apply andb_true_iff in Ho as [[[[H1 H2]%andb_true_iff H3]%andb_true_iff H4]%andb_true_iff H5].
  apply negb_true_iff in H1. apply bool_decide_eq_true in H2. cbv zeta. rewrite H1, Hpx.
  rewrite sel_set_in by (by apply elem_of_id_opts). rewrite truthy_id, parse_int_js_of_Z. cbn [andb option_map].
  destruct (commas_text _ H3) as [-> _], (commas_text _ H4) as [-> _], (commas_text _ H5) as [-> _].
  by destruct o.
Qed.

Lemma cert_round c :
  match c with
  | Some c => bool_decide (cc_mode c ∈ mtls_modes) && truthy (cc_mode c) && no_cr (cc_pem c)
  | None => true end = true →
  let mode := sel_set mtls_modes (match c with Some c => cc_mode c | None => [] end) in
  (if truthy mode then Some (ClientCert mode (area_set (match c with Some c => cc_pem c | None => [] end))) else None) = c.
Proof.
  destruct c as [c|]; [|done]. intros [[H1 H2]%andb_true_iff H3]%andb_true_iff. apply bool_decide_eq_true in H1.
  cbv zeta. rewrite sel_set_in, H2, area_round by done. by destruct c.
Qed.

Lemma rules_round e (proxy : bool) rules :
  (if proxy then forallb (auth_rule_ok (accessLists e) (provider_ids e)) rules else bool_decide (rules = [])) = true →
  (if proxy then readAuthRules (map (addAuthRuleRow (accessLists e) (provider_ids e)) rules) else []) = rules.
Proof. destruct proxy; [apply readAuthRules_round|]. by intros ->%bool_decide_eq_true. Qed.

Lemma enrol_subject (p : people) prov v : enrol_typed prov v = true → enrol_shown v = true →
  subject_ok p true (Some prov) v && (negb (bool_decide (s_kind v = js "group")) || truthy (s_group v)) = true.
Proof.
  unfold enrol_typed, enrol_shown, subject_ok. intros [[[[Hk Hp]%andb_true_iff He]%andb_true_iff Hs]%andb_true_iff Hg]%andb_true_iff Hu.
  rewrite Hk. apply bool_decide_eq_true in Hk. cbn [andb].
  assert (identity_kind (s_kind v) = true) as -> by (by apply bool_decide_eq_true). rewrite Hp. cbn [andb].
  rewrite (decide_False (P := s_kind v = js "peer")), He.
  2: { intros E. rewrite E in Hk. revert Hk. apply (bool_decide_unpack _). by_compute. }
  destruct (decide (s_kind v = js "user")) as [E|E].
  - rewrite E in *. rewrite !(bool_decide_false (js "user" = js "group")) in * by done.
    rewrite (bool_decide_true (js "user" = js "user")) in Hu by done. cbn in Hu. rewrite Hu, decide_False by done. by rewrite Hg.
  - rewrite (bool_decide_false _ E) in Hs. cbn [orb] in Hs. rewrite Hs. cbn [andb].
    destruct (decide (s_kind v = js "group")) as [E'|E'].
    + rewrite (bool_decide_true _ E') in *. unfold field in Hg. apply andb_true_iff in Hg as [-> ->]. done.
    + rewrite (bool_decide_false _ E') in *. by rewrite Hg.
Qed.

Lemma provider_read e (id : Z) : id ∈ 0 :: provider_ids e → int_or (parse_int (sel_set (id_opts (provider_ids e)) (js_of_Z id))) 0 = id.
Proof.
  intros H. unfold sel_set. destruct (decide _) as [Hin|Hn]; [rewrite parse_int_js_of_Z; by destruct id|].
  apply elem_of_cons in H as [->|H]; [done|]. by apply elem_of_id_opts in H.
Qed.

Lemma portal_round e (is_portal : bool) (po : option portal) f :
  match po with Some po => is_portal && portal_typed e po | None => negb is_portal end = true →
  match po with Some po => forallb enrol_shown (po_enrol po) | None => true end = true →
  let provs := id_opts (provider_ids e) in
  let prov := match po with Some po => sel_set provs (js_of_Z (po_provider po)) | None => sel_first provs end in
  let fixed := Some (int_or (parse_int prov) 0) in
  f_portal_provider f = prov →
  f_portal_claims f = sel_set claim_sources (match po with Some po => str_or (po_claims po) (js "id_token") | None => js "id_token" end) →
  f_portal_enrol f = match po with
       | Some po => map (λ s, pick_make localeLeb (tables e) true fixed (Some s)) (po_enrol po)
       | None => [pick_make localeLeb (tables e) true fixed None]
       end →
  (if is_portal then Some (readPortalOptions f) else None) = po.
Proof.
  destruct po as [po|]; [|by destruct is_portal]. intros [-> Hpo]%andb_true_iff Hsh provs prov fixed E1 E2 E3.
  unfold portal_typed in Hpo. apply andb_true_iff in Hpo as [[H1 H2]%andb_true_iff H3]. apply bool_decide_eq_true in H1, H2.
  unfold readPortalOptions. rewrite E1, E2, E3.
  assert (int_or (parse_int prov) 0 = po_provider po) as Ep by (by apply provider_read).
  unfold fixed. rewrite Ep.
  assert (str_or (po_claims po) (js "id_token") = po_claims po) as ->.
  { destruct (po_claims po); [|done]. exfalso. revert H2. apply (bool_decide_unpack _). by_compute. }
  rewrite sel_set_in by done. f_equal. rewrite map_map. clear E1 E2 E3 fixed Ep prov. destruct po as [pid claims enrol]. cbn in *. f_equal.
  induction enrol as [|s enrol IH]; [done|]. cbn in H3, Hsh. apply andb_true_iff in H3 as [Hs H3], Hsh as [Hu Hsh].
  pose proof (enrol_subject (tables e) _ _ Hs Hu) as [Hok Hg]%andb_true_iff.
  cbn [map List.filter]. rewrite pick_round by done. rewrite Hg. f_equal. by apply IH.
Qed.

(** The options come back. *)
Lemma options_round e h :
  options_ok e (is_type "proxy" h) (is_type "vpn-portal" h) (h_options h) → host_shown h = true → h_type h ∈ host_types →
  h_options (host_submit (open_modal e (Some h))) = h_options h.
Proof.
  intros H [[_ Hra]%andb_true_iff Hpo]%andb_true_iff Ht. destruct H. unfold is_type in *.
  set (f := open_modal e (Some h)). cbn [host_submit h_options].
  assert (f_type f = h_type h) as -> by (by apply sel_set_in).
  rewrite (portal_round e (bool_decide (h_type h = js "vpn-portal")) (o_portal (h_options h)) f) by done.
  subst f. cbn -[open_modal]. unfold open_modal.
  cbn [f_vpnonly f_preservehost f_hostoverride f_skipverify f_sni f_dialto f_respto f_idleto f_maxidle f_maxbody
    f_buffering f_noindex f_exploits f_badbots f_compress f_sticky f_cachesec f_maintenance f_maintenance_html
    f_badgateway f_rw_strip f_rw_add f_rw_regex f_rw_repl f_ratelimit f_rate_rps f_rate_burst f_fauth f_fauth_url
    f_fauth_headers f_fauth_skipverify f_oidc f_oidc_provider f_oidc_emails f_oidc_domains f_oidc_groups f_oidc_pass
    f_auth_rules f_mtls_mode f_mtls_ca f_req_headers f_resp_headers f_hsts f_hsts_age f_hsts_sub f_hsts_preload
    f_mintls f_http3].
  rewrite rewrite_round, rate_round, fauth_round, oidc_round, cert_round, rules_round by done.
  rewrite !int_round, !text_round, !area_round, !flag_round, !readHdrRows_round by done.
  rewrite (sel_set_in tls_versions) by done. rewrite parse_number_of.
  destruct (h_options h) as [vpn po ? ? ? ? ? ? ? ? ? ? ? ? ? ? ? ? ? ? ? ? ? ? ? ? ? ? ? [hen hage hsub hpre] ? ?].
  cbn in *. f_equal.
  - destruct (bool_decide (h_type h = js "vpn-portal")), vpn; done.
  - rewrite (proj2 (Z.eqb_neq hage 0)) by done. rewrite (proj2 (Z.eqb_neq hage 0)) by done. done.
Qed.

(** ** Properties *)

Lemma redirect_round (is_redirect : bool) (rd : option redirect) :
  match rd with
  | Some r => is_redirect = true ∧ rd_code r ≠ Some 0 ∧ js_of_Z (int_or (rd_code r) 301) ∈ redirect_codes
      ∧ rd_code r ≠ None ∧ rd_scheme r ∈ redirect_schemes ∧ word (rd_host r) = true
  | None => is_redirect = false
  end →
  (if is_redirect then
     Some (Redirect (parse_int (sel_set redirect_codes (js_of_Z (match rd with Some r => int_or (rd_code r) 301 | None => 301 end))))
       (sel_set redirect_schemes (match rd with Some r => str_or (rd_scheme r) (js "auto") | None => js "auto" end))
       (trim (match rd with Some r => text_set (rd_host r) | None => [] end)) (match rd with Some r => rd_path r | None => true end))
   else None) = rd.
Proof.
  intros Hr. destruct rd as [r|]; [|by rewrite Hr].
  destruct Hr as (-> & Hc & Hin & Hn & Hs & Hh). rewrite (sel_set_in redirect_codes) by done.
  assert (str_or (rd_scheme r) (js "auto") = rd_scheme r) as ->.
  { destruct (rd_scheme r) eqn:E; [|done]. exfalso. revert Hs. apply (bool_decide_unpack _). by_compute. }
  rewrite (sel_set_in redirect_schemes), text_round, parse_int_js_of_Z by done.
  destruct r as [[c|] ? ? ?]; [|done]. cbn in *. destruct c; [done|done|done].
Qed.

Lemma certid_round e mode id : id_ok (customCerts e) id = true → mode = js "custom" ∨ id = None →
  (if bool_decide (mode = js "custom") then id_read (id_value (id_opts (customCerts e)) id) else None) = id.
Proof.
  intros Hi [->|Hn].
  - rewrite bool_decide_true by done. apply (id_round (id_opts (customCerts e)) (customCerts e)); [|exact Hi].
    intros n Hn. by apply elem_of_id_opts.
  - subst id. destruct (bool_decide (mode = js "custom")); [|done]. unfold id_read, id_value, sel_set.
    by destruct (decide ([] ∈ id_opts (customCerts e))).
Qed.

(** Editing is faithful: a host as the form sends it, opened and saved
    without a change, is sent again exactly so, every field and row, for each
    of the five types. *)
Lemma sent_again e h : host_typed e h → host_shown h = true → host_submit (open_modal e (Some h)) = h.
Proof.
  intros H Hsh. pose proof H as [Ht Hd Hu Hst Hr Hcm [Hci Hci'] Hssl Hacl Ho].
  pose proof (options_round e h Ho Hsh Ht) as Hopts. unfold host_shown in Hsh. apply andb_true_iff in Hsh as [[Hport _]%andb_true_iff _].
  set (f := open_modal e (Some h)) in *.
  assert (f_type f = h_type h) as Ef by (by apply sel_set_in).
  assert (f_certmode f = h_certMode h) as Ec by (by apply sel_set_in).
  unfold is_type in *. transitivity (Host (h_type h) (h_domains h) (h_upstream h) (h_upstreams h) (h_locations h)
    (h_staticRoot h) (h_redirect h) (h_certMode h) (h_certId h) (h_forceSsl h) (h_enabled h) (h_accessListId h)
    (h_options (host_submit f))); [|rewrite Hopts; by destruct h].
  unfold host_submit at 1. rewrite Ef, Ec. cbv zeta.
  assert (∀ id, id ∈ accessLists e → js_of_Z id ∈ [] :: id_opts (accessLists e)) as Hacl'
    by (intros; right; by apply elem_of_id_opts).
  assert (id_read (f_accesslist f) = h_accessListId h) as -> by (apply (id_round _ (accessLists e)); [exact Hacl'|exact Hacl]).
  assert ((if bool_decide (h_certMode h = js "custom") then id_read (f_certid f) else None) = h_certId h) as ->.
  { by apply (certid_round e). }
  assert (bool_decide (h_certMode h = js "auto" ∨ h_certMode h = js "custom") && f_forcessl f = h_forceSsl h) as ->.
  { change (f_forcessl f) with (h_forceSsl h). destruct (h_forceSsl h); [|by rewrite andb_false_r].
    rewrite bool_decide_true; [done|auto]. }
  assert (lines_of (f_domains f) = h_domains h) as -> by (by apply domains_round).
  assert ((if bool_decide (h_type h = js "static") then trim (f_staticroot f) else []) = h_staticRoot h) as ->.
  { revert Hst. destruct (bool_decide (h_type h = js "static")); intros Hst; [by apply text_round|done]. }
  assert ((if bool_decide (h_type h = js "redirect") then
      Some (Redirect (parse_int (f_rcode f)) (f_rscheme f) (trim (f_rhost f)) (f_rpath f)) else None) = h_redirect h) as ->.
  { unfold f, open_modal. cbn [f_rcode f_rscheme f_rhost f_rpath mbind option_bind]. by apply redirect_round. }
  clear Hopts Ho. f_equal; [| | |unfold host_submit; by rewrite Ef].
  all: revert Hu Hport; destruct (bool_decide (h_type h = js "proxy")); intros Hu Hport;
    [|by destruct Hu as (E1 & E2 & E3); rewrite ?E1, ?E2, ?E3].
  all: destruct Hu as (Hp & Hpool & Hlocs); destruct (proxy_round e _ _ _ Hp Hport Hpool Hlocs) as (E1 & E2 & E3).
  - exact E1.
  - exact E2.
  - exact E3.
Qed.

Lemma sent_fields h : h_type (as_sent h) = h_type h ∧ h_redirect (as_sent h) = h_redirect h ∧ h_certMode (as_sent h) = h_certMode h.
Proof. unfold as_sent. by destruct (is_type "proxy" h). Qed.
Lemma sent_type t h : is_type t (as_sent h) = is_type t h.
Proof. unfold is_type. by rewrite (proj1 (sent_fields h)). Qed.

(** Of a stored host the form shows what it shows of the host it sends, but
    for the upstream of a type that has none, which is not read. *)
Lemma age_sent x : (if (if x =? 0 then 15552000 else x) =? 0 then 15552000 else if x =? 0 then 15552000 else x) = (if x =? 0 then 15552000 else x).
Proof. destruct (x =? 0) eqn:E; [done|]. by rewrite E. Qed.
Lemma sent_same e h : h_type h ∈ host_types → host_submit (open_modal e (Some h)) = host_submit (open_modal e (Some (as_sent h))).
Proof.
  intros Ht. set (f := open_modal e (Some h)). set (g := open_modal e (Some (as_sent h))).
  assert (f_type f = h_type h) as Ef by (by apply sel_set_in).
  assert (g = Form (f_type f) (f_domains f) (f_scheme g) (f_uhost g) (f_uport g) (f_via g) (f_rcode f) (f_rscheme f) (f_rhost f)
    (f_rpath f) (f_staticroot f) (f_pool f) (f_rw_strip f) (f_rw_add f) (f_rw_regex f) (f_rw_repl f) (f_locations f)
    (f_badbots f) (f_badgateway f) (f_enabled f) (f_accesslist f) (f_certmode f) (f_certid f) (f_forcessl f) (f_http3 f)
    (f_mintls f) (f_hsts f) (f_hsts_age f) (f_hsts_sub f) (f_hsts_preload f) (f_noindex f) (f_exploits f) (f_compress f)
    (f_sticky f) (f_cachesec f) (f_maintenance f) (f_maintenance_html f) (f_ratelimit f) (f_rate_rps f) (f_rate_burst f)
    (f_fauth f) (f_fauth_url f) (f_fauth_headers f) (f_fauth_skipverify f) (f_vpnonly f) (f_portal_provider f)
    (f_portal_claims f) (f_portal_enrol f) (f_oidc f) (f_oidc_provider f) (f_oidc_pass f) (f_oidc_emails f)
    (f_oidc_domains f) (f_oidc_groups f) (f_auth_rules f) (f_mtls_mode f) (f_mtls_ca f) (f_preservehost f)
    (f_hostoverride f) (f_skipverify f) (f_sni f) (f_dialto f) (f_respto f) (f_idleto f) (f_maxidle f) (f_maxbody f)
    (f_buffering f) (f_req_headers f) (f_resp_headers f)) as Eg.
  { unfold f, g, as_sent. destruct h as [? ? ? ? ? ? ? ? ? ? ? ? o]. cbn [h_options]. destruct o as [? ? ? ? ? ? ? ? ? ? ? bu ? ? ? ? ? ? ? ? ? ? ? ? ? ? ? ? ? [he ha hs hp] ? h3].
    destruct (is_type _ _), bu as [[]|], h3 as [[]|]; unfold open_modal, options_sent; cbn -[Z.eqb]; by rewrite age_sent. }
  destruct (is_type "proxy" h) eqn:Ep.
  - assert (f_scheme g = f_scheme f ∧ f_uhost g = f_uhost f ∧ f_uport g = f_uport f ∧ f_via g = f_via f) as (E1 & E2 & E3 & E4).
    { unfold f, g, as_sent. by rewrite Ep. }
    rewrite E1, E2, E3, E4 in Eg. by rewrite Eg.
  - unfold is_type in Ep. rewrite <- Ef in Ep. clearbody f g. rewrite Eg. unfold host_submit. cbn. by rewrite Ep.
Qed.
Theorem host_edit_identity e h : host_ok e h → host_submit (open_modal e (Some h)) = as_sent h.
Proof.
  intros [H Hs]. rewrite <- (sent_again _ _ H Hs). apply sent_same. assert (h_type (as_sent h) = h_type h) as <-; [|apply H].
  unfold as_sent. by destruct (is_type "proxy" h).
Qed.
(** The server keeps of it what it had. *)
Lemma sent_kept h : h_type h ∈ host_types → host_cleared h = h → host_cleared (as_sent h) = with_options (options_sent (h_options h)) h.
Proof.
  intros Ht E. rewrite <- E at 3. unfold as_sent, host_cleared, is_type. destruct h as [t ? u ? ? ? ? ? ? ? ? ? o]. cbn in *. clear E.
  repeat (apply elem_of_cons in Ht as [->|Ht]; [reflexivity|]). by apply elem_of_nil in Ht.
Qed.

(** A reference the editor has no option for is dropped on saving: the
    host's access list, so the host becomes public, and the provider of its
    single sign-on, when the lists they are picked from did not load. *)
Theorem missing_references_dropped e h :
  (∀ id, h_accessListId h = Some id → id ∉ accessLists e) →
  (∀ o, o_oidc (h_options h) = Some o → oi_provider o ≠ 0 ∧ oi_provider o ∉ provider_ids e) →
  h_accessListId (host_submit (open_modal e (Some h))) = None
  ∧ (is_Some (o_oidc (h_options h)) → o_oidc (h_options (host_submit (open_modal e (Some h)))) = None).
Proof.
  intros Ha Ho. assert (∀ ids n, n ∉ ids → js_of_Z n ∉ id_opts ids) as Hno.
  { intros ids n Hn (m & E & Hm)%list_elem_of_fmap. by apply js_of_Z_inj in E as ->. }
  split.
  - unfold host_submit, open_modal. cbn [h_accessListId f_accesslist mbind option_bind].
    destruct (h_accessListId h) as [id|] eqn:E; unfold id_value, id_read, sel_set.
    + specialize (Ha id eq_refl). destruct (id =? 0); [by case_decide|].
      rewrite decide_False; [done|]. intros [H|H]%elem_of_cons; [by apply js_of_Z_ne in H|by apply Hno in H].
    + by case_decide.
  - intros [o E]. destruct (Ho o E) as [Hz Hn]. unfold host_submit, open_modal.
    cbn [h_options o_oidc f_oidc f_oidc_provider]. rewrite E. rewrite (proj2 (Z.eqb_neq (oi_provider o) 0)) by done.
    assert (sel_set (id_opts (provider_ids e)) (js_of_Z (oi_provider o)) = []) as ->
      by (unfold sel_set; rewrite decide_False; [done|by apply Hno]).
    by rewrite andb_false_r.
Qed.
End editor.

(** ** Witnesses *)

Definition sample_env : env := Env [3] [9] sample_people.
Definition sample_options : options :=
  Options true None true (js "internal") false [] 10 0 90 0 512 (Some false) true true false true false 30
    true (js "<h1>Back soon</h1>") [] (Some (Rewrite (js "/api") [] [] [])) (Some (Rate (js "2.5") 40))
    (Some (ForwardAuth (js "https://auth.example/verify") [js "Remote-User"; js "Remote-Groups"] true))
    (Some (OidcAuth 7 [] [js "example.com"] [js "staff"; js "ops"] true))
    [AuthRule (js "/health") true (js "public") None None [js "GET"; js "HEAD"];
     AuthRule (js "/api/") false (js "accessList") (Some 3) None []]
    (Some (ClientCert (js "require") (js "-----BEGIN"))) [Hdr (js "set") (js "X-Env") (js "prod")]
    [Hdr (js "remove") (js "Server") []] (Hsts true 31536000 true false) (js "1.3") (Some false).
Definition sample_host : host :=
  Host (js "proxy") [js "a.example"; js "*.b.example"] (Upstream (js "https") (js "10.0.0.2") (Some 8443) 1)
    [Upstream (js "https") (js "10.0.0.3") (Some 8443) 1]
    [Location (js "/api") (Upstream (js "http") (js "10.0.0.4") (Some 80) 1) (Some (Rewrite (js "/api") [] [] []))]
    [] None (js "custom") (Some 9) true true (Some 3) sample_options.

Lemma sample_host_ok : host_ok id sample_env sample_host.
Proof.
  split; [|by_compute]. constructor; try by_compute; try (apply (bool_decide_unpack _); by_compute).
  - change (is_type "proxy" sample_host) with true. split; [|split]; [|by_compute..].
    constructor; [apply (bool_decide_unpack _); by_compute|by_compute|].
    apply (bool_decide_unpack _); by_compute.
  - constructor; try by_compute; try (apply (bool_decide_unpack _); by_compute); done.
Qed.

Lemma host_edit_identity_witness :
  host_submit id (open_modal (λ _ _, true) sample_env (Some sample_host)) = sample_host.
Proof. apply (host_edit_identity (λ _ _, true) id sample_env sample_host). apply sample_host_ok. Defined.

Lemma missing_references_dropped_witness :
  let e := Env [] [] (People [] [] [] []) in
  o_oidc (h_options (host_submit id (open_modal (λ _ _, true) e (Some sample_host)))) = None.
Proof.
  intros e. destruct (missing_references_dropped (λ _ _, true) id e sample_host) as [_ H].
  - intros i _. apply not_elem_of_nil.
  - intros o [= <-]. split; [done|apply not_elem_of_nil].
  - apply H. by eexists.
Defined.
