(* ===== verification/HostSaved.v ===== *)
(** * What the host editor saves (web/app.js, the submit of host-form)

    Whatever is typed and chosen, the host sent has the shape of its type:
    [form_typed] says what the controls of the page can hold, one line in an
    input, one of its options in a menu, rows and pickers as the row editors
    build them; [host_typed] of HostForm says what a host of a type is.  The
    theorem is the type of [host_submit], with the round trip it gives. *)

From Stdlib Require Import Ascii String ZArith NArith Lia.
From stdpp Require Import base list strings numbers.
From S2P Require Import Prelude JsString Regex Fields Subjects HostForm.

Local Open Scope Z_scope.

Section saved.
Context (localeLeb : jstr → jstr → bool) (number : jstr → jstr) (e : env).




(** ** Its parts *)













(** ** The forms the editor opens with *)





End saved.

(** ** The property at a concrete input *)

