(* ===== verification/Editors.v ===== *)
(** * Editors (web/app.js)

    Hosts, access lists, identity providers and certificates are edited the
    same way: a window is opened on a stored record or on a new one, its form is filled,
    some of it only when what it needs has been loaded, and saving sends the
    record read from the form to where it came from.  [Editor] is what a form
    has of its own; opening, typing, closing, saving and the replies, which
    come in any order, are the same for all.  The instances are in HostEditor,
    Acl and Tables. *)

From Stdlib Require Import Ascii String ZArith NArith Lia.
From stdpp Require Import base list sets strings numbers.
From S2P Require Import Prelude.

(** ** A form *)

(** [open_form env r f] fills the form [f] from the record [r], or for a new
    one; [form_loads] is what opening asks for besides, [form_loaded] what an
    answer does; [form_late] is whether the window is only shown when what it
    needs has been loaded.  [form_type] is something the user does to the
    form, and [form_read] the record it would save.  The law: a record the
    form can show, [form_ok], is read back once everything has been loaded,
    in whatever order. *)
Class Editor (Env R Q U L A F : Type) : Type := {
  open_form : Env → option R → F → F;
  form_loads : option R → list L;
  form_loaded : L → A → F → F;
  form_type : U → F → F;
  form_read : F → Q;
  form_ok : Env → R → Prop;
  form_told : Env → L → A → Prop;
  form_late : bool;
  form_sends : R → Q;
  form_round : ∀ env r f la, form_ok env r → map fst la ≡ₚ form_loads (Some r) → Forall (λ x, form_told env x.1 x.2) la →
    form_read (fold_left (λ f x, form_loaded x.1 x.2 f) la (open_form env (Some r) f)) = form_sends r;
  form_shown : form_late = true → ∀ r, form_loads r ≠ [] }.

Section editor.
Context {Env R Q U L A F : Type} `{!Editor Env R Q U L A F}.

Inductive editor_request : Type := EPost (q : Q) | EPut (id : Z) (q : Q) | ERefresh.
Inductive editor_job : Type := EJLoad (l : L) | EJSave.
Inductive editor_reply : Type := ELoaded (a : A) | ESaved | EFail (message : jstr).
Record editor : Type := Edit {
  et_id : option Z; et_form : F; et_hidden : bool; et_error : option jstr; et_jobs : list editor_job; et_sent : list editor_request }.

Definition et_set_jobs (l : list editor_job) (s : editor) : editor :=
  Edit (et_id s) (et_form s) (et_hidden s) (et_error s) l (et_sent s).
Definition et_set_form (f : F) (s : editor) : editor :=
  Edit (et_id s) f (et_hidden s) (et_error s) (et_jobs s) (et_sent s).
Definition et_fail (m : jstr) (s : editor) : editor :=
  Edit (et_id s) (et_form s) (et_hidden s) (Some m) (et_jobs s) (et_sent s).
Definition et_show (s : editor) : editor :=
  Edit (et_id s) (et_form s) (et_hidden s && negb form_late) (et_error s) (et_jobs s) (et_sent s).
Definition et_hide (s : editor) : editor :=
  Edit (et_id s) (et_form s) true (et_error s) (et_jobs s) (et_sent s).
Definition et_send (q : editor_request) (js : list editor_job) (s : editor) : editor :=
  Edit (et_id s) (et_form s) (et_hidden s) (et_error s) (et_jobs s ++ js) (et_sent s ++ [q]).

(** The open function: the record edited is the one whose number is kept. *)
Definition open_editor (env : Env) (r : option (Z * R)) (s : editor) : editor :=
  Edit (fst <$> r) (open_form env (snd <$> r) (et_form s)) (form_late && et_hidden s) None
    (et_jobs s ++ map EJLoad (form_loads (snd <$> r))) (et_sent s).

Definition is_save (j : editor_job) : bool := match j with EJSave => true | _ => false end.
(** The submit handler; while a save is in flight the listener of [setSaving]
    stops the submit.  [if (editingId)] takes 0 for none. *)
Definition submit_editor (s : editor) : editor :=
  if existsb is_save (et_jobs s) then s
  else
    let q := form_read (et_form s) in
    let s := Edit (et_id s) (et_form s) (et_hidden s) None (et_jobs s) (et_sent s) in
    match et_id s with
    | Some id => if (id =? 0)%Z then et_send (EPost q) [EJSave] s else et_send (EPut id q) [EJSave] s
    | None => et_send (EPost q) [EJSave] s
    end.

Definition editor_answers (j : editor_job) (r : editor_reply) : bool :=
  match j, r with EJLoad _, (ELoaded _ | EFail _) | EJSave, (ESaved | EFail _) => true | _, _ => false end.
Definition editor_continue (j : editor_job) (r : editor_reply) (s : editor) : editor :=
  match j, r with
  | EJLoad l, ELoaded a => et_show (et_set_form (form_loaded l a (et_form s)) s)
  | EJSave, ESaved => et_send ERefresh [] (et_hide s)
  | EJSave, EFail m => et_fail m s
  | _, _ => s
  end.

Inductive editor_event : Type :=
  | EvOpen (env : Env) (r : option (Z * R)) | EvType (u : U) | EvSubmit | EvClose | EvReply (i : nat) (r : editor_reply).
Definition editor_step (s : editor) (e : editor_event) : editor :=
  match e with
  | EvOpen env r => open_editor env r s
  | EvType u => if et_hidden s then s else et_set_form (form_type u (et_form s)) s
  | EvSubmit => if et_hidden s then s else submit_editor s
  | EvClose => et_hide s
  | EvReply i r =>
      match et_jobs s !! i with
      | Some j => if editor_answers j r then editor_continue j r (et_set_jobs (delete i (et_jobs s)) s) else s
      | None => s
      end
  end.
Definition editor_run (s : editor) (es : list editor_event) : editor := fold_left editor_step es s.

Definition closed_editor (f : F) : editor := Edit None f true None [] [].

(** ** Opening *)

(** Everything opening asked for is answered truthfully, in any order. *)
Inductive loading (env : Env) : editor → editor → Prop :=
  | loading_none s : loading env s s
  | loading_one s i l a s' : et_jobs s !! i = Some (EJLoad l) → form_told env l a →
      loading env (editor_step s (EvReply i (ELoaded a))) s' → loading env s s'.

Lemma loading_step s i l a : et_jobs s !! i = Some (EJLoad l) →
  editor_step s (EvReply i (ELoaded a)) = et_show (et_set_form (form_loaded l a (et_form s)) (et_set_jobs (delete i (et_jobs s)) s)).
Proof. intros H. unfold editor_step. by rewrite H. Qed.

(** What a loading answers, in the order of the answers. *)
Lemma loading_fold env s s' ls : loading env s s' → et_jobs s = map EJLoad ls → et_jobs s' = [] →
  ∃ la, map fst la ≡ₚ ls ∧ Forall (λ x, form_told env x.1 x.2) la
    ∧ et_form s' = fold_left (λ f x, form_loaded x.1 x.2 f) la (et_form s)
    ∧ et_id s' = et_id s ∧ et_hidden s' = et_hidden s && (negb form_late || bool_decide (ls = [])) ∧ et_sent s' = et_sent s.
Proof.
  intros H. revert ls. induction H as [s|s i l a s' Hi Ht H IH]; intros ls Es E'.
  - exists []. rewrite Es in E'. apply map_eq_nil in E'. subst ls. rewrite (bool_decide_true ([] = [])), orb_true_r, andb_true_r by done. done.
  - rewrite (loading_step s i l a Hi) in IH. rewrite Es in Hi. apply list_lookup_fmap_Some in Hi as (l' & [= ->] & Hl).
    destruct (IH (delete i ls)) as (la & Hp & Hf & E1 & E2 & E3 & E4); [|done|].
    { cbn [et_show et_set_form et_set_jobs et_jobs]. by rewrite Es, map_delete. }
    exists ((l', a) :: la). cbn [map fst fold_left]. split_and!; try done; [|by constructor|].
    + rewrite Hp. symmetry. by apply delete_Permutation.
    + rewrite E3. cbn. destruct ls; [done|]. rewrite (bool_decide_false (_ :: _ = [])) by done.
      by destruct (et_hidden s), form_late, (bool_decide _).
Qed.

(** Opening a stored record and saving it without a change, once what the
    form shows has loaded, sends it back to where it came from, as it was
    and once, whatever was edited or shown before. *)
Theorem unedited_save_identity env id r s s' : form_ok env r → id ≠ 0%Z → et_jobs s = [] →
  loading env (editor_step s (EvOpen env (Some (id, r)))) s' → et_jobs s' = [] →
  et_hidden s' = false ∧ form_read (et_form s') = form_sends r
  ∧ et_sent (editor_run s' [EvSubmit; EvSubmit]) = et_sent s ++ [EPut id (form_sends r)].
Proof.
  intros Hok Hid Hs Hl Hj.
  destruct (loading_fold _ _ _ (form_loads (Some r)) Hl) as (la & Hp & Hf & E1 & E2 & E3 & E4); [|done|].
  { unfold editor_step, open_editor. cbn [et_jobs fmap option_fmap option_map snd]. by rewrite Hs. }
  cut (et_hidden s' = false); [intros Ehid; rewrite Ehid in E3; split; [done|]|].
  2: { rewrite E3. cbn [editor_step open_editor et_hidden]. pose proof form_shown as Hl'. destruct form_late; [|done].
       rewrite bool_decide_false by (by apply Hl'). by rewrite andb_false_r. }
  clear E3. cbn [editor_step open_editor et_id et_form et_hidden et_sent fmap option_fmap option_map fst snd] in *.
  pose proof (form_round env r (et_form s) la Hok Hp Hf) as Er. split; [by rewrite E1|]. unfold editor_run. cbn [fold_left].
  assert (submit_editor s' = et_send (EPut id (form_sends r)) [EJSave]
    (Edit (et_id s') (et_form s') (et_hidden s') None (et_jobs s') (et_sent s'))) as E.
  { unfold submit_editor. rewrite Hj. cbn [existsb]. rewrite E1, Er, E2. cbn [et_id]. by rewrite (proj2 (Z.eqb_neq id 0)). }
  unfold editor_step at 2. rewrite Ehid, E. unfold editor_step. cbn [et_send et_hidden]. rewrite Ehid.
  unfold submit_editor. cbn [et_jobs]. rewrite Hj. cbn. by rewrite E4.
Qed.

(** ** Saving *)

(** Where the record edited after [es] came from. *)
Fixpoint opened_on (id : option Z) (es : list editor_event) : option Z :=
  match es with
  | [] => id
  | EvOpen _ r :: es => opened_on (fst <$> r) es
  | _ :: es => opened_on id es
  end.
Definition to_place (id : option Z) (q : Q) : editor_request :=
  match id with Some id => if (id =? 0)%Z then EPost q else EPut id q | None => EPost q end.
Definition is_change (q : editor_request) : bool := match q with ERefresh => false | _ => true end.
Definition saves (l : list editor_job) : nat := length (List.filter is_save l).
Definition changes (s : editor) : list editor_request := List.filter is_change (et_sent s).
Definition refreshes (s : editor) : nat := length (List.filter (negb ∘ is_change) (et_sent s)).

(** What a state owes to the events that led to it. *)
Record run_ok (f : F) (es : list editor_event) (s : editor) : Prop := {
  ro_id : et_id s = opened_on None es;
  ro_one : (saves (et_jobs s) <= 1)%nat;
  ro_count : (refreshes s + saves (et_jobs s) <= length (changes s))%nat;
  ro_sent : ∀ q, q ∈ changes s → ∃ es1 es2, es = es1 ++ EvSubmit :: es2
    ∧ et_hidden (editor_run (closed_editor f) es1) = false
    ∧ q = to_place (opened_on None es1) (form_read (et_form (editor_run (closed_editor f) es1))) }.

Lemma opened_on_snoc id es e : opened_on id (es ++ [e]) = match e with EvOpen _ r => fst <$> r | _ => opened_on id es end.
Proof. revert id. induction es as [|e' es IH]; intros id; [by destruct e|]. by destruct e'; cbn [app opened_on]. Qed.

(** A step that keeps the record and sends no change. *)
Lemma run_ok_keep f es s s' e : run_ok f es s → et_id s' = opened_on None (es ++ [e]) →
  changes s' = changes s → (saves (et_jobs s') <= 1)%nat → (refreshes s' + saves (et_jobs s') <= refreshes s + saves (et_jobs s))%nat →
  run_ok f (es ++ [e]) s'.
Proof.
  intros [H1 H2 H3 H4] E Ec Hs Hr. constructor; [done|done|rewrite Ec; lia|].
  intros q Hq. rewrite Ec in Hq. destruct (H4 q Hq) as (es1 & es2 & -> & T). exists es1, (es2 ++ [e]). by rewrite <- app_assoc.
Qed.

Lemma saves_loads js ls : saves (js ++ map EJLoad ls) = saves js.
Proof.
  unfold saves. rewrite List.filter_app, length_app. replace (List.filter is_save (map EJLoad ls)) with (@nil editor_job); [cbn; lia|].
  by induction ls.
Qed.

Lemma saves_delete i j js : js !! i = Some j → saves js = ((if is_save j then 1 else 0) + saves (delete i js))%nat.
Proof.
  intros H. unfold saves. rewrite delete_take_drop, <- (take_drop_middle _ _ _ H) at 1. rewrite !List.filter_app, !length_app.
  cbn [List.filter]. destruct (is_save j); cbn; lia.
Qed.

Lemma saves_none js : existsb is_save js = false → saves js = 0%nat.
Proof. unfold saves. induction js as [|j js IH]; cbn; [done|]. by destruct (is_save j). Qed.

Lemma none_saving js : saves js = 0%nat → existsb is_save js = false.
Proof. unfold saves. induction js as [|j js IH]; cbn; [done|]. by destruct (is_save j). Qed.

Lemma submit_sends s : existsb is_save (et_jobs s) = false →
  submit_editor s = Edit (et_id s) (et_form s) (et_hidden s) None (et_jobs s ++ [EJSave])
    (et_sent s ++ [to_place (et_id s) (form_read (et_form s))]).
Proof. intros H. unfold submit_editor. rewrite H. cbn. destruct (et_id s) as [id|]; [|done]. unfold to_place. by destruct (id =? 0)%Z. Qed.

Lemma submit_form s : et_form (submit_editor s) = et_form s.
Proof. destruct (existsb is_save (et_jobs s)) eqn:E; [unfold submit_editor; by rewrite E|by rewrite submit_sends]. Qed.

Lemma to_place_change id q : is_change (to_place id q) = true.
Proof. unfold to_place. destruct id as [id|]; [|done]. by destruct (id =? 0)%Z. Qed.

Lemma editor_submit_ok f es : let s := editor_run (closed_editor f) es in
  run_ok f es s → et_hidden s = false → run_ok f (es ++ [EvSubmit]) (submit_editor s).
Proof.
  intros s H Hv. destruct (existsb is_save (et_jobs s)) eqn:Es.
  - unfold submit_editor. rewrite Es. apply (run_ok_keep f es s); try done; [by rewrite opened_on_snoc; apply H|apply H].
  - pose proof (saves_none _ Es) as E0. destruct H as [H1 H2 H3 H4]. rewrite (submit_sends s Es).
    constructor; unfold changes, refreshes, saves in *; cbn [et_id et_jobs et_sent]; rewrite ?List.filter_app, ?length_app; cbn [List.filter is_save].
    + by rewrite opened_on_snoc.
    + cbn. lia.
    + unfold compose. rewrite to_place_change. cbn. unfold compose in H3. lia.
    + rewrite to_place_change. intros q [Hq| ->%list_elem_of_singleton]%elem_of_app.
      * destruct (H4 q Hq) as (es1 & es2 & -> & T). exists es1, (es2 ++ [EvSubmit]). by rewrite <- app_assoc.
      * exists es, []. by rewrite H1.
Qed.

Lemma editor_continue_ok f es s i j r : et_jobs s !! i = Some j → editor_answers j r = true → run_ok f es s →
  run_ok f (es ++ [EvReply i r]) (editor_continue j r (et_set_jobs (delete i (et_jobs s)) s)).
Proof.
  intros Hi Ha H. pose proof (saves_delete _ _ _ Hi) as Es. pose proof (ro_one _ _ _ H) as H1.
  destruct j, r; try done; cbn [is_save] in Es; apply (run_ok_keep f es s); try done;
    unfold changes, refreshes, saves in *; cbn; rewrite ?opened_on_snoc, ?app_nil_r, ?List.filter_app, ?length_app, ?app_nil_r;
    cbn; first [apply H|lia|done].
Qed.

Lemma run_reaches f es : run_ok f es (editor_run (closed_editor f) es).
Proof.
  induction es as [|e es IH] using rev_ind; [constructor; cbn; [done|lia|lia|set_solver]|].
  unfold editor_run in *. rewrite fold_left_app. cbn [fold_left]. set (s := fold_left editor_step es _) in *.
  pose proof (ro_one _ _ _ IH) as H1. pose proof (ro_id _ _ _ IH) as Hid.
  destruct e as [env r|u| | |i r]; cbn [editor_step].
  - apply (run_ok_keep f es s); try done; cbn -[saves refreshes]; rewrite ?opened_on_snoc, ?saves_loads; done.
  - destruct (et_hidden s); apply (run_ok_keep f es s); try done; cbn; by rewrite opened_on_snoc.
  - destruct (et_hidden s) eqn:Eh; [|by apply (editor_submit_ok f es)]. apply (run_ok_keep f es s); try done. by rewrite opened_on_snoc.
  - apply (run_ok_keep f es s); try done; cbn; by rewrite opened_on_snoc.
  - destruct (et_jobs s !! i) as [j|] eqn:Ei; [destruct (editor_answers j r) eqn:Ea|]; [by apply editor_continue_ok|..];
      apply (run_ok_keep f es s); try done; by rewrite opened_on_snoc.
Qed.

(** What a step does to the saves in flight and to the changes sent. *)
Lemma quiet_step s e : match e with EvSubmit | EvReply _ (ESaved | EFail _) => False | _ => True end →
  saves (et_jobs (editor_step s e)) = saves (et_jobs s) ∧ changes (editor_step s e) = changes s.
Proof.
  destruct e as [env r|u| | |i r]; intros He; try done; cbn [editor_step].
  - split; [cbn -[saves]; apply saves_loads|done].
  - by destruct (et_hidden s).
  - destruct (et_jobs s !! i) as [j|] eqn:Ei; [|done]. destruct (editor_answers j r) eqn:Ea; [|done].
    apply saves_delete in Ei. by destruct j, r.
Qed.

Lemma answered_step s i r : et_jobs s !! i = Some EJSave → match r with ELoaded _ => False | _ => True end →
  saves (et_jobs s) = S (saves (et_jobs (editor_step s (EvReply i r)))) ∧ changes (editor_step s (EvReply i r)) = changes s.
Proof.
  intros Hi Hr. unfold editor_step. rewrite Hi. apply saves_delete in Hi. destruct r as [a| |m]; [done|..]; cbn -[saves].
  - rewrite app_nil_r. split; [exact Hi|]. unfold changes. cbn. by rewrite List.filter_app, app_nil_r.
  - split; [exact Hi|done].
Qed.

(** C13. An editor sends what the user submits and nothing else: after any events
    every change it has sent is the record its form showed when the open
    editor was submitted, sent to where the record opened last came from; at
    most one is in flight, and the table is not loaded again more often than
    changes were sent.  A save that fails leaves the form as it is and says
    why, and the next submit sends the record again. *)
Theorem sent_as_submitted f es : let s := editor_run (closed_editor f) es in
  (saves (et_jobs s) <= 1)%nat ∧ (refreshes s + saves (et_jobs s) <= length (changes s))%nat
  ∧ (∀ q, q ∈ changes s → ∃ es1 es2, es = es1 ++ EvSubmit :: es2
       ∧ et_hidden (editor_run (closed_editor f) es1) = false
       ∧ q = to_place (opened_on None es1) (form_read (et_form (editor_run (closed_editor f) es1))))
  ∧ ∀ i m, et_jobs s !! i = Some EJSave →
      let s' := editor_step s (EvReply i (EFail m)) in
      et_form s' = et_form s ∧ et_hidden s' = et_hidden s ∧ et_error s' = Some m ∧ et_sent s' = et_sent s
      ∧ (et_hidden s = false →
         changes (editor_step s' EvSubmit) = changes s ++ [to_place (opened_on None es) (form_read (et_form s))]).
Proof.
  intros s. destruct (run_reaches f es) as [Hid H1 H2 H3]. fold s in Hid, H1, H2, H3.
  split; [done|]. split; [done|]. split; [done|]. intros i m Hi s'.
  assert (s' = et_fail m (et_set_jobs (delete i (et_jobs s)) s)) as E by (unfold s', editor_step; by rewrite Hi).
  rewrite E. split_and!; try done. intros Hv. unfold editor_step. cbn [et_fail et_set_jobs et_hidden]. rewrite Hv.
  rewrite submit_sends; cbn [et_fail et_set_jobs et_jobs et_sent et_id et_form].
  - unfold changes. cbn [et_sent]. rewrite List.filter_app, Hid. cbn [List.filter]. by rewrite to_place_change.
  - pose proof (saves_delete _ _ _ Hi) as Es. cbn in Es. apply not_true_iff_false. intros Hx. apply existsb_exists in Hx as (j & Hj & Ej).
    apply list_elem_of_In, list_elem_of_lookup in Hj as [k Hk]. apply saves_delete in Hk. rewrite Ej in Hk. lia.
Qed.

(** The save that is answered after its editor was closed closes whatever
    editor is open by then, and what was typed there is gone. *)
Lemma late_editor_save_closes s i : et_jobs s !! i = Some EJSave → et_hidden (editor_step s (EvReply i ESaved)) = true.
Proof. intros Hi. unfold editor_step. by rewrite Hi. Qed.

End editor.

(** ** The property at a concrete input *)

(** A form of one text that asks for something when it is opened. *)
#[local] Program Instance text_editor : Editor unit jstr jstr jstr unit unit jstr :=
  {| open_form _ r _ := default [] r; form_loads _ := [tt]; form_loaded _ _ f := f; form_type u _ := u; form_read f := f;
     form_ok _ _ := True; form_told _ _ _ := True; form_sends r := r; form_late := false |}.
Next Obligation. intros env r f la _ _ _. cbn. revert f. by induction la. Qed.
Next Obligation. done. Qed.

Lemma sent_as_submitted_witness :
  let es := [EvOpen tt (Some (3%Z, js "a")); EvType (js "b"); EvSubmit; EvSubmit] in
  let s := editor_run (closed_editor []) es in
  et_jobs s !! 1%nat = Some EJSave ∧ et_hidden s = false
  ∧ changes (editor_step (editor_step s (EvReply 1 (EFail (js "no")))) EvSubmit) = [EPut 3 (js "b"); EPut 3 (js "b")].
Proof.
  intros es s. assert (et_jobs s !! 1%nat = Some EJSave) as H1 by done. assert (et_hidden s = false) as H2 by done.
  split; [exact H1|]. split; [exact H2|]. destruct (sent_as_submitted [] es) as (_ & _ & _ & H).
  destruct (H 1%nat (js "no") H1) as (_ & _ & _ & _ & E). etransitivity; [exact (E H2)|]. done.
Defined.
