(* ===== verification/Acl.v ===== *)
(** * Access lists (web/app.js, access-list editor)

    The rows of the access-list editor: a rule is an address range, a host
    name, a country, or a subject on the VPN, with the verbs it applies to; a
    user is a name and, when it is set or changed, a password.
    [openAclModal] waits for what the rows can name before it fills and shows
    them; the editor is the instance [acl_editor] of Editors, whose events
    open it, load it, type, save and close. *)

From Stdlib Require Import Ascii String ZArith NArith Lia.
From stdpp Require Import base list strings numbers.
From S2P Require Import Prelude JsString Regex Fields Subjects Editors.

Local Open Scope Z_scope.

(** ** Data *)

Record acl_rule : Type := AclRule {
  ru_action : jstr; ru_cidr : jstr; ru_host : jstr; ru_country : jstr; ru_vpn : option subject; ru_methods : list jstr }.
(** The password goes to the server only when it is typed. *)
Record acl_user : Type := AclUser { us_name : jstr; us_password : jstr }.
Record acl : Type := Acl {
  ac_name : jstr; ac_satisfy : jstr; ac_passAuth : bool; ac_rules : list acl_rule; ac_users : list acl_user }.

Definition actions : list jstr := map js ["allow"; "deny"].
Definition rule_kinds : list jstr := map js ["cidr"; "host"; "country"; "vpn"].
Definition satisfy_opts : list jstr := map js ["any"; "all"].

(** The ISO 3166-1 codes of the country menu. *)
Definition COUNTRY_CODES : list jstr := split_ch 32 (join (js " ") [js "AD AE AF AG AI AL AM AO AQ AR AS AT AU AW AX AZ BA BB BD BE BF BG BH BI BJ BL BM BN BO BQ BR BS";
    js "BT BV BW BY BZ CA CC CD CF CG CH CI CK CL CM CN CO CR CU CV CW CX CY CZ DE DJ DK DM DO DZ EC EE";
    js "EG EH ER ES ET FI FJ FK FM FO FR GA GB GD GE GF GG GH GI GL GM GN GP GQ GR GS GT GU GW GY HK HM";
    js "HN HR HT HU ID IE IL IM IN IO IQ IR IS IT JE JM JO JP KE KG KH KI KM KN KP KR KW KY KZ LA LB LC";
    js "LI LK LR LS LT LU LV LY MA MC MD ME MF MG MH MK ML MM MN MO MP MQ MR MS MT MU MV MW MX MY MZ NA";
    js "NC NE NF NG NI NL NO NP NR NU NZ OM PA PE PF PG PH PK PL PM PN PR PS PT PW PY QA RE RO RS RU RW";
    js "SA SB SC SD SE SG SH SI SJ SK SL SM SN SO SR SS ST SV SX SY SZ TC TD TF TG TH TJ TK TL TM TN TO";
    js "TR TT TV TW TZ UA UG UM US UY UZ VA VC VE VG VI VN VU WF WS YE YT ZA ZM ZW"]).
Definition country_opts : list jstr := [] :: COUNTRY_CODES.

(** ** Rows *)

Inductive rule_field : Type :=
  | FText (value : jstr)
  | FCountry (value : jstr)
  | FVpn (k : picker).

Record rule_row : Type := RuleRow { rr_action : jstr; rr_kind : jstr; rr_field : rule_field; rr_chips : list (jstr * bool) }.
Record user_row : Type := UserRow { ur_name : jstr; ur_password : jstr; ur_unchanged : bool }.

Definition makeCountrySelect (current : jstr) : rule_field :=
  FCountry (if truthy current then sel_set country_opts current else sel_first country_opts).
Definition makeTextField (current : jstr) : rule_field := FText (text_set current).

Section acl.
Context (localeLeb : jstr → jstr → bool).

(** [setField] for a text, and for a stored subject. *)
Definition setField (p : people) (kind current : jstr) (cur : option subject) : rule_field :=
  if decide (kind = js "vpn") then FVpn (pick_make localeLeb p false None cur)
  else if decide (kind = js "country") then makeCountrySelect current else makeTextField current.

Definition blankRuleRow (p : people) : rule_row := RuleRow (js "allow") (js "cidr") (setField p (js "cidr") [] None) (chips_of []).

Definition addAclRuleRow (p : people) (r : acl_rule) : rule_row :=
  let kind := match ru_vpn r with
    | Some _ => js "vpn"
    | None => if truthy (ru_host r) then js "host" else if truthy (ru_country r) then js "country" else js "cidr"
    end in
  RuleRow (sel_set actions (ru_action r)) kind
    (setField p kind (str_or (ru_host r) (str_or (ru_country r) (ru_cidr r))) (ru_vpn r)) (chips_of (ru_methods r)).

(** Choosing another kind clears the field. *)
Definition rule_set_kind (p : people) (kind : jstr) (row : rule_row) : rule_row :=
  RuleRow (rr_action row) kind (setField p kind [] None) (rr_chips row).

Definition addAclUserRow (u : acl_user) : user_row := UserRow (text_set (us_name u)) [] true.
Definition blankUserRow : user_row := UserRow [] [] false.

Definition readAclRule (row : rule_row) : option acl_rule :=
  let methods := chips_on (rr_chips row) in
  let kind := rr_kind row in
  match rr_field row with
  | FVpn k => Some (AclRule (rr_action row) [] [] [] (Some (pick_read None k)) methods)
  | FText v | FCountry v =>
      let val := trim v in
      if truthy val then
        Some (AclRule (rr_action row)
          (if decide (kind = js "cidr") then val else []) (if decide (kind = js "host") then val else [])
          (if decide (kind = js "country") then val else []) None methods)
      else None
  end.

Definition readAclUser (row : user_row) : option acl_user :=
  let username := trim (ur_name row) in
  if truthy username then Some (AclUser username (ur_password row)) else None.

(** ** The editor *)

(** The controls, what the sites and people known now are ([wgSites] and the
    like, which the rows read), whether the country database is loaded
    ([window.__geoLoaded], [None] when that is not known), and whether its
    warning is hidden. *)
Record acl_form : Type := AclForm {
  a_name : jstr; a_satisfy : jstr; a_passauth : bool; a_rules : list rule_row; a_users : list user_row;
  a_people : people; a_geo : option bool; a_warn_hidden : bool }.

Definition set_rules (l : list rule_row) (f : acl_form) : acl_form :=
  AclForm (a_name f) (a_satisfy f) (a_passauth f) l (a_users f) (a_people f) (a_geo f) (a_warn_hidden f).
Definition set_users (l : list user_row) (f : acl_form) : acl_form :=
  AclForm (a_name f) (a_satisfy f) (a_passauth f) (a_rules f) l (a_people f) (a_geo f) (a_warn_hidden f).
Definition set_known (p : people) (geo : option bool) (f : acl_form) : acl_form :=
  AclForm (a_name f) (a_satisfy f) (a_passauth f) (a_rules f) (a_users f) p geo (a_warn_hidden f).
Definition set_head (name satisfy : jstr) (passAuth : bool) (f : acl_form) : acl_form :=
  AclForm name satisfy passAuth (a_rules f) (a_users f) (a_people f) (a_geo f) (a_warn_hidden f).

(** A country rule and no database. *)
Definition updateGeoWarn (f : acl_form) : acl_form :=
  let hasCountry := existsb (λ row, bool_decide (rr_kind row = js "country")) (a_rules f) in
  AclForm (a_name f) (a_satisfy f) (a_passauth f) (a_rules f) (a_users f) (a_people f) (a_geo f)
    (negb (hasCountry && bool_decide (a_geo f = Some false))).

(** [openAclModal] up to its waits, and after them: by then the database, the
    sites and the people are known. *)
Definition openAclModal (a : option acl) (f : acl_form) : acl_form :=
  set_users [] (set_rules [] (match a with
    | Some a => set_head (text_set (ac_name a)) (sel_set satisfy_opts (ac_satisfy a)) (ac_passAuth a) f
    | None => set_head [] (js "any") false f
    end)).
Definition openAclRows (a : option acl) (known : people * option bool) (f : acl_form) : acl_form :=
  let f := set_known known.1 known.2 f in
  let f := set_rules (a_rules f ++ match a with Some a => map (addAclRuleRow known.1) (ac_rules a) | None => [] end) f in
  updateGeoWarn (set_users (a_users f ++ match a with Some a => map addAclUserRow (ac_users a) | None => [] end) f).

(** What the user does: a menu has the values of its options. *)
Inductive rule_typing : Type :=
  | RAction (v : jstr) | RKind (v : jstr) | RValue (v : jstr) | RChip (i : nat) | RPickKind (v : jstr) | RPickProvider (v : jstr).
Inductive acl_typing : Type :=
  | AHead (name satisfy : jstr) (passAuth : bool) | AAddRule | AAddUser | ADropRule (i : nat) | ADropUser (i : nat)
  | ARule (i : nat) (u : rule_typing) | AUser (i : nat) (name password : jstr)
  | AKnown (p : people) (geo : option bool).

Definition rule_set_field (v : rule_field) (row : rule_row) : rule_row := RuleRow (rr_action row) (rr_kind row) v (rr_chips row).
Definition rule_pick (g : picker → picker) (row : rule_row) : rule_row :=
  match rr_field row with FVpn k => rule_set_field (FVpn (g k)) row | _ => row end.
Definition rule_type (p : people) (u : rule_typing) (row : rule_row) : rule_row :=
  match u with
  | RAction v => RuleRow (if decide (v ∈ actions) then v else rr_action row) (rr_kind row) (rr_field row) (rr_chips row)
  | RKind v => if decide (v ∈ rule_kinds) then rule_set_kind p v row else row
  | RValue v =>
      match rr_field row with
      | FText _ => rule_set_field (FText (text_set v)) row
      | FCountry w => rule_set_field (FCountry (if decide (v ∈ country_opts) then v else w)) row
      | FVpn k => rule_set_field (FVpn (pick_set_value v k)) row
      end
  | RChip i => RuleRow (rr_action row) (rr_kind row) (rr_field row) (alter (λ c, (c.1, negb c.2)) i (rr_chips row))
  | RPickKind v => if decide (v ∈ subject_kinds false) then rule_pick (pick_set_kind localeLeb p None v) row else row
  | RPickProvider v => if decide (v ∈ provider_opts p) then rule_pick (pick_set_prov localeLeb p None v) row else row
  end.
Definition acl_type (u : acl_typing) (f : acl_form) : acl_form :=
  match u with
  | AHead name satisfy passAuth =>
      set_head (text_set name) (if decide (satisfy ∈ satisfy_opts) then satisfy else a_satisfy f) passAuth f
  | AAddRule => updateGeoWarn (set_rules (a_rules f ++ [blankRuleRow (a_people f)]) f)
  | AAddUser => set_users (a_users f ++ [blankUserRow]) f
  | ADropRule i => updateGeoWarn (set_rules (delete i (a_rules f)) f)
  | ADropUser i => set_users (delete i (a_users f)) f
  | ARule i u =>
      let f' := set_rules (alter (rule_type (a_people f) u) i (a_rules f)) f in
      match u with RKind _ => updateGeoWarn f' | _ => f' end
  | AUser i name password => set_users (alter (λ r, UserRow (text_set name) (text_set password) (ur_unchanged r)) i (a_users f)) f
  | AKnown p geo => set_known p geo f
  end.

(** The submit handler of acl-form: the list it sends. *)
Definition acl_submit (f : acl_form) : acl :=
  Acl (trim (a_name f)) (a_satisfy f) (a_passauth f) (omap readAclRule (a_rules f)) (omap readAclUser (a_users f)).

(** ** What survives *)

(** What the editor sends of a stored rule: the verbs it has chips for, in
    their order, and of a country only what its menu has; the rule of another
    country is left out. *)
Definition methods_sent (l : list jstr) : list jstr := List.filter (λ v, bool_decide (v ∈ l)) verbs.
Definition by_country (r : acl_rule) : bool := bool_decide (ru_vpn r = None) && negb (truthy (ru_host r)) && truthy (ru_country r).
Definition rule_sent (r : acl_rule) : option acl_rule :=
  if by_country r && negb (bool_decide (ru_country r ∈ COUNTRY_CODES)) then None
  else Some (AclRule (ru_action r) (ru_cidr r) (ru_host r) (ru_country r) (ru_vpn r) (methods_sent (ru_methods r))).
Definition acl_sent (a : acl) : acl := Acl (ac_name a) (ac_satisfy a) (ac_passAuth a) (omap rule_sent (ac_rules a)) (ac_users a).

(** A rule as the server keeps it: it names one thing, an address, a host or
    a country, or somebody the page knows. *)
Definition acl_rule_ok (p : people) (r : acl_rule) : bool :=
  bool_decide (ru_action r ∈ actions)
  && match ru_vpn r with
     | Some v => bool_decide (ru_cidr r = [] ∧ ru_host r = [] ∧ ru_country r = []) && subject_ok p false None v
     | None =>
         (field (ru_host r) && bool_decide (ru_cidr r = [] ∧ ru_country r = []))
         || (negb (truthy (ru_host r)) && truthy (ru_country r) && bool_decide (ru_cidr r = []))
         || (negb (truthy (ru_host r)) && negb (truthy (ru_country r)) && field (ru_cidr r))
     end.

Definition acl_user_ok (u : acl_user) : bool := field (us_name u) && negb (truthy (us_password u)).

Definition acl_ok (p : people) (a : acl) : bool :=
  word (ac_name a) && bool_decide (ac_satisfy a ∈ satisfy_opts) && forallb (acl_rule_ok p) (ac_rules a)
  && forallb acl_user_ok (ac_users a).

Lemma country_codes_tidy : Forall (λ c, trim c = c ∧ truthy c = true) COUNTRY_CODES.
Proof. apply (bool_decide_unpack _). by_compute. Qed.

Lemma readAclRule_round p r : acl_rule_ok p r = true → readAclRule (addAclRuleRow p r) = rule_sent r.
Proof.
  unfold acl_rule_ok. intros [Ha%bool_decide_eq_true Hk]%andb_true_iff.
  destruct r as [action cidr host country vpn methods]. cbn [ru_action ru_cidr ru_host ru_country ru_vpn ru_methods] in *.
  unfold readAclRule, addAclRuleRow, rule_sent, by_country, methods_sent.
  cbn [ru_action ru_cidr ru_host ru_country ru_vpn ru_methods rr_action rr_kind rr_field rr_chips].
  rewrite chips_round, (sel_set_in actions) by done. destruct vpn as [v|].
  - apply andb_true_iff in Hk as [(-> & -> & ->)%bool_decide_eq_true Hv]. unfold setField.
    rewrite decide_True by done. rewrite (bool_decide_false (Some v = None)) by done. by rewrite pick_round.
  - rewrite (bool_decide_true (None = None)) by done.
    apply orb_true_iff in Hk as [[[Hf (-> & ->)%bool_decide_eq_true]%andb_true_iff|
      [[Hh Hc]%andb_true_iff ->%bool_decide_eq_true]%andb_true_iff]%orb_true_iff|
      [[Hh Hc]%andb_true_iff Hf]%andb_true_iff].
    + apply field_spec in Hf as (E1 & E2 & E3). rewrite E3.
      assert (str_or host (str_or [] []) = host) as -> by (by destruct host).
      unfold setField, makeTextField. rewrite !decide_False by done. by rewrite E1, E2, E3.
    + destruct host; [|done]. cbn [truthy str_or]. rewrite Hc.
      assert (str_or country [] = country) as -> by (by destruct country).
      unfold setField, makeCountrySelect. rewrite decide_False by done. rewrite decide_True by done. rewrite Hc. cbn [negb andb].
      destruct (bool_decide_reflect (country ∈ COUNTRY_CODES)) as [Hin|Hn]; cbn [negb].
      * pose proof country_codes_tidy as F. rewrite list.Forall_forall in F. destruct (F _ Hin) as [E1 E2].
        rewrite (sel_set_in country_opts) by (by right). by rewrite E1, E2.
      * unfold sel_set. rewrite decide_False; [done|]. intros [->|H]%elem_of_cons; done.
    + destruct host, country; try done. apply field_spec in Hf as (E1 & E2 & E3). cbn [truthy str_or].
      unfold setField, makeTextField. rewrite !decide_False by done. by rewrite E1, E2, E3.
Qed.
Lemma acl_rules_round p l : forallb (acl_rule_ok p) l = true → omap readAclRule (map (addAclRuleRow p) l) = omap rule_sent l.
Proof.
  induction l as [|r l IH]; [done|]. cbn. intros [Hr Hl]%andb_true_iff. rewrite readAclRule_round by done. by rewrite IH.
Qed.

Lemma readAclUser_round u : acl_user_ok u = true → readAclUser (addAclUserRow u) = Some u.
Proof.
  unfold acl_user_ok. intros [(E1 & E2 & E3)%field_spec Hp]%andb_true_iff.
  unfold readAclUser, addAclUserRow. cbn [ur_name ur_password]. rewrite E1, E2, E3.
  destruct u as [name [|c pw]]; done.
Qed.

Lemma omap_round {A B} (read : A → option B) (fill : B → A) (ok : B → bool) l :
  (∀ b, ok b = true → read (fill b) = Some b) → forallb ok l = true → omap read (map fill l) = l.
Proof.
  intros Hr. induction l as [|b l IH]; [done|]. cbn. intros [Hb Hl]%andb_true_iff.
  rewrite Hr by done. f_equal. by apply IH.
Qed.

(** ** Properties *)

Lemma acl_read_back p a f : acl_ok p a = true → a_rules f = map (addAclRuleRow p) (ac_rules a) → a_users f = map addAclUserRow (ac_users a) →
  a_name f = text_set (ac_name a) → a_satisfy f = sel_set satisfy_opts (ac_satisfy a) → a_passauth f = ac_passAuth a → acl_submit f = acl_sent a.
Proof.
  unfold acl_ok. intros [[[Hn Hs]%andb_true_iff Hr]%andb_true_iff Hu]%andb_true_iff E1 E2 E3 E4 E5.
  apply bool_decide_eq_true in Hs. unfold acl_submit. rewrite E1, E2, E3, E4, E5.
  rewrite (acl_rules_round p), (omap_round _ addAclUserRow acl_user_ok), sel_set_in by (done || apply readAclUser_round).
  by destruct (text_set_word _ Hn) as [_ ->].
Qed.

Lemma loaded_once {A} (la : list (option acl * A)) a : map fst la ≡ₚ [a] → ∃ x, la = [(a, x)].
Proof. intros H%Permutation_singleton_r. destruct la as [|[l x] [|]]; try done. injection H as ->. by exists x. Qed.

Lemma rules_country p l :
  existsb (λ row, bool_decide (rr_kind row = js "country")) (map (addAclRuleRow p) l)
  = existsb (λ r, negb (truthy (ru_host r)) && truthy (ru_country r)) (List.filter (λ r, bool_decide (ru_vpn r = None)) l).
Proof.
  induction l as [|r l IH]; [done|]. cbn [map existsb List.filter]. rewrite IH. unfold addAclRuleRow. cbn [rr_kind].
  destruct (ru_vpn r) as [v|]; [by rewrite (bool_decide_false (Some v = None))|].
  rewrite (bool_decide_true (None = None)) by done. cbn [existsb]. f_equal. by destruct (truthy (ru_host r)), (truthy (ru_country r)).
Qed.

#[export, refine] Instance acl_editor : Editor people acl acl acl_typing (option acl) (people * option bool) acl_form := {
  open_form _ := openAclModal; form_loads a := [a]; form_loaded := openAclRows; form_type := acl_type; form_read := acl_submit;
  form_ok p a := acl_ok p a = true; form_told p _ known := known.1 = p; form_late := true; form_sends := acl_sent }.
Proof.
  { intros p a f la Hok [[p' geo] ->]%loaded_once [Hp _]%list.Forall_cons. cbn in Hp. subst p'. by apply (acl_read_back p). }
  { done. }
Defined.

(** A rule the menus have all of is sent as it is. *)
Lemma rule_sent_same r : methods_sent (ru_methods r) = ru_methods r → (ru_country r = [] ∨ ru_country r ∈ COUNTRY_CODES) → rule_sent r = Some r.
Proof.
  intros Hm Hc. unfold rule_sent, by_country. rewrite Hm. assert (truthy (ru_country r) && negb (bool_decide (ru_country r ∈ COUNTRY_CODES)) = false) as E.
  { destruct Hc as [->|Hc]; [done|]. by rewrite (bool_decide_true _ Hc), andb_false_r. }
  rewrite <- !andb_assoc, E, !andb_false_r. by destruct r.
Qed.
Lemma acl_sent_same a : Forall (λ r, methods_sent (ru_methods r) = ru_methods r ∧ (ru_country r = [] ∨ ru_country r ∈ COUNTRY_CODES)) (ac_rules a) →
  acl_sent a = a.
Proof.
  intros H. unfold acl_sent. assert (omap rule_sent (ac_rules a) = ac_rules a) as ->; [|by destruct a].
  induction H as [|r l [H1 H2] _ IH]; [done|]. cbn. rewrite rule_sent_same by done. by rewrite IH.
Qed.

(** C17. Opening an access list from its table with nothing of the editor under
    way and saving it, once what its rules name has loaded, sends the list
    back to where it came from, once, and as it was: every kind of rule with
    its verbs, and the users without their passwords, which the server keeps.
    [acl_ok] asks that each rule names one thing, and a person or site the
    page knows.  Two things of a stored rule are not sent: the verbs without
    a chip (OPTIONS), the others then in the order of the chips, and a rule
    for a country the menu does not have, which is left out; a list without
    those is sent exactly as it was.  The window is shown by then, and warns
    exactly when a rule names a country and there is no database. *)
Theorem acl_edit_identity p id a s s' : acl_ok p a = true → id ≠ 0 → et_jobs s = [] →
  loading p (editor_step s (EvOpen p (Some (id, a)))) s' → et_jobs s' = [] →
  et_hidden s' = false ∧ acl_submit (et_form s') = acl_sent a
  ∧ et_sent (editor_run s' [EvSubmit; EvSubmit]) = et_sent s ++ [EPut id (acl_sent a)]
  ∧ (Forall (λ r, methods_sent (ru_methods r) = ru_methods r ∧ (ru_country r = [] ∨ ru_country r ∈ COUNTRY_CODES)) (ac_rules a) → acl_sent a = a)
  ∧ a_warn_hidden (et_form s')
    = negb (existsb (λ r, negb (truthy (ru_host r)) && truthy (ru_country r)) (List.filter (λ r, bool_decide (ru_vpn r = None)) (ac_rules a))
            && bool_decide (a_geo (et_form s') = Some false)).
Proof.
  intros Hok Hid Hs Hl Hj. destruct (unedited_save_identity (Editor0 := acl_editor) p id a s s' Hok Hid Hs Hl Hj) as (H1 & H2 & H3).
  split; [exact H1|]. split; [exact H2|]. split; [exact H3|]. split; [apply acl_sent_same|].
  destruct (loading_fold _ _ _ [Some a] Hl) as (la & [[p' geo] ->]%loaded_once & _ & E & _); [cbn; by rewrite Hs|done|].
  rewrite E. cbn. f_equal. f_equal. by rewrite rules_country.
Qed.

(** A stored rule for a country the menu does not have is lost by an
    unchanged save. *)
Lemma unlisted_country_dropped p r : acl_rule_ok p r = true → by_country r = true → ru_country r ∉ COUNTRY_CODES →
  readAclRule (addAclRuleRow p r) = None.
Proof. intros Hr Hb Hn. rewrite readAclRule_round by done. unfold rule_sent. by rewrite Hb, bool_decide_false. Qed.

(** Two openings overlap: a second list opened while the first still waits
    gets the rows of both, and saving it stores the first list's rules in the
    second one. *)
Theorem acl_openings_mix p geo id1 id2 a b f : id2 ≠ 0 →
  forallb (acl_rule_ok p) (ac_rules a) = true → forallb (acl_rule_ok p) (ac_rules b) = true →
  let s := editor_run (closed_editor f) [EvOpen p (Some (id1, a)); EvOpen p (Some (id2, b)); EvReply 0 (ELoaded (p, geo));
             EvReply 0 (ELoaded (p, geo)); EvSubmit] in
  ∃ q, et_sent s = [EPut id2 q] ∧ ac_rules q = ac_rules (acl_sent a) ++ ac_rules (acl_sent b).
Proof.
  intros Hid Ha Hb. cbn. unfold submit_editor. cbn. rewrite (proj2 (Z.eqb_neq id2 0) Hid). cbn. eexists. split; [done|].
  cbn. rewrite omap_app. by rewrite !(acl_rules_round p).
Qed.
End acl.

Definition sample_acl : acl :=
  Acl (js "office") (js "all") true
    [AclRule (js "allow") (js "192.0.2.0/24") [] [] None [js "GET"; js "HEAD"];
     AclRule (js "deny") [] [] (js "KP") None []; AclRule (js "allow") [] (js "home.example.org") [] None [];
     AclRule (js "allow") [] [] [] (Some (Subject (js "user") [] 7 (js "u-1") [])) []]
    [AclUser (js "ann") []].
Definition no_people : people := People [] [] [] [].
Definition blank_acl : acl_form := AclForm [] [] false [] [] no_people None true.
#[local] Instance sample_acl_editor : Editor _ _ _ _ _ _ _ := acl_editor (λ _ _, true).

Lemma acl_edit_identity_witness :
  let s' := editor_run (closed_editor blank_acl) [EvOpen sample_people (Some (5, sample_acl)); EvReply 0 (ELoaded (sample_people, Some false))] in
  et_hidden s' = false ∧ acl_submit (et_form s') = sample_acl
  ∧ et_sent (editor_run s' [EvSubmit; EvSubmit]) = [EPut 5 sample_acl] ∧ a_warn_hidden (et_form s') = false.
Proof.
  intros s'. destruct (acl_edit_identity (λ _ _, true) sample_people 5 sample_acl (closed_editor blank_acl) s')
    as (H1 & H2 & H3 & Hsame & H4); [by_compute|done|done| |done|].
  - apply (loading_one _ _ 0 (Some sample_acl) (sample_people, Some false)); [done|done|]. apply loading_none.
  - assert (acl_sent sample_acl = sample_acl) as E.
    { apply Hsame. repeat (apply list.Forall_cons; split; [split; [by_compute|apply (bool_decide_unpack _); by_compute]|]). done. }
    rewrite E in H2, H3. split; [exact H1|]. split; [exact H2|]. split; [exact H3|]. rewrite H4. by_compute.
Defined.

Lemma acl_openings_mix_witness :
  let b := Acl (js "guests") (js "any") false [AclRule (js "deny") (js "0.0.0.0/0") [] [] None []] [] in
  let es := [EvOpen sample_people (Some (5, sample_acl)); EvOpen sample_people (Some (6, b)); EvReply 0 (ELoaded (sample_people, None));
             EvReply 0 (ELoaded (sample_people, None)); EvSubmit] in
  ∃ q, et_sent (editor_run (closed_editor blank_acl) es) = [EPut 6 q] ∧ ac_rules q = ac_rules sample_acl ++ ac_rules b.
Proof.
  intros b es. apply (acl_openings_mix (λ _ _, true) sample_people None 5 6 sample_acl b); [done|by_compute..].
Defined.
