(* ===== verification/Streams.v ===== *)
(** * Streams (web/app.js, stream editor)

    Port forwards: the editor's fields, the SNI routes written as lines of
    text, the fields shown for some choices only, and the life of the editor:
    opened, typed in, submitted, closed and answered.  A save that the server
    accepts but cannot run keeps the editor open on the stored stream. *)

From Stdlib Require Import Ascii String ZArith NArith Lia.
From stdpp Require Import base list strings numbers.
From S2P Require Import Prelude JsString Regex Fields Subjects HostForm.

Local Open Scope Z_scope.

(** ** SNI routes *)

Record sni_route : Type := SniRoute { sn_host : jstr; sn_forward : jstr; sn_port : option Z }.

Definition sni_text (r : sni_route) : jstr :=
  sn_host r ++ js " = " ++ sn_forward r ++ js ":" ++ port_text (sn_port r).

Definition re_sni : re :=
  rseq [RBol; RGrp 1 (rplus cls_S); rstar cls_s; RCls (cls_of "="); rstar cls_s; RGrp 2 (rplus cls_S);
        RCls (cls_of ":"); RGrp 3 (rplus cls_d); REol].

Definition parse_sni (line : jstr) : option sni_route :=
  match re_exec re_sni line with
  | Some m => Some (SniRoute (cap 1 (r_caps m)) (cap 2 (r_caps m)) (parse_int (cap 3 (r_caps m))))
  | None => None
  end.

(** ** A stream, and its editor *)

Record stream : Type := Stream {
  st_listenPort : option Z; st_listenPortEnd : Z; st_protocol : jstr; st_forwardHost : jstr; st_forwardPort : Z;
  st_via : Z; st_allowedCidrs : list jstr; st_accessListId : option Z; st_sendProxyProtocol : jstr;
  st_acceptProxyProtocol : bool; st_trustedProxies : list jstr; st_terminateTls : bool; st_certId : option Z;
  st_sniRoutes : list sni_route; st_enabled : bool }.

Record stream_form : Type := StreamForm {
  s_port : jstr; s_port_end : jstr; s_proto : jstr; s_fhost : jstr; s_fport : jstr; s_via : jstr; s_cidrs : jstr;
  s_source : jstr; s_sendproxy : jstr; s_acceptproxy : bool; s_trusted : jstr; s_terminatetls : bool;
  s_certid : jstr; s_sni : jstr; s_enabled : bool }.

Definition stream_protos : list jstr := map js ["tcp"; "udp"; "both"].
Definition proxy_versions : list jstr := [[]; js "v1"; js "v2"].

(** [openStreamModal]. *)
Definition open_stream (e : env) (s : option stream) : stream_form :=
  {| s_port := match s with Some s => number_set (port_text (st_listenPort s)) | None => [] end;
     s_port_end := match s with Some s => number_of (st_listenPortEnd s) | None => [] end;
     s_proto := match s with Some s => sel_set stream_protos (st_protocol s) | None => js "tcp" end;
     s_fhost := match s with Some s => text_set (st_forwardHost s) | None => [] end;
     s_fport := match s with Some s => number_set (js_of_Z (st_forwardPort s)) | None => [] end;
     s_via := (fillViaSelect (tables e) (match s with Some s => st_via s | None => 0 end)).1;
     s_cidrs := match s with Some s => area_set (join [10%N] (st_allowedCidrs s)) | None => [] end;
     s_source := id_value ([] :: id_opts (accessLists e)) (s ≫= st_accessListId);
     s_sendproxy := sel_set proxy_versions (match s with Some s => st_sendProxyProtocol s | None => [] end);
     s_acceptproxy := match s with Some s => st_acceptProxyProtocol s | None => false end;
     s_trusted := match s with Some s => area_set (join [10%N] (st_trustedProxies s)) | None => [] end;
     s_terminatetls := match s with Some s => st_terminateTls s | None => false end;
     s_certid := id_value (id_opts (customCerts e)) (s ≫= st_certId);
     s_sni := match s with Some s => area_set (join [10%N] (map sni_text (st_sniRoutes s))) | None => [] end;
     s_enabled := match s with Some s => st_enabled s | None => true end |}.

(** What the submit handler sends. *)
Definition stream_submit (f : stream_form) : stream :=
  let int_of s := int_or (parse_int s) 0 in
  {| st_listenPort := parse_int (s_port f);
     st_listenPortEnd := int_of (s_port_end f);
     st_protocol := s_proto f;
     st_forwardHost := trim (s_fhost f);
     st_forwardPort := int_of (s_fport f);
     st_via := int_of (s_via f);
     st_allowedCidrs := if truthy (s_source f) then [] else lines_of (s_cidrs f);
     st_accessListId := id_read (s_source f);
     st_sendProxyProtocol := s_sendproxy f;
     st_acceptProxyProtocol := s_acceptproxy f;
     st_trustedProxies := if s_acceptproxy f then lines_of (s_trusted f) else [];
     st_terminateTls := s_terminatetls f;
     st_certId := if s_terminatetls f then id_read (s_certid f) else None;
     st_sniRoutes := omap parse_sni (lines_of (s_sni f));
     st_enabled := s_enabled f |}.

(** ** The life of the editor *)

(** The request of a save: where it goes. *)
Inductive request : Type := Post | Put (id : Z).

Record stream_ui : Type := StreamUi {
  editingStreamId : option Z; sform : stream_form; stream_hidden : bool; stream_error : option jstr }.

(** [if (editingStreamId)]: an id of zero is falsy. *)
Definition stream_request (u : stream_ui) : request * stream :=
  (match editingStreamId u with Some id => if id =? 0 then Post else Put id | None => Post end, stream_submit (sform u)).

Definition open_stream_ui (e : env) (s : option (Z * stream)) (u : stream_ui) : stream_ui :=
  StreamUi (fst <$> s) (open_stream e (snd <$> s)) false None.

(** The reply to a save: the stored stream's id and its failed listeners, or
    the error. *)
Record saved : Type := Saved { sv_id : Z; sv_failed : list (jstr * jstr) }.
Definition failed_text (l : list (jstr * jstr)) : jstr :=
  js "Saved, but not running: " ++ join (js "; ") (map (λ x, x.1 ++ js ": " ++ x.2) l).
Definition stream_reply (r : saved + jstr) (u : stream_ui) : stream_ui :=
  match r with
  | inl s =>
      match sv_failed s with
      | [] => StreamUi (Some (sv_id s)) (sform u) true (stream_error u)
      | l => StreamUi (Some (sv_id s)) (sform u) (stream_hidden u) (Some (failed_text l))
      end
  | inr err => StreamUi (editingStreamId u) (sform u) (stream_hidden u) (Some err)
  end.
(** Sending a save clears the message; [setError(id, null)]. *)
Definition stream_send (u : stream_ui) : stream_ui := StreamUi (editingStreamId u) (sform u) (stream_hidden u) None.
Definition stream_close (u : stream_ui) : stream_ui := StreamUi (editingStreamId u) (sform u) true (stream_error u).

(** The fields that are shown for some choices only, each hidden or not. *)
Record stream_blocks : Type := StreamBlocks { sb_cidrs : bool; sb_trusted : bool; sb_cert : bool }.
Definition open_blocks (f : stream_form) (s : option stream) : stream_blocks :=
  StreamBlocks (truthy (s_source f)) (negb (s_acceptproxy f)) (negb (match s with Some s => st_terminateTls s | None => false end)).
(** The listeners of the controls that changed. *)
Definition edit_blocks (f g : stream_form) (b : stream_blocks) : stream_blocks :=
  StreamBlocks (if bool_decide (s_source f = s_source g) then sb_cidrs b else truthy (s_source g))
    (if bool_decide (s_acceptproxy f = s_acceptproxy g) then sb_trusted b else negb (s_acceptproxy g))
    (if bool_decide (s_terminatetls f = s_terminatetls g) then sb_cert b else negb (s_terminatetls g)).

(** The editor with the save in flight, at most one (Saving), and the saves
    that were answered. *)
Record stream_editor : Type := StreamEditor {
  sd_ui : stream_ui; sd_blocks : stream_blocks; sd_saving : option (request * stream); sd_log : list (request * stream * (saved + jstr)) }.
Inductive stream_event : Type :=
  | StOpen (e : env) (s : option (Z * stream)) | StType (g : stream_form) | StSubmit | StClose | StReply (r : saved + jstr).
Definition stream_step (d : stream_editor) (e : stream_event) : stream_editor :=
  let u := sd_ui d in
  match e with
  | StOpen e s =>
      let u := open_stream_ui e s u in StreamEditor u (open_blocks (sform u) (snd <$> s)) (sd_saving d) (sd_log d)
  | StType g =>
      if stream_hidden u then d
      else StreamEditor (StreamUi (editingStreamId u) g (stream_hidden u) (stream_error u)) (edit_blocks (sform u) g (sd_blocks d))
             (sd_saving d) (sd_log d)
  | StSubmit =>
      match sd_saving d with
      | None => if stream_hidden u then d else StreamEditor (stream_send u) (sd_blocks d) (Some (stream_request u)) (sd_log d)
      | Some _ => d
      end
  | StClose => StreamEditor (stream_close u) (sd_blocks d) (sd_saving d) (sd_log d)
  | StReply r =>
      match sd_saving d with
      | Some q => StreamEditor (stream_reply r u) (sd_blocks d) None (sd_log d ++ [(q, r)])
      | None => d
      end
  end.
Definition stream_run (d : stream_editor) (es : list stream_event) : stream_editor := fold_left stream_step es d.

Example parse_sni_ex :
  parse_sni (js "mail.example=2001:db8::1:993") = Some (SniRoute (js "mail.example") (js "2001:db8::1") (Some 993)).
Proof. by_compute. Qed.

(** ** SNI lines *)

Lemma app_last_inj (sep : N) a b d d' :
  (sep ∉ d) → (sep ∉ d') → a ++ sep :: d = b ++ sep :: d' → a = b ∧ d = d'.
Proof.
  intros Hd Hd' H. apply (f_equal (@rev N)) in H. rewrite !rev_app_distr in H. cbn in H. rewrite <- !app_assoc in H.
  cbn in H. assert (∀ x y, sep ∉ x → split_ch sep (rev x ++ sep :: y) = rev x :: split_ch sep y) as Hs.
  { intros x y Hx. rewrite split_ch_app; [cbn; by rewrite N.eqb_refl, app_nil_r|].
    intros Hin%list_elem_of_In%in_rev%list_elem_of_In. done. }
  pose proof (f_equal (split_ch sep) H) as E. rewrite !Hs in E by done. injection E as E _.
  rewrite E in H. apply app_inv_head in H. injection H as H.
  apply (f_equal (@rev N)) in E, H. rewrite !rev_involutive in E, H. done.
Qed.

Definition nonspace (s : jstr) : Prop := Forall (λ c, is_space c = false) s.

Lemma nonspace_S s : Forall (λ c, cls_S c = true) s ↔ nonspace s.
Proof.
  unfold nonspace, cls_S, cls_not. rewrite !list.Forall_forall. split; intros H c Hc; specialize (H c Hc);
    [by apply negb_true_iff|by rewrite H].
Qed.

Definition sni_parts (h f d : jstr) : Prop :=
  h ≠ [] ∧ nonspace h ∧ (ch "=" ∉ h) ∧ f ≠ [] ∧ nonspace f ∧ d ≠ [] ∧ Forall (λ c, is_digit c = true) d.

Lemma run_split (p : N → bool) a b x y :
  Forall (λ c, p c = true) a → Forall (λ c, p c = true) b →
  match x with [] => True | c :: _ => p c = false end → match y with [] => True | c :: _ => p c = false end →
  a ++ x = b ++ y → a = b ∧ x = y.
Proof.
  intros Ha Hb Hx Hy H. pose proof (f_equal (take_while p) H) as E1. pose proof (f_equal (drop_while p) H) as E2.
  rewrite !take_while_app in E1 by done. rewrite !drop_while_app in E2 by done.
  rewrite (drop_while_stop p x), (drop_while_stop p y) in E2 by done. split; [|done].
  assert (∀ z, match z with [] => True | c :: _ => p c = false end → take_while p z = []) as Hz.
  { intros [|c z] Hc; [done|]. cbn. by rewrite Hc. }
  by rewrite (Hz x), (Hz y), !app_nil_r in E1.
Qed.

Lemma sni_unique h f d h' sp1 sp2 f' d' :
  sni_parts h f d → h' ≠ [] → nonspace h' → Forall (λ c, is_space c = true) sp1 → Forall (λ c, is_space c = true) sp2 →
  f' ≠ [] → nonspace f' → Forall (λ c, is_digit c = true) d' →
  h ++ js " = " ++ f ++ js ":" ++ d = h' ++ sp1 ++ [ch "="] ++ sp2 ++ f' ++ [ch ":"] ++ d' →
  h' = h ∧ f' = f ∧ d' = d.
Proof.
  intros (Hne & Hh & Heq & Hfne & Hf & Hdne & Hd) Hne' Hh' Hs1 Hs2 Hfne' Hf' Hd' H.
  assert (∀ s, nonspace s → Forall (λ c, negb (is_space c) = true) s) as Hn.
  { intros s. apply Forall_impl. intros c Hc. by rewrite Hc. }
  assert (∀ s, Forall (λ c, is_digit c = true) s → ch ":" ∉ s) as Hcol.
  { intros s Hs Hin. rewrite list.Forall_forall in Hs. apply Hs in Hin. by vm_compute in Hin. }
  destruct sp1 as [|c sp1].
  - exfalso. cbn [app] in H. change (h' ++ ch "=" :: sp2 ++ f' ++ ch ":" :: d') with (h' ++ [ch "="] ++ (sp2 ++ f' ++ ch ":" :: d')) in H.
    rewrite (app_assoc h') in H. pose proof (f_equal (take_while (λ c, negb (is_space c))) H) as E.
    rewrite (take_while_app _ h) in E by (by apply Hn). change (js " = " ++ f ++ js ":" ++ d) with (32%N :: js "= " ++ f ++ js ":" ++ d) in E.
    cbn [take_while] in E. change (negb (is_space 32)) with false in E. rewrite app_nil_r in E.
    rewrite take_while_app in E.
    + apply Heq. rewrite E. apply elem_of_app. left. apply elem_of_app. right. by left.
    + apply list.Forall_app. split; [by apply Hn|]. repeat constructor.
  - change (js " = " ++ f ++ js ":" ++ d) with (32%N :: js "= " ++ f ++ js ":" ++ d) in H.
    inv Hs1. apply (run_split (λ c, negb (is_space c))) in H as [-> H]; [|by apply Hn|by apply Hn|done|].
    2: { cbn. by match goal with H : is_space c = true |- _ => rewrite H end. }
    apply (run_split is_space [32%N] (c :: sp1)) in H as [_ H]; [|by repeat constructor|by constructor|done|done].
    change (js "= " ++ f ++ js ":" ++ d) with (ch "=" :: [32%N] ++ (f ++ ch ":" :: d)) in H. cbn [app] in H.
    injection H as H. change (32%N :: f ++ ch ":" :: d) with ([32%N] ++ (f ++ ch ":" :: d)) in H.
    apply (run_split is_space) in H as [_ H]; [|by repeat constructor|done| |].
    + apply app_last_inj in H as [-> ->]; [done|by apply Hcol|by apply Hcol].
    + destruct f as [|x f]; [done|]. by inv Hf.
    + destruct f' as [|x f']; [done|]. by inv Hf'.
Qed.

Lemma parse_sni_text h f d :
  sni_parts h f d → parse_sni (h ++ js " = " ++ f ++ js ":" ++ d) = Some (SniRoute h f (parse_int d)).
Proof.
  intros Hok. pose proof Hok as (Hne & Hh & Heq & Hfne & Hf & Hdne & Hd). unfold parse_sni.
  remember (h ++ js " = " ++ f ++ js ":" ++ d) as s eqn:Es.
  assert (re_exec re_sni s ≠ None) as Hfound.
  { unfold re_exec. rewrite <- (app_nil_r s).
    apply (rfind_complete re_sni true [] s [] [(3%nat, d); (2%nat, f); (1%nat, h)]). subst s.
    assert (∀ x : jstr, x ≠ [] → (1 <= length x)%nat) as Hlen by (intros [|c x] ?; [done|cbn; lia]).
    unfold re_sni. cbn [rseq negb truthy andb]. rewrite <- (app_nil_l (h ++ _)).
    econstructor; [constructor|]. cbn [negb truthy andb].
    econstructor; [constructor; constructor; [by apply nonspace_S|by apply Hlen|done]|].
    change (js " = " ++ f ++ js ":" ++ d) with ([32%N] ++ [ch "="] ++ [32%N] ++ f ++ [ch ":"] ++ d).
    econstructor; [constructor; [by repeat constructor|cbn; lia|done]|].
    econstructor; [by constructor|].
    econstructor; [constructor; [by repeat constructor|cbn; lia|done]|].
    econstructor; [constructor; constructor; [by apply nonspace_S|by apply Hlen|done]|].
    econstructor; [by constructor|].
    match goal with |- rmatch _ ?b ?cs _ _ ?cs' =>
      assert (rmatch (RSeq (RGrp 3 (rplus cls_d)) REol) b cs (d ++ []) [] cs') as H end.
    { econstructor; [|constructor]. constructor. constructor; [done|by apply Hlen|done]. }
    by rewrite app_nil_r in H. }
  destruct (re_exec re_sni s) as [m|] eqn:E; [|done].
  apply re_exec_sound in E as [Hs Hm]. unfold re_sni in Hm. rm_inv. destruct (r_pre m); [|done].
  repeat match goal with H : cls_of _ ?c = true |- _ => apply cls_of_1 in H as -> end.
  match goal with H : _ = r_hit m |- _ => rewrite <- H in Hs end.
  rewrite !app_nil_r in Hs. cbn [app] in Hs.
  match goal with H : [] = r_post m |- _ => rewrite <- H, app_nil_r in Hs end.
  match type of Hs with _ = ?h' ++ ?sp1 ++ _ :: ?sp2 ++ ?f' ++ _ :: ?d' =>
    assert (h' ≠ [] ∧ f' ≠ []) as [Hh' Hf'] by (split; intros ->; cbn in *; lia);
    destruct (sni_unique h f d h' sp1 sp2 f' d' Hok) as (-> & -> & ->) end; try done; by apply nonspace_S.
Qed.

(** A route the editor writes as a line it reads back. *)
Definition sni_ok (r : sni_route) : bool :=
  truthy (sn_host r) && forallb (λ c, negb (is_space c) && negb (N.eqb c (ch "="))) (sn_host r)
  && truthy (sn_forward r) && forallb (λ c, negb (is_space c)) (sn_forward r)
  && match sn_port r with Some p => 0 <=? p | None => false end.

Lemma sni_ok_parts r : sni_ok r = true →
  ∃ p, sn_port r = Some p ∧ 0 <= p ∧ sni_parts (sn_host r) (sn_forward r) (js_of_Z p).
Proof.
  unfold sni_ok. intros [[[[H1 H2]%andb_true_iff H3]%andb_true_iff H4]%andb_true_iff H5]%andb_true_iff.
  destruct (sn_port r) as [p|]; [|done]. apply Z.leb_le in H5. exists p. split; [done|]. split; [done|].
  assert (∀ c, c ∈ sn_host r → is_space c = false ∧ c ≠ ch "=") as Hh.
  { intros c Hc%list_elem_of_In. apply (proj1 (forallb_forall _ _) H2) in Hc. apply andb_true_iff in Hc as [Ha Hb].
    apply negb_true_iff in Ha, Hb. by apply N.eqb_neq in Hb. }
  split_and!.
  - by destruct (sn_host r).
  - apply list.Forall_forall. intros c Hc. by apply Hh.
  - intros Hc. by destruct (Hh _ Hc).
  - by destruct (sn_forward r).
  - apply list.Forall_forall. intros c Hc%list_elem_of_In. apply (proj1 (forallb_forall _ _) H4) in Hc.
    by apply negb_true_iff in Hc.
  - apply js_of_Z_ne.
  - by apply js_of_Z_nonneg.
Qed.

Lemma sni_text_spec r : sni_ok r = true →
  parse_sni (sni_text r) = Some r ∧ tidy (sni_text r) = true ∧ one_line (sni_text r) = true.
Proof.
  intros Hok. apply sni_ok_parts in Hok as (p & Hp & Hp0 & Hpt). unfold sni_text. rewrite Hp. cbn [port_text].
  pose proof Hpt as (Hne & Hh & _ & Hfne & Hf & Hdne & Hd). split; [|split].
  - rewrite parse_sni_text, parse_int_js_of_Z, <- Hp by done. by destruct r.
  - assert (∀ s, s ≠ [] → nonspace s → tidy s = true) as Ht.
    { intros s Hs Hn. unfold tidy. destruct s as [|c s]; [done|]. inv Hn.
      match goal with H : is_space c = false |- _ => rewrite H end. cbn [negb andb].
      destruct (rev (c :: s)) as [|x r'] eqn:Er; [by apply (f_equal length) in Er; rewrite length_rev in Er|].
      assert (x ∈ c :: s) as Hx by (apply list_elem_of_In, in_rev; rewrite Er; by left).
      assert (Forall (λ c, is_space c = false) (c :: s)) as F by (by constructor).
      rewrite list.Forall_forall in F. by rewrite (F x Hx). }
    assert (∀ a b c, tidy a = true → tidy c = true → tidy (a ++ b ++ c) = true) as Htt.
    { clear. intros a b c. unfold tidy. destruct a as [|x a]; [done|]. cbn [app]. intros [H1 _]%andb_true_iff H2.
      rewrite H1. cbn [andb]. destruct c as [|y c]; [done|]. apply andb_true_iff in H2 as [_ H2].
      rewrite app_comm_cons, !rev_app_distr. destruct (rev (y :: c)); done. }
    apply Htt; [by apply Ht|]. apply Htt; [by apply Ht|].
    apply Ht; [done|]. apply (list.Forall_impl _ _ _ Hd). intros c. apply is_digit_not_space.
  - unfold one_line. rewrite !forallb_app. assert (∀ s, nonspace s → forallb (λ c, negb (N.eqb c 10 || N.eqb c 13)) s = true) as Hn.
    { intros s Hs. apply forallb_forall. intros c Hc%list_elem_of_In. unfold nonspace in Hs. rewrite list.Forall_forall in Hs.
      specialize (Hs c Hc). destruct (N.eqb_spec c 10) as [->|]; [done|]. by destruct (N.eqb_spec c 13) as [->|]. }
    rewrite (Hn _ Hh), (Hn _ Hf), (Hn (js_of_Z p)); [by_compute|].
    apply (list.Forall_impl _ _ _ Hd). intros c. apply is_digit_not_space.
Qed.

(** ** The streams the editor can show *)

(** What the editor sends of a stored stream: the sources written in place
    only when no access list is named, the certificate only when TLS ends
    here, the trusted proxies only when PROXY headers are accepted.  The
    server takes the others too, and uses none of them. *)
Definition stream_sent (s : stream) : stream :=
  Stream (st_listenPort s) (st_listenPortEnd s) (st_protocol s) (st_forwardHost s) (st_forwardPort s) (st_via s)
    (match st_accessListId s with Some _ => [] | None => st_allowedCidrs s end) (st_accessListId s) (st_sendProxyProtocol s)
    (st_acceptProxyProtocol s) (if st_acceptProxyProtocol s then st_trustedProxies s else []) (st_terminateTls s)
    (if st_terminateTls s then st_certId s else None) (st_sniRoutes s) (st_enabled s).

(** The texts are as the server keeps them, trimmed and on one line each, and
    what the stream refers to has been loaded. *)
Record stream_ok (e : env) (s : stream) : Prop := {
  sk_port : ∃ p, st_listenPort s = Some p;
  sk_proto : st_protocol s ∈ stream_protos;
  sk_fhost : word (st_forwardHost s) = true;
  sk_via : st_via s ∈ via_ids e;
  sk_cidrs : forallb (λ d, tidy d && one_line d) (st_allowedCidrs s) = true;
  sk_source : id_ok (accessLists e) (st_accessListId s) = true;
  sk_sendproxy : st_sendProxyProtocol s ∈ proxy_versions;
  sk_trusted : st_acceptProxyProtocol s = true → forallb (λ d, tidy d && one_line d) (st_trustedProxies s) = true;
  sk_cert : st_terminateTls s = true → id_ok (customCerts e) (st_certId s) = true;
  sk_sni : forallb sni_ok (st_sniRoutes s) = true }.

Lemma sni_lines_round l : forallb sni_ok l = true →
  omap parse_sni (lines_of (area_set (join [10%N] (map sni_text l)))) = l.
Proof.
  intros H. assert (Forall (λ r, sni_ok r = true) l) as F.
  { apply list.Forall_forall. intros r Hr%list_elem_of_In. by apply (proj1 (forallb_forall _ _) H). }
  rewrite domains_round.
  - rewrite omap_map. transitivity (map id l); [|apply map_id]. apply omap_Some.
    apply (list.Forall_impl _ _ _ F). intros r Hr. by apply sni_text_spec.
  - apply forallb_forall. intros x (r & <- & Hr)%in_map_iff. apply (proj1 (forallb_forall _ _) H) in Hr.
    by destruct (sni_text_spec r Hr) as (_ & -> & ->).
Qed.

Lemma via_value_round e via : via ∈ via_ids e → int_or (parse_int (fillViaSelect (tables e) via).1) 0 = via.
Proof.
  intros Hv. assert (js_of_Z via ∈ via_opts (tables e)) as Hin.
  { unfold via_ids in Hv. unfold via_opts. apply elem_of_cons in Hv as [->|Hv]; [by left|right].
    apply list_elem_of_fmap in Hv as (s & -> & Hs). apply list_elem_of_fmap. eauto. }
  unfold fillViaSelect. rewrite sel_set_in by done. cbn [fst]. rewrite decide_True, parse_int_js_of_Z by done.
  by destruct via.
Qed.

(** ** Properties *)

Lemma stream_round e s : stream_ok e s → stream_submit (open_stream e (Some s)) = stream_sent s.
Proof.
  intros [(port & Hport) Hproto Hfh Hvia Hc Hsrc Hsp Htr Hcert Hsni].
  unfold stream_submit, open_stream. cbn [s_port s_port_end s_proto s_fhost s_fport s_via s_cidrs s_source
    s_sendproxy s_acceptproxy s_trusted s_terminatetls s_certid s_sni s_enabled mbind option_bind].
  rewrite Hport. cbn [port_text]. rewrite !number_set_int, !parse_int_js_of_Z, <- Hport.
  rewrite int_round, text_round, via_value_round, sni_lines_round by done.
  rewrite (sel_set_in stream_protos), (sel_set_in proxy_versions) by done.
  rewrite (id_round ([] :: id_opts (accessLists e)) (accessLists e)) by
    (done || (intros; right; by apply elem_of_id_opts)).
  assert (int_or (Some (st_forwardPort s)) 0 = st_forwardPort s) as -> by (by destruct (st_forwardPort s)).
  assert ((if truthy (id_value ([] :: id_opts (accessLists e)) (st_accessListId s)) then []
    else lines_of (area_set (join [10%N] (st_allowedCidrs s)))) = match st_accessListId s with Some _ => [] | None => st_allowedCidrs s end) as ->.
  { rewrite domains_round by done. unfold id_ok in Hsrc. destruct (st_accessListId s) as [n|]; cbn [id_value].
    - apply andb_true_iff in Hsrc as [Hz%negb_true_iff Hn%bool_decide_eq_true]. rewrite Hz, sel_set_in by (right; by apply elem_of_id_opts).
      by rewrite truthy_id.
    - unfold sel_set. by destruct (decide _). }
  assert ((if st_acceptProxyProtocol s then lines_of (area_set (join [10%N] (st_trustedProxies s))) else [])
    = if st_acceptProxyProtocol s then st_trustedProxies s else []) as ->.
  { destruct (st_acceptProxyProtocol s); [by apply domains_round, Htr|done]. }
  assert ((if st_terminateTls s then id_read (id_value (id_opts (customCerts e)) (st_certId s)) else None)
    = if st_terminateTls s then st_certId s else None) as ->.
  { destruct (st_terminateTls s); [|done]. apply (id_round (id_opts (customCerts e)) (customCerts e)); [|by apply Hcert].
    intros. by apply elem_of_id_opts. }
  by destruct s.
Qed.

Lemma sent_twice s : stream_sent (stream_sent s) = stream_sent s.
Proof. destruct s as [? ? ? ? ? ? ? [] ? [] ? [] ? ? ?]; done. Qed.
Lemma sent_ok e s : stream_ok e s → stream_ok e (stream_sent s).
Proof.
  intros []. constructor; try done; unfold stream_sent; cbn [st_allowedCidrs st_trustedProxies st_certId st_acceptProxyProtocol st_terminateTls].
  - by destruct (st_accessListId s).
  - intros Ha. rewrite Ha. by apply sk_trusted0.
  - intros Ht. rewrite Ht. by apply sk_cert0.
Qed.

(** C16. Opening a stream the editor can show ([stream_ok]: its texts trimmed
    and on one line each, the names of its SNI routes without spaces and
    '=', and the access list, certificate and site it names loaded) and
    saving it sends it back as it was: ports, ranges, sources, PROXY
    protocol, certificate, and the SNI routes, which are written as lines and
    parsed again, IPv6 backends included.  The only fields sent otherwise are
    those it has and does not use: sources beside an access list, a
    certificate without TLS termination, trusted proxies without PROXY
    headers ([stream_sent]); a stream that has none of them is sent exactly
    as it was, and so is what was sent once. *)
Theorem stream_edit_identity e s : stream_ok e s →
  stream_submit (open_stream e (Some s)) = stream_sent s
  ∧ ((st_accessListId s = None ∨ st_allowedCidrs s = []) → (st_terminateTls s = true ∨ st_certId s = None) →
     (st_acceptProxyProtocol s = true ∨ st_trustedProxies s = []) → stream_sent s = s)
  ∧ stream_submit (open_stream e (Some (stream_sent s))) = stream_sent s.
Proof.
  intros H. split; [by apply stream_round|]. split.
  - intros Ha Hc Ht. destruct s as [? ? ? ? ? ? cidrs acl ? accept trusted tls cert ? ?]. unfold stream_sent. cbn in *.
    f_equal; [by destruct acl; [destruct Ha|]|by destruct accept; [|destruct Ht]|by destruct tls; [|destruct Hc]].
  - rewrite stream_round; [apply sent_twice|by apply sent_ok].
Qed.

(** ** Saving a stream *)

Definition stream_typed (e : stream_event) : Prop := match e with StOpen _ _ => False | _ => True end.
(** What the server answers: a stored stream has a number, and keeps it. *)
Definition stream_answered (x : request * stream * (saved + jstr)) : Prop :=
  match x with ((Put id, _), inl s) => sv_id s = id | ((Post, _), inl s) => sv_id s ≠ 0 | (_, inr _) => True end.
Definition created (x : request * stream * (saved + jstr)) : bool :=
  match x with ((Post, _), inl _) => true | _ => false end.
Definition goes_to (id : option Z) (q : request * stream) : Prop := q.1 = match id with Some id => Put id | None => Post end.

(** A session of the editor that was opened on [id0]: where the next save
    goes, and what was created so far. *)
Record session_ok (id0 : option Z) (d : stream_editor) : Prop := {
  so_nonzero : editingStreamId (sd_ui d) ≠ Some 0;
  so_saving : match sd_saving d with Some q => goes_to (editingStreamId (sd_ui d)) q | None => True end;
  so_same : is_Some id0 → editingStreamId (sd_ui d) = id0 ∧ List.filter created (sd_log d) = [];
  so_new : editingStreamId (sd_ui d) = None → List.filter created (sd_log d) = [];
  so_once : (length (List.filter created (sd_log d)) ≤ 1)%nat;
  so_made : ∀ q r, (q, inl r) ∈ sd_log d → q.1 = Post → editingStreamId (sd_ui d) = Some (sv_id r);
  so_blocks : sd_blocks d = StreamBlocks (truthy (s_source (sform (sd_ui d)))) (negb (s_acceptproxy (sform (sd_ui d))))
                (negb (s_terminatetls (sform (sd_ui d)))) }.

Lemma edit_blocks_follow f g : edit_blocks f g (StreamBlocks (truthy (s_source f)) (negb (s_acceptproxy f)) (negb (s_terminatetls f)))
  = StreamBlocks (truthy (s_source g)) (negb (s_acceptproxy g)) (negb (s_terminatetls g)).
Proof. unfold edit_blocks. cbn. f_equal; case_bool_decide; congruence. Qed.

Lemma reply_fields r u : sform (stream_reply r u) = sform u
  ∧ editingStreamId (stream_reply r u) = match r with inl s => Some (sv_id s) | inr _ => editingStreamId u end.
Proof. destruct r as [s|m]; cbn; [by destruct (sv_failed s)|done]. Qed.

Lemma request_goes_to u : editingStreamId u ≠ Some 0 → goes_to (editingStreamId u) (stream_request u).
Proof. unfold goes_to, stream_request. destruct (editingStreamId u) as [id|]; [|done]. intros H. cbn. destruct (Z.eqb_spec id 0); congruence. Qed.

(** An answer: what it stores is where the next save goes. *)
Lemma reply_session id0 d q r : sd_saving d = Some q → session_ok id0 d → stream_answered (q, r) → session_ok id0 (stream_step d (StReply r)).
Proof.
  intros Eq [H1 H2 H3 H4 H5 H6 H7] Ha. cbn. rewrite Eq in *. destruct (reply_fields r (sd_ui d)) as [Ef Ei]. destruct q as [a b].
  unfold goes_to in H2. cbn in H2. subst a.
  constructor; cbn [sd_ui sd_saving sd_log sd_blocks]; rewrite ?Ef, ?Ei, ?List.filter_app, ?length_app; try done.
  - destruct r as [s|m]; [|done]. destruct (editingStreamId (sd_ui d)); cbn in Ha; congruence.
  - intros Hs. destruct (H3 Hs) as [E1 E2]. rewrite E1, E2 in *. destruct id0 as [id|]; [|by destruct Hs]. destruct r as [s|m]; cbn in *; [|done].
    by subst.
  - destruct r as [s|m]; [done|]. intros E. rewrite (H4 E), E. done.
  - destruct (editingStreamId (sd_ui d)) as [id|] eqn:E; cbn [List.filter created]; [cbn; lia|]. rewrite H4 by done. destruct r; cbn; lia.
  - intros q s [Hx|[= -> <-]%list_elem_of_singleton]%elem_of_app; [|done]. intros Hq. pose proof (H6 _ _ Hx Hq) as E.
    destruct r as [s'|m]; [|done]. rewrite E in Ha. cbn in Ha. congruence.
Qed.

Lemma step_session id0 d e : stream_typed e → session_ok id0 d → Forall stream_answered (sd_log (stream_step d e)) →
  session_ok id0 (stream_step d e).
Proof.
  intros Ht H Ha. destruct e as [? ?|g| | |r]; [done|..].
  - cbn. destruct (stream_hidden (sd_ui d)); [done|]. destruct H as [H1 H2 H3 H4 H5 H6 H7]. constructor; try done.
    cbn [sd_blocks sd_ui sform]. rewrite H7. apply edit_blocks_follow.
  - cbn. destruct (sd_saving d) eqn:Es; [done|]. destruct (stream_hidden (sd_ui d)); [done|].
    destruct H as [H1 H2 H3 H4 H5 H6 H7]. constructor; try done. exact (request_goes_to _ H1).
  - by destruct H.
  - destruct (sd_saving d) as [q|] eqn:Eq; [|cbn; by rewrite Eq]. apply (reply_session id0 d q r Eq H).
    cbn in Ha. rewrite Eq in Ha. by apply list.Forall_app in Ha as [_ [Ha _]%list.Forall_cons].
Qed.

Lemma step_log d e : ∃ l, sd_log (stream_step d e) = sd_log d ++ l.
Proof. destruct e; cbn; repeat case_match; cbn; first [by exists []; rewrite app_nil_r|by eexists]. Qed.

Lemma run_session id0 d es : Forall stream_typed es → session_ok id0 d → Forall stream_answered (sd_log (stream_run d es)) →
  session_ok id0 (stream_run d es).
Proof.
  intros Ht H. induction es as [|e es IH] using rev_ind; [done|]. apply list.Forall_app in Ht as [Ht [He _]%list.Forall_cons].
  unfold stream_run in *. rewrite fold_left_app. cbn [fold_left]. intros Ha. apply step_session; [done| |done]. apply IH; [done|].
  destruct (step_log (fold_left stream_step es d) e) as [l E]. rewrite E in Ha. by apply list.Forall_app in Ha as [Ha _].
Qed.

(** C32. One session of the stream editor, whatever is typed, submitted, closed and
    answered in it, never makes a second stream: opened on a stored stream it
    makes none, opened for a new one it makes one at most, and once the server
    has stored it every later save goes to the stored stream, whether or not
    it runs.  The fields that depend on a choice are shown as it is; and the
    answer of a save leaves the form as it is and closes the editor, unless a
    listener failed: then the editor stays and says which. *)
Theorem stream_saved_once e s d es : sd_saving d = None → sd_log d = [] → (fst <$> s) ≠ Some 0 → Forall stream_typed es →
  let d' := stream_run (stream_step d (StOpen e s)) es in Forall stream_answered (sd_log d') →
  (length (List.filter created (sd_log d')) ≤ match s with Some _ => 0 | None => 1 end)%nat
  ∧ (∀ id, fst <$> s = Some id → (stream_request (sd_ui d')).1 = Put id)
  ∧ (∀ q r, (q, inl r) ∈ sd_log d' → q.1 = Post → (stream_request (sd_ui d')).1 = Put (sv_id r))
  ∧ (let f := sform (sd_ui d') in
     sd_blocks d' = StreamBlocks (truthy (s_source f)) (negb (s_acceptproxy f)) (negb (s_terminatetls f)))
  ∧ ∀ q r, sd_saving d' = Some q → let u := sd_ui (stream_step d' (StReply (inl r))) in
      sform u = sform (sd_ui d') ∧ (sv_failed r = [] → stream_hidden u = true)
      ∧ (sv_failed r ≠ [] → stream_hidden u = stream_hidden (sd_ui d') ∧ stream_error u = Some (failed_text (sv_failed r))).
Proof.
  intros Hs Hl Hid Ht d' Ha. assert (session_ok (fst <$> s) d') as [H1 H2 H3 H4 H5 H6 H7].
  { apply run_session; [done| |done]. constructor; cbn; rewrite ?Hl, ?Hs; cbn; try done; try lia.
    by intros q r Hx%not_elem_of_nil. }
  pose proof (request_goes_to _ H1) as Hg. unfold goes_to in Hg. split_and!.
  - destruct s; [|done]. destruct (H3 ltac:(by eexists)) as [_ E]. by rewrite E.
  - intros id E. destruct (H3 ltac:(by rewrite E)) as [E1 _]. by rewrite Hg, E1, E.
  - intros q r Hx Hq. by rewrite Hg, (H6 q r Hx Hq).
  - exact H7.
  - intros q r Eq. cbn. rewrite Eq. cbn. by destruct (sv_failed r).
Qed.

(** The reply of a save belongs to whatever editor is open when it arrives.
    If the user closes the editor of one stream while its save is in flight
    and opens another stream [s], a reply that stored the first stream
    without running it leaves the second one's editor open, and its next save
    writes the second stream's settings over the first stream. *)
Theorem stream_overwritten e r u id s :
  sv_id r ≠ 0 → sv_failed r ≠ [] → stream_ok e s →
  let u1 := stream_reply (inl r) (open_stream_ui e (Some (id, s)) (stream_close (stream_send u))) in
  stream_hidden u1 = false ∧ stream_request u1 = (Put (sv_id r), stream_sent s).
Proof.
  intros Hid Hf Hs u1. unfold u1, stream_request, stream_reply, open_stream_ui.
  destruct (sv_failed r); [done|]. cbn [stream_hidden editingStreamId sform fst snd option_map fmap option_fmap].
  rewrite (proj2 (Z.eqb_neq _ 0)) by done. split; [done|]. f_equal.
  by apply stream_round.
Qed.

Definition sample_stream : stream :=
  Stream (Some 993) 1000 (js "tcp") (js "10.0.0.9") 993 1 [] (Some 3) (js "v2") true [js "10.0.0.5"] true (Some 9)
    [SniRoute (js "*.mail.example") (js "2001:db8::1") (Some 8443); SniRoute (js "db.example") (js "10.0.0.3") (Some 5432)] true.

Lemma sample_stream_ok : stream_ok sample_env sample_stream.
Proof. constructor; try by_compute; try (apply (bool_decide_unpack _); by_compute). Qed.

(** Behind an access list, with sources and a certificate left from before. *)
Definition leftover_stream : stream :=
  Stream (Some 5432) 0 (js "tcp") (js "10.0.0.9") 5432 0 [js "10.0.0.0/8"] (Some 3) [] false [] false (Some 9) [] true.

Lemma stream_edit_identity_witness :
  stream_submit (open_stream sample_env (Some sample_stream)) = sample_stream
  ∧ stream_submit (open_stream sample_env (Some leftover_stream)) = stream_sent leftover_stream.
Proof.
  destruct (stream_edit_identity sample_env sample_stream sample_stream_ok) as (H1 & H2 & _). split; [rewrite H1; apply H2; by right + left|].
  apply stream_edit_identity. constructor; try by_compute; try (apply (bool_decide_unpack _); by_compute); by eexists.
Defined.

Lemma stream_saved_once_witness :
  let d0 := StreamEditor (StreamUi None (open_stream sample_env None) true None) (StreamBlocks true true true) None [] in
  let f := open_stream sample_env (Some sample_stream) in
  let es := [StType f; StSubmit; StSubmit; StReply (inr (js "no")); StSubmit; StReply (inl (Saved 12 [(js "tcp/993", js "in use")]));
             StSubmit; StClose] in
  let d := stream_run (stream_step d0 (StOpen sample_env None)) es in
  (stream_request (sd_ui d)).1 = Put 12 ∧ (length (List.filter created (sd_log d)) ≤ 1)%nat
  ∧ stream_error (sd_ui (stream_step d (StReply (inl (Saved 12 [(js "tcp/993", js "in use")])))))
    = Some (js "Saved, but not running: tcp/993: in use").
Proof.
  intros d0 f es d. destruct (stream_saved_once sample_env None d0 es) as (H1 & _ & H3 & _ & H5);
    [done|done|done|by repeat constructor|by repeat constructor|].
  split; [apply (H3 (Post, stream_submit f) (Saved 12 [(js "tcp/993", js "in use")])); [by right; left|done]|].
  split; [exact H1|]. destruct (H5 (Put 12, stream_submit f) (Saved 12 [(js "tcp/993", js "in use")]) ltac:(reflexivity)) as (_ & _ & H).
  destruct (H ltac:(done)) as [_ E]. etransitivity; [exact E|]. by_compute.
Defined.

Lemma stream_overwritten_witness :
  let u := open_stream_ui sample_env None (StreamUi None (open_stream sample_env None) true None) in
  stream_request (stream_reply (inl (Saved 12 [(js "tcp/993", js "in use")]))
    (open_stream_ui sample_env (Some (7, sample_stream)) (stream_close (stream_send u)))) = (Put 12, sample_stream).
Proof.
  intros u. apply (stream_overwritten sample_env (Saved 12 [(js "tcp/993", js "in use")]) u 7 sample_stream);
    [done|done|exact sample_stream_ok].
Defined.
