(* ===== verification/WireGuard.v ===== *)
(** * Keys and configuration texts (web/app.js, engine/portal/portal.js)

    What the VPN pages share: the base64 text of a WireGuard key, the pair the
    browser makes, and the [wg-quick] file they write for the peer.  [conf_read]
    is the specification the texts are held against: what the format says a
    file means, comments cut off; it is no code of the repository. *)

From Stdlib Require Import Ascii String ZArith NArith Lia.
From stdpp Require Import base list strings numbers.
From S2P Require Import Prelude JsString Fields.

Local Open Scope N_scope.

(** ** Base64

    [btoa(String.fromCharCode(...bytes))]: the standard alphabet, padded. *)

Definition b64_char (n : N) : N :=
  if n <? 26 then 65 + n else if n <? 52 then 71 + n else if n <? 62 then n - 4 else if n =? 62 then 43 else 47.

Fixpoint b64 (bytes : list N) : jstr :=
  match bytes with
  | [] => []
  | [a] => [b64_char (a / 4); b64_char (a mod 4 * 16); ch "="; ch "="]
  | [a; b] => [b64_char (a / 4); b64_char (a mod 4 * 16 + b / 16); b64_char (b mod 16 * 4); ch "="]
  | a :: b :: c :: t =>
      b64_char (a / 4) :: b64_char (a mod 4 * 16 + b / 16) :: b64_char (b mod 16 * 4 + c / 64)
        :: b64_char (c mod 64) :: b64 t
  end.

(** What a reader makes of one: [None] for a unit outside the alphabet. *)
Definition b64_val (c : N) : option N :=
  if (65 <=? c) && (c <=? 90) then Some (c - 65) else if (97 <=? c) && (c <=? 122) then Some (c - 71)
  else if (48 <=? c) && (c <=? 57) then Some (c + 4) else if c =? 43 then Some 62 else if c =? 47 then Some 63 else None.

Fixpoint unb64 (s : jstr) : option (list N) :=
  match s with
  | [] => Some []
  | w :: x :: y :: z :: t =>
      v ← b64_val w; u ← b64_val x;
      if (y =? ch "=") && (z =? ch "=") then match t with [] => Some [v * 4 + u / 16] | _ => None end
      else
        p ← b64_val y;
        if z =? ch "=" then match t with [] => Some [v * 4 + u / 16; u mod 16 * 16 + p / 4] | _ => None end
        else q ← b64_val z; r ← unb64 t; Some (v * 4 + u / 16 :: u mod 16 * 16 + p / 4 :: p mod 4 * 64 + q :: r)
  | _ => None
  end.

(** [makeKeypair] and [makeWGKeypair]: what the browser exports of the pair,
    as WireGuard writes keys.  The private key is the end of its PKCS#8 form. *)
Record keypair : Type := Keypair { privateKey : jstr; publicKey : jstr }.
Definition makeKeypair (raw pkcs8 : list N) : keypair :=
  Keypair (b64 (js_slice (-32) (Z.of_nat (length pkcs8)) pkcs8)) (b64 raw).

Example b64_ex : b64 (js "quicgate") = js "cXVpY2dhdGU=".
Proof. by_compute. Qed.

(** ** Configuration files *)

(** [`${k} = ${v}`]. *)
Definition conf_line (k v : jstr) : jstr := k ++ js " = " ++ v.

(** A specification of the file, not code of the repository: what the format
    means by a text, as [wg-quick] documents it.  A hash starts a comment that
    ends with its line; white space around what is left does not count, nor
    does an empty line; a line in square brackets opens a section; any other
    line is a key and a value around its first equals sign. *)
Definition conf_section : Type := jstr * list (jstr * jstr).

Fixpoint split_eq (s : jstr) : option (jstr * jstr) :=
  match s with
  | [] => None
  | c :: t => if c =? ch "=" then Some ([], t) else (λ x, (c :: x.1, x.2)) <$> split_eq t
  end.

Fixpoint cut_comment (s : jstr) : jstr :=
  match s with [] => [] | c :: t => if c =? ch "#" then [] else c :: cut_comment t end.

Definition conf_step (line : jstr) (st : list (jstr * jstr) * list conf_section) : list (jstr * jstr) * list conf_section :=
  match trim (cut_comment line) with
  | [] => st
  | (c :: _) as w =>
      if c =? ch "[" then ([], (w, st.1) :: st.2)
      else match split_eq w with Some (k, v) => ((trim k, trim v) :: st.1, st.2) | None => st end
  end.

Definition conf_read (text : jstr) : list conf_section := (foldr conf_step ([], []) (split_ch 10 text)).2.

Example conf_read_ex :
  conf_read (join [10] [js "[Interface]"; js "# a note"; js "PrivateKey = ab= # kept"; js ""; js "[Peer]"; js "Endpoint = h:1"]) =
  [(js "[Interface]", [(js "PrivateKey", js "ab=")]); (js "[Peer]", [(js "Endpoint", js "h:1")])].
Proof. by_compute. Qed.

(** ** Base64 reads back *)

Lemma b64_char_val n : n < 64 → b64_val (b64_char n) = Some n ∧ b64_char n ≠ ch "=" ∧ is_space (b64_char n) = false.
Proof.
  intros H. assert (forallb (λ n, bool_decide (b64_val (b64_char n) = Some n) && negb (b64_char n =? ch "=")
    && negb (is_space (b64_char n))) (map N.of_nat (seq 0 64)) = true) as F by by_compute.
  pose proof (proj1 (forallb_forall _ _) F n) as F'.
  specialize (F' ltac:(apply in_map_iff; exists (N.to_nat n); rewrite N2Nat.id, in_seq; lia)).
  apply andb_true_iff in F' as [[F1%bool_decide_eq_true F2]%andb_true_iff F3]. by boolify.
Qed.

Definition is_byte (b : N) : Prop := b < 256.

Lemma b64_group a b c : is_byte a → is_byte b → is_byte c →
  let v := a / 4 in let u := a mod 4 * 16 + b / 16 in let p := b mod 16 * 4 + c / 64 in let q := c mod 64 in
  v < 64 ∧ u < 64 ∧ p < 64 ∧ q < 64 ∧
  v * 4 + u / 16 = a ∧ u mod 16 * 16 + p / 4 = b ∧ p mod 4 * 64 + q = c.
Proof.
  unfold is_byte. intros Ha Hb Hc. cbv zeta.
  assert (a = 4 * (a / 4) + a mod 4 ∧ a mod 4 < 4 ∧ b = 16 * (b / 16) + b mod 16 ∧ b mod 16 < 16
    ∧ c = 64 * (c / 64) + c mod 64 ∧ c mod 64 < 64) as (Ea & La & Eb & Lb & Ec & Lc).
  { repeat split; try apply N.div_mod; try apply N.mod_lt; done. }
  assert (a / 4 < 64 ∧ b / 16 < 16 ∧ c / 64 < 4) as (Da & Db & Dc)
    by (repeat split; apply N.Div0.div_lt_upper_bound; lia).
  assert (∀ x y n, y < n → (x * n + y) / n = x ∧ (x * n + y) mod n = y) as D.
  { intros x y n L. rewrite N.div_add_l, N.div_small, (N.add_comm _ y), N.Div0.mod_add, N.mod_small by lia. lia. }
  destruct (D (a mod 4) (b / 16) 16 Db) as [U1 U2]. destruct (D (b mod 16) (c / 64) 4 Dc) as [P1 P2].
  rewrite U1, U2, P1, P2. lia.
Qed.


Lemma unb64_cons3 a b c t : is_byte a → is_byte b → is_byte c →
  unb64 (b64 (a :: b :: c :: t)) = (λ r, a :: b :: c :: r) <$> unb64 (b64 t).
Proof.
  intros Ha Hb Hc. destruct (b64_group a b c Ha Hb Hc) as (Hv & Hu & Hp & Hq & E1 & E2 & E3).
  cbn [b64 unb64].
  destruct (b64_char_val _ Hv) as (-> & _ & _). destruct (b64_char_val _ Hu) as (-> & _ & _).
  destruct (b64_char_val _ Hp) as (-> & Np & _). destruct (b64_char_val _ Hq) as (-> & Nq & _).
  apply N.eqb_neq in Np, Nq. rewrite Np, Nq. cbn [mbind option_bind andb].
  rewrite E1, E2, E3. by destruct (unb64 (b64 t)).
Qed.

Lemma unb64_b64 bytes : Forall is_byte bytes → unb64 (b64 bytes) = Some bytes.
Proof.
  revert bytes. assert (∀ n bytes, (length bytes <= n)%nat → Forall is_byte bytes → unb64 (b64 bytes) = Some bytes) as H;
    [|intros bytes; by apply (H (length bytes))].
  induction n as [|n IH]; intros bytes Hl Hb; [by destruct bytes; [|cbn in Hl; lia]|].
  destruct bytes as [|a [|b [|c t]]]; [done|..].
  - apply Forall_inv in Hb. assert (is_byte 0) as H0 by done.
    destruct (b64_group a 0 0 Hb H0 H0) as (Hv & Hu & _ & _ & E1 & _). rewrite N.add_0_r in *.
    cbn [b64 unb64]. destruct (b64_char_val _ Hv) as (-> & _). destruct (b64_char_val _ Hu) as (-> & _).
    cbn [mbind option_bind]. by rewrite !N.eqb_refl, E1.
  - apply list.Forall_cons in Hb as [Ha [Hb _]%list.Forall_cons]. assert (is_byte 0) as H0 by done.
    destruct (b64_group a b 0 Ha Hb H0) as (Hv & Hu & Hp & _ & E1 & E2 & _). rewrite N.add_0_r in *.
    cbn [b64 unb64]. destruct (b64_char_val _ Hv) as (-> & _). destruct (b64_char_val _ Hu) as (-> & _).
    destruct (b64_char_val _ Hp) as (-> & Np & _). apply N.eqb_neq in Np. rewrite Np.
    cbn [mbind option_bind andb]. by rewrite N.eqb_refl, E1, E2.
  - apply list.Forall_cons in Hb as [Ha [Hb [Hc Ht]%list.Forall_cons]%list.Forall_cons].
    rewrite unb64_cons3, IH by (done || cbn in Hl; lia). done.
Qed.

Lemma b64_length bytes : length (b64 bytes) = (4 * ((length bytes + 2) / 3))%nat.
Proof.
  revert bytes. assert (∀ n bytes, (length bytes <= n)%nat → length (b64 bytes) = (4 * ((length bytes + 2) / 3))%nat) as H;
    [|intros bytes; by apply (H (length bytes))].
  induction n as [|n IH]; intros bytes Hl; [by destruct bytes; [|cbn in Hl; lia]|].
  destruct bytes as [|a [|b [|c t]]]; [done..|]. cbn [b64 length] in *. rewrite IH by lia.
  replace (S (S (S (length t))) + 2)%nat with (length t + 2 + 1 * 3)%nat by lia.
  rewrite Nat.div_add by done. lia.
Qed.

(** The pair the browser makes reads back as the 32 bytes that end the
    PKCS#8 form and as the raw public key, each a text of 44 units. *)
Lemma makeKeypair_reads raw pre key :
  Forall is_byte raw → Forall is_byte key → length raw = 32%nat → length key = 32%nat →
  let kp := makeKeypair raw (pre ++ key) in
  unb64 (privateKey kp) = Some key ∧ unb64 (publicKey kp) = Some raw ∧
  length (privateKey kp) = 44%nat ∧ length (publicKey kp) = 44%nat.
Proof.
  intros Hr Hk Lr Lk kp.
  assert (js_slice (-32) (Z.of_nat (length (pre ++ key))) (pre ++ key) = key) as E.
  { unfold js_slice, slice_index. rewrite length_app, Lk. cbn [Z.ltb Z.compare].
    destruct (Z.ltb_spec (Z.of_nat (length pre + 32)) 0); [lia|].
    rewrite Z.max_l, Z.min_l by lia. replace (Z.to_nat (Z.of_nat (length pre + 32) + -32)) with (length pre) by lia.
    rewrite drop_app_length, take_ge; [done|]. rewrite Lk. lia. }
  unfold kp, makeKeypair. cbn [privateKey publicKey]. rewrite E, !unb64_b64, !b64_length, Lr, Lk by done. done.
Qed.

(** ** Reading a configuration *)

Lemma split_eq_first k v : ch "=" ∉ k → split_eq (k ++ ch "=" :: v) = Some (k, v).
Proof.
  induction k as [|c k IH]; intros Hk; cbn [app split_eq]; [by rewrite N.eqb_refl|].
  apply not_elem_of_cons in Hk as [Hc Hk]. rewrite IH by done. by rewrite (proj2 (N.eqb_neq _ _)) by congruence.
Qed.

(** A text on one line, and not commented out. *)
Definition no_hash (s : jstr) : bool := forallb (λ c, negb (c =? ch "#")) s.
Definition plain_line (s : jstr) : bool := one_line s && no_hash s.

Lemma plain_line_app a b : plain_line (a ++ b) = plain_line a && plain_line b.
Proof.
  unfold plain_line, one_line, no_hash. rewrite !forallb_app.
  by destruct (forallb _ a), (forallb _ a), (forallb _ b), (forallb _ b).
Qed.

Lemma cut_plain s : no_hash s = true → cut_comment s = s.
Proof.
  induction s as [|c s IH]; [done|]. cbn [no_hash forallb cut_comment]. intros [Hc%negb_true_iff H]%andb_true_iff.
  by rewrite Hc, IH.
Qed.

(** A key of a configuration: what the reader takes for one. *)
Definition conf_key (k : jstr) : bool :=
  tidy k && negb (bool_decide (ch "=" ∈ k)) && match k with c :: _ => negb (c =? ch "[") | [] => false end.

Lemma tidy_mid a m b : tidy a = true → tidy b = true → tidy (a ++ m ++ b) = true.
Proof.
  unfold tidy. destruct a as [|c a]; [done|]. cbn [app]. intros [H1 _]%andb_true_iff H2. rewrite H1. cbn [andb].
  destruct b as [|d b]; [done|]. apply andb_true_iff in H2 as [_ H2]. rewrite app_comm_cons, !rev_app_distr.
  destruct (rev (d :: b)); done.
Qed.

(** A text that can be the value of a line. *)
Definition conf_value (s : jstr) : bool := tidy s && plain_line s.

Lemma conf_value_app a b : conf_value a = true → conf_value b = true → conf_value (a ++ b) = true.
Proof.
  unfold conf_value. intros [Ta Oa]%andb_true_iff [Tb Ob]%andb_true_iff.
  by rewrite plain_line_app, Oa, Ob, (tidy_app a b).
Qed.

Lemma conf_value_plain s : conf_value s = true → no_hash s = true.
Proof. unfold conf_value, plain_line. intros H. by boolify. Qed.

Lemma no_hash_join sep l : no_hash sep = true → Forall (λ w, no_hash w = true) l → no_hash (join sep l) = true.
Proof.
  intros Hs F. induction F as [|w l Hw F IH]; [done|]. destruct l as [|w' l]; [done|].
  rewrite join_cons. unfold no_hash in *. by rewrite !forallb_app, Hw, Hs, IH.
Qed.

Lemma trim_pad_end w pad : tidy w = true → Forall (λ c, is_space c = true) pad → trim (w ++ pad) = w.
Proof.
  intros Hw Hp. pose proof (trim_tidy w Hw) as E. unfold trim, trim_start in *.
  destruct w as [|c w]; [done|]. assert (is_space c = false) as Hc by (cbn in Hw; by boolify).
  cbn [app drop_while] in *. rewrite Hc in *. unfold trim_end in *.
  rewrite app_comm_cons, rev_app_distr, drop_while_app; [done|]. by apply Forall_rev.
Qed.

Lemma conf_step_pair k v st : conf_key k = true → no_hash k = true → tidy v = true → no_hash v = true →
  conf_step (conf_line k v) st = ((k, v) :: st.1, st.2).
Proof.
  unfold conf_key. intros [[Hk Hn]%andb_true_iff Hc]%andb_true_iff Pk Hv Pv.
  unfold conf_step. rewrite cut_plain by (unfold conf_line, no_hash in *; by rewrite !forallb_app, Pk, Pv).
  rewrite trim_tidy by (by apply tidy_mid). destruct k as [|c k]; [done|].
  unfold conf_line. cbn [app].
  apply negb_true_iff in Hc as ->. apply negb_true_iff, bool_decide_eq_false in Hn.
  change (js " = ") with (js " " ++ ch "=" :: js " ").
  replace (c :: k ++ (js " " ++ ch "=" :: js " ") ++ v) with (((c :: k) ++ js " ") ++ ch "=" :: (js " " ++ v))
    by (cbn; rewrite <- !app_assoc; done).
  rewrite split_eq_first.
  - rewrite trim_pad_end, trim_pad by first [done | repeat constructor]. done.
  - rewrite not_elem_of_app. split; [done|]. apply (bool_decide_unpack _). by_compute.
Qed.

Lemma conf_step_open name st : tidy name = true → no_hash name = true → head name = Some (ch "[") →
  conf_step name st = ([], (name, st.1) :: st.2).
Proof. unfold conf_step. intros E P. rewrite cut_plain, trim_tidy by done. destruct name as [|c n]; [done|]. by intros [= ->]. Qed.

Lemma conf_step_note t st : head t = Some (ch "#") → conf_step t st = st.
Proof. destruct t as [|c n]; [done|]. by intros [= ->]. Qed.

(** The lines of a file: a section opened, a pair, a note or a blank. *)
Inductive conf_item : Type := COpen (name : jstr) | CPair (k v : jstr) | CNote (t : jstr) | CBlank.
Definition item_line (i : conf_item) : jstr :=
  match i with COpen n => n | CPair k v => conf_line k v | CNote t => t | CBlank => [] end.
Definition item_ok (i : conf_item) : bool :=
  match i with
  | COpen n => tidy n && plain_line n && bool_decide (head n = Some (ch "["))
  | CPair k v => conf_key k && plain_line k && tidy v && plain_line v
  | CNote t => one_line t && bool_decide (head t = Some (ch "#"))
  | CBlank => true
  end.
Definition item_step (i : conf_item) (st : list (jstr * jstr) * list conf_section) : list (jstr * jstr) * list conf_section :=
  match i with COpen n => ([], (n, st.1) :: st.2) | CPair k v => ((k, v) :: st.1, st.2) | CNote _ | CBlank => st end.

Lemma one_line_no_lf s : one_line s = true → 10 ∉ s.
Proof.
  unfold one_line. intros H Hin%list_elem_of_In. by apply (proj1 (forallb_forall _ _) H) in Hin.
Qed.

(** A file of well-formed lines is read as what its lines say, in order. *)
Lemma conf_read_items (l : list conf_item) :
  l ≠ [] → forallb item_ok l = true → conf_read (join [10] (map item_line l)) = (foldr item_step ([], []) l).2.
Proof.
  intros Hne H. assert (Forall (λ i, item_ok i = true) l) as F.
  { apply list.Forall_forall. intros i Hi%list_elem_of_In. by apply (proj1 (forallb_forall _ _) H). }
  unfold conf_read. rewrite split_join_ch.
  - f_equal. clear Hne H. induction F as [|i l Hi _ IH]; [done|]. cbn [map foldr]. rewrite IH.
    destruct i as [n|k v|t|]; cbn in Hi |- *; unfold plain_line in Hi; rewrite ?andb_true_iff in Hi.
    + destruct Hi as [[? [_ ?]] E%bool_decide_eq_true]. by apply conf_step_open.
    + destruct Hi as [[[? [_ ?]] ?] [_ ?]]. by apply conf_step_pair.
    + destruct Hi as [_ E%bool_decide_eq_true]. by apply conf_step_note.
    + done.
  - by destruct l.
  - apply Forall_map. apply (list.Forall_impl _ _ _ F). intros i Hi.
    destruct i as [n|k v|t|]; cbn in Hi |- *; unfold plain_line in Hi; rewrite ?andb_true_iff in Hi.
    + destruct Hi as [[_ [? _]] _]. by apply one_line_no_lf.
    + destruct Hi as [[[_ [? _]] _] [? _]]. unfold conf_line. rewrite !not_elem_of_app.
      split; [by apply one_line_no_lf|]. split; [apply (bool_decide_unpack _); by_compute|by apply one_line_no_lf].
    + destruct Hi as [? _]. by apply one_line_no_lf.
    + apply not_elem_of_nil.
Qed.
