(* ===== verification/Portal.v ===== *)
(** * The VPN portal page (engine/portal/portal.js)

    The page a VPN user adds and removes devices on.  The model keeps the
    page's controls, the requests it has sent and the operations still in
    flight: a handler that awaits is cut at its awaits, and the replies arrive
    in any order.  The configuration card is a part of the view of the account,
    and keeps its text when that view is hidden.  The browser's clock, its date formats and the message it
    gives for reading a property of [null] are parameters. *)

From Stdlib Require Import Ascii String ZArith NArith Lia.
From stdpp Require Import base list strings numbers.
From S2P Require Import Prelude JsString Regex Fields Saving WireGuard.

Local Open Scope Z_scope.

(** ** What the server tells the page *)

Record lease : Type := Lease { ls_live : bool; ls_until : jstr }.
Record pdevice : Type := PDevice {
  pd_id : Z; pd_name : jstr; pd_address : jstr; pd_connected : bool; pd_seen : jstr; pd_from : jstr }.
Record server : Type := Server { sr_address : jstr; sr_publicKey : jstr; sr_endpoint : jstr }.
(** [GET /me]. *)
Record account : Type := Account {
  ac_email : jstr; ac_lease : option lease; ac_routes : list route; ac_devices : list pdevice; ac_limit : Z;
  ac_server : option server }.
(** [POST /devices]. *)
Record created : Type := Created { cr_name : jstr; cr_address : jstr; cr_psk : jstr }.

(** ** [api] *)

Record request : Type := Request { rq_method : jstr; rq_path : jstr; rq_body : option (list (jstr * jstr)) }.

(** The address and the content type of a request; a body is what sets it. *)
Definition request_url (r : request) : jstr := js "/.qg/vpn/api" ++ rq_path r.

(** What the promise settles with: no data for 204, the reply's JSON, or an
    error with its message and status. *)
Inductive presult : Type := PNull | PData (v : json) | PError (message : jstr) (status : Z) | PThrow.
Definition portal_api (r : reply) : presult :=
  match r with
  | NetworkError => PThrow
  | Response status statusText body =>
      if status =? 204 then PNull
      else
        let data := default (JObj []) body in
        if res_ok status then PData data
        else
          match data with
          | JNull => PThrow
          | JObj fs =>
              match json_field (js "error") fs with
              | Some e => PError (if json_truthy e then json_string e else statusText) status
              | None => PError statusText status
              end
          | _ => PError statusText status
          end
  end.

(** ** The page *)

Inductive lease_node : Type := LText (cls text : jstr) | LLink (href text : jstr).

Record pview : Type := PView {
  v_login_hidden : bool; v_main_hidden : bool; v_who : jstr; v_lease : list lease_node;
  v_rows : list (Z * list jstr); v_empty_hidden : bool; v_table_hidden : bool; v_add_hidden : bool }.
(** The add form: one of its two radio buttons is on, [f_generate] says which. *)
Record pform : Type := PForm {
  f_name : jstr; f_pubkey : jstr; f_generate : bool; f_generate_hidden : bool; f_pubkey_hidden : bool;
  f_error : jstr; f_error_hidden : bool; f_error_login : bool }.
Record pcard : Type := PCard { c_config : jstr; c_note : jstr; c_file : jstr; c_hidden : bool }.

(** The operations in flight: [makeKeypair] of a submit, the request of a
    submit with the private key it made, and the other requests. *)
Inductive job : Type := JKeys | JAdd (priv : jstr) | JRemove | JLogout | JDisconnect | JMe.

Record portal : Type := Portal {
  q_me : option account; q_view : pview; q_form : pform; q_card : pcard;
  q_jobs : list job; q_sent : list request; q_alerts : list jstr }.

Definition set_view v q := Portal (q_me q) v (q_form q) (q_card q) (q_jobs q) (q_sent q) (q_alerts q).
Definition set_form f q := Portal (q_me q) (q_view q) f (q_card q) (q_jobs q) (q_sent q) (q_alerts q).
Definition set_card c q := Portal (q_me q) (q_view q) (q_form q) c (q_jobs q) (q_sent q) (q_alerts q).
Definition set_jobs l q := Portal (q_me q) (q_view q) (q_form q) (q_card q) l (q_sent q) (q_alerts q).
Definition add_alert m q := Portal (q_me q) (q_view q) (q_form q) (q_card q) (q_jobs q) (q_sent q) (q_alerts q ++ [m]).
(** A request leaves, and the operation that awaits it is in flight. *)
Definition send (r : request) (j : job) (q : portal) : portal :=
  Portal (q_me q) (q_view q) (q_form q) (q_card q) (q_jobs q ++ [j]) (q_sent q ++ [r]) (q_alerts q).

(** The page as portal.html has it. *)
Definition portal_html : portal :=
  Portal None (PView true true [] [] [] true false false)
    (PForm [] [] true false true [] true false) (PCard [] [] [] true) [] [] [].

Definition syncKeyMode (f : pform) : pform :=
  PForm (f_name f) (f_pubkey f) (f_generate f) (f_generate_hidden f) (f_generate f)
    (f_error f) (f_error_hidden f) (f_error_login f).

(** [load()]: asks for the account. *)
Definition load : portal → portal := send (Request (js "GET") (js "/me") None) JMe.

(** The page's start: what [canMakeKeys] answered. *)
Definition boot (can : bool) (q : portal) : portal :=
  let f := q_form q in
  load (set_form (syncKeyMode (PForm (f_name f) (f_pubkey f) can (negb can) (f_pubkey_hidden f)
    (f_error f) (f_error_hidden f) (f_error_login f))) q).

(** ** The configuration of a new device *)

Definition or_undefined (s : option jstr) : jstr := default (js "undefined") s.

Definition allowed_ips (m : account) : list jstr :=
  (or_undefined (sr_address <$> ac_server m) ++ js "/32") :: map rt_cidr (ac_routes m).

Definition config_lines (m : account) (d : created) (priv : jstr) : list jstr :=
  let s := ac_server m in
  [ js "[Interface]";
    js "PrivateKey = " ++ str_or priv (js "(keep the private key that is in your WireGuard app)");
    js "Address = " ++ cr_address d ++ js "/32";
    js "DNS = " ++ or_undefined (sr_address <$> s);
    [];
    js "[Peer]";
    js "PublicKey = " ++ or_undefined (sr_publicKey <$> s);
    js "PresharedKey = " ++ cr_psk d;
    js "Endpoint = " ++ str_or (default [] (sr_endpoint <$> s)) (js "(ask the administrator for the server address)");
    js "AllowedIPs = " ++ join (js ", ") (set_of [] (allowed_ips m));
    js "PersistentKeepalive = 25";
    [] ].
Definition config_text (m : account) (d : created) (priv : jstr) : jstr := join [10%N] (config_lines m d priv).

Definition config_note (priv : jstr) : jstr :=
  if truthy priv then []
  else js "You pasted a public key, so this page does not know the private key: enter these values into the tunnel you made in the app.".

(** The name of the downloaded file, which WireGuard apps take for the name
    of the tunnel. *)
Definition name_unit : N → bool := cls_or (cls_range "A" "Z") (cls_or (cls_range "a" "z") (cls_or cls_d (cls_of "_-"))).
Definition re_names : re := rplus (cls_not name_unit).
Definition file_name (name : jstr) : jstr :=
  str_or (slice_to 15 (replace_all re_names (λ _, js "-") (str_or name (js "vpn")))) (js "vpn").

(** ** Showing the account *)

Section portal.
(** [Date.now()], the milliseconds of a date text ([None] for NaN), what
    [toLocaleString] prints for one, and the browser's message for a property
    of [null]. *)
Context (now : Z) (date_ms : jstr → option Z) (date_text : jstr → jstr) (null_error : jstr).

Definition when (ts : jstr) : jstr :=
  if negb (truthy ts) || starts_with (js "0001") ts then js "never"
  else
    match date_ms ts with
    | Some t =>
        let sec := round_div (now - t) 1000 in
        if (0 <=? sec) && (sec <? 90) then js "just now"
        else if (0 <=? sec) && (sec <? 5400) then js_of_Z (round_div sec 60) ++ js " min ago"
        else date_text ts
    | None => date_text ts
    end.

Definition re_port : re := rseq [RCls (cls_of ":"); rplus cls_d; REol].

Definition route_text (r : route) : jstr :=
  rt_cidr r ++ (if truthy (rt_ports r) then js " (" ++ str_or (rt_proto r) (js "any") ++ js " " ++ rt_ports r ++ js ")" else []).

Definition is_live (m : account) : bool := match ac_lease m with Some l => ls_live l | None => false end.

Definition lease_box (m : account) : list lease_node :=
  (if is_live m then
     [LText [] (js "Your access is active. quicgate keeps checking with your identity provider; you have to log in here again by "
        ++ date_text (default [] (ls_until <$> ac_lease m)) ++ js ".")]
   else
     [LText (js "error") (js "Your access has run out. Log in again to get your devices back: their configuration stays the same.");
      LLink (js "/.qg/vpn/login") (js "Log in again")])
  ++ match ac_routes m with
     | [] => []
     | l => [LText (js "muted") (js "On the VPN you can reach: " ++ join (js ", ") (map route_text l)
               ++ js ", and the services this server hosts.")]
     end.

Definition device_row (d : pdevice) : Z * list jstr :=
  (pd_id d,
   [ pd_name d; pd_address d;
     if pd_connected d then
       when (pd_seen d) ++ (if truthy (pd_from d) then js " from " ++ replace_first re_port (λ _, []) (pd_from d) else [])
     else js "not connected";
     [] ]).

Definition render (m : account) (v : pview) : pview :=
  PView (v_login_hidden v) (v_main_hidden v) (ac_email m) (lease_box m) (map device_row (ac_devices m))
    (0 <? Z.of_nat (length (ac_devices m))) (Z.of_nat (length (ac_devices m)) =? 0)
    ((ac_limit m <=? Z.of_nat (length (ac_devices m))) || negb (is_live m)).

(** ** The handlers *)

Inductive preply : Type :=
  | RKeys (kp : keypair)
  | RAccount (m : account)
  | RCreated (d : created)
  | RDone
  | RFail (message : jstr) (status : option Z).

Inductive pevent : Type :=
  | EName (s : jstr)
  | EPubkey (s : jstr)
  | EMode (generate : bool)
  | ESubmit
  | ERemove (id : Z) (yes : bool)
  | EDone
  | ELogout
  | EDisconnect (yes : bool)
  | EReply (i : nat) (r : preply).

Definition set_error (message : jstr) (login : bool) (f : pform) : pform :=
  PForm (f_name f) (f_pubkey f) (f_generate f) (f_generate_hidden f) (f_pubkey_hidden f) message false login.
Definition clear_error (f : pform) : pform :=
  PForm (f_name f) (f_pubkey f) (f_generate f) (f_generate_hidden f) (f_pubkey_hidden f)
    (f_error f) true (f_error_login f).
(** [$('add-form').reset()]: the controls as the page had them. *)
Definition form_reset (f : pform) : pform :=
  PForm [] [] true (f_generate_hidden f) (f_pubkey_hidden f) (f_error f) (f_error_hidden f) (f_error_login f).

Definition post_device (pub priv : jstr) (q : portal) : portal :=
  send (Request (js "POST") (js "/devices") (Some [(js "name", trim (f_name (q_form q))); (js "publicKey", pub)]))
    (JAdd priv) q.

(** The submit handler up to its first await. *)
Definition add_submit (q : portal) : portal :=
  let q := set_form (clear_error (q_form q)) q in
  if f_generate (q_form q) then set_jobs (q_jobs q ++ [JKeys]) q else post_device (trim (f_pubkey (q_form q))) [] q.

(** ... and after the device was made. *)
Definition hide_add (v : pview) : pview :=
  PView (v_login_hidden v) (v_main_hidden v) (v_who v) (v_lease v) (v_rows v) (v_empty_hidden v) (v_table_hidden v) true.
Definition add_created (d : created) (priv : jstr) (q : portal) : portal :=
  match q_me q with
  | None => set_form (set_error null_error false (q_form q)) q
  | Some m =>
      set_form (syncKeyMode (form_reset (q_form q)))
        (set_view (hide_add (q_view q))
          (set_card (PCard (config_text m d priv) (config_note priv) (file_name (cr_name d)) false) q))
  end.
Definition add_failed (message : jstr) (status : option Z) (q : portal) : portal :=
  set_form (set_error message (bool_decide (status = Some 401)) (q_form q)) q.

Definition load_reply (r : option account) (q : portal) : portal :=
  match r with
  | Some m =>
      let v := q_view q in
      Portal (Some m) (render m (PView true false (v_who v) (v_lease v) (v_rows v) (v_empty_hidden v) (v_table_hidden v) (v_add_hidden v)))
        (q_form q) (q_card q) (q_jobs q) (q_sent q) (q_alerts q)
  | None =>
      let v := q_view q in
      set_view (PView false true (v_who v) (v_lease v) (v_rows v) (v_empty_hidden v) (v_table_hidden v) (v_add_hidden v)) q
  end.

(** A reply continues the handler that awaits it. *)
Definition continue (j : job) (r : preply) (q : portal) : option portal :=
  match j, r with
  | JKeys, RKeys kp => Some (post_device (publicKey kp) (privateKey kp) q)
  | JKeys, RFail m st => Some (add_failed m st q)
  | JAdd priv, RCreated d => Some (add_created d priv q)
  | JAdd _, RFail m st => Some (add_failed m st q)
  | JRemove, RDone | JDisconnect, RDone => Some (load q)
  | JRemove, RFail m _ | JDisconnect, RFail m _ => Some (add_alert m q)
  | JLogout, RDone | JLogout, RFail _ _ => Some (load q)
  | JMe, RAccount m => Some (load_reply (Some m) q)
  | JMe, RFail _ _ => Some (load_reply None q)
  | _, _ => None
  end.

Definition edit_form (name pub : jstr) (generate : bool) (f : pform) : pform :=
  PForm name pub generate (f_generate_hidden f) (f_pubkey_hidden f) (f_error f) (f_error_hidden f) (f_error_login f).

Definition pstep (q : portal) (e : pevent) : portal :=
  let f := q_form q in
  match e with
  | EName s => set_form (edit_form (text_set s) (f_pubkey f) (f_generate f) f) q
  | EPubkey s => set_form (edit_form (f_name f) (text_set s) (f_generate f) f) q
  | EMode g => set_form (syncKeyMode (edit_form (f_name f) (f_pubkey f) g f)) q
  | ESubmit => add_submit q
  | ERemove id yes =>
      if yes then send (Request (js "DELETE") (js "/devices/" ++ js_of_Z id) (Some [])) JRemove q else q
  | EDone => load (set_card (PCard [] (c_note (q_card q)) (c_file (q_card q)) true) q)
  | ELogout => send (Request (js "POST") (js "/logout") (Some [])) JLogout q
  | EDisconnect yes => if yes then send (Request (js "POST") (js "/disconnect") (Some [])) JDisconnect q else q
  | EReply i r =>
      match q_jobs q !! i with
      | Some j => default q (continue j r (set_jobs (delete i (q_jobs q)) q))
      | None => q
      end
  end.

Definition prun (q : portal) (es : list pevent) : portal := fold_left pstep es q.

(** [btn-download]: the file's name and contents. *)
Definition download (q : portal) : jstr * jstr := (c_file (q_card q) ++ js ".conf", c_config (q_card q)).
End portal.

Arguments config_text m d priv : simpl never.
Arguments file_name name : simpl never.
Arguments render now date_ms date_text m v : simpl never.

(** ** The file's name *)

(** C40. A tunnel name is one to fifteen letters, digits, dashes and underscores,
    whatever the device is called: what WireGuard apps import. *)
Theorem file_name_ok name :
  (1 <= length (file_name name) <= 15)%nat ∧ Forall (λ c, name_unit c = true) (file_name name).
Proof.
  destruct (replace_runs (cls_not name_unit) (ch "-") (str_or name (js "vpn")) eq_refl) as [F N].
  unfold file_name, re_names. change (js "-") with [ch "-"]. set (r := replace_all _ _ _) in *.
  assert (r ≠ []) as Hr by (apply N; by destruct name).
  unfold slice_to. destruct r as [|c r]; [done|]. cbn [take str_or]. split.
  - cbn [length]. rewrite length_take. lia.
  - apply list.Forall_cons in F as [Hc F]. constructor; [by apply negb_false_iff|].
    apply Forall_take, (list.Forall_impl _ _ _ F). intros x Hx. by apply negb_false_iff.
Qed.

(** ** The configuration of a new device *)

Record device_given (m : account) (s : server) (d : created) : Prop := {
  dg_server : ac_server m = Some s;
  dg_address : list_words [sr_address s ++ js "/32"] = true;
  dg_dns : conf_value (sr_address s) = true;
  dg_key : conf_value (sr_publicKey s) = true;
  dg_endpoint : sr_endpoint s = [] ∨ conf_value (sr_endpoint s) = true;
  dg_routes : list_words (map rt_cidr (ac_routes m)) = true ∧ Forall (λ r, no_hash (rt_cidr r) = true) (ac_routes m);
  dg_own : conf_value (cr_address d) = true;
  dg_psk : conf_value (cr_psk d) = true }.

Definition config_items (m : account) (s : server) (d : created) (priv : jstr) : list conf_item :=
  [ COpen (js "[Interface]");
    CPair (js "PrivateKey") (str_or priv (js "(keep the private key that is in your WireGuard app)"));
    CPair (js "Address") (cr_address d ++ js "/32"); CPair (js "DNS") (sr_address s); CBlank;
    COpen (js "[Peer]"); CPair (js "PublicKey") (sr_publicKey s); CPair (js "PresharedKey") (cr_psk d);
    CPair (js "Endpoint") (str_or (sr_endpoint s) (js "(ask the administrator for the server address)"));
    CPair (js "AllowedIPs") (join (js ", ") (set_of [] (allowed_ips m))); CPair (js "PersistentKeepalive") (js "25");
    CBlank ].

Lemma config_text_items m s d priv :
  ac_server m = Some s → config_text m d priv = join [10%N] (map item_line (config_items m s d priv)).
Proof.
  intros Hs. unfold config_text, config_lines, config_items. rewrite Hs. cbn [fmap option_fmap option_map or_undefined default].
  reflexivity.
Qed.

Lemma list_words_set l : list_words l = true → list_words (set_of [] l) = true.
Proof.
  unfold list_words. intros H. apply forallb_forall. intros x Hx%list_elem_of_In%elem_of_set_of.
  destruct Hx as [Hx%list_elem_of_In _]. by apply (proj1 (forallb_forall _ _) H).
Qed.

Lemma list_words_cons w l : list_words (w :: l) = list_words [w] && list_words l.
Proof. unfold list_words. cbn. by rewrite andb_true_r. Qed.

Lemma join_value l : l ≠ [] → list_words l = true → Forall (λ w, no_hash w = true) l → conf_value (join (js ", ") l) = true.
Proof.
  intros Hne H P. pose proof (list_words_spec l H) as [F O]. unfold conf_value, plain_line.
  rewrite (O (js ", ")), no_hash_join by done. rewrite andb_true_r. clear O H P.
  induction F as [|w l [Hw _] F IH]; [done|]. destruct l as [|w' l]; [done|].
  rewrite join_cons. apply tidy_mid; [done|]. by apply IH.
Qed.

Lemma allowed_words m s : ac_server m = Some s → list_words [sr_address s ++ js "/32"] = true →
  list_words (map rt_cidr (ac_routes m)) = true → list_words (set_of [] (allowed_ips m)) = true.
Proof.
  intros Hs Ha Hr. apply list_words_set. unfold allowed_ips. rewrite Hs, list_words_cons.
  change (or_undefined _) with (sr_address s).
  by rewrite Ha, Hr.
Qed.

(** What a peer may be sent: the server's own address and the routes. *)
Lemma allowed_plain address routes : conf_value address = true → Forall (λ r, no_hash (rt_cidr r) = true) routes →
  Forall (λ w, no_hash w = true) (set_of [] ((address ++ js "/32") :: map rt_cidr routes)).
Proof.
  intros Ha%conf_value_plain F. apply list.Forall_forall. intros w [Hw _]%elem_of_set_of. apply elem_of_cons in Hw as [->|Hw].
  - unfold no_hash in *. by rewrite forallb_app, Ha.
  - apply list_elem_of_fmap in Hw as (r & -> & Hr). rewrite list.Forall_forall in F. by apply F.
Qed.

Lemma set_of_ne {x : jstr} l : set_of [] (x :: l) ≠ [].
Proof.
  intros E. assert (x ∈ set_of [] (x :: l)) as H by (apply elem_of_set_of; split; [left|apply not_elem_of_nil]).
  rewrite E in H. by apply not_elem_of_nil in H.
Qed.

Lemma config_items_ok m s d priv : device_given m s d → priv = [] ∨ conf_value priv = true →
  forallb item_ok (config_items m s d priv) = true.
Proof.
  intros [Hs Ha Hd Hk He [Hr Hc] Ho Hp] Hpriv.
  assert (Forall (λ w, no_hash w = true) (set_of [] (allowed_ips m))) as Hplain
    by (unfold allowed_ips; rewrite Hs; by apply allowed_plain).
  pose proof (join_value _ (set_of_ne _) (allowed_words m s Hs Ha Hr) Hplain) as Hj.
  assert (∀ k v, conf_key k && plain_line k = true → conf_value v = true → item_ok (CPair k v) = true) as P.
  { intros k v Hk' [Hv1 Hv2]%andb_true_iff. cbn. by rewrite Hk', Hv1, Hv2. }
  unfold config_items. cbn [forallb]. rewrite !andb_true_iff.
  repeat (split; [first [by_compute | apply P; [by_compute|]]|]); try done.
  - destruct Hpriv as [->|H]; [by_compute|]. by destruct priv.
  - by apply conf_value_app.
  - destruct He as [->|H]; [by_compute|]. by destruct (sr_endpoint s).
Qed.

(** ** What a run of the page keeps *)

Section runs.
Context (now : Z) (date_ms : jstr → option Z) (date_text : jstr → jstr) (null_error : jstr).
Local Abbreviation step := (pstep now date_ms date_text null_error).
Local Abbreviation run := (prun now date_ms date_text null_error).
Local Abbreviation show := (render now date_ms date_text).


















(** ** A new device *)

(** C27. When the server has made a device, the configuration the page shows is
    one a WireGuard tool reads as meant: the private key of the pair, or the
    note in its place, the device's address and the server as name server;
    and a peer with the server's key, the shared key, the server's endpoint
    and, as allowed addresses, the server's own and every route of the
    account, each once.  The card is shown, and says that the key is missing
    exactly when the page does not know it.  The server's values are addresses,
    keys and routes: words on one line, without a hash ([device_given]). *)
Theorem new_device_config q i priv m s d :
  q_jobs q !! i = Some (JAdd priv) → q_me q = Some m → device_given m s d → priv = [] ∨ conf_value priv = true →
  let c := q_card (step q (EReply i (RCreated d))) in
  ∃ ips,
    conf_read (c_config c) =
      [ (js "[Interface]",
         [(js "PrivateKey", str_or priv (js "(keep the private key that is in your WireGuard app)"));
          (js "Address", cr_address d ++ js "/32"); (js "DNS", sr_address s)]);
        (js "[Peer]",
         [(js "PublicKey", sr_publicKey s); (js "PresharedKey", cr_psk d);
          (js "Endpoint", str_or (sr_endpoint s) (js "(ask the administrator for the server address)"));
          (js "AllowedIPs", ips); (js "PersistentKeepalive", js "25")]) ]
    ∧ (∀ a, a ∈ commas_of ips ↔ a = sr_address s ++ js "/32" ∨ ∃ r, r ∈ ac_routes m ∧ a = rt_cidr r)
    ∧ NoDup (commas_of ips)
    ∧ c_hidden c = false ∧ (c_note c = [] ↔ priv ≠ []).
Proof.
  intros Hj Hm Hg Hp c.
  assert (c = PCard (config_text m d priv) (config_note priv) (file_name (cr_name d)) false) as ->.
  { unfold c. cbn [pstep]. rewrite Hj. cbn [continue default]. unfold add_created. cbn [q_me set_jobs]. by rewrite Hm. }
  exists (join (js ", ") (set_of [] (allowed_ips m))). destruct Hg as [Hs Ha Hd Hk He [Hr Hc] Ho Hpsk] eqn:Eg.
  pose proof (config_items_ok m s d priv Hg Hp) as Hok.
  assert (commas_of (join (js ", ") (set_of [] (allowed_ips m))) = set_of [] (allowed_ips m)) as ->.
  { pose proof (list_words_spec _ (allowed_words m s Hs Ha Hr)) as [F _]. by apply commas_of_join. }
  cbn [c_config c_hidden c_note]. rewrite (config_text_items m s) by done.
  split; [by rewrite conf_read_items|]. split; [|split; [apply set_of_nodup|split; [done|by destruct priv]]].
  intros a. rewrite elem_of_set_of. unfold allowed_ips. rewrite Hs. change (or_undefined _) with (sr_address s).
  rewrite elem_of_cons, list_elem_of_fmap. split.
  - intros [[->|(r & -> & Hin)] _]; [by left|right; by exists r].
  - intros H. split; [|apply not_elem_of_nil]. destruct H as [->|(r & Hin & ->)]; [by left|right; by exists r].
Qed.

(** In a browser that cannot make keys the form starts at pasting a public
    key, with the choice of making one hidden.  Adding a device resets the
    form to the hidden choice: the field for the key goes away, and the next
    submit tries to make a key instead of sending the one the user pastes. *)
Theorem reset_selects_hidden_choice es i priv d :
  let q := run (boot false portal_html) es in
  let q' := step q (EReply i (RCreated d)) in
  q_jobs q !! i = Some (JAdd priv) → q_me q ≠ None →
  f_generate_hidden (q_form q') = true ∧ f_generate (q_form q') = true ∧ f_pubkey_hidden (q_form q') = true
  ∧ q_sent (step q' ESubmit) = q_sent q'.
Proof.
  intros q q' Hj Hm. assert (f_generate_hidden (q_form q) = true) as Hh.
  { unfold q, prun. assert (∀ q e, f_generate_hidden (q_form (step q e)) = f_generate_hidden (q_form q)) as Hstep.
    { clear. intros q e. destruct e; try done; cbn [pstep].
      - unfold add_submit. by case_match.
      - by destruct yes.
      - by destruct yes.
      - destruct (q_jobs q !! i) as [j|]; [|done]. destruct j, r; try done. cbn. unfold add_created. by case_match. }
    clear q q' Hj Hm. assert (f_generate_hidden (q_form (boot false portal_html)) = true) as H0 by done.
    revert H0. generalize (boot false portal_html). induction es as [|e es IH]; intros q H0; [done|].
    cbn [fold_left]. apply IH. by rewrite Hstep. }
  unfold q'. cbn [pstep]. rewrite Hj. cbn [continue default]. unfold add_created. cbn [q_me set_jobs].
  destruct (q_me q) as [m|]; [|done]. done.
Qed.

(** ** Private keys *)

(** The run with every private key the browser makes replaced. *)
Definition blind (f : jstr → jstr) (e : pevent) : pevent :=
  match e with
  | EReply i (RKeys kp) => EReply i (RKeys (Keypair (f (privateKey kp)) (publicKey kp)))
  | e => e
  end.

(** The page without what depends on the keys: the card's text and note, and
    the keys that wait for a reply. *)
Definition erase_job (j : job) : job := match j with JAdd _ => JAdd [] | j => j end.
Definition erase (q : portal) : portal :=
  Portal (q_me q) (q_view q) (q_form q) (PCard [] [] (c_file (q_card q)) (c_hidden (q_card q)))
    (map erase_job (q_jobs q)) (q_sent q) (q_alerts q).
Definition blind_reply (f : jstr → jstr) (r : preply) : preply :=
  match r with RKeys kp => RKeys (Keypair (f (privateKey kp)) (publicKey kp)) | r => r end.

Lemma erase_send r j q : erase (send r j q) = send r (erase_job j) (erase q).
Proof. unfold erase, send. cbn. by rewrite map_app. Qed.
Lemma erase_form f q : erase (set_form f q) = set_form f (erase q).
Proof. done. Qed.
Lemma erase_jobs l q : erase (set_jobs l q) = set_jobs (map erase_job l) (erase q).
Proof. done. Qed.

Lemma erase_erase q : erase (erase q) = erase q.
Proof. unfold erase. cbn. f_equal. rewrite map_map. apply map_ext. by intros []. Qed.

Lemma erase_continue f j r q :
  erase <$> continue now date_ms date_text null_error j r q =
  erase <$> continue now date_ms date_text null_error (erase_job j) (blind_reply f r) (erase q).
Proof.
  destruct j, r; cbn [continue erase_job blind_reply fmap option_fmap option_map]; try done; f_equal;
    unfold post_device, add_failed, load; rewrite ?erase_send, ?erase_form, ?erase_erase; try done.
  - unfold add_created. cbn [q_me erase]. destruct (q_me q) as [m|]; [|by rewrite !erase_form, erase_erase].
    unfold erase. cbn. f_equal. rewrite map_map. apply map_ext. by intros [].
  - unfold add_alert, erase. cbn. f_equal. rewrite map_map. apply map_ext. by intros [].
  - unfold add_alert, erase. cbn. f_equal. rewrite map_map. apply map_ext. by intros [].
  - unfold load_reply, erase. cbn. f_equal. rewrite map_map. apply map_ext. by intros [].
  - unfold load_reply, erase. cbn. f_equal. rewrite map_map. apply map_ext. by intros [].
Qed.

Lemma erase_step f q e : erase (step q e) = erase (step (erase q) (blind f e)).
Proof.
  destruct e; cbn [pstep blind]; try (rewrite ?erase_form, ?erase_erase; done).
  - unfold add_submit. cbn [q_form erase set_form]. case_match.
    + rewrite !erase_jobs, !erase_form, erase_erase. cbn [q_jobs erase set_form set_jobs]. f_equal.
      rewrite !map_app, map_map. f_equal. apply map_ext. by intros [].
    + unfold post_device. by rewrite !erase_send, !erase_form, erase_erase.
  - destruct yes; by rewrite ?erase_send, ?erase_erase.
  - unfold load. rewrite !erase_send. f_equal. unfold erase. cbn. f_equal. rewrite map_map. apply map_ext. by intros [].
  - by rewrite !erase_send, erase_erase.
  - destruct yes; by rewrite ?erase_send, ?erase_erase.
  - transitivity (erase (step (erase q) (EReply i (blind_reply f r)))); [|by destruct r].
    cbn [pstep q_jobs erase]. rewrite (list_lookup_fmap erase_job). destruct (q_jobs q !! i) as [j|]; cbn [fmap option_fmap option_map];
      [|by rewrite erase_erase].
    pose proof (erase_continue f j r (set_jobs (delete i (q_jobs q)) q)) as E.
    rewrite erase_jobs, map_delete in E.
    destruct (continue _ _ _ _ j r _) as [q1|], (continue _ _ _ _ (erase_job j) _ _) as [q2|]; cbn in E; try done.
    + change (erase q1 = erase q2). congruence.
    + change (erase q = erase (erase q)). by rewrite erase_erase.
Qed.

Lemma erase_run f es q q' : erase q = erase q' → erase (run q es) = erase (run q' (map (blind f) es)).
Proof.
  unfold prun. revert q q'. induction es as [|e es IH]; intros q q' E; [done|]. cbn [fold_left map]. apply IH.
  rewrite (erase_step f q e), E. rewrite (erase_step id q' (blind f e)). f_equal. f_equal.
  by destruct e as [| | | | | | | |i [kp| | | |]].
Qed.

(** C6. The private keys the page makes stay in it: two runs that differ only
    in the private keys the browser made send the same requests and show the
    same page, except for the text and the note of the configuration card. *)
Theorem private_keys_stay f can es :
  let q := run (boot can portal_html) es in
  let q' := run (boot can portal_html) (map (blind f) es) in
  q_sent q' = q_sent q ∧ q_view q' = q_view q ∧ q_form q' = q_form q ∧ q_alerts q' = q_alerts q
  ∧ c_hidden (q_card q') = c_hidden (q_card q) ∧ c_file (q_card q') = c_file (q_card q).
Proof.
  intros q q'. pose proof (erase_run f es (boot can portal_html) _ eq_refl) as E.
  fold q q' in E. injection E as _ Ev Ef Ec Eh _ Es Ea. done.
Qed.
End runs.

(** ** Concrete runs *)

Definition sample_account : account :=
  Account (js "ann@example.com") (Some (Lease true (js "2026-02-01T10:00:00Z")))
    [Route (js "192.168.1.0/24") (js "tcp") (js "443"); Route (js "192.168.9.0/24") [] []; Route (js "192.168.1.0/24") (js "udp") (js "53")]
    [PDevice 4 (js "Laptop") (js "10.9.0.4") true (js "2026-01-01T09:58:00Z") (js "[2001:db8::5]:51820")]
    5 (Some (Server (js "10.9.0.1") (js "c2VydmVy=") (js "vpn.example.com:51820"))).
Definition sample_created : created := Created (js "Ann's phone (2nd)") (js "10.9.0.5") (js "cHNr").
Definition sample_now : Z := 1767261600000.
Definition sample_ms (_ : jstr) : option Z := Some 1767261480000.

Definition sample_run : list pevent :=
  [EReply 0 (RAccount sample_account); EName (js " Ann's phone (2nd)"); ESubmit;
   EReply 0 (RKeys (Keypair (js "cHJpdmF0ZQ==") (js "cHVibGlj")))].
Definition sample_portal : portal := prun sample_now sample_ms id [] (boot true portal_html) sample_run.

Example sample_portal_sent :
  q_sent sample_portal =
    [Request (js "GET") (js "/me") None;
     Request (js "POST") (js "/devices") (Some [(js "name", js "Ann's phone (2nd)"); (js "publicKey", js "cHVibGlj")])]
  ∧ v_rows (q_view sample_portal) = [(4, [js "Laptop"; js "10.9.0.4"; js "2 min ago from [2001:db8::5]"; []])].
Proof. split; by_compute. Qed.

Lemma new_device_config_witness :
  let c := q_card (pstep sample_now sample_ms id [] sample_portal (EReply 0 (RCreated sample_created))) in
  ∃ ips, commas_of ips = [js "10.9.0.1/32"; js "192.168.1.0/24"; js "192.168.9.0/24"] ∧ NoDup (commas_of ips)
    ∧ c_hidden c = false ∧ c_file c = js "Ann-s-phone-2nd".
Proof.
  destruct (new_device_config sample_now sample_ms id [] sample_portal 0 (js "cHJpdmF0ZQ==") sample_account
    (Server (js "10.9.0.1") (js "c2VydmVy=") (js "vpn.example.com:51820")) sample_created) as (ips & H & _ & Hn & Hh & _).
  - by_compute.
  - by_compute.
  - constructor; try by_compute; [right; by_compute|split; [by_compute|repeat constructor]].
  - right. by_compute.
  - exists (js "10.9.0.1/32, 192.168.1.0/24, 192.168.9.0/24"). split; [by_compute|].
    assert (ips = js "10.9.0.1/32, 192.168.1.0/24, 192.168.9.0/24") as <-.
    { match type of H with ?x = _ => let y := eval vm_compute in x in change x with y in H end. injection H as H. symmetry. exact H. }
    split; [exact Hn|]. split; [exact Hh|by_compute].
Defined.


Lemma reset_selects_hidden_choice_witness :
  let es := [EReply 0 (RAccount sample_account); EPubkey (js "cHVibGlj"); ESubmit] in
  let q := pstep sample_now sample_ms id [] (prun sample_now sample_ms id [] (boot false portal_html) es) (EReply 0 (RCreated sample_created)) in
  f_generate_hidden (q_form q) = true ∧ f_generate (q_form q) = true.
Proof.
  intros es q. destruct (reset_selects_hidden_choice sample_now sample_ms id [] es 0 [] sample_created) as (H1 & H2 & _);
    [by_compute|done|split; [exact H1|exact H2]].
Defined.

(** Logging out leaves the configuration, and the private key in it, in the
    page: the card is not cleared, the view around it is hidden. *)
Theorem logout_keeps_config now date_ms date_text null_error q message :
  q_jobs q = [] →
  let q' := prun now date_ms date_text null_error q [ELogout; EReply 0 RDone; EReply 0 (RFail message (Some 401))] in
  v_main_hidden (q_view q') = true ∧ v_login_hidden (q_view q') = false ∧ q_card q' = q_card q.
Proof. intros Hj q'. unfold q', prun. cbn [fold_left pstep send q_jobs]. by rewrite Hj. Qed.

(** Nothing stops a second submit while the first waits for its reply: two
    devices are asked for, and the second reply replaces the configuration,
    and the only copy of the private key, of the first. *)
Theorem double_submit_loses_key :
  let kp := Keypair (js "a2V5MQ==") (js "cHViMQ==") in let kp' := Keypair (js "a2V5Mg==") (js "cHViMg==") in
  let q := prun sample_now sample_ms id [] (boot true portal_html)
    [EReply 0 (RAccount sample_account); EName (js "Phone"); ESubmit; ESubmit; EReply 0 (RKeys kp); EReply 0 (RKeys kp');
     EReply 0 (RCreated sample_created); EReply 0 (RCreated sample_created)] in
  length (q_sent q) = 3%nat ∧ includes (privateKey kp) (c_config (q_card q)) = false.
Proof. split; by_compute. Qed.
