(* ===== verification/Sites.v ===== *)
(** * WireGuard sites (web/app.js, site editor)

    The editor of the sites: it opens on a stored site or on a new one, makes
    or takes the key of a new one, and shows the configuration of the site
    once.  As on the portal, a handler is cut at its awaits and the replies
    come in any order. *)

From Stdlib Require Import Ascii String ZArith NArith Lia.
From stdpp Require Import base list strings numbers.
From S2P Require Import Prelude JsString Regex Fields WireGuard.

Local Open Scope Z_scope.

(** ** The data *)

(** What the editor sends of a site, and a site as the page has it. *)
Record site_data : Type := SiteData {
  sd_name : jstr; sd_networks : list jstr; sd_endpoint : jstr; sd_keepalive : Z; sd_enabled : bool; sd_overlap : bool;
  sd_key : jstr }.
Record wg_site : Type := WgSite { wg_id : Z; wg_data : site_data }.
(** The reply to a new site, and [GET /api/wg/status]. *)
Record site_created : Type := SiteCreated { sc_address : jstr; sc_psk : jstr; sc_endpoint : jstr; sc_keepalive : Z }.
Record wg_status : Type := WgStatus { ws_publicKey : jstr; ws_endpoint : jstr; ws_address : jstr }.

Record site_form : Type := SiteForm {
  w_name : jstr; w_networks : jstr; w_endpoint : jstr; w_keepalive : jstr; w_enabled : bool; w_overlap : bool;
  w_overlap_hidden : bool; w_key_hidden : bool; w_pubkey : jstr; w_generate : bool; w_generate_disabled : bool;
  w_unsupported_hidden : bool; w_pubkey_hidden : bool }.

Inductive site_request : Type :=
  | SPut (id : Z) (s : site_data)
  | SPost (s : site_data)
  | SStatus
  | SRefresh.

(** The operations in flight: the key support of a new editor, the key pair of
    a submit, the change of a site, the new site and then the status, with
    the private key made for it. *)
Inductive site_job : Type :=
  | KCan
  | KKeys (s : site_data)
  | KPut
  | KPost (priv : jstr)
  | KStatus (priv : jstr) (c : site_created).

Record site_ui : Type := SiteUi {
  editingWGSiteId : option Z; wform : site_form; site_modal_hidden : bool; site_form_hidden : bool;
  site_created_hidden : bool; w_config : jstr; w_tunnel : jstr; site_error : option jstr;
  site_jobs : list site_job; site_sent : list site_request }.

Section sites.
(** The sites the page has loaded, and the browser's message for a property
    of [undefined]. *)
Context (wgSites : list wg_site) (undefined_error : jstr).

(** ** Opening *)

Definition site_fields (s : option wg_site) (generate : bool) (f : site_form) : site_form :=
  let d := wg_data <$> s in
  {| w_name := default [] (text_set ∘ sd_name <$> d);
     w_networks := default [] ((λ d, area_set (join [10%N] (sd_networks d))) <$> d);
     w_endpoint := default [] (text_set ∘ sd_endpoint <$> d);
     w_keepalive := number_set (js_of_Z (default 25 (sd_keepalive <$> d)));
     w_enabled := default true (sd_enabled <$> d);
     w_overlap := default false (sd_overlap <$> d);
     w_overlap_hidden := negb (default false (sd_overlap <$> d));
     w_key_hidden := bool_decide (is_Some s);
     w_pubkey := [];
     w_generate := generate;
     w_generate_disabled := w_generate_disabled f;
     w_unsupported_hidden := w_unsupported_hidden f;
     w_pubkey_hidden := w_pubkey_hidden f |}.

(** The end of [openWGSiteModal], once [can] is known; [syncWGKeyMode] shows
    the field for a key when the pasted one is chosen. *)
Definition key_choice (is_site can : bool) (f : site_form) : site_form :=
  SiteForm (w_name f) (w_networks f) (w_endpoint f) (w_keepalive f) (w_enabled f) (w_overlap f) (w_overlap_hidden f)
    (w_key_hidden f) (w_pubkey f) can (negb can) (is_site || can) can.
Definition set_wform f u :=
  SiteUi (editingWGSiteId u) f (site_modal_hidden u) (site_form_hidden u) (site_created_hidden u) (w_config u) (w_tunnel u)
    (site_error u) (site_jobs u) (site_sent u).
Definition set_sjobs l u :=
  SiteUi (editingWGSiteId u) (wform u) (site_modal_hidden u) (site_form_hidden u) (site_created_hidden u) (w_config u)
    (w_tunnel u) (site_error u) l (site_sent u).
Definition set_serror e u :=
  SiteUi (editingWGSiteId u) (wform u) (site_modal_hidden u) (site_form_hidden u) (site_created_hidden u) (w_config u)
    (w_tunnel u) e (site_jobs u) (site_sent u).
Definition ssend (r : site_request) (u : site_ui) : site_ui :=
  SiteUi (editingWGSiteId u) (wform u) (site_modal_hidden u) (site_form_hidden u) (site_created_hidden u) (w_config u)
    (w_tunnel u) (site_error u) (site_jobs u) (site_sent u ++ [r]).
Definition site_shown (u : site_ui) : site_ui :=
  SiteUi (editingWGSiteId u) (wform u) false (site_form_hidden u) (site_created_hidden u) (w_config u) (w_tunnel u)
    (site_error u) (site_jobs u) (site_sent u).

Definition openWGSiteModal (s : option wg_site) (u : site_ui) : site_ui :=
  let u1 := SiteUi (wg_id <$> s) (site_fields s (w_generate (wform u)) (wform u)) (site_modal_hidden u) false true
              (w_config u) (w_tunnel u) None (site_jobs u) (site_sent u) in
  match s with
  | Some _ => site_shown (set_wform (key_choice true false (wform u1)) u1)
  | None => set_sjobs (site_jobs u1 ++ [KCan]) u1
  end.

Definition closeWGSiteModal (u : site_ui) : site_ui :=
  ssend SRefresh
    (SiteUi (editingWGSiteId u) (wform u) true (site_form_hidden u) (site_created_hidden u) [] (w_tunnel u) (site_error u)
       (site_jobs u) (site_sent u)).

(** ** Saving *)

Definition site_read (f : site_form) : site_data :=
  SiteData (trim (w_name f)) (lines_of (w_networks f)) (trim (w_endpoint f)) (int_or (parse_int (w_keepalive f)) 0)
    (w_enabled f) (w_overlap f) [].
Definition with_key (k : jstr) (d : site_data) : site_data :=
  SiteData (sd_name d) (sd_networks d) (sd_endpoint d) (sd_keepalive d) (sd_enabled d) (sd_overlap d) k.

(** An error; the confirmation of an overlap is offered only for one. *)
Definition re_overlap : re := rstr "a network this machine is on".
Definition show_overlap (f : site_form) : site_form :=
  SiteForm (w_name f) (w_networks f) (w_endpoint f) (w_keepalive f) (w_enabled f) (w_overlap f) false (w_key_hidden f)
    (w_pubkey f) (w_generate f) (w_generate_disabled f) (w_unsupported_hidden f) (w_pubkey_hidden f).
Definition site_failed (message : jstr) (u : site_ui) : site_ui :=
  set_serror (Some message) (if re_test re_overlap message then set_wform (show_overlap (wform u)) u else u).
(** The submit handler up to its first await.  A stored site keeps its key; a
    site that is not in the page's list any more is the error of reading it. *)
Definition submit_stored (id : Z) (d : site_data) (u : site_ui) : site_ui :=
  match List.find (λ x, wg_id x =? id) wgSites with
  | Some cur => ssend (SPut id (with_key (sd_key (wg_data cur)) d)) (set_sjobs (site_jobs u ++ [KPut]) u)
  | None => site_failed undefined_error u
  end.
Definition submit_new (d : site_data) (u : site_ui) : site_ui :=
  if w_generate (wform u) then set_sjobs (site_jobs u ++ [KKeys d]) u
  else ssend (SPost (with_key (trim (w_pubkey (wform u))) d)) (set_sjobs (site_jobs u ++ [KPost []]) u).
Definition site_submit (u : site_ui) : site_ui :=
  let u := set_serror None u in
  let d := site_read (wform u) in
  match editingWGSiteId u with
  | Some id => if id =? 0 then submit_new d u else submit_stored id d u
  | None => submit_new d u
  end.

(** [created.endpoint.split(':').pop()]. *)
Definition listen_port (endpoint : jstr) : jstr := if truthy endpoint then List.last (split_ch 58 endpoint) [] else [].

Definition site_lines (st : wg_status) (c : site_created) (priv : jstr) : list jstr :=
  [ js "[Interface]";
    js "PrivateKey = " ++ str_or priv (js "(the private key that belongs to the public key you pasted)");
    js "Address = " ++ sc_address c ++ js "/32" ]
  ++ (if truthy (listen_port (sc_endpoint c)) then [js "ListenPort = " ++ listen_port (sc_endpoint c)] else [])
  ++ [ []; js "[Peer]"; js "# quicgate"; js "PublicKey = " ++ ws_publicKey st; js "PresharedKey = " ++ sc_psk c ]
  ++ (if truthy (ws_endpoint st) then [js "Endpoint = " ++ ws_endpoint st]
      else [jq "# Endpoint = (set `Public address` on the VPN page, or let quicgate call this site)"])
  ++ [ js "AllowedIPs = " ++ ws_address st ++ js "/32" ]
  ++ (if sc_keepalive c =? 0 then [] else [js "PersistentKeepalive = " ++ js_of_Z (sc_keepalive c)])
  ++ [ [] ].
Definition site_config (st : wg_status) (c : site_created) (priv : jstr) : jstr := join [10%N] (site_lines st c priv).

Definition site_made (st : wg_status) (c : site_created) (priv : jstr) (u : site_ui) : site_ui :=
  SiteUi (editingWGSiteId u) (wform u) (site_modal_hidden u) true false (site_config st c priv) (ws_address st) (site_error u)
    (site_jobs u) (site_sent u).

(** ** The life of the editor *)

Inductive site_reply : Type :=
  | AYes (can : bool)
  | AKeys (kp : keypair)
  | ASaved
  | ACreated (c : site_created)
  | AStatus (st : wg_status)
  | AFail (message : jstr).

Inductive site_event : Type :=
  | SOpen (s : option wg_site)
  | SEdit (f : site_form)          (* what the user types and ticks *)
  | SClose                         (* the cross, Cancel and the button under a configuration *)
  | SSubmit
  | SReply (i : nat) (r : site_reply).

(** The controls as the user leaves them; the choice of the key shows or hides
    the field for it ([syncWGKeyMode]). *)
Definition edited (f old : site_form) : site_form :=
  SiteForm (text_set (w_name f)) (area_set (w_networks f)) (text_set (w_endpoint f)) (number_set (w_keepalive f)) (w_enabled f)
    (w_overlap f) (w_overlap_hidden old) (w_key_hidden old) (text_set (w_pubkey f)) (w_generate f) (w_generate_disabled old)
    (w_unsupported_hidden old) (w_generate f).

Definition site_continue (j : site_job) (r : site_reply) (u : site_ui) : option site_ui :=
  match j, r with
  | KCan, AYes can => Some (site_shown (set_wform (key_choice false can (wform u)) u))
  | KKeys d, AKeys kp => Some (ssend (SPost (with_key (publicKey kp) d)) (set_sjobs (site_jobs u ++ [KPost (privateKey kp)]) u))
  | KPut, ASaved => Some (closeWGSiteModal u)
  | KPost priv, ACreated c => Some (ssend SStatus (set_sjobs (site_jobs u ++ [KStatus priv c]) u))
  | KStatus priv c, AStatus st => Some (site_made st c priv u)
  | KKeys _, AFail m | KPut, AFail m | KPost _, AFail m | KStatus _ _, AFail m => Some (site_failed m u)
  | _, _ => None
  end.

Definition site_step (u : site_ui) (e : site_event) : site_ui :=
  match e with
  | SOpen s => openWGSiteModal s u
  | SEdit f => set_wform (edited f (wform u)) u
  | SClose => closeWGSiteModal u
  | SSubmit => site_submit u
  | SReply i r =>
      match site_jobs u !! i with
      | Some j => default u (site_continue j r (set_sjobs (delete i (site_jobs u)) u))
      | None => u
      end
  end.
Definition site_run (u : site_ui) (es : list site_event) : site_ui := fold_left site_step es u.
End sites.

Arguments site_config st c priv : simpl never.

(** The page before the editor was opened. *)
Definition no_site_form : site_form := SiteForm [] [] [] (js "25") true false true false [] true false true true.
Definition sites_html : site_ui := SiteUi None no_site_form true false true [] [] None [] [].

(** ** Editing a stored site *)

Definition site_ok (d : site_data) : bool :=
  word (sd_name d) && forallb (λ n, tidy n && one_line n) (sd_networks d) && word (sd_endpoint d).

Lemma word_spec s : word s = true → text_set s = s ∧ trim s = s.
Proof. intros [H1 H2%bool_decide_eq_true]%andb_true_iff. split; [by apply text_set_id|done]. Qed.

(** C26. Opening a stored site and saving it without a change sends that site
    back, with the key it has, and nothing else. *)
Theorem site_edit_identity wgSites err s u :
  site_ok (wg_data s) = true → wg_id s ≠ 0 → List.find (λ x, wg_id x =? wg_id s) wgSites = Some s →
  let u' := site_submit wgSites err (openWGSiteModal (Some s) u) in
  site_sent u' = site_sent u ++ [SPut (wg_id s) (wg_data s)] ∧ site_modal_hidden u' = false ∧ site_error u' = None.
Proof.
  intros [[Hn Hw]%andb_true_iff He]%andb_true_iff Hid Hf u'. apply word_spec in Hn as [N1 N2], He as [E1 E2].
  apply domains_round in Hw.
  assert (∀ g g' f, with_key (sd_key (wg_data s)) (site_read (key_choice true g (site_fields (Some s) g' f))) = wg_data s) as Hd.
  { intros g g' f. unfold site_read, with_key, site_fields, key_choice. cbn. rewrite Hw, N1, N2, E1, E2, number_set_int, parse_int_js_of_Z.
    replace (int_or _ 0) with (sd_keepalive (wg_data s)) by (by destruct (sd_keepalive (wg_data s))).
    by destruct (wg_data s). }
  unfold u', site_submit. cbn [editingWGSiteId set_serror openWGSiteModal site_shown set_wform fmap option_fmap option_map].
  rewrite (proj2 (Z.eqb_neq _ _) Hid). unfold submit_stored. rewrite Hf. cbn. by rewrite Hd.
Qed.

(** ** The configuration of a new site *)

Lemma split_ch_sep sep s t : split_ch sep (s ++ sep :: t) = split_ch sep s ++ split_ch sep t.
Proof.
  induction s as [|c s IH]; cbn [app split_ch]; [by rewrite N.eqb_refl|]. rewrite IH.
  destruct (c =? sep)%N; [done|]. by destruct (split_ch_cons sep s) as (w & ws & ->).
Qed.

(** The part of an endpoint after its last colon. *)
Lemma listen_port_last h p : 58%N ∉ p → listen_port (h ++ js ":" ++ p) = p.
Proof.
  intros Hp. unfold listen_port. change (js ":" ++ p) with (58%N :: p).
  replace (truthy (h ++ 58%N :: p)) with true by (by destruct h).
  rewrite split_ch_sep, (split_ch_word 58 p) by done. apply List.last_last.
Qed.

Record site_given (st : wg_status) (c : site_created) : Prop := {
  sg_address : conf_value (sc_address c) = true;
  sg_psk : conf_value (sc_psk c) = true;
  sg_endpoint : listen_port (sc_endpoint c) = [] ∨ conf_value (listen_port (sc_endpoint c)) = true;
  sg_key : conf_value (ws_publicKey st) = true;
  sg_public : ws_endpoint st = [] ∨ conf_value (ws_endpoint st) = true;
  sg_server : conf_value (ws_address st) = true;
  sg_keepalive : 0 <= sc_keepalive c }.

Definition opt_item (b : bool) (i : conf_item) : list conf_item := if b then [i] else [].

Definition site_items (st : wg_status) (c : site_created) (priv : jstr) : list conf_item :=
  [ COpen (js "[Interface]");
    CPair (js "PrivateKey") (str_or priv (js "(the private key that belongs to the public key you pasted)"));
    CPair (js "Address") (sc_address c ++ js "/32") ]
  ++ opt_item (truthy (listen_port (sc_endpoint c))) (CPair (js "ListenPort") (listen_port (sc_endpoint c)))
  ++ [ CBlank; COpen (js "[Peer]"); CNote (js "# quicgate"); CPair (js "PublicKey") (ws_publicKey st);
       CPair (js "PresharedKey") (sc_psk c) ]
  ++ [ if truthy (ws_endpoint st) then CPair (js "Endpoint") (ws_endpoint st)
       else CNote (jq "# Endpoint = (set `Public address` on the VPN page, or let quicgate call this site)") ]
  ++ [ CPair (js "AllowedIPs") (ws_address st ++ js "/32") ]
  ++ opt_item (negb (sc_keepalive c =? 0)) (CPair (js "PersistentKeepalive") (js_of_Z (sc_keepalive c)))
  ++ [ CBlank ].

Lemma site_config_items st c priv : site_config st c priv = join [10%N] (map item_line (site_items st c priv)).
Proof.
  unfold site_config, site_lines, site_items, opt_item. rewrite !map_app.
  by destruct (truthy (listen_port _)), (truthy (ws_endpoint st)), (sc_keepalive c =? 0).
Qed.

Lemma js_of_Z_value z : 0 <= z → conf_value (js_of_Z z) = true.
Proof.
  intros Hz. pose proof (js_of_Z_nonneg z Hz) as F. pose proof (js_of_Z_ne z) as Hne.
  unfold conf_value, plain_line, one_line, no_hash. apply andb_true_iff. split; [|apply andb_true_iff; split].
  - unfold tidy. destruct (js_of_Z z) as [|x t]; [done|].
    assert (Forall (λ c, is_digit c = true) (rev (x :: t))) as G by (by apply Forall_rev).
    apply Forall_inv in F. rewrite (is_digit_not_space x) by done.
    destruct (rev (x :: t)) as [|y r] eqn:E; [by apply (f_equal length) in E; rewrite length_rev in E|].
    apply Forall_inv in G. by rewrite (is_digit_not_space y).
  - apply forallb_forall. intros x Hx%list_elem_of_In. rewrite list.Forall_forall in F. apply F in Hx.
    unfold is_digit in Hx. boolify. apply negb_true_iff, orb_false_iff. split; apply N.eqb_neq; lia.
  - apply forallb_forall. intros x Hx%list_elem_of_In. rewrite list.Forall_forall in F. apply F in Hx.
    unfold is_digit in Hx. boolify. apply negb_true_iff, N.eqb_neq. change (ch "#") with 35%N. lia.
Qed.

Lemma pair_ok k v : conf_key k && plain_line k = true → conf_value v = true → item_ok (CPair k v) = true.
Proof. intros Hk' [Hv1 Hv2]%andb_true_iff. cbn. by rewrite Hk', Hv1, Hv2. Qed.

Lemma opt_item_ok b i : (b = true → item_ok i = true) → forallb item_ok (opt_item b i) = true.
Proof. intros H. destruct b; [|done]. cbn. by rewrite H. Qed.

Lemma site_items_ok st c priv : site_given st c → priv = [] ∨ conf_value priv = true → forallb item_ok (site_items st c priv) = true.
Proof.
  intros [Ha Hp He Hk Hpub Hs Hka] Hpriv.
  assert (conf_value (str_or priv (js "(the private key that belongs to the public key you pasted)")) = true) as Hkey.
  { destruct Hpriv as [->|H]; [by_compute|]. by destruct priv. }
  pose proof (conf_value_app _ (js "/32") Ha eq_refl) as Ha'. pose proof (conf_value_app _ (js "/32") Hs eq_refl) as Hs'.
  unfold site_items. rewrite !forallb_app, (opt_item_ok (truthy _)), (opt_item_ok (negb _)).
  - cbn [forallb]. rewrite !(λ k v (H : conf_key k && plain_line k = true), pair_ok k v H) by (by_compute || done).
    destruct (truthy (ws_endpoint st)) eqn:E; [|by_compute]. rewrite pair_ok; [by_compute..|].
    by destruct Hpub as [E'|]; [rewrite E' in E|].
  - intros _. apply pair_ok; [by_compute|by apply js_of_Z_value].
  - intros E. apply pair_ok; [by_compute|]. by destruct He as [E'|]; [rewrite E' in E|].
Qed.

(** The configuration shown for a new site is read by a WireGuard tool as
    meant: the site's own key, address and, when quicgate calls the site, the
    port it listens on; and quicgate as its only peer, with the address
    quicgate is called at when there is one, the tunnel address of quicgate
    alone as allowed address, and the keepalive when it is on. *)
Theorem site_config_reads st c priv :
  site_given st c → priv = [] ∨ conf_value priv = true →
  conf_read (site_config st c priv) =
    [ (js "[Interface]",
       [(js "PrivateKey", str_or priv (js "(the private key that belongs to the public key you pasted)"));
        (js "Address", sc_address c ++ js "/32")]
       ++ (if truthy (listen_port (sc_endpoint c)) then [(js "ListenPort", listen_port (sc_endpoint c))] else []));
      (js "[Peer]",
       [(js "PublicKey", ws_publicKey st); (js "PresharedKey", sc_psk c)]
       ++ (if truthy (ws_endpoint st) then [(js "Endpoint", ws_endpoint st)] else [])
       ++ [(js "AllowedIPs", ws_address st ++ js "/32")]
       ++ (if sc_keepalive c =? 0 then [] else [(js "PersistentKeepalive", js_of_Z (sc_keepalive c))])) ].
Proof.
  intros Hg Hp. rewrite site_config_items, conf_read_items; [|done|by apply site_items_ok].
  unfold site_items, opt_item.
  by destruct (truthy (listen_port _)), (truthy (ws_endpoint st)), (sc_keepalive c =? 0).
Qed.

(** ** Private keys *)

Definition site_blind_reply (f : jstr → jstr) (r : site_reply) : site_reply :=
  match r with AKeys kp => AKeys (Keypair (f (privateKey kp)) (publicKey kp)) | r => r end.
Definition site_blind (f : jstr → jstr) (e : site_event) : site_event :=
  match e with SReply i r => SReply i (site_blind_reply f r) | e => e end.

Definition no_priv (j : site_job) : site_job :=
  match j with KPost _ => KPost [] | KStatus _ c => KStatus [] c | j => j end.
(** The page without what depends on the private keys. *)
Definition site_erase (u : site_ui) : site_ui :=
  SiteUi (editingWGSiteId u) (wform u) (site_modal_hidden u) (site_form_hidden u) (site_created_hidden u) [] (w_tunnel u)
    (site_error u) (map no_priv (site_jobs u)) (site_sent u).

Section keys.
Context (wgSites : list wg_site) (err : jstr).
Local Abbreviation step := (site_step wgSites err).
Local Abbreviation run := (site_run wgSites err).

Lemma no_priv_map l : map no_priv (map no_priv l) = map no_priv l.
Proof. rewrite map_map. apply map_ext. by intros []. Qed.
Lemma site_erase_erase u : site_erase (site_erase u) = site_erase u.
Proof. unfold site_erase. cbn. by rewrite no_priv_map. Qed.
Lemma site_erase_send r u : site_erase (ssend r u) = ssend r (site_erase u).
Proof. done. Qed.
Lemma site_erase_jobs l u : site_erase (set_sjobs l u) = set_sjobs (map no_priv l) (site_erase u).
Proof. done. Qed.
Lemma site_erase_error e u : site_erase (set_serror e u) = set_serror e (site_erase u).
Proof. done. Qed.
Lemma site_erase_failed m u : site_erase (site_failed m u) = site_failed m (site_erase u).
Proof. unfold site_failed. rewrite site_erase_error. f_equal. by destruct (re_test _ _). Qed.
Lemma site_jobs_app u l : map no_priv (site_jobs (site_erase u) ++ l) = map no_priv (site_jobs u ++ l).
Proof. rewrite !map_app. f_equal. apply no_priv_map. Qed.

Lemma site_erase_submit u : site_erase (site_submit wgSites err u) = site_erase (site_submit wgSites err (site_erase u)).
Proof.
  assert (∀ u d, site_erase (submit_new d u) = site_erase (submit_new d (site_erase u))) as Hn.
  { intros v d. unfold submit_new. cbn [wform site_erase]. destruct (w_generate (wform v));
      rewrite ?site_erase_send, !site_erase_jobs, site_jobs_app, site_erase_erase; done. }
  assert (∀ u id d, site_erase (submit_stored wgSites err id d u) = site_erase (submit_stored wgSites err id d (site_erase u))) as Hs.
  { intros v id d. unfold submit_stored. destruct (List.find _ _).
    - by rewrite !site_erase_send, !site_erase_jobs, site_jobs_app, site_erase_erase.
    - by rewrite !site_erase_failed, site_erase_erase. }
  unfold site_submit. cbn [editingWGSiteId set_serror site_erase].
  change (set_serror None (site_erase u)) with (site_erase (set_serror None u)).
  change (wform (site_erase (set_serror None u))) with (wform (set_serror None u)).
  destruct (editingWGSiteId u) as [id|]; [destruct (id =? 0)|]; auto.
Qed.

Lemma site_erase_continue f j r u :
  site_erase <$> site_continue j r u = site_erase <$> site_continue (no_priv j) (site_blind_reply f r) (site_erase u).
Proof.
  destruct j, r; cbn [site_continue no_priv site_blind_reply fmap option_fmap option_map]; try done; f_equal;
    rewrite ?site_erase_failed, ?site_erase_send, ?site_erase_jobs, ?site_erase_erase, ?map_app; cbn [site_jobs site_erase map no_priv];
    rewrite ?no_priv_map; try done; unfold site_erase; cbn; by rewrite no_priv_map.
Qed.

Lemma site_erase_step f u e : site_erase (step u e) = site_erase (step (site_erase u) (site_blind f e)).
Proof.
  destruct e as [s|g| | |i r]; cbn [site_step site_blind].
  - unfold openWGSiteModal. destruct s; unfold site_erase; cbn; [by rewrite no_priv_map|].
    by rewrite !map_app, no_priv_map.
  - unfold site_erase. cbn. by rewrite no_priv_map.
  - unfold site_erase. cbn. by rewrite no_priv_map.
  - apply site_erase_submit.
  - cbn [site_jobs site_erase]. rewrite (list_lookup_fmap no_priv).
    destruct (site_jobs u !! i) as [j|]; cbn [fmap option_fmap option_map]; [|by rewrite site_erase_erase].
    pose proof (site_erase_continue f j r (set_sjobs (delete i (site_jobs u)) u)) as E.
    rewrite site_erase_jobs, map_delete in E. cbn [site_jobs site_erase] in E |- *.
    destruct (site_continue j r _) as [u1|], (site_continue (no_priv j) _ _) as [u2|]; cbn in E; try done.
    + change (site_erase u1 = site_erase u2). congruence.
    + change (site_erase u = site_erase (site_erase u)). by rewrite site_erase_erase.
Qed.

Lemma site_erase_run f es u u' : site_erase u = site_erase u' → site_erase (run u es) = site_erase (run u' (map (site_blind f) es)).
Proof.
  unfold site_run. revert u u'. induction es as [|e es IH]; intros u u' E; [done|]. cbn [fold_left map]. apply IH.
  rewrite (site_erase_step f u e), E, (site_erase_step id u' (site_blind f e)). do 2 f_equal.
  by destruct e as [| | | |i [|kp| | | |]].
Qed.

(** The private key of a site never reaches quicgate: two runs of the
    editor that differ only in the private keys the browser made send the
    same requests and show the same page, except for the configuration. *)
Theorem site_keys_stay f es :
  let u := run sites_html es in
  let u' := run sites_html (map (site_blind f) es) in
  site_sent u' = site_sent u ∧ wform u' = wform u ∧ site_error u' = site_error u ∧ w_tunnel u' = w_tunnel u
  ∧ site_modal_hidden u' = site_modal_hidden u ∧ site_created_hidden u' = site_created_hidden u.
Proof.
  intros u u'. pose proof (site_erase_run f es sites_html _ eq_refl) as E. fold u u' in E.
  injection E as _ Ef Em _ Ec Et Ee _ Es. done.
Qed.

(** Closing the editor clears the configuration, but a site whose request
    is still in flight is not stopped by it: its configuration is written
    into the closed editor, the private key stays in the page although
    nobody has seen it, and opening the editor again does not clear it. *)
Theorem closed_editor_keeps_key u i priv c st s :
  site_jobs u !! i = Some (KStatus priv c) → priv ≠ [] →
  let u1 := run u [SClose; SReply i (AStatus st)] in
  w_config (run u [SClose]) = []
  ∧ site_modal_hidden u1 = true ∧ w_config u1 = site_config st c priv
  ∧ includes (js "PrivateKey = " ++ priv) (w_config (run u1 [SOpen s])) = true
  ∧ site_created_hidden (run u1 [SOpen s]) = true.
Proof.
  intros Hj Hp u1.
  assert (u1 = site_made st c priv (set_sjobs (delete i (site_jobs u)) (closeWGSiteModal u))) as ->.
  { unfold u1, site_run. cbn [fold_left site_step]. unfold closeWGSiteModal, ssend. cbn [site_jobs]. rewrite Hj. done. }
  split; [done|]. split; [done|]. split; [done|].
  assert (includes (js "PrivateKey = " ++ priv) (site_config st c priv) = true) as Hi.
  { unfold site_config, site_lines. cbn [app]. rewrite !join_cons.
    apply includes_app_r, includes_app_r. replace (str_or priv _) with priv by (by destruct priv).
    apply includes_app_l. }
  split; by destruct s.
Qed.
End keys.

(** ** Concrete runs *)

Definition sample_site : wg_site :=
  WgSite 3 (SiteData (js "office") [js "192.168.50.0/24"; js "10.4.0.0/16"] (js "office.example.com:51820") 25 true false (js "a2V5")).
Definition sample_made : site_created := SiteCreated (js "10.9.0.7") (js "cHNr") (js "[2001:db8::1]:51821") 25.
Definition sample_status : wg_status := WgStatus (js "c2VydmVy=") [] (js "10.9.0.1").

Lemma site_edit_identity_witness :
  site_sent (site_submit [sample_site] [] (openWGSiteModal (Some sample_site) sites_html)) = [SPut 3 (wg_data sample_site)].
Proof.
  destruct (site_edit_identity [sample_site] [] sample_site sites_html) as (H & _); [by_compute|done|by_compute|exact H].
Defined.

Lemma site_config_reads_witness :
  conf_read (site_config sample_status sample_made (js "cHJpdg==")) =
    [ (js "[Interface]", [(js "PrivateKey", js "cHJpdg=="); (js "Address", js "10.9.0.7/32"); (js "ListenPort", js "51821")]);
      (js "[Peer]", [(js "PublicKey", js "c2VydmVy="); (js "PresharedKey", js "cHNr"); (js "AllowedIPs", js "10.9.0.1/32");
         (js "PersistentKeepalive", js "25")]) ].
Proof.
  etransitivity; [apply (site_config_reads sample_status sample_made (js "cHJpdg=="))|by_compute].
  - constructor; try by_compute; try (left; by_compute); try (right; by_compute). done.
  - right. by_compute.
Defined.

Definition sample_editor : site_ui :=
  site_run [] [] sites_html
    [SOpen None; SReply 0 (AYes true); SSubmit; SReply 0 (AKeys (Keypair (js "cHJpdg==") (js "cHVi")));
     SReply 0 (ACreated sample_made)].

Lemma closed_editor_keeps_key_witness :
  let u := site_run [] [] sample_editor [SClose; SReply 0 (AStatus sample_status)] in
  site_modal_hidden u = true ∧ includes (js "PrivateKey = cHJpdg==") (w_config (site_run [] [] u [SOpen (Some sample_site)])) = true.
Proof.
  destruct (closed_editor_keeps_key [] [] sample_editor 0 (js "cHJpdg==") sample_made sample_status (Some sample_site))
    as (_ & H1 & _ & H2 & _); [by_compute|done|split; [exact H1|exact H2]].
Defined.
