(* ===== verification/Charts.v ===== *)
(** * Charts (web/charts.js)

    The overview's charts: the formats of their numbers, the line and column
    charts as the SVG elements they draw, the sparkline, the bar list, the
    share bar, legends and tables, and the ticks of the time axis.  A number
    is a binary64 value and every text is what the browser writes; the
    browser's locale formats are parameters.  The frame of a time chart, its
    axes and its tooltip are in TimeChart. *)

From Stdlib Require Import Ascii String ZArith NArith Lia.
From Stdlib Require Import SpecFloat.
From stdpp Require Import base list strings numbers.
From S2P Require Import Prelude JsString Regex Double.

Local Open Scope Z_scope.

(** ** Formats *)

Definition re_dot0 : re := rseq [rstr ".0"; REol].

(** The loop of [scaled]: the unit that fits, and whether it is the first. *)
Fixpoint scale_down (first : bool) (x base : f64) (unit : jstr) (units : list jstr) : bool * f64 * jstr :=
  match units with
  | [] => (first, x, unit)
  | u :: us => if fleb base x then scale_down false (fdiv x base) base u us else (first, x, unit)
  end.
Definition scaled (v : f64) (unit : jstr) (units : list jstr) (base : f64) : jstr :=
  let '(first, x, u) := scale_down true (SFabs v) base unit units in
  let digits := if first || fleb (f_of_Z 100) x then 0%nat else 1%nat in
  let s := replace_first re_dot0 (λ _, []) (to_fixed digits x) in
  (if fltb v f_zero then js "-" else []) ++ s ++ js " " ++ u.

Definition fmt_bits (v : f64) : jstr := scaled v (js "bit/s") (map js ["kbit/s"; "Mbit/s"; "Gbit/s"; "Tbit/s"]) (f_of_Z 1000).
Definition fmt_bytes (v : f64) : jstr := scaled v (js "B") (map js ["kB"; "MB"; "GB"; "TB"; "PB"]) (f_of_Z 1000).
Section locale.
(** [Intl.NumberFormat('en-US')], plain and compact. *)
Context (whole compact : f64 → jstr).
Definition fmt_count (v : f64) : jstr :=
  if fltb (SFabs v) (f_of_Z 1000) then whole (fdiv (f_round (fmul v (f_of_Z 10))) (f_of_Z 10)) else compact v.
Definition fmt_int (v : f64) : jstr := whole (f_round v).
End locale.
Definition fmt_ms (v : f64) : jstr :=
  if fleb (f_of_Z 1000) v then
    replace_first re_dot0 (λ _, []) (to_fixed (if fleb (f_of_Z 10000) v then 0 else 1)%nat (fdiv v (f_of_Z 1000))) ++ js " s"
  else js_of_Z (round_Z v) ++ js " ms".
Definition fmt_pct (v : f64) : jstr :=
  if feqb v f_zero then js "0%" else if fltb v (f_of_ratio 1 10) then js "<0.1%"
  else (if fleb (f_of_Z 10) v then js_of_Z (round_Z v) else replace_first re_dot0 (λ _, []) (to_fixed 1 v)) ++ js "%".

Example formats_ex :
  (fmt_bits (f_of_Z 1250000), fmt_bytes (f_of_Z 999), fmt_bytes (f_of_Z 5000), fmt_ms (f_of_Z 12400), fmt_pct (f_of_ratio 996 100)) =
  (js "1.3 Mbit/s", js "999 B", js "5 kB", js "12 s", js "10%").
Proof. by_compute. Qed.

(** ** Data *)

(** A value of a series: a number, or none ([null], or past the end). *)
Abbreviation val := (option f64).
Definition as_num (v : val) : option f64 := match v with Some x => if is_finite x then Some x else None | None => None end.
Definition isNum (v : val) : bool := match as_num v with Some _ => true | None => false end.

(** A row of the tooltip. *)
Record tip_row : Type := TipRow { tr_label : jstr; tr_value : jstr; tr_color : jstr; tr_shape : jstr }.
Record series : Type := Series { se_label : jstr; se_color : jstr; se_values : list val; se_area : bool }.
(** The data of a chart; it may bring its own titles and rows of the tooltip. *)
Record chart : Type := Chart {
  ch_start : Z; ch_step : Z; ch_points : nat; ch_series : list series; ch_title : option (nat → jstr);
  ch_rows : option (nat → list tip_row) }.
(** [s.values[i]]. *)
Definition value_at (i : nat) (s : series) : val := default None (se_values s !! i).

(** An SVG element: its tag and attributes. *)
Record svg : Type := Svg { sv_tag : jstr; sv_attrs : list (jstr * jstr) }.
Definition num_attr (k : string) (x : f64) : jstr * jstr := (js k, num_string x).
Definition fill (color : jstr) : jstr * jstr := (js "style", js "fill:" ++ color).
Definition class (c : string) : jstr * jstr := (js "class", js c).

(** [frame()]: the plot's margins and size, for a plot [width] pixels wide. *)
Record frame : Type := Frame { fr_l : f64; fr_t : f64; fr_pw : f64; fr_ph : f64 }.
Definition mk_frame (width height : Z) : frame :=
  Frame (f_of_Z 64) (f_of_Z 12) (f_of_Z (Z.max width 280 - 64 - 14)) (f_of_Z (height - 12 - 26)).
Definition f_half : f64 := f_of_ratio 1 2.
Definition xOf (n i : nat) (f : frame) : f64 :=
  fadd (fr_l f) (fmul (fdiv (fadd (f_of_Z (Z.of_nat i)) f_half) (f_of_Z (Z.of_nat n))) (fr_pw f)).

(** ** Lines *)

Abbreviation point := (f64 * f64)%type.

(** The walk over the values of a line that collects the runs of numbers and
    flushes a run at every gap and at the end. *)
Section walk.
Context {S : Type} (flush : list point → S → S).
Fixpoint walk (values : list (option point)) (run : list point) (st : S) : S :=
  match values with
  | [] => flush run st
  | Some p :: vs => walk vs (run ++ [p]) st
  | None :: vs => walk vs [] (flush run st)
  end.
End walk.

Definition pair_text (p : point) : jstr := to_fixed 1 p.1 ++ js "," ++ to_fixed 1 p.2.
Definition run_text (run : list point) : jstr := join (js "L") (map pair_text run).
Definition area_text (base : f64) (run : list point) : jstr :=
  match run with
  | [] => []
  | p :: _ =>
      js "M" ++ to_fixed 1 p.1 ++ js "," ++ num_string base ++ js "L" ++ run_text run ++ js "L"
      ++ to_fixed 1 (List.last run p).1 ++ js "," ++ num_string base ++ js "Z"
  end.

(** What the pen has: the elements drawn, and the two paths. *)
Record pen : Type := Pen { pn_marks : list svg; pn_line : jstr; pn_area : jstr }.

Definition line_flush (color : jstr) (area : bool) (base : f64) (run : list point) (p : pen) : pen :=
  match run with
  | [] => p
  | [(x, y)] =>
      Pen (pn_marks p ++ [Svg (js "circle") [num_attr "cx" x; num_attr "cy" y; (js "r", js "2"); fill color]]) (pn_line p) (pn_area p)
  | _ =>
      Pen (pn_marks p) (pn_line p ++ js "M" ++ run_text run)
        (if area then pn_area p ++ area_text base run else pn_area p)
  end.

Definition points_of (f : frame) (n : nat) (y : f64 → f64) (values : list val) : list (option point) :=
  imap (λ i v, (λ x, (xOf n i f, y x)) <$> as_num v) values.

Definition path_of (d : jstr) (attrs : list (jstr * jstr)) : list svg :=
  if truthy d then [Svg (js "path") ((js "d", d) :: attrs)] else [].

Definition draw_line (f : frame) (n : nat) (y : f64 → f64) (s : series) : list svg :=
  let base := fadd (fr_t f) (fr_ph f) in
  let p := walk (line_flush (se_color s) (se_area s) base) (points_of f n y (se_values s)) [] (Pen [] [] []) in
  pn_marks p ++ path_of (pn_area p) [fill (se_color s); class "chart__area"]
  ++ path_of (pn_line p) [(js "style", js "stroke:" ++ se_color s); class "chart__line"].

(** [LineChart.draw]. *)
Definition line_draw (f : frame) (y : f64 → f64) (c : chart) : list svg := concat (map (draw_line f (ch_points c) y) (ch_series c)).

(** [LineChart.maxValue] and [ColumnChart.maxValue]. *)
Definition max_step (m : f64) (v : val) : f64 := match as_num v with Some x => if fltb m x then x else m | None => m end.
Definition line_max (c : chart) : f64 := fold_left (λ m s, fold_left max_step (se_values s) m) (ch_series c) f_zero.
Definition column_sum (i : nat) (c : chart) : f64 :=
  fold_left (λ a s, match as_num (value_at i s) with Some x => fadd a x | None => a end) (ch_series c) f_zero.
Definition column_max (c : chart) : f64 := fold_left (λ m i, fmax m (column_sum i c)) (seq 0 (ch_points c)) f_zero.

(** ** Columns *)

(** One column on its way up: where the next segment starts, how many
    positive values were met, and the elements. *)
Record stack : Type := Stack { st_y0 : f64; st_drawn : nat; st_marks : list svg }.

Definition f2 : f64 := f_of_Z 2.
Definition cap_text (x yb yt r bw : f64) : jstr :=
  let t := num_string in
  js "M" ++ t x ++ js "," ++ t yb ++ js "V" ++ t (fadd yt r) ++ js "Q" ++ t x ++ js "," ++ t yt ++ js " " ++ t (fadd x r) ++ js ","
  ++ t yt ++ js "H" ++ t (fsub (fadd x bw) r) ++ js "Q" ++ t (fadd x bw) ++ js "," ++ t yt ++ js " " ++ t (fadd x bw) ++ js ","
  ++ t (fadd yt r) ++ js "V" ++ t yb ++ js "Z".

Definition positive (v : val) : option f64 := match as_num v with Some x => if fltb f_zero x then Some x else None | None => None end.

Definition draw_segment (x bw r base : f64) (y : f64 → f64) (visible : nat) (st : stack) (color : jstr) (v : val) : stack :=
  match positive v with
  | None => st
  | Some x0 =>
      let drawn := Datatypes.S (st_drawn st) in
      let top := fsub (y x0) (fsub base (st_y0 st)) in
      let gap := if (1 <? Z.of_nat drawn) then f2 else f_zero in
      let h := fsub (fsub (st_y0 st) top) gap in
      let yb := fsub (st_y0 st) gap in
      if fltb h f_half then Stack top drawn (st_marks st)
      else
        let mark :=
          if bool_decide (drawn = visible) && fltb r h then
            Svg (js "path") [(js "d", cap_text x yb (fsub yb h) r bw); fill color]
          else Svg (js "rect") [num_attr "x" x; num_attr "y" (fsub yb h); num_attr "width" bw; num_attr "height" h; fill color] in
        Stack top drawn (st_marks st ++ [mark])
  end.

Definition visible_count (i : nat) (c : chart) : nat := length (omap (λ s, positive (value_at i s)) (ch_series c)).

(** The width of a point's slot, and of its bar. *)
Definition slot_of (f : frame) (c : chart) : f64 := fdiv (fr_pw f) (f_of_Z (Z.of_nat (ch_points c))).
Definition bw_of (f : frame) (c : chart) : f64 := fmax (f_of_Z 1) (fmin (f_of_Z 24) (fsub (slot_of f c) f2)).
Definition draw_column (f : frame) (y : f64 → f64) (c : chart) (i : nat) : list svg :=
  let slot := slot_of f c in
  let bw := bw_of f c in
  let base := fadd (fr_t f) (fr_ph f) in
  let r := fmin (f_of_Z 4) (fdiv bw f2) in
  let x := fadd (fadd (fr_l f) (fmul (f_of_Z (Z.of_nat i)) slot)) (fdiv (fsub slot bw) f2) in
  st_marks (fold_left (λ st s, draw_segment x bw r base y (visible_count i c) st (se_color s) (value_at i s))
              (ch_series c) (Stack base 0 [])).

(** [ColumnChart.draw]. *)
Definition column_draw (f : frame) (y : f64 → f64) (c : chart) : list svg := concat (map (draw_column f y c) (seq 0 (ch_points c))).

(** ** Sparklines *)

Definition spark_flush (height : f64) (run : list point) (p : pen) : pen :=
  match run with
  | [] | [_] => p
  | _ => Pen (pn_marks p) (pn_line p ++ js "M" ++ run_text run) (pn_area p ++ area_text height run)
  end.

Definition spark_points (w h : f64) (values : list val) : list (option point) :=
  let max := f_or (fmax_all (omap as_num values)) (f_of_Z 1) in
  let n := length values in
  let x i := if bool_decide (n = 1%nat) then fdiv w f2
             else fmul (fdiv (f_of_Z (Z.of_nat i)) (f_of_Z (Z.of_nat n - 1))) w in
  let y v := fsub (fsub h f2) (fmul (fdiv v max) (fsub h (f_of_Z 4))) in
  imap (λ i v, (λ v, (x i, y v)) <$> as_num v) values.

(** [sparkline(values, { width, height })]. *)
Definition sparkline (w h : f64) (values : list val) : list svg :=
  match omap as_num values with
  | [] => []
  | _ =>
      let p := walk (spark_flush h) (spark_points w h values) [] (Pen [] [] []) in
      path_of (pn_area p) [class "spark__area"] ++ path_of (pn_line p) [class "spark__line"]
  end.

(** ** Bar lists, share bars and tables *)

(** A row of [barList], and the bar it becomes; a missing title or note is
    the empty text. *)
Record bar_row : Type := BarRow { br_title : jstr; br_label : jstr; br_mono : bool; br_note : jstr; br_value : f64 }.
Record bar : Type := Bar { ba_title : jstr; ba_label : jstr; ba_mono : bool; ba_note : jstr; ba_text : jstr; ba_width : jstr }.

Definition bar_max (rows : list bar_row) : f64 := f_or (fmax_all (map br_value rows)) (f_of_Z 1).
Definition bar_width (max v : f64) : jstr :=
  num_string (fmax (if fltb f_zero v then f_of_ratio 3 2 else f_zero) (fmul (fdiv v max) (f_of_Z 100))) ++ js "%".

(** [barList]: the note of an empty list, or the bars. *)
Definition barList (format : f64 → jstr) (empty : jstr) (rows : list bar_row) : jstr + list bar :=
  match rows with
  | [] => inl empty
  | _ => inr (map (λ r, Bar (br_title r) (br_label r) (br_mono r) (br_note r) (format (br_value r))
                          (bar_width (bar_max rows) (br_value r))) rows)
  end.

(** A part of [shareBar], its segment (grow, colour, title) and its legend
    row (colour, label, share, count). *)
Record part : Type := Part { pa_label : jstr; pa_color : jstr; pa_value : f64 }.
Definition share_text (total : f64) (p : part) : jstr := fmt_pct (fmul (fdiv (pa_value p) total) (f_of_Z 100)).
Definition shareBar (format : f64 → jstr) (empty : jstr) (parts : list part)
  : jstr + list (jstr * jstr * jstr) * list (jstr * jstr * jstr * jstr) :=
  let total := fold_left (λ a p, fadd a (pa_value p)) parts f_zero in
  if negb (f_truthy total) then inl empty
  else inr
    (map (λ p, (num_string (pa_value p), pa_color p, pa_label p ++ js ": " ++ share_text total p))
       (List.filter (λ p, f_truthy (pa_value p)) parts),
     map (λ p, (pa_color p, pa_label p, share_text total p, format (pa_value p))) parts).

Example shareBar_ex :
  shareBar num_string (js "none") [Part (js "a") (js "red") (f_of_Z 3); Part (js "b") (js "blue") f_zero; Part (js "c") (js "green") (f_of_Z 1)] =
  inr ([(js "3", js "red", js "a: 75%"); (js "1", js "green", js "c: 25%")],
       [(js "red", js "a", js "75%", js "3"); (js "blue", js "b", js "0%", js "0"); (js "green", js "c", js "25%", js "1")]).
Proof. by_compute. Qed.

(** [legend]: the class of the key, its colour and the label of each item. *)
Record legend_item : Type := LegendItem { li_label : jstr; li_color : jstr; li_shape : jstr }.
Definition legend (items : list legend_item) : list (jstr * jstr * jstr) :=
  map (λ it, (js "chart__key chart__key--" ++ str_or (li_shape it) (js "line"), li_color it, li_label it)) items.

(** [table]: the head and the rows, each cell with its class. *)
Definition th_cell (i : nat) (h : jstr) : jstr * jstr := (match i with O => [] | _ => js "num" end, h).
Definition td_cell (i : nat) (c : jstr) : jstr * jstr := (match i with O => js "mono" | _ => js "num mono" end, c).
Definition table (head : list jstr) (rows : list (list jstr)) : list (jstr * jstr) * list (list (jstr * jstr)) :=
  (imap th_cell head, map (imap td_cell) rows).

(** ** What a line shows *)

(** The runs of a list with gaps: its longest blocks without a gap. *)
Inductive runs {A} : list (option A) → list (list A) → Prop :=
  | runs_nil : runs [] []
  | runs_gap vs rs : runs vs rs → runs (None :: vs) rs
  | runs_end r : r ≠ [] → runs (map Some r) [r]
  | runs_more r vs rs : r ≠ [] → runs vs rs → runs (map Some r ++ None :: vs) (r :: rs).

Lemma runs_concat {A} (vs : list (option A)) rs : runs vs rs → concat rs = omap id vs.
Proof.
  assert (∀ r : list A, omap id (map Some r) = r) as Hr by (induction r as [|x r IH]; cbn; by f_equal).
  induction 1 as [|vs rs _ IH|r _|r vs rs _ _ IH]; cbn; [done|done|by rewrite app_nil_r, Hr|].
  by rewrite omap_app, Hr, IH.
Qed.

(** The walk flushes exactly the runs, in order. *)
Lemma walk_runs {S} (flush : list point → S → S) vs : (∀ st, flush [] st = st) →
  (∃ rs, runs vs rs ∧ ∀ st, walk flush vs [] st = fold_left (λ st r, flush r st) rs st)
  ∧ ∀ r, r ≠ [] → ∃ rs, runs (map Some r ++ vs) rs ∧ ∀ st, walk flush vs r st = fold_left (λ st r, flush r st) rs st.
Proof.
  intros H0. induction vs as [|[p|] vs [IH0 IH]].
  - split; [exists []; split; [constructor|done]|]. intros r Hr. exists [r]. rewrite app_nil_r.
    split; [by constructor|done].
  - split; [destruct (IH [p] ltac:(done)) as (rs & H1 & H2); by exists rs|].
    intros r _. destruct (IH (r ++ [p]) ltac:(by destruct r)) as (rs & H1 & H2). exists rs.
    rewrite map_app, <- app_assoc in H1. done.
  - destruct IH0 as (rs & H1 & H2). split; [exists rs; split; [by constructor|]; intros st; cbn; by rewrite H0|].
    intros r Hr. exists (r :: rs). split; [by constructor|]. intros st. cbn. apply H2.
Qed.

Definition circle_of (color : jstr) (p : point) : svg :=
  Svg (js "circle") [num_attr "cx" p.1; num_attr "cy" p.2; (js "r", js "2"); fill color].
Definition dots {A} (rs : list (list A)) : list A := concat (List.filter (λ r, bool_decide (length r = 1%nat)) rs).
Definition strokes {A} (rs : list (list A)) : list (list A) := List.filter (λ r, bool_decide (1 < length r)%nat) rs.
Definition moves (rs : list (list point)) : jstr := concat (map (λ r, js "M" ++ run_text r) rs).

Lemma line_flushes color area base rs p :
  Forall (λ r, r ≠ []) rs →
  fold_left (λ p r, line_flush color area base r p) rs p =
  Pen (pn_marks p ++ map (circle_of color) (dots rs)) (pn_line p ++ moves (strokes rs))
    (pn_area p ++ if area then concat (map (area_text base) (strokes rs)) else []).
Proof.
  intros Hr. revert p. induction Hr as [|r rs Hr _ IH]; intros p.
  - destruct p, area; cbn; by rewrite !app_nil_r.
  - cbn [fold_left]. rewrite IH. destruct r as [|q [|q' r]]; [done|..].
    + unfold dots, strokes, moves. cbn. destruct q as [x y]. cbn. by rewrite <- app_assoc.
    + assert (dots ((q :: q' :: r) :: rs) = dots rs ∧ strokes ((q :: q' :: r) :: rs) = (q :: q' :: r) :: strokes rs) as [-> ->].
      { unfold dots, strokes. cbn [List.filter length]. rewrite bool_decide_eq_false_2, bool_decide_eq_true_2 by lia. done. }
      destruct q as [x y]. unfold moves. cbn [line_flush pn_marks pn_line pn_area map concat]. f_equal.
      * by rewrite <- !app_assoc.
      * destruct area; [|done]. by rewrite <- app_assoc.
Qed.

Lemma runs_ne {A} (vs : list (option A)) rs : runs vs rs → Forall (λ r, r ≠ []) rs.
Proof. induction 1; try constructor; auto. Qed.

(** C25. A line chart draws every number of a series once and nothing else: a
    number with a gap on both sides as a dot, and every longer run of numbers
    as one stroke of the line through its points in order, so that the line
    never crosses a gap; the area, where the series has one, lies under
    exactly the strokes of the line. *)
Theorem line_draws_runs f n y s :
  ∃ rs, runs (points_of f n y (se_values s)) rs
    ∧ draw_line f n y s =
        map (circle_of (se_color s)) (dots rs)
        ++ path_of (if se_area s then concat (map (area_text (fadd (fr_t f) (fr_ph f))) (strokes rs)) else [])
             [fill (se_color s); class "chart__area"]
        ++ path_of (moves (strokes rs)) [(js "style", js "stroke:" ++ se_color s); class "chart__line"]
    ∧ concat rs = omap id (points_of f n y (se_values s)).
Proof.
  destruct (walk_runs (line_flush (se_color s) (se_area s) (fadd (fr_t f) (fr_ph f))) (points_of f n y (se_values s)))
    as [(rs & Hr & Hw) _]; [done|].
  exists rs. split; [done|]. split; [|by apply runs_concat].
  unfold draw_line. rewrite Hw, line_flushes by (by eapply runs_ne). cbn [pn_marks pn_line pn_area app]. done.
Qed.

(** ** What a column shows *)

(** The segments of a column, from below: rectangles, then at most one cap. *)
Definition column_shape (l : list svg) (n : nat) : Prop :=
  ∃ rects caps, l = rects ++ caps ∧ Forall (λ e, sv_tag e = js "rect") rects ∧ Forall (λ e, sv_tag e = js "path") caps
    ∧ (length caps <= 1)%nat ∧ (length l <= n)%nat.

Lemma segments_shape x bw r base y visible (l : list (jstr * val)) st :
  (st_drawn st + length (omap (λ p, positive p.2) l) = visible)%nat →
  Forall (λ e, sv_tag e = js "rect") (st_marks st) → (length (st_marks st) <= st_drawn st)%nat →
  column_shape (st_marks (fold_left (λ st p, draw_segment x bw r base y visible st p.1 p.2) l st)) visible.
Proof.
  revert st. induction l as [|[color v] l IH]; intros st Hv Hm Hl.
  - cbn in *. exists (st_marks st), []. rewrite app_nil_r. repeat split; [done|constructor|cbn; lia|lia].
  - cbn [fold_left fst snd]. unfold draw_segment at 2. cbn [omap list_omap snd] in Hv. destruct (positive v) as [x0|]; [|by apply IH].
    cbn [length] in Hv. case_match; [apply IH; cbn; [lia|done|lia]|].
    destruct (bool_decide (S (st_drawn st) = visible) && fltb r _) eqn:Ecap.
    + apply andb_true_iff in Ecap as [Ed%bool_decide_eq_true _].
      assert (∀ l st', omap (λ p : jstr * val, positive p.2) l = [] →
        fold_left (λ st p, draw_segment x bw r base y visible st p.1 p.2) l st' = st') as Hid.
      { clear. induction l as [|[color v] l IH]; intros st' H; [done|]. cbn in H |- *. unfold draw_segment.
        destruct (positive v); [done|]. by apply IH. }
      rewrite Hid by (apply length_zero_iff_nil; lia). cbn [st_marks].
      eexists (st_marks st), _. split; [done|]. split; [done|]. split; [by repeat constructor|]. split; [done|].
      rewrite length_app. cbn. lia.
    + apply IH; cbn [st_drawn st_marks]; [lia| |rewrite length_app; cbn; lia].
      apply list.Forall_app. split; [done|]. by repeat constructor.
Qed.

Lemma fold_left_map {A B C} (f : C → B → C) (g : A → B) l c : fold_left f (map g l) c = fold_left (λ c a, f c (g a)) l c.
Proof. revert c. induction l as [|a l IH]; intros c; [done|]. apply IH. Qed.

(** A column is drawn from below as one segment per series with a positive
    value, at most: plain rectangles, and only the last of them may have the
    rounded cap. *)
Theorem column_has_one_cap f y c i : column_shape (draw_column f y c i) (visible_count i c).
Proof.
  unfold draw_column, visible_count.
  rewrite <- (fold_left_map (λ st p, draw_segment _ _ _ _ y _ st p.1 p.2) (λ s, (se_color s, value_at i s))).
  apply segments_shape; [|constructor|done]. cbn [st_drawn]. change (0 + ?n)%nat with n.
  f_equal. induction (ch_series c) as [|s l IH]; [done|]. cbn. by rewrite IH.
Qed.

(** ** The time axis *)

Definition tick_steps : list Z := [60; 300; 600; 900; 1800; 3600; 7200; 10800; 21600; 43200; 86400].
Definition tick_step (start stop : Z) : Z := default 86400 (List.find (λ s, stop - start <=? 7 * s) tick_steps).

(** The loop of [timeTicks], from [t]; [offset] is the seconds the local time
    is ahead.  [fuel] bounds the rounds; see [timeTicks]. *)
Fixpoint ticks_from (fuel : nat) (t stop step : Z) : list Z :=
  match fuel with
  | O => []
  | Datatypes.S k => if t <=? stop then t :: ticks_from k (t + step) stop step else []
  end.
Definition first_tick (start step offset : Z) : Z := - ((- (start + offset)) / step) * step - offset.
Definition timeTicks (start stop offset : Z) : list Z :=
  let step := tick_step start stop in
  ticks_from (Z.to_nat ((stop - start) / step + 2)) (first_tick start step offset) stop step.

(** ** The ticks *)

Lemma find_bound {A} (p : A → bool) l x : List.find p l = Some x → x ∈ l.
Proof. intros [H _]%find_some. by apply list_elem_of_In. Qed.

Lemma tick_step_spec start stop : let s := tick_step start stop in s ∈ tick_steps ∧ (stop - start <= 7 * 86400 → stop - start <= 7 * s).
Proof.
  intros s. unfold s, tick_step. destruct (List.find _ _) as [x|] eqn:E; cbn [default].
  - split; [by eapply find_bound|]. apply find_some in E as [_ E]. by apply Z.leb_le in E.
  - split; [apply (bool_decide_unpack _); by_compute|]. done.
Qed.

Lemma ticks_from_spec fuel t stop step : 0 < step → stop - t < step * Z.of_nat fuel →
  ∀ x, x ∈ ticks_from fuel t stop step ↔ t <= x <= stop ∧ (step | x - t).
Proof.
  intros Hs. revert t. induction fuel as [|k IH]; intros t Hf x; cbn [ticks_from].
  - rewrite elem_of_nil. split; [done|]. intros [H _]. lia.
  - destruct (Z.leb_spec t stop).
    + rewrite elem_of_cons, IH by lia. split.
      * intros [->|[H1 H2]]; [split; [lia|]; rewrite Z.sub_diag; apply Z.divide_0_r|]. split; [lia|].
        replace (x - t) with (x - (t + step) + step) by lia. apply Z.divide_add_r; [done|apply Z.divide_refl].
      * intros [H1 [q Hq]]. destruct (decide (x = t)) as [->|Hne]; [by left|right].
        assert (1 <= q) by nia. split; [nia|]. exists (q - 1). lia.
    + rewrite elem_of_nil. split; [done|]. intros [H1 _]. lia.
Qed.

Lemma ticks_from_length fuel t stop step m : 0 < step → stop - t < step * m → 0 <= m → Z.of_nat (length (ticks_from fuel t stop step)) <= m.
Proof.
  intros Hs. revert t m. induction fuel as [|k IH]; intros t m H Hm; cbn [ticks_from length]; [lia|].
  destruct (Z.leb_spec t stop); cbn [length]; [|lia]. specialize (IH (t + step) (m - 1)). nia.
Qed.

(** The ticks of the time axis are exactly the moments of the range that
    lie on a whole number of steps of local time, the step being one of the
    round ones; and there are at most eight of them on a range of up to a
    week, the longest the overview offers. *)
Theorem timeTicks_spec start stop offset : start <= stop →
  let step := tick_step start stop in
  step ∈ tick_steps
  ∧ (∀ t, t ∈ timeTicks start stop offset ↔ start <= t <= stop ∧ (step | t + offset))
  ∧ (stop - start <= 7 * 86400 → Z.of_nat (length (timeTicks start stop offset)) <= 8).
Proof.
  intros Hr step. destruct (tick_step_spec start stop) as [Hin Hle]. fold step in Hin, Hle.
  assert (0 < step) as Hs.
  { revert Hin. generalize step. apply list.Forall_forall, (bool_decide_unpack _). by_compute. }
  assert (let a := first_tick start step offset in start <= a < start + step ∧ (step | a + offset)) as [Ha [q Hq]].
  { unfold first_tick. cbv zeta. pose proof (Z.div_mod (- (start + offset)) step ltac:(lia)) as D.
    pose proof (Z.mod_pos_bound (- (start + offset)) step Hs). split; [nia|]. exists (- (- (start + offset) / step)). lia. }
  split; [done|]. split.
  - intros t. unfold timeTicks. fold step. rewrite ticks_from_spec.
    + split.
      * intros [H1 [p Hp]]. split; [lia|]. exists (p + q). lia.
      * intros [H1 [p Hp]]. split; [|exists (p - q); lia]. split; [|lia].
        assert (t - first_tick start step offset = (p - q) * step) as E by lia. assert (- 1 < p - q) by nia. nia.
    + done.
    + pose proof (Z.div_mod (stop - start) step ltac:(lia)). pose proof (Z.mod_pos_bound (stop - start) step Hs).
      assert (0 <= (stop - start) / step) by (apply Z.div_pos; lia). rewrite Z2Nat.id by lia. nia.
  - intros Hw. unfold timeTicks. fold step. apply ticks_from_length; [done|nia|lia].
Qed.

(** ** The longest bar *)

Lemma fdiv_self s m e : fdiv (S754_finite s m e) (S754_finite s m e) = f_of_Z 1.
Proof.
  unfold fdiv, SFdiv. rewrite xorb_nilpotent. unfold SFdiv_core_binary.
  replace (Zdigits2 (Zpos m) + e - (Zdigits2 (Zpos m) + e)) with 0 by lia.
  replace (e - e) with 0 by lia. change (fexp 53 1024 0) with (-53). change (Z.min (-53) 0) with (-53).
  change (0 - -53) with 53. cbv beta iota.
  assert (Z.div_eucl (Z.shiftl (Zpos m) 53) (Zpos m) = (2 ^ 53, 0)) as ->.
  { rewrite Z.shiftl_mul_pow2 by lia. pose proof (Z.div_mul (2 ^ 53) (Zpos m) ltac:(lia)) as D.
    pose proof (Z_mod_mult (2 ^ 53) (Zpos m)) as M. rewrite (Z.mul_comm (2 ^ 53)) in D, M. unfold Z.div, Z.modulo in D, M.
    destruct (Z.div_eucl _ _) as [q r]. by subst. }
  unfold new_location, new_location_even, new_location_odd. cbn [Z.eqb]. destruct (Z.even (Zpos m)); by_compute.
Qed.

(** In a bar list the bars are those of the rows in their order, and a row
    with the largest value has the full width, when that value is positive. *)
Theorem longest_bar_full format empty rows r :
  r ∈ rows → Forall (λ r, is_finite (br_value r) = true) rows → fltb f_zero (br_value r) = true →
  Forall (λ x, fltb (br_value r) (br_value x) = false) rows →
  ∃ bars, barList format empty rows = inr bars ∧ map ba_label bars = map br_label rows
    ∧ map ba_text bars = map (λ r, format (br_value r)) rows
    ∧ ∃ b, b ∈ bars ∧ ba_label b = br_label r ∧ ba_width b = js "100%".
Proof.
  intros Hin Hfin Hpos Hmax. assert (rows ≠ []) as Hne by (by destruct rows; [apply not_elem_of_nil in Hin|]).
  eexists. split; [by destruct rows|]. split; [by rewrite map_map|]. split; [by rewrite map_map|].
  eexists. split; [apply list_elem_of_fmap; exists r; split; [reflexivity|done]|]. split; [done|]. cbn [ba_width].
  assert (Forall num (map br_value rows)) as Hn.
  { apply Forall_map. apply (list.Forall_impl _ _ _ Hfin). intros x. by destruct (br_value x). }
  destruct (fmax_all_spec (map br_value rows) Hn ltac:(by destruct rows)) as [Hm HF].
  assert (bar_max rows = br_value r) as ->.
  { apply list_elem_of_fmap in Hm as (x & Ex & Hx).
    assert (f_le (br_value r) (fmax_all (map br_value rows))) as H1.
    { rewrite list.Forall_forall in HF. apply HF, list_elem_of_fmap. by exists r. }
    assert (fltb (br_value r) (br_value x) = false) as H2 by (by rewrite list.Forall_forall in Hmax; apply Hmax).
    unfold f_le in H1. rewrite Ex in H1.
    assert (is_finite (br_value r) = true ∧ is_finite (br_value x) = true) as [F1 F2]
      by (rewrite list.Forall_forall in Hfin; split; by apply Hfin).
    assert (fltb f_zero (br_value x) = true) as Hx0.
    { apply not_false_iff_true. intros E. assert (num f_zero ∧ num (br_value x) ∧ num (br_value r)) as (N0 & Nx & Nr)
        by (split; [done|]; split; [by destruct (br_value x)|by destruct (br_value r)]).
      pose proof (f_le_trans (br_value r) (br_value x) f_zero Nr Nx N0 H1 E) as C. unfold f_le in C. by rewrite Hpos in C. }
    unfold bar_max. rewrite Ex.
    destruct (br_value r) as [|?| |[] m e], (br_value x) as [|?| |[] m' e']; try done. unfold f_or. cbn [f_truthy].
    assert (∀ m e, num (S754_finite false m e)) as Nn by done.
    pose proof (flt_total _ _ (Nn _ _) (Nn _ _) H1 H2) as K. cbn in K. by injection K as -> ->. }
  assert (is_finite (br_value r) = true) as F by (rewrite list.Forall_forall in Hfin; by apply Hfin).
  unfold bar_width. rewrite Hpos. destruct (br_value r) as [|?| |[] m e]; try done. rewrite fdiv_self. by_compute.
Qed.

(** ** Concrete inputs *)

Lemma timeTicks_spec_witness :
  timeTicks 1767261600 1767265200 3600 = [1767261600; 1767262200; 1767262800; 1767263400; 1767264000; 1767264600; 1767265200]
  ∧ Z.of_nat (length (timeTicks 1767261600 1767265200 3600)) <= 8.
Proof.
  split; [by_compute|]. destruct (timeTicks_spec 1767261600 1767265200 3600) as (_ & _ & H); [lia|]. apply H. lia.
Defined.

Definition sample_bars : list bar_row :=
  [BarRow [] (js "a.example") false [] (f_of_Z 30); BarRow [] (js "b.example") true (js "1%") (f_of_ratio 1 3)].
Lemma longest_bar_full_witness :
  ∃ bars, barList num_string [] sample_bars = inr bars ∧ ∃ b, b ∈ bars ∧ ba_label b = js "a.example" ∧ ba_width b = js "100%".
Proof.
  destruct (longest_bar_full num_string [] sample_bars (BarRow [] (js "a.example") false [] (f_of_Z 30))) as (bars & H & _ & _ & Hb).
  - by left.
  - repeat constructor.
  - by_compute.
  - repeat constructor.
  - by exists bars.
Defined.
