(* ===== verification/TimeChart.v ===== *)
(** * Time charts (web/charts.js, [TimeChart] and its two classes)

    The frame that the line chart and the column chart share: the names of
    dates and spans, the gridlines and labels of the axes, the tooltip with
    its place, and the state that pointer, keys, new data and a change of
    size act on.  [ChartKind] is what a class of charts has of its own;
    [line_kind] and [column_kind] are the two.  The browser's [Math.log10],
    [Math.pow], the local time and the layout are parameters. *)

From Stdlib Require Import Ascii String ZArith NArith Lia.
From Stdlib Require Import SpecFloat.
From stdpp Require Import base list strings numbers.
From S2P Require Import Prelude JsString Double Charts.

Local Open Scope Z_scope.

(** ** Dates *)

Section dates.
(** The seconds by which the local time is ahead at a moment. *)
Context (offset : Z → Z).

Definition pad2 (n : Z) : jstr := let s := js_of_Z n in if (length s <? 2)%nat then js "0" ++ s else s.
Definition DAYS : list jstr := map js ["Sun"; "Mon"; "Tue"; "Wed"; "Thu"; "Fri"; "Sat"].
Definition MONTHS : list jstr := map js ["Jan"; "Feb"; "Mar"; "Apr"; "May"; "Jun"; "Jul"; "Aug"; "Sep"; "Oct"; "Nov"; "Dec"].

(** The parts of a [Date] at [t] seconds, in local time. *)
Definition local_day (t : Z) : Z := (t + offset t) / 86400.
Definition local_secs (t : Z) : Z := (t + offset t) mod 86400.
Definition getHours (t : Z) : Z := local_secs t / 3600.
Definition getMinutes (t : Z) : Z := local_secs t mod 3600 / 60.
Definition getSeconds (t : Z) : Z := local_secs t mod 60.
Definition getDay (t : Z) : Z := (local_day t + 4) mod 7.
(** Month (from 0) and day of the month of a day counted from 1970, the year
    taken to begin in March. *)
Definition month_date (day : Z) : Z * Z :=
  let z := day + 719468 in
  let doe := z mod 146097 in
  let yoe := (doe - doe / 1460 + doe / 36524 - doe / 146096) / 365 in
  let doy := doe - (365 * yoe + yoe / 4 - yoe / 100) in
  let mp := (5 * doy + 2) / 153 in
  ((mp + 2) mod 12, doy - (153 * mp + 2) / 5 + 1).
Definition getMonth (t : Z) : Z := (month_date (local_day t)).1.
Definition getDate (t : Z) : Z := (month_date (local_day t)).2.

Definition hhmm (t : Z) : jstr := pad2 (getHours t) ++ js ":" ++ pad2 (getMinutes t).
Definition day_name (t : Z) : jstr := default [] (DAYS !! Z.to_nat (getDay t)).
Definition dayLabel (t : Z) : jstr :=
  day_name t ++ js " " ++ js_of_Z (getDate t) ++ js " " ++ default [] (MONTHS !! Z.to_nat (getMonth t)).
(** [spanLabel]. *)
Definition spanLabel (t step : Z) : jstr :=
  let b := t + step in
  if step <? 60 then
    dayLabel t ++ js ", " ++ hhmm t ++ js ":" ++ pad2 (getSeconds t) ++ js " to " ++ hhmm b ++ js ":" ++ pad2 (getSeconds b)
  else dayLabel t ++ js ", " ++ hhmm t ++ js " to " ++ hhmm b.

(** What [timeTicks] returns: the ticks with their labels. *)
Definition tick_label (step t : Z) : jstr := if 86400 <=? step then day_name t ++ js " " ++ js_of_Z (getDate t) else hhmm t.
Definition labelled_ticks (start stop : Z) : list (Z * jstr) :=
  map (λ t, (t, tick_label (tick_step start stop) t)) (timeTicks start stop (offset start)).
End dates.

Example spanLabel_ex :
  (spanLabel (λ _, 7200) 1709164800 10, spanLabel (λ _, 0) 1735689540 3600) =
  (js "Thu 29 Feb, 02:00:00 to 02:00:10", js "Tue 31 Dec, 23:59 to 00:59").
Proof. by_compute. Qed.

(** ** The axes *)

(** An element with the text in it. *)
Abbreviation mark := (svg * jstr)%type.

Section axes.
Context (log10 : f64 → f64) (pow : f64 → f64 → f64) (offset : Z → Z) (label : f64 → jstr).

Definition f1e9 : f64 := f_of_ratio 1 (10 ^ 9).
Definition niceScale (max ticks : f64) : f64 * f64 :=
  if negb (fltb f_zero max) then (f_of_Z 1, f_of_ratio 1 4)
  else
    let raw := fdiv max ticks in
    let mag := pow (f_of_Z 10) (f_floor (log10 raw)) in
    let r := fdiv raw mag in
    let step := fmul (if fltb (f_of_Z 5) r then f_of_Z 10 else if fltb f2 r then f_of_Z 5
                      else if fltb (f_of_Z 1) r then f2 else f_of_Z 1) mag in
    (fmul (f_ceil (fsub (fdiv max step) f1e9)) step, step).
Definition y_of (f : frame) (max v : f64) : f64 :=
  fsub (fadd (fr_t f) (fr_ph f)) (fmul (fdiv v (niceScale max (f_of_Z 4)).1) (fr_ph f)).

(** The loop over the gridlines, from [v]; [fuel] bounds its rounds, and
    there is no result when they are not enough ([gridlines_spec]). *)
Fixpoint gridlines (fuel : nat) (v top step : f64) : option (list f64) :=
  match fuel with
  | O => None
  | Datatypes.S k =>
      if fleb v (fadd top (fdiv step f2)) then cons v <$> gridlines k (fadd v step) top step else Some []
  end.
Definition grid_rounds : nat := 64.

Definition grid_mark (f : frame) (y : f64 → f64) (v : f64) : list mark :=
  let yy := fadd (f_round (y v)) f_half in
  [(Svg (js "line") [num_attr "x1" (fr_l f); num_attr "x2" (fadd (fr_l f) (fr_pw f)); num_attr "y1" yy; num_attr "y2" yy;
      class (if feqb v f_zero then "chart__base" else "chart__grid")], []);
   (Svg (js "text") [num_attr "x" (fsub (fr_l f) (f_of_Z 10)); num_attr "y" yy; class "chart__ylabel"; (js "text-anchor", js "end");
      (js "dominant-baseline", js "middle")], label v)].

Definition tick_mark (f : frame) (c : chart) (tick : Z * jstr) : list mark :=
  let stop := ch_start c + Z.of_nat (ch_points c) * ch_step c in
  let x := fadd (fr_l f) (fmul (fdiv (f_of_Z (tick.1 - ch_start c)) (f_of_Z (stop - ch_start c))) (fr_pw f)) in
  if fltb x (fadd (fr_l f) (f_of_Z 16)) || fltb (fsub (fadd (fr_l f) (fr_pw f)) (f_of_Z 16)) x then []
  else
    let xx := fadd (f_round x) f_half in
    let base := fadd (fr_t f) (fr_ph f) in
    [(Svg (js "line") [num_attr "x1" xx; num_attr "x2" xx; num_attr "y1" base; num_attr "y2" (fadd base (f_of_Z 4)); class "chart__base"], []);
     (Svg (js "text") [num_attr "x" x; num_attr "y" (fadd base (f_of_Z 18)); class "chart__xlabel"; (js "text-anchor", js "middle")], tick.2)].

(** [axes]: what it draws; the function it returns is [y_of]. *)
Definition axes (f : frame) (max : f64) (c : chart) : option (list mark) :=
  let '(top, step) := niceScale max (f_of_Z 4) in
  (λ lines, concat (map (grid_mark f (y_of f max)) lines)
    ++ concat (map (tick_mark f c) (labelled_ticks offset (ch_start c) (ch_start c + Z.of_nat (ch_points c) * ch_step c))))
  <$> gridlines grid_rounds f_zero top step.
End axes.

(** ** The tooltip *)

(** Beside the point, on the other side where there is no room: [host_w] is
    the width of the chart and [w] that of the tooltip. *)
Definition tip_left (host_w w : Z) (x : f64) : f64 :=
  let right := fadd x (f_of_Z 14) in
  if fltb (f_of_Z host_w) (fadd right (f_of_Z w)) then fmax (f_of_Z 4) (fsub (fsub x (f_of_Z 14)) (f_of_Z w)) else right.
Definition tip_top (y : f64) : f64 := fmax (f_of_Z 4) y.
Record tip : Type := Tip { tp_title : jstr; tp_rows : list tip_row; tp_left : f64; tp_top : f64 }.

(** ** A class of charts *)

Class ChartKind : Type := {
  kd_max : chart → f64;
  kd_draw : frame → (f64 → f64) → chart → list svg;
  kd_hover : frame → (f64 → f64) → chart → nat → list svg;
  kd_title : (Z → Z → jstr) → chart → nat → jstr;
  kd_rows : (f64 → jstr) → chart → nat → list tip_row;
  kd_x : frame → chart → nat → f64 }.

(** The texts of a value in the tooltip, and of a point's title. *)
Definition val_text (format : f64 → jstr) (v : val) : jstr := match as_num v with Some x => format x | None => js "no data" end.
Definition span_of (span : Z → Z → jstr) (c : chart) (i : nat) : jstr := span (ch_start c + Z.of_nat i * ch_step c) (ch_step c).

(** [LineChart]: a vertical line with a dot on every series. *)
Definition tip_rows (format : f64 → jstr) (c : chart) (i : nat) : list tip_row :=
  map (λ s, TipRow (se_label s) (val_text format (value_at i s)) (se_color s) (js "line")) (ch_series c).
Definition tip_title (span : Z → Z → jstr) (c : chart) (i : nat) : jstr :=
  match ch_title c with Some title => title i | None => span_of span c i end.
Definition cross_marks (f : frame) (y : f64 → f64) (c : chart) (i : nat) : list svg :=
  let x := xOf (ch_points c) i f in
  Svg (js "line") [num_attr "x1" x; num_attr "x2" x; num_attr "y1" (fr_t f); num_attr "y2" (fadd (fr_t f) (fr_ph f)); class "chart__cross"]
  :: omap (λ s, (λ v, Svg (js "circle") [num_attr "cx" x; num_attr "cy" (y v); (js "r", js "4"); fill (se_color s); class "chart__dot"])
                 <$> as_num (value_at i s)) (ch_series c).
#[export] Instance line_kind : ChartKind := {
  kd_max := line_max; kd_draw := line_draw; kd_hover := cross_marks; kd_title := tip_title; kd_rows := tip_rows;
  kd_x f c i := xOf (ch_points c) i f }.

(** [ColumnChart]: a light bar behind the column, and the series from the top. *)
Definition column_rows (format : f64 → jstr) (c : chart) (i : nat) : list tip_row :=
  match ch_rows c with
  | Some rows => rows i
  | None => map (λ s, TipRow (se_label s) (val_text format (value_at i s)) (se_color s) (js "box")) (rev (ch_series c))
  end.
Definition column_x (f : frame) (c : chart) (i : nat) : f64 := fadd (fr_l f) (fmul (f_of_Z (Z.of_nat i)) (slot_of f c)).
Definition hover_bar (f : frame) (y : f64 → f64) (c : chart) (i : nat) : list svg :=
  let slot := slot_of f c in
  let bw := bw_of f c in
  [Svg (js "rect")
     [num_attr "x" (fsub (fadd (column_x f c i) (fdiv (fsub slot bw) f2)) (f_of_Z 3)); num_attr "y" (fr_t f);
      num_attr "width" (fadd bw (f_of_Z 6)); num_attr "height" (fr_ph f); class "chart__colhover"]].
Definition column_kind : ChartKind := {|
  kd_max := column_max; kd_draw := column_draw; kd_hover := hover_bar; kd_title := span_of; kd_rows := column_rows;
  kd_x f c i := fadd (column_x f c i) (fdiv (slot_of f c) f2) |}.

(** ** The chart and what acts on it *)

Section charts.
Context {K : ChartKind} (log10 : f64 → f64) (pow : f64 → f64 → f64) (offset : Z → Z) (format axis_format : f64 → jstr).
(** The widths of the chart and of its tooltip with these texts, when the
    plot has a width. *)
Context (layout : Z → jstr → list tip_row → Z * Z).

(** [t_frame] and [t_y] are what the last [render] left, [t_axes] and [t_svg]
    what it drew; [t_cross] is the marks of the chosen point and [t_empty] the
    note of a chart without data. *)
Record time_chart : Type := TimeChart {
  t_height : Z; t_minMax : f64; t_width : Z; t_data : option chart; t_frame : option frame; t_y : f64 → f64;
  t_axes : option (list mark); t_svg : list svg; t_empty : bool; t_cross : list svg; t_idx : option Z; t_tip : tip; t_tip_hidden : bool }.

Definition count (t : time_chart) : Z := match t_data t with Some c => Z.of_nat (ch_points c) | None => 0 end.
Definition hasData (c : chart) (i : nat) : bool := existsb (λ s, isNum (value_at i s)) (ch_series c).
Definition lastIndex (t : time_chart) : Z :=
  match t_data t with
  | Some c =>
      match List.find (hasData c) (rev (seq 0 (ch_points c))) with Some i => Z.of_nat i | None => Z.of_nat (ch_points c) - 1 end
  | None => -1
  end.
Definition anyData (c : chart) : bool := existsb (hasData c) (seq 0 (ch_points c)).
Definition get_frame (t : time_chart) : frame := mk_frame (t_width t) (t_height t).

Definition render (t : time_chart) : time_chart :=
  match t_data t with
  | None => t
  | Some c =>
      let f := get_frame t in
      let max := fmax (kd_max c) (t_minMax t) in
      let y := y_of log10 pow f max in
      TimeChart (t_height t) (t_minMax t) (t_width t) (t_data t) (Some f) y (axes log10 pow offset axis_format f max c) (kd_draw f y c)
        (negb (anyData c)) [] (t_idx t) (t_tip t) (t_tip_hidden t)
  end.

Definition point_tip (f : frame) (width : Z) (c : chart) (i : nat) : tip :=
  let title := kd_title (spanLabel offset) c i in
  let rows := kd_rows format c i in
  let '(host_w, w) := layout width title rows in
  Tip title rows (tip_left host_w w (kd_x f c i)) (tip_top (fr_t f)).

(** [setIndex] of both classes. *)
Definition setIndex (i : Z) (t : time_chart) : time_chart :=
  match t_data t with
  | None => t
  | Some c =>
      if i <? 0 then t
      else
        let f := default (get_frame t) (t_frame t) in
        let n := Z.to_nat i in
        TimeChart (t_height t) (t_minMax t) (t_width t) (t_data t) (t_frame t) (t_y t) (t_axes t) (t_svg t) (t_empty t)
          (kd_hover f (t_y t) c n) (Some i) (point_tip f (t_width t) c n) false
  end.

Definition clearHover (t : time_chart) : time_chart :=
  TimeChart (t_height t) (t_minMax t) (t_width t) (t_data t) (t_frame t) (t_y t) (t_axes t) (t_svg t) (t_empty t) [] None (t_tip t) true.

Definition set_data (c : chart) (t : time_chart) : time_chart :=
  TimeChart (t_height t) (t_minMax t) (t_width t) (Some c) (t_frame t) (t_y t) (t_axes t) (t_svg t) (t_empty t) (t_cross t) (t_idx t)
    (t_tip t) (t_tip_hidden t).
Definition update (c : chart) (t : time_chart) : time_chart :=
  let t := render (set_data c t) in
  match t_idx t with Some i => setIndex (Z.min i (count t - 1)) t | None => t end.

(** [Math.max(0, Math.min(n - 1, Math.floor(x)))]; no result for NaN, which no
    pointer coordinate gives. *)
Definition clamp_floor (n : Z) (x : f64) : option Z :=
  match x with
  | S754_nan => None
  | S754_infinity neg => Some (if neg then 0 else Z.max 0 (n - 1))
  | _ => Some (Z.max 0 (Z.min (n - 1) (floor_Z x)))
  end.
(** [pointAt], at [x] pixels from the plot's left edge. *)
Definition pointAt (x : f64) (t : time_chart) : time_chart :=
  match t_data t with
  | None => t
  | Some _ =>
      let f := get_frame t in
      match clamp_floor (count t) (fmul (fdiv (fsub x (fr_l f)) (fr_pw f)) (f_of_Z (count t))) with
      | Some i => setIndex i t
      | None => t
      end
  end.

Inductive key : Type := ArrowLeft | ArrowRight | PageUp | PageDown | Home | End_ | Escape | OtherKey.
Definition move_of (k : key) : option Z :=
  match k with ArrowLeft => Some (-1) | ArrowRight => Some 1 | PageUp => Some (-10) | PageDown => Some 10 | _ => None end.
Definition onKey (k : key) (t : time_chart) : time_chart :=
  match t_data t with
  | None => t
  | Some _ =>
      match move_of k with
      | Some d => setIndex (Z.max 0 (Z.min (count t - 1) (default (lastIndex t) (t_idx t) + d))) t
      | None =>
          match k with
          | Home => setIndex 0 t
          | End_ => setIndex (lastIndex t) t
          | Escape => clearHover t
          | _ => t
          end
      end
  end.

Inductive tevent : Type :=
  | TUpdate (c : chart)
  | TPoint (x : f64)
  | TLeave
  | TFocus
  | TBlur
  | TKey (k : key)
  | TResize (width : Z).

Definition set_width (w : Z) (t : time_chart) : time_chart :=
  TimeChart (t_height t) (t_minMax t) w (t_data t) (t_frame t) (t_y t) (t_axes t) (t_svg t) (t_empty t) (t_cross t) (t_idx t) (t_tip t)
    (t_tip_hidden t).

Definition tstep (t : time_chart) (e : tevent) : time_chart :=
  match e with
  | TUpdate c => update c t
  | TPoint x => pointAt x t
  | TLeave | TBlur => clearHover t
  | TFocus => setIndex (lastIndex t) t
  | TKey k => onKey k t
  | TResize w => if w =? t_width t then t else render (set_width w t)
  end.
Definition trun (t : time_chart) (es : list tevent) : time_chart := fold_left tstep es t.

(** [new LineChart(host, opts)] and [new ColumnChart(host, opts)]. *)
Definition new_chart (height width : Z) (minMax : f64) : time_chart :=
  TimeChart height minMax width None None (λ v, v) None [] false [] None (Tip [] [] f_zero f_zero) true.
End charts.

(** ** What the tooltip shows *)

Section hover.
Context {K : ChartKind} (log10 : f64 → f64) (pow : f64 → f64 → f64) (offset : Z → Z) (format axis_format : f64 → jstr).
Context (layout : Z → jstr → list tip_row → Z * Z).
Local Abbreviation step := (tstep log10 pow offset format axis_format layout).
Local Abbreviation draw := (render log10 pow offset axis_format).
Local Abbreviation choose := (setIndex offset format layout).

Definition frame_of (t : time_chart) : frame := default (get_frame t) (t_frame t).

(** The tooltip is up exactly when a point is chosen, and then it shows that
    point of the data. *)
Definition shows (t : time_chart) (c : chart) (i : Z) : Prop :=
  0 <= i < Z.of_nat (ch_points c)
  ∧ tp_title (t_tip t) = kd_title (spanLabel offset) c (Z.to_nat i) ∧ tp_rows (t_tip t) = kd_rows format c (Z.to_nat i).
(** The mark is that of the chosen point, if there is one. *)
Definition marked (t : time_chart) : Prop :=
  t_cross t = [] ∨ ∃ i c, t_idx t = Some i ∧ t_data t = Some c ∧ t_cross t = kd_hover (frame_of t) (t_y t) c (Z.to_nat i).

Record hover_ok (t : time_chart) : Prop := {
  ho_tip : t_tip_hidden t = bool_decide (t_idx t = None);
  ho_idx : ∀ i, t_idx t = Some i → 0 <= i ∧ ∃ c, t_data t = Some c ∧ (ch_points c ≠ 0%nat → shows t c i);
  ho_cross : marked t }.

Lemma clear_ok t : hover_ok (clearHover t).
Proof. constructor; [done|done|by left]. Qed.

Lemma tip_shows f w c n : tp_title (point_tip offset format layout f w c n) = kd_title (spanLabel offset) c n
  ∧ tp_rows (point_tip offset format layout f w c n) = kd_rows format c n.
Proof. unfold point_tip. by destruct (layout _ _ _). Qed.

Lemma setIndex_ok i t : hover_ok t → (0 < count t → i < count t) → hover_ok (choose i t).
Proof.
  intros H Hi. unfold setIndex, count in *. destruct (t_data t) as [c|] eqn:E; [|done].
  destruct (Z.ltb_spec i 0); [done|]. constructor; [done| |right; by exists i, c].
  intros j [= <-]. split; [done|]. exists c. cbn [t_data]. split; [done|]. intros Hc. split; [lia|apply tip_shows].
Qed.

Lemma redraw_ok w t : hover_ok t → hover_ok (draw (set_width w t)).
Proof.
  intros [Ht Hi Hc]. unfold render. cbn [set_width t_data]. destruct (t_data t) as [c|] eqn:E.
  - constructor; [done| |by left]. intros i Hj. destruct (Hi i Hj) as (H0 & c' & E' & Hs). split; [done|]. exists c'. split; [cbn; congruence|exact Hs].
  - constructor; [done| |].
    + intros i Hj. destruct (Hi i Hj) as (_ & c' & E' & _). congruence.
    + destruct Hc as [Hc|(i & c & _ & E' & _)]; [by left|congruence].
Qed.

Lemma lastIndex_bound t : 0 < count t → lastIndex t < count t.
Proof.
  unfold lastIndex, count. destruct (t_data t) as [c|]; [|lia]. intros H.
  destruct (List.find _ _) as [i|] eqn:E; [|lia]. apply find_bound, list_elem_of_In, in_rev, in_seq in E. lia.
Qed.

Lemma update_ok c t : hover_ok t → hover_ok (update log10 pow offset format axis_format layout c t).
Proof.
  intros [Ht Hi _]. unfold update. set (r := draw (set_data c t)).
  assert (t_data r = Some c ∧ t_idx r = t_idx t ∧ t_tip_hidden r = t_tip_hidden t ∧ t_cross r = []) as (Ed & Ei & Eh & Ex) by done.
  assert (count r = Z.of_nat (ch_points c)) as Ec by (unfold count; by rewrite Ed).
  clearbody r. rewrite Ei. destruct (t_idx t) as [i|] eqn:E.
  - destruct (Hi i eq_refl) as [H0 _]. unfold setIndex. rewrite Ed. destruct (Z.ltb_spec (Z.min i (count r - 1)) 0).
    + constructor; [by rewrite Eh, Ht, Ei| |by left]. intros j Hj. rewrite Ei in Hj. injection Hj as <-. split; [done|].
      exists c. split; [done|]. intros Hc. lia.
    + constructor; [done| |right; by eexists _, c]. intros j [= <-]. split; [done|]. exists c. split; [done|].
      intros Hc. split; [lia|apply tip_shows].
  - constructor; [by rewrite Eh, Ht, Ei| |by left]. intros j Hj. by rewrite Ei in Hj.
Qed.

Lemma clamp_bound n x i : clamp_floor n x = Some i → 0 < n → i < n.
Proof. unfold clamp_floor. destruct x as [?|[]| |?]; intros [= <-]; lia. Qed.

Lemma tstep_ok t e : hover_ok t → hover_ok (step t e).
Proof.
  intros H. destruct e as [c|x| | | |k|w]; cbn [tstep]; try apply clear_ok.
  - by apply update_ok.
  - unfold pointAt. destruct (t_data t); [|done]. destruct (clamp_floor _ _) as [i|] eqn:E; [|done].
    apply setIndex_ok; [done|]. intros Hn. by eapply clamp_bound.
  - apply setIndex_ok; [done|]. apply lastIndex_bound.
  - unfold onKey. destruct (t_data t) eqn:E; [|done]. destruct (move_of k) as [d|]; [apply setIndex_ok; [done|lia]|].
    destruct k; try done.
    + by apply setIndex_ok.
    + apply setIndex_ok; [done|]. apply lastIndex_bound.
    + apply clear_ok.
  - destruct (w =? t_width t); [done|]. by apply redraw_ok.
Qed.

(** C36. Wherever the pointer goes, whatever keys are pressed, and however often
    the chart gets new data or is resized in between, for either class of
    charts: the tooltip is up exactly when a point is chosen, and as long as
    the chart has points the chosen one is one of them and the tooltip's
    title and rows are those of that point in the data shown now; and what is
    marked in the plot is that point or nothing. *)
Theorem tooltip_shows_data height width minMax es :
  let t := trun log10 pow offset format axis_format layout (new_chart height width minMax) es in
  (t_tip_hidden t = false ↔ ∃ i, t_idx t = Some i)
  ∧ (∀ i, t_idx t = Some i → ∃ c, t_data t = Some c ∧ (ch_points c ≠ 0%nat → shows t c i))
  ∧ marked t.
Proof.
  intros t. assert (hover_ok t) as [Ht Hi Hm].
  { unfold t, trun. assert (hover_ok (new_chart height width minMax)) as H0 by (constructor; [done|done|by left]).
    revert H0. generalize (new_chart height width minMax). induction es as [|e es IH]; intros t0 H0; [done|].
    cbn [fold_left]. by apply IH, tstep_ok. }
  split; [|split; [|done]; intros i H; by apply Hi].
  rewrite Ht. destruct (t_idx t) as [i|]; cbn; split; intros H; try done; [by exists i|by destruct H].
Qed.
End hover.

(** ** The gridlines *)

(** On an axis whose step is [s * 2 ^ e], all of it exact. *)
Lemma dy_double a e : 0 <= a < 2 ^ 53 → mid e → mid (e - 1) → dy a e = dy (a * 2) (e - 1).
Proof. intros Ha He He'. change (a * 2) with (a * 2 ^ 1). rewrite dy_shift; [f_equal; lia|done|lia|done|by replace (e - 1 + 1) with e by lia]. Qed.

Lemma gridlines_run fuel k n s e : 0 < s → 0 <= k <= n + 1 → 0 <= n → (2 * n + 3) * s < 2 ^ 53 → mid e → mid (e - 1) →
  n + 1 - k < Z.of_nat fuel →
  gridlines fuel (dy (k * s) e) (dy (n * s) e) (dy s e) = Some (map (λ j, dy (j * s) e) (seqZ k (n + 1 - k))).
Proof.
  intros Hs. revert k. induction fuel as [|fuel IH]; intros k Hk H0 Hn He He' Hf; [lia|]. cbn [gridlines].
  assert (0 <= k * s <= (n + 1) * s) as [K1 K2] by (split; [apply Z.mul_nonneg_nonneg; lia|apply Z.mul_le_mono_nonneg_r; lia]).
  assert (0 <= n * s) as K3 by (apply Z.mul_nonneg_nonneg; lia). rewrite Z.mul_add_distr_r in Hn, K2.
  assert (fadd (dy (n * s) e) (fdiv (dy s e) f2) = dy (n * s * 2 + s) (e - 1)) as ->.
  { unfold f2. rewrite dy_half, (dy_double (n * s)), dy_add; try done; lia. }
  rewrite (dy_double (k * s)), dy_le by (done || lia). rewrite <- (dy_double (k * s)) by (done || lia).
  destruct (Z.leb_spec (k * s * 2) (n * s * 2 + s)) as [C|C].
  - assert (k <= n) as Hkn by (destruct (Z.eq_dec k (n + 1)) as [->|]; [rewrite Z.mul_add_distr_r in C; lia|lia]).
    rewrite dy_add by (done || lia). replace (k * s + s) with ((k + 1) * s) by ring.
    rewrite IH by (rewrite ?Z.mul_add_distr_r; done || lia). rewrite (seqZ_cons k) by lia. cbn [map fmap option_fmap option_map].
    unfold Z.succ, Z.pred. do 4 f_equal. lia.
  - assert (k = n + 1) as ->.
    { destruct (Z.eq_dec k (n + 1)); [done|]. assert (k * s <= n * s) by (apply Z.mul_le_mono_nonneg_r; lia). lia. }
    replace (n + 1 - (n + 1)) with 0 by lia. done.
Qed.

(** C37. The axes come to an end, and span the plot: on an axis whose step is
    an exact double [s * 2 ^ e], with [n] steps to its maximum, the loop draws
    exactly the [n + 1] gridlines at the multiples of the step, the first at
    zero on the base line and the last, the maximum, on the upper edge of the
    plot. *)
Theorem axis_gridlines log10 pow offset label width height max s e n c :
  fltb f_zero max = true → (niceScale log10 pow max (f_of_Z 4)).2 = dy s e → f_ceil (fsub (fdiv max (dy s e)) f1e9) = f_of_Z n →
  0 < s → 0 < n <= 62 → (2 * n + 3) * s < 2 ^ 53 → mid e → mid (e - 1) → 38 < height < 2 ^ 50 →
  let f := mk_frame width height in let top := (niceScale log10 pow max (f_of_Z 4)).1 in
  gridlines grid_rounds f_zero top (dy s e) = Some (map (λ j, dy (j * s) e) (seqZ 0 (n + 1)))
  ∧ is_Some (axes log10 pow offset label f max c)
  ∧ y_of log10 pow f max f_zero = fadd (fr_t f) (fr_ph f)
  ∧ top = dy (n * s) e ∧ y_of log10 pow f max top = fr_t f.
Proof.
  intros Hm Hs Hc H0 Hn Hb He He' Hh f top.
  assert (n * s < (2 * n + 3) * s) as Hns by (apply Z.mul_lt_mono_pos_r; lia).
  assert (top = dy (n * s) e) as Et.
  { unfold top, niceScale in *. rewrite Hm in *. cbn [negb fst snd] in *. rewrite Hs, Hc. change (f_of_Z n) with (dy n 0).
    rewrite dy_mul; [done|lia|done|lia|unfold mid; lia|done|done]. }
  assert (gridlines grid_rounds f_zero top (dy s e) = Some (map (λ j, dy (j * s) e) (seqZ 0 (n + 1)))) as Eg.
  { rewrite Et. change f_zero with (dy (0 * s) e). rewrite gridlines_run; try done; try lia.
    - do 3 f_equal. lia.
    - unfold grid_rounds. lia. }
  assert (fr_ph f = dy (height - 38) 0 ∧ fadd (fr_t f) (fr_ph f) = dy (height - 26) 0) as [Ep Eb].
  { unfold f, mk_frame. cbn [fr_t fr_ph]. replace (height - 12 - 26) with (height - 38) by lia. split; [done|].
    change (f_of_Z 12) with (dy 12 0). change (f_of_Z (height - 38)) with (dy (height - 38) 0).
    rewrite dy_add; [f_equal; lia|lia..|unfold mid; lia]. }
  split; [done|]. split; [|split; [|split; [done|]]].
  - unfold axes. fold top. destruct (niceScale log10 pow max (f_of_Z 4)) as [tp st] eqn:E. cbn [fst snd] in *. subst st.
    unfold top in Eg. cbn [fst] in Eg. rewrite Eg. by eexists.
  - unfold y_of. fold top. rewrite Et, Eb, Ep. destruct (n * s) as [|p|p] eqn:Ens; [lia| |lia]. rewrite dy_pos by (done || lia).
    change (fdiv f_zero (S754_finite false (norm p) (e - (52 - Z.log2 (Zpos p))))) with f_zero.
    destruct (height - 38) as [|h|h] eqn:Eh; [lia| |lia]. rewrite dy_pos by (lia || (unfold mid; lia)).
    destruct (height - 26) as [|b|b] eqn:Ebb; [lia| |lia]. rewrite dy_pos by (lia || (unfold mid; lia)). done.
  - unfold y_of. fold top. rewrite Eb, Et, Ep. destruct (n * s) as [|p|p] eqn:Ens; [lia| |lia]. rewrite dy_pos by (done || lia).
    rewrite fdiv_self. change (f_of_Z 1) with (dy 1 0). rewrite dy_mul by (lia || (unfold mid; lia)).
    change (0 + 0) with 0. rewrite dy_sub by (lia || (unfold mid; lia)). unfold f, mk_frame. cbn [fr_t]. unfold f_of_Z, dy. f_equal. lia.
Qed.

(** The throughput chart with a peak of 8 kbit/s. *)
Definition sample_log10 (x : f64) : f64 := if fltb x (f_of_Z 1000) then f2 else f_of_Z 3.
Definition sample_pow (b k : f64) : f64 := if feqb k f2 then f_of_Z 100 else f_of_Z 1000.
Lemma axis_gridlines_witness :
  gridlines grid_rounds f_zero (niceScale sample_log10 sample_pow (f_of_Z 8000) (f_of_Z 4)).1 (f_of_Z 2000)
  = Some (map f_of_Z [0; 2000; 4000; 6000; 8000]).
Proof.
  destruct (axis_gridlines sample_log10 sample_pow (λ _, 0) num_string 600 260 (f_of_Z 8000) 2000 0 4 (Chart 0 1 0 [] None None))
    as [H _];
    [by_compute|by_compute|by_compute|lia|lia|lia|unfold mid; lia|unfold mid; lia|lia|]. refine (eq_trans H _). by_compute.
Defined.
