(* ===== verification/Traffic.v ===== *)
(** * The overview (web/app.js, overview section)

    What the overview makes of the traffic report: points grouped into the
    rates, peaks and means of the charts and tiles, the table that says the
    same as a chart, the list of what needs attention, and the loop that
    loads the report again while the page is open.  The loop is a state with
    its timers, the requests in flight and the functions that wait for one;
    replies and timers come in any order. *)

From Stdlib Require Import Ascii String ZArith NArith Lia.
From Stdlib Require Import SpecFloat.
From stdpp Require Import base list strings numbers.
From S2P Require Import Prelude JsString Html Double Charts TimeChart.

Local Open Scope Z_scope.

(** ** Groups of points *)

(** The starts of [for (let i = 0; i < n; i += g)]; [fuel] of [n] rounds is
    enough for any [g >= 1]. *)
Fixpoint starts_from (fuel i g n : nat) : list nat :=
  match fuel with
  | O => []
  | Datatypes.S k => if (i <? n)%nat then i :: starts_from k (i + g) g n else []
  end.
Definition starts (g n : nat) : list nat := starts_from n 0 g n.
(** [values.slice(i, i + g)]. *)
Definition group {A} (g : nat) (l : list A) (i : nat) : list A := take g (drop i l).

(** [ovSpan]: the seconds of traffic that point [i] holds. *)
Definition ovSpan (secs : list val) (i : nat) : f64 :=
  match secs !! i with Some (Some x) => f_or x f_zero | _ => f_zero end.

(** One group of [ovRates]: the sum and the seconds of its points. *)
Definition rate_step (secs values : list val) (acc : f64 * f64) (j : nat) : f64 * f64 :=
  match values !! j with
  | Some (Some x) => (fadd acc.1 x, fadd acc.2 (ovSpan secs j))
  | _ => acc
  end.
Definition rate_group (secs values : list val) (g : nat) (mul : f64) (i : nat) : val :=
  let '(sum, span) := fold_left (rate_step secs values) (seq i (min (i + g) (length values) - i)) (f_zero, f_zero) in
  if fltb f_zero span then Some (fmul (fdiv sum span) (f_or mul (f_of_Z 1))) else None.
Definition ovRates (secs values : list val) (g : nat) (mul : f64) : list val :=
  map (rate_group secs values g mul) (starts g (length values)).

Definition peak_of (part : list f64) : val := match part with [] => None | _ => Some (fmax_all part) end.
Definition mean_of (part : list f64) : val :=
  match part with [] => None | _ => Some (fdiv (fold_left fadd part f_zero) (f_of_Z (Z.of_nat (length part)))) end.
Definition ovPeaks (values : list val) (g : nat) : list val :=
  map (λ i, peak_of (omap id (group g values i))) (starts g (length values)).
Definition ovMeans (values : list val) (g : nat) : list val :=
  map (λ i, mean_of (omap id (group g values i))) (starts g (length values)).

(** [OV_RANGES]: the seconds between two loads, and the points per line point,
    column and sparkline point. *)
Record range_opts : Type := RangeOpts { ro_poll : Z; ro_line : nat; ro_columns : nat; ro_spark : nat }.
Definition OV_RANGES (range : jstr) : option range_opts :=
  if decide (range = js "1h") then Some (RangeOpts 10 3 6 6)
  else if decide (range = js "6h") then Some (RangeOpts 30 1 1 2)
  else if decide (range = js "24h") then Some (RangeOpts 60 1 4 6)
  else if decide (range = js "7d") then Some (RangeOpts 120 1 2 3)
  else None.

(** ** The charts and their tables *)

(** [GET /api/traffic]: the start and step of its points, the seconds each
    holds, and the values of a series by its name. *)
Record report : Type := Report { rp_start : Z; rp_step : Z; rp_secs : list val; rp_series : jstr → list val }.

Definition ov_series (label color : string) (area : bool) (values : list val) : series :=
  Series (js label) (js color) values area.
Definition tp_series (rep : report) (o : range_opts) : list series :=
  let rates k := ovRates (rp_secs rep) (rp_series rep (js k)) (ro_line o) (f_of_Z 8) in
  [ ov_series "Outbound" "var(--c-series-1)" true (rates "out"%string);
    ov_series "Inbound" "var(--c-series-2)" true (rates "in"%string) ].
Definition rq_series (rep : report) (o : range_opts) : list series :=
  let rates k := ovRates (rp_secs rep) (rp_series rep (js k)) (ro_columns o) (f_of_Z 60) in
  [ ov_series "2xx" "var(--c-chart-2xx)" false (rates "2xx"%string); ov_series "3xx" "var(--c-chart-3xx)" false (rates "3xx"%string);
    ov_series "4xx" "var(--c-chart-4xx)" false (rates "4xx"%string); ov_series "5xx" "var(--c-chart-5xx)" false (rates "5xx"%string) ].
Definition lat_series (rep : report) (o : range_opts) : list series :=
  let means k := ovMeans (rp_series rep (js k)) (ro_line o) in
  [ ov_series "p95" "var(--c-series-1)" false (means "p95"%string); ov_series "p50" "var(--c-series-2)" false (means "p50"%string) ].

(** The data of a chart whose points are groups of [g]. *)
Definition ov_chart (rep : report) (g : nat) (ss : list series) : chart :=
  Chart (rp_start rep) (rp_step rep * Z.of_nat g) (match ss with s :: _ => length (se_values s) | [] => 0 end) ss None None.
(** The columns bring the rows of their tooltip: the statuses from the top, per minute. *)
Definition rq_row (fmt_count : f64 → jstr) (i : nat) (s : series) : tip_row :=
  TipRow (se_label s) (match value_at i s with Some x => fmt_count x ++ js "/min" | None => js "no data" end) (se_color s) (js "box").
Definition rq_chart (fmt_count : f64 → jstr) (rep : report) (g : nat) (ss : list series) : chart :=
  let c := ov_chart rep g ss in
  Chart (ch_start c) (ch_step c) (ch_points c) ss None (Some (λ i, map (rq_row fmt_count i) (rev ss))).
(** [ovCharts]: the three charts as they are made, in plots of these widths. *)
Definition ovCharts (w_tp w_rq w_lat : Z) : time_chart * time_chart * time_chart :=
  (new_chart 260 w_tp (f_of_Z 8000), new_chart 220 w_rq (f_of_Z 1), new_chart 220 w_lat (f_of_Z 10)).
Definition ov_legend (shape : string) (ss : list series) : list (jstr * jstr * jstr) :=
  legend (map (λ s, LegendItem (se_label s) (se_color s) (js shape)) ss).

Section tables.
Context (offset : Z → Z) (format : f64 → jstr).

Definition table_cell (v : val) : jstr := match v with Some x => format x | None => js "-" end.
Definition has_value (ss : list series) (i : nat) : bool :=
  existsb (λ s, match value_at i s with Some _ => true | None => false end) ss.
Definition table_row (rep : report) (g : nat) (ss : list series) (i : nat) : list jstr :=
  spanLabel offset (rp_start rep + Z.of_nat i * rp_step rep * Z.of_nat g) (rp_step rep * Z.of_nat g)
  :: map (λ s, table_cell (value_at i s)) ss.
(** The rows of the table view, newest first, points without data left out;
    one row says that there are none. *)
Definition table_rows (rep : report) (g : nat) (head : list jstr) (ss : list series) : list (list jstr) :=
  let n := match ss with s :: _ => length (se_values s) | [] => 0%nat end in
  match map (table_row rep g ss) (List.filter (has_value ss) (rev (seq 0 n))) with
  | [] => [js "No data in this range yet." :: map (λ _, []) (tail head)]
  | rows => rows
  end.
End tables.

(** *** Which format, group and series a chart has, and its table *)

Inductive chart_id : Type := Tp | Rq | Lat.
Section charts.
Context (offset : Z → Z) (fmt_bits fmt_count fmt_ms : f64 → jstr).

Definition statuses : list string := ["2xx"; "3xx"; "4xx"; "5xx"]%string.
(** [tables]: the head of a table, its series, format and group. *)
Definition ov_tables (rep : report) (o : range_opts) (id : chart_id) : list jstr * list series * (f64 → jstr) * nat :=
  match id with
  | Tp => (map js ["Time"; "Outbound"; "Inbound"]%string, tp_series rep o, fmt_bits, ro_line o)
  | Rq => (js "Time" :: map (λ k, js k ++ js " per minute") statuses, rq_series rep o, fmt_count, ro_columns o)
  | Lat => (map js ["Time"; "p95"; "p50"]%string, lat_series rep o, fmt_ms, ro_line o)
  end.
(** [charts]: the data of a chart. *)
Definition ov_charts (rep : report) (o : range_opts) (id : chart_id) : chart :=
  match id with
  | Tp => ov_chart rep (ro_line o) (tp_series rep o)
  | Rq => rq_chart fmt_count rep (ro_columns o) (rq_series rep o)
  | Lat => ov_chart rep (ro_line o) (lat_series rep o)
  end.
(** What a chart's tooltip says of a point: two are line charts and one has
    columns, each with the format [ovCharts] gives it. *)
Definition ov_tip (id : chart_id) (c : chart) (i : nat) : jstr * list tip_row :=
  match id with
  | Tp => (kd_title (ChartKind := line_kind) (spanLabel offset) c i, kd_rows (ChartKind := line_kind) fmt_bits c i)
  | Rq => (kd_title (ChartKind := column_kind) (spanLabel offset) c i,
           kd_rows (ChartKind := column_kind) (λ v, fmt_count v ++ js "/min") c i)
  | Lat => (kd_title (ChartKind := line_kind) (spanLabel offset) c i, kd_rows (ChartKind := line_kind) fmt_ms c i)
  end.
(** What [ovRenderCharts] makes of a report for a chart: the head and the rows
    of its table, and its data. *)
Definition ov_content (id : chart_id) (o : range_opts) (rep : report) : list (list jstr) * chart :=
  let '(head, ss, format, g) := ov_tables rep o id in
  (head :: table_rows offset format rep g head ss, ov_charts rep o id).
End charts.

(** ** Every point is in one group *)

Lemma starts_from_groups {A} g (l : list A) fuel i : (1 <= g)%nat → (length l - i <= fuel)%nat → (i <= length l)%nat →
  concat (map (group g l) (starts_from fuel i g (length l))) = drop i l.
Proof.
  intros Hg. revert i. induction fuel as [|k IH]; intros i Hf Hi; cbn [starts_from].
  - cbn. rewrite drop_ge by lia. done.
  - destruct (Nat.ltb_spec i (length l)).
    + cbn [map concat]. destruct (le_lt_dec (i + g) (length l)).
      * rewrite IH by lia. unfold group. by rewrite <- drop_drop, take_drop.
      * unfold group at 1. rewrite take_ge by (rewrite length_drop; lia).
        destruct k; cbn [starts_from]; [by rewrite app_nil_r|]. destruct (Nat.ltb_spec (i + g) (length l)); [lia|].
        by rewrite app_nil_r.
    + rewrite drop_ge by lia. done.
Qed.

Lemma starts_groups {A} g (l : list A) : (1 <= g)%nat → concat (map (group g l) (starts g (length l))) = l.
Proof. intros Hg. unfold starts. rewrite starts_from_groups by lia. apply drop_0. Qed.

Lemma starts_from_bound fuel i g n x : x ∈ starts_from fuel i g n → (i <= x < n)%nat.
Proof.
  revert i. induction fuel as [|k IH]; intros i; cbn [starts_from]; [by intros ?%not_elem_of_nil|].
  destruct (Nat.ltb_spec i n); [|by intros ?%not_elem_of_nil]. intros [->|Hx]%elem_of_cons; [lia|]. apply IH in Hx. lia.
Qed.

Lemma group_ne {A} g (l : list A) i : (1 <= g)%nat → i ∈ starts g (length l) → group g l i ≠ [].
Proof.
  intros Hg Hi%starts_from_bound E. apply (f_equal length) in E. unfold group in E. rewrite length_take, length_drop in E.
  cbn in E. lia.
Qed.

Lemma seq_take {A} (p d : list A) g :
  omap (λ j, (p ++ d) !! j) (seq (length p) (length (take g d))) = take g d.
Proof.
  revert p g. induction d as [|x d IH]; intros p g; [by rewrite take_nil|].
  destruct g as [|g]; [done|]. cbn [take length seq omap list_omap].
  rewrite lookup_app_r, Nat.sub_diag by lia. cbn [lookup list_lookup]. f_equal.
  replace (p ++ x :: d) with ((p ++ [x]) ++ d) by (by rewrite <- app_assoc).
  rewrite <- (IH (p ++ [x]) g) at 2. rewrite length_app. cbn [length]. by rewrite Nat.add_1_r.
Qed.

(** The loop over the indices of a group is a loop over its points. *)
Lemma seq_group {A} g (l : list A) i : (i < length l)%nat →
  omap (λ j, l !! j) (seq i (min (i + g) (length l) - i)) = group g l i.
Proof.
  intros Hi. unfold group. pose proof (seq_take (take i l) (drop i l) g) as H.
  rewrite take_drop in H. rewrite <- H at 1. clear H. rewrite !length_take, length_drop. f_equal. f_equal; lia.
Qed.

(** The points of a chart, a tile or a peak are consecutive groups of the
    report's points: put together the groups are all of them, each once and
    in order, none is empty, and so the rates, peaks and means of series of
    the same length have the same number of points. *)
Theorem groups_partition {A} (g : nat) (values : list A) : (1 <= g)%nat →
  concat (map (group g values) (starts g (length values))) = values
  ∧ Forall (λ i, group g values i ≠ [] ∧ (length (group g values i) <= g)%nat
      ∧ omap (λ j, values !! j) (seq i (min (i + g) (length values) - i)) = group g values i) (starts g (length values))
  ∧ ∀ secs (vs : list val) mul, length vs = length values →
      length (ovRates secs vs g mul) = length (starts g (length values))
      ∧ length (ovPeaks vs g) = length (starts g (length values)) ∧ length (ovMeans vs g) = length (starts g (length values)).
Proof.
  intros Hg. split; [by apply starts_groups|]. split.
  - apply list.Forall_forall. intros i Hi. split; [by apply group_ne|]. split; [unfold group; rewrite length_take; lia|].
    apply seq_group. apply starts_from_bound in Hi. lia.
  - intros secs vs mul E. unfold ovRates, ovPeaks, ovMeans. by rewrite !length_map, E.
Qed.

(** A peak is the largest value of its group: it is one of the group's
    values and no value of the group is above it; a group without values has
    no peak. *)
Theorem peaks_are_largest (g : nat) (values : list val) k i :
  Forall (λ v, match v with Some x => num x | None => True end) values →
  starts g (length values) !! k = Some i →
  match omap id (group g values i) with
  | [] => ovPeaks values g !! k = Some None
  | part => ∃ m, ovPeaks values g !! k = Some (Some m) ∧ m ∈ part ∧ Forall (λ x, fltb m x = false) part
  end.
Proof.
  intros Hn Hk. unfold ovPeaks. rewrite list_lookup_fmap, Hk. cbn [fmap option_fmap option_map].
  set (part := omap id (group g values i)).
  assert (Forall num part) as Hp.
  { unfold part, group. apply list.Forall_forall. intros x (v & Hv & E)%list_elem_of_omap. cbn in E. subst v.
    assert (Some x ∈ values) as Hin.
    { apply elem_of_take in Hv as (j & Hj & _). rewrite lookup_drop in Hj. by eapply list_elem_of_lookup_2. }
    rewrite list.Forall_forall in Hn. exact (Hn _ Hin). }
  destruct part as [|x part]; [done|]. destruct (fmax_all_spec (x :: part) Hp ltac:(done)) as [Hin HF].
  exists (fmax_all (x :: part)). split; [done|]. by split.
Qed.

(** ** The table says what the chart says *)

Definition finite_values (ss : list series) : Prop :=
  Forall (λ s, Forall (λ v, match v with Some x => is_finite x = true | None => True end) (se_values s)) ss.

Lemma value_at_num i s : Forall (λ v, match v with Some x => is_finite x = true | None => True end) (se_values s) →
  as_num (value_at i s) = value_at i s.
Proof.
  intros F. unfold value_at. destruct (se_values s !! i) as [[x|]|] eqn:E; try done. cbn.
  rewrite list.Forall_forall in F. by rewrite (F (Some x)) by (by eapply list_elem_of_lookup_2).
Qed.

Lemma has_value_hasData rep g ss i : finite_values ss → has_value ss i = hasData (ov_chart rep g ss) i.
Proof.
  intros F. unfold has_value, hasData. cbn [ch_series ov_chart]. induction F as [|s ss Hs _ IH]; [done|].
  cbn [existsb]. rewrite IH. f_equal. unfold isNum. rewrite value_at_num by done. by destruct (value_at i s).
Qed.

(** A row of the table and the point [i] of the chart it stands for: the title
    of the tooltip, and for every series the text of the tooltip, which for
    the requests is per minute and from the top; a dash stands for no data. *)
Definition ov_unit (id : chart_id) : string := match id with Rq => "/min" | _ => "" end.
Definition ov_head_unit (id : chart_id) : string := match id with Rq => " per minute" | _ => "" end.
Definition tip_order {A} (id : chart_id) (l : list A) : list A := match id with Rq => rev l | _ => l end.
Definition tip_shape (id : chart_id) : string := match id with Rq => "box" | _ => "line" end.
Definition twin_row (id : chart_id) (ss : list series) (tip : jstr * list tip_row) (i : nat) (row : list jstr) : Prop :=
  ∃ cells, row = tip.1 :: cells
  ∧ Forall2 (λ s x, value_at i s = None → x = js "-") ss cells
  ∧ tip.2 = tip_order id (zip_with (λ s x, TipRow (se_label s)
      (match value_at i s with Some _ => x ++ js (ov_unit id) | None => js "no data" end) (se_color s) (js (tip_shape id))) ss cells).

Lemma table_filled offset format rep g head ss : finite_values ss →
  let c := ov_chart rep g ss in
  let shown := List.filter (hasData c) (rev (seq 0 (ch_points c))) in
  (anyData c = true → table_rows offset format rep g head ss = map (table_row offset format rep g ss) shown)
  ∧ (anyData c = false → table_rows offset format rep g head ss = [js "No data in this range yet." :: map (λ _, []) (tail head)]).
Proof.
  intros F c shown.
  assert (table_rows offset format rep g head ss = match map (table_row offset format rep g ss) shown with
                 | [] => [js "No data in this range yet." :: map (λ _, []) (tail head)] | l => l end) as ->.
  { unfold table_rows, shown. cbn [ch_points c ov_chart]. erewrite filter_ext; [done|].
    intros i. by apply has_value_hasData. }
  assert (anyData c = true ↔ shown ≠ []) as Hany.
  { unfold anyData, shown. rewrite existsb_exists. split.
    - intros (i & Hi & Hd) E. assert (i ∈ List.filter (hasData c) (rev (seq 0 (ch_points c)))) as H
        by (apply list_elem_of_In, filter_In; by rewrite <- in_rev).
      rewrite E in H. by apply not_elem_of_nil in H.
    - destruct (List.filter _ _) as [|i l] eqn:E; [done|]. intros _. exists i.
      assert (In i (List.filter (hasData c) (rev (seq 0 (ch_points c))))) as H by (rewrite E; by left).
      apply filter_In in H as [H ?]. by rewrite <- in_rev in H. }
  split.
  - intros H%Hany. by destruct shown as [|i l].
  - intros H. destruct shown as [|i l]; [done|]. exfalso. rewrite (proj2 Hany) in H; done.
Qed.

Lemma cells_dash format ss i : Forall2 (λ s x, value_at i s = None → x = js "-") ss (map (λ s, table_cell format (value_at i s)) ss).
Proof. induction ss as [|s ss IH]; [constructor|]. constructor; [by intros ->|exact IH]. Qed.
Lemma zip_with_map {A B C} (f : A → B → C) (h : A → B) l : zip_with f l (map h l) = map (λ x, f x (h x)) l.
Proof. induction l as [|x l IH]; [done|]. cbn. by rewrite IH. Qed.

(** The tooltip of a point of each chart against the row of the table. *)
Lemma row_twin offset fmt_bits fmt_count fmt_ms rep o id i :
  let '(head, ss, format, g) := ov_tables fmt_bits fmt_count fmt_ms rep o id in finite_values ss →
  twin_row id ss (ov_tip offset fmt_bits fmt_count fmt_ms id (ov_charts fmt_count rep o id) i) i (table_row offset format rep g ss i).
Proof.
  assert (∀ ss g, spanLabel offset (rp_start rep + Z.of_nat i * rp_step rep * Z.of_nat g) (rp_step rep * Z.of_nat g)
    = span_of (spanLabel offset) (ov_chart rep g ss) i) as Ht by (intros ss g; unfold span_of; cbn; by rewrite Z.mul_assoc).
  assert (∀ format ss, finite_values ss → map (λ s, TipRow (se_label s) (val_text format (value_at i s)) (se_color s) (js "line")) ss
    = zip_with (λ s x, TipRow (se_label s) (match value_at i s with Some _ => x ++ js "" | None => js "no data" end) (se_color s) (js "line")) ss
        (map (λ s, table_cell format (value_at i s)) ss)) as Hl.
  { intros format ss F. rewrite zip_with_map. unfold finite_values in F. apply map_ext_in. intros s Hs%list_elem_of_In.
    rewrite list.Forall_forall in F. unfold val_text. rewrite value_at_num by (by apply F). destruct (value_at i s); [|done]. cbn.
    by rewrite app_nil_r. }
  destruct id; intros F; eexists; (split; [unfold table_row; rewrite (Ht (rq_series rep o)); reflexivity|]); (split; [apply cells_dash|]).
  all: cbn [ov_tip ov_charts kd_rows line_kind column_kind snd tip_order ov_unit tip_shape].
  - by apply Hl.
  - unfold column_rows. cbn [ch_rows rq_chart]. rewrite zip_with_map, <- map_rev. apply map_ext. intros s. unfold rq_row. by destruct (value_at i s).
  - by apply Hl.
Qed.

(** C31. The table view of each of the three charts of the overview has the
    numbers of its chart, as [tables] and [charts] of ovRenderCharts pick
    them for any report and range: a row for every point the chart has data
    for and no other, newest first, each with the title the chart's tooltip
    gives the point and, series by series in the order of the head, the
    value the tooltip shows, per minute for the requests, a dash standing for
    no data; without any data it is one row that says so.  The values drawn
    are finite. *)
Theorem table_is_chart_twin offset fmt_bits fmt_count fmt_ms rep o id :
  let '(head, ss, format, g) := ov_tables fmt_bits fmt_count fmt_ms rep o id in finite_values ss →
  let c := (ov_content offset fmt_bits fmt_count fmt_ms id o rep).2 in
  let rows := tail (ov_content offset fmt_bits fmt_count fmt_ms id o rep).1 in
  head = js "Time" :: map (λ s, se_label s ++ js (ov_head_unit id)) ss
  ∧ (anyData c = true → Forall2 (λ i row, twin_row id ss (ov_tip offset fmt_bits fmt_count fmt_ms id c i) i row)
       (List.filter (hasData c) (rev (seq 0 (ch_points c)))) rows)
  ∧ (anyData c = false → rows = [js "No data in this range yet." :: map (λ _, []) ss]).
Proof.
  pose proof (row_twin offset fmt_bits fmt_count fmt_ms rep o id) as Hrow.
  assert (∀ l (f : nat → list jstr) (P : nat → list jstr → Prop), (∀ i, P i (f i)) → Forall2 P l (map f l)) as Hall
    by (intros l f P HP; induction l; by constructor).
  destruct id; cbn beta iota delta [ov_tables] in Hrow |- *; intros F c rows; (split; [reflexivity|]).
  1: destruct (table_filled offset fmt_bits rep (ro_line o) (map js ["Time"; "Outbound"; "Inbound"]%string) (tp_series rep o) F) as [H1 H2].
  2: destruct (table_filled offset fmt_count rep (ro_columns o) (js "Time" :: map (λ k, js k ++ js " per minute") statuses) (rq_series rep o) F) as [H1 H2].
  3: destruct (table_filled offset fmt_ms rep (ro_line o) (map js ["Time"; "p95"; "p50"]%string) (lat_series rep o) F) as [H1 H2].
  all: split; [intros Hany|intros Hany; exact (H2 Hany)].
  all: assert (E := H1 Hany); unfold rows; cbn [ov_content ov_tables fst tail]; rewrite E; apply Hall; intros i; by apply Hrow.
Qed.

(** ** What needs attention *)

(** [plural]. *)
Definition plural (n : Z) (one many : jstr) : jstr := js_of_Z n ++ js " " ++ (if n =? 1 then one else many).

(** The parts of [GET /api/overview], [/api/config] and [/api/streams] that
    [ovLoadState] looks at: the reason of a locked secret store, the counts,
    the warnings of every route and the listener states of every stream. *)
Record ov_vpn : Type := OvVpn {
  vp_enabled : bool; vp_running : bool; vp_error : jstr; vp_no_expiry : Z; vp_break_glass : Z; vp_flow_error : jstr; vp_dropped : Z }.
Record ov_data : Type := OvData {
  od_locked : option jstr; od_down : Z; od_failed : Z; od_pending : Z; od_routes : list (list jstr);
  od_streams : list (list jstr); od_docker : option (Z * Z); od_vpn : ov_vpn }.

Record attn : Type := Attn { at_level : jstr; at_text : jstr; at_page : jstr }.
Definition count_if {A} (p : A → bool) (l : list A) : Z := Z.of_nat (length (List.filter p l)).
Definition when_ (b : bool) (level : string) (text : jstr) (page : string) : list attn :=
  if b then [Attn (js level) text (js page)] else [].

Definition problems (o : ov_data) : list attn :=
  let V := od_vpn o in
  let closed := count_if (λ ws, bool_decide (ws ≠ [])) (od_routes o) in
  let notRunning := count_if (existsb (λ st, negb (bool_decide (st = js "running")))) (od_streams o) in
  when_ (match od_locked o with Some _ => true | None => false end) "bad"
    (js "The secret store is locked: " ++ default [] (od_locked o)
     ++ js ". Stored secrets are kept untouched, and OIDC sign-in, DNS-01, custom certificates and two-factor logins do not work until the key is back.") ""
  ++ when_ (negb (od_down o =? 0)) "bad" (plural (od_down o) (js "upstream is") (js "upstreams are") ++ js " unreachable") "hosts"
  ++ when_ (negb (od_failed o =? 0)) "bad" (plural (od_failed o) (js "certificate") (js "certificates") ++ js " failed to issue or renew") "certs"
  ++ when_ (negb (closed =? 0)) "warn"
       (plural closed (js "route fails") (js "routes fail") ++ js " closed because of a configuration problem") "hosts"
  ++ when_ (negb (notRunning =? 0)) "bad" (plural notRunning (js "stream is") (js "streams are") ++ js " not running") "streams"
  ++ match od_docker o with
     | Some (connected, endpoints) =>
         when_ (connected <? endpoints) "warn"
           (plural (endpoints - connected) (js "Docker host is") (js "Docker hosts are") ++ js " disconnected") "docker"
     | None => []
     end
  ++ when_ (vp_enabled V && negb (vp_running V)) "bad"
       (js "The WireGuard endpoint is not running: " ++ str_or (vp_error V) (js "unknown error")) "vpn"
  ++ (if negb (vp_no_expiry V =? 0) then
        when_ true "warn" (plural (vp_no_expiry V) (js "break-glass VPN device never expires") (js "break-glass VPN devices never expire")
          ++ js ": a lost copy reaches the LAN until somebody revokes it") "vpn"
      else
        when_ (negb (vp_break_glass V =? 0)) "info"
          (plural (vp_break_glass V) (js "break-glass VPN device exists") (js "break-glass VPN devices exist")
           ++ js ": they reach the LAN without a login") "vpn")
  ++ when_ (truthy (vp_flow_error V)) "bad"
       (js "The VPN flow log cannot be written (" ++ vp_flow_error V ++ js "). LAN flows are refused until it can") "vpn"
  ++ when_ (negb (vp_dropped V =? 0)) "warn"
       (js_of_Z (vp_dropped V) ++ js " VPN flow records were dropped because the log could not keep up") "vpn"
  ++ when_ (negb (od_pending o =? 0)) "info"
       (plural (od_pending o) (js "certificate is") (js "certificates are") ++ js " waiting to be issued") "certs".

Definition attention (o : ov_data) : list attn :=
  match problems o with [] => [Attn (js "ok") (js "Nothing needs attention.") []] | l => l end.

Definition attn_html (a : attn) : jstr :=
  jq "<div class=`attn`><span class=`sdot sdot--" ++ at_level a ++ jq "`></span><span class=`attn__text`>" ++ esc (Some (at_text a))
  ++ js "</span>"
  ++ (if truthy (at_page a) then jq "<button type=`button` class=`btn btn--ghost btn--sm` data-goto=`" ++ at_page a ++ jq "`>View</button>"
      else [])
  ++ js "</div>".
Definition attention_html (o : ov_data) : jstr := concat (map attn_html (attention o)).

(** What the page calls healthy. *)
Record healthy (o : ov_data) : Prop := {
  hl_secrets : od_locked o = None;
  hl_counts : od_down o = 0 ∧ od_failed o = 0 ∧ od_pending o = 0;
  hl_routes : Forall (λ ws, ws = []) (od_routes o);
  hl_streams : Forall (Forall (λ st, st = js "running")) (od_streams o);
  hl_docker : ∀ c e, od_docker o = Some (c, e) → e <= c;
  hl_vpn : vp_enabled (od_vpn o) = true → vp_running (od_vpn o) = true;
  hl_vpn_counts : vp_no_expiry (od_vpn o) = 0 ∧ vp_break_glass (od_vpn o) = 0 ∧ vp_dropped (od_vpn o) = 0 ∧ vp_flow_error (od_vpn o) = [] }.

Lemma when_nil b level text page : when_ b level text page = [] ↔ b = false.
Proof. by destruct b. Qed.

Lemma count_if_zero {A} (p : A → bool) l : negb (count_if p l =? 0) = false ↔ Forall (λ x, p x = false) l.
Proof.
  unfold count_if. rewrite negb_false_iff, Z.eqb_eq. induction l as [|x l IH]; [by split|].
  cbn [List.filter]. rewrite list.Forall_cons. destruct (p x); cbn [length].
  - split; [lia|by intros [? _]].
  - rewrite IH. tauto.
Qed.

Lemma problems_nil o : problems o = [] ↔ healthy o.
Proof.
  unfold problems. set (closed := count_if _ (od_routes o)). set (nr := count_if _ (od_streams o)).
  assert (negb (closed =? 0) = false ↔ Forall (λ ws, ws = []) (od_routes o)) as Hc.
  { unfold closed. rewrite count_if_zero. apply list.Forall_proper; [|done]. intros ws. rewrite bool_decide_eq_false. destruct ws; naive_solver. }
  assert (negb (nr =? 0) = false ↔ Forall (Forall (λ st, st = js "running")) (od_streams o)) as Hn.
  { unfold nr. rewrite count_if_zero. apply list.Forall_proper; [|done]. intros l. rewrite <- not_true_iff_false, existsb_exists.
    rewrite list.Forall_forall. split.
    - intros H st Hst. destruct (decide (st = js "running")); [done|]. exfalso. apply H. exists st.
      split; [by apply list_elem_of_In|]. by rewrite bool_decide_eq_false_2.
    - intros H (st & Hst%list_elem_of_In & E). rewrite (H st Hst), bool_decide_eq_true_2 in E; done. }
  rewrite !app_nil, !when_nil, Hc, Hn. rewrite !negb_false_iff, !Z.eqb_eq. split.
  - intros (H1 & H2 & H3 & H4 & H5 & H6 & H7 & H8 & H9 & H10 & H11). destruct (vp_no_expiry (od_vpn o) =? 0) eqn:E; [|done].
    apply when_nil, negb_false_iff, Z.eqb_eq in H8. apply Z.eqb_eq in E. constructor; try done.
    + by destruct (od_locked o).
    + intros c e Hd. rewrite Hd in H6. by apply when_nil, Z.ltb_ge in H6.
    + intros He. rewrite He in H7. cbn in H7. by apply negb_false_iff.
    + split; [done|]. split; [done|]. split; [done|]. by destruct (vp_flow_error (od_vpn o)).
  - intros [H1 (H2 & H3 & H11) H4 H5 H6 H7 (H8 & H9 & H10 & H12)]. rewrite H1, H8, H9, H12. repeat split; try done.
    + destruct (od_docker o) as [[c e]|]; [|done]. apply when_nil, Z.ltb_ge. by apply H6.
    + destruct (vp_enabled (od_vpn o)); [|done]. by rewrite H7.
Qed.

Definition attn_pieces (a : attn) : list piece :=
  [Lit (jq "<div class=`attn`><span class=`sdot sdot--" ++ at_level a ++ jq "`></span><span class=`attn__text`>"); Val (esc (Some (at_text a)));
   Lit (js "</span>" ++ (if truthy (at_page a) then jq "<button type=`button` class=`btn btn--ghost btn--sm` data-goto=`" ++ at_page a ++ jq "`>View</button>"
     else []) ++ js "</div>")].
Lemma attn_html_tpl a : attn_html a = tpl (attn_pieces a).
Proof. unfold attn_html, attn_pieces, tpl. cbn [map concat piece_text]. by rewrite <- !app_assoc, app_nil_r. Qed.

Definition known (a : attn) : Prop :=
  at_level a ∈ map js ["bad"; "warn"; "info"] ∧ at_page a ∈ map js [""; "hosts"; "certs"; "streams"; "docker"; "vpn"].

Lemma when_known b level text page : known (Attn (js level) text (js page)) → Forall known (when_ b level text page).
Proof. intros H. destruct b; [by apply list.Forall_singleton|constructor]. Qed.

Lemma problems_known o : Forall known (problems o).
Proof.
  unfold problems. rewrite !list.Forall_app.
  repeat match goal with
  | |- _ ∧ _ => split
  | |- Forall known (when_ _ _ _ _) => apply when_known; split; apply (bool_decide_unpack _); by_compute
  end.
  - destruct (od_docker o) as [[c e]|]; [|constructor]. apply when_known. split; apply (bool_decide_unpack _); by_compute.
  - destruct (negb _); apply when_known; split; apply (bool_decide_unpack _); by_compute.
Qed.

Lemma attn_contained l p t : l ∈ map js ["ok"; "bad"; "warn"; "info"] → p ∈ map js [""; "hosts"; "certs"; "streams"; "docker"; "vpn"] →
  contained (attn_pieces (Attn l t p)).
Proof.
  intros Hl Hp. split; [|unfold attn_pieces; inerts_by].
  revert l Hl p Hp. assert (forallb (λ l, forallb (λ p, bool_decide (tpl_end HText (attn_pieces (Attn l [] p)) = Some HText))
    (map js [""; "hosts"; "certs"; "streams"; "docker"; "vpn"])) (map js ["ok"; "bad"; "warn"; "info"]) = true) as H by by_compute.
  intros l Hl%list_elem_of_In p Hp%list_elem_of_In. pose proof (proj1 (forallb_forall _ _) H l Hl) as H1.
  pose proof (proj1 (forallb_forall _ _) H1 p Hp) as H2. by apply bool_decide_eq_true in H2.
Qed.

Lemma attn_safe l p t t' : l ∈ map js ["ok"; "bad"; "warn"; "info"] → p ∈ map js [""; "hosts"; "certs"; "streams"; "docker"; "vpn"] →
  same_markup (attn_html (Attn l t p)) (attn_html (Attn l t' p)).
Proof.
  intros Hl Hp. rewrite !attn_html_tpl. destruct (contained_markup _ (attn_contained l p t Hl Hp)) as [E _].
  destruct (contained_markup _ (attn_contained l p t' Hl Hp)) as [E' _]. unfold same_markup in *. cbn [map blank attn_pieces] in *.
  destruct E as [-> ->], E' as [-> ->]. done.
Qed.

Lemma attention_contained o a : a ∈ attention o → contained (attn_pieces a).
Proof.
  intros Ha. assert (∀ x, known x → contained (attn_pieces x)) as Hk.
  { intros [l t p] [Hl Hp]. apply attn_contained; [by right|done]. }
  unfold attention in Ha. pose proof (problems_known o) as K. destruct (problems o) as [|x l].
  - apply list_elem_of_singleton in Ha as ->. apply attn_contained; [left|left].
  - apply Hk. rewrite list.Forall_forall in K. by apply K.
Qed.

(** The overview says that nothing needs attention exactly when nothing
    does: the secret store is open, no upstream is down, no certificate
    failed or waits, every route works and every stream runs, the Docker
    hosts are connected, and the VPN is as it should be.  Otherwise it lists
    what does, none of it as "ok"; and no text of a line, whatever the server
    reports, changes the markup of the list. *)
Theorem attention_spec o :
  (attention o = [Attn (js "ok") (js "Nothing needs attention.") []] ↔ healthy o)
  ∧ (¬ healthy o → attention o ≠ [] ∧ Forall (λ a, at_level a ≠ js "ok") (attention o))
  ∧ Forall (λ a, ∀ t, same_markup (attn_html a) (attn_html (Attn (at_level a) t (at_page a)))) (attention o).
Proof.
  rewrite <- problems_nil. pose proof (problems_known o) as K. unfold attention.
  assert (∀ a, known a → at_level a ≠ js "ok") as Hok.
  { intros a [H _] E. rewrite E in H. revert H. apply (bool_decide_unpack _). by_compute. }
  split; [|split].
  - split; [|by intros ->]. intros H. destruct (problems o) as [|a l]; [done|]. exfalso. injection H as -> ->.
    apply Forall_inv in K. by apply Hok in K.
  - intros H. destruct (problems o) as [|a l]; [done|]. split; [done|]. apply (list.Forall_impl _ _ _ K). apply Hok.
  - destruct (problems o) as [|a l].
    + apply list.Forall_singleton. intros t. apply attn_safe; apply (bool_decide_unpack _); by_compute.
    + apply (list.Forall_impl _ _ _ K). intros [lv tx pg] [H1 H2] t. cbn [at_level at_page] in *.
      apply attn_safe; [cbn [map] in *; apply elem_of_cons; right; exact H1|exact H2].
Qed.

(** ** The refresh loop *)

(** [lo_pending] are the ranges of the traffic requests in flight, [lo_timers]
    the timers that will fire, with their delays, [lo_timer] is [ov.timer],
    and [lo_waiting] counts the functions that will call [ovSchedule] when
    the loads they wait for are done.  A report comes with the range it was
    asked for. *)
Record ov_loop : Type := OvLoop {
  lo_range : jstr; lo_report : option (jstr * report); lo_error : jstr; lo_pending : list jstr;
  lo_timers : list (nat * Z); lo_timer : option nat; lo_next : nat; lo_waiting : nat }.

Definition poll_ms (range : jstr) : Z := match OV_RANGES range with Some o => ro_poll o * 1000 | None => 0 end.

(** [ovSchedule]. *)
Definition ovSchedule (s : ov_loop) : ov_loop :=
  let live := List.filter (λ t : nat * Z, negb (bool_decide (lo_timer s = Some t.1))) (lo_timers s) in
  OvLoop (lo_range s) (lo_report s) (lo_error s) (lo_pending s) (live ++ [(lo_next s, poll_ms (lo_range s))]) (Some (lo_next s))
    (Datatypes.S (lo_next s)) (lo_waiting s).
(** [ovLoadTraffic], up to its request and from its reply; [wait] starts a
    function that will schedule. *)
Definition load_traffic (s : ov_loop) : ov_loop :=
  OvLoop (lo_range s) (lo_report s) (lo_error s) (lo_pending s ++ [lo_range s]) (lo_timers s) (lo_timer s) (lo_next s) (lo_waiting s).
Definition traffic_reply (range : jstr) (r : report + jstr) (s : ov_loop) : ov_loop :=
  match r with
  | inr message => OvLoop (lo_range s) (lo_report s) message (lo_pending s) (lo_timers s) (lo_timer s) (lo_next s) (lo_waiting s)
  | inl rep =>
      if decide (range = lo_range s)
      then OvLoop (lo_range s) (Some (range, rep)) [] (lo_pending s) (lo_timers s) (lo_timer s) (lo_next s) (lo_waiting s)
      else s
  end.
Definition wait (s : ov_loop) : ov_loop :=
  OvLoop (lo_range s) (lo_report s) (lo_error s) (lo_pending s) (lo_timers s) (lo_timer s) (lo_next s) (Datatypes.S (lo_waiting s)).
Definition set_pending l (s : ov_loop) : ov_loop :=
  OvLoop (lo_range s) (lo_report s) (lo_error s) l (lo_timers s) (lo_timer s) (lo_next s) (lo_waiting s).

(** [ovSetRange]. *)
Definition ovSetRange (range : jstr) (s : ov_loop) : ov_loop :=
  match OV_RANGES range with
  | None => s
  | Some _ =>
      ovSchedule (load_traffic (OvLoop range (lo_report s) (lo_error s) (lo_pending s) (lo_timers s) (lo_timer s) (lo_next s) (lo_waiting s)))
  end.

Inductive ov_event : Type :=
  | ORange (range : jstr)
  | ORefresh                                   (* refreshOverview *)
  | OTimer (id : nat) (visible : bool)         (* a timer fires, the page shown or not *)
  | OWaited                                    (* the loads a function waits for are done *)
  | OTraffic (i : nat) (r : report + jstr)     (* a reply to the ith request in flight *)
  | OState (message : option jstr).            (* the end of [ovLoadState]; its failure is shown *)

Definition ov_step (s : ov_loop) (e : ov_event) : ov_loop :=
  match e with
  | ORange range => ovSetRange range s
  | ORefresh => wait (load_traffic s)
  | OTimer id visible =>
      if decide (id ∈ map fst (lo_timers s)) then
        let s := OvLoop (lo_range s) (lo_report s) (lo_error s) (lo_pending s)
                   (List.filter (λ t : nat * Z, negb (bool_decide (t.1 = id))) (lo_timers s)) (lo_timer s) (lo_next s) (lo_waiting s) in
        if visible then wait (load_traffic s) else ovSchedule s
      else s
  | OWaited =>
      match lo_waiting s with
      | O => s
      | Datatypes.S k =>
          ovSchedule (OvLoop (lo_range s) (lo_report s) (lo_error s) (lo_pending s) (lo_timers s) (lo_timer s) (lo_next s) k)
      end
  | OTraffic i r =>
      match lo_pending s !! i with
      | Some range => traffic_reply range r (set_pending (delete i (lo_pending s)) s)
      | None => s
      end
  | OState message =>
      match message with
      | Some m => OvLoop (lo_range s) (lo_report s) m (lo_pending s) (lo_timers s) (lo_timer s) (lo_next s) (lo_waiting s)
      | None => s
      end
  end.
Definition ov_run (s : ov_loop) (es : list ov_event) : ov_loop := fold_left ov_step es s.

(** The page as it starts: the range of the last visit when it is one. *)
Definition ov_start (stored : option jstr) : ov_loop :=
  let range := match stored with
               | Some r => match OV_RANGES r with Some _ => r | None => js "1h" end
               | None => js "1h" end in
  OvLoop range None [] [] [] None 0 0.

(** What holds of the loop; [r] is whether the overview was opened. *)
Record loop_ok (r : bool) (s : ov_loop) : Prop := {
  lk_range : is_Some (OV_RANGES (lo_range s));
  lk_timers : lo_timers s = [] ∨ ∃ id, lo_timer s = Some id ∧ lo_timers s = [(id, snd (List.hd (0%nat, 0) (lo_timers s)))];
  lk_live : r = true → lo_timers s ≠ [] ∨ (0 < lo_waiting s)%nat;
  lk_report : ∀ rg rep, lo_report s = Some (rg, rep) → rg = lo_range s ∨ lo_range s ∈ lo_pending s ∨ lo_error s ≠ [] }.

Lemma schedule_ok r s : loop_ok false s → loop_ok r (ovSchedule s).
Proof.
  intros [Hr Ht _ Hp]. constructor; try done.
  - right. exists (lo_next s). split; [done|]. cbn [ovSchedule lo_timers].
    destruct Ht as [->|(id & E & ->)]; [done|]. rewrite E. cbn [List.filter fst]. by rewrite bool_decide_eq_true_2.
  - intros _. left. cbn. by destruct (List.filter _ _).
Qed.

Lemma load_ok r s : loop_ok r s → loop_ok r (load_traffic s).
Proof.
  intros [Hr Ht Hl Hp]. constructor; try done. intros rg rep H. right. left. cbn. apply elem_of_app. right. by left.
Qed.

Lemma wait_ok r r' s : loop_ok r s → loop_ok r' (wait s).
Proof. intros [Hr Ht Hl Hp]. constructor; try done. intros _. right. cbn. lia. Qed.

Lemma loop_weaken r s : loop_ok r s → loop_ok false s.
Proof. by intros [Hr Ht Hl Hp]. Qed.

(** Messages of errors are texts. *)
Definition ov_event_ok (e : ov_event) : Prop :=
  match e with OTraffic _ (inr m) | OState (Some m) => m ≠ [] | _ => True end.

Lemma ov_step_ok r s e : loop_ok r s → ov_event_ok e →
  loop_ok (match e with ORefresh => true | _ => r end) (ov_step s e).
Proof.
  intros H He. destruct e as [range| |id visible| |i [rep|m]|[m|]]; cbn [ov_step].
  - unfold ovSetRange. destruct (OV_RANGES range) eqn:E; [|done]. apply schedule_ok.
    destruct H as [Hr Ht Hl Hp]. constructor; try done.
    intros rg rep _. right. left. cbn. apply elem_of_app. right. by left.
  - by eapply wait_ok, load_ok.
  - destruct (decide _) as [Hin|]; [|done].
    assert (loop_ok false (OvLoop (lo_range s) (lo_report s) (lo_error s) (lo_pending s)
      (List.filter (λ t : nat * Z, negb (bool_decide (t.1 = id))) (lo_timers s)) (lo_timer s) (lo_next s) (lo_waiting s))) as H1.
    { destruct H as [Hr Ht Hl Hp]. constructor; try done. cbn. left. destruct Ht as [->|(id' & E & E')]; [done|].
      rewrite E' in Hin |- *. cbn in Hin. apply list_elem_of_singleton in Hin as ->. cbn. by rewrite bool_decide_eq_true_2. }
    destruct visible; [by eapply wait_ok, load_ok|by apply schedule_ok].
  - destruct (lo_waiting s) as [|k] eqn:E; [done|]. apply schedule_ok.
    by destruct H.
  - destruct (lo_pending s !! i) as [range|] eqn:E; [|done]. destruct H as [Hr Ht Hl Hp]. unfold traffic_reply.
    destruct (decide _) as [->|Hne]; constructor; try done; cbn.
    + intros rg rp [= <- <-]. by left.
    + intros rg rp Hq. destruct (Hp rg rp Hq) as [?|[Hin|?]]; [by left| |by right; right]. right. left.
      apply list_elem_of_lookup in Hin as [j Hj]. assert (j ≠ i) as Hji by (intros ->; rewrite E in Hj; by injection Hj).
      rewrite delete_take_drop, elem_of_app.
      destruct (decide (i ≤ j)%nat).
      * right. apply list_elem_of_lookup. exists (j - Datatypes.S i)%nat. rewrite lookup_drop. rewrite <- Hj. f_equal. lia.
      * left. apply elem_of_take. exists j. split; [done|lia].
  - destruct (lo_pending s !! i) as [range|]; [|done]. destruct H as [Hr Ht Hl Hp]. constructor; try done. intros. by right; right.
  - destruct H as [Hr Ht Hl Hp]. constructor; try done. intros. by right; right.
  - done.
Qed.

Lemma ov_start_ok stored : loop_ok false (ov_start stored).
Proof.
  constructor; [|by left|done|done]. unfold ov_start. cbn [lo_range]. destruct stored as [r|]; [|by eexists].
  destruct (OV_RANGES r) eqn:E; [by rewrite E|by eexists].
Qed.

Definition opened (es : list ov_event) : bool := existsb (λ e, match e with ORefresh => true | _ => false end) es.

Lemma ov_run_ok es : ∀ r s, loop_ok r s → Forall ov_event_ok es → loop_ok (r || opened es) (ov_run s es).
Proof.
  induction es as [|e es IH]; intros r s H He; [by rewrite orb_false_r|]. apply list.Forall_cons in He as [He Hes].
  apply (ov_step_ok _ _ _ H) in He. apply (IH _ _ He) in Hes. cbn [ov_run fold_left opened existsb] in *.
  by destruct e, r.
Qed.

(** C11. However the overview is used (ranges chosen, replies arriving late and
    in any order, timers firing with the page shown or hidden), its refresh
    loop keeps going and never doubles: at most one timer is set, and it is
    the one [ov.timer] would clear; once the page was opened there is always
    a timer set or a load whose end will set one; and the traffic shown is of
    the chosen range, unless its request is still in flight or the page says
    why the refresh failed. *)
Theorem overview_keeps_polling stored es : Forall ov_event_ok es →
  let s := ov_run (ov_start stored) es in
  (length (lo_timers s) ≤ 1)%nat
  ∧ (∀ t, t ∈ lo_timers s → lo_timer s = Some t.1)
  ∧ (opened es = true → lo_timers s ≠ [] ∨ (0 < lo_waiting s)%nat)
  ∧ (∀ range rep, lo_report s = Some (range, rep) →
       range = lo_range s ∨ lo_range s ∈ lo_pending s ∨ lo_error s ≠ []).
Proof.
  intros He s. destruct (ov_run_ok es _ _ (ov_start_ok stored) He) as [_ Ht Hl Hp].
  fold s in Ht, Hl, Hp. destruct Ht as [Ht|(id & E & Ht)].
  - rewrite Ht in *. split; [cbn; lia|]. split; [by intros t ?%not_elem_of_nil|]. by split.
  - split; [rewrite Ht; cbn; lia|]. split; [|by split].
    intros t Hin. rewrite Ht in Hin. apply list_elem_of_singleton in Hin as ->. done.
Qed.

(** ** The properties at concrete inputs *)

Lemma groups_partition_witness :
  (1 <= 2)%nat ∧ concat (map (group 2 [Some (f_of_Z 1); None; Some (f_of_Z 3)]) (starts 2 3)) = [Some (f_of_Z 1); None; Some (f_of_Z 3)].
Proof.
  split; [lia|]. exact (proj1 (groups_partition 2 [Some (f_of_Z 1); None; Some (f_of_Z 3)] ltac:(lia))).
Defined.

Definition two_peaks : list val := [Some (f_of_Z 4); Some (f_of_Z 9); None; None].

Lemma peaks_are_largest_witness :
  Forall (λ v, match v with Some x => num x | None => True end) two_peaks ∧ starts 2 (length two_peaks) !! 0%nat = Some 0%nat
  ∧ ∃ m, ovPeaks two_peaks 2 !! 0%nat = Some (Some m) ∧ m ∈ [f_of_Z 4; f_of_Z 9].
Proof.
  assert (Forall (λ v, match v with Some x => num x | None => True end) two_peaks) as F
    by (repeat first [apply list.Forall_nil; exact I | apply list.Forall_cons; split; [first [exact I | vm_compute; reflexivity]|]]).
  split; [exact F|]. split; [done|].
  destruct (peaks_are_largest 2 two_peaks 0 0 F eq_refl) as (m & H1 & H2 & _). exists m. by split.
Defined.

Definition some_report : report :=
  Report 0 60 [Some (f_of_Z 60); Some (f_of_Z 60)] (λ k, if decide (k = js "out") then [Some (f_of_Z 600); None] else [None; None]).
Definition range_1 : range_opts := RangeOpts 30 1 1 2.

Lemma table_is_chart_twin_witness :
  let c := (ov_content (λ _, 3600) (λ _, js "80 bit/s") (λ _, js "7") (λ _, js "9 ms") Tp range_1 some_report).2 in
  finite_values (tp_series some_report range_1) ∧ anyData c = true
  ∧ Forall2 (λ i row, twin_row Tp (tp_series some_report range_1) (ov_tip (λ _, 3600) (λ _, js "80 bit/s") (λ _, js "7") (λ _, js "9 ms") Tp c i) i row)
      [0%nat] (tail (ov_content (λ _, 3600) (λ _, js "80 bit/s") (λ _, js "7") (λ _, js "9 ms") Tp range_1 some_report).1).
Proof.
  intros c. assert (finite_values (tp_series some_report range_1)) as F.
  { apply list.Forall_cons. split; [|apply list.Forall_singleton]; vm_compute; repeat constructor. }
  split; [exact F|]. assert (anyData c = true) as Ha by by_compute. split; [exact Ha|].
  destruct (table_is_chart_twin (λ _, 3600) (λ _, js "80 bit/s") (λ _, js "7") (λ _, js "9 ms") some_report range_1 Tp F) as (_ & H & _).
  specialize (H Ha). assert (List.filter (hasData c) (rev (seq 0 (ch_points c))) = [0%nat]) as E by by_compute. fold c in H. by rewrite E in H.
Defined.

(** The page opened, the range changed before its report is there, and the
    late report of the old range ignored. *)
Definition ov_session : list ov_event :=
  [ORefresh; ORange (js "24h"); OTraffic 0 (inl some_report); OWaited; OTraffic 0 (inl some_report); OTimer 1 true].

Lemma overview_keeps_polling_witness :
  Forall ov_event_ok ov_session
  ∧ (lo_timers (ov_run (ov_start None) ov_session) ≠ [] ∨ (0 < lo_waiting (ov_run (ov_start None) ov_session))%nat)
  ∧ option_map fst (lo_report (ov_run (ov_start None) ov_session)) = Some (js "24h").
Proof.
  assert (Forall ov_event_ok ov_session) as F by (repeat (apply list.Forall_cons; split; [exact I|]); constructor).
  split; [exact F|]. split; [|by_compute].
  exact (proj1 (proj2 (proj2 (overview_keeps_polling None ov_session F))) eq_refl).
Defined.
