(* ===== verification/Listings.v ===== *)
(** * Tables of stored things (web/app.js)

    Access lists, identity providers, streams, certificates, API tokens, LAN
    policies, WireGuard sites and VPN devices are shown the same way: a table
    is loaded, a row's button deletes it after a question, a row's switch
    turns it on and off, and every change loads the table again.  [Listing]
    is what a page has of its own; the handlers, their replies and the server
    behind them are the same for all.  The server answers requests in any
    order and its replies arrive in any order; [news] follows whether the list
    on the page is the newest the server has made.  The instances are in
    Tables. *)

From Stdlib Require Import Ascii String ZArith NArith Lia.
From stdpp Require Import base list relations strings numbers.
From S2P Require Import Prelude.

(** ** A page *)

(** [row_confirm] is the question of the delete button, [None] when it does
    not ask; [row_switch] the switch, when the row has one; [row_flip b r] is
    what the switch sends.  [fail_alerts]: a delete that failed is told;
    [flip_back]: a switch that failed is put back, otherwise the table is
    loaded again; [load_falls_back]: a load that failed shows an empty
    table. *)
Class Listing (R : Type) : Type := {
  row_id : R → Z;
  row_confirm : R → option jstr;
  row_switch : R → option bool;
  row_flip : bool → R → R;
  fail_alerts : bool;
  flip_back : bool;
  load_falls_back : bool;
  row_flip_id : ∀ b r, row_id (row_flip b r) = row_id r;
  row_flip_switch : ∀ b r, row_switch r ≠ None → row_switch (row_flip b r) = Some b }.

Section listing.
Context {R : Type} `{!Listing R}.

(** A request; that of a switch knows the table it was in, by number, and its
    row.  A save of an editor of the page is known by what it does to what is
    stored; the editor takes its failure. *)
Inductive table_request : Type :=
  | QLoad | QDelete (id : Z) | QPut (r : R) (gen i : nat) | QSave (change : list R → list R).
Inductive table_reply : Type := TRows (l : list R) | TOk | TFail (message : jstr).
Inductive table_event : Type :=
  | TOpen                           (* the page is opened, or refreshed *)
  | TRemove (i : nat) (yes : bool)  (* the delete button, and the answer *)
  | TToggle (i : nat)
  | TSave (change : list R → list R). (* an editor of the page is submitted *)

(** [tb_gen] counts the tables rendered so far; [tb_asked] are the questions
    asked and their answers. *)
Record table : Type := Table {
  tb_rows : list R; tb_switches : list (option bool); tb_gen : nat; tb_jobs : list table_request; tb_sent : list table_request;
  tb_asked : list (R * bool); tb_alerts : list jstr }.

Definition table_send (q : table_request) (t : table) : table :=
  Table (tb_rows t) (tb_switches t) (tb_gen t) (tb_jobs t ++ [q]) (tb_sent t ++ [q]) (tb_asked t) (tb_alerts t).
Definition table_ask (r : R) (yes : bool) (t : table) : table :=
  Table (tb_rows t) (tb_switches t) (tb_gen t) (tb_jobs t) (tb_sent t) (tb_asked t ++ [(r, yes)]) (tb_alerts t).
Definition table_alert (m : jstr) (t : table) : table :=
  Table (tb_rows t) (tb_switches t) (tb_gen t) (tb_jobs t) (tb_sent t) (tb_asked t) (tb_alerts t ++ [m]).
Definition table_switches (l : list (option bool)) (t : table) : table :=
  Table (tb_rows t) l (tb_gen t) (tb_jobs t) (tb_sent t) (tb_asked t) (tb_alerts t).
Definition table_jobs (l : list table_request) (t : table) : table :=
  Table (tb_rows t) (tb_switches t) (tb_gen t) l (tb_sent t) (tb_asked t) (tb_alerts t).
Definition table_show (l : list R) (t : table) : table :=
  Table l (map row_switch l) (S (tb_gen t)) (tb_jobs t) (tb_sent t) (tb_asked t) (tb_alerts t).

Definition turn (i : nat) (l : list (option bool)) : list (option bool) := alter (fmap negb) i l.

Definition table_remove (r : R) (yes : bool) (t : table) : table :=
  match row_confirm r with
  | Some _ => if yes then table_send (QDelete (row_id r)) (table_ask r true t) else table_ask r false t
  | None => table_send (QDelete (row_id r)) t
  end.
Definition table_toggle (i : nat) (t : table) : table :=
  match tb_rows t !! i, tb_switches t !! i with
  | Some r, Some (Some b) =>
      table_send (QPut (row_flip (negb b) r) (tb_gen t) i) (table_switches (turn i (tb_switches t)) t)
  | _, _ => t
  end.
Definition table_step (t : table) (e : table_event) : table :=
  match e with
  | TOpen => table_send QLoad t
  | TRemove i yes => match tb_rows t !! i with Some r => table_remove r yes t | None => t end
  | TToggle i => table_toggle i t
  | TSave f => table_send (QSave f) t
  end.

Definition table_continue (q : table_request) (r : table_reply) (t : table) : table :=
  match q, r with
  | QLoad, TRows l => table_show l t
  | QLoad, TFail _ => if load_falls_back then table_show [] t else t
  | QDelete _, TOk | QPut _ _ _, TOk | QSave _, TOk => table_send QLoad t
  | QDelete _, TFail m => if fail_alerts then table_alert m t else t
  | QPut _ gen i, TFail m =>
      if flip_back then table_alert m (if (gen =? tb_gen t)%nat then table_switches (turn i (tb_switches t)) t else t)
      else table_send QLoad (table_alert m t)
  | _, _ => t
  end.

(** ** The server behind it

    A request is answered at one moment and its reply arrives at a later one:
    [tb_jobs] are the requests the server has not seen, [w_answers] the
    replies under way, in the order they were made.  Replies overtake each
    other, lists as well.  [apply] is what a change does to what the server
    stores.  [w_news] is about the newest list the server has made: it is
    under way, it is the one that arrived last, or neither, when no list was
    made yet, the load answered last failed, or an older list has arrived
    after it. *)
Context (apply : table_request → list R → list R).

Inductive news : Type := NewsComing | NewsShown | NewsLost.
Record world : Type := World {
  w_srv : list R; w_table : table; w_answers : list (table_request * table_reply); w_news : news }.

Definition is_load (q : table_request) : bool := match q with QLoad => true | _ => false end.
Definition loads (l : list (table_request * table_reply)) : list table_reply := map snd (List.filter (λ a, is_load a.1) l).
Definition take_job (j : nat) (t : table) : table := table_jobs (delete j (tb_jobs t)) t.
(** The answer [k] to a load arrives. *)
Definition list_arrives (k : nat) (w : world) : news :=
  match w_news w with
  | NewsComing => match loads (drop (S k) (w_answers w)) with [] => NewsShown | _ => NewsComing end
  | _ => NewsLost
  end.
Definition deliver (k : nat) (q : table_request) (r : table_reply) (w : world) : world :=
  World (w_srv w) (table_continue q r (w_table w)) (delete k (w_answers w)) (if is_load q then list_arrives k w else w_news w).

Inductive server_step : world → world → Prop :=
  | WLoad w j : tb_jobs (w_table w) !! j = Some QLoad →
      server_step w (World (w_srv w) (take_job j (w_table w)) (w_answers w ++ [(QLoad, TRows (w_srv w))]) NewsComing)
  | WLoadFail w j m : tb_jobs (w_table w) !! j = Some QLoad →
      server_step w (World (w_srv w) (take_job j (w_table w)) (w_answers w ++ [(QLoad, TFail m)]) NewsLost)
  | WChange w j q : tb_jobs (w_table w) !! j = Some q → is_load q = false →
      server_step w (World (apply q (w_srv w)) (take_job j (w_table w)) (w_answers w ++ [(q, TOk)]) (w_news w))
  | WRefuse w j q m : tb_jobs (w_table w) !! j = Some q → is_load q = false →
      server_step w (World (w_srv w) (take_job j (w_table w)) (w_answers w ++ [(q, TFail m)]) (w_news w))
  | WDeliver w k q r : w_answers w !! k = Some (q, r) → server_step w (deliver k q r w).

Inductive wstep : world → world → Prop :=
  | WUser w e : wstep w (World (w_srv w) (table_step (w_table w) e) (w_answers w) (w_news w))
  | WServer w w' : server_step w w' → wstep w w'.

Definition closed_table : table := Table [] [] 0 [] [] [] [].
(** The page is opened. *)
Definition opened (srv : list R) : world := World srv (table_step closed_table TOpen) [] NewsLost.

(** ** Lemmas *)

Lemma loads_app l l' : loads (l ++ l') = loads l ++ loads l'.
Proof. unfold loads. by rewrite List.filter_app, map_app. Qed.

Lemma loads_at k q r (l : list (table_request * table_reply)) : l !! k = Some (q, r) →
  loads l = loads (take k l) ++ (if is_load q then [r] else []) ++ loads (drop (S k) l).
Proof.
  intros Hk. rewrite <- (take_drop_middle _ _ _ Hk) at 1. rewrite !loads_app. f_equal. unfold loads at 1. cbn [List.filter fst].
  by destruct (is_load q).
Qed.
Lemma loads_delete k (l : list (table_request * table_reply)) : loads (delete k l) = loads (take k l) ++ loads (drop (S k) l).
Proof. by rewrite delete_take_drop, loads_app. Qed.

(** The switches of the table shown whose change is under way. *)
Definition turned (gen : nat) (l : list table_request) : list nat :=
  omap (λ q, match q with QPut _ g i => if (g =? gen)%nat then Some i else None | _ => None end) l.
Definition turns (l : list nat) (s : list (option bool)) : list (option bool) := foldr turn s l.

Lemma lookup_turn i s k : turn i s !! k = if decide (i = k) then fmap negb <$> s !! k else s !! k.
Proof. unfold turn. destruct (decide (i = k)) as [->|Hn]; [apply list_lookup_alter_eq|by apply list_lookup_alter_ne]. Qed.
Lemma turn_comm i j s : turn i (turn j s) = turn j (turn i s).
Proof. apply list_eq. intros k. rewrite !lookup_turn. by repeat destruct (decide _). Qed.
Lemma turn_twice i s : turn i (turn i s) = s.
Proof. apply list_eq. intros k. rewrite !lookup_turn. destruct (decide _); [|done]. by destruct (s !! k) as [[[]|]|]. Qed.
Lemma turns_perm l l' s : l ≡ₚ l' → turns l s = turns l' s.
Proof. unfold turns. induction 1 as [|i l l' _ IH|i j l|l l' l'' _ IH1 _ IH2]; cbn; [done|by rewrite IH|apply turn_comm|congruence]. Qed.

Lemma turned_perm gen l l' : l ≡ₚ l' → turned gen l ≡ₚ turned gen l'.
Proof. intros H. unfold turned. by rewrite H. Qed.
Lemma turned_app gen l l' : turned gen (l ++ l') = turned gen l ++ turned gen l'.
Proof. unfold turned. apply omap_app. Qed.

Lemma turns_cancel i l l' s : l ≡ₚ i :: l' → turn i (turns l s) = turns l' s.
Proof. intros H. rewrite (turns_perm _ _ _ H). cbn. apply turn_twice. Qed.

Lemma turned_old gen l : (∀ x g i, QPut x g i ∈ l → (g < gen)%nat) → turned gen l = [].
Proof.
  induction l as [|q l IH]; intros H; [done|]. unfold turned in *. cbn [omap list_omap]. rewrite IH; [|intros; eapply H; by right].
  destruct q as [| |x g i|]; [done..| |done]. specialize (H x g i (list_elem_of_here _ _)). by destruct (Nat.eqb_spec g gen); [lia|].
Qed.

(** What is under way: sent and not seen, or answered and not delivered. *)
Definition under_way (w : world) : list table_request := tb_jobs (w_table w) ++ map fst (w_answers w).
Definition changed (l : list (table_request * table_reply)) : Prop := ∃ q, is_load q = false ∧ (q, TOk) ∈ l.
(** The table will be loaded once more. *)
Definition reload (w : world) : Prop := QLoad ∈ tb_jobs (w_table w) ∨ changed (w_answers w).

Definition reply_ok (a : table_request * table_reply) : bool :=
  match a with (QLoad, TOk) => false | (QLoad, _) => true | (_, TRows _) => false | _ => true end.
Record world_ok (w : world) : Prop := {
  wo_replies : Forall (λ a, reply_ok a = true) (w_answers w);
  wo_coming : w_news w = NewsComing → ∃ l, list.last (loads (w_answers w)) = Some (TRows l) ∧ (reload w ∨ l = w_srv w);
  wo_shown : w_news w = NewsShown → reload w ∨ (tb_rows (w_table w) = w_srv w
    ∧ tb_switches (w_table w) = turns (turned (tb_gen (w_table w)) (under_way w)) (map row_switch (tb_rows (w_table w))));
  wo_gen : ∀ r g i, QPut r g i ∈ under_way w → (g <= tb_gen (w_table w))%nat }.

Lemma under_way_serve w j q r srv f : tb_jobs (w_table w) !! j = Some q →
  under_way (World srv (take_job j (w_table w)) (w_answers w ++ [(q, r)]) f) ≡ₚ under_way w.
Proof.
  intros Hj. unfold under_way. cbn [w_table w_answers take_job table_jobs tb_jobs]. rewrite map_app. cbn [map fst].
  rewrite (delete_Permutation _ _ _ Hj) at 2. by rewrite app_assoc, <- Permutation_cons_append.
Qed.

Lemma under_way_deliver w k q r t f : w_answers w !! k = Some (q, r) →
  under_way w ≡ₚ q :: (tb_jobs (w_table w) ++ map fst (w_answers (World (w_srv w) t (delete k (w_answers w)) f))).
Proof.
  intros Hk. unfold under_way. cbn [w_answers]. rewrite (delete_Permutation _ _ _ Hk) at 1. cbn [map fst].
  symmetry. apply Permutation_middle.
Qed.

Lemma table_step_effect t e : let t' := table_step t e in
  tb_rows t' = tb_rows t ∧ tb_gen t' = tb_gen t ∧ ∃ new, tb_jobs t' = tb_jobs t ++ new
  ∧ ((turned (tb_gen t) new = [] ∧ (∀ r g i, QPut r g i ∉ new) ∧ tb_switches t' = tb_switches t)
     ∨ ∃ r i, new = [QPut r (tb_gen t) i] ∧ tb_switches t' = turn i (tb_switches t)).
Proof.
  assert (∀ q, (∀ r g i, q ≠ QPut r g i) → ∀ r g i, QPut r g i ∉ [q]) as Hn
    by (intros q H r g i Hin%list_elem_of_singleton; by apply (H r g i)).
  cbv zeta. destruct e as [|j yes|j|f]; cbn [table_step].
  - split_and!; [done..|]. exists [QLoad]. split; [done|]. left. split_and!; [done|by apply Hn|done].
  - destruct (tb_rows t !! j) as [r|]; [|split_and!; [done..|]; exists []; rewrite app_nil_r; split; [done|]; left;
      split_and!; [done|intros; apply not_elem_of_nil|done]].
    unfold table_remove. destruct (row_confirm r); [destruct yes|]; (split_and!; [done..|]).
    1, 3: exists [QDelete (row_id r)]; split; [done|]; left; split_and!; [done|by apply Hn|done].
    exists []. rewrite app_nil_r. split; [done|]. left. split_and!; [done|intros; apply not_elem_of_nil|done].
  - unfold table_toggle. destruct (tb_rows t !! j) as [r|]; [destruct (tb_switches t !! j) as [[b|]|]|];
      (split_and!; [done..|]); try (exists []; rewrite app_nil_r; split; [done|]; left; split_and!; [done|intros; apply not_elem_of_nil|done]).
    exists [QPut (row_flip (negb b) r) (tb_gen t) j]. split; [done|]. right. by exists (row_flip (negb b) r), j.
  - split_and!; [done..|]. exists [QSave f]. split; [done|]. left. split_and!; [done|by apply Hn|done].
Qed.

Lemma wstep_user w e : world_ok w → world_ok (World (w_srv w) (table_step (w_table w) e) (w_answers w) (w_news w)).
Proof.
  intros [H0 H1 H2 H4]. destruct (table_step_effect (w_table w) e) as (Er & Eg & new & Ej & Hs).
  assert (∀ q, q ∈ tb_jobs (w_table w) → q ∈ tb_jobs (table_step (w_table w) e)) as Hin by (intros q ?; rewrite Ej; apply elem_of_app; by left).
  assert (reload w → reload (World (w_srv w) (table_step (w_table w) e) (w_answers w) (w_news w))) as Hr
    by (intros [?|?]; [left; by apply Hin|by right]).
  constructor; cbn [w_news w_answers w_srv w_table].
  - done.
  - intros Hn. destruct (H1 Hn) as (l & El & [?|?]); exists l; (split; [done|]); [left; by apply Hr|by right].
  - intros Hn. destruct (H2 Hn) as [?|[Erow E]]; [left; by apply Hr|]. right. rewrite Er, Eg. split; [done|].
    unfold under_way in *. cbn [w_table w_answers]. rewrite Ej.
    assert ((tb_jobs (w_table w) ++ new) ++ map fst (w_answers w) ≡ₚ new ++ tb_jobs (w_table w) ++ map fst (w_answers w)) as P
      by (rewrite app_assoc; apply Permutation_app_tail, Permutation_app_comm).
    rewrite (turns_perm _ _ _ (turned_perm _ _ _ P)), turned_app. destruct Hs as [(-> & _ & ->)|(r & i & -> & ->)]; [done|].
    rewrite E. cbn. by rewrite Nat.eqb_refl.
  - intros r g i Hq. rewrite Eg. unfold under_way in *. cbn [w_table w_answers] in Hq. rewrite Ej, !elem_of_app in Hq.
    destruct Hq as [[Hq|Hq]|Hq]; [apply (H4 r g i), elem_of_app; by left| |apply (H4 r g i), elem_of_app; by right].
    destruct Hs as [(_ & Hn & _)|(r' & i' & -> & _)]; [by apply Hn in Hq|]. by apply list_elem_of_singleton in Hq as [= -> -> ->].
Qed.

(** The server answers a request. *)
Lemma wstep_answer w j q r srv n : tb_jobs (w_table w) !! j = Some q → world_ok w → reply_ok (q, r) = true →
  let w' := World srv (take_job j (w_table w)) (w_answers w ++ [(q, r)]) n in
  (if is_load q then n = NewsLost ∨ (n = NewsComing ∧ srv = w_srv w ∧ r = TRows srv)
   else n = w_news w ∧ (r = TOk ∨ (srv = w_srv w ∧ ∃ m, r = TFail m))) →
  world_ok w'.
Proof.
  intros Hj [H0 H1 H2 H4] Hrep w' Hq. pose proof (under_way_serve w j q r srv n Hj) as P. fold w' in P.
  assert (loads (w_answers w') = loads (w_answers w) ++ if is_load q then [r] else []) as El.
  { unfold w'. cbn [w_answers]. rewrite loads_app. unfold loads at 2. cbn. by destruct (is_load q). }
  assert (Forall (λ a, reply_ok a = true) (w_answers w')) as H0'.
  { apply list.Forall_app. split; [done|by apply list.Forall_singleton]. }
  assert (∀ q', q' ∈ tb_jobs (w_table w) → q' = q ∨ q' ∈ tb_jobs (w_table w')) as Hjobs.
  { intros q' Hq'. rewrite (delete_Permutation _ _ _ Hj), elem_of_cons in Hq'. by destruct Hq'; [left|right]. }
  assert (∀ x g i, QPut x g i ∈ under_way w' → (g <= tb_gen (w_table w'))%nat) as H4' by (intros x g i Hin; rewrite P in Hin; by apply (H4 x g i)).
  destruct (is_load q) eqn:Eq.
  - constructor; [exact H0'|..|exact H4']; rewrite ?El; cbn [w' w_news w_srv w_table].
    + intros Hn. destruct Hq as [->|(_ & -> & ->)]; [done|]. exists (w_srv w). split; [apply last_snoc|by right].
    + intros Hn. by destruct Hq as [->|(-> & _)].
  - destruct Hq as [-> Hq]. rewrite app_nil_r in El.
    assert (reload w ∨ r = TOk → reload w') as Hr.
    { intros [[Hin|(q' & Hn & Hin)]| ->].
      - destruct (Hjobs _ Hin) as [<-|?]; [done|by left].
      - right. exists q'. split; [done|]. unfold w'. cbn. apply elem_of_app. by left.
      - right. exists q. split; [done|]. unfold w'. cbn. apply elem_of_app. right. by apply list_elem_of_singleton. }
    constructor; [exact H0'|..|exact H4']; rewrite ?El; cbn [w' w_news w_srv w_table].
    + intros Hn. destruct (H1 Hn) as (l & E & Hl). exists l. split; [done|].
      destruct Hq as [->|[-> _]]; [left; apply Hr; by right|]. destruct Hl; [left; apply Hr; by left|by right].
    + intros Hn. destruct Hq as [->|[-> _]]; [left; apply Hr; by right|]. destruct (H2 Hn) as [?|[? E]]; [left; apply Hr; by left|].
      right. split; [done|]. rewrite (turns_perm _ _ _ (turned_perm _ _ _ P)). exact E.
Qed.

Lemma table_continue_change q r t : is_load q = false → reply_ok (q, r) = true →
  let t' := table_continue q r t in
  tb_rows t' = tb_rows t ∧ tb_gen t' = tb_gen t
  ∧ (tb_jobs t' = tb_jobs t ++ [QLoad]
     ∨ (tb_jobs t' = tb_jobs t ∧ r ≠ TOk
        ∧ tb_switches t' = match q with
                           | QPut _ g i => if (g =? tb_gen t)%nat then turn i (tb_switches t) else tb_switches t
                           | _ => tb_switches t
                           end)).
Proof.
  intros Hq Hr. destruct q as [|id|x g i|f], r as [l| |m]; try done; cbn [table_continue].
  - split_and!; [done..|]. by left.
  - destruct fail_alerts; (split_and!; [done..|]); right; by split_and!.
  - split_and!; [done..|]. by left.
  - destruct flip_back; [|split_and!; [done..|by left]].
    split_and!; [by destruct (_ =? _)%nat..|]. right. split_and!; [by destruct (_ =? _)%nat|done|by destruct (_ =? _)%nat].
  - split_and!; [done..|]. by left.
  - split_and!; [done..|]. by right.
Qed.

(** A reply arrives. *)
Lemma wstep_deliver_load w k r : w_answers w !! k = Some (QLoad, r) → world_ok w → world_ok (deliver k QLoad r w).
Proof.
  intros Hk [H0 H1 H2 H4]. pose proof (loads_at _ _ _ _ Hk) as El. cbn [is_load] in El. pose proof (loads_delete k (w_answers w)) as Ed.
  set (w' := deliver k QLoad r w). pose proof (under_way_deliver w k QLoad r (w_table w') (w_news w') Hk) as P.
  change (w_answers (World _ _ _ _)) with (w_answers w') in P.
  assert (tb_jobs (w_table w') = tb_jobs (w_table w)) as Ej by (unfold w'; cbn; destruct r, load_falls_back; done).
  rewrite <- Ej in P. change (_ ++ map fst (w_answers w')) with (under_way w') in P.
  assert (reload w → reload w') as Hr.
  { intros [?|(q & Hn & Hin)]; [left; by rewrite Ej|right]. exists q. split; [done|]. rewrite (delete_Permutation _ _ _ Hk), elem_of_cons in Hin.
    destruct Hin as [[= -> ->]|Hin]; done. }
  rewrite (delete_Permutation _ _ _ Hk) in H0. apply list.Forall_cons in H0 as [Hrep H0].
  assert (∀ x g i, QPut x g i ∈ under_way w' → (g <= tb_gen (w_table w))%nat) as H4'.
  { intros x g i Hin. apply (H4 x g i). rewrite P. by right. }
  assert (tb_gen (w_table w) <= tb_gen (w_table w'))%nat as Hg by (unfold w'; cbn; destruct r, load_falls_back; cbn; lia).
  constructor; [done|..|intros x g i Hin%H4'; lia];
    unfold w', deliver, list_arrives; cbn [is_load w_news w_answers]; fold (deliver k QLoad r w); fold w';
    destruct (w_news w) eqn:En; try done; destruct (loads (drop (S k) (w_answers w))) as [|r' l] eqn:Er; try done; intros _.
  - destruct (H1 eq_refl) as (rows & E & Hl). rewrite Ed. exists rows. rewrite El, app_assoc, last_app_cons in E.
    rewrite last_app_cons. split; [done|]. destruct Hl; [left; by apply Hr|by right].
  - destruct (H1 eq_refl) as (rows & E & Hl). cbn [app] in El. rewrite El, last_snoc in E. injection E as ->.
    destruct Hl as [?| ->]; [left; by apply Hr|]. right. split; [done|].
    assert (turned (tb_gen (w_table w')) (under_way w') = []) as Et by (apply turned_old; intros x g i Hin%H4'; unfold w'; cbn; lia).
    unfold w', deliver, under_way in Et. cbn in Et. unfold under_way. cbn. by rewrite Et.
Qed.

Lemma wstep_deliver_change w k q r : w_answers w !! k = Some (q, r) → is_load q = false → world_ok w → world_ok (deliver k q r w).
Proof.
  intros Hk Hq [H0 H1 H2 H4]. pose proof (loads_at _ _ _ _ Hk) as El. rewrite Hq, <- loads_delete in El.
  rewrite (delete_Permutation _ _ _ Hk) in H0. apply list.Forall_cons in H0 as [Hrep H0].
  destruct (table_continue_change q r (w_table w) Hq Hrep) as (Er & Eg & Hj). set (w' := deliver k q r w).
  set (t' := table_continue q r (w_table w)) in *.
  assert (w_news w' = w_news w) as En by (unfold w', deliver; cbn; by rewrite Hq).
  pose proof (under_way_deliver w k q r t' (w_news w') Hk) as P. change (w_answers (World _ _ _ _)) with (w_answers w') in P.
  assert (reload w ∨ tb_jobs t' = tb_jobs (w_table w) ++ [QLoad] → reload w') as Hr.
  { intros [[Hin|(q' & Hn & Hin)]|E].
    - left. change (QLoad ∈ tb_jobs t'). destruct Hj as [->|[-> _]]; [apply elem_of_app; by left|done].
    - rewrite (delete_Permutation _ _ _ Hk), elem_of_cons in Hin. destruct Hin as [[= _ Ho]|Hin]; [|right; by exists q'].
      left. change (QLoad ∈ tb_jobs t'). destruct Hj as [->|(_ & ? & _)]; [apply elem_of_app; right; by left|congruence].
    - left. change (QLoad ∈ tb_jobs t'). rewrite E. apply elem_of_app. right. by left. }
  assert (∀ x g i, QPut x g i ∈ under_way w' → (g <= tb_gen (w_table w))%nat) as H4'.
  { intros x g i Hin. apply (H4 x g i). rewrite P. right. change (QPut x g i ∈ tb_jobs t' ++ map fst (w_answers w')) in Hin.
    rewrite elem_of_app in *. destruct Hin as [Hin|Hin]; [left|by right].
    destruct Hj as [E|[E _]]; rewrite E in Hin; [|done]. apply elem_of_app in Hin as [?|Hin]; [done|].
    by apply list_elem_of_singleton in Hin. }
  constructor; [done|rewrite En..|].
  - intros Hn. change (loads (w_answers w')) with (loads (delete k (w_answers w))). rewrite <- El.
    destruct (H1 Hn) as (l & E & [?|?]); exists l; (split; [done|]); [left; apply Hr; by left|by right].
  - intros Hn. destruct (H2 Hn) as [?|[Ew E]]; [left; apply Hr; by left|].
    destruct Hj as [Ej|(Ej & _ & Es)]; [left; apply Hr; by right|]. right. rewrite <- Ej in P.
    change (tb_jobs t' ++ map fst (w_answers w')) with (under_way w') in P. change (w_table w') with t'. rewrite Er, Eg, Es, E.
    split; [done|]. apply (turned_perm (tb_gen (w_table w))) in P. destruct q as [|id|x g i|f]; [done|by apply turns_perm| |by apply turns_perm].
    change (QPut x g i :: under_way w') with ([QPut x g i] ++ under_way w') in P. rewrite turned_app in P. cbn in P.
    destruct (g =? tb_gen (w_table w))%nat; [by apply turns_cancel|by apply turns_perm].
  - intros x g i Hin. apply H4' in Hin. change (w_table w') with t'. by rewrite Eg.
Qed.

Lemma server_step_ok w w' : server_step w w' → world_ok w → world_ok w'.
Proof.
  intros H Hw. destruct H as [w j Hj|w j m Hj|w j q Hj Hq|w j q m Hj Hq|w k q r Hk].
  - apply (wstep_answer w j QLoad); [done..|by right].
  - apply (wstep_answer w j QLoad); [done..|by left].
  - apply (wstep_answer w j q TOk); [done..|by destruct q|]. rewrite Hq. split; [done|by left].
  - apply (wstep_answer w j q (TFail m)); [done..|by destruct q|]. rewrite Hq. split; [done|]. right. split; [done|by exists m].
  - destruct (is_load q) eqn:Eq; [|by apply wstep_deliver_change]. destruct q; try done. by apply wstep_deliver_load.
Qed.

Lemma wstep_ok w w' : wstep w w' → world_ok w → world_ok w'.
Proof. intros [w1 e|w1 w2 H]; [apply wstep_user|by apply server_step_ok]. Qed.

Lemma reachable_ok srv w : rtc wstep (opened srv) w → world_ok w.
Proof.
  assert (world_ok (opened srv)) as H0.
  { constructor; cbn; [done..|]. by intros x g i H%list_elem_of_singleton. }
  intros H. revert H0. induction H as [|w1 w2 w3 Hs _ IH]; [done|]. intros Hw. by apply IH, (wstep_ok w1).
Qed.

(** ** Properties *)

(** The work that is left: a change still brings a load. *)
Definition job_work (q : table_request) : nat := if is_load q then 2 else 4.
Definition work (w : world) : nat := sum_list_with job_work (tb_jobs (w_table w)) + sum_list_with (λ a, pred (job_work a.1)) (w_answers w).

Lemma sum_delete {A} (f : A → nat) l k x : l !! k = Some x → sum_list_with f l = (f x + sum_list_with f (delete k l))%nat.
Proof. intros Hk. by rewrite (delete_Permutation _ _ _ Hk) at 1. Qed.

Lemma continue_work q r t : (sum_list_with job_work (tb_jobs (table_continue q r t)) <= sum_list_with job_work (tb_jobs t) + (if is_load q then 0 else 2))%nat.
Proof.
  destruct q as [|id|x g i|f], r as [l| |m]; cbn [table_continue is_load]; try (destruct load_falls_back); try (destruct fail_alerts);
    try (destruct flip_back); try (destruct (_ =? _)%nat); cbn [tb_jobs table_send table_alert table_show table_switches];
    rewrite ?sum_list_with_app; cbn; lia.
Qed.

Lemma server_step_work w w' : server_step w w' → (work w' < work w)%nat.
Proof.
  intros H. unfold work. destruct H as [w j Hj|w j m Hj|w j q Hj Hq|w j q m Hj Hq|w k q r Hk];
    cbn [deliver w_table w_answers take_job table_jobs tb_jobs]; rewrite ?sum_list_with_app; cbn [sum_list_with fst].
  1-4: rewrite (sum_delete _ _ _ _ Hj); unfold job_work; rewrite ?Hq; cbn; lia.
  rewrite (sum_delete _ (w_answers w) _ _ Hk). pose proof (continue_work q r (w_table w)). unfold job_work in *. cbn [fst].
  destruct (is_load q); cbn in *; lia.
Qed.

Lemma at_rest srv w : rtc wstep (opened srv) w → under_way w = [] → w_news w = NewsShown →
  tb_rows (w_table w) = w_srv w ∧ tb_switches (w_table w) = map row_switch (w_srv w).
Proof.
  intros H [Ej Ea]%app_eq_nil Hn. apply map_eq_nil in Ea. destruct (reachable_ok _ _ H) as [_ _ H2 _].
  unfold reload, under_way in *. rewrite Ej, Ea in *. destruct (H2 Hn) as [[?%not_elem_of_nil|(? & _ & ?%not_elem_of_nil)]|[E1 E2]]; [done..|].
  by rewrite <- E1.
Qed.

(** The lists the server has made, and those shown, are what it had at some
    moment since the page was opened. *)
Definition had (srv : list R) (w : world) (l : list R) : Prop := ∃ w0, rtc wstep (opened srv) w0 ∧ rtc wstep w0 w ∧ w_srv w0 = l.
Record past_ok (srv : list R) (w : world) : Prop := {
  pa_reached : rtc wstep (opened srv) w;
  pa_rows : tb_rows (w_table w) = [] ∨ had srv w (tb_rows (w_table w));
  pa_answers : ∀ l, (QLoad, TRows l) ∈ w_answers w → had srv w l }.

Lemma had_step srv w w' l : wstep w w' → had srv w l → had srv w' l.
Proof. intros Hs (w0 & H1 & H2 & H3). exists w0. split; [done|]. split; [by eapply rtc_r|done]. Qed.

Lemma continue_rows q r t : tb_rows (table_continue q r t) = match q, r with
  | QLoad, TRows l => l | QLoad, TFail _ => if load_falls_back then [] else tb_rows t | _, _ => tb_rows t end.
Proof.
  destruct q as [|id|x g i|f], r as [l| |m]; cbn [table_continue]; try (destruct load_falls_back); try (destruct fail_alerts);
    try (destruct flip_back); try (destruct (_ =? _)%nat); done.
Qed.

Lemma past_step srv w w' : wstep w w' → past_ok srv w → past_ok srv w'.
Proof.
  intros Hs [H1 H2 H3]. assert (rtc wstep (opened srv) w') as H1' by (by eapply rtc_r).
  assert (tb_rows (w_table w') = tb_rows (w_table w) ∨ tb_rows (w_table w') = [] ∨ (QLoad, TRows (tb_rows (w_table w'))) ∈ w_answers w) as Hr.
  { destruct Hs as [w e|w w' Hs]; [left; by apply table_step_effect|]. destruct Hs as [w j Hj|w j m Hj|w j q Hj Hq|w j q m Hj Hq|w k q r Hk];
      try (by left). cbn [deliver w_table]. rewrite continue_rows. apply list_elem_of_lookup_2 in Hk.
    destruct q as [|id|x g i|f], r as [l| |m]; try (by left); [right; by right|]. destruct load_falls_back; [right; by left|by left]. }
  constructor; [done|..].
  - destruct Hr as [->|[->|Hr]]; [|by left|right; apply (had_step _ _ _ _ Hs); by apply H3].
    destruct H2 as [->|H2]; [by left|right; by apply (had_step _ _ _ _ Hs)].
  - intros l Hl. apply (had_step _ _ _ _ Hs).
    destruct Hs as [w e|w w' Hs]; [by apply H3|]. destruct Hs as [w j Hj|w j m Hj|w j q Hj Hq|w j q m Hj Hq|w k q r Hk]; cbn [w_answers deliver] in Hl.
    1-4: apply elem_of_app in Hl as [Hl|Hl%list_elem_of_singleton]; [by apply H3|].
    + injection Hl as ->. exists w. split; [done|]. split; [apply rtc_refl|done].
    + done.
    + destruct q; done.
    + destruct q; done.
    + apply H3. rewrite (delete_Permutation _ _ _ Hk). by right.
Qed.

Lemma reached_past srv w : rtc wstep (opened srv) w → past_ok srv w.
Proof.
  assert (past_ok srv (opened srv)) as H0.
  { constructor; [apply rtc_refl|by left|]. intros l H%not_elem_of_nil. done. }
  intros H. revert H0. induction H as [|w1 w2 w3 Hs _ IH]; [done|]. intros H0. by apply IH, (past_step srv w1).
Qed.

(** C4. The table follows the server: whatever the user clicks, in whatever
    order the server sees the requests and the replies arrive, and whatever
    the changes do to what is stored, the table is empty or shows a list the
    server had since the page was opened; and as soon as nothing is under way
    it shows exactly the rows the server has, in order, with their switches at
    the stored positions, also those of a switch that was refused, or pressed
    again before the reply.  The second part is for [NewsShown]: the server
    answered the newest load, and no older list has arrived after that answer;
    [older_list_stays] shows that the pages do nothing against the other case. *)
Theorem table_shows_server srv w : rtc wstep (opened srv) w →
  (tb_rows (w_table w) = [] ∨ had srv w (tb_rows (w_table w)))
  ∧ (under_way w = [] → w_news w = NewsShown →
     tb_rows (w_table w) = w_srv w ∧ tb_switches (w_table w) = map row_switch (w_srv w)).
Proof. intros H. split; [by apply reached_past|]. intros Hu Hn. by apply (at_rest srv). Qed.

(** C14. The handlers come to rest: between two events of the user the server
    and the page take finitely many steps, and they stop only when every
    request was answered and every reply has arrived. *)
Theorem table_settles w n w' : nsteps server_step n w w' →
  (n <= work w)%nat ∧ ((¬ ∃ w'', server_step w' w'') ↔ under_way w' = []).
Proof.
  intros H. split.
  - induction H as [w0|n w0 w1 w2 Hs _ IH]; [lia|]. apply server_step_work in Hs. lia.
  - unfold under_way. split.
    + intros Hn. destruct (tb_jobs (w_table w')) as [|q l] eqn:Ej.
      * destruct (w_answers w') as [|[q r] l] eqn:Ea; [done|]. exfalso. apply Hn. eexists. apply (WDeliver w' 0 q r). by rewrite Ea.
      * exfalso. apply Hn. destruct (is_load q) eqn:Eq; [destruct q; try done|]; eexists; [apply (WLoad w' 0)|apply (WChange w' 0 q)]; by rewrite ?Ej.
    + intros [Ej Ea]%app_eq_nil (w'' & Hs). apply map_eq_nil in Ea.
      by destruct Hs as [v j Hj|v j m Hj|v j q Hj _|v j q m Hj _|v k q r Hk]; rewrite ?Ej, ?Ea in *.
Qed.

(** The changes a table sends. *)
Definition deleted (l : list table_request) : list Z := omap (λ q, match q with QDelete id => Some id | _ => None end) l.
Definition agreed (l : list (R * bool)) : list Z := map (λ a, row_id a.1) (List.filter snd l).
Record asked_ok (t : table) : Prop := {
  as_asked : deleted (tb_sent t) = agreed (tb_asked t);
  as_puts : Forall (λ q, match q with QPut x _ _ => ∃ r b, x = row_flip b r | _ => True end) (tb_sent t) }.

Lemma asked_same t t' : tb_sent t' = tb_sent t → tb_asked t' = tb_asked t → asked_ok t → asked_ok t'.
Proof. intros E1 E2 [H1 H2]. constructor; by rewrite E1, ?E2. Qed.
Lemma asked_send q t : (∀ id, q ≠ QDelete id) → (∀ x g i, q = QPut x g i → ∃ r b, x = row_flip b r) → asked_ok t → asked_ok (table_send q t).
Proof.
  intros Hq Hp [H1 H2]. constructor; cbn [table_send tb_sent tb_asked].
  - unfold deleted in *. rewrite omap_app, H1. destruct q as [|id|x g i|f]; [apply app_nil_r|by destruct (Hq id)|apply app_nil_r|apply app_nil_r].
  - apply list.Forall_app. split; [done|]. apply list.Forall_singleton. destruct q as [| |x g i|]; [done..|by apply (Hp x g i)|done].
Qed.

Lemma asked_step t e : (∀ r, row_confirm r ≠ None) → asked_ok t → asked_ok (table_step t e).
Proof.
  intros Hc H. destruct e as [|j yes|j|f]; cbn [table_step].
  - by apply asked_send.
  - destruct (tb_rows t !! j) as [r|]; [|done]. unfold table_remove. specialize (Hc r). destruct (row_confirm r); [|done].
    destruct H as [H1 H2]. destruct yes; constructor; cbn [table_send table_ask tb_sent tb_asked]; try done.
    + unfold deleted, agreed in *. by rewrite omap_app, H1, List.filter_app, map_app.
    + apply list.Forall_app. split; [done|by apply list.Forall_singleton].
    + rewrite H1. unfold agreed. rewrite List.filter_app, map_app. by rewrite app_nil_r.
  - unfold table_toggle. destruct (tb_rows t !! j) as [r|]; [|done]. destruct (tb_switches t !! j) as [[b|]|]; [|done..].
    apply asked_send; [done|intros x g i [= <- _ _]; by exists r, (negb b)|]. by apply (asked_same t).
  - by apply asked_send.
Qed.

Lemma asked_continue q r t : asked_ok t → asked_ok (table_continue q r t).
Proof.
  intros H. destruct q as [|id|x g i|f], r as [l| |m]; cbn [table_continue]; try (destruct load_falls_back); try (destruct fail_alerts);
    try (destruct flip_back); try (destruct (_ =? _)%nat);
    first [exact H | by apply asked_send | by apply (asked_same t) | apply asked_send; [done..|by apply (asked_same t)]].
Qed.

(** C35. No change without being asked for: on a page whose delete button asks,
    the rows deleted are, in order, exactly those whose question was answered
    with yes, however often the table was loaded in between; and all a switch
    sends is a row with its switch turned. *)
Theorem deletes_are_confirmed srv w : rtc wstep (opened srv) w → (∀ r, row_confirm r ≠ None) →
  deleted (tb_sent (w_table w)) = agreed (tb_asked (w_table w))
  ∧ ∀ x g i, QPut x g i ∈ tb_sent (w_table w) → ∃ r b, x = row_flip b r.
Proof.
  intros H Hc. cut (asked_ok (w_table w)).
  { intros [H1 H2]. split; [done|]. intros x g i Hin. rewrite list.Forall_forall in H2. exact (H2 _ Hin). }
  assert (asked_ok (w_table (opened srv))) as H0 by (constructor; [done|by apply list.Forall_singleton]).
  revert H0. induction H as [|w1 w2 w3 Hs _ IH]; [done|]. intros H0. apply IH. destruct Hs as [w1 e|w1 w2 Hs]; [by apply asked_step|].
  destruct Hs; cbn [deliver w_table]; try (by apply (asked_same (w_table w))). by apply asked_continue.
Qed.

(** ** What the server is asked to do *)

(** The changes among requests. *)
Definition changes_of (l : list table_request) : list table_request := List.filter (λ q, negb (is_load q)) l.

Lemma changes_of_app l l' : changes_of (l ++ l') = changes_of l ++ changes_of l'.
Proof. apply List.filter_app. Qed.
Lemma changes_of_perm l l' : l ≡ₚ l' → changes_of l ≡ₚ changes_of l'.
Proof. unfold changes_of. induction 1; cbn; repeat case_match; by try (econstructor; eauto). Qed.

Lemma table_step_sends t e : ∃ new, tb_jobs (table_step t e) = tb_jobs t ++ new ∧ tb_sent (table_step t e) = tb_sent t ++ new
  ∧ match e with TSave f => new = [QSave f] | _ => ∀ f, QSave f ∉ new end.
Proof.
  assert (∀ q, (∀ f, q ≠ QSave f) → ∀ f, QSave f ∉ [q]) as Hn by (intros q H f Hin%list_elem_of_singleton; by apply (H f)).
  destruct e as [|j yes|j|f]; cbn [table_step]; try (eexists [_]; split_and!; [done|done|by try apply Hn]).
  - destruct (tb_rows t !! j) as [r|]; [|exists []; rewrite !app_nil_r; split_and!; [done..|]; intros; apply not_elem_of_nil].
    unfold table_remove. destruct (row_confirm r); [destruct yes|]; try (eexists [_]; split_and!; [done|done|by apply Hn]).
    exists []. rewrite !app_nil_r. split_and!; [done..|]. intros; apply not_elem_of_nil.
  - unfold table_toggle. destruct (tb_rows t !! j) as [r|]; [destruct (tb_switches t !! j) as [[b|]|]|];
      try (exists []; rewrite !app_nil_r; split_and!; [done..|]; intros; apply not_elem_of_nil).
    eexists [_]. split_and!; [done|done|by apply Hn].
Qed.

(** What a request was answered with: a change is carried out or not. *)
Inductive served (w w' : world) : option (table_request * bool) → Prop :=
  | ServedNone : w_srv w' = w_srv w → changes_of (tb_sent (w_table w')) = changes_of (tb_sent (w_table w)) →
      changes_of (tb_jobs (w_table w')) = changes_of (tb_jobs (w_table w)) → served w w' None
  | ServedChange q (ok : bool) : is_load q = false → w_srv w' = (if ok then apply q (w_srv w) else w_srv w) →
      tb_sent (w_table w') = tb_sent (w_table w) →
      changes_of (tb_jobs (w_table w)) ≡ₚ q :: changes_of (tb_jobs (w_table w')) → served w w' (Some (q, ok)).

Lemma continue_changes q r t :
  changes_of (tb_sent (table_continue q r t)) = changes_of (tb_sent t) ∧ changes_of (tb_jobs (table_continue q r t)) = changes_of (tb_jobs t).
Proof.
  destruct q as [|id|x g i|f], r as [l| |m]; cbn [table_continue]; try (destruct load_falls_back); try (destruct fail_alerts);
    try (destruct flip_back); try (destruct (_ =? _)%nat); cbn [tb_sent tb_jobs table_send table_alert table_show table_switches];
    rewrite ?changes_of_app; cbn; by rewrite ?app_nil_r.
Qed.

Lemma server_step_served w w' : server_step w w' → ∃ o, served w w' o.
Proof.
  intros H. destruct H as [w j Hj|w j m Hj|w j q Hj Hq|w j q m Hj Hq|w k q r Hk].
  1-2: exists None; constructor; [done..|]; by apply (filter_delete _ _ _ _ Hj).
  1-2: pose proof (changes_of_perm _ _ (delete_Permutation _ _ _ Hj)) as P; unfold changes_of at 2 in P; cbn [List.filter] in P;
    rewrite Hq in P.
  - exists (Some (q, true)). by constructor.
  - exists (Some (q, false)). by constructor.
  - destruct (continue_changes q r (w_table w)) as [E1 E2]. exists None. by constructor.
Qed.

(** ** Running it *)

Inductive action : Type := AUser (e : table_event) | ALoad (j : nat) | AChange (j : nat) | ARefuse (j : nat) (m : jstr) | ADeliver (k : nat).
Definition exec (w : world) (a : action) : option world :=
  match a with
  | AUser e => Some (World (w_srv w) (table_step (w_table w) e) (w_answers w) (w_news w))
  | ALoad j =>
      match tb_jobs (w_table w) !! j with
      | Some QLoad => Some (World (w_srv w) (take_job j (w_table w)) (w_answers w ++ [(QLoad, TRows (w_srv w))]) NewsComing)
      | _ => None
      end
  | AChange j =>
      match tb_jobs (w_table w) !! j with
      | Some q => if is_load q then None
                  else Some (World (apply q (w_srv w)) (take_job j (w_table w)) (w_answers w ++ [(q, TOk)]) (w_news w))
      | None => None
      end
  | ARefuse j m =>
      match tb_jobs (w_table w) !! j with
      | Some QLoad => Some (World (w_srv w) (take_job j (w_table w)) (w_answers w ++ [(QLoad, TFail m)]) NewsLost)
      | Some q => Some (World (w_srv w) (take_job j (w_table w)) (w_answers w ++ [(q, TFail m)]) (w_news w))
      | None => None
      end
  | ADeliver k => match w_answers w !! k with Some (q, r) => Some (deliver k q r w) | None => None end
  end.
Definition exec_all (w : world) (l : list action) : option world := foldl (λ w a, w ≫= λ w, exec w a) (Some w) l.

Lemma exec_step w a w' : exec w a = Some w' → wstep w w'.
Proof.
  destruct a as [e|j|j|j m|k]; cbn [exec].
  - intros [= <-]. apply WUser.
  - destruct (tb_jobs _ !! j) as [[| | |]|] eqn:E; try done. intros [= <-]. by apply WServer, WLoad.
  - destruct (tb_jobs _ !! j) as [q|] eqn:E; [|done]. destruct (is_load q) eqn:Eq; [done|]. intros [= <-]. by apply WServer, WChange.
  - destruct (tb_jobs _ !! j) as [[| | |]|] eqn:E; try done; intros [= <-]; apply WServer; [by apply WLoadFail|by apply WRefuse..].
  - destruct (w_answers w !! k) as [[q r]|] eqn:E; [|done]. intros [= <-]. by apply WServer, WDeliver.
Qed.

Lemma exec_all_rtc l : ∀ w w', exec_all w l = Some w' → rtc wstep w w'.
Proof.
  unfold exec_all. induction l as [|a l IH]; intros w w' H; cbn in H; [injection H as ->; apply rtc_refl|].
  destruct (exec w a) as [w1|] eqn:E; [|clear - H; exfalso; by induction l].
  eapply rtc_l; [by eapply exec_step|by apply IH].
Qed.
End listing.

(** ** The properties at concrete inputs *)

(** Rows of a number and a switch. *)
#[local] Instance sample_listing : Listing (Z * bool).
Proof.
  refine {| row_id := fst; row_confirm _ := Some (js "Delete it?"); row_switch r := Some r.2; row_flip b r := (r.1, b);
            fail_alerts := true; flip_back := true; load_falls_back := false |}; done.
Defined.
Definition sample_apply (q : table_request) (l : list (Z * bool)) : list (Z * bool) :=
  match q with
  | QLoad => l
  | QDelete id => List.filter (λ r, negb (Z.eqb r.1 id)) l
  | QPut x _ _ => map (λ r, if Z.eqb r.1 x.1 then x else r) l
  | QSave f => f l
  end.

(** Row 2 is switched off and row 1 deleted before the server answers
    anything; the refused switch comes back with the next table. *)
Definition sample_rows : list (Z * bool) := [(1%Z, true); (2%Z, true)].
Definition sample_end : world :=
  World [(2%Z, true)]
    (Table [(2%Z, true)] [Some true] 2 [] [QLoad; QPut (2%Z, false) 1 1; QDelete 1; QLoad] [((1%Z, true), true)] [js "busy"]) [] NewsShown.

Lemma sample_run : rtc (wstep sample_apply) (opened sample_rows) sample_end.
Proof.
  apply (exec_all_rtc sample_apply [ALoad 0; ADeliver 0; AUser (TToggle 1); AUser (TRemove 0 true); AChange 1; ARefuse 0 (js "busy");
    ADeliver 0; ALoad 0; ADeliver 0; ADeliver 0]). vm_compute. reflexivity.
Qed.

Lemma table_shows_server_witness :
  rtc (wstep sample_apply) (opened sample_rows) sample_end ∧ under_way sample_end = [] ∧ w_news sample_end = NewsShown
  ∧ tb_rows (w_table sample_end) = w_srv sample_end.
Proof.
  split; [exact sample_run|]. split; [reflexivity|]. split; [reflexivity|].
  exact (proj1 (proj2 (table_shows_server sample_apply sample_rows sample_end sample_run) eq_refl eq_refl)).
Defined.

(** Two loads overlap and row 1 is deleted between their answers: the older
    list arrives last and stays, with a row the server no longer has. *)
Example older_list_stays : ∃ w, rtc (wstep sample_apply) (opened sample_rows) w ∧ under_way w = [] ∧ w_news w = NewsLost
  ∧ tb_rows (w_table w) = [(1%Z, true); (2%Z, true)] ∧ w_srv w = [(2%Z, true)].
Proof.
  eexists. split; [apply (exec_all_rtc sample_apply [ALoad 0; ADeliver 0; AUser TOpen; AUser (TRemove 0 true); ALoad 0; AChange 0;
    ADeliver 1; ALoad 0; ADeliver 1; ADeliver 0]); vm_compute; reflexivity|]. by split_and!.
Qed.

Lemma table_settles_witness :
  nsteps (server_step sample_apply) 0 sample_end sample_end ∧ ¬ ∃ w, server_step sample_apply sample_end w.
Proof.
  assert (nsteps (server_step sample_apply) 0 sample_end sample_end) as H by constructor. split; [exact H|].
  apply (proj2 (table_settles sample_apply sample_end 0 sample_end H)). reflexivity.
Defined.

Lemma deletes_are_confirmed_witness :
  rtc (wstep sample_apply) (opened sample_rows) sample_end ∧ (∀ r : Z * bool, row_confirm r ≠ None)
  ∧ deleted (tb_sent (w_table sample_end)) = [1%Z].
Proof.
  assert (∀ r : Z * bool, row_confirm r ≠ None) as Hc by done. split; [exact sample_run|]. split; [exact Hc|].
  exact (proj1 (deletes_are_confirmed sample_apply sample_rows sample_end sample_run Hc)).
Defined.
