(* ===== verification/HostEditor.v ===== *)
(** * The host editor at work (web/app.js, modal section)

    The window of HostForm as it is used: what of it is shown for the type
    and the choices made, its tabs, what loads after it was opened (whether
    the tunnel is on, and the people a portal may enrol), and saving.  The
    form itself, [openModal] and the submit handler field by field, is in
    HostForm; the life of the window is that of Editors, of which this is the
    instance. *)

From Stdlib Require Import Ascii String ZArith NArith Lia.
From stdpp Require Import base list strings numbers.
From S2P Require Import Prelude JsString Regex Fields Subjects HostForm Editors.

Local Open Scope Z_scope.

(** ** The window *)

(** What is hidden: the blocks of the types, the row of the sites by its
    style and by its attribute, the row of "VPN only", what only a proxy has,
    the certificate's menu, the certificate authority, the maintenance page
    and the fields of the single sign-on. *)
Record blocks : Type := Blocks {
  b_upstream : bool; b_redirect : bool; b_static : bool; b_portal : bool; b_via_style : bool; b_via : bool; b_vpnonly : bool;
  b_proxyonly : bool; b_certid : bool; b_mtls_ca : bool; b_maintenance : bool; b_oidc : bool }.

(** The tabs and the panes by name: is the tab active, is the pane hidden. *)
Definition tab_names : list jstr := map js ["general"; "tls"; "upstream"; "headers"; "security"].
Definition pane_names : list jstr := map js ["general"; "security"; "tls"; "upstream"; "headers"].
Definition proxy_tabs : list jstr := map js ["upstream"; "headers"].

Record window : Type := Window {
  wi_form : form; wi_blocks : blocks; wi_tabs : list bool; wi_panes : list bool; wi_title : jstr;
  wi_vpn_off : bool; wi_vpn_hint : jstr; wi_oidc_warn : bool; wi_oidc_hint : jstr; wi_portal_warn : bool; wi_portal_hint : jstr }.

Definition set_form (f : form) (w : window) : window :=
  Window f (wi_blocks w) (wi_tabs w) (wi_panes w) (wi_title w) (wi_vpn_off w) (wi_vpn_hint w) (wi_oidc_warn w) (wi_oidc_hint w)
    (wi_portal_warn w) (wi_portal_hint w).
Definition set_blocks (b : blocks) (w : window) : window :=
  Window (wi_form w) b (wi_tabs w) (wi_panes w) (wi_title w) (wi_vpn_off w) (wi_vpn_hint w) (wi_oidc_warn w) (wi_oidc_hint w)
    (wi_portal_warn w) (wi_portal_hint w).

Definition switchTab (name : jstr) (w : window) : window :=
  Window (wi_form w) (wi_blocks w) (map (λ t, bool_decide (t = name)) tab_names) (map (λ p, negb (bool_decide (p = name))) pane_names)
    (wi_title w) (wi_vpn_off w) (wi_vpn_hint w) (wi_oidc_warn w) (wi_oidc_hint w) (wi_portal_warn w) (wi_portal_hint w).

Definition syncHostType (w : window) : window :=
  let b := wi_blocks w in let is_t (t : string) := bool_decide (f_type (wi_form w) = js t) in
  set_blocks (Blocks (negb (is_t "proxy")) (negb (is_t "redirect")) (negb (is_t "static")) (negb (is_t "vpn-portal"))
    (negb (is_t "proxy")) (b_via b) (is_t "vpn-portal") (negb (is_t "proxy")) (b_certid b) (b_mtls_ca b) (b_maintenance b) (b_oidc b)) w.
Definition syncCertMode (w : window) : window :=
  let b := wi_blocks w in
  set_blocks (Blocks (b_upstream b) (b_redirect b) (b_static b) (b_portal b) (b_via_style b) (b_via b) (b_vpnonly b) (b_proxyonly b)
    (negb (bool_decide (f_certmode (wi_form w) = js "custom"))) (b_mtls_ca b) (b_maintenance b) (b_oidc b)) w.
(** The listeners of the other three choices. *)
Definition sync_mtls (w : window) : window :=
  let b := wi_blocks w in
  set_blocks (Blocks (b_upstream b) (b_redirect b) (b_static b) (b_portal b) (b_via_style b) (b_via b) (b_vpnonly b) (b_proxyonly b)
    (b_certid b) (negb (truthy (f_mtls_mode (wi_form w)))) (b_maintenance b) (b_oidc b)) w.
Definition sync_maintenance (w : window) : window :=
  let b := wi_blocks w in
  set_blocks (Blocks (b_upstream b) (b_redirect b) (b_static b) (b_portal b) (b_via_style b) (b_via b) (b_vpnonly b) (b_proxyonly b)
    (b_certid b) (b_mtls_ca b) (negb (f_maintenance (wi_form w))) (b_oidc b)) w.
Definition sync_oidc (w : window) : window :=
  let b := wi_blocks w in
  set_blocks (Blocks (b_upstream b) (b_redirect b) (b_static b) (b_portal b) (b_via_style b) (b_via b) (b_vpnonly b) (b_proxyonly b)
    (b_certid b) (b_mtls_ca b) (b_maintenance b) (negb (f_oidc (wi_form w)))) w.

(** ** Opening it *)

(** The form [f] with the portal block of [g]. *)
Definition with_portal (g : form) (f : form) : form :=
  Form (f_type f) (f_domains f) (f_scheme f) (f_uhost f) (f_uport f) (f_via f) (f_rcode f) (f_rscheme f) (f_rhost f)
    (f_rpath f) (f_staticroot f) (f_pool f) (f_rw_strip f) (f_rw_add f) (f_rw_regex f) (f_rw_repl f) (f_locations f)
    (f_badbots f) (f_badgateway f) (f_enabled f) (f_accesslist f) (f_certmode f) (f_certid f) (f_forcessl f) (f_http3 f)
    (f_mintls f) (f_hsts f) (f_hsts_age f) (f_hsts_sub f) (f_hsts_preload f) (f_noindex f) (f_exploits f) (f_compress f)
    (f_sticky f) (f_cachesec f) (f_maintenance f) (f_maintenance_html f) (f_ratelimit f) (f_rate_rps f) (f_rate_burst f)
    (f_fauth f) (f_fauth_url f) (f_fauth_headers f) (f_fauth_skipverify f) (f_vpnonly f) (f_portal_provider g)
    (f_portal_claims g) (f_portal_enrol g) (f_oidc f) (f_oidc_provider f) (f_oidc_pass f) (f_oidc_emails f)
    (f_oidc_domains f) (f_oidc_groups f) (f_auth_rules f) (f_mtls_mode f) (f_mtls_ca f) (f_preservehost f)
    (f_hostoverride f) (f_skipverify f) (f_sni f) (f_dialto f) (f_respto f) (f_idleto f) (f_maxidle f) (f_maxbody f)
    (f_buffering f) (f_req_headers f) (f_resp_headers f).

Definition first_domain (h : option host) : jstr := str_or (default [] (h ≫= λ h, head (h_domains h))) (js "<host>").
(** [s.replace('*.', 'www.')]: the first occurrence. *)
Definition re_wildcard : re := rlit (js "*.").
Definition oidc_hint (h : option host) : jstr :=
  js "https://" ++ replace_first re_wildcard (λ _, js "www.") (first_domain h) ++ js "/.qg/oidc/callback".
Definition portal_hint (h : option host) : jstr := js "https://" ++ first_domain h ++ js "/.qg/vpn/callback".
Definition vpn_only_text : jstr :=
  js "(served inside the WireGuard tunnel and nowhere else; to everyone outside, this name does not exist)".
Definition vpn_only_off_text : jstr :=
  js "(a host served inside the WireGuard tunnel only. Switch WireGuard on first, on the VPN page)".

Section window.
Context (localeLeb : jstr → jstr → bool) (number : jstr → jstr).

(** What opening asks for, and the answers. *)
Inductive host_load : Type := HLStatus | HLPeople (h : option host).
Inductive host_answer : Type := HAStatus (enabled : bool) | HAPeople (p : people).

(** [openModal]: the portal block is left as it was, [fillPortalBlock] waits
    for the people first. *)
Definition openModal (e : env) (h : option host) (w : window) : window :=
  let f := with_portal (wi_form w) (open_modal localeLeb e h) in
  let o := match h with Some h => h_options h | None => no_options end in
  let b := wi_blocks w in
  let via := (fillViaSelect (tables e) (match h with Some h => u_via (h_upstream h) | None => 0 end)).2 in
  let b := Blocks (b_upstream b) (b_redirect b) (b_static b) (b_portal b) (b_via_style b) via (b_vpnonly b) (b_proxyonly b) (b_certid b)
             (match o_clientCert o with Some c => negb (truthy (cc_mode c)) | None => true end)
             (negb (o_maintenance o)) (match o_oidc o with Some _ => false | None => true end) in
  let w := Window f b (wi_tabs w) (wi_panes w) (match h with Some _ => js "Edit host" | None => js "Add host" end)
             (wi_vpn_off w) vpn_only_text (0 <? length (provider_ids e))%nat (oidc_hint h) (wi_portal_warn w) (wi_portal_hint w) in
  switchTab (js "general") (syncCertMode (syncHostType w)).

(** [fillPortalBlock] from its wait on. *)
Definition fillPortalBlock (p : people) (h : option host) (w : window) : window :=
  Window (with_portal (open_modal localeLeb (Env [] [] p) h) (wi_form w)) (wi_blocks w) (wi_tabs w) (wi_panes w) (wi_title w)
    (wi_vpn_off w) (wi_vpn_hint w) (wi_oidc_warn w) (wi_oidc_hint w) (0 <? length (Subjects.oidcProviders p))%nat (portal_hint h).
Definition status_loaded (enabled : bool) (w : window) : window :=
  Window (wi_form w) (wi_blocks w) (wi_tabs w) (wi_panes w) (wi_title w)
    (negb enabled && negb (f_vpnonly (wi_form w))) (if enabled then wi_vpn_hint w else vpn_only_off_text)
    (wi_oidc_warn w) (wi_oidc_hint w) (wi_portal_warn w) (wi_portal_hint w).
Definition host_loaded (l : host_load) (a : host_answer) (w : window) : window :=
  match l, a with
  | HLStatus, HAStatus enabled => status_loaded enabled w
  | HLPeople h, HAPeople p => fillPortalBlock p h w
  | _, _ => w
  end.

(** ** Using it *)

(** The user changes controls, or chooses a tab.  A menu has the values of
    its options; the type is on the first pane; a tab that is not displayed
    is not clicked, a disabled box not ticked. *)
Inductive host_typing : Type := HEdit (g : form) | HTab (name : jstr).

Definition pane_shown (name : jstr) (w : window) : bool :=
  bool_decide ((name, false) ∈ zip pane_names (wi_panes w)).
Definition edit_allowed (g : form) (w : window) : bool :=
  let f := wi_form w in
  (bool_decide (f_type g = f_type f) || bool_decide (f_type g ∈ host_types) && pane_shown (js "general") w)
  && (bool_decide (f_vpnonly g = f_vpnonly f) || negb (wi_vpn_off w)).
(** The listeners of the controls that changed. *)
Definition if_changed {A} `{EqDecision A} (p : form → A) (f g : form) (sync : window → window) (w : window) : window :=
  if bool_decide (p f = p g) then w else sync w.
Definition edited (f g : form) (w : window) : window :=
  if_changed f_oidc f g sync_oidc (if_changed f_maintenance f g sync_maintenance (if_changed f_mtls_mode f g sync_mtls
    (if_changed f_certmode f g syncCertMode (if_changed f_type f g syncHostType (set_form g w))))).
Definition host_edit (g : form) (w : window) : window :=
  if edit_allowed g w then edited (wi_form w) g w else w.
Definition host_type (u : host_typing) (w : window) : window :=
  match u with
  | HEdit g => host_edit g w
  | HTab name =>
      if bool_decide (name ∈ tab_names) && negb (bool_decide (name ∈ proxy_tabs) && b_proxyonly (wi_blocks w)) then switchTab name w
      else w
  end.

(** The link of the VPN map that adds a portal, once the hosts have loaded;
    without a provider it says so and opens the page of the providers. *)
Definition set_type (v : jstr) (f : form) : form :=
  Form v (f_domains f) (f_scheme f) (f_uhost f) (f_uport f) (f_via f) (f_rcode f) (f_rscheme f) (f_rhost f) (f_rpath f)
    (f_staticroot f) (f_pool f) (f_rw_strip f) (f_rw_add f) (f_rw_regex f) (f_rw_repl f) (f_locations f) (f_badbots f)
    (f_badgateway f) (f_enabled f) (f_accesslist f) (f_certmode f) (f_certid f) (f_forcessl f) (f_http3 f) (f_mintls f)
    (f_hsts f) (f_hsts_age f) (f_hsts_sub f) (f_hsts_preload f) (f_noindex f) (f_exploits f) (f_compress f) (f_sticky f)
    (f_cachesec f) (f_maintenance f) (f_maintenance_html f) (f_ratelimit f) (f_rate_rps f) (f_rate_burst f) (f_fauth f)
    (f_fauth_url f) (f_fauth_headers f) (f_fauth_skipverify f) (f_vpnonly f) (f_portal_provider f) (f_portal_claims f)
    (f_portal_enrol f) (f_oidc f) (f_oidc_provider f) (f_oidc_pass f) (f_oidc_emails f) (f_oidc_domains f)
    (f_oidc_groups f) (f_auth_rules f) (f_mtls_mode f) (f_mtls_ca f) (f_preservehost f) (f_hostoverride f) (f_skipverify
    f) (f_sni f) (f_dialto f) (f_respto f) (f_idleto f) (f_maxidle f) (f_maxbody f) (f_buffering f) (f_req_headers f)
    (f_resp_headers f).
Inductive add_portal_result : Type := NoProvider (message page : jstr) | AddPortal (w : window).
Definition vm_add_portal (e : env) (w : window) : add_portal_result :=
  match Subjects.oidcProviders (tables e) with
  | [] => NoProvider (js "A portal logs people in through an identity provider. Add one first: Access lists page, Identity providers.") (js "access")
  | _ => let w := openModal e None w in AddPortal (syncHostType (set_form (set_type (js "vpn-portal") (wi_form w)) w))
  end.

End window.

(** ** What is shown *)

(** What the choices made in the form say of the blocks; the row of the sites
    is besides hidden while there is no site. *)
Definition blocks_for (f : form) (via : bool) : blocks :=
  let is_t (t : string) := bool_decide (f_type f = js t) in
  Blocks (negb (is_t "proxy")) (negb (is_t "redirect")) (negb (is_t "static")) (negb (is_t "vpn-portal")) (negb (is_t "proxy")) via
    (is_t "vpn-portal") (negb (is_t "proxy")) (negb (bool_decide (f_certmode f = js "custom"))) (negb (truthy (f_mtls_mode f)))
    (negb (f_maintenance f)) (negb (f_oidc f)).

Record shown_ok (w : window) : Prop := {
  so_blocks : wi_blocks w = blocks_for (wi_form w) (b_via (wi_blocks w));
  so_tab : ∃ name, name ∈ tab_names ∧ wi_tabs w = map (λ t, bool_decide (t = name)) tab_names
    ∧ wi_panes w = map (λ p, negb (bool_decide (p = name))) pane_names
    ∧ (name ∈ proxy_tabs → b_proxyonly (wi_blocks w) = false) }.

Abbreviation editing_event := (editor_event (Env := env) (R := host) (U := host_typing) (A := host_answer)).

Section properties.
Context (localeLeb : jstr → jstr → bool) (number : jstr → jstr).
Abbreviation openModal := (openModal localeLeb).
Abbreviation host_loaded := (host_loaded localeLeb).

Definition known_mode (h : option host) : bool :=
  match h ≫= λ h, o_clientCert (h_options h) with Some c => bool_decide (cc_mode c ∈ mtls_modes) | None => true end.

Lemma general_not_proxy : js "general" ∉ proxy_tabs.
Proof. apply (bool_decide_unpack _). by_compute. Qed.

Lemma open_shown e h w : known_mode h = true → shown_ok (openModal e h w).
Proof.
  intros Hk. constructor.
  - destruct h as [h|]; [|done]. unfold known_mode in Hk. cbn in *. destruct (o_clientCert (h_options h)) as [c|] eqn:Ec.
    + apply bool_decide_eq_true in Hk. unfold blocks_for. cbn. rewrite Ec. f_equal; [by rewrite sel_set_in|].
      by destruct (o_oidc (h_options h)).
    + unfold blocks_for. cbn. rewrite Ec. f_equal. by destruct (o_oidc (h_options h)).
  - exists (js "general"). split_and!; try done; [apply (bool_decide_unpack _); by_compute|].
    intros Hp. by apply general_not_proxy in Hp.
Qed.

Lemma loaded_shown l a w : shown_ok w → shown_ok (host_loaded l a w).
Proof. intros H. by destruct l, a; [constructor; apply H|..|constructor; apply H]. Qed.

Lemma general_pane w name : wi_panes w = map (λ p, negb (bool_decide (p = name))) pane_names →
  pane_shown (js "general") w = true → name = js "general".
Proof.
  intros Ep H. unfold pane_shown in H. apply bool_decide_eq_true in H. rewrite Ep in H. apply list_elem_of_In in H.
  cbn [pane_names map zip zip_with] in H.
  repeat (destruct H as [H|H]; [pose proof (f_equal fst H) as E; pose proof (f_equal snd H) as Eb; cbn [fst snd] in E, Eb;
    first [exfalso; revert E; apply (bool_decide_unpack _); by_compute|symmetry; by apply negb_false_iff, bool_decide_eq_true in Eb]|]).
  done.
Qed.

Lemma tab_shown name w : shown_ok w → shown_ok (host_type (HTab name) w).
Proof.
  intros H. cbn [host_type]. destruct (bool_decide (name ∈ tab_names) && _) eqn:E; [|done]. boolify. apply bool_decide_eq_true in H0.
  constructor; try apply H. exists name. split_and!; try done. intros Hp. rewrite bool_decide_true in H1 by done. cbn in *. by boolify.
Qed.

(** A change that runs the listeners of what it changed leaves the tabs, the
    form as it is given, and the blocks that belong to it. *)
Lemma edited_ok f g w : wi_blocks w = blocks_for f (b_via (wi_blocks w)) →
  wi_form (edited f g w) = g ∧ wi_blocks (edited f g w) = blocks_for g (b_via (wi_blocks w))
  ∧ wi_tabs (edited f g w) = wi_tabs w ∧ wi_panes (edited f g w) = wi_panes w.
Proof.
  intros Hs. destruct w as [f0 b tabs panes ? ? ? ? ? ? ?]. cbn in Hs. rewrite Hs. clear Hs. generalize (b_via b). intros via.
  unfold edited, if_changed.
  destruct (bool_decide_reflect (f_oidc f = f_oidc g)) as [E1|_], (bool_decide_reflect (f_maintenance f = f_maintenance g)) as [E2|_],
    (bool_decide_reflect (f_mtls_mode f = f_mtls_mode g)) as [E3|_], (bool_decide_reflect (f_certmode f = f_certmode g)) as [E4|_],
    (bool_decide_reflect (f_type f = f_type g)) as [E5|_];
  (split; [done|split; [|done]]); unfold blocks_for; cbn; by rewrite ?E1, ?E2, ?E3, ?E4, ?E5.
Qed.

Lemma edit_shown g w : shown_ok w → shown_ok (host_type (HEdit g) w).
Proof.
  intros H. cbn [host_type]. unfold host_edit. destruct (edit_allowed g w) eqn:Ea; [|done].
  destruct H as [Hs (name & Hn & Ht & Hp & Hb)].
  assert (f_type (wi_form w) = f_type g ∨ name ∉ proxy_tabs) as Hx.
  { unfold edit_allowed in Ea. boolify. apply orb_true_iff in H as [H|H]; [left; by apply bool_decide_eq_true in H|right].
    boolify. rewrite (general_pane w name) by done. apply general_not_proxy. }
  destruct (edited_ok (wi_form w) g w Hs) as (E1 & E2 & E3 & E4). constructor.
  - by rewrite E1, E2.
  - exists name. rewrite E2, E3, E4. split_and!; try done. intros Hin. destruct Hx as [Hx|Hx]; [|done].
    cbn. rewrite <- Hx. specialize (Hb Hin). by rewrite Hs in Hb.
Qed.

(** The map's link opens the editor on a portal, with its block shown and
    that of the upstream hidden. *)
Lemma portal_link_shows e w w' : vm_add_portal localeLeb e w = AddPortal w' →
  shown_ok w' ∧ b_portal (wi_blocks w') = false ∧ b_upstream (wi_blocks w') = true ∧ f_type (wi_form w') = js "vpn-portal".
Proof.
  unfold vm_add_portal. destruct (Subjects.oidcProviders (tables e)); [done|]. intros [= <-].
  destruct (open_shown e None w eq_refl) as [Hs Ht].
  split; [|split_and!; [by_compute..|done]]. constructor; [done|]. exists (js "general").
  split_and!; try done; [apply (bool_decide_unpack _); by_compute|]. intros Hp. by apply general_not_proxy in Hp.
Qed.

(** ** The instance *)

(** The people loaded are those of the environment; of them opening itself
    uses the sites and the providers only. *)
Definition host_told (e : env) (l : host_load) (a : host_answer) : Prop :=
  match l, a with HLStatus, HAStatus _ => True | HLPeople _, HAPeople p => p = tables e | _, _ => False end.
Definition window_read (w : window) : host := host_submit number (wi_form w).

Lemma window_round e h w la : host_ok number e h → map fst la ≡ₚ [HLStatus; HLPeople (Some h)] → Forall (λ x, host_told e x.1 x.2) la →
  window_read (fold_left (λ w x, host_loaded x.1 x.2 w) la (openModal e (Some h) w)) = as_sent h.
Proof.
  intros Hok Hp Hf. rewrite <- (host_edit_identity localeLeb number e h Hok). unfold window_read. f_equal.
  assert (length la = 2%nat) as El by (by rewrite <- (length_map fst la), Hp).
  destruct la as [|[l1 a1] [|[l2 a2] [|]]]; try done. cbn [map fst] in Hp.
  apply list.Forall_cons in Hf as [F1 Hf]. apply list.Forall_cons in Hf as [F2 _]. cbn [fst snd] in *.
  assert ((l1, l2) = (HLStatus, HLPeople (Some h)) ∨ (l1, l2) = (HLPeople (Some h), HLStatus)) as [[= -> ->]|[= -> ->]].
  { symmetry in Hp. apply Permutation_length_2_inv in Hp as [[= <- <-]|[= <- <-]]; auto. }
  all: destruct a1, a2; try done; cbn in *; by subst.
Qed.

#[export] Instance host_editor : Editor env host host host_typing host_load host_answer window := {
  open_form := openModal;
  form_loads h := [HLStatus; HLPeople h];
  form_loaded := host_loaded;
  form_type := host_type;
  form_read := window_read;
  form_ok := host_ok number;
  form_told := host_told;
  form_late := false;
  form_sends := as_sent;
  form_round := window_round;
  form_shown := λ H, ltac:(done) }.

Definition opens_known (e : editing_event) : bool :=
  match e with EvOpen _ r => known_mode (snd <$> r) | _ => true end.

(** C12. What the window shows follows what is chosen in it: after any events of
    the user and replies in any order, while it is open each block is shown
    exactly for the type, certificate mode, client certificates, maintenance
    mode and login chosen now, and one tab is active, its pane is the one
    shown, and it is not a tab the type has hidden. *)
Theorem window_follows_choices (w : window) (es : list editing_event) :
  Forall (λ e, opens_known e = true) es → let s := editor_run (closed_editor w) es in
  et_hidden s = false → shown_ok (et_form s).
Proof.
  intros Hes. cbn zeta. induction es as [|e es IH] using rev_ind; [done|].
  apply list.Forall_app in Hes as [Hes He]. apply list.Forall_cons in He as [He _]. specialize (IH Hes).
  unfold editor_run in *. rewrite fold_left_app. cbn [fold_left]. set (s := fold_left editor_step es _) in *. clearbody s.
  destruct e as [env r|u| | |i r]; cbn [editor_step].
  - intros _. by apply open_shown.
  - destruct (et_hidden s) eqn:Eh; [congruence|]. intros _. destruct u; [by apply edit_shown, IH|by apply tab_shown, IH].
  - destruct (et_hidden s) eqn:Eh; [congruence|]. intros _. rewrite submit_form. by apply IH.
  - done.
  - destruct (et_jobs s !! i) as [j|]; [|done]. destruct (editor_answers j r); [|done].
    destruct j, r; try done. cbn. rewrite andb_true_r. intros Hv. by apply loaded_shown, IH.
Qed.

(** C2. Editing loses nothing: a stored host the editor can show ([host_ok]),
    of any of the five types, that is opened from its table with nothing of
    the editor under way, whatever else the window was left with, is sent
    back by the submit to where it came from and as it was, every field and
    row, once the status and the people have loaded, in either order; the
    server then keeps what it had, but for the flags and the HSTS age it
    had left to their defaults; and the submit that follows while it is
    being saved sends nothing.  [host_ok] leaves out what the editor cannot
    show: references that have not been loaded, addresses of IPv6 in a pool,
    rewrites of a location beyond the stripped prefix, path rules with
    their own policy, and people of another provider. *)
Theorem opened_host_saved e id h s s' : host_ok number e h → id ≠ 0 → et_jobs s = [] →
  loading e (editor_step s (EvOpen e (Some (id, h)))) s' → et_jobs s' = [] →
  et_hidden s' = false ∧ window_read (et_form s') = as_sent h
  ∧ et_sent (editor_run s' [EvSubmit; EvSubmit]) = et_sent s ++ [EPut id (as_sent h)]
  ∧ (host_cleared h = h → host_cleared (as_sent h) = with_options (options_sent (h_options h)) h).
Proof.
  intros Hok Hid Hs Hl Hj. destruct (unedited_save_identity (Editor0 := host_editor) e id h s s' Hok Hid Hs Hl Hj) as (H1 & H2 & H3). split_and!; try done.
  apply sent_kept. rewrite <- (proj1 (sent_fields h)). apply Hok.
Qed.

(** The portal block waits for the people: until they have loaded it is that
    of the host opened before, and a portal that is saved by then is saved
    with it. *)
Lemma portal_saved_before_loaded e h w : is_type "vpn-portal" h = true →
  o_portal (h_options (window_read (openModal e (Some h) w))) = Some (readPortalOptions (wi_form w)).
Proof.
  intros H. unfold is_type in H. apply bool_decide_eq_true in H. unfold window_read, host_submit. cbn [h_options o_portal].
  assert (f_type (wi_form (openModal e (Some h) w)) = js "vpn-portal") as ->; [|by rewrite bool_decide_true].
  cbn. rewrite H. apply sel_set_in. apply (bool_decide_unpack _). by_compute.
Qed.
End properties.

(** ** The properties at concrete inputs *)

Definition blank_window : window :=
  let w := Window (open_modal (λ _ _, true) (Env [] [] (People [] [] [] [])) None)
    (Blocks false false false false false false false false false false false false) [] [] [] false [] true [] true [] in
  openModal (λ _ _, true) (Env [] [] (People [] [] [] [])) None w.
#[local] Instance sample_host_editor : Editor _ _ _ _ _ _ _ := host_editor (λ _ _, true) id.
Definition opening : editor :=
  editor_step (closed_editor blank_window) (EvOpen sample_env (Some (7, sample_host))).
Definition loaded_window : editor :=
  editor_run opening [EvReply 1 (ELoaded (HAPeople (tables sample_env))); EvReply 0 (ELoaded (HAStatus true))].

Lemma sample_loading : loading sample_env opening loaded_window.
Proof. 
  apply (loading_one _ _ 1 (HLPeople (Some sample_host)) (HAPeople (tables sample_env))); [done|done|].
  apply (loading_one _ _ 0 HLStatus (HAStatus true)); [done|done|]. apply loading_none.
 Qed.

(** A redirect as the server keeps it, opened from the same window. *)
Definition stored_redirect : host :=
  Host (js "redirect") [js "old.example"] no_upstream [] [] [] (Some (Redirect (Some 301) (js "auto") (js "new.example") true))
    (js "auto") None true true None no_options.
Lemma stored_redirect_ok : host_ok id sample_env stored_redirect.
Proof.
  split; [|by_compute]. constructor; try by_compute; try (apply (bool_decide_unpack _); by_compute); try done.
  - constructor; try by_compute; try (apply (bool_decide_unpack _); by_compute); done.
Qed.
Definition redirect_opening : editor :=
  editor_step (closed_editor (et_form loaded_window)) (EvOpen sample_env (Some (8, stored_redirect))).
Definition redirect_loaded : editor :=
  editor_run redirect_opening [EvReply 0 (ELoaded (HAStatus true)); EvReply 0 (ELoaded (HAPeople (tables sample_env)))].
Lemma redirect_loading : loading sample_env redirect_opening redirect_loaded.
Proof.
  apply (loading_one _ _ 0 HLStatus (HAStatus true)); [done|done|].
  apply (loading_one _ _ 0 (HLPeople (Some stored_redirect)) (HAPeople (tables sample_env))); [done|done|]. apply loading_none.
Qed.

Lemma opened_host_saved_witness :
  host_ok id sample_env sample_host ∧ et_sent (editor_run loaded_window [EvSubmit; EvSubmit]) = [EPut 7 sample_host]
  ∧ host_ok id sample_env stored_redirect ∧ et_sent (editor_run redirect_loaded [EvSubmit; EvSubmit]) = [EPut 8 (as_sent stored_redirect)].
Proof.
  split; [exact sample_host_ok|]. split; [|split; [exact stored_redirect_ok|]].
  - apply (opened_host_saved (λ _ _, true) id sample_env 7 sample_host (closed_editor blank_window) loaded_window sample_host_ok);
      [done|done|exact sample_loading|done].
  - apply (opened_host_saved (λ _ _, true) id sample_env 8 stored_redirect (closed_editor (et_form loaded_window)) redirect_loaded stored_redirect_ok);
      [done|done|exact redirect_loading|done].
Defined.

(** A stored host without an upstream leaves the scheme's menu blank: when
    its type is changed to a proxy and it is saved, it is sent without one. *)
Example scheme_left_blank :
  u_scheme (h_upstream (host_submit id (set_type (js "proxy") (wi_form (et_form redirect_loaded))))) = [].
Proof. by_compute. Qed.

Definition choices : list editing_event :=
  [EvOpen sample_env (Some (7, sample_host)); EvType (HTab (js "upstream")); EvType (HTab (js "general"));
   EvType (HEdit (wi_form blank_window)); EvReply 0 (ELoaded (HAStatus false))].

Lemma window_follows_choices_witness :
  Forall (λ e, opens_known e = true) choices
  ∧ shown_ok (et_form (editor_run (closed_editor blank_window) choices)).
Proof.
  assert (Forall (λ e, opens_known e = true) choices) as H by (repeat constructor).
  split; [exact H|]. by apply (window_follows_choices (λ _ _, true) id blank_window choices H).
Defined.
