(* ===== verification/Hosts.v ===== *)
(** * The hosts table (web/app.js, hosts table section)

    What the table of the proxy hosts shows of the data the page has loaded,
    how the data is loaded, and what the switches of the table do.  A cell is
    the text it is given, or the template its markup is written with; values
    stand in a template where the source writes [esc(..)].  The page's loads
    are jobs whose replies come in any order; a table that was rendered again
    has new switches, so a reply to a change made in an older table finds its
    switch gone.

    [toLowerCase], the comparison and the dates of the locale and the
    serialised address of a link are the browser's.  Domains that are named
    like a member of [Object.prototype] are left aside. *)

From Stdlib Require Import Ascii String ZArith NArith Lia.
From stdpp Require Import base list gmap strings numbers.
From S2P Require Import Prelude JsString Html Saving Fields Subjects HostForm.

Local Open Scope Z_scope.

(** ** Data *)

Record cert : Type := Cert { ce_domain : jstr; ce_status : jstr; ce_notAfter : jstr; ce_error : jstr }.

(** The variables of the page the table is rendered from. *)
Record hosts_data : Type := HostsData {
  hd_hosts : list (Z * host); hd_acls : list (Z * jstr); hd_people : people;
  hd_health : gmap jstr bool; hd_warnings : gmap jstr (list jstr); hd_certs : gmap jstr cert; hd_search : jstr }.

(** A cell: [textContent] or [innerHTML]. *)
Inductive td : Type := TdText (s : jstr) | TdHtml (l : list piece).
Definition td_text (c : td) : jstr := match c with TdText s => s | TdHtml l => html_decode (tpl l) end.

Record link : Type := Link { ln_href : option jstr; ln_text : jstr; ln_title : jstr }.
Record host_row : Type := HostRow {
  hr_links : list link; hr_warnings : list jstr; hr_warn : bool; hr_upstream : td; hr_down : bool;
  hr_tls : jstr * jstr; hr_access : list piece; hr_cert : td; hr_enabled : bool }.
(** The table with the hosts its rows were made of, which their handlers keep. *)
Record hosts_view : Type := HostsView { hv_hosts : list (Z * host); hv_rows : list host_row; hv_empty_hidden : bool; hv_empty : jstr }.

Section hosts.
Context (toLowerCase : jstr → jstr) (date_text date_time_text : jstr → jstr) (href : jstr → jstr) (locale_leb : jstr → jstr → bool).

(** ** The filter *)

Definition acl_of (d : hosts_data) (h : host) : option (Z * jstr) :=
  List.find (λ a, bool_decide (Some a.1 = h_accessListId h)) (hd_acls d).
Definition hay (d : hosts_data) (h : host) : jstr :=
  join (js " ") (h_domains h) ++ js " " ++ (u_host (h_upstream h) ++ js ":" ++ port_text (u_port (h_upstream h))) ++ js " "
  ++ match acl_of d h with Some a => a.2 | None => js "public" end.
Definition hostMatches (d : hosts_data) (h : host) (q : jstr) : bool :=
  if truthy q then includes q (toLowerCase (hay d h)) else true.

(** ** Cells *)

Definition domainLink (h : host) (domain : jstr) : link :=
  if includes (js "*") domain then Link None domain []
  else
    let scheme := if bool_decide (h_certMode h = js "auto" ∨ h_certMode h = js "custom") then js "https" else js "http" in
    let url := href (scheme ++ js "://" ++ domain ++ js "/") in
    Link (Some url) domain (js "Open " ++ url ++ js " in a new tab").

(** The warnings of the row: [[...new Set(..)]]. *)
Definition row_warnings (d : hosts_data) (h : host) : list jstr :=
  set_of [] (flat_map (λ x, default [] (hd_warnings d !! toLowerCase x)) (h_domains h)).

Definition badge (cls text : string) : list piece := [Lit (jq "<span class=`badge " ++ js cls ++ jq "`>" ++ js text ++ js "</span>")].

Definition healthKey (u : upstream) : jstr :=
  url_of u ++ (if u_via u =? 0 then [] else js "|site=" ++ js_of_Z (u_via u)).
Definition primary_text (p : people) (u : upstream) : jstr :=
  url_of u ++ (if u_via u =? 0 then [] else js " via " ++ wgSiteName p (u_via u)).
Definition pool_of (h : host) : list upstream := h_upstream h :: h_upstreams h.
(** A backend is up unless the last check says otherwise. *)
Definition is_up (d : hosts_data) (u : upstream) : bool := negb (bool_decide (hd_health d !! healthKey u = Some false)).
Definition up_count (d : hosts_data) (h : host) : nat := length (List.filter (is_up d) (pool_of h)).

Definition pool_cell (d : hosts_data) (h : host) : td :=
  let pool := pool_of h in
  let primary := primary_text (hd_people d) (h_upstream h) in
  let up := up_count d h in
  if (1 <? length pool)%nat then
    TdHtml ([ev primary; Lit (jq " <span class=`badge " ++ (if (up =? length pool)%nat then js "badge--success" else js "badge--danger") ++ jq "`>");
             Val (js_of_nat up); Lit (js "/"); Val (js_of_nat (length pool)); Lit (js " up</span>")])
  else if (up =? 0)%nat then TdHtml [ev primary; Lit (jq " <span class=`badge badge--danger`>down</span>")]
  else TdText primary.

(** [h.type === ..] up to the last [else], which is every other type. *)
Definition upstream_cell (d : hosts_data) (h : host) : td * bool :=
  let is_t (t : string) := bool_decide (h_type h = js t) in
  match (if is_t "redirect"%string then h_redirect h else None) with
  | Some r =>
      (TdHtml [Lit (jq "<span class=`badge badge--muted`>"); Val (esc (option_map js_of_Z (rd_code r))); Lit (js " redirect</span> ");
               ev (rd_host r)], false)
  | None =>
      if is_t "dead"%string then (TdHtml (badge "badge--danger" "404 host"), false)
      else if is_t "static"%string then (TdHtml (badge "badge--muted" "static" ++ [Lit (js " "); ev (h_staticRoot h)]), false)
      else if is_t "vpn-portal"%string then
        let pv := o_portal (h_options h) ≫= λ po, List.find (λ x, pv_id x =? po_provider po) (oidcProviders (hd_people d)) in
        (TdHtml (badge "badge--muted" "VPN portal"
           ++ [Lit (js " "); ev match pv with Some p => js "login through " ++ pv_name p | None => [] end]), false)
      else (pool_cell d h, (up_count d h <? length (pool_of h))%nat)
  end.

Definition tls_badge (h : host) : jstr * jstr :=
  let cm := h_certMode h in
  (js "badge " ++ (if bool_decide (cm = js "auto" ∨ cm = js "custom") then js "badge--success" else js "badge--muted"),
   if bool_decide (cm = js "auto") then (if h_forceSsl h then js "auto + force ssl" else js "auto")
   else if bool_decide (cm = js "custom") then js "custom cert" else js "http only").

Definition access_cell (d : hosts_data) (h : host) : list piece :=
  let vpnOnly := o_vpnOnly (h_options h) in
  match acl_of d h with
  | Some a => [Lit (jq "<span class=`badge`>"); ev a.2; Lit (js "</span>")]
  | None => if vpnOnly then [] else badge "badge--muted" "public"
  end
  ++ (if vpnOnly then [Lit (jq " <span class=`badge badge--success` title=`Served inside the WireGuard tunnel only`>VPN only</span>")]
      else []).

Definition cert_class (status : jstr) : jstr :=
  if bool_decide (status = js "issued") then js "badge--success"
  else if bool_decide (status = js "failed") then js "badge--danger" else [].
Definition cert_cell (d : hosts_data) (h : host) : td :=
  if bool_decide (h_certMode h = js "auto") then
    match omap (λ x, hd_certs d !! toLowerCase x) (h_domains h) with
    | c :: _ =>
        TdHtml [Lit (jq "<span class=`badge " ++ cert_class (ce_status c) ++ jq "`>"); ev (ce_status c); Lit (js "</span>");
                ev (if truthy (ce_notAfter c) then js " " ++ date_text (ce_notAfter c) else [])]
    | [] => TdHtml (badge "badge--muted" "pending")
    end
  else if bool_decide (h_certMode h = js "custom") then TdHtml (badge "badge--muted" "custom")
  else TdText (js "-").

Definition host_row_of (d : hosts_data) (h : host) : host_row :=
  let warnings := row_warnings d h in
  let up := upstream_cell d h in
  HostRow (map (domainLink h) (h_domains h)) warnings (bool_decide (warnings ≠ [])) up.1 up.2 (tls_badge h) (access_cell d h)
    (cert_cell d h) (h_enabled h).

Definition shown_hosts (d : hosts_data) : list (Z * host) :=
  let q := toLowerCase (trim (hd_search d)) in List.filter (λ h, hostMatches d h.2 q) (hd_hosts d).
Definition renderHosts (d : hosts_data) : hosts_view :=
  let shown := shown_hosts d in
  HostsView shown (map (λ h, host_row_of d h.2) shown) (0 <? length shown)%nat
    (match hd_hosts d with [] => js "No proxy hosts yet. Add the first one." | _ => js "No hosts match the filter." end).

(** ** Loading *)

(** [GET /api/health], [/api/config] and [/api/certs] as objects by key, a
    later entry winning. *)
Definition healthMap (l : list (jstr * bool)) : gmap jstr bool := fold_left (λ m t, <[t.1 := t.2]> m) l ∅.
Definition routeWarnings (l : list (jstr * list jstr)) : gmap jstr (list jstr) :=
  fold_left (λ m r, match r.2 with [] => m | ws => <[toLowerCase r.1 := ws]> m end) l ∅.
Definition certByDomain (l : list cert) : gmap jstr cert := fold_left (λ m c, <[toLowerCase (ce_domain c) := c]> m) l ∅.

Definition hosts_sub (hosts : list (Z * host)) : jstr :=
  let count (p : host → bool) := js_of_nat (length (List.filter (λ h : Z * host, p h.2) hosts)) in
  match hosts with
  | [] => js "HTTP and HTTPS services behind quicgate."
  | _ => js_of_nat (length hosts) ++ js " hosts, " ++ count h_enabled ++ js " enabled, "
         ++ count (λ h, match h_accessListId h with Some _ => true | None => false end) ++ js " behind an access list."
  end.

(** The table of the Certificates page. *)
Definition cert_row (c : cert) : list piece :=
  let cls := if bool_decide (ce_status c = js "issued") then js "badge badge--success"
             else if bool_decide (ce_status c = js "failed") then js "badge badge--danger" else js "badge" in
  let detail :=
    if truthy (ce_error c) then
      [Lit (jq "<div class=`hs-muted` style=`font-size:var(--fs-xs)` title=`"); ev (ce_error c); Lit (jq "`>last error: ");
       ev (take 90 (ce_error c)); Lit (js "</div>")]
    else [] in
  [Lit (jq "<td class=`domain`>"); ev (ce_domain c); Lit (jq "</td><td><span class=`" ++ cls ++ jq "`>"); ev (ce_status c);
   Lit (js "</span>")] ++ detail
  ++ [Lit (jq "</td><td class=`domain`>"); ev (if truthy (ce_notAfter c) then date_time_text (ce_notAfter c) else js "-"); Lit (js "</td>")].
Definition certs_table (l : list cert) : list (list piece) :=
  map cert_row (sort_by (λ a b, locale_leb (ce_domain a) (ce_domain b)) l).

(** ** The page as its loads and changes go on *)

Definition set_enabled (b : bool) (h : host) : host :=
  Host (h_type h) (h_domains h) (h_upstream h) (h_upstreams h) (h_locations h) (h_staticRoot h) (h_redirect h) (h_certMode h)
    (h_certId h) (h_forceSsl h) b (h_accessListId h) (h_options h).

Inductive host_request : Type := HPut (id : Z) (h : host) | HDelete (id : Z).
(** What waits for a reply: the lists [refresh] loads, the sites it waits for
    with what it has, the certificates, a change made with a switch, by the
    table it was in and its row, and a delete. *)
Inductive host_job : Type :=
  | JLists | JSites (health : list (jstr * bool)) (routes : list (jstr * list jstr)) | JCerts | JPut (gen i : nat) | JDelete.
Inductive host_reply : Type :=
  | RLists (hosts : list (Z * host)) (acls : list (Z * jstr)) (providers : list provider)
      (health : list (jstr * bool)) (routes : list (jstr * list jstr))
  | RSites (sites : list site) | RCerts (certs : list cert) | RDone | RFail (message : jstr).

(** [hp_switches] are the switches of the rows shown, [hp_gen] counts the
    tables rendered so far. *)
Record hosts_page : Type := HostsPage {
  hp_data : hosts_data; hp_view : hosts_view; hp_switches : list bool; hp_gen : nat; hp_sub : jstr;
  hp_certs : list (list piece); hp_sent : list host_request; hp_jobs : list host_job; hp_alerts : list jstr }.

Definition render_page (p : hosts_page) : hosts_page :=
  let v := renderHosts (hp_data p) in
  HostsPage (hp_data p) v (map hr_enabled (hv_rows v)) (S (hp_gen p)) (hp_sub p) (hp_certs p) (hp_sent p) (hp_jobs p) (hp_alerts p).
Definition set_data (d : hosts_data) (p : hosts_page) : hosts_page :=
  HostsPage d (hp_view p) (hp_switches p) (hp_gen p) (hp_sub p) (hp_certs p) (hp_sent p) (hp_jobs p) (hp_alerts p).
Definition set_jobs (js : list host_job) (p : hosts_page) : hosts_page :=
  HostsPage (hp_data p) (hp_view p) (hp_switches p) (hp_gen p) (hp_sub p) (hp_certs p) (hp_sent p) js (hp_alerts p).
Definition set_switches (l : list bool) (p : hosts_page) : hosts_page :=
  HostsPage (hp_data p) (hp_view p) l (hp_gen p) (hp_sub p) (hp_certs p) (hp_sent p) (hp_jobs p) (hp_alerts p).
Definition set_sub (s : jstr) (p : hosts_page) : hosts_page :=
  HostsPage (hp_data p) (hp_view p) (hp_switches p) (hp_gen p) s (hp_certs p) (hp_sent p) (hp_jobs p) (hp_alerts p).
Definition set_certs (t : list (list piece)) (p : hosts_page) : hosts_page :=
  HostsPage (hp_data p) (hp_view p) (hp_switches p) (hp_gen p) (hp_sub p) t (hp_sent p) (hp_jobs p) (hp_alerts p).
Definition send_change (r : host_request) (p : hosts_page) : hosts_page :=
  HostsPage (hp_data p) (hp_view p) (hp_switches p) (hp_gen p) (hp_sub p) (hp_certs p) (hp_sent p ++ [r]) (hp_jobs p) (hp_alerts p).
Definition alert (m : jstr) (p : hosts_page) : hosts_page :=
  HostsPage (hp_data p) (hp_view p) (hp_switches p) (hp_gen p) (hp_sub p) (hp_certs p) (hp_sent p) (hp_jobs p) (hp_alerts p ++ [m]).
Definition start (j : host_job) (p : hosts_page) : hosts_page := set_jobs (hp_jobs p ++ [j]) p.

Definition flip (i : nat) (l : list bool) : list bool := alter negb i l.

(** The functions from the reply they wait for on; a failure that no [catch]
    takes ends the function.  The sites and the certificates fall back to
    none. *)
Definition refreshCerts_reply (certs : list cert) (p : hosts_page) : hosts_page :=
  let d := hp_data p in
  set_certs (certs_table certs)
    (render_page (set_data (HostsData (hd_hosts d) (hd_acls d) (hd_people d) (hd_health d) (hd_warnings d) (certByDomain certs) (hd_search d)) p)).
Definition sites_reply (health : list (jstr * bool)) (routes : list (jstr * list jstr)) (sites : list site) (p : hosts_page) : hosts_page :=
  let d := hp_data p in
  let d := HostsData (hd_hosts d) (hd_acls d) (People sites (wgDevices (hd_people d)) (vpnSessions (hd_people d)) (oidcProviders (hd_people d)))
             (healthMap health) (routeWarnings routes) (hd_certs d) (hd_search d) in
  start JCerts (render_page (set_sub (hosts_sub (hd_hosts d)) (set_data d p))).
Definition host_continue (j : host_job) (r : host_reply) (p : hosts_page) : hosts_page :=
  match j, r with
  | JLists, RLists hosts acls providers health routes =>
      let d := hp_data p in
      start (JSites health routes)
        (set_data (HostsData hosts acls (People (wgSites (hd_people d)) (wgDevices (hd_people d)) (vpnSessions (hd_people d)) providers)
           (hd_health d) (hd_warnings d) (hd_certs d) (hd_search d)) p)
  | JSites health routes, RSites sites => sites_reply health routes sites p
  | JSites health routes, RFail _ => sites_reply health routes [] p
  | JCerts, RCerts certs => refreshCerts_reply certs p
  | JCerts, RFail _ => refreshCerts_reply [] p
  | JPut gen i, RDone => start JCerts (start JLists p)
  | JPut gen i, RFail m =>
      alert m (if (gen =? hp_gen p)%nat then set_switches (flip i (hp_switches p)) p else p)
  | JDelete, RDone => start JCerts (start JLists p)
  | _, _ => p
  end.

Inductive host_event : Type :=
  | HOpen                               (* refresh *)
  | HSearch (s : jstr)
  | HToggle (i : nat)                   (* the switch of the ith row shown *)
  | HRemove (i : nat) (confirmed : bool)
  | HReply (j : nat) (r : host_reply).  (* a reply to the jth job *)

Definition host_step (p : hosts_page) (e : host_event) : hosts_page :=
  match e with
  | HOpen => start JLists p
  | HSearch s =>
      let d := hp_data p in
      render_page (set_data (HostsData (hd_hosts d) (hd_acls d) (hd_people d) (hd_health d) (hd_warnings d) (hd_certs d) s) p)
  | HToggle i =>
      match hv_hosts (hp_view p) !! i, hp_switches p !! i with
      | Some (id, h), Some b =>
          start (JPut (hp_gen p) i) (send_change (HPut id (set_enabled (negb b) h)) (set_switches (flip i (hp_switches p)) p))
      | _, _ => p
      end
  | HRemove i confirmed =>
      match hv_hosts (hp_view p) !! i with
      | Some (id, _) => if confirmed then start JDelete (send_change (HDelete id) p) else p
      | None => p
      end
  | HReply j r =>
      match hp_jobs p !! j with
      | Some job => host_continue job r (set_jobs (delete j (hp_jobs p)) p)
      | None => p
      end
  end.
Definition host_run (p : hosts_page) (es : list host_event) : hosts_page := fold_left host_step es p.

End hosts.

Section properties.
Context (toLowerCase : jstr → jstr) (date_text date_time_text : jstr → jstr) (href : jstr → jstr) (locale_leb : jstr → jstr → bool).
Abbreviation renderHosts := (renderHosts toLowerCase date_text href).
Abbreviation host_step := (host_step toLowerCase date_text date_time_text href locale_leb).
Abbreviation host_run := (host_run toLowerCase date_text date_time_text href locale_leb).
Abbreviation host_row_of := (host_row_of toLowerCase date_text href).

Lemma healthMap_spec l t b : NoDup (map fst l) → healthMap l !! t = Some b ↔ (t, b) ∈ l.
Proof.
  intros Hn. unfold healthMap.
  pose proof (fold_insert_lookup fst (λ x : jstr * bool, Some x.2) l ∅ t b Hn) as H. cbn beta iota in H. rewrite H. split.
  - by intros [([t' b'] & Hx & [= ->] & [= ->])|[?%lookup_empty_Some _]].
  - intros Hx. left. by exists (t, b).
Qed.

Lemma routeWarnings_spec l d w : NoDup (map (λ r, toLowerCase r.1) l) →
  w ∈ default [] (routeWarnings toLowerCase l !! d) ↔ ∃ r, r ∈ l ∧ toLowerCase r.1 = d ∧ w ∈ r.2.
Proof.
  intros Hn. set (val := λ r : jstr * list jstr, match r.2 with [] => None | ws => Some ws end).
  assert (routeWarnings toLowerCase l = fold_left (λ m x, match val x with Some v => <[toLowerCase x.1 := v]> m | None => m end) l ∅) as ->.
  { unfold routeWarnings. generalize (∅ : gmap jstr (list jstr)). induction l as [|[x [|w' ws]] l IH]; intros m; [done| |];
      cbn [fold_left val snd fst map] in *; apply list.NoDup_cons in Hn as [_ Hn]; by apply IH. }
  pose proof (λ v, fold_insert_lookup (λ r, toLowerCase r.1) val l ∅ d v Hn) as H. split.
  - destruct (fold_left _ _ _ !! d) as [ws|] eqn:E; cbn; [|by intros ?%not_elem_of_nil]. intros Hw.
    destruct (proj1 (H ws) eq_refl) as [(r & Hr & Ed & Ev)|[?%lookup_empty_Some _]]; [|done]. exists r. split; [done|]. split; [done|].
    unfold val in Ev. destruct r.2; [done|]. by injection Ev as ->.
  - intros (r & Hr & E & Hw). assert (val r = Some r.2) as Ev by (unfold val; destruct r.2; [by apply not_elem_of_nil in Hw|done]).
    rewrite (proj2 (H r.2)); [done|]. left. by exists r.
Qed.

(** ** Rows *)

(** A host that passes requests on to its pool: every type but the others the
    table knows. *)
Definition proxied (h : host) : Prop :=
  (h_type h ∉ map js ["dead"; "static"; "vpn-portal"]) ∧ (h_type h = js "redirect" → h_redirect h = None).

Lemma filter_lt {A} (p : A → bool) l : (length (List.filter p l) <? length l)%nat = true ↔ ∃ x, x ∈ l ∧ p x = false.
Proof.
  rewrite Nat.ltb_lt. induction l as [|x l IH]; cbn; [split; [lia|by intros (? & ?%not_elem_of_nil & _)]|].
  pose proof (filter_length_le p l). destruct (p x) eqn:E; cbn [length].
  - rewrite <- Nat.succ_lt_mono, IH. split.
    + intros (y & Hy & ?). exists y. by split; [right|].
    + intros (y & [->|Hy]%elem_of_cons & ?); [congruence|by exists y].
  - split; [|lia]. intros _. exists x. by split; [left|].
Qed.

Lemma down_spec d h : (upstream_cell d h).2 = true ↔ proxied h ∧ ∃ u, u ∈ pool_of h ∧ hd_health d !! healthKey u = Some false.
Proof.
  unfold upstream_cell, proxied.
  assert (∀ t, bool_decide (h_type h = js t) = true ↔ h_type h = js t) as Ht by (intros; apply bool_decide_eq_true).
  assert ((up_count d h <? length (pool_of h))%nat = true ↔ ∃ u, u ∈ pool_of h ∧ hd_health d !! healthKey u = Some false) as Hu.
  { unfold up_count. rewrite filter_lt. unfold is_up. setoid_rewrite negb_false_iff. by setoid_rewrite bool_decide_eq_true. }
  destruct (if bool_decide (h_type h = js "redirect") then h_redirect h else None) as [r|] eqn:Er; cbn [snd].
  { split; [done|]. intros [[_ H] _]. case_bool_decide as E; [|done]. by rewrite (H E) in Er. }
  assert (h_type h = js "redirect" → h_redirect h = None) as Hr by (intros E; by rewrite bool_decide_eq_true_2 in Er).
  clear Er Ht. do 3 (case_bool_decide; [cbn [snd]; split; [done|]; intros [[Hn _] _]; exfalso; apply Hn; match goal with H : _ = js _ |- _ => rewrite H end; apply (bool_decide_unpack _); by_compute|]).
  cbn [snd]. rewrite Hu. split; [|by intros [_ ?]]. intros Hd. split; [|done]. split; [|done].
  cbn [map]. rewrite !elem_of_cons, elem_of_nil. tauto.
Qed.

Lemma row_warnings_spec d h w :
  w ∈ row_warnings toLowerCase d h ↔ ∃ x, x ∈ h_domains h ∧ w ∈ default [] (hd_warnings d !! toLowerCase x).
Proof.
  unfold row_warnings. rewrite elem_of_set_of. setoid_rewrite list_elem_of_In. rewrite in_flat_map. split.
  - intros [(x & Hx & Hw) _]. by exists x.
  - intros (x & Hx & Hw). split; [by exists x|]. intros ?. done.
Qed.
(** The links of a row: one per domain, to the site, except for wildcards. *)
Definition link_ok (h : host) (x : jstr) (l : link) : Prop :=
  ln_text l = x ∧ (ln_href l = None ↔ includes (js "*") x = true)
  ∧ ∀ u, ln_href l = Some u → ∃ scheme, scheme ∈ map js ["http"; "https"] ∧ u = href (scheme ++ js "://" ++ x ++ js "/").

Lemma domainLink_ok h x : link_ok h x (domainLink href h x).
Proof.
  unfold link_ok, domainLink. destruct (includes (js "*") x); cbn; [done|]. split; [done|]. split; [done|].
  intros u [= <-]. eexists. split; [|done]. case_bool_decide; apply (bool_decide_unpack _); by_compute.
Qed.

(** The lists of a reply, as the table shows them: [data] is what the page
    had before. *)
Definition loaded (data : hosts_data) hosts acls providers sites health routes certs : hosts_data :=
  HostsData hosts acls (People sites (wgDevices (hd_people data)) (vpnSessions (hd_people data)) providers)
    (healthMap health) (routeWarnings toLowerCase routes) (certByDomain toLowerCase certs) (hd_search data).

Definition opened (n : nat) hosts acls providers sites health routes certs : list host_event :=
  [HOpen; HReply n (RLists hosts acls providers health routes); HReply n (RSites sites); HReply n (RCerts certs)].

Lemma lookup_last {A} (l : list A) x : (l ++ [x]) !! length l = Some x.
Proof. rewrite lookup_app_r by lia. by rewrite Nat.sub_diag. Qed.
Lemma delete_last {A} (l : list A) x : delete (length l) (l ++ [x]) = l.
Proof. rewrite delete_take_drop, take_app_length, drop_ge by (rewrite length_app; cbn; lia). apply app_nil_r. Qed.

Lemma opened_run p hosts acls providers sites health routes certs :
  let p' := host_run p (opened (length (hp_jobs p)) hosts acls providers sites health routes certs) in
  hp_data p' = loaded (hp_data p) hosts acls providers sites health routes certs
  ∧ hp_view p' = renderHosts (hp_data p') ∧ hp_switches p' = map hr_enabled (hv_rows (hp_view p'))
  ∧ hp_jobs p' = hp_jobs p ∧ hp_sent p' = hp_sent p.
Proof.
  cbn [host_run fold_left opened]. cbn [Hosts.host_step start set_jobs hp_jobs].
  rewrite lookup_last, delete_last. cbn [host_continue start set_jobs set_data hp_jobs].
  rewrite lookup_last, delete_last. cbn [host_continue sites_reply start set_jobs render_page set_sub set_data hp_jobs].
  rewrite lookup_last, delete_last. by cbn.
Qed.

(** C7. Opening the hosts page shows what the server has: whatever the page
    showed before, once its loads are answered the table has the hosts that
    match the search, in the server's order; each with a link per domain, the
    distinct warnings of its domains' routes and no other, its row marked as
    down exactly when it passes requests to a backend whose last check
    failed, and its switch at the stored position. *)
Theorem hosts_table_shows_server p hosts acls providers sites health routes certs :
  NoDup (map fst health) → NoDup (map (λ r, toLowerCase r.1) routes) →
  let p' := host_run p (opened (length (hp_jobs p)) hosts acls providers sites health routes certs) in
  let d := hp_data p' in
  hv_hosts (hp_view p') = List.filter (λ h, hostMatches toLowerCase d h.2 (toLowerCase (trim (hd_search (hp_data p))))) hosts
  ∧ hp_switches p' = map (λ h, h_enabled h.2) (hv_hosts (hp_view p'))
  ∧ Forall2 (λ h row,
      Forall2 (link_ok h.2) (h_domains h.2) (hr_links row)
      ∧ NoDup (hr_warnings row)
      ∧ (∀ w, w ∈ hr_warnings row ↔ ∃ x r, x ∈ h_domains h.2 ∧ r ∈ routes ∧ toLowerCase r.1 = toLowerCase x ∧ w ∈ r.2)
      ∧ (hr_warn row = true ↔ hr_warnings row ≠ [])
      ∧ (hr_down row = true ↔ proxied h.2 ∧ ∃ u, u ∈ pool_of h.2 ∧ (healthKey u, false) ∈ health))
    (hv_hosts (hp_view p')) (hv_rows (hp_view p')).
Proof.
  intros Hh Hr p' d. destruct (opened_run p hosts acls providers sites health routes certs) as (Hd & Hv & Hs & _ & _).
  fold p' in Hd, Hv, Hs. fold d in Hd, Hv. assert (hv_hosts (hp_view p') = shown_hosts toLowerCase d) as E by (by rewrite Hv).
  split; [|split].
  - rewrite E. unfold shown_hosts. by rewrite Hd.
  - rewrite Hs, E, Hv. cbn [hv_rows Hosts.renderHosts]. by rewrite map_map.
  - rewrite E, Hv. cbn [hv_rows Hosts.renderHosts]. apply Forall2_fmap_r, Forall_Forall2_diag, list.Forall_true. intros [id h].
    cbn [Hosts.host_row_of hr_links hr_warnings hr_warn hr_down snd]. split_and!.
    + apply Forall2_fmap_r, Forall_Forall2_diag, list.Forall_true. intros x. apply domainLink_ok.
    + apply set_of_nodup.
    + intros w. change (hr_warnings _) with (row_warnings toLowerCase d h). rewrite row_warnings_spec, Hd. cbn [hd_warnings loaded]. setoid_rewrite (routeWarnings_spec _ _ _ Hr). naive_solver.
    + change (hr_warn _) with (bool_decide (row_warnings toLowerCase d h ≠ [])). by rewrite bool_decide_eq_true.
    + change (hr_down _) with (upstream_cell d h).2. rewrite down_spec, Hd. cbn [hd_health loaded]. by setoid_rewrite (healthMap_spec _ _ _ Hh).
Qed.

(** ** The switches *)

Definition no_hosts (data : hosts_data) : hosts_page :=
  HostsPage data (HostsView [] [] true []) [] 0 [] [] [] [] [].

(** The hosts the server sent, and the changes made of them. *)
Definition received (es : list host_event) : list (Z * host) :=
  flat_map (λ e, match e with HReply _ (RLists hosts _ _ _ _) => hosts | _ => [] end) es.
Definition same_but_enabled (h h0 : host) : Prop :=
  (h_type h, h_domains h, h_upstream h, h_upstreams h, h_locations h, h_staticRoot h, h_redirect h, h_certMode h)
    = (h_type h0, h_domains h0, h_upstream h0, h_upstreams h0, h_locations h0, h_staticRoot h0, h_redirect h0, h_certMode h0)
  ∧ (h_certId h, h_forceSsl h, h_accessListId h, h_options h) = (h_certId h0, h_forceSsl h0, h_accessListId h0, h_options h0).
Definition change_of (rc : list (Z * host)) (r : host_request) : Prop :=
  match r with
  | HPut id h => ∃ h0, (id, h0) ∈ rc ∧ same_but_enabled h h0
  | HDelete id => ∃ h0, (id, h0) ∈ rc
  end.

Record page_ok (rc : list (Z * host)) (p : hosts_page) : Prop := {
  po_switches : length (hp_switches p) = length (hv_hosts (hp_view p));
  po_shown : hv_hosts (hp_view p) ⊆ rc;
  po_data : hd_hosts (hp_data p) ⊆ rc;
  po_sent : Forall (change_of rc) (hp_sent p) }.

Lemma page_ok_weaken rc rc' p : rc ⊆ rc' → page_ok rc p → page_ok rc' p.
Proof.
  intros Hs [H1 H2 H3 H4]. constructor; [done|set_solver|set_solver|]. apply (list.Forall_impl _ _ _ H4).
  intros [id h|id]; cbn; [intros (h0 & Hi & E)|intros (h0 & Hi)]; eauto.
Qed.

Lemma render_ok rc p : hd_hosts (hp_data p) ⊆ rc → Forall (change_of rc) (hp_sent p) →
  page_ok rc (render_page toLowerCase date_text href p).
Proof.
  intros Hd Hs. constructor; try done; cbn [render_page hp_switches hp_view hv_rows Hosts.renderHosts hv_hosts].
  - by rewrite !length_map.
  - intros x Hx. apply Hd. unfold shown_hosts in Hx. apply list_elem_of_In, filter_In in Hx as [Hx _]. by apply list_elem_of_In.
Qed.

Lemma page_ok_ext rc p p' : hp_view p' = hp_view p → length (hp_switches p') = length (hp_switches p) →
  hd_hosts (hp_data p') = hd_hosts (hp_data p) → hp_sent p' = hp_sent p → page_ok rc p → page_ok rc p'.
Proof. intros E1 E2 E3 E4 [H1 H2 H3 H4]. constructor; [by rewrite E1, E2| | |]; by rewrite ?E1, ?E3, ?E4. Qed.

Lemma continue_ok rc j r p : page_ok rc p →
  page_ok (rc ++ match r with RLists hosts _ _ _ _ => hosts | _ => [] end)
    (host_continue toLowerCase date_text date_time_text href locale_leb j r p).
Proof.
  intros H. assert (rc ⊆ rc ++ match r with RLists hosts _ _ _ _ => hosts | _ => [] end) as Hw by set_solver.
  apply (page_ok_weaken _ _ _ Hw) in H. set (rc' := rc ++ _) in *.
  assert (∀ c, page_ok rc' (refreshCerts_reply toLowerCase date_text date_time_text href locale_leb c p)) as Hc
    by (intros c; refine (page_ok_ext _ _ _ _ _ _ _ (render_ok rc' (set_data _ p) _ _)); first [done | apply H]).
  assert (∀ h ro s, page_ok rc' (sites_reply toLowerCase date_text href h ro s p)) as Hsi
    by (intros h ro s; refine (page_ok_ext _ _ _ _ _ _ _ (render_ok rc' (set_sub _ (set_data _ p)) _ _)); first [done | apply H]).
  destruct j, r; try done; try apply Hc; try apply Hsi; cbn [host_continue].
  - constructor; try apply H; cbn. unfold rc'. set_solver.
  - by eapply page_ok_ext; [..|exact H].
  - destruct (_ =? _)%nat; (eapply page_ok_ext; [..|exact H]; try done). cbn. apply length_alter.
  - by eapply page_ok_ext; [..|exact H].
Qed.

Lemma host_step_ok rc p e : page_ok rc p → page_ok (rc ++ received [e]) (host_step p e).
Proof.
  intros H. unfold received. cbn [flat_map]. rewrite app_nil_r. destruct e as [|s|i|i c|j r]; cbn [Hosts.host_step]; rewrite ?app_nil_r.
  - by eapply page_ok_ext; [..|exact H].
  - apply render_ok; apply H.
  - destruct (hv_hosts (hp_view p) !! i) as [[id h]|] eqn:E; [|done]. destruct (hp_switches p !! i) as [b|]; [|done].
    destruct H as [H1 H2 H3 H4]. constructor; try done; cbn.
    + unfold flip. by rewrite length_alter.
    + apply list.Forall_app. split; [done|]. apply list.Forall_singleton. cbn. exists h. split; [|done].
      apply H2. by eapply list_elem_of_lookup_2.
  - destruct (hv_hosts (hp_view p) !! i) as [[id h]|] eqn:E; [|done]. destruct c; [|done].
    destruct H as [H1 H2 H3 H4]. constructor; try done; cbn. apply list.Forall_app. split; [done|]. apply list.Forall_singleton.
    exists h. apply H2. by eapply list_elem_of_lookup_2.
  - destruct (hp_jobs p !! j) as [job|].
    + apply continue_ok. by eapply page_ok_ext; [..|exact H].
    + eapply page_ok_weaken; [|exact H]. set_solver.
Qed.

Lemma host_run_ok es : ∀ rc p, page_ok rc p → page_ok (rc ++ received es) (host_run p es).
Proof.
  induction es as [|e es IH]; intros rc p H; [by rewrite app_nil_r|]. apply (host_step_ok _ _ e), IH in H.
  rewrite <- app_assoc in H. unfold received in H. rewrite <- flat_map_app in H. exact H.
Qed.

(** C21. The table changes only what was asked for: whatever the user and the
    replies do, every change it sends is a host the server has sent with
    nothing but [enabled] set, or the removal of one; there is a switch for
    every row, which sends the host of that row switched to what it now
    shows; and a change that fails puts its switch back and says why, while
    one that succeeds loads the hosts and the certificates again. *)
Theorem host_changes_safe data es i m : hd_hosts data = [] →
  let p := host_run (no_hosts data) es in
  let n := length (hp_jobs p) in
  Forall (change_of (received es)) (hp_sent p)
  ∧ length (hp_switches p) = length (hv_hosts (hp_view p))
  ∧ ((i < length (hp_switches p))%nat →
       let failed := host_run p [HToggle i; HReply n (RFail m)] in
       let done := host_run p [HToggle i; HReply n RDone] in
       (∃ id h h0, hp_sent done = hp_sent p ++ [HPut id h] ∧ hv_hosts (hp_view p) !! i = Some (id, h0)
          ∧ same_but_enabled h h0 ∧ hp_switches done !! i = Some (h_enabled h))
       ∧ hp_switches failed = hp_switches p ∧ hp_alerts failed = hp_alerts p ++ [m] ∧ hp_jobs failed = hp_jobs p
       ∧ hp_switches done = alter negb i (hp_switches p) ∧ hp_jobs done = hp_jobs p ++ [JLists; JCerts]).
Proof.
  intros Hd p n. assert (page_ok [] (no_hosts data)) as H0 by (constructor; cbn; rewrite ?Hd; done).
  apply (host_run_ok es) in H0 as [H1 H2 H3 H4]. fold p in H1, H2, H3, H4. split; [done|]. split; [done|].
  intros Hi. destruct (lookup_lt_is_Some_2 _ _ Hi) as [b Eb].
  destruct (lookup_lt_is_Some_2 (hv_hosts (hp_view p)) i) as [[id h] Eh]; [lia|].
  cbn [Hosts.host_run fold_left]. cbn [Hosts.host_step]. rewrite Eh, Eb. cbn [start set_jobs send_change set_switches hp_jobs].
  unfold n. rewrite lookup_last, delete_last. cbn [host_continue set_jobs hp_gen]. rewrite Nat.eqb_refl. cbn.
  split_and!; try done; [| |by rewrite <- app_assoc].
  { exists id, (set_enabled (negb b) h), h. split_and!; try done. unfold flip. by rewrite list_lookup_alter_eq, Eb. }
  apply list_eq. intros k. unfold flip. destruct (decide (k = i)) as [->|Hne].
  - rewrite !list_lookup_alter_eq, Eb. cbn. by rewrite negb_involutive.
  - by rewrite !list_lookup_alter_ne by done.
Qed.
End properties.

(** ** Markup *)

Definition td_ok (c : td) : Prop := match c with TdText _ => True | TdHtml l => contained l end.

Lemma badge_contained cls text : hrun HText (jq "<span class=`badge " ++ js cls ++ jq "`>" ++ js text ++ js "</span>") = HText → contained (badge cls text).
Proof. intros H. by apply contained_cons_lit, contained_nil. Qed.

Lemma cert_class_in s : cert_class s ∈ map js ["badge--success"; "badge--danger"; ""].
Proof. unfold cert_class. repeat case_bool_decide; apply (bool_decide_unpack _); by_compute. Qed.

(** A template around one of a few texts of the source. *)
Lemma lit_cases (l : list jstr) (s : jstr) (mk : jstr → list piece) :
  s ∈ l → forallb (λ x, bool_decide (tpl_end HText (mk x) = Some HText)) l = true → Forall val_inert (mk s) → contained (mk s).
Proof.
  intros Hs H Hi. split; [|done]. pose proof (proj1 (forallb_forall _ _) H s (proj1 (list_elem_of_In _ _) Hs)) as H1.
  by apply bool_decide_eq_true in H1.
Qed.

Lemma pool_cell_ok d h : td_ok (pool_cell d h).
Proof. unfold pool_cell. repeat case_match; cbn [td_ok]; [contained_by..|done]. Qed.

Section markup.
Context (toLowerCase : jstr → jstr) (date_text date_time_text : jstr → jstr).

Lemma upstream_cell_ok d h : td_ok (upstream_cell d h).1.
Proof.
  unfold upstream_cell, badge. repeat case_match; cbn [fst td_ok app]; try contained_by; apply pool_cell_ok.
Qed.

Lemma access_cell_ok d h : contained (access_cell d h).
Proof. unfold access_cell, badge. repeat case_match; cbn [app]; contained_by. Qed.

Lemma cert_cell_ok d h : td_ok (cert_cell toLowerCase date_text d h).
Proof.
  unfold cert_cell, cert_class, badge. repeat case_match; cbn [td_ok]; first [contained_by|done].
Qed.

Lemma cert_row_ok c : contained (cert_row date_time_text c).
Proof.
  unfold cert_row. apply contained_app; [repeat case_match; contained_by|]. apply contained_app; [case_match; [contained_by|apply contained_nil]|].
  contained_by.
Qed.
End markup.

(** ** The properties at concrete inputs *)

Definition no_data : hosts_data := HostsData [] [] (People [] [] [] []) ∅ ∅ ∅ (js "B.EX").
Definition some_health : list (jstr * bool) := [(js "https://10.0.0.2:8443|site=1", true); (js "https://10.0.0.3:8443|site=1", false)].
Definition some_routes : list (jstr * list jstr) := [(js "A.example", [js "the access list is gone"]); (js "c.example", [js "other"])].
Abbreviation try_run := (host_run ascii_lower id id id str_leb) (only parsing).
Definition sample_page : hosts_page :=
  try_run (no_hosts no_data) (opened 0 [(4, sample_host)] [(3, js "lan")] [] [Site 1 (js "home") [] true] some_health some_routes []).

Lemma hosts_table_shows_server_witness :
  NoDup (map fst some_health) ∧ NoDup (map (λ r, ascii_lower r.1) some_routes)
  ∧ hv_hosts (hp_view sample_page) = [(4, sample_host)]
  ∧ map hr_warnings (hv_rows (hp_view sample_page)) = [[js "the access list is gone"]] ∧ map hr_down (hv_rows (hp_view sample_page)) = [true].
Proof.
  assert (NoDup (map fst some_health)) as H1 by (apply (bool_decide_unpack _); by_compute).
  assert (NoDup (map (λ r, ascii_lower r.1) some_routes)) as H2 by (apply (bool_decide_unpack _); by_compute).
  split; [exact H1|]. split; [exact H2|].
  destruct (hosts_table_shows_server ascii_lower id id id str_leb (no_hosts no_data) [(4, sample_host)] [(3, js "lan")] []
    [Site 1 (js "home") [] true] some_health some_routes [] H1 H2) as (E & _ & _).
  split; [|split; by_compute]. etransitivity; [exact E|]. by_compute.
Defined.

Lemma host_changes_safe_witness :
  hd_hosts no_data = []
  ∧ let es := opened 0 [(4, sample_host)] [] [] [] [] [] [] in
    let p := try_run (no_hosts no_data) es in
    hp_switches (try_run p [HToggle 0; HReply 0 (RFail (js "no such host"))]) = [true].
Proof.
  split; [done|]. intros es p.
  destruct (host_changes_safe ascii_lower id id id str_leb no_data es 0 (js "no such host") eq_refl) as (_ & _ & H).
  destruct (H ltac:(apply Nat.ltb_lt; by_compute)) as (_ & E & _). etransitivity; [exact E|]. by_compute.
Defined.
