(* ===== verification/Settings.v ===== *)
(** * The settings page (web/app.js, settings section)

    The panels of the Settings page: the values loaded into their controls,
    the fields that are shown only for what is switched on, the values each
    panel saves, and the status line that tells how a save went.

    The server's settings are strings by name; a name that is not there reads
    as [undefined].  [used] is what the server makes of a setting, the
    environment included, from its sources.  Replies come in any order and any number: the events of
    the page below allow every sequence of them. *)

From Stdlib Require Import Ascii String ZArith NArith Lia.
From stdpp Require Import base list gmap strings numbers.
From S2P Require Import Prelude JsString Regex Fields.

Local Open Scope Z_scope.

(** ** Controls *)

(** Email and address inputs drop line breaks and the ASCII white space
    around a value. *)
Definition ascii_space (c : N) : bool := bool_decide (c ∈ [9; 10; 12; 13; 32]%N).
Definition url_set (s : jstr) : jstr := rev (drop_while ascii_space (rev (drop_while ascii_space (text_set s)))).

Definition server_settings : Type := gmap jstr jstr.
(** [s.key || ''] and [s.key === '1']. *)
Definition setting (s : server_settings) (key : string) : jstr := default [] (s !! js key).
Definition is_on (s : server_settings) (key : string) : bool := bool_decide (s !! js key = Some (js "1")).
Definition bit (b : bool) : jstr := if b then js "1" else js "0".

(** The controls something depends on, the other controls, and what is hidden. *)
Record switches : Type := Switches {
  sw_oidc : bool; sw_ldap : bool; sw_ban : bool; sw_provider : jstr; sw_dns : jstr; sw_site : jstr }.
Record texts : Type := Texts {
  tx_acme_email : jstr; tx_acme_staging : bool; tx_acme_ca : jstr; tx_dns_config : jstr; tx_notify : jstr;
  tx_site_value : jstr; tx_threshold : jstr; tx_window : jstr; tx_duration : jstr; tx_own : bool; tx_exempt : jstr;
  tx_issuer : jstr; tx_client : jstr; tx_secret : jstr; tx_redirect : jstr; tx_emails : jstr;
  tx_ldap_url : jstr; tx_ldap_dn : jstr; tx_ldap_allowed : jstr; tx_proxies : jstr; tx_realip : jstr }.
Record hidden : Type := Hidden {
  hi_oidc : bool; hi_ldap : bool; hi_ban : bool; hi_inline : bool; hi_dns : bool; hi_site : bool; hi_site_label : jstr }.
Record settings_page : Type := SettingsPage {
  sp_switches : switches; sp_texts : texts; sp_hidden : hidden; sp_providers : list Z; sp_menu : list jstr }.

Definition dns_opts : list jstr := map js [""; "transip"].
Definition site_opts : list jstr := map js ["404"; "html"; "redirect"].

(** ** Fields shown for what is on *)

Definition syncSettingsDisclosure (p : settings_page) : settings_page :=
  let w := sp_switches p in let h := sp_hidden p in
  SettingsPage w (sp_texts p)
    (Hidden (negb (sw_oidc w)) (negb (sw_ldap w)) (negb (sw_ban w)) (truthy (sw_provider w)) (hi_dns h) (hi_site h) (hi_site_label h))
    (sp_providers p) (sp_menu p).
Definition syncDnsField (p : settings_page) : settings_page :=
  let w := sp_switches p in let h := sp_hidden p in
  SettingsPage w (sp_texts p)
    (Hidden (hi_oidc h) (hi_ldap h) (hi_ban h) (hi_inline h) (bool_decide (sw_dns w = [])) (hi_site h) (hi_site_label h))
    (sp_providers p) (sp_menu p).
Definition syncDefaultSiteField (p : settings_page) : settings_page :=
  let w := sp_switches p in let h := sp_hidden p in
  SettingsPage w (sp_texts p)
    (Hidden (hi_oidc h) (hi_ldap h) (hi_ban h) (hi_inline h) (hi_dns h) (bool_decide (sw_site w = js "404"))
       (if bool_decide (sw_site w = js "redirect") then js "Redirect URL" else js "HTML"))
    (sp_providers p) (sp_menu p).

(** ** Loading *)

Definition set_switches (w : switches) (p : settings_page) : settings_page :=
  SettingsPage w (sp_texts p) (sp_hidden p) (sp_providers p) (sp_menu p).
Definition set_texts (t : texts) (p : settings_page) : settings_page :=
  SettingsPage (sp_switches p) t (sp_hidden p) (sp_providers p) (sp_menu p).
Definition set_ldap (b : bool) (p : settings_page) : settings_page :=
  let w := sp_switches p in
  set_switches (Switches (sw_oidc w) b (sw_ban w) (sw_provider w) (sw_dns w) (sw_site w)) p.

(** The menu of the providers is filled again, which leaves it at its first
    option until it is set. *)
Definition load_texts (s : server_settings) : texts :=
  let get := setting s in
  {| tx_acme_email := url_set (get "acme_email"%string); tx_acme_staging := is_on s "acme_staging";
     tx_acme_ca := url_set (get "acme_ca_url"%string); tx_dns_config := area_set (get "acme_dns_config"%string);
     tx_notify := url_set (get "notify_url"%string); tx_site_value := area_set (get "default_site_value"%string);
     tx_threshold := number_set (get "ban_threshold"%string); tx_window := number_set (get "ban_window_sec"%string);
     tx_duration := number_set (get "ban_duration_sec"%string); tx_own := is_on s "ban_exempt_own";
     tx_exempt := area_set (get "ban_exempt"%string);
     tx_issuer := url_set (get "oidc_issuer"%string); tx_client := text_set (get "oidc_client_id"%string);
     tx_secret := text_set (get "oidc_client_secret"%string); tx_redirect := url_set (get "oidc_redirect_url"%string);
     tx_emails := text_set (get "oidc_allowed_emails"%string);
     tx_ldap_url := text_set (get "ldap_url"%string); tx_ldap_dn := text_set (get "ldap_bind_dn_template"%string);
     tx_ldap_allowed := text_set (get "ldap_allowed_users"%string);
     tx_proxies := area_set (get "trusted_proxies"%string); tx_realip := text_set (get "real_ip_header"%string) |}.

(** [loadSettings] from the settings on: everything up to the provider menu,
    [syncSettingsDisclosure], and the rest. *)
Definition loadSettings (s : server_settings) (p : settings_page) : settings_page :=
  let menu := [] :: map js_of_Z (sp_providers p) in
  let w := Switches (is_on s "oidc_enabled") (sw_ldap (sp_switches p)) (is_on s "ban_enabled")
             (sel_set menu (setting s "admin_oidc_provider_id")) (sel_set dns_opts (setting s "acme_dns_provider"))
             (sel_set site_opts (str_or (setting s "default_site") (js "404"))) in
  let p := syncSettingsDisclosure (SettingsPage w (load_texts s) (sp_hidden p) (sp_providers p) menu) in
  syncDefaultSiteField (syncDnsField (set_ldap (is_on s "ldap_enabled") p)).
Definition providers_reply (l : option (list Z)) (p : settings_page) : settings_page :=
  match l with
  | Some l => SettingsPage (sp_switches p) (sp_texts p) (sp_hidden p) l (sp_menu p)
  | None => p
  end.

(** ** Saving *)

Definition put : Type := list (jstr * jstr).
Definition oidc_values (p : settings_page) : put :=
  let w := sp_switches p in let t := sp_texts p in
  [(js "oidc_enabled", bit (sw_oidc w)); (js "admin_oidc_provider_id", sw_provider w); (js "oidc_issuer", trim (tx_issuer t));
   (js "oidc_client_id", trim (tx_client t)); (js "oidc_client_secret", tx_secret t);
   (js "oidc_redirect_url", trim (tx_redirect t)); (js "oidc_allowed_emails", trim (tx_emails t))].
Definition ldap_values (p : settings_page) : put :=
  let t := sp_texts p in
  [(js "ldap_enabled", bit (sw_ldap (sp_switches p))); (js "ldap_url", trim (tx_ldap_url t));
   (js "ldap_bind_dn_template", trim (tx_ldap_dn t)); (js "ldap_allowed_users", trim (tx_ldap_allowed t))].
Definition proxies_values (p : settings_page) : put :=
  [(js "trusted_proxies", trim (tx_proxies (sp_texts p))); (js "real_ip_header", trim (tx_realip (sp_texts p)))].
Definition ban_values (p : settings_page) : put :=
  let t := sp_texts p in
  [(js "ban_enabled", bit (sw_ban (sp_switches p))); (js "ban_threshold", str_or (tx_threshold t) (js "5"));
   (js "ban_window_sec", str_or (tx_window t) (js "300")); (js "ban_duration_sec", str_or (tx_duration t) (js "3600"));
   (js "ban_exempt_own", bit (tx_own t)); (js "ban_exempt", trim (tx_exempt t))].
Definition acme_values (p : settings_page) : put :=
  let t := sp_texts p in
  [(js "acme_email", trim (tx_acme_email t)); (js "acme_staging", bit (tx_acme_staging t)); (js "acme_ca_url", trim (tx_acme_ca t));
   (js "acme_dns_provider", sw_dns (sp_switches p)); (js "acme_dns_config", trim (tx_dns_config t))].
Definition site_values (p : settings_page) : put :=
  [(js "default_site", sw_site (sp_switches p)); (js "default_site_value", tx_site_value (sp_texts p))].
Definition notify_values (p : settings_page) : put := [(js "notify_url", trim (tx_notify (sp_texts p)))].

Definition panels (p : settings_page) : list put :=
  [oidc_values p; ldap_values p; proxies_values p; ban_values p; acme_values p; site_values p; notify_values p].

(** What the server stores of a save: each value by its name. *)
Definition store (v : put) (s : server_settings) : server_settings := fold_left (λ s kv, <[kv.1 := kv.2]> s) v s.

(** ** Events *)

Inductive settings_event : Type :=
  | SProviders (l : option (list Z))        (* the providers of a load, or its failure *)
  | SSettings (s : server_settings)         (* the settings of a load *)
  | SOidc (b : bool) | SLdap (b : bool) | SBan (b : bool) | SProvider (v : jstr) | SDns (v : jstr) | SSite (v : jstr)
  | SType (t : texts).                      (* typing into the other controls *)

Definition settings_step (p : settings_page) (e : settings_event) : settings_page :=
  let w := sp_switches p in
  match e with
  | SProviders l => providers_reply l p
  | SSettings s => loadSettings s p
  | SOidc b => syncSettingsDisclosure (set_switches (Switches b (sw_ldap w) (sw_ban w) (sw_provider w) (sw_dns w) (sw_site w)) p)
  | SLdap b => syncSettingsDisclosure (set_ldap b p)
  | SBan b => syncSettingsDisclosure (set_switches (Switches (sw_oidc w) (sw_ldap w) b (sw_provider w) (sw_dns w) (sw_site w)) p)
  | SProvider v =>
      if decide (v ∈ sp_menu p)
      then syncSettingsDisclosure (set_switches (Switches (sw_oidc w) (sw_ldap w) (sw_ban w) v (sw_dns w) (sw_site w)) p) else p
  | SDns v =>
      if decide (v ∈ dns_opts)
      then syncDnsField (set_switches (Switches (sw_oidc w) (sw_ldap w) (sw_ban w) (sw_provider w) v (sw_site w)) p) else p
  | SSite v =>
      if decide (v ∈ site_opts)
      then syncDefaultSiteField (set_switches (Switches (sw_oidc w) (sw_ldap w) (sw_ban w) (sw_provider w) (sw_dns w) v) p) else p
  | SType t => set_texts t p
  end.
Definition settings_run (p : settings_page) (es : list settings_event) : settings_page := fold_left settings_step es p.

(** ** The status line *)

(** [flashStatus] on one line: [fl_timers] are the timers that will hide it,
    [fl_timer] is [el._timer]. *)
Record flash : Type := Flash {
  fl_hidden : bool; fl_text : jstr; fl_error : bool; fl_timers : list nat; fl_timer : option nat; fl_next : nat }.
Definition flashStatus (text : jstr) (isError : bool) (f : flash) : flash :=
  let live := List.filter (λ t, negb (bool_decide (fl_timer f = Some t))) (fl_timers f) in
  if isError then Flash false text true live (fl_timer f) (fl_next f)
  else Flash false text false (live ++ [fl_next f]) (Some (fl_next f)) (S (fl_next f)).

(** [saveSettings] from its reply: whether the server took the values. *)
Definition saved (r : option jstr) (f : flash) : flash * bool :=
  match r with
  | None => (flashStatus (js "Saved") false f, true)
  | Some message => (flashStatus message true f, false)
  end.

Inductive flash_event : Type :=
  | FSaved (r : option jstr)     (* the reply to a save *)
  | FTimer (id : nat).           (* a timer fires *)
Definition flash_step (f : flash) (e : flash_event) : flash :=
  match e with
  | FSaved r => (saved r f).1
  | FTimer id =>
      if decide (id ∈ fl_timers f)
      then Flash true (fl_text f) (fl_error f) (List.filter (λ t, negb (bool_decide (t = id))) (fl_timers f)) (fl_timer f) (fl_next f)
      else f
  end.
Definition flash_run (f : flash) (es : list flash_event) : flash := fold_left flash_step es f.
Definition no_flash : flash := Flash true [] false [] None 0.

(** ** Controls keep clean values *)

Lemma ascii_space_space c : ascii_space c = true → is_space c = true.
Proof. unfold ascii_space. rewrite bool_decide_eq_true. intros H. repeat (apply elem_of_cons in H as [->|H]; [done|]). by apply not_elem_of_nil in H. Qed.

Lemma url_set_word s : word s = true → url_set s = s ∧ trim s = s.
Proof.
  intros H. destruct (text_set_word s H) as [E1 E2]. rewrite E1 in E2. split; [|done]. unfold url_set. rewrite E1.
  assert (∀ c, is_space c = false → ascii_space c = false) as Ha.
  { intros c Hc. destruct (ascii_space c) eqn:E; [|done]. by rewrite (ascii_space_space c E) in Hc. }
  destruct s as [|c s]; [done|]. apply trim_idemp_cons in E2. unfold tidy in E2. cbn [drop_while].
  destruct (is_space c) eqn:Hc; [done|]. rewrite (Ha c Hc). destruct (rev (c :: s)) as [|d r] eqn:E; [done|]. cbn [negb andb] in E2.
  cbn [drop_while]. rewrite (Ha d) by (by destruct (is_space d)). rewrite <- E. apply rev_involutive.
Qed.

(** ** What is saved right after loading *)

Inductive kind : Type := KBit | KUrl | KLine | KSecret | KArea | KHtml | KNumber | KMenu (opts : list jstr).
Definition value_ok (k : kind) (v : jstr) : bool :=
  match k with
  | KBit => bool_decide (v ∈ [[]; js "0"; js "1"])
  | KUrl | KLine => word v
  | KSecret => one_line v
  | KArea => bool_decide (13%N ∉ v) && bool_decide (trim v = v)
  | KHtml => bool_decide (13%N ∉ v)
  | KNumber => bool_decide (v = [] ∨ number_set v = v)
  | KMenu opts => bool_decide (v = [] ∨ v ∈ opts)
  end.

(** What a name of the settings holds, and what an untouched panel saves for
    it when it is empty. *)
Definition kinds (providers : list Z) : list (string * kind * string) :=
  [("oidc_enabled", KBit, "0"); ("admin_oidc_provider_id", KMenu (map js_of_Z providers), ""); ("oidc_issuer", KUrl, "");
   ("oidc_client_id", KLine, ""); ("oidc_client_secret", KSecret, ""); ("oidc_redirect_url", KUrl, ""); ("oidc_allowed_emails", KLine, "");
   ("ldap_enabled", KBit, "0"); ("ldap_url", KLine, ""); ("ldap_bind_dn_template", KLine, ""); ("ldap_allowed_users", KLine, "");
   ("trusted_proxies", KArea, ""); ("real_ip_header", KLine, "");
   ("ban_enabled", KBit, "0"); ("ban_threshold", KNumber, "5"); ("ban_window_sec", KNumber, "300"); ("ban_duration_sec", KNumber, "3600");
   ("ban_exempt_own", KBit, "0"); ("ban_exempt", KArea, "");
   ("acme_email", KUrl, ""); ("acme_staging", KBit, "0"); ("acme_ca_url", KUrl, ""); ("acme_dns_provider", KMenu dns_opts, "");
   ("acme_dns_config", KArea, ""); ("default_site", KMenu site_opts, "404"); ("default_site_value", KHtml, ""); ("notify_url", KUrl, "")]%string.
Definition stored_ok (providers : list Z) (s : server_settings) : bool :=
  forallb (λ k, value_ok k.1.2 (setting s k.1.1)) (kinds providers).

Lemma load_bit s key : value_ok KBit (setting s key) = true → bit (is_on s key) = str_or (setting s key) (js "0").
Proof.
  unfold setting, is_on. cbn. rewrite bool_decide_eq_true. destruct (s !! js key) as [v|]; [|done]. cbn.
  intros H. repeat (apply elem_of_cons in H as [->|H]; [by_compute|]). by apply not_elem_of_nil in H.
Qed.
Lemma load_url v : value_ok KUrl v = true → trim (url_set v) = str_or v [].
Proof. intros H. destruct (url_set_word v H) as [-> ->]. by destruct v. Qed.
Lemma load_line v : value_ok KLine v = true → trim (text_set v) = str_or v [].
Proof. intros H. destruct (text_set_word v H) as [_ ->]. by destruct v. Qed.
Lemma load_secret v : value_ok KSecret v = true → text_set v = str_or v [].
Proof. intros H. rewrite text_set_id by done. by destruct v. Qed.
Lemma load_html v : value_ok KHtml v = true → area_set v = str_or v [].
Proof. cbn. rewrite bool_decide_eq_true. intros H. rewrite area_set_id by done. by destruct v. Qed.
Lemma load_area v : value_ok KArea v = true → trim (area_set v) = str_or v [].
Proof. cbn. rewrite andb_true_iff, !bool_decide_eq_true. intros [H1 H2]. rewrite area_set_id, H2 by done. by destruct v. Qed.
Lemma load_number v d : value_ok KNumber v = true → str_or (number_set v) d = str_or v d.
Proof. cbn. rewrite bool_decide_eq_true. by intros [->| ->]. Qed.
Lemma load_menu opts v : value_ok (KMenu opts) v = true → sel_set ([] :: opts) v = str_or v [].
Proof. cbn. rewrite bool_decide_eq_true. intros H. rewrite sel_set_in; [by destruct v|]. destruct H as [->|H]; [left|by right]. Qed.
Lemma load_dns v : value_ok (KMenu dns_opts) v = true → sel_set dns_opts v = str_or v [].
Proof. cbn. rewrite bool_decide_eq_true. intros H. rewrite sel_set_in; [by destruct v|]. destruct H as [->|H]; [left|done]. Qed.
Lemma load_site v : value_ok (KMenu site_opts) v = true → sel_set site_opts (str_or v (js "404")) = str_or v (js "404").
Proof. cbn. rewrite bool_decide_eq_true. intros H. apply sel_set_in.
  destruct v as [|c v]; [apply (bool_decide_unpack _); by_compute|by destruct H as [?|?]]. Qed.

Lemma panel_values providers s p : sp_providers p = providers → stored_ok providers s = true →
  concat (panels (loadSettings s p)) = map (λ k, (js k.1.1, str_or (setting s k.1.1) (js k.2))) (kinds providers).
Proof.
  intros Hp H. unfold stored_ok, kinds in H. cbn [forallb fst snd] in H. rewrite !andb_true_iff in H. destruct_and! H.
  unfold panels, kinds. cbn [concat app map fst snd oidc_values ldap_values proxies_values ban_values acme_values site_values notify_values
    sp_switches sp_texts loadSettings syncDefaultSiteField syncDnsField set_ldap set_switches syncSettingsDisclosure
    sw_oidc sw_ldap sw_ban sw_provider sw_dns sw_site load_texts tx_acme_email tx_acme_staging tx_acme_ca tx_dns_config tx_notify tx_site_value
    tx_threshold tx_window tx_duration tx_own tx_exempt tx_issuer tx_client tx_secret tx_redirect tx_emails tx_ldap_url tx_ldap_dn
    tx_ldap_allowed tx_proxies tx_realip]. rewrite Hp.
  repeat (apply (f_equal2 cons); [apply (f_equal2 pair); [reflexivity|]|]); [..|reflexivity].
  all: first [by apply load_bit | by apply load_url | by apply load_line | by apply load_secret | by apply load_html | by apply load_area
    | by apply load_number | by apply load_menu | by apply load_dns | by apply load_site].
Qed.

Lemma store_in v s key x : NoDup (map fst v) → (key, x) ∈ v → store v s !! key = Some x.
Proof.
  intros Hn Hx. pose proof (fold_insert_lookup fst (λ kv : jstr * jstr, Some kv.2) v s key x Hn) as H. cbn beta iota in H.
  unfold store. apply H. left. by exists (key, x).
Qed.
Lemma store_out v s key : key ∉ map fst v → store v s !! key = s !! key.
Proof.
  unfold store. revert s. induction v as [|[k x] v IH]; intros s H; [done|]. cbn in *. apply not_elem_of_cons in H as [Hk Hv].
  rewrite IH by done. apply lookup_insert_ne. congruence.
Qed.

(** The names the panels save. *)
Definition names : list jstr := Eval cbn in map (λ k, js k.1.1) (kinds []).
Lemma panel_names p : map fst (concat (panels p)) = names.
Proof. done. Qed.
Lemma names_nodup : NoDup names.
Proof. apply (bool_decide_unpack _). by_compute. Qed.

(** What a panel saves for an empty value. *)
Definition shown_default (key : jstr) : jstr :=
  match List.find (λ k, bool_decide (key = js k.1.1)) (kinds []) with Some k => js k.2 | None => [] end.

Lemma shown_default_kinds providers k : k ∈ kinds providers → shown_default (js k.1.1) = js k.2.
Proof.
  assert (Forall (λ k, shown_default (js k.1.1) = js k.2) (kinds providers)) as F.
  { unfold kinds. repeat (apply list.Forall_cons; split; [by_compute|]). by apply list.Forall_nil. }
  rewrite list.Forall_forall in F. apply F.
Qed.

(** *** What the server makes of its settings *)

(** [QG_ACME_EMAIL] and whether [QG_ACME_STAGING] is 1 (main.go). *)
Record environment : Type := Environ { env_email : jstr; env_staging : bool }.
(** [atoi] of banConfig: a positive number, or the default. *)
Definition number_or (v d : jstr) : jstr := match parse_int v with Some n => if 0 <? n then js_of_Z n else d | None => d end.
(** The value in force for what is stored under a name ([applyACMESettings],
    [banConfig] and the default site of internal/engine/engine.go; the other
    switches are on for 1 and the other texts are used as they are). *)
Definition used (env : environment) (key : jstr) (stored : option jstr) : jstr :=
  let v := default [] stored in
  if decide (key = js "acme_email") then default (env_email env) stored
  else if decide (key = js "acme_staging") then bit (if truthy v then bool_decide (v = js "1") else env_staging env)
  else match List.find (λ k, bool_decide (key = js k.1.1)) (kinds []) with
       | Some (_, KBit, _) => bit (bool_decide (v = js "1"))
       | Some (_, KNumber, d) => number_or v (js d)
       | Some (_, _, d) => str_or v (js d)
       | None => v
       end.

(** An empty or missing value is used as what the panel saves for it, but for
    the two the environment stands in for. *)
Lemma used_default env k : k ∈ kinds [] → let key := js k.1.1 in ∀ o,
  (key = js "acme_email" → is_Some o ∨ env_email env = []) →
  (key = js "acme_staging" → truthy (default [] o) = true ∨ env_staging env = false) →
  used env key (Some (str_or (default [] o) (js k.2))) = used env key o.
Proof.
  intros Hk key o He Hs. unfold key in *. clear key. destruct o as [[|c v]|].
  3: assert (default [] (None : option jstr) = []) as E by done; rewrite E.
  2: assert (default [] (Some (c :: v)) = c :: v) as E by done; rewrite E; done.
  all: cbn [default str_or id].
  all: unfold kinds in Hk; repeat (apply elem_of_cons in Hk as [->|Hk]; [cbn [fst snd] in *; try by_compute|]); [..|by apply not_elem_of_nil in Hk].
  all: first [destruct (He eq_refl) as [[x [=]]|H] | destruct (Hs eq_refl) as [[=]|H]]; unfold used; cbn; rewrite ?H; done.
Qed.

Lemma loads_listed l s p : (∀ key, setting l key = setting s key) → loadSettings l p = loadSettings s p.
Proof.
  intros H. assert (∀ key, is_on l key = is_on s key) as Hon.
  { intros key. unfold is_on. specialize (H key). unfold setting in H. apply bool_decide_ext. destruct (l !! js key), (s !! js key); cbn in H; subst; naive_solver. }
  unfold loadSettings, load_texts. by rewrite !Hon, !H.
Qed.

Lemma saved_value s p v key : stored_ok (sp_providers p) s = true → v ∈ panels (loadSettings s p) → key ∈ map fst v →
  ∃ k, k ∈ kinds [] ∧ key = js k.1.1 ∧ store v s !! key = Some (str_or (default [] (s !! key)) (js k.2)) ∧ shown_default key = js k.2.
Proof.
  intros H Hv Hk. assert (NoDup (map fst (concat (panels (loadSettings s p))))) as Hn by (rewrite panel_names; apply names_nodup).
  assert (v ⊆ concat (panels (loadSettings s p))) as Hsub
    by (intros x Hx; apply list_elem_of_In, in_concat; exists v; split; by apply list_elem_of_In).
  assert (NoDup (map fst v)) as Hnv.
  { apply list_elem_of_split in Hv as (l1 & l2 & E). rewrite E, concat_app in Hn. cbn in Hn. rewrite !map_app in Hn.
    apply list.NoDup_app in Hn as (_ & _ & Hn). by apply list.NoDup_app in Hn as (Hn & _ & _). }
  apply list_elem_of_fmap in Hk as ([k x] & -> & Hx). cbn [fst] in *. rewrite (store_in v s k x Hnv Hx).
  pose proof (Hsub _ Hx) as Hin. rewrite (panel_values (sp_providers p)) in Hin by done.
  apply list_elem_of_fmap in Hin as (kd & [= -> ->] & Hkd). assert (∃ k, k ∈ kinds [] ∧ k.1.1 = kd.1.1 ∧ k.2 = kd.2) as (k' & Hk' & E1 & E2).
  { assert ((kd.1.1, kd.2) ∈ map (λ k, (k.1.1, k.2)) (kinds (sp_providers p))) as Hm by (apply list_elem_of_fmap; by exists kd).
    change (map (λ k, (k.1.1, k.2)) (kinds (sp_providers p))) with (map (λ k : string * kind * string, (k.1.1, k.2)) (kinds [])) in Hm.
    apply list_elem_of_fmap in Hm as (k & [= E1 E2] & Hk). by exists k. }
  exists k'. rewrite E1, E2. split_and!; try done. by apply (shown_default_kinds (sp_providers p)).
Qed.

(** C20. Opening the settings and saving a panel without touching it changes
    nothing the server uses, with the exception below.  The server has [s]
    and lists [l], a missing value as an empty one and secrets as their mask;
    the page can show what it has ([stored_ok]: single lines where an input
    holds them, and the provider of the admin sign-in among those loaded).  No
    two panels save the same setting; right after a load what a panel saves
    is, name by name, what was listed, an empty value as the one the panel
    shows for it; and what the server uses is the same before and after.
    Except: where [QG_ACME_EMAIL] or [QG_ACME_STAGING] stands in for a value
    that is not stored, saving the certificates panel stores one and so
    overrides it ([environment_overridden]). *)
Theorem settings_save_identity s l p env : (∀ key, setting l key = setting s key) → stored_ok (sp_providers p) s = true →
  NoDup (map fst (concat (panels (loadSettings l p))))
  ∧ ∀ v key, v ∈ panels (loadSettings l p) →
      store v s !! key = (if decide (key ∈ map fst v) then Some (str_or (default [] (s !! key)) (shown_default key)) else s !! key)
      ∧ ((key = js "acme_email" → is_Some (s !! key) ∨ env_email env = []) →
         (key = js "acme_staging" → truthy (default [] (s !! key)) = true ∨ env_staging env = false) →
         used env key (store v s !! key) = used env key (s !! key)).
Proof.
  intros Hl H. rewrite (loads_listed l s p Hl). split; [rewrite panel_names; apply names_nodup|]. intros v key Hv. case_decide as Hk.
  - destruct (saved_value s p v key H Hv Hk) as (k & Hin & -> & -> & ->). split; [done|]. by apply used_default.
  - by rewrite store_out.
Qed.

(** With nothing stored, saving the certificates panel untouched switches a
    staging server set up by its environment to the production authority,
    and forgets its address. *)
Theorem environment_overridden p email : let s := store (acme_values (loadSettings ∅ p)) ∅ in let env := Environ email true in
  used env (js "acme_staging") None = js "1" ∧ used env (js "acme_staging") (s !! js "acme_staging") = js "0"
  ∧ used env (js "acme_email") None = email ∧ used env (js "acme_email") (s !! js "acme_email") = [].
Proof. split_and!; done. Qed.

(** ** Fields shown for what is on *)

(** The page as it is loaded: everything off. *)
Definition fresh_page : settings_page :=
  SettingsPage (Switches false false false [] [] (js "404"))
    (Texts [] false [] [] [] [] [] [] [] false [] [] [] [] [] [] [] [] [] [] [])
    (Hidden true true true false true true (js "Value")) [] [].

(** What is shown belongs to what is on; of the LDAP fields only when [ldap]. *)
Record disclosed (ldap : bool) (p : settings_page) : Prop := {
  dc_oidc : hi_oidc (sp_hidden p) = negb (sw_oidc (sp_switches p));
  dc_ban : hi_ban (sp_hidden p) = negb (sw_ban (sp_switches p));
  dc_inline : hi_inline (sp_hidden p) = truthy (sw_provider (sp_switches p));
  dc_dns : hi_dns (sp_hidden p) = bool_decide (sw_dns (sp_switches p) = []);
  dc_site : hi_site (sp_hidden p) = bool_decide (sw_site (sp_switches p) = js "404");
  dc_ldap : ldap = true → hi_ldap (sp_hidden p) = negb (sw_ldap (sp_switches p)) }.

Lemma fresh_disclosed : disclosed true fresh_page.
Proof. by constructor. Qed.

Definition is_load (e : settings_event) : bool := match e with SSettings _ => true | _ => false end.
Definition is_sync (p : settings_page) (e : settings_event) : bool :=
  match e with SOidc _ | SLdap _ | SBan _ => true | SProvider v => bool_decide (v ∈ sp_menu p) | _ => false end.

Lemma settings_step_disclosed ldap p e : disclosed ldap p →
  disclosed ((ldap && negb (is_load e)) || is_sync p e) (settings_step p e).
Proof.
  intros [H1 H2 H3 H4 H5 H6].
  destruct e as [[l|]|s|b|b|b|v|v|v|t]; cbn [settings_step is_load is_sync providers_reply]; rewrite ?andb_true_r, ?andb_false_r, ?orb_false_r.
  all: try (constructor; cbn; done).
  all: destruct (decide _) as [Hd|Hd]; [|rewrite ?bool_decide_eq_false_2, ?orb_false_r by done; exact (Build_disclosed _ _ H1 H2 H3 H4 H5 H6)].
  - rewrite bool_decide_eq_true_2 by done. by constructor.
  - by constructor.
  - by constructor.
Qed.

(** The settings page shows the fields of what is switched on and no
    others: after any loads, changes and typing, the single sign-on, auto-ban,
    inline provider, DNS and default-site fields are hidden exactly when
    their switch or menu says so; and so are the LDAP fields once a switch
    was changed after the last load. *)
Theorem settings_disclosure es e : disclosed false (settings_run fresh_page es)
  ∧ (is_sync (settings_run fresh_page es) e = true → disclosed true (settings_run fresh_page (es ++ [e]))).
Proof.
  assert (∀ es p, disclosed false p → disclosed false (settings_run p es)) as Hrun.
  { clear. induction es as [|e es IH]; intros p H; [done|]. apply IH. apply (settings_step_disclosed _ _ e) in H.
    destruct H as [H1 H2 H3 H4 H5 _]. by constructor. }
  assert (disclosed false fresh_page) as H0 by (by constructor). split; [by apply Hrun|].
  intros Hs. unfold settings_run. rewrite fold_left_app. cbn [fold_left]. fold (settings_run fresh_page es).
  pose proof (settings_step_disclosed _ _ e (Hrun es _ H0)) as H. by rewrite Hs, orb_true_r in H.
Qed.

(** The load itself sets the LDAP switch after the fields were shown and
    hidden: opening the settings with LDAP on shows the switch on and its
    fields hidden. *)
Theorem ldap_fields_stay_hidden s : is_on s "ldap_enabled" = true →
  let p := settings_run fresh_page [SSettings s] in
  sw_ldap (sp_switches p) = true ∧ hi_ldap (sp_hidden p) = true
  ∧ hi_ldap (sp_hidden (settings_run p [SSettings s])) = false.
Proof. intros H p. unfold p. cbn. rewrite H. done. Qed.

(** A sign-in provider that is not in the list loaded before the settings is
    dropped by the next save. *)
Lemma admin_provider_dropped s p : setting s "admin_oidc_provider_id" ∉ map js_of_Z (sp_providers p) →
  (js "admin_oidc_provider_id", []) ∈ oidc_values (loadSettings s p).
Proof.
  intros H. assert (sw_provider (sp_switches (loadSettings s p)) = []) as E.
  { cbn. unfold sel_set. case_decide as Hd; [|done]. by apply elem_of_cons in Hd as [->|?]. }
  unfold oidc_values. rewrite E. right. left.
Qed.

(** ** The status line *)

Definition flash_ok (f : flash) : Prop :=
  (fl_timers f = [] ∨ ∃ t, fl_timers f = [t] ∧ fl_timer f = Some t ∧ fl_error f = false)
  ∧ (fl_error f = true → fl_timers f = []).

Lemma flash_step_ok f e : flash_ok f → flash_ok (flash_step f e).
Proof.
  intros [Ht He].
  assert (List.filter (λ t, negb (bool_decide (fl_timer f = Some t))) (fl_timers f) = []) as Hl.
  { destruct Ht as [->|(t & -> & E & _)]; [done|]. cbn. by rewrite bool_decide_eq_true_2. }
  destruct e as [[m|]|id]; cbn [flash_step saved flashStatus fst].
  - rewrite Hl. split; [by left|done].
  - rewrite Hl. split; [right; by eexists|done].
  - case_decide as Hin; [|done]. destruct Ht as [E|(t & E & E' & Ee)]; [by rewrite E in Hin; apply not_elem_of_nil in Hin|].
    rewrite E in Hin |- *. apply list_elem_of_singleton in Hin as ->. cbn. rewrite bool_decide_eq_true_2 by done. by split; [left|].
Qed.

Lemma flash_run_ok es : ∀ f, flash_ok f → flash_ok (flash_run f es).
Proof. induction es as [|e es IH]; intros f H; [done|]. by apply IH, flash_step_ok. Qed.

(** Timers of a line that has none do nothing; of a line that has one, they
    hide it at most. *)
Lemma no_timers f ts : fl_timers f = [] → flash_run f (map FTimer ts) = f.
Proof.
  intros E. induction ts as [|t ts IH]; [done|]. cbn [map flash_run fold_left flash_step]. rewrite E.
  rewrite decide_False by apply not_elem_of_nil. exact IH.
Qed.
Lemma one_timer f own ts : fl_timers f = [own] →
  let g := flash_run f (map FTimer ts) in
  fl_text g = fl_text f ∧ fl_error g = fl_error f ∧ (own ∉ ts → fl_hidden g = fl_hidden f).
Proof.
  intros E. induction ts as [|t ts IH]; [done|]. cbn [map flash_run fold_left flash_step]. rewrite E.
  case_decide as Hin.
  - apply list_elem_of_singleton in Hin as ->. fold (flash_run). cbn [List.filter]. rewrite bool_decide_eq_true_2 by done. cbn [negb].
    match goal with |- context [fold_left flash_step (map FTimer ts) ?g] => pose proof (no_timers g ts eq_refl) as H end.
    unfold flash_run in H. rewrite H. split_and!; try done. intros Hn. exfalso. apply Hn. left.
  - destruct IH as (H1 & H2 & H3). split_and!; [done..|]. intros Hn. apply H3. by apply not_elem_of_cons in Hn as [_ ?].
Qed.

(** A failure stays on the page: whatever was saved before, once a save
    fails its message is shown, as an error, until the next reply, whichever
    timers fire; and a success is shown until its own timer fires, never an
    older one. *)
Theorem save_status_stays es ts :
  (∀ m, let f := flash_run (flash_run no_flash es) (FSaved (Some m) :: map FTimer ts) in
     fl_hidden f = false ∧ fl_text f = m ∧ fl_error f = true)
  ∧ ∃ own, fl_timers (flash_run (flash_run no_flash es) [FSaved None]) = [own]
     ∧ let f := flash_run (flash_run no_flash es) (FSaved None :: map FTimer ts) in
       fl_text f = js "Saved" ∧ fl_error f = false ∧ (own ∉ ts → fl_hidden f = false).
Proof.
  assert (flash_ok (flash_run no_flash es)) as H by (apply flash_run_ok; split; [by left|done]).
  set (f0 := flash_run no_flash es) in *.
  assert (∀ e, flash_run f0 (e :: map FTimer ts) = flash_run (flash_step f0 e) (map FTimer ts)) as Hc by done.
  split; [intros m; rewrite Hc|exists (fl_next f0); rewrite Hc].
  - rewrite no_timers; [done|]. by apply (flash_step_ok f0 (FSaved (Some m)) H).
  - assert (fl_timers (flash_step f0 (FSaved None)) = [fl_next f0]) as E.
    { pose proof (flash_step_ok f0 (FSaved None) H) as [[E|(t & E & [= <-] & _)] _]; [|exact E].
      cbn in E. by destruct (List.filter _ _). }
    split; [exact E|]. destruct (one_timer _ _ ts E) as (E1 & E2 & Hh). cbv zeta. rewrite E1, E2.
    split_and!; [done..|]. intros Hn. by rewrite Hh.
Qed.

(** ** The properties at concrete inputs *)

Definition some_settings : server_settings := list_to_map (map (λ kv, (js kv.1, js kv.2))
  [("oidc_enabled", "1"); ("admin_oidc_provider_id", "7"); ("oidc_client_secret", "********"); ("acme_dns_provider", "transip");
   ("acme_dns_config", "********"); ("ban_threshold", "10"); ("default_site", "redirect"); ("default_site_value", "https://a.example/");
   ("trusted_proxies", "10.0.0.0/8"); ("ldap_enabled", "1")]%string).
Definition with_provider : settings_page := settings_run fresh_page [SProviders (Some [7])].

Lemma settings_save_identity_witness :
  stored_ok (sp_providers with_provider) some_settings = true
  ∧ store (oidc_values (loadSettings some_settings with_provider)) some_settings !! js "oidc_client_secret" = Some (js "********")
  ∧ NoDup (map fst (concat (panels (loadSettings some_settings with_provider))))
  ∧ used (Environ [] true) (js "ban_window_sec") (store (ban_values (loadSettings some_settings with_provider)) some_settings !! js "ban_window_sec")
    = js "300".
Proof.
  assert (stored_ok (sp_providers with_provider) some_settings = true) as H by by_compute.
  destruct (settings_save_identity some_settings some_settings with_provider (Environ [] true) (λ _, eq_refl) H) as [H1 H2].
  split; [exact H|]. split; [by_compute|]. split; [exact H1|].
  destruct (H2 (ban_values (loadSettings some_settings with_provider)) (js "ban_window_sec")) as [_ E].
  - right. right. right. left.
  - etransitivity; [apply E|]; [discriminate|discriminate|by_compute].
Defined.

Lemma ldap_fields_stay_hidden_witness :
  is_on some_settings "ldap_enabled" = true ∧ hi_ldap (sp_hidden (settings_run fresh_page [SSettings some_settings])) = true.
Proof.
  assert (is_on some_settings "ldap_enabled" = true) as H by by_compute. split; [exact H|].
  exact (proj1 (proj2 (ldap_fields_stay_hidden some_settings H))).
Defined.
