(* ===== verification/Account.v ===== *)
(** * Signing in, and the account page (web/app.js)

    The three views and the replies that switch between them: signing in with
    a password and a second factor, the forced change of the first password,
    signing out; and the account page: e-mail, password, the second factor,
    API tokens, and ending sessions.  The pages behind the views are those of
    Router.  [toUpperCase] is the locale's. *)

From Stdlib Require Import Ascii String ZArith NArith Lia.
From stdpp Require Import base list gmap strings numbers.
From S2P Require Import Prelude JsString Regex Fields Router Settings.

Local Open Scope Z_scope.

(** ** The account as the page shows it *)

Record me : Type := Me { me_email : jstr; me_version : jstr; me_must_change : bool; me_totp_required : bool }.

Definition name_sep (c : N) : bool := cls_of "._-" c.
Definition account_name (email : jstr) : jstr :=
  default [] (head (split_ch (ch "@") (if starts_with (js "ldap:") email then drop 5 email else email))).
Definition initials (toUpperCase : jstr → jstr) (email : jstr) : jstr :=
  let name := account_name email in
  let letters := match words_by name_sep name with a :: b :: _ => take 1 a ++ take 1 b | _ => take 2 name end in
  toUpperCase (str_or letters (js "?")).
Definition version_text (v : jstr) : jstr :=
  js "quicgate " ++ (if starts_with (js "v") v || starts_with (js "dev") v then v else js "v" ++ v).

(** ** Signing in *)

Inductive sign_request : Type := GMe | GLogin (email password code : jstr) | GPassword (current new : jstr) | GLogout.
Inductive sign_job : Type := GJMe | GJLogin | GJPassword | GJLogout.
Inductive sign_reply : Type := GIs (m : me) | GOk | GNo (message : jstr).

(** [sg_code] is the field of the second factor, which the page gets once it
    is asked for. *)
Record signin : Type := Signin {
  sg_ui : ui; sg_email : jstr; sg_password : jstr; sg_code : option jstr; sg_error : option jstr; sg_current : jstr; sg_new : jstr;
  sg_pw_error : option jstr; sg_account : jstr; sg_version : jstr; sg_jobs : list sign_job; sg_sent : list sign_request }.

Definition sign_ui (u : ui) (s : signin) : signin :=
  Signin u (sg_email s) (sg_password s) (sg_code s) (sg_error s) (sg_current s) (sg_new s) (sg_pw_error s) (sg_account s) (sg_version s)
    (sg_jobs s) (sg_sent s).
Definition sign_send (q : sign_request) (j : sign_job) (s : signin) : signin :=
  Signin (sg_ui s) (sg_email s) (sg_password s) (sg_code s) (sg_error s) (sg_current s) (sg_new s) (sg_pw_error s) (sg_account s)
    (sg_version s) (sg_jobs s ++ [j]) (sg_sent s ++ [q]).
Definition sign_jobs (l : list sign_job) (s : signin) : signin :=
  Signin (sg_ui s) (sg_email s) (sg_password s) (sg_code s) (sg_error s) (sg_current s) (sg_new s) (sg_pw_error s) (sg_account s)
    (sg_version s) l (sg_sent s).
Definition sign_error (e : option jstr) (s : signin) : signin :=
  Signin (sg_ui s) (sg_email s) (sg_password s) (sg_code s) e (sg_current s) (sg_new s) (sg_pw_error s) (sg_account s) (sg_version s)
    (sg_jobs s) (sg_sent s).
Definition pw_error (e : option jstr) (s : signin) : signin :=
  Signin (sg_ui s) (sg_email s) (sg_password s) (sg_code s) (sg_error s) (sg_current s) (sg_new s) e (sg_account s) (sg_version s)
    (sg_jobs s) (sg_sent s).
Definition sign_type (email password code : jstr) (s : signin) : signin :=
  Signin (sg_ui s) (text_set email) (text_set password) (option_map (λ _, text_set code) (sg_code s)) (sg_error s) (sg_current s) (sg_new s)
    (sg_pw_error s) (sg_account s) (sg_version s) (sg_jobs s) (sg_sent s).
Definition pw_type (current new : jstr) (s : signin) : signin :=
  Signin (sg_ui s) (sg_email s) (sg_password s) (sg_code s) (sg_error s) (text_set current) (text_set new) (sg_pw_error s) (sg_account s)
    (sg_version s) (sg_jobs s) (sg_sent s).

(** [showAccountEmail] and the version, then the view and the page of the
    address; and whether it ran to its end: [switchPage] throws at the
    address of a property every object has. *)
Definition address_opens (hash : jstr) : bool := bool_decide (ok_hash hash).
Definition afterLogin (m : me) (s : signin) : signin * bool :=
  (Signin (rstep (sg_ui s) (ELogin (me_must_change m))) (sg_email s) (sg_password s) (sg_code s) (sg_error s) (sg_current s) (sg_new s)
    (sg_pw_error s) (me_email m) (if truthy (me_version m) then version_text (me_version m) else sg_version s) (sg_jobs s) (sg_sent s),
   me_must_change m || address_opens (u_hash (sg_ui s))).
(** The login form: the field of the second factor appears when the server
    asks for it, and stays. *)
Definition ask_code (s : signin) : signin :=
  Signin (sg_ui s) (sg_email s) (sg_password s) (Some (default [] (sg_code s))) (Some (js "Enter your 2FA code.")) (sg_current s) (sg_new s)
    (sg_pw_error s) (sg_account s) (sg_version s) (sg_jobs s) (sg_sent s).
Definition login_submit (s : signin) : signin :=
  let s := sign_error None s in
  sign_send (GLogin (sg_email s) (sg_password s) (match sg_code s with Some c => trim c | None => [] end)) GJLogin s.
Definition password_submit (s : signin) : signin :=
  let s := pw_error None s in sign_send (GPassword (sg_current s) (sg_new s)) GJPassword s.

Section signing.
(** [exception_text]: what the browser says of the exception. *)
Context (exception_text : jstr).

(** The [catch] of [boot] shows the sign-in form, that of the form the
    error. *)
Definition sign_continue (j : sign_job) (r : sign_reply) (s : signin) : signin :=
  match j, r with
  | GJMe, GIs m => let '(s, ran) := afterLogin m s in if ran then s else sign_ui (show (js "view-login") (sg_ui s)) s
  | GJMe, _ => sign_ui (show (js "view-login") (sg_ui s)) s
  | GJLogin, GIs m => if me_totp_required m then ask_code s else let '(s, ran) := afterLogin m s in if ran then s else sign_error (Some exception_text) s
  | GJLogin, GNo m => sign_error (Some m) s
  | GJPassword, GOk => sign_ui (rstep (sg_ui s) EPassword) s
  | GJPassword, GNo m => pw_error (Some m) s
  (* [.catch(() => {})]: a sign-out that failed goes on as one that did not *)
  | GJLogout, _ => sign_ui (rstep (sg_ui s) ELogout) s
  | _, _ => s
  end.

Definition view_shown (v : string) (u : ui) : bool := bool_decide ((js v, false) ∈ u_views u).
Inductive sign_event : Type :=
  | GBoot | GType (email password code : jstr) | GSubmit | GTypePw (current new : jstr) | GSubmitPw | GSignOut
  | GClick (e : revent)             (* on the pages: any event of Router that is not a reply *)
  | GReply (i : nat) (r : sign_reply).
Definition is_nav (e : revent) : bool := match e with ELogin _ | EPassword | ELogout => false | _ => true end.
Definition sign_step (s : signin) (e : sign_event) : signin :=
  match e with
  | GBoot => sign_send GMe GJMe s
  | GType email password code => if view_shown "view-login" (sg_ui s) then sign_type email password code s else s
  | GSubmit => if view_shown "view-login" (sg_ui s) then login_submit s else s
  | GTypePw current new => if view_shown "view-password" (sg_ui s) then pw_type current new s else s
  | GSubmitPw => if view_shown "view-password" (sg_ui s) then password_submit s else s
  | GSignOut => if view_shown "view-app" (sg_ui s) then sign_send GLogout GJLogout s else s
  | GClick e => if is_nav e then sign_ui (rstep (sg_ui s) e) s else s
  | GReply i r =>
      match sg_jobs s !! i with
      | Some j => sign_continue j r (sign_jobs (delete i (sg_jobs s)) s)
      | None => s
      end
  end.
Definition sign_run (s : signin) (es : list sign_event) : signin := fold_left sign_step es s.
(** The page as it is loaded, at an address. *)
Definition sign_start (hash : jstr) : signin := Signin (loaded_at [] hash []) [] [] None None [] [] None [] [] [] [].

(** ** Which view is shown *)

(** The view a reply brings, when it brings one. *)
Definition brings (s : signin) (e : sign_event) : option string :=
  match e with
  | GReply i r =>
      match sg_jobs s !! i, r with
      | Some GJMe, GIs m =>
          Some (if me_must_change m then "view-password" else if address_opens (u_hash (sg_ui s)) then "view-app" else "view-login")
      | Some GJMe, _ => Some "view-login"
      | Some GJLogin, GIs m => if me_totp_required m then None else Some (if me_must_change m then "view-password" else "view-app")
      | Some GJPassword, GOk => Some "view-app"
      | Some GJLogout, _ => Some "view-login"
      | _, _ => None
      end
  | _ => None
  end%string.
Fixpoint brought (s : signin) (es : list sign_event) (v : option string) : option string :=
  match es with
  | [] => v
  | e :: es => brought (sign_step s e) es (match brings s e with Some v => Some v | None => v end)
  end.

Lemma setRoute_views h r u : u_views (setRoute h r u) = u_views u.
Proof. unfold setRoute. case_decide; [done|]. by destruct r. Qed.
Lemma showSection_views page section u u' : showSection page section u = Some u' → u_views u' = u_views u.
Proof. unfold showSection. destruct (sectionNavs page); [|done]. by intros [= <-]. Qed.
Lemma switchPage_views name section replace u : u_views (switchPage name section replace u).1 = u_views u.
Proof.
  unfold switchPage. destruct (bool_decide _); [|by cbn; rewrite setRoute_views].
  destruct (showSection _ _ _) as [u2|] eqn:E; [|done]. cbn. rewrite setRoute_views. by apply showSection_views in E.
Qed.
Lemma restore_views u : u_views (restore u) = u_views u.
Proof. unfold restore. destruct (routeFromHash _) as [p so]. apply switchPage_views. Qed.
Lemma nav_views e u : is_nav e = true → u_views (rstep u e) = u_views u.
Proof.
  assert (∀ v, u_views (popstate v) = u_views v) as Hp by (intros v; unfold popstate; destruct (app_hidden v); [done|apply restore_views]).
  destruct e as [page section|page section|m| | | | |h]; cbn [is_nav rstep]; try done; intros _.
  - destruct (app_hidden u); [done|]. apply switchPage_views.
  - destruct (_ || _); [done|]. destruct (showSection _ _ _) eqn:E; [|done]. rewrite setRoute_views. by apply showSection_views in E.
  - destruct (u_back u); [done|]. by rewrite Hp.
  - destruct (u_fwd u); [done|]. by rewrite Hp.
  - rewrite Hp. by case_decide.
Qed.

(** The views of the page are those of [show] for what was brought last. *)
Definition views_of (v : option string) : flags := match v with Some v => hide_others views (js v) | None => hide_others views [] end.

Lemma sign_step_views s e v : u_views (sg_ui s) = views_of v →
  u_views (sg_ui (sign_step s e)) = views_of (match brings s e with Some w => Some w | None => v end).
Proof.
  intros H. destruct e as [|email password code| |current new| | |e|i r]; cbn [sign_step brings].
  - exact H.
  - by destruct (view_shown _ _).
  - by destruct (view_shown _ _).
  - by destruct (view_shown _ _).
  - by destruct (view_shown _ _).
  - by destruct (view_shown _ _).
  - destruct (is_nav e) eqn:E; [|done]. cbn. by rewrite nav_views.
  - destruct (sg_jobs s !! i) as [j|]; [|done].
    destruct j, r as [m| |m]; cbn [sign_continue]; try exact H; try done.
    + unfold afterLogin. cbn [sg_ui sign_jobs]. destruct (me_must_change m); [done|]. cbn [orb].
      destruct (address_opens _); [|done]. cbn [sg_ui rstep]. by rewrite restore_views.
    + destruct (me_totp_required m); [exact H|]. unfold afterLogin. cbn [sg_ui sign_jobs].
      destruct (me_must_change m); [done|]. cbn [orb]. destruct (address_opens _); cbn [sg_ui sign_error rstep]; by rewrite restore_views.
    + cbn [sg_ui sign_ui rstep]. by rewrite switchPage_views.
Qed.

Lemma sign_run_views es : ∀ s v, u_views (sg_ui s) = views_of v → u_views (sg_ui (sign_run s es)) = views_of (brought s es v).
Proof.
  unfold sign_run. induction es as [|e es IH]; intros s v H; [done|]. cbn [fold_left brought]. by apply IH, sign_step_views.
Qed.

Lemma js_inj a b : js a = js b → a = b.
Proof.
  unfold js. intros H. apply (f_equal (map ascii_of_N)) in H. rewrite !map_map in H.
  rewrite !(map_ext _ id ascii_N_embedding), !map_id in H. apply (f_equal string_of_list_ascii) in H.
  by rewrite !string_of_list_ascii_of_string in H.
Qed.

Lemma views_shown v w : w ∈ ["view-login"; "view-password"; "view-app"]%string →
  bool_decide ((js w, false) ∈ views_of v) = bool_decide (v = Some w).
Proof.
  assert (∀ s, bool_decide ((js w, false) ∈ hide_others views s) = bool_decide (js w ∈ views ∧ s = js w)) as E.
  { intros s. apply bool_decide_ext. unfold hide_others. rewrite list_elem_of_fmap. split.
    - intros (x & [= <- Hb] & Hin). split; [done|]. symmetry in Hb. apply negb_false_iff, bool_decide_eq_true in Hb. done.
    - intros [Hin ->]. exists (js w). split; [|done]. by rewrite bool_decide_true. }
  intros Hw. assert (js w ∈ views) as Hin by (apply list_elem_of_fmap; by exists w).
  unfold views_of. destruct v as [v|]; rewrite E; apply bool_decide_ext.
  - split; [intros [_ H%js_inj]; by subst|]. intros [= ->]. done.
  - split; [|done]. intros [_ H]. exfalso. repeat (apply elem_of_cons in Hw as [->|Hw]; [done|]). by apply not_elem_of_nil in Hw.
Qed.

(** [switchPage] throws exactly there. *)
Lemma address_opens_page u : address_opens (u_hash u) = let '(page, section) := routeFromHash (u_hash u) in (switchPage page section true u).2.
Proof.
  unfold address_opens, ok_hash. destruct (routeFromHash (u_hash u)) as [page section]. cbn [fst]. unfold switchPage.
  assert (js "overview" ∉ object_proto) as Ho by (apply (bool_decide_unpack _); by_compute).
  destruct (decide (page ∈ object_proto)) as [Hp|Hp].
  - assert (has_loader page = true) as -> by (apply bool_decide_eq_true; by right). rewrite bool_decide_false by tauto.
    rewrite bool_decide_true by (by right). unfold showSection.
    assert (∀ n, n ∈ object_proto → sectionNavs n = None) as Hn; [|by rewrite Hn].
    apply list.Forall_forall. apply (bool_decide_unpack _). by_compute.
  - rewrite bool_decide_true by done. set (name := if has_loader page then page else js "overview").
    assert (name ∉ object_proto) as Hn by (unfold name; by destruct (has_loader page)).
    destruct (bool_decide_reflect (is_Some (sectionNavs name) ∨ name ∈ object_proto)) as [[Hs|Hs]|_]; [|done|done].
    unfold showSection. by destruct (sectionNavs name); [|destruct Hs].
Qed.

(** C15. Which view is shown is decided by the replies alone: whatever the user
    types, clicks or navigates to, in whatever order the replies arrive,
    exactly the view of the last reply that brings one is shown, and none
    before the first.  So the admin pages are shown only after the server
    said who is signed in with nothing left to ask, or took the new password,
    and no reply since asked for a sign-in, for the new password, or ended
    the session.  One reply brings another view than the server's answer
    says: at an address that names a property every object has
    ([#/constructor]) loading the page shows the sign-in form to who is
    signed in, [switchPage] having thrown. *)
Theorem view_follows_replies hash es w (s := sign_run (sign_start hash) es) :
  w ∈ ["view-login"; "view-password"; "view-app"]%string →
  view_shown w (sg_ui s) = bool_decide (brought (sign_start hash) es None = Some w)
  ∧ (brought (sign_start hash) es None = None → app_hidden (sg_ui s) = true).
Proof.
  intros Hw. pose proof (sign_run_views es (sign_start hash) None eq_refl) as E. fold s in E. split.
  - unfold view_shown. rewrite E. by apply views_shown.
  - intros Hb. rewrite Hb in E. unfold app_hidden. rewrite E. by_compute.
Qed.

(** Signing out leaves the sign-in form as it was filled in: whether the
    server ended the session or not, the form is shown with the address, the
    password and the code still in it, and its button signs in again. *)
Theorem sign_out_keeps_password s r : view_shown "view-app" (sg_ui s) = true → sg_jobs s = [] →
  let s' := sign_run s [GSignOut; GReply 0 r] in
  view_shown "view-login" (sg_ui s') = true ∧ sg_password s' = sg_password s
  ∧ sg_sent (sign_step s' GSubmit)
    = sg_sent s ++ [GLogout; GLogin (sg_email s) (sg_password s) (match sg_code s with Some c => trim c | None => [] end)].
Proof.
  intros Hv Hj. cbn [sign_run fold_left sign_step]. rewrite Hv. cbn [sign_send sg_jobs]. rewrite Hj.
  assert (∀ u, view_shown "view-login" (show (js "view-login") u) = true) as Hl by (intros; by_compute).
  destruct r; cbn [app lookup list_lookup delete list_delete sign_jobs sign_continue sign_ui sg_ui rstep sg_password sg_jobs];
    (split; [apply Hl|]); (split; [done|]); rewrite Hl; cbn; by rewrite <- app_assoc.
Qed.

End signing.

(** ** The second factor *)

Inductive twofa_request : Type := TMe | TSetup | TEnable (secret : option jstr) (code password : jstr) | TDisable (password : jstr).
Inductive twofa_reply : Type := TIs (enabled : bool) | TSecret (s : jstr) | TDone | TNo (message : jstr).

(** [tf_enabled]: which button is shown, none before the first answer. *)
Record twofa : Type := Twofa {
  tf_enabled : option bool; tf_setup_hidden : bool; tf_disable_hidden : bool; tf_secret : jstr; pending2FASecret : option jstr;
  tf_code : jstr; tf_password : jstr; tf_disable_password : jstr; tf_error : option jstr; tf_jobs : list twofa_request;
  tf_sent : list twofa_request }.

Definition tf_send (q : twofa_request) (t : twofa) : twofa :=
  Twofa (tf_enabled t) (tf_setup_hidden t) (tf_disable_hidden t) (tf_secret t) (pending2FASecret t) (tf_code t) (tf_password t)
    (tf_disable_password t) (tf_error t) (tf_jobs t ++ [q]) (tf_sent t ++ [q]).
Definition tf_set_error (e : option jstr) (t : twofa) : twofa :=
  Twofa (tf_enabled t) (tf_setup_hidden t) (tf_disable_hidden t) (tf_secret t) (pending2FASecret t) (tf_code t) (tf_password t)
    (tf_disable_password t) e (tf_jobs t) (tf_sent t).
Definition tf_set_jobs (l : list twofa_request) (t : twofa) : twofa :=
  Twofa (tf_enabled t) (tf_setup_hidden t) (tf_disable_hidden t) (tf_secret t) (pending2FASecret t) (tf_code t) (tf_password t)
    (tf_disable_password t) (tf_error t) l (tf_sent t).
Definition tf_type (code password disable : jstr) (t : twofa) : twofa :=
  Twofa (tf_enabled t) (tf_setup_hidden t) (tf_disable_hidden t) (tf_secret t) (pending2FASecret t) code password disable (tf_error t)
    (tf_jobs t) (tf_sent t).

(** [refresh2FA] from its reply on. *)
Definition refresh2FA (enabled : bool) (t : twofa) : twofa :=
  Twofa (Some enabled) true true (tf_secret t) (pending2FASecret t) (tf_code t) (tf_password t) (tf_disable_password t) None
    (tf_jobs t) (tf_sent t).
(** The reply of a setup. *)
Definition setup_reply (secret : jstr) (t : twofa) : twofa :=
  Twofa (tf_enabled t) false (tf_disable_hidden t) secret (Some secret) (tf_code t) (tf_password t) (tf_disable_password t) (tf_error t)
    (tf_jobs t) (tf_sent t).
Definition ask_disable (t : twofa) : twofa :=
  Twofa (tf_enabled t) (tf_setup_hidden t) false (tf_secret t) (pending2FASecret t) (tf_code t) (tf_password t) (tf_disable_password t)
    (tf_error t) (tf_jobs t) (tf_sent t).

Inductive twofa_event : Type :=
  | TOpenPage | TEnableClick | TDisableClick | TTyped (code password disable : jstr) | TConfirm | TConfirmDisable
  | TReply (i : nat) (r : twofa_reply).
Definition tf_answers (q : twofa_request) (r : twofa_reply) : bool :=
  match q, r with
  | _, TNo _ | TMe, TIs _ | TSetup, TSecret _ | TEnable _ _ _, TDone | TDisable _, TDone => true
  | _, _ => false
  end.
Definition tf_continue (q : twofa_request) (r : twofa_reply) (t : twofa) : twofa :=
  match q, r with
  | TMe, TIs b => refresh2FA b t
  | TSetup, TSecret s => setup_reply s t
  | TEnable _ _ _, TDone => tf_send TMe (tf_type [] [] (tf_disable_password t) t)
  | TDisable _, TDone => tf_send TMe (tf_type (tf_code t) (tf_password t) [] t)
  | TEnable _ _ _, TNo m | TDisable _, TNo m => tf_set_error (Some m) t
  | _, _ => t
  end.
Definition tf_step (t : twofa) (e : twofa_event) : twofa :=
  match e with
  | TOpenPage => tf_send TMe t
  | TEnableClick => if bool_decide (tf_enabled t = Some false) then tf_send TSetup t else t
  | TDisableClick => if bool_decide (tf_enabled t = Some true) then ask_disable t else t
  | TTyped code password disable => tf_type (text_set code) (text_set password) (text_set disable) t
  | TConfirm =>
      if tf_setup_hidden t then t
      else let t := tf_set_error None t in tf_send (TEnable (pending2FASecret t) (trim (tf_code t)) (tf_password t)) t
  | TConfirmDisable =>
      if tf_disable_hidden t then t else let t := tf_set_error None t in tf_send (TDisable (tf_disable_password t)) t
  | TReply i r =>
      match tf_jobs t !! i with
      | Some q => if tf_answers q r then tf_continue q r (tf_set_jobs (delete i (tf_jobs t)) t) else t
      | None => t
      end
  end.
Definition tf_run (t : twofa) (es : list twofa_event) : twofa := fold_left tf_step es t.
Definition twofa_html : twofa := Twofa None true true [] None [] [] [] None [] [].

(** The secrets the server made for a setup. *)
Definition secrets_of (es : list twofa_event) : list jstr :=
  omap (λ e, match e with TReply _ (TSecret s) => Some s | _ => None end) es.

Record tf_ok (secrets : list jstr) (t : twofa) : Prop := {
  to_pending : ∀ s, pending2FASecret t = Some s → tf_secret t = s ∧ s ∈ secrets;
  to_setup : tf_setup_hidden t = false → is_Some (pending2FASecret t);
  to_sent : ∀ s code password, TEnable s code password ∈ tf_sent t → ∃ s', s = Some s' ∧ s' ∈ secrets }.

Lemma tf_step_ok secrets t e : tf_ok secrets t → tf_ok (secrets ++ secrets_of [e]) (tf_step t e).
Proof.
  intros [H1 H2 H3].
  assert (tf_ok (secrets ++ secrets_of [e]) t) as H.
  { constructor; [|done|].
    - intros s Hs. destruct (H1 s Hs). split; [done|]. apply elem_of_app. by left.
    - intros s code pw Hs. destruct (H3 s code pw Hs) as (s' & -> & ?). exists s'. split; [done|]. apply elem_of_app. by left. }
  assert (∀ q u, tf_ok (secrets ++ secrets_of [e]) u → (∀ s c p, q ≠ TEnable s c p) → tf_ok (secrets ++ secrets_of [e]) (tf_send q u)) as Hsend.
  { intros q u [U1 U2 U3] Hq. constructor; [done..|]. cbn. intros s c p [Hin|Hin%list_elem_of_singleton]%elem_of_app; [by eapply U3|].
    by destruct (Hq s c p). }
  clear H1 H2 H3. destruct e as [| | |code pw dis| | |i r]; cbn [tf_step].
  - by apply Hsend.
  - case_bool_decide; [by apply Hsend|done].
  - case_bool_decide; [by destruct H|done].
  - by destruct H.
  - destruct (tf_setup_hidden t) eqn:E; [done|]. destruct H as [H1 H2 H3]. constructor; [done..|]. cbn.
    intros s c p [Hin|Hin%list_elem_of_singleton]%elem_of_app; [by eapply H3|]. injection Hin as -> _ _.
    destruct (H2 E) as [s Hs]. exists s. split; [done|]. by apply H1.
  - destruct (tf_disable_hidden t); [done|]. apply Hsend; [by destruct H|done].
  - destruct (tf_jobs t !! i) as [q|]; [|done]. destruct (tf_answers q r) eqn:Ea; [|done].
    assert (tf_ok (secrets ++ secrets_of [TReply i r]) (tf_set_jobs (delete i (tf_jobs t)) t)) as H' by (by destruct H).
    destruct q as [| |s c p|p], r as [b|s'| |m]; try done; cbn [tf_continue].
    + by destruct H'.
    + destruct H' as [H1 H2 H3]. constructor; [|done..]. cbn. intros x [= <-]. split; [done|]. apply elem_of_app. right. by left.
    + apply Hsend; [by destruct H'|done].
    + by destruct H'.
    + apply Hsend; [by destruct H'|done].
    + by destruct H'.
Qed.

Lemma tf_run_ok es : ∀ secrets t, tf_ok secrets t → tf_ok (secrets ++ secrets_of es) (tf_run t es).
Proof.
  induction es as [|e es IH]; intros secrets t H; [by rewrite app_nil_r|]. apply (tf_step_ok _ _ e), IH in H.
  unfold tf_run in *. cbn [fold_left]. replace (secrets ++ secrets_of (e :: es)) with ((secrets ++ secrets_of [e]) ++ secrets_of es); [done|].
  rewrite <- app_assoc. f_equal. change (e :: es) with ([e] ++ es). unfold secrets_of. by rewrite omap_app.
Qed.

(** C38. Setting up the second factor: in any session, with the replies in any
    order, the form is shown only with a secret in it, the secret it confirms
    is the one it shows, and every secret ever sent to be confirmed is one the
    server made for a setup; a confirmation that failed keeps what was typed
    and says why, one that worked clears the code and the password. *)
Theorem twofa_confirms_shown es (t := tf_run twofa_html es) :
  (tf_setup_hidden t = false → pending2FASecret t = Some (tf_secret t))
  ∧ (∀ s code password, TEnable s code password ∈ tf_sent t → ∃ s', s = Some s' ∧ s' ∈ secrets_of es)
  ∧ (∀ i s code password, tf_jobs t !! i = Some (TEnable s code password) →
       (∀ m, let t' := tf_step t (TReply i (TNo m)) in
          tf_error t' = Some m ∧ tf_code t' = tf_code t ∧ tf_password t' = tf_password t ∧ tf_setup_hidden t' = tf_setup_hidden t)
       ∧ let t' := tf_step t (TReply i TDone) in tf_code t' = [] ∧ tf_password t' = [] ∧ TMe ∈ tf_jobs t').
Proof.
  assert (tf_ok [] twofa_html) as H0 by (constructor; [done..|]; by intros s c p ?%not_elem_of_nil).
  apply (tf_run_ok es) in H0 as [H1 H2 H3]. fold t in H1, H2, H3. split; [|split; [done|]].
  - intros Hs. destruct (H2 Hs) as [s E]. destruct (H1 s E) as [-> _]. done.
  - intros i s c p Hj. split; [intros m|]; cbn [tf_step]; rewrite Hj; cbn; [done|]. split; [done|]. split; [done|].
    apply elem_of_app. right. by left.
Qed.

(** ** Profile, tokens and sessions *)

(** The e-mail form and the password form: what they send, and what a reply
    leaves in them and in their status line. *)
Record profile : Type := Profile { pr_email : jstr; pr_password : jstr; pr_current : jstr; pr_new : jstr; pr_account : jstr; pr_status : flash }.
Inductive profile_request : Type := PrEmail (email password : jstr) | PrPassword (current new : jstr).
Definition email_submit (p : profile) : profile_request := PrEmail (trim (pr_email p)) (pr_password p).
Definition newpw_submit (p : profile) : profile_request := PrPassword (pr_current p) (pr_new p).
Definition profile_reply (q : profile_request) (r : jstr + jstr) (p : profile) : profile :=
  match q, r with
  | PrEmail _ _, inl email =>
      Profile (text_set email) [] (pr_current p) (pr_new p) email
        (flashStatus (js "Email updated: sign in with " ++ email ++ js " from now on") false (pr_status p))
  | PrPassword _ _, inl _ => Profile (pr_email p) (pr_password p) [] [] (pr_account p) (flashStatus (js "Password updated") false (pr_status p))
  | _, inr m => Profile (pr_email p) (pr_password p) (pr_current p) (pr_new p) (pr_account p) (flashStatus m true (pr_status p))
  end.
Definition new_token_text (token : jstr) : jstr := js "New token (copy now, shown once): " ++ token.
Definition revoked_text (r : Z + jstr) : jstr :=
  match r with
  | inl n => js "Signed out " ++ js_of_Z n ++ js " other session" ++ (if n =? 1 then [] else js "s") ++ js "."
  | inr m => js "Failed: " ++ m
  end.
Definition sso_text (r : option jstr) : jstr :=
  match r with None => js "The SSO signing key was replaced; every SSO session has ended." | Some m => js "Failed: " ++ m end.

(** No password outlives the change it was typed for. *)
Lemma profile_clears q p email : let p' := profile_reply q (inl email) p in
  match q with PrEmail _ _ => pr_password p' = [] | PrPassword _ _ => pr_current p' = [] ∧ pr_new p' = [] end
  ∧ fl_hidden (pr_status p') = false ∧ fl_error (pr_status p') = false.
Proof. by destruct q. Qed.

(** An avatar has one or two letters. *)
Lemma initials_length email : (1 <= length (initials id email) <= 2)%nat.
Proof.
  assert (∀ l : jstr, (length l <= 2)%nat → (1 <= length (id (str_or l (js "?"))) <= 2)%nat) as H.
  { intros l Hl. unfold id. destruct l; cbn [str_or] in *; [split; apply Nat.leb_le; by_compute|cbn in *; lia]. }
  unfold initials. apply H. destruct (words_by _ _) as [|a [|b l]]; rewrite ?length_app, !length_take; lia.
Qed.

(** ** The properties at concrete inputs *)

Definition admin : me := Me (js "ann@example.com") (js "1.4.0") false false.
Definition ann_signs_in : list sign_event :=
  [GBoot; GReply 0 (GNo (js "unauthorized")); GType (js "ann@example.com") (js "hunter2") []; GSubmit;
   GReply 0 (GIs (Me (js "ann@example.com") [] false true)); GType (js "ann@example.com") (js "hunter2") (js " 123456"); GSubmit;
   GReply 0 (GIs admin); GClick (EGoto (js "vpn") None)].
Definition ann_signed_in : signin := sign_run (js "error") (sign_start (js "#/logs")) ann_signs_in.

Lemma view_follows_replies_witness :
  "view-app"%string ∈ ["view-login"; "view-password"; "view-app"]%string
  ∧ view_shown "view-app" (sg_ui ann_signed_in) = true
  ∧ u_hash (sg_ui ann_signed_in) = js "#/vpn" ∧ sg_version ann_signed_in = js "quicgate v1.4.0".
Proof.
  assert ("view-app"%string ∈ ["view-login"; "view-password"; "view-app"]%string) as H by (right; right; left).
  split; [exact H|]. split; [|split; by_compute].
  etransitivity; [exact (proj1 (view_follows_replies (js "error") (js "#/logs") ann_signs_in "view-app" H))|]. by_compute.
Defined.

Lemma sign_out_keeps_password_witness :
  view_shown "view-app" (sg_ui ann_signed_in) = true ∧ sg_jobs ann_signed_in = []
  ∧ sg_sent (sign_run (js "error") ann_signed_in [GSignOut; GReply 0 (GNo (js "network")); GSubmit])
    = [GMe; GLogin (js "ann@example.com") (js "hunter2") []; GLogin (js "ann@example.com") (js "hunter2") (js "123456"); GLogout;
       GLogin (js "ann@example.com") (js "hunter2") (js "123456")].
Proof.
  assert (view_shown "view-app" (sg_ui ann_signed_in) = true) as H1 by by_compute.
  assert (sg_jobs ann_signed_in = []) as H2 by by_compute. split; [exact H1|]. split; [exact H2|].
  etransitivity; [exact (proj2 (proj2 (sign_out_keeps_password (js "error") ann_signed_in (GNo (js "network")) H1 H2)))|]. by_compute.
Defined.

(** At the address of an inherited name, who is signed in is shown the
    sign-in form, and signing in again the admin view without a page, its
    error in the form that is no longer shown. *)
Example constructor_address :
  let es := [GBoot; GReply 0 (GIs admin)] in
  let more := [GType (js "ann@example.com") (js "hunter2") []; GSubmit; GReply 0 (GIs admin)] in
  let s := sign_run (js "error") (sign_start (js "#/constructor")) es in let s' := sign_run (js "error") s more in
  view_shown "view-login" (sg_ui s) = true ∧ view_shown "view-app" (sg_ui s) = false
  ∧ view_shown "view-app" (sg_ui s') = true ∧ sg_error s' = Some (js "error") ∧ shown_of (u_pages (sg_ui s')) = [].
Proof. split_and!; by_compute. Qed.
