(* ===== verification/Policies.v ===== *)
(** * VPN settings and LAN policies (web/app.js, VPN page)

    The forms of the VPN page: the endpoint, the leases, the access to the
    LAN, and the editor of the policies that say who reaches what there.  A
    policy is a subject, picked with the picker of Subjects, and routes, the
    rows of Fields; the replies of the editor come in any order. *)

From Stdlib Require Import Ascii String ZArith NArith Lia.
From stdpp Require Import base list gmap strings numbers.
From S2P Require Import Prelude JsString Regex Fields Subjects Settings.

Local Open Scope Z_scope.

(** ** The forms *)

(** The endpoint's form and the locks of its network: a network in use cannot
    be changed.  [refreshVPN] first locks it for the sites alone, and again
    once the devices are there. *)
Record wg_form : Type := WgForm {
  wf_enabled : bool; wf_port : jstr; wf_endpoint : jstr; wf_network : jstr; wf_network_disabled : bool; wf_config_hidden : bool }.
Definition wg_load (s : server_settings) (sites : nat) : wg_form :=
  WgForm (is_on s "wg_enabled") (number_set (setting s "wg_port")) (text_set (setting s "wg_endpoint")) (text_set (setting s "wg_network"))
    (0 <? sites)%nat (negb (is_on s "wg_enabled")).
Definition wg_lock (sites : nat) (devices : list bool) (f : wg_form) : wg_form :=
  WgForm (wf_enabled f) (wf_port f) (wf_endpoint f) (wf_network f) ((0 <? sites)%nat || existsb negb devices) (wf_config_hidden f).
Definition wg_toggle (b : bool) (f : wg_form) : wg_form :=
  WgForm b (wf_port f) (wf_endpoint f) (wf_network f) (wf_network_disabled f) (negb b).
Definition wg_values (f : wg_form) : put :=
  [(js "wg_enabled", bit (wf_enabled f)); (js "wg_port", wf_port f); (js "wg_endpoint", trim (wf_endpoint f))]
  ++ (if wf_network_disabled f then [] else [(js "wg_network", trim (wf_network f))]).

Definition lease_fields : list string :=
  ["wg_lease_minutes"; "wg_outage_grace_minutes"; "wg_session_days"; "wg_auth_max_age"; "wg_devices_per_user"]%string.
Definition lease_load (s : server_settings) : list jstr := map (λ k, number_set (setting s k)) lease_fields.
Definition lease_values (form : list jstr) : put := zip (map js lease_fields) form.

(** [split(/[\s,]+/).filter(Boolean)]. *)
Definition lan_sep (c : N) : bool := is_space c || N.eqb c (ch ",").
Record lan_form : Type := LanForm { lf_on : bool; lf_protected : jstr; lf_waive : bool; lf_hidden : bool }.
Definition lan_load (s : server_settings) : lan_form :=
  let lan := is_on s "wg_lan_access" in
  LanForm lan (area_set (join [10%N] (words_by lan_sep (setting s "wg_protected_endpoints")))) (is_on s "wg_no_published_aliases") (negb lan).
Definition lan_toggle (b : bool) (f : lan_form) : lan_form := LanForm b (lf_protected f) (lf_waive f) (negb b).
(** Switching the access on is asked about. *)
Definition lan_submit (confirmed : bool) (f : lan_form) : option put :=
  if lf_on f && negb confirmed then None
  else Some [(js "wg_lan_access", bit (lf_on f));
             (js "wg_protected_endpoints", join (js ", ") (words_by lan_sep (lf_protected f)));
             (js "wg_no_published_aliases", bit (lf_waive f))].

(** ** The policy editor *)

(** [po_routes] is absent when the server left the routes out. *)
Record policy : Type := Policy { po_name : jstr; po_subject : subject; po_routes : option (list route) }.

Inductive policy_request : Type :=
  | PPut (id : Z) (p : policy) | PPost (p : policy) | PExplain (routes : list route) (proto dest : jstr) | PDelete (id : Z) | PRefresh.
Inductive policy_job : Type := WSave | WExplain | WDelete.
Inductive policy_reply : Type := PSaved | PAnswer (text : jstr) | PFail (message : jstr).

Record policy_ui : Type := PolicyUi {
  editingPolicyId : option Z; pl_name : jstr; pl_subject : picker; pl_routes : list route; pl_proto : jstr; pl_dest : jstr;
  pl_answer_hidden : bool; pl_answer : jstr; pl_answer_error : bool; pl_error : option jstr; pl_hidden : bool;
  pl_sent : list policy_request; pl_jobs : list policy_job; pl_alerts : list jstr }.

Definition blankRouteRow : route := Route [] (js "any") [].
Definition try_protos : list jstr := map js ["tcp"; "udp"].

Section policies.
Context (localeLeb : jstr → jstr → bool) (people : people).

Definition openPolicyModal (p : option (Z * policy)) (u : policy_ui) : policy_ui :=
  {| editingPolicyId := option_map fst p;
     pl_name := match p with Some x => text_set (po_name x.2) | None => [] end;
     pl_subject := pick_make localeLeb people true None (option_map (λ x, po_subject x.2) p);
     pl_routes := match p ≫= λ x, po_routes x.2 with Some l => map addRouteRow l | None => [blankRouteRow] end;
     pl_proto := pl_proto u; pl_dest := []; pl_answer_hidden := true; pl_answer := pl_answer u; pl_answer_error := pl_answer_error u;
     pl_error := None; pl_hidden := false; pl_sent := pl_sent u; pl_jobs := pl_jobs u; pl_alerts := pl_alerts u |}.
(** The button, which wants an identity provider first. *)
Definition addPolicy (u : policy_ui) : policy_ui :=
  match oidcProviders people with
  | [] =>
      PolicyUi (editingPolicyId u) (pl_name u) (pl_subject u) (pl_routes u) (pl_proto u) (pl_dest u) (pl_answer_hidden u) (pl_answer u)
        (pl_answer_error u) (pl_error u) (pl_hidden u) (pl_sent u) (pl_jobs u)
        (pl_alerts u ++ [js "A policy is about people from an identity provider: add one on the Access Lists page first."])
  | _ => openPolicyModal None u
  end.

Definition psend (r : policy_request) (j : list policy_job) (u : policy_ui) : policy_ui :=
  PolicyUi (editingPolicyId u) (pl_name u) (pl_subject u) (pl_routes u) (pl_proto u) (pl_dest u) (pl_answer_hidden u) (pl_answer u)
    (pl_answer_error u) (pl_error u) (pl_hidden u) (pl_sent u ++ [r]) (pl_jobs u ++ j) (pl_alerts u).
Definition set_pjobs (l : list policy_job) (u : policy_ui) : policy_ui :=
  PolicyUi (editingPolicyId u) (pl_name u) (pl_subject u) (pl_routes u) (pl_proto u) (pl_dest u) (pl_answer_hidden u) (pl_answer u)
    (pl_answer_error u) (pl_error u) (pl_hidden u) (pl_sent u) l (pl_alerts u).
Definition set_perror (e : option jstr) (u : policy_ui) : policy_ui :=
  PolicyUi (editingPolicyId u) (pl_name u) (pl_subject u) (pl_routes u) (pl_proto u) (pl_dest u) (pl_answer_hidden u) (pl_answer u)
    (pl_answer_error u) e (pl_hidden u) (pl_sent u) (pl_jobs u) (pl_alerts u).
Definition set_phidden (b : bool) (u : policy_ui) : policy_ui :=
  PolicyUi (editingPolicyId u) (pl_name u) (pl_subject u) (pl_routes u) (pl_proto u) (pl_dest u) (pl_answer_hidden u) (pl_answer u)
    (pl_answer_error u) (pl_error u) b (pl_sent u) (pl_jobs u) (pl_alerts u).
Definition set_answer (hidden : bool) (text : jstr) (error : bool) (u : policy_ui) : policy_ui :=
  PolicyUi (editingPolicyId u) (pl_name u) (pl_subject u) (pl_routes u) (pl_proto u) (pl_dest u) hidden text error
    (pl_error u) (pl_hidden u) (pl_sent u) (pl_jobs u) (pl_alerts u).

Definition policy_read (u : policy_ui) : policy :=
  Policy (trim (pl_name u)) (pick_read None (pl_subject u)) (Some (readRoutes (pl_routes u))).
Definition policy_submit (u : policy_ui) : policy_ui :=
  let u := set_perror None u in
  let p := policy_read u in
  match editingPolicyId u with
  | Some id => if id =? 0 then psend (PPost p) [WSave] u else psend (PPut id p) [WSave] u
  | None => psend (PPost p) [WSave] u
  end.
(** [vp-try]. *)
Definition policy_try (u : policy_ui) : policy_ui :=
  psend (PExplain (readRoutes (pl_routes u)) (pl_proto u) (trim (pl_dest u))) [WExplain] (set_answer false (pl_answer u) (pl_answer_error u) u).

Definition policy_continue (j : policy_job) (r : policy_reply) (u : policy_ui) : policy_ui :=
  match j, r with
  | WSave, PSaved => psend PRefresh [] (set_phidden true u)
  | WSave, PFail m => set_perror (Some m) u
  | WExplain, PAnswer text => set_answer (pl_answer_hidden u) text (starts_with (js "refused") text) u
  | WExplain, PFail m => set_answer (pl_answer_hidden u) m true u
  | WDelete, PSaved => psend PRefresh [] u
  | WDelete, PFail m =>
      PolicyUi (editingPolicyId u) (pl_name u) (pl_subject u) (pl_routes u) (pl_proto u) (pl_dest u) (pl_answer_hidden u) (pl_answer u)
        (pl_answer_error u) (pl_error u) (pl_hidden u) (pl_sent u) (pl_jobs u) (pl_alerts u ++ [m])
  | _, _ => u
  end.

Inductive policy_event : Type :=
  | POpen (p : Z * policy) | PAdd | PName (v : jstr) | PPick (k : picker) | PRows (rows : list route) | PProto (v : jstr) | PDest (v : jstr)
  | PAddRow | PClose | PSubmit | PTry | PRemove (id : Z) (confirmed : bool) | PReply (i : nat) (r : policy_reply).

Definition set_policy_form (name : jstr) (k : picker) (rows : list route) (proto dest : jstr) (u : policy_ui) : policy_ui :=
  PolicyUi (editingPolicyId u) name k rows proto dest (pl_answer_hidden u) (pl_answer u)
    (pl_answer_error u) (pl_error u) (pl_hidden u) (pl_sent u) (pl_jobs u) (pl_alerts u).
Definition policy_step (u : policy_ui) (e : policy_event) : policy_ui :=
  match e with
  | POpen p => openPolicyModal (Some p) u
  | PAdd => addPolicy u
  | PName v => set_policy_form (text_set v) (pl_subject u) (pl_routes u) (pl_proto u) (pl_dest u) u
  | PPick k => set_policy_form (pl_name u) k (pl_routes u) (pl_proto u) (pl_dest u) u
  | PRows rows => set_policy_form (pl_name u) (pl_subject u) rows (pl_proto u) (pl_dest u) u
  | PProto v => if decide (v ∈ try_protos) then set_policy_form (pl_name u) (pl_subject u) (pl_routes u) v (pl_dest u) u else u
  | PDest v => set_policy_form (pl_name u) (pl_subject u) (pl_routes u) (pl_proto u) (text_set v) u
  | PAddRow => set_policy_form (pl_name u) (pl_subject u) (pl_routes u ++ [blankRouteRow]) (pl_proto u) (pl_dest u) u
  | PClose => set_phidden true u
  | PSubmit => policy_submit u
  | PTry => policy_try u
  | PRemove id confirmed => if confirmed then psend (PDelete id) [WDelete] u else u
  | PReply i r =>
      match pl_jobs u !! i with
      | Some j => policy_continue j r (set_pjobs (delete i (pl_jobs u)) u)
      | None => u
      end
  end.
Definition policy_run (u : policy_ui) (es : list policy_event) : policy_ui := fold_left policy_step es u.

(** A policy as the server stores it. *)
Definition policy_ok (p : policy) : bool :=
  word (po_name p) && subject_ok people true None (po_subject p)
  && match po_routes p with Some l => forallb route_ok l | None => false end.
End policies.

(** ** Properties of the forms *)

Lemma lan_words s : Forall (word_by lan_sep) (words_by lan_sep s).
Proof. apply words_by_words. Qed.

(** The words come back from the textarea, one per line, and from what is
    saved, with commas. *)
Lemma lan_words_area s : words_by lan_sep (area_set (join [10%N] (words_by lan_sep s))) = words_by lan_sep s.
Proof.
  rewrite area_set_id; [apply words_by_join; [done|by repeat constructor|apply lan_words]|].
  pose proof (lan_words s) as F. induction F as [|w l [_ Hw] F IH]; [by apply not_elem_of_nil|].
  assert (13%N ∉ w) as H13 by (intros Hin; rewrite list.Forall_forall in Hw; by apply Hw in Hin).
  destruct l; [done|]. rewrite join_cons, !not_elem_of_app. split; [done|]. split; [|done]. by intros H%list_elem_of_singleton.
Qed.
Lemma lan_words_commas s : words_by lan_sep (join (js ", ") (words_by lan_sep s)) = words_by lan_sep s.
Proof. apply words_by_join; [done|by repeat constructor|apply lan_words]. Qed.

(** The three names of the LAN form are different ones. *)
Lemma lan_store w on waive s (v := [(js "wg_lan_access", bit on); (js "wg_protected_endpoints", w); (js "wg_no_published_aliases", bit waive)]) :
  is_on (store v s) "wg_lan_access" = on ∧ setting (store v s) "wg_protected_endpoints" = w
  ∧ is_on (store v s) "wg_no_published_aliases" = waive.
Proof.
  assert (NoDup (map fst v)) as Hn by (cbn; apply (bool_decide_unpack _); by_compute).
  unfold is_on, setting. split_and!.
  - rewrite (store_in _ _ _ (bit on)) by first [done | left]. by destruct on.
  - rewrite (store_in _ _ _ w) by first [done | right; left]. done.
  - rewrite (store_in _ _ _ (bit waive)) by first [done | right; right; left]. by destruct waive.
Qed.

Lemma lan_form_round s v : lan_submit true (lan_load s) = Some v →
  words_by lan_sep (setting (store v s) "wg_protected_endpoints") = words_by lan_sep (setting s "wg_protected_endpoints")
  ∧ lan_submit true (lan_load (store v s)) = Some v.
Proof.
  unfold lan_submit. rewrite !andb_false_r. cbn [lan_load lf_on lf_protected lf_waive]. rewrite lan_words_area. intros [= <-].
  destruct (lan_store (join (js ", ") (words_by lan_sep (setting s "wg_protected_endpoints"))) (is_on s "wg_lan_access")
    (is_on s "wg_no_published_aliases") s) as (E1 & E2 & E3).
  rewrite E1, E2, E3, lan_words_commas. split; [done|]. by rewrite lan_words_area.
Qed.

Lemma existsb_negb devices : existsb negb devices = false ↔ Forall (λ r, r = true) devices.
Proof.
  rewrite <- not_true_iff_false, existsb_exists, list.Forall_forall. split.
  - intros H r Hr. destruct r; [done|]. exfalso. apply H. exists false. split; [by apply list_elem_of_In|done].
  - intros H (r & Hr%list_elem_of_In & E). by rewrite (H r Hr) in E.
Qed.

Lemma wg_form_values s sites devices :
  word (setting s "wg_endpoint") = true → word (setting s "wg_network") = true → value_ok KNumber (setting s "wg_port") = true →
  wg_values (wg_lock sites devices (wg_load s sites))
  = [(js "wg_enabled", bit (is_on s "wg_enabled")); (js "wg_port", setting s "wg_port"); (js "wg_endpoint", setting s "wg_endpoint")]
    ++ (if (0 <? sites)%nat || existsb negb devices then [] else [(js "wg_network", setting s "wg_network")]).
Proof.
  intros He Hn Hp. unfold wg_values. cbn [wg_lock wg_load wf_enabled wf_port wf_endpoint wf_network wf_network_disabled].
  destruct (text_set_word _ He) as [_ ->], (text_set_word _ Hn) as [_ ->]. cbn in Hp. apply bool_decide_eq_true in Hp.
  by replace (number_set (setting s "wg_port")) with (setting s "wg_port") by (by destruct Hp as [-> | ->]).
Qed.

(** The forms of the VPN page keep what they load.  The LAN form shows the
    protected addresses one per line and saves them with commas: whatever
    separators the stored text has, saving the form as loaded writes the same
    addresses, and loading that again gives the same text to save; switching
    the access on is saved only when it is confirmed.  The endpoint's form
    sends its port, address and network as stored, the network only while no
    site and no device that is not revoked uses it. *)
Theorem vpn_forms_identity (s : server_settings) sites devices :
  word (setting s "wg_endpoint") = true → word (setting s "wg_network") = true → value_ok KNumber (setting s "wg_port") = true →
  (∀ v, lan_submit true (lan_load s) = Some v →
     words_by lan_sep (setting (store v s) "wg_protected_endpoints") = words_by lan_sep (setting s "wg_protected_endpoints")
     ∧ lan_submit true (lan_load (store v s)) = Some v)
  ∧ (∀ f, lf_on f = true → lan_submit false f = None)
  ∧ let v := wg_values (wg_lock sites devices (wg_load s sites)) in
    (∀ k x, (k, x) ∈ v → k ≠ js "wg_enabled" → x = default [] (s !! k))
    ∧ (js "wg_network" ∈ map fst v ↔ sites = 0%nat ∧ Forall (λ revoked, revoked = true) devices).
Proof.
  intros He Hn Hp. split; [intros v; apply lan_form_round|]. split; [intros f Hf; unfold lan_submit; by rewrite Hf|].
  cbv zeta. rewrite wg_form_values by done. split.
  - intros k x Hx Hk. rewrite elem_of_app, !elem_of_cons, elem_of_nil in Hx.
    destruct Hx as [Hx|Hx]; [by repeat (destruct Hx as [[= -> ->]|Hx]; [done|])|]. destruct (_ || _); [by apply not_elem_of_nil in Hx|].
    by apply list_elem_of_singleton in Hx as [= -> ->].
  - assert (js "wg_network" ∉ map js ["wg_enabled"; "wg_port"; "wg_endpoint"]) as Hout by (apply (bool_decide_unpack _); by_compute).
    rewrite map_app, elem_of_app, <- existsb_negb. destruct (Nat.ltb_spec 0 sites), (existsb negb devices); cbn [orb map fst].
    all: split; [intros [?|Hx]; [done|]|intros [??]]; try lia; try done; try (by apply not_elem_of_nil in Hx).
    right. by apply list_elem_of_singleton.
Qed.

(** ** Properties of the editor *)

(** The changes a session sends: a stored policy goes back to the one that was
    opened, and every route names a network. *)
Definition opened_ids (es : list policy_event) : list Z :=
  flat_map (λ e, match e with POpen p => [p.1] | _ => [] end) es.
Definition names_networks (p : policy) : Prop :=
  match po_routes p with Some l => Forall (λ r, includes (js "/") (rt_cidr r) = true) l | None => False end.
Definition policy_sent_ok (ids : list Z) (r : policy_request) : Prop :=
  match r with PPut id p => id ∈ ids ∧ names_networks p | PPost p => names_networks p | _ => True end.

Lemma readRoutes_networks rows : Forall (λ r, includes (js "/") (rt_cidr r) = true) (readRoutes rows).
Proof.
  apply list.Forall_forall. intros r (row & _ & E)%list_elem_of_omap. unfold readRoute in E.
  destruct (truthy _); [|done]. injection E as <-. cbn [rt_cidr]. destruct (includes (js "/") (trim (rt_cidr row))) eqn:Ei; [done|].
  apply includes_app_r. by_compute.
Qed.

Section editor.
Context (localeLeb : jstr → jstr → bool) (pp : people).
Abbreviation step := (policy_step localeLeb pp).
Abbreviation run := (policy_run localeLeb pp).

Record policy_inv (ids : list Z) (u : policy_ui) : Prop := {
  pi_id : ∀ id, editingPolicyId u = Some id → id ∈ ids;
  pi_sent : Forall (policy_sent_ok ids) (pl_sent u) }.

Lemma policy_step_inv ids u e : policy_inv ids u → policy_inv (ids ++ opened_ids [e]) (step u e).
Proof.
  intros [Hi Hs].
  assert (policy_inv (ids ++ opened_ids [e]) u) as [Hi' Hs'].
  { constructor; [intros id H; apply elem_of_app; left; by apply Hi|]. apply (list.Forall_impl _ _ _ Hs).
    intros [id p|p| | |]; cbn; [intros [? ?]; split; [by apply elem_of_app; left|done]|done..]. }
  destruct e as [p| |v|k|rows|v|v| | | | |id c|i r]; cbn [policy_step].
  - constructor; [|done]. cbn. intros id [= <-]. apply elem_of_app. right. left.
  - unfold addPolicy. destruct (oidcProviders pp); constructor; cbn; done.
  - constructor; done.
  - constructor; done.
  - constructor; done.
  - destruct (decide _); constructor; done.
  - constructor; done.
  - constructor; done.
  - constructor; done.
  - unfold policy_submit. cbn [editingPolicyId set_perror].
    destruct (editingPolicyId u) as [id|] eqn:E; [destruct (id =? 0)|]; constructor; cbn; rewrite ?E; try done; try (intros ? [= <-]; by apply Hi');
      apply list.Forall_app; split; try done; apply list.Forall_singleton; cbn; try (split; [by apply Hi'|]); apply readRoutes_networks.
  - constructor; [done|]. cbn. apply list.Forall_app. split; [done|]. by apply list.Forall_singleton.
  - destruct c; constructor; try done. cbn. apply list.Forall_app. split; [done|]. by apply list.Forall_singleton.
  - destruct (pl_jobs u !! i) as [j|]; [|by constructor].
    destruct j, r; constructor; cbn; try done; rewrite ?app_nil_r; apply list.Forall_app; (split; [done|by apply list.Forall_singleton]).
Qed.

Lemma policy_run_inv es : ∀ ids u, policy_inv ids u → policy_inv (ids ++ opened_ids es) (run u es).
Proof.
  induction es as [|e es IH]; intros ids u H; [by rewrite app_nil_r|]. apply (policy_step_inv _ _ e), IH in H.
  unfold opened_ids in *. cbn [flat_map] in *. rewrite app_nil_r, <- app_assoc in H. exact H.
Qed.

Definition no_policy_ui : policy_ui :=
  PolicyUi None [] (pick_make localeLeb pp true None None) [] (js "tcp") [] true [] false None true [] [] [].

(** C19. Opening a LAN policy and saving it sends that policy back unchanged,
    to where it came from, whatever the editor was used for before; and in
    any session every change of a policy goes to one that was opened, with
    routes that name a network each. *)
Theorem policy_edit_identity es id p : policy_ok pp p = true → id ≠ 0 →
  let u := run no_policy_ui es in
  let u' := run u [POpen (id, p); PSubmit] in
  pl_sent u' = pl_sent u ++ [PPut id p] ∧ pl_error u' = None ∧ pl_hidden u' = false ∧ pl_answer_hidden u' = true
  ∧ Forall (policy_sent_ok (opened_ids es)) (pl_sent u).
Proof.
  intros Hp Hid u u'. destruct p as [name subj routes]. unfold policy_ok in Hp. cbn [po_name po_subject po_routes] in Hp.
  apply andb_true_iff in Hp as [[Hn Hs]%andb_true_iff Hr]. destruct routes as [l|]; [|done].
  assert (readRoutes (map addRouteRow l) = l) as El.
  { unfold readRoutes. revert Hr. induction l as [|r l IH]; [done|]. cbn. intros [Hr Hl]%andb_true_iff.
    rewrite readRoute_round by done. f_equal. by apply IH. }
  assert (policy_inv [] no_policy_ui) as H0 by (by constructor). apply (policy_run_inv es) in H0 as [_ Hsent].
  split_and!; [|unfold u'; cbn; by rewrite (proj2 (Z.eqb_neq _ _) Hid)..|done].
  unfold u'. cbn. unfold policy_submit. cbn [editingPolicyId set_perror openPolicyModal option_map fst].
  rewrite (proj2 (Z.eqb_neq _ _) Hid). cbn [psend pl_sent set_perror openPolicyModal]. do 3 f_equal. unfold policy_read.
  cbn [pl_name pl_subject pl_routes option_map snd po_subject po_name po_routes openPolicyModal set_perror].
  destruct (text_set_word _ Hn) as [_ ->]. change (Some l ≫= _) with (Some l). rewrite pick_round by done.
  f_equal. exact (f_equal Some El).
Qed.

(** A save whose reply arrives after the editor was opened on another policy
    closes that editor, with what was typed into it. *)
Lemma late_save_closes_other u id p q : pl_jobs u = [] → editingPolicyId u = Some id →
  let u' := run u [PSubmit; PClose; POpen q; PName p; PReply 0 PSaved] in
  pl_hidden u' = true ∧ editingPolicyId u' = Some q.1.
Proof.
  intros Hj He. cbn. unfold policy_submit. cbn [editingPolicyId set_perror]. rewrite He. destruct (id =? 0); cbn; by rewrite Hj.
Qed.
End editor.

(** ** The properties at concrete inputs *)

Definition vpn_settings : server_settings := list_to_map (map (λ kv, (js kv.1, js kv.2))
  [("wg_enabled", "1"); ("wg_port", "51820"); ("wg_endpoint", "vpn.example:51820"); ("wg_network", "10.77.0.0/24");
   ("wg_lan_access", "1"); ("wg_protected_endpoints", " 192.168.1.2,192.168.1.3 , 10.0.0.1")]%string).

Lemma vpn_forms_identity_witness :
  word (setting vpn_settings "wg_endpoint") = true ∧ word (setting vpn_settings "wg_network") = true
  ∧ value_ok KNumber (setting vpn_settings "wg_port") = true
  ∧ js "wg_network" ∉ map fst (wg_values (wg_lock 0 [true; false] (wg_load vpn_settings 0)))
  ∧ lf_protected (lan_load vpn_settings) = join [10%N] [js "192.168.1.2"; js "192.168.1.3"; js "10.0.0.1"].
Proof.
  assert (word (setting vpn_settings "wg_endpoint") = true) as H1 by by_compute.
  assert (word (setting vpn_settings "wg_network") = true) as H2 by by_compute.
  assert (value_ok KNumber (setting vpn_settings "wg_port") = true) as H3 by by_compute.
  split; [exact H1|]. split; [exact H2|]. split; [exact H3|]. split; [|by_compute].
  destruct (vpn_forms_identity vpn_settings 0 [true; false] H1 H2 H3) as (_ & _ & _ & H). intros Hin. apply H in Hin as [_ F].
  apply list.Forall_cons in F as [_ F]. by apply list.Forall_cons in F as [? _].
Defined.

Definition sample_policy : policy :=
  Policy (js "Operations") (Subject (js "group") [] 7 [] (js "staff")) (Some [Route (js "192.168.1.0/24") (js "tcp") (js "443")]).

Lemma policy_edit_identity_witness :
  policy_ok sample_people sample_policy = true
  ∧ pl_sent (policy_run (λ _ _, true) sample_people (no_policy_ui (λ _ _, true) sample_people) [PAdd; PClose; POpen (4, sample_policy); PSubmit])
    = [PPut 4 sample_policy].
Proof.
  assert (policy_ok sample_people sample_policy = true) as H by by_compute. split; [exact H|].
  destruct (policy_edit_identity (λ _ _, true) sample_people [PAdd; PClose] 4 sample_policy H ltac:(done)) as (E & _).
  etransitivity; [exact E|]. by_compute.
Defined.
