(* ===== verification/Devices.v ===== *)
(** * VPN devices (web/app.js, device editor)

    The editor that adds a device to the VPN: one of the administrators, or a
    break-glass device, which reaches the LAN without a login.  It makes or
    takes a key, asks for the device, and shows its configuration once.  A
    handler is cut at its awaits, and the replies come in any order.

    [year_ahead] is the date the expiry is set to, [end_of_day] the moment a
    date is sent as ([None] when there is none). *)

From Stdlib Require Import Ascii String ZArith NArith Lia.
From stdpp Require Import base list strings numbers.
From S2P Require Import Prelude JsString Regex Fields WireGuard Sites Portal.

Local Open Scope Z_scope.

(** ** Data *)

Record dev_form : Type := DevForm {
  v_name : jstr; v_pubkey : jstr; v_generate : bool; v_generate_disabled : bool; v_unsupported_hidden : bool; v_pubkey_hidden : bool;
  v_breakglass_hidden : bool; v_routes : list route; v_expires : jstr; v_expires_disabled : bool; v_never : bool;
  v_password : jstr; v_code : jstr }.
(** The reply to a new device. *)
Record dev_created : Type := DevCreated { dc_address : jstr; dc_psk : jstr; dc_routes : list route }.

Inductive dev_request : Type :=
  | VDevice (name pubkey : jstr)
  | VBreakglass (name pubkey : jstr) (routes : list route) (never : bool) (expires password code : jstr)
  | VStatus
  | VRefresh.
Inductive dev_job : Type := JCan | JKeys | JPost (priv name : jstr) | JStatus (priv name : jstr) (c : dev_created).
Inductive dev_reply : Type := BCan (can : bool) | BKeys (kp : keypair) | BCreated (c : dev_created) | BStatus (s : wg_status) | BFail (message : jstr).

(** [dv_mode] is [wgDeviceMode], true for a break-glass device. *)
Record dev_ui : Type := DevUi {
  dv_mode : bool; dv_form : dev_form; dv_modal_hidden : bool; dv_form_hidden : bool; dv_created_hidden : bool; dv_config : jstr;
  dv_file : jstr; dv_error : option jstr; dv_jobs : list dev_job; dv_sent : list dev_request }.

Section devices.
Context (year_ahead : jstr) (end_of_day : jstr → option jstr) (date_error : jstr).

(** [form.reset()]: the values of the page's HTML; what is hidden or disabled
    stays so, and so do the rows. *)
Definition dev_reset (f : dev_form) : dev_form :=
  DevForm [] [] true (v_generate_disabled f) (v_unsupported_hidden f) (v_pubkey_hidden f) (v_breakglass_hidden f) (v_routes f) []
    (v_expires_disabled f) false [] [].
Definition blank_route : route := Route [] (js "any") [].

Definition set_vform f u :=
  DevUi (dv_mode u) f (dv_modal_hidden u) (dv_form_hidden u) (dv_created_hidden u) (dv_config u) (dv_file u) (dv_error u) (dv_jobs u) (dv_sent u).
Definition set_vjobs l u :=
  DevUi (dv_mode u) (dv_form u) (dv_modal_hidden u) (dv_form_hidden u) (dv_created_hidden u) (dv_config u) (dv_file u) (dv_error u) l (dv_sent u).
Definition set_verror e u :=
  DevUi (dv_mode u) (dv_form u) (dv_modal_hidden u) (dv_form_hidden u) (dv_created_hidden u) (dv_config u) (dv_file u) e (dv_jobs u) (dv_sent u).
Definition vsend (r : dev_request) u :=
  DevUi (dv_mode u) (dv_form u) (dv_modal_hidden u) (dv_form_hidden u) (dv_created_hidden u) (dv_config u) (dv_file u) (dv_error u) (dv_jobs u)
    (dv_sent u ++ [r]).

(** [openWGDeviceModal] up to its wait, and after it; [syncWGDeviceKeyMode]
    shows the field for a pasted key. *)
Definition openWGDeviceModal (mode : bool) (u : dev_ui) : dev_ui :=
  let f := dev_reset (dv_form u) in
  let f := DevForm (v_name f) (v_pubkey f) (v_generate f) (v_generate_disabled f) (v_unsupported_hidden f) (v_pubkey_hidden f) (negb mode)
             (if mode then [blank_route] else []) (if mode then year_ahead else v_expires f) (v_expires_disabled f) (v_never f)
             (v_password f) (v_code f) in
  DevUi mode f (dv_modal_hidden u) false true (dv_config u) (dv_file u) None (dv_jobs u ++ [JCan]) (dv_sent u).
Definition can_reply (can : bool) (u : dev_ui) : dev_ui :=
  let f := dv_form u in
  DevUi (dv_mode u)
    (DevForm (v_name f) (v_pubkey f) can (negb can) can can (v_breakglass_hidden f) (v_routes f) (v_expires f) (v_expires_disabled f)
       (v_never f) (v_password f) (v_code f))
    false (dv_form_hidden u) (dv_created_hidden u) (dv_config u) (dv_file u) (dv_error u) (dv_jobs u) (dv_sent u).

Definition closeWGDeviceModal (u : dev_ui) : dev_ui :=
  vsend VRefresh
    (DevUi (dv_mode u) (dev_reset (dv_form u)) true (dv_form_hidden u) (dv_created_hidden u) [] (dv_file u) (dv_error u) (dv_jobs u) (dv_sent u)).

(** ** Adding a device *)

(** The request, made of the form as it is once the key is known. *)
Definition expires_at (f : dev_form) : option jstr :=
  if v_never f || negb (truthy (v_expires f)) then Some [] else end_of_day (v_expires f).
Definition dev_post (pub priv : jstr) (u : dev_ui) : dev_ui :=
  let f := dv_form u in
  let name := trim (v_name f) in
  let job := set_vjobs (dv_jobs u ++ [JPost priv name]) in
  if dv_mode u then
    match expires_at f with
    | Some e => vsend (VBreakglass name pub (readRoutes (v_routes f)) (v_never f) e (v_password f) (trim (v_code f))) (job u)
    | None => set_verror (Some date_error) u
    end
  else vsend (VDevice name pub) (job u).
Definition dev_submit (u : dev_ui) : dev_ui :=
  let u := set_verror None u in
  let pub := trim (v_pubkey (dv_form u)) in
  if v_generate (dv_form u) then set_vjobs (dv_jobs u ++ [JKeys]) u else dev_post pub [] u.

(** The reply to the request: the password and the code go. *)
Definition created_reply (priv name : jstr) (c : dev_created) (u : dev_ui) : dev_ui :=
  let f := dv_form u in
  vsend VStatus
    (set_vjobs (dv_jobs u ++ [JStatus priv name c])
       (set_vform (DevForm (v_name f) (v_pubkey f) (v_generate f) (v_generate_disabled f) (v_unsupported_hidden f) (v_pubkey_hidden f)
          (v_breakglass_hidden f) (v_routes f) (v_expires f) (v_expires_disabled f) (v_never f) [] []) u)).

Definition dev_allowed (s : wg_status) (c : dev_created) : list jstr := (ws_address s ++ js "/32") :: map rt_cidr (dc_routes c).
Definition dev_lines (s : wg_status) (c : dev_created) (priv : jstr) : list jstr :=
  [ js "[Interface]";
    js "PrivateKey = " ++ str_or priv (js "(keep the private key that is in the WireGuard app)");
    js "Address = " ++ dc_address c ++ js "/32";
    js "DNS = " ++ ws_address s;
    [];
    js "[Peer]";
    js "# quicgate";
    js "PublicKey = " ++ ws_publicKey s;
    js "PresharedKey = " ++ dc_psk c ]
  ++ (if truthy (ws_endpoint s) then [js "Endpoint = " ++ ws_endpoint s]
      else [jq "# Endpoint = (set `Public address` on the VPN page first)"])
  ++ [ js "AllowedIPs = " ++ join (js ", ") (set_of [] (dev_allowed s c)); js "PersistentKeepalive = 25"; [] ].
Definition dev_config (s : wg_status) (c : dev_created) (priv : jstr) : jstr := join [10%N] (dev_lines s c priv).
Definition dev_file (name : jstr) : jstr := str_or (slice_to 15 (replace_all re_names (λ _, js "-") name)) (js "vpn").
Definition status_reply (priv name : jstr) (c : dev_created) (s : wg_status) (u : dev_ui) : dev_ui :=
  DevUi (dv_mode u) (dv_form u) (dv_modal_hidden u) true false (dev_config s c priv) (dev_file name) (dv_error u) (dv_jobs u) (dv_sent u).

(** ** The life of the editor *)

Inductive dev_event : Type :=
  | VOpen (mode : bool)
  | VEdit (f : dev_form)           (* what the user types and ticks *)
  | VKeyMode (generate : bool) | VNever (b : bool) | VAddRow
  | VClose | VSubmit
  | VReply (i : nat) (r : dev_reply).

(** What typing changes: not what is hidden or disabled, nor what has a
    listener of its own. *)
Definition dev_edit (new f : dev_form) : dev_form :=
  DevForm (text_set (v_name new)) (text_set (v_pubkey new)) (v_generate f) (v_generate_disabled f) (v_unsupported_hidden f) (v_pubkey_hidden f)
    (v_breakglass_hidden f) (v_routes new) (if v_expires_disabled f then v_expires f else v_expires new) (v_expires_disabled f) (v_never f)
    (text_set (v_password new)) (text_set (v_code new)).
Definition key_mode (generate : bool) (f : dev_form) : dev_form :=
  if generate && v_generate_disabled f then f
  else DevForm (v_name f) (v_pubkey f) generate (v_generate_disabled f) (v_unsupported_hidden f) generate (v_breakglass_hidden f) (v_routes f)
         (v_expires f) (v_expires_disabled f) (v_never f) (v_password f) (v_code f).
Definition set_never (b : bool) (f : dev_form) : dev_form :=
  DevForm (v_name f) (v_pubkey f) (v_generate f) (v_generate_disabled f) (v_unsupported_hidden f) (v_pubkey_hidden f) (v_breakglass_hidden f)
    (v_routes f) (v_expires f) b b (v_password f) (v_code f).
Definition add_row (f : dev_form) : dev_form :=
  DevForm (v_name f) (v_pubkey f) (v_generate f) (v_generate_disabled f) (v_unsupported_hidden f) (v_pubkey_hidden f) (v_breakglass_hidden f)
    (v_routes f ++ [blank_route]) (v_expires f) (v_expires_disabled f) (v_never f) (v_password f) (v_code f).

Definition dev_continue (j : dev_job) (r : dev_reply) (u : dev_ui) : dev_ui :=
  match j, r with
  | JCan, BCan can => can_reply can u
  | JKeys, BKeys kp => dev_post (publicKey kp) (privateKey kp) u
  | JPost priv name, BCreated c => created_reply priv name c u
  | JStatus priv name c, BStatus s => status_reply priv name c s u
  | JKeys, BFail m | JPost _ _, BFail m | JStatus _ _ _, BFail m => set_verror (Some m) u
  | _, _ => u
  end.
Definition dev_step (u : dev_ui) (e : dev_event) : dev_ui :=
  match e with
  | VOpen mode => openWGDeviceModal mode u
  | VEdit f => set_vform (dev_edit f (dv_form u)) u
  | VKeyMode g => set_vform (key_mode g (dv_form u)) u
  | VNever b => set_vform (set_never b (dv_form u)) u
  | VAddRow => set_vform (add_row (dv_form u)) u
  | VClose => closeWGDeviceModal u
  | VSubmit => dev_submit u
  | VReply i r =>
      match dv_jobs u !! i with
      | Some j => dev_continue j r (set_vjobs (delete i (dv_jobs u)) u)
      | None => u
      end
  end.
Definition dev_run (u : dev_ui) (es : list dev_event) : dev_ui := fold_left dev_step es u.
End devices.

(** The page before the editor was opened. *)
Definition devices_html : dev_ui :=
  DevUi false (DevForm [] [] true false true true true [] [] false false [] []) true false true [] [] None [] [].

Arguments dev_file name : simpl never.
Arguments dev_config s c priv : simpl never.

(** ** The configuration of a new device *)

Record dev_given (s : wg_status) (c : dev_created) : Prop := {
  vg_server : list_words [ws_address s ++ js "/32"] = true;
  vg_dns : conf_value (ws_address s) = true;
  vg_key : conf_value (ws_publicKey s) = true;
  vg_endpoint : ws_endpoint s = [] ∨ conf_value (ws_endpoint s) = true;
  vg_routes : list_words (map rt_cidr (dc_routes c)) = true ∧ Forall (λ r, no_hash (rt_cidr r) = true) (dc_routes c);
  vg_own : conf_value (dc_address c) = true;
  vg_psk : conf_value (dc_psk c) = true }.

Definition dev_items (s : wg_status) (c : dev_created) (priv : jstr) : list conf_item :=
  [ COpen (js "[Interface]");
    CPair (js "PrivateKey") (str_or priv (js "(keep the private key that is in the WireGuard app)"));
    CPair (js "Address") (dc_address c ++ js "/32"); CPair (js "DNS") (ws_address s); CBlank;
    COpen (js "[Peer]"); CNote (js "# quicgate"); CPair (js "PublicKey") (ws_publicKey s); CPair (js "PresharedKey") (dc_psk c);
    if truthy (ws_endpoint s) then CPair (js "Endpoint") (ws_endpoint s)
    else CNote (jq "# Endpoint = (set `Public address` on the VPN page first)");
    CPair (js "AllowedIPs") (join (js ", ") (set_of [] (dev_allowed s c))); CPair (js "PersistentKeepalive") (js "25"); CBlank ].

Lemma dev_config_items s c priv : dev_config s c priv = join [10%N] (map item_line (dev_items s c priv)).
Proof. unfold dev_config, dev_lines, dev_items. by destruct (truthy (ws_endpoint s)). Qed.

Lemma dev_allowed_words s c : dev_given s c → list_words (set_of [] (dev_allowed s c)) = true.
Proof. intros H. apply list_words_set. unfold dev_allowed. rewrite list_words_cons. by rewrite (vg_server _ _ H), (proj1 (vg_routes _ _ H)). Qed.

Lemma item_pair k v : conf_key k && plain_line k = true → conf_value v = true → item_ok (CPair k v) = true.
Proof. intros Hk [H1 H2]%andb_true_iff. cbn. by rewrite Hk, H1, H2. Qed.

Lemma dev_items_ok s c priv : dev_given s c → priv = [] ∨ conf_value priv = true → forallb item_ok (dev_items s c priv) = true.
Proof.
  intros H Hpriv. pose proof (join_value _ (set_of_ne _) (dev_allowed_words s c H)
    (allowed_plain _ _ (vg_dns _ _ H) (proj2 (vg_routes _ _ H)))) as Hj. destruct H as [_ Hd Hk He _ Ho Hp].
  unfold dev_items. cbn [forallb]. rewrite !andb_true_iff.
  assert (item_ok (if truthy (ws_endpoint s) then CPair (js "Endpoint") (ws_endpoint s)
    else CNote (jq "# Endpoint = (set `Public address` on the VPN page first)")) = true) as Hend.
  { destruct (truthy (ws_endpoint s)) eqn:E; [|by_compute]. apply item_pair; [by_compute|]. by destruct He as [He|He]; [rewrite He in E|]. }
  split_and!; try exact Hend; try by_compute; (apply item_pair; [by_compute|]); try done.
  - destruct Hpriv as [->|H]; [by_compute|]. by destruct priv.
  - by apply conf_value_app.
Qed.

(** The configuration of a new device says what it should to a WireGuard
    tool: the private key of the pair, or the note in its place, the device's
    address and the server as name server; and a peer with the server's key,
    the shared key, the public address when there is one and, as allowed
    addresses, the server's own and every route the device was given, each
    once.  It is shown with the editor's form gone, and the file is named
    with one to fifteen characters. *)
Theorem device_config_reads s c priv name u : dev_given s c → priv = [] ∨ conf_value priv = true →
  let u' := status_reply priv name c s u in
  ∃ ips,
    conf_read (dv_config u') =
      [ (js "[Interface]",
         [(js "PrivateKey", str_or priv (js "(keep the private key that is in the WireGuard app)"));
          (js "Address", dc_address c ++ js "/32"); (js "DNS", ws_address s)]);
        (js "[Peer]",
         [(js "PublicKey", ws_publicKey s); (js "PresharedKey", dc_psk c)]
         ++ (if truthy (ws_endpoint s) then [(js "Endpoint", ws_endpoint s)] else [])
         ++ [(js "AllowedIPs", ips); (js "PersistentKeepalive", js "25")]) ]
    ∧ (∀ a, a ∈ commas_of ips ↔ a = ws_address s ++ js "/32" ∨ ∃ r, r ∈ dc_routes c ∧ a = rt_cidr r)
    ∧ NoDup (commas_of ips)
    ∧ dv_form_hidden u' = true ∧ dv_created_hidden u' = false ∧ (1 <= length (dv_file u') <= 15)%nat.
Proof.
  intros Hg Hp u'. exists (join (js ", ") (set_of [] (dev_allowed s c))).
  assert (commas_of (join (js ", ") (set_of [] (dev_allowed s c))) = set_of [] (dev_allowed s c)) as ->.
  { pose proof (list_words_spec _ (dev_allowed_words s c Hg)) as [F _]. by apply commas_of_join. }
  split; [|split; [|split; [apply set_of_nodup|split; [done|split; [done|]]]]].
  - unfold u'. cbn [dv_config status_reply]. rewrite dev_config_items, conf_read_items; [|done|by apply dev_items_ok].
    unfold dev_items. by destruct (truthy (ws_endpoint s)).
  - intros a. rewrite elem_of_set_of. unfold dev_allowed. rewrite elem_of_cons, list_elem_of_fmap. split.
    + intros [[->|(r & -> & Hin)] _]; [by left|right; by exists r].
    + intros H. split; [|apply not_elem_of_nil]. destruct H as [->|(r & Hin & ->)]; [by left|right; by exists r].
  - unfold u'. cbn [dv_file status_reply]. unfold dev_file, slice_to.
    destruct (take 15 (replace_all re_names (λ _, js "-") name)) as [|x l] eqn:E; [cbn [str_or]; split; apply Nat.leb_le; by_compute|].
    cbn [str_or]. apply (f_equal length) in E. rewrite length_take in E. cbn [length] in *. lia.
Qed.

(** ** Secrets *)

Section secrets.
Context (year_ahead : jstr) (end_of_day : jstr → option jstr) (date_error : jstr).
Abbreviation step := (dev_step year_ahead end_of_day date_error).
Abbreviation run := (dev_run year_ahead end_of_day date_error).

(** Typing, and the reply that shows a configuration, while the editor is
    shown. *)
Definition in_view (u : dev_ui) (e : dev_event) : Prop :=
  match e with VEdit _ | VReply _ (BStatus _) => dv_modal_hidden u = false | _ => True end.
Fixpoint all_in_view (u : dev_ui) (es : list dev_event) : Prop :=
  match es with [] => True | e :: es => in_view u e ∧ all_in_view (step u e) es end.

Definition no_secrets (u : dev_ui) : Prop :=
  dv_modal_hidden u = true → dv_config u = [] ∧ v_password (dv_form u) = [] ∧ v_code (dv_form u) = [].

Lemma dev_post_form pub priv u : let u' := dev_post end_of_day date_error pub priv u in
  dv_form u' = dv_form u ∧ dv_config u' = dv_config u ∧ dv_modal_hidden u' = dv_modal_hidden u.
Proof. unfold dev_post. destruct (dv_mode u); [|done]. by destruct (expires_at _ _). Qed.

Lemma dev_step_secrets u e : no_secrets u → in_view u e → no_secrets (step u e).
Proof.
  intros H Hv. unfold no_secrets in *.
  destruct e as [mode|f|g|b| | | |i r]; cbn [dev_step].
  - intros Hh. destruct (H Hh) as (H1 & _ & _). by destruct mode.
  - intros Hh. cbn in Hv, Hh. congruence.
  - intros Hh. destruct (H Hh) as (H1 & H2 & H3). cbn. unfold key_mode. destruct (g && _); done.
  - exact H.
  - exact H.
  - done.
  - unfold dev_submit. cbn [dv_form set_verror]. destruct (v_generate _); [exact H|].
    destruct (dev_post_form (trim (v_pubkey (dv_form u))) [] (set_verror None u)) as (-> & -> & ->). exact H.
  - destruct (dv_jobs u !! i) as [j|]; [|exact H]. destruct j, r; cbn [dev_continue]; try exact H; try done.
    + destruct (dev_post_form (publicKey kp) (privateKey kp) (set_vjobs (delete i (dv_jobs u)) u)) as (-> & -> & ->). exact H.
    + intros Hh. destruct (H Hh) as (H1 & _ & _). done.
    + intros Hh. cbn in Hv, Hh. congruence.
Qed.

Lemma dev_run_secrets es : ∀ u, no_secrets u → all_in_view u es → no_secrets (run u es).
Proof.
  induction es as [|e es IH]; intros u H Hv; [done|]. destruct Hv as [Hv Hvs]. apply IH; [|done]. by apply dev_step_secrets.
Qed.

(** The editor of the VPN devices keeps no secret when it is closed: in
    any session in which the user types into the editor while it is shown and
    the configuration arrives while it is, whenever the editor is closed the
    configuration with its private key, the password and the code are gone
    from the page; the password and the code go as soon as a device is made.
    A configuration that arrives after the editor was closed stays in it. *)
Theorem closed_device_editor_empty es : all_in_view devices_html es →
  let u := run devices_html es in
  (dv_modal_hidden u = true → dv_config u = [] ∧ v_password (dv_form u) = [] ∧ v_code (dv_form u) = [])
  ∧ (∀ i priv name c, dv_jobs u !! i = Some (JPost priv name) →
       let f := dv_form (step u (VReply i (BCreated c))) in v_password f = [] ∧ v_code f = [])
  ∧ (∀ i priv name c s, dv_jobs u !! i = Some (JStatus priv name c) →
       let u' := run u [VClose; VReply i (BStatus s)] in
       dv_modal_hidden u' = true ∧ dv_config u' = dev_config s c priv).
Proof.
  intros Hv u. assert (no_secrets devices_html) as H0 by done. split; [exact (dev_run_secrets es _ H0 Hv)|]. split.
  - intros i priv name c Hj. cbn [dev_step]. by rewrite Hj.
  - intros i priv name c s Hj. cbn. by rewrite Hj.
Qed.

(** Ticking [It never expires] locks the date of the expiry, and closing the
    editor unticks it without unlocking the date: the next break-glass device
    is opened with a date nobody can change. *)
Lemma expiry_stays_locked u : v_never (dv_form u) = false →
  let u' := run u [VNever true; VClose; VOpen true] in
  v_never (dv_form u') = false ∧ v_expires_disabled (dv_form u') = true ∧ v_expires (dv_form u') = year_ahead
  ∧ ∀ f, v_expires (dv_form (step u' (VEdit f))) = year_ahead.
Proof. done. Qed.
End secrets.

(** ** The properties at concrete inputs *)

Definition dev_status : wg_status := WgStatus (js "c2VydmVy=") (js "vpn.example:51820") (js "10.77.0.1").
Definition dev_made : dev_created :=
  DevCreated (js "10.77.0.9") (js "cHNr") [Route (js "192.168.1.0/24") (js "any") []; Route (js "10.77.0.1/32") (js "any") []].
Lemma dev_made_given : dev_given dev_status dev_made.
Proof. constructor; try by_compute; [right; by_compute|split; [by_compute|repeat constructor]]. Qed.

Lemma device_config_reads_witness :
  dev_given dev_status dev_made ∧ (js "cHJpdg==" = [] ∨ conf_value (js "cHJpdg==") = true)
  ∧ ∃ ips, NoDup (commas_of ips)
     ∧ js "192.168.1.0/24" ∈ commas_of ips.
Proof.
  assert (js "cHJpdg==" = [] ∨ conf_value (js "cHJpdg==") = true) as Hp by (right; by_compute).
  split; [exact dev_made_given|]. split; [exact Hp|].
  destruct (device_config_reads dev_status dev_made (js "cHJpdg==") (js "My phone") devices_html dev_made_given Hp)
    as (ips & _ & Hin & Hn & _). exists ips. split; [exact Hn|]. apply Hin. right. eexists. split; [left|]. reflexivity.
Defined.

Definition dev_session : list dev_event :=
  [VOpen true; VReply 0 (BCan true); VEdit (DevForm (js "safe") [] true false true true false [] (js "2027-01-01") false false (js "hunter2") (js "123456"));
   VSubmit; VReply 0 (BKeys (Keypair (js "cHJpdg==") (js "cHVi"))); VReply 0 (BCreated dev_made); VReply 0 (BStatus dev_status); VClose].

Lemma closed_device_editor_empty_witness :
  all_in_view [] (λ d, Some d) [] devices_html dev_session
  ∧ dv_sent (dev_run [] (λ d, Some d) [] devices_html dev_session)
    = [VBreakglass (js "safe") (js "cHVi") [] false (js "2027-01-01") (js "hunter2") (js "123456"); VStatus; VRefresh]
  ∧ dv_config (dev_run [] (λ d, Some d) [] devices_html dev_session) = [].
Proof.
  assert (all_in_view [] (λ d, Some d) [] devices_html dev_session) as Hv by (repeat split).
  split; [exact Hv|]. split; [by_compute|].
  exact (proj1 (proj1 (closed_device_editor_empty [] (λ d, Some d) [] dev_session Hv) eq_refl)).
Defined.
