(* ===== verification/Vpn.v ===== *)
(** * The VPN page (web/app.js, VPN page)

    What the VPN page shows: the endpoint and its sites, the devices, the
    people who are logged in, the map of what is set up, and the LAN policies,
    each from what the server answered.  Dates and the locale's texts of them
    are the browser's: [date_ms] is the moment of a date text, [None] when it
    is none, and [now] the present one. *)

From Stdlib Require Import Ascii String ZArith NArith Lia.
From Stdlib Require Import SpecFloat.
From stdpp Require Import base list gmap strings numbers.
From S2P Require Import Prelude JsString Html Double Fields Subjects HostForm Sites Policies Settings Traffic.

Local Open Scope Z_scope.

(** ** Amounts *)

Fixpoint thousands (fuel : nat) (n : f64) (i : nat) : f64 * nat :=
  match fuel with
  | O => (n, i)
  | S k => if fleb (f_of_Z 1000) n then thousands k (fdiv n (f_of_Z 1000)) (Datatypes.S i) else (n, i)
  end.
(** There are five units: four rounds at most. *)
Definition units : list jstr := map js ["B"; "kB"; "MB"; "GB"; "TB"].
Definition fmtBytes (n : f64) : jstr :=
  if negb (f_truthy n) then js "0 B"
  else
    let (m, i) := thousands 4 n 0 in
    (if fleb (f_of_Z 100) m || (i =? 0)%nat then js_of_Z (round_Z m) else to_fixed 1 m) ++ js " " ++ default [] (units !! i).

(** ** Data *)

(** [GET /api/wg/status]: the endpoint, and the live state of its peers. *)
Record peer_state : Type := PeerState {
  pe_id : Z; pe_up : bool; pe_handshake : jstr; pe_endpoint : jstr; pe_rx : f64; pe_tx : f64; pe_connections : Z; pe_warning : jstr }.
Record vpn_status : Type := VpnStatus {
  vx_enabled : bool; vx_running : bool; vx_port : Z; vx_address : jstr; vx_network : jstr; vx_public_key : jstr; vx_endpoint : jstr;
  vx_error : jstr; vx_unreadable : bool; vx_sites : list peer_state; vx_devices : list peer_state }.
Record vsite : Type := VSite { vs_site : wg_site; vs_address : jstr }.
Record vdevice : Type := VDevice {
  vd_id : Z; vd_name : jstr; vd_kind : jstr; vd_address : jstr; vd_enabled : bool; vd_revoked : bool; vd_email : jstr; vd_sub : jstr;
  vd_provider : Z; vd_expires : jstr; vd_routes : list route }.
Record vsession : Type := VSession {
  vn_id : Z; vn_provider : Z; vn_sub : jstr; vn_email : jstr; vn_groups : list jstr; vn_state : jstr; vn_transient : bool;
  vn_grace : jstr; vn_lease : jstr; vn_hard : jstr; vn_renewed : jstr }.
Record owner : Type := Owner { ow_provider : Z; ow_sub : jstr; ow_email : jstr }.

(** A state as a row shows it: the class of its badge, its text and title. *)
Record vbadge : Type := VBadge { vb_class : jstr; vb_text : jstr; vb_title : jstr }.

Section vpn.
Context (now : Z) (date_ms : jstr → option Z) (date_text time_text : jstr → jstr).

(** Comparisons with a date that is none are false. *)
Definition date_lt (a b : option Z) : bool := match a, b with Some a, Some b => a <? b | _, _ => false end.

Definition ago (ts : jstr) : jstr :=
  match date_ms ts with
  | Some t =>
      let sec := Z.max 0 (round_div (now - t) 1000) in
      if sec <? 90 then js_of_Z sec ++ js " s ago"
      else if sec <? 5400 then js_of_Z (round_div sec 60) ++ js " min ago"
      else js_of_Z (round_div sec 3600) ++ js " h ago"
  | None => js "NaN h ago"
  end.

(** The live state of a peer by its number: the last one of the list. *)
Definition live_of (l : list peer_state) (id : Z) : option peer_state := List.find (λ p, pe_id p =? id) (rev l).
Definition seen (p : peer_state) : bool := truthy (pe_handshake p) && negb (starts_with (js "0001") (pe_handshake p)).
Definition traffic_cell (p : option peer_state) : jstr :=
  match p with
  | Some p =>
      fmtBytes (pe_rx p) ++ js " in, " ++ fmtBytes (pe_tx p) ++ js " out"
      ++ (if pe_connections p =? 0 then [] else js ", " ++ js_of_Z (pe_connections p) ++ js " open")
  | None => js "-"
  end.

(** ** The endpoint and its sites *)

Definition status_line (s : vpn_status) : jstr * bool :=
  (if vx_enabled s && vx_running s then
     js "Listening on UDP " ++ js_of_Z (vx_port s) ++ js " as " ++ vx_address s ++ js " in " ++ vx_network s ++ js "."
   else if vx_enabled s then
     js "Not running: " ++ str_or (vx_error s) (js "unknown error") ++ js ". Upstreams that name a site answer 502 until this is fixed."
   else js "Off. Nothing listens and no upstream can use a site.",
   vx_enabled s && negb (vx_running s)).

Definition site_badge (s : vpn_status) (x : vsite) : vbadge :=
  let d := wg_data (vs_site x) in
  let st := live_of (vx_sites s) (wg_id (vs_site x)) in
  let b :=
    if sd_enabled d && negb (vx_running s) then VBadge (js "badge--danger") (js "endpoint down") []
    else match (if sd_enabled d then st else None) with
         | Some p =>
             if pe_up p then
               VBadge (js "badge--success") (js "up")
                 (js "last handshake " ++ ago (pe_handshake p)
                  ++ (if truthy (pe_endpoint p) then js ", seen at " ++ pe_endpoint p else []))
             else if seen p then VBadge (js "badge--danger") (js "no handshake") (js "last handshake " ++ ago (pe_handshake p))
             else VBadge (js "badge--muted") (js "waiting")
                    (js "no handshake yet. quicgate starts one with the first request when the site has an endpoint; otherwise the site has to call.")
         | None =>
             if sd_enabled d then
               VBadge (js "badge--muted") (js "waiting")
                 (js "no handshake yet. quicgate starts one with the first request when the site has an endpoint; otherwise the site has to call.")
             else VBadge (js "badge--muted") (js "disabled") []
         end in
  match st with
  | Some p => if truthy (pe_warning p) then VBadge (vb_class b) (vb_text b) (pe_warning p ++ js ". " ++ vb_title b) else b
  | None => b
  end.
Definition badge_html (b : vbadge) : list piece :=
  [Lit (jq "<span class=`badge " ++ vb_class b ++ jq "`>"); ev (vb_text b); Lit (js "</span>")].
Definition site_state_html (s : vpn_status) (x : vsite) : list piece :=
  badge_html (site_badge s x)
  ++ match live_of (vx_sites s) (wg_id (vs_site x)) with
     | Some p => if truthy (pe_warning p) then [Lit (jq " <span class=`badge badge--danger`>endpoint</span>")] else []
     | None => []
     end.

(** ** Devices *)

Definition shown_devices (l : list vdevice) : list vdevice := List.filter (λ d, negb (vd_revoked d)) l.
Definition device_badge (s : vpn_status) (d : vdevice) : vbadge :=
  let st := live_of (vx_devices s) (vd_id d) in
  if vd_enabled d && negb (vx_running s) then VBadge (js "badge--danger") (js "endpoint down") []
  else if vd_enabled d then
    match st with
    | None =>
        VBadge (js "badge--muted") (js "no access")
          (if bool_decide (vd_kind d = js "sso")
           then js "The owner's login ran out, was ended, or no longer allows a device. Logging in at the portal brings it back."
           else js "The device has expired.")
    | Some p =>
        if pe_up p then
          VBadge (js "badge--success") (js "connected")
            (js "last handshake " ++ ago (pe_handshake p) ++ (if truthy (pe_endpoint p) then js ", from " ++ pe_endpoint p else []))
        else VBadge (js "badge--muted") (js "not connected")
               (if seen p then js "last handshake " ++ ago (pe_handshake p) else js "never seen")
    end
  else VBadge (js "badge--muted") (js "disabled") [].

(** The owner: markup and title, or text and title. *)
Definition owner_cell (providers : people) (d : vdevice) : (jstr + list piece) * jstr :=
  if bool_decide (vd_kind d = js "breakglass") then
    let expired := truthy (vd_expires d) && date_lt (date_ms (vd_expires d)) (Some now) in
    (inr [Lit (jq "<span class=`badge badge--danger`>break-glass</span> <span class=`hs-muted`>");
          ev (if truthy (vd_expires d) then (if expired then js "expired " else js "until ") ++ date_text (vd_expires d)
              else js "never expires");
          Lit (js "</span>")],
     js "Reaches: " ++ join (js ", ") (map describeRoute (vd_routes d)))
  else if bool_decide (vd_kind d = js "sso") then
    (inl (str_or (vd_email d) (vd_sub d)), providerName providers (vd_provider d) ++ js ", subject " ++ vd_sub d)
  else (inr [Lit (jq "<span class=`hs-muted`>added by an admin</span>")], []).

(** ** People *)

Definition is_blocked (blocked : list owner) (s : vsession) : bool :=
  existsb (λ b, (ow_provider b =? vn_provider s) && bool_decide (ow_sub b = vn_sub s)) blocked.
Definition until_text (s : vsession) : jstr :=
  if vn_transient s && date_lt (date_ms (vn_lease s)) (date_ms (vn_grace s)) then vn_grace s else vn_lease s.
Definition live_now (s : vsession) : bool :=
  bool_decide (vn_state s = js "active") && date_lt (Some now) (date_ms (until_text s)) && date_lt (Some now) (date_ms (vn_hard s)).
Definition session_badge (blocked : list owner) (s : vsession) : vbadge :=
  if is_blocked blocked s then
    VBadge (js "badge--danger") (js "blocked") (js "A login does not bring the devices back until the block is lifted.")
  else if live_now s && vn_transient s then
    VBadge (js "badge--danger") (js "provider unreachable")
      (js "The last check failed without an answer about the account. Access lasts until " ++ time_text (until_text s) ++ js ".")
  else if live_now s then
    VBadge (js "badge--success") (js "active") (js "checked " ++ ago (vn_renewed s) ++ js ", good until " ++ time_text (until_text s))
  else
    VBadge (js "badge--muted") (if bool_decide (vn_state s = js "ended") then js "ended by an admin" else js "ran out")
      (js "A login at the portal starts a new one.").
(** The row: who, groups, state, how long at most, and the buttons. *)
Record session_row : Type := SessionRow {
  sr_who : jstr; sr_title : jstr; sr_groups : jstr; sr_badge : vbadge; sr_hard : jstr; sr_end : bool; sr_block : bool }.
Definition session_row_of (providers : people) (blocked : list owner) (s : vsession) : session_row :=
  SessionRow (str_or (vn_email s) (vn_sub s)) (providerName providers (vn_provider s) ++ js ", subject " ++ vn_sub s)
    (str_or (join (js ", ") (vn_groups s)) (js "-")) (session_badge blocked s)
    (if live_now s then date_text (vn_hard s) else js "-") (live_now s) (negb (is_blocked blocked s)).

(** ** The map of what is set up *)

Record map_line : Type := MapLine { ml_text : jstr; ml_on : bool; ml_blocked : bool }.
Definition is_portal (h : host) : bool := bool_decide (h_type h = js "vpn-portal").
Definition portal_domain (h : host) : jstr := default (js "undefined") (head (h_domains h)).

Definition vm_endpoint (s : vpn_status) : map_line :=
  MapLine
    (if negb (vx_enabled s) then js "Off."
     else if vx_running s then
       js "On, UDP " ++ js_of_Z (vx_port s) ++ (if truthy (vx_endpoint s) then [] else js ". No public address yet: devices need one.")
     else js "On, but not running.") (vx_running s) false.
Definition vm_sites (s : vpn_status) (sites : list vsite) : map_line :=
  MapLine (if negb (vx_enabled s) then js "Needs the endpoint." else plural (Z.of_nat (length sites)) (js "site") (js "sites") ++ js ".")
    (0 <? length sites)%nat (negb (vx_enabled s)).
Definition vm_devices (s : vpn_status) (devices : list vdevice) (hosts : list host) : map_line :=
  let shown := length (shown_devices devices) in
  MapLine
    (if negb (vx_enabled s) then js "Needs the endpoint."
     else plural (Z.of_nat shown) (js "device") (js "devices") ++ js ", "
          ++ plural (Z.of_nat (length (List.filter (λ h, o_vpnOnly (h_options h)) hosts))) (js "VPN-only host") (js "VPN-only hosts") ++ js ".")
    (0 <? shown)%nat (negb (vx_enabled s)).
Definition vm_people (s : vpn_status) (lan : bool) (providers : list provider) (hosts : list host) (sessions : list vsession) (policies : nat) : map_line :=
  let portals := List.filter is_portal hosts in
  MapLine
    (if negb (vx_enabled s) then js "Needs the endpoint."
     else match providers, portals with
          | [], _ => js "Needs an identity provider first (Access lists page)."
          | _, [] => js "No portal host yet."
          | _, h :: _ =>
              js "Portal at " ++ portal_domain h ++ js ". " ++ plural (Z.of_nat (length sessions)) (js "person") (js "people")
              ++ js ". LAN access " ++ (if lan then js "on" else js "off") ++ js ", "
              ++ plural (Z.of_nat policies) (js "policy") (js "policies") ++ js "."
          end)
    (match portals with [] => false | _ => true end) (negb (vx_enabled s)).

(** ** The rows and the whole page *)

Record site_row : Type := SiteRow {
  tr_name : jstr; tr_title : jstr; tr_networks : jstr; tr_endpoint : jstr; tr_calls_in : bool; tr_state : list piece; tr_state_title : jstr;
  tr_traffic : jstr; tr_enabled : bool }.
Definition site_row_of (s : vpn_status) (x : vsite) : site_row :=
  let d := wg_data (vs_site x) in
  SiteRow (sd_name d) (js "tunnel address " ++ vs_address x) (join (js ", ") (sd_networks d)) (str_or (sd_endpoint d) (js "calls in"))
    (negb (truthy (sd_endpoint d))) (site_state_html s x) (vb_title (site_badge s x))
    (traffic_cell (live_of (vx_sites s) (wg_id (vs_site x)))) (sd_enabled d).
Record device_row : Type := DeviceRow {
  dr_name : jstr; dr_owner : (jstr + list piece) * jstr; dr_address : jstr; dr_badge : vbadge; dr_traffic : jstr; dr_on : bool }.
Definition device_row_of (s : vpn_status) (pp : people) (d : vdevice) : device_row :=
  DeviceRow (vd_name d) (owner_cell pp d) (vd_address d) (device_badge s d) (traffic_cell (live_of (vx_devices s) (vd_id d))) (vd_enabled d).
Definition policy_row (localeLeb : jstr → jstr → bool) (pp : people) (p : policy) : jstr * jstr * jstr :=
  (po_name p, describeSubject localeLeb pp (po_subject p), join [10%N] (map describeRoute (default [] (po_routes p)))).

Definition sessions_text (portals : list host) : jstr :=
  match portals with
  | h :: _ => js "Nobody has logged in yet. People log in at https://" ++ portal_domain h ++ js "/ and add their own devices there."
  | [] => jq "Nobody can log in yet: there is no VPN portal. A portal is a host of type `VPN portal` (step 4 above adds one). People log in there with single sign-on and add their own devices; quicgate then checks with the identity provider every few minutes whether they may still be on the VPN."
  end.
Definition blocked_text (l : list owner) : jstr :=
  match l with [] => [] | _ => js "Blocked: " ++ join (js ", ") (map (λ b, str_or (ow_email b) (ow_sub b) ++ js " lift") l) end.
Definition lan_line (lan off : bool) : jstr :=
  if lan then js "On. People reach what their policies name; everything else, and this machine itself, is refused. Every flow is written to logs/vpn-flows.log."
  else if off then js "Off, and it needs the endpoint first. Devices would reach quicgate's own hosts and nothing else."
  else js "Off. Devices reach quicgate's own hosts and nothing else.".
Definition policies_text (lan : bool) : jstr :=
  if lan then js "No policies: nobody reaches anything on the LAN. A policy gives a group, a person or everybody from one identity provider a list of destinations."
  else js "No policies. They take effect once LAN access is on: a policy gives a group, a person or everybody from one identity provider a list of destinations on this network.".

(** What the page has of the server, and what it shows of it. *)
Record vpn_data : Type := VpnData {
  va_settings : server_settings; va_status : vpn_status; va_sites : list vsite; va_devices : list vdevice; va_sessions : list vsession;
  va_blocked : list owner; va_policies : list policy; va_hosts : list host; va_people : people }.
Record people_page : Type := PeoplePage {
  vp_network_disabled : bool; vp_add_disabled : bool; vp_breakglass_hidden : bool; vp_devices : list device_row; vp_map : list map_line;
  vp_portal_hidden : bool; vp_waiting : bool; vp_sessions : list session_row; vp_sessions_text : jstr; vp_blocked : jstr; vp_leases : list jstr;
  vp_lan : lan_form; vp_lan_line : jstr; vp_policies : list (jstr * jstr * jstr); vp_policies_text : jstr }.
Record vpn_page : Type := VpnPage {
  vp_wg : wg_form; vp_line : jstr * bool; vp_pubkey : jstr; vp_reset_hidden : bool; vp_people : people_page; vp_sites : list site_row;
  vp_note_hidden : bool }.

(** [refreshVPNDevices] and [refreshVPN] from their replies on. *)
Definition refreshVPNDevices (localeLeb : jstr → jstr → bool) (v : vpn_data) : people_page :=
  let s := va_status v in
  let off := negb (vx_enabled s) in
  let lan := is_on (va_settings v) "wg_lan_access" in
  {| vp_network_disabled := (0 <? length (va_sites v))%nat || existsb negb (map vd_revoked (va_devices v));
     vp_add_disabled := negb (vx_running s);
     vp_breakglass_hidden := negb lan; vp_devices := map (device_row_of s (va_people v)) (shown_devices (va_devices v));
     vp_map := [vm_endpoint s; vm_sites s (va_sites v); vm_devices s (va_devices v) (va_hosts v);
                vm_people s lan (oidcProviders (va_people v)) (va_hosts v) (va_sessions v) (length (va_policies v))];
     vp_portal_hidden := existsb is_portal (va_hosts v); vp_waiting := off;
     vp_sessions := map (session_row_of (va_people v) (va_blocked v)) (va_sessions v);
     vp_sessions_text := sessions_text (List.filter is_portal (va_hosts v)); vp_blocked := blocked_text (va_blocked v);
     vp_leases := lease_load (va_settings v); vp_lan := lan_load (va_settings v); vp_lan_line := lan_line lan off;
     vp_policies := map (policy_row localeLeb (va_people v)) (va_policies v); vp_policies_text := policies_text lan |}.
Definition refreshVPN (localeLeb : jstr → jstr → bool) (v : vpn_data) : vpn_page :=
  let s := va_status v in
  let nsites := length (va_sites v) in
  {| vp_wg := wg_lock nsites (map vd_revoked (va_devices v)) (wg_load (va_settings v) nsites);
     vp_line := status_line s; vp_pubkey := str_or (vx_public_key s) (js "-"); vp_reset_hidden := negb (vx_unreadable s);
     vp_people := refreshVPNDevices localeLeb v; vp_sites := map (site_row_of s) (va_sites v);
     vp_note_hidden := negb (existsb (λ x, negb (truthy (sd_endpoint (wg_data (vs_site x))))) (va_sites v)) |}.

(** ** The buttons of people *)

(** A person's login is ended, the person blocked, a block lifted; the tables
    of sites, devices and policies are listings (Tables).  What a button does
    is told by the page it is on: whether it is there, what it asks, and what
    it sends. *)
Inductive people_click : Type := CEnd (i : nat) | CBlock (i : nat) | CLift (i : nat).
Inductive people_request : Type := QEnd (id : Z) | QBlock (o : owner) | QUnblock (provider : Z) (sub : jstr).
Definition click_request (v : vpn_data) (c : people_click) : option (option jstr * people_request) :=
  match c with
  | CEnd i =>
      s ← va_sessions v !! i;
      if live_now s then Some (Some (js "End the login of " ++ vn_email s ++ js "? Their devices stop until they log in at the portal again."), QEnd (vn_id s))
      else None
  | CBlock i =>
      s ← va_sessions v !! i;
      if is_blocked (va_blocked v) s then None
      else Some (Some (js "Block " ++ vn_email s ++ js " from the VPN? Their devices stop now and stay off, whatever the identity provider says, until you lift the block."),
                 QBlock (Owner (vn_provider s) (vn_sub s) (vn_email s)))
  | CLift i => b ← va_blocked v !! i; Some (None, QUnblock (ow_provider b) (ow_sub b))
  end.

Record people_ui : Type := PeopleUi {
  pu_data : vpn_data; pu_jobs : nat; pu_sent : list people_request; pu_refreshes : nat; pu_alerts : list jstr }.
Inductive people_event : Type :=
  | VLoaded (v : vpn_data) | VClick (c : people_click) (yes : bool) | VDone | VFailed (message : jstr).
Definition people_step (u : people_ui) (e : people_event) : people_ui :=
  match e with
  | VLoaded v => PeopleUi v (pu_jobs u) (pu_sent u) (pu_refreshes u) (pu_alerts u)
  | VClick c yes =>
      match click_request (pu_data u) c with
      | Some (question, q) =>
          if match question with Some _ => yes | None => true end
          then PeopleUi (pu_data u) (S (pu_jobs u)) (pu_sent u ++ [q]) (pu_refreshes u) (pu_alerts u)
          else u
      | None => u
      end
  | VDone => match pu_jobs u with O => u | S n => PeopleUi (pu_data u) n (pu_sent u) (S (pu_refreshes u)) (pu_alerts u) end
  | VFailed m => match pu_jobs u with O => u | S n => PeopleUi (pu_data u) n (pu_sent u) (pu_refreshes u) (pu_alerts u ++ [m]) end
  end.

(** ** What the states say *)

Ltac texts_differ := intros; exfalso; match goal with H : js _ = js _ |- _ => revert H; apply (bool_decide_unpack _); by_compute end.
Ltac facts_differ :=
  intros; exfalso; repeat match goal with H : _ ∧ _ |- _ => destruct H | H : ∃ _, _ |- _ => destruct H end; congruence.

Lemma site_badge_text s x :
  let d := wg_data (vs_site x) in
  let st := live_of (vx_sites s) (wg_id (vs_site x)) in
  vb_text (site_badge s x) =
    if sd_enabled d then
      if vx_running s then
        match st with
        | Some p => if pe_up p then js "up" else if seen p then js "no handshake" else js "waiting"
        | None => js "waiting"
        end
      else js "endpoint down"
    else js "disabled".
Proof.
  cbv zeta. unfold site_badge.
  assert (∀ (b : vbadge) o, vb_text match o with Some p => if truthy (pe_warning p) then VBadge (vb_class b) (vb_text b) (pe_warning p ++ js ". " ++ vb_title b) else b | None => b end = vb_text b) as E
    by (intros b [p|]; [destruct (truthy _)|]; done).
  rewrite E. destruct (sd_enabled _), (vx_running s); cbn [andb negb]; try done.
  destruct (live_of _ _) as [p|]; [|done]. destruct (pe_up p); [done|]. by destruct (seen p).
Qed.

Lemma device_badge_text s d :
  let st := live_of (vx_devices s) (vd_id d) in
  vb_text (device_badge s d) =
    if vd_enabled d then
      if vx_running s then
        match st with Some p => if pe_up p then js "connected" else js "not connected" | None => js "no access" end
      else js "endpoint down"
    else js "disabled".
Proof.
  cbv zeta. unfold device_badge. destruct (vd_enabled d), (vx_running s); cbn [andb negb]; try done.
  destruct (live_of _ _) as [p|]; [|done]. by destruct (pe_up p).
Qed.

Lemma session_badge_text blocked s :
  vb_text (session_badge blocked s) =
    if is_blocked blocked s then js "blocked"
    else if live_now s then if vn_transient s then js "provider unreachable" else js "active"
    else if bool_decide (vn_state s = js "ended") then js "ended by an admin" else js "ran out".
Proof. unfold session_badge. destruct (is_blocked _ _); [done|]. by destruct (live_now s), (vn_transient s). Qed.

Lemma date_lt_spec a b : date_lt a b = true ↔ ∃ x y, a = Some x ∧ b = Some y ∧ x < y.
Proof.
  destruct a as [x|], b as [y|]; cbn; [rewrite Z.ltb_lt|..]; (split; [try done|]).
  - intros. by exists x, y.
  - by intros (? & ? & [= <-] & [= <-] & ?).
  - by intros (? & ? & ? & ? & ?).
  - by intros (? & ? & ? & ? & ?).
  - by intros (? & ? & ? & ? & ?).
Qed.

(** A login that lets its devices in: still active at the provider, or within
    the grace after a check that got no answer, and before its hard end. *)
Definition lets_in (s : vsession) : Prop :=
  vn_state s = js "active"
  ∧ (∃ h, date_ms (vn_hard s) = Some h ∧ now < h)
  ∧ ∃ u, (date_ms (vn_lease s) = Some u ∨ (vn_transient s = true ∧ date_ms (vn_grace s) = Some u)) ∧ now < u.

Lemma live_now_spec s : date_ms (vn_lease s) ≠ None → live_now s = true ↔ lets_in s.
Proof.
  intros Hl. unfold live_now, lets_in, until_text. rewrite !andb_true_iff, bool_decide_eq_true, !date_lt_spec. split.
  - intros [[Hs (x & y & [= <-] & Hy & Hlt)] (x' & h & [= <-] & Hh & Hlt')]. split; [done|]. split; [by exists h|].
    exists y. split; [|done]. destruct (vn_transient s) eqn:Et; cbn [andb] in Hy; [|by left].
    destruct (date_lt _ _); [by right|by left].
  - intros (Hs & (h & Hh & Hlt) & u & Hu & Hlt'). split; [split; [done|]|by exists now, h].
    destruct (vn_transient s) eqn:Et; cbn [andb]; [|destruct Hu as [Hu|[? _]]; [by exists now, u|done]].
    destruct (date_ms (vn_lease s)) as [l|] eqn:El; [|done].
    destruct (date_lt (Some l) (date_ms (vn_grace s))) eqn:Ed.
    + apply date_lt_spec in Ed as (a & g & [= <-] & Eg & Hag). exists now, g. split; [done|]. split; [done|].
      destruct Hu as [[= <-]|[_ Hu]]; [lia|]. rewrite Eg in Hu. by injection Hu as ->.
    + exists now, l. split; [done|]. split; [done|]. destruct Hu as [[= <-]|[_ Hu]]; [done|].
      rewrite Hu in Ed. cbn in Ed. apply Z.ltb_ge in Ed. lia.
Qed.

(** C23. The VPN page says that something works only when it does: a site is
    "up" and a device "connected" exactly when it is enabled, the endpoint
    runs and its peer is up, and both are "endpoint down" exactly when they
    are enabled and the endpoint does not run; a person is "active" exactly
    when the login lets devices in, the last check was answered and nobody
    blocked the person; a login that lets devices in, blocked or not, can be
    ended, and a person who is not blocked can be blocked. *)
Theorem vpn_states_honest (s : vpn_status) x d blocked v pp : date_ms (vn_lease v) ≠ None →
  (vb_text (site_badge s x) = js "up" ↔
     sd_enabled (wg_data (vs_site x)) = true ∧ vx_running s = true
     ∧ ∃ p, live_of (vx_sites s) (wg_id (vs_site x)) = Some p ∧ pe_up p = true)
  ∧ (vb_text (device_badge s d) = js "connected" ↔
     vd_enabled d = true ∧ vx_running s = true ∧ ∃ p, live_of (vx_devices s) (vd_id d) = Some p ∧ pe_up p = true)
  ∧ (vb_text (site_badge s x) = js "endpoint down" ↔ sd_enabled (wg_data (vs_site x)) = true ∧ vx_running s = false)
  ∧ (vb_text (device_badge s d) = js "endpoint down" ↔ vd_enabled d = true ∧ vx_running s = false)
  ∧ (vb_text (session_badge blocked v) = js "active" ↔ lets_in v ∧ vn_transient v = false ∧ is_blocked blocked v = false)
  ∧ (sr_end (session_row_of pp blocked v) = true ↔ lets_in v)
  ∧ (sr_block (session_row_of pp blocked v) = true ↔ ∀ b, b ∈ blocked → (ow_provider b, ow_sub b) ≠ (vn_provider v, vn_sub v)).
Proof.
  intros Hl. rewrite site_badge_text, device_badge_text, session_badge_text. split_and!.
  - destruct (sd_enabled _), (vx_running s); [|split; [texts_differ|facts_differ]..].
    destruct (live_of _ _) as [p|]; [destruct (pe_up p) eqn:Eu; [naive_solver|destruct (seen p)]|];
      (split; [texts_differ|facts_differ]).
  - destruct (vd_enabled d), (vx_running s); [|split; [texts_differ|facts_differ]..].
    destruct (live_of _ _) as [p|]; [destruct (pe_up p) eqn:Eu; [naive_solver|]|]; (split; [texts_differ|facts_differ]).
  - destruct (sd_enabled _), (vx_running s); [repeat case_match; (split; [texts_differ|facts_differ])|naive_solver|..];
      (split; [texts_differ|facts_differ]).
  - destruct (vd_enabled d), (vx_running s); [repeat case_match; (split; [texts_differ|facts_differ])|naive_solver|..];
      (split; [texts_differ|facts_differ]).
  - rewrite <- live_now_spec by done. destruct (is_blocked blocked v); [split; [texts_differ|facts_differ]|].
    destruct (live_now v); [|case_bool_decide; (split; [texts_differ|facts_differ])].
    destruct (vn_transient v); [split; [texts_differ|facts_differ]|naive_solver].
  - cbn [sr_end session_row_of]. by apply live_now_spec.
  - cbn [sr_block session_row_of]. rewrite negb_true_iff, <- not_true_iff_false. unfold is_blocked. rewrite existsb_exists. split.
    + intros H b Hb [= E1 E2]. apply H. exists b. split; [by apply list_elem_of_In|]. apply andb_true_iff.
      split; [by apply Z.eqb_eq|by apply bool_decide_eq_true].
    + intros H (b & Hb%list_elem_of_In & [E1%Z.eqb_eq E2%bool_decide_eq_true]%andb_true_iff). apply (H b Hb). congruence.
Qed.

(** The buttons that are shown are those that send something. *)
Lemma clicks_offered pp v i s : va_sessions v !! i = Some s →
  (sr_end (session_row_of pp (va_blocked v) s) = true ↔ is_Some (click_request v (CEnd i)))
  ∧ (sr_block (session_row_of pp (va_blocked v) s) = true ↔ is_Some (click_request v (CBlock i))).
Proof.
  intros H. cbn [sr_end sr_block session_row_of click_request]. rewrite H. cbn.
  by destruct (live_now s), (is_blocked (va_blocked v) s); split; split; first [done | intros [? ?]; done | by eexists].
Qed.

(** ** Markup *)

Lemma badge_html_ok b : vb_class b ∈ map js ["badge--danger"; "badge--success"; "badge--muted"] → contained (badge_html b).
Proof.
  intros H. split; [|unfold badge_html; inerts_by]. destruct b as [cls text title]. unfold badge_html. cbn [vb_class vb_text] in *. cbn [map] in H.
  repeat (apply elem_of_cons in H as [->|H]; [tpl_end_by|]). by apply not_elem_of_nil in H.
Qed.
Ltac badge_class := apply (bool_decide_unpack _); by_compute.

Lemma site_state_ok s x : contained (site_state_html s x).
Proof.
  unfold site_state_html. apply contained_app.
  - apply badge_html_ok. unfold site_badge. repeat (case_match; cbn [vb_class]); badge_class.
  - repeat case_match; [contained_by|apply contained_nil..].
Qed.
Lemma device_state_ok s d : contained (badge_html (device_badge s d)).
Proof. apply badge_html_ok. unfold device_badge. repeat (case_match; cbn [vb_class]); badge_class. Qed.
Lemma session_state_ok blocked s : contained (badge_html (session_badge blocked s)).
Proof. apply badge_html_ok. unfold session_badge. repeat (case_match; cbn [vb_class]); badge_class. Qed.
Lemma owner_cell_ok pp d : match (owner_cell pp d).1 with inl _ => True | inr l => contained l end.
Proof. unfold owner_cell. repeat case_match; try done; cbn [fst] in *; simplify_eq; contained_by. Qed.
End vpn.

(** ** The properties at concrete inputs *)

(** Dates written as milliseconds. *)
Definition ms (s : jstr) : option Z := parse_int s.
Definition some_login : vsession :=
  VSession 1 7 (js "u-1") (js "ann@example.com") [js "staff"] (js "active") true (js "9000") (js "4000") (js "99000") (js "3000").
Definition some_status : vpn_status :=
  VpnStatus true true 51820 (js "10.77.0.1") (js "10.77.0.0/24") (js "c2Vy") [] [] false [] [PeerState 3 true (js "4500") [] f_zero (f_of_Z 1500) 2 []].
Definition some_device : vdevice := VDevice 3 (js "phone") (js "sso") (js "10.77.0.9") true false (js "ann@example.com") (js "u-1") 7 [] [].

Lemma vpn_states_honest_witness :
  ms (vn_lease some_login) ≠ None
  ∧ sr_end (session_row_of 5000 ms id id (People [] [] [] []) [] some_login) = true
  ∧ vb_text (device_badge 5000 ms some_status some_device) = js "connected"
  ∧ traffic_cell (live_of (vx_devices some_status) 3) = js "0 B in, 1.5 kB out, 2 open".
Proof.
  assert (ms (vn_lease some_login) ≠ None) as Hl by (vm_compute; congruence). split; [exact Hl|].
  destruct (vpn_states_honest 5000 ms id id some_status (VSite sample_site []) some_device [] some_login (People [] [] [] []) Hl)
    as (_ & H2 & _ & _ & _ & H6 & _).
  split; [|split; [|by_compute]].
  - apply H6. split; [reflexivity|]. split; [exists 99000; split; [by_compute|lia]|]. exists 9000. split; [right; split; [reflexivity|by_compute]|lia].
  - apply H2. split; [reflexivity|]. split; [reflexivity|]. eexists. split; [by_compute|reflexivity].
Defined.
