(* ===== verification/VpnPage.v ===== *)
(** * Loading the VPN page (web/app.js, refreshVPN and refreshVPNDevices)

    [refreshVPN] writes the page in steps, each when what it waits for has
    arrived: the endpoint first, then the hosts if none are known, then the
    policies, blocks, devices and logins together, then the providers if none
    are known, and the rest of the page.  Every button of the page calls it
    again, so several run at a time and share the tables they load.  The page
    of Vpn is what one of them writes in the end; this file is how it comes
    about, and that it does while the server stays as it is.  The calls may
    fail, and then leave the page as it was or the rest of it to the others. *)

From Stdlib Require Import Ascii String ZArith NArith Lia.
From stdpp Require Import base list gmap strings numbers.
From S2P Require Import Prelude JsString Html Double Fields Subjects HostForm Sites Policies Settings Router Vpn.

Local Open Scope Z_scope.

(** ** The server *)

(** What the server has: the replies of the nine requests. *)
Record vpn_server : Type := VpnServer {
  sv_settings : server_settings; sv_status : vpn_status; sv_sites : list vsite; sv_devices : list vdevice; sv_sessions : list vsession;
  sv_blocked : list owner; sv_policies : list policy; sv_hosts : list host; sv_providers : list provider }.

Definition site_of (x : vsite) : site :=
  let d := wg_data (vs_site x) in Site (wg_id (vs_site x)) (sd_name d) (sd_networks d) (sd_enabled d).
Definition device_of (d : vdevice) : device :=
  Device (vd_id d) (vd_kind d) (vd_name d) (vd_provider d) (vd_sub d) (vd_email d) (vd_revoked d).
Definition session_of (s : vsession) : session := Session (vn_provider s) (vn_sub s) (vn_email s) (vn_groups s).

(** ** The page and its loads *)

(** A call of [refreshVPN] and what it still waits for: the settings, the
    status and the sites ([VFirst]; [VSites] when one of the first two has
    failed, and the sites are only kept), the hosts, the four tables, the
    providers. *)
Inductive vpn_job : Type :=
  | VFirst (s : option server_settings) (st : option vpn_status) (sites : bool)
  | VSites
  | VHosts (s : server_settings) (st : vpn_status)
  | VTables (s : server_settings) (st : vpn_status) (policies : option (list policy)) (blocked : option (list owner))
      (devices : option (list vdevice)) (sessions : option (list vsession))
  | VProviders (s : server_settings) (st : vpn_status).

(** A reply to one request of a job; all but the settings and the status fall
    back to the empty list when they fail. *)
Inductive vpn_reply : Type :=
  | RSettings (s : server_settings) | RStatus (st : vpn_status) | RFirstFails | RSites (l : list vsite) | RHosts (l : list host)
  | RPolicies (l : list policy) | RBlocked (l : list owner) | RDevices (l : list vdevice) | RSessions (l : list vsession)
  | RProviders (l : list provider).

(** The tables the page keeps, what it shows, and the calls under way. *)
Record vpn_ui : Type := VpnUi {
  g_sites : list vsite; g_devices : list vdevice; g_sessions : list vsession; g_blocked : list owner; g_policies : list policy;
  g_hosts : list host; g_providers : list provider; g_page : vpn_page; g_jobs : list vpn_job }.

Definition with_sites (l : list vsite) (u : vpn_ui) : vpn_ui :=
  VpnUi l (g_devices u) (g_sessions u) (g_blocked u) (g_policies u) (g_hosts u) (g_providers u) (g_page u) (g_jobs u).
Definition with_people (devices : list vdevice) (sessions : list vsession) (u : vpn_ui) : vpn_ui :=
  VpnUi (g_sites u) devices sessions (g_blocked u) (g_policies u) (g_hosts u) (g_providers u) (g_page u) (g_jobs u).
Definition with_rules (policies : list policy) (blocked : list owner) (u : vpn_ui) : vpn_ui :=
  VpnUi (g_sites u) (g_devices u) (g_sessions u) blocked policies (g_hosts u) (g_providers u) (g_page u) (g_jobs u).
Definition with_hosts (l : list host) (u : vpn_ui) : vpn_ui :=
  VpnUi (g_sites u) (g_devices u) (g_sessions u) (g_blocked u) (g_policies u) l (g_providers u) (g_page u) (g_jobs u).
Definition with_providers (l : list provider) (u : vpn_ui) : vpn_ui :=
  VpnUi (g_sites u) (g_devices u) (g_sessions u) (g_blocked u) (g_policies u) (g_hosts u) l (g_page u) (g_jobs u).
Definition with_page (p : vpn_page) (u : vpn_ui) : vpn_ui :=
  VpnUi (g_sites u) (g_devices u) (g_sessions u) (g_blocked u) (g_policies u) (g_hosts u) (g_providers u) p (g_jobs u).
Definition with_jobs (l : list vpn_job) (u : vpn_ui) : vpn_ui :=
  VpnUi (g_sites u) (g_devices u) (g_sessions u) (g_blocked u) (g_policies u) (g_hosts u) (g_providers u) (g_page u) l.

(** The links of the map: one scrolls to a card, the others open a page. *)
Definition vpnmap_click (scroll goto_page : jstr) (u : ui) : ui :=
  if truthy scroll then u else if truthy goto_page then rstep u (EGoto goto_page None) else u.

Section page.
Context (now : Z) (date_ms : jstr → option Z) (date_text time_text : jstr → jstr) (localeLeb : jstr → jstr → bool).
Abbreviation refreshed := (refreshVPN now date_ms date_text time_text localeLeb).

(** The data a step reads: its own settings and status, the shared tables. *)
Definition data_of (s : server_settings) (st : vpn_status) (u : vpn_ui) : vpn_data :=
  VpnData s st (g_sites u) (g_devices u) (g_sessions u) (g_blocked u) (g_policies u) (g_hosts u)
    (People (map site_of (g_sites u)) (map device_of (g_devices u)) (map session_of (g_sessions u)) (g_providers u)).

(** [refreshVPN] when its first three requests are answered. *)
Definition endpoint_shown (s : server_settings) (st : vpn_status) (u : vpn_ui) : vpn_ui :=
  let p := g_page u in
  with_page {| vp_wg := wg_load s (length (g_sites u)); vp_line := status_line st; vp_pubkey := str_or (vx_public_key st) (js "-");
               vp_reset_hidden := negb (vx_unreadable st); vp_people := vp_people p; vp_sites := vp_sites p;
               vp_note_hidden := vp_note_hidden p |} u.
(** The rest of [refreshVPNDevices], and of [refreshVPN] after it. *)
Definition people_shown (s : server_settings) (st : vpn_status) (u : vpn_ui) : vpn_ui :=
  let p := g_page u in
  with_page {| vp_wg := wg_lock (length (g_sites u)) (map vd_revoked (g_devices u)) (vp_wg p); vp_line := vp_line p;
               vp_pubkey := vp_pubkey p; vp_reset_hidden := vp_reset_hidden p;
               vp_people := refreshVPNDevices now date_ms date_text time_text localeLeb (data_of s st u);
               vp_sites := map (site_row_of now date_ms st) (g_sites u);
               vp_note_hidden := negb (existsb (λ x, negb (truthy (sd_endpoint (wg_data (vs_site x))))) (g_sites u)) |} u.

(** [if (!hosts.length)], [if (!oidcProviders.length)]: what is known is not
    asked for again. *)
Definition after_endpoint (s : server_settings) (st : vpn_status) (u : vpn_ui) : option vpn_job * vpn_ui :=
  (Some (match g_hosts u with [] => VHosts s st | _ => VTables s st None None None None end), u).
Definition after_tables (s : server_settings) (st : vpn_status) (u : vpn_ui) : option vpn_job * vpn_ui :=
  match g_providers u with [] => (Some (VProviders s st), u) | _ => (None, people_shown s st u) end.

(** [Promise.all] goes on with its last part. *)
Definition first_join (s : option server_settings) (st : option vpn_status) (sites : bool) (u : vpn_ui) : option vpn_job * vpn_ui :=
  match s, st, sites with
  | Some s, Some st, true => after_endpoint s st (endpoint_shown s st u)
  | _, _, _ => (Some (VFirst s st sites), u)
  end.
(** [loadVPNPeople] keeps the devices and the logins when it has both. *)
Definition people_join (de : option (list vdevice)) (se : option (list vsession)) (u : vpn_ui) : vpn_ui :=
  match de, se with Some d, Some e => with_people d e u | _, _ => u end.
Definition tables_join (s : server_settings) (st : vpn_status) (po : option (list policy)) (bl : option (list owner))
    (de : option (list vdevice)) (se : option (list vsession)) (u : vpn_ui) : option vpn_job * vpn_ui :=
  match po, bl, de, se with
  | Some p, Some b, Some _, Some _ => after_tables s st (with_rules p b u)
  | _, _, _, _ => (Some (VTables s st po bl de se), u)
  end.

(** A reply to a job: what is left of the job and the page; [None] when the
    job waits for no such reply. *)
Definition vpn_continue (j : vpn_job) (r : vpn_reply) (u : vpn_ui) : option (option vpn_job * vpn_ui) :=
  match j, r with
  | VFirst None st sites, RSettings s => Some (first_join (Some s) st sites u)
  | VFirst s None sites, RStatus st => Some (first_join s (Some st) sites u)
  | VFirst s st false, RSites l => Some (first_join s st true (with_sites l u))
  | VFirst (Some _) (Some _) _, RFirstFails => None
  | VFirst _ _ sites, RFirstFails => Some (if sites then None else Some VSites, u)
  | VSites, RSites l => Some (None, with_sites l u)
  | VHosts s st, RHosts l => Some (Some (VTables s st None None None None), with_hosts l u)
  | VTables s st None bl de se, RPolicies l => Some (tables_join s st (Some l) bl de se u)
  | VTables s st po None de se, RBlocked l => Some (tables_join s st po (Some l) de se u)
  | VTables s st po bl None se, RDevices l => Some (tables_join s st po bl (Some l) se (people_join (Some l) se u))
  | VTables s st po bl de None, RSessions l => Some (tables_join s st po bl de (Some l) (people_join de (Some l) u))
  | VProviders s st, RProviders l => Some (None, people_shown s st (with_providers l u))
  | _, _ => None
  end.

Inductive vpn_event : Type := VRefresh | VReply (i : nat) (r : vpn_reply).
Definition put_back (i : nat) (j : option vpn_job) (l : list vpn_job) : list vpn_job :=
  match j with Some j => <[i := j]> l | None => delete i l end.
Definition vpn_step (u : vpn_ui) (e : vpn_event) : vpn_ui :=
  match e with
  | VRefresh => with_jobs (g_jobs u ++ [VFirst None None false]) u
  | VReply i r =>
      match g_jobs u !! i with
      | Some j =>
          match vpn_continue j r u with
          | Some (j', u') => with_jobs (put_back i j' (g_jobs u)) u'
          | None => u
          end
      | None => u
      end
  end.
Definition vpn_run (u : vpn_ui) (es : list vpn_event) : vpn_ui := fold_left vpn_step es u.

(** ** A server at rest *)

(** The page of what the server has, as Vpn builds it. *)
Definition vpn_data_of (d : vpn_server) : vpn_data :=
  VpnData (sv_settings d) (sv_status d) (sv_sites d) (sv_devices d) (sv_sessions d) (sv_blocked d) (sv_policies d) (sv_hosts d)
    (People (map site_of (sv_sites d)) (map device_of (sv_devices d)) (map session_of (sv_sessions d)) (sv_providers d)).
(** Hosts and providers that are known are used as they are. *)
Definition known_or {A} (l l' : list A) : list A := match l with [] => l' | _ => l end.
Definition with_known (hosts : list host) (providers : list provider) (d : vpn_server) : vpn_server :=
  VpnServer (sv_settings d) (sv_status d) (sv_sites d) (sv_devices d) (sv_sessions d) (sv_blocked d) (sv_policies d)
    (known_or hosts (sv_hosts d)) (known_or providers (sv_providers d)).

(** [d] is what the server has, [hosts0] and [providers0] what the page knew
    before, [page0] what it showed. *)
Section settled.
Context (d : vpn_server) (hosts0 : list host) (providers0 : list provider) (page0 : vpn_page).

Definition told (r : vpn_reply) : Prop :=
  match r with
  | RSettings s => s = sv_settings d | RStatus st => st = sv_status d | RFirstFails => True | RSites l => l = sv_sites d
  | RHosts l => l = sv_hosts d | RPolicies l => l = sv_policies d | RBlocked l => l = sv_blocked d | RDevices l => l = sv_devices d
  | RSessions l => l = sv_sessions d | RProviders l => l = sv_providers d
  end.
Definition told_event (e : vpn_event) : Prop := match e with VRefresh => True | VReply _ r => told r end.

(** What a job knows is the server's. *)
Definition known {A} (x : option A) (y : A) : Prop := match x with Some a => a = y | None => True end.
Definition endpoint_ok (u : vpn_ui) : Prop :=
  g_sites u = sv_sites d
  ∧ let p := g_page u in
    (∃ b, vp_wg p = WgForm (wf_enabled (wg_load (sv_settings d) 0)) (wf_port (wg_load (sv_settings d) 0))
       (wf_endpoint (wg_load (sv_settings d) 0)) (wf_network (wg_load (sv_settings d) 0)) b (wf_config_hidden (wg_load (sv_settings d) 0)))
    ∧ vp_line p = status_line (sv_status d) ∧ vp_pubkey p = str_or (vx_public_key (sv_status d)) (js "-")
    ∧ vp_reset_hidden p = negb (vx_unreadable (sv_status d)).
Definition people_ok (u : vpn_ui) : Prop := g_devices u = sv_devices d ∧ g_sessions u = sv_sessions d.
Definition rules_ok (u : vpn_ui) : Prop := g_policies u = sv_policies d ∧ g_blocked u = sv_blocked d.
Definition hosts_ok (u : vpn_ui) : Prop := g_hosts u = known_or hosts0 (sv_hosts d).
Definition job_ok (u : vpn_ui) (j : vpn_job) : Prop :=
  match j with
  | VFirst s st sites => known s (sv_settings d) ∧ known st (sv_status d) ∧ (sites = true → g_sites u = sv_sites d)
      ∧ (s = None ∨ st = None ∨ sites = false)
  | VSites => True
  | VHosts s st => s = sv_settings d ∧ st = sv_status d ∧ endpoint_ok u ∧ hosts0 = []
  | VTables s st po bl de se =>
      s = sv_settings d ∧ st = sv_status d ∧ endpoint_ok u ∧ hosts_ok u ∧ known po (sv_policies d) ∧ known bl (sv_blocked d)
      ∧ known de (sv_devices d) ∧ known se (sv_sessions d) ∧ (is_Some de → is_Some se → people_ok u)
      ∧ (po = None ∨ bl = None ∨ de = None ∨ se = None)
  | VProviders s st => s = sv_settings d ∧ st = sv_status d ∧ endpoint_ok u ∧ hosts_ok u ∧ people_ok u ∧ rules_ok u ∧ providers0 = []
  end.
(** What is known is what was known before, or has been loaded since. *)
Definition cached_ok (u : vpn_ui) : Prop :=
  (g_hosts u = hosts0 ∨ g_hosts u = known_or hosts0 (sv_hosts d))
  ∧ (g_providers u = providers0 ∨ g_providers u = known_or providers0 (sv_providers d)).

(** What is right stays right. *)
Record keeps (u u' : vpn_ui) : Prop := {
  k_sites : g_sites u = sv_sites d → g_sites u' = sv_sites d;
  k_endpoint : endpoint_ok u → endpoint_ok u';
  k_people : people_ok u → people_ok u';
  k_rules : rules_ok u → rules_ok u';
  k_hosts : hosts_ok u → hosts_ok u';
  k_cached : cached_ok u → cached_ok u' }.

#[local] Instance keeps_preorder : PreOrder keeps.
Proof. split; [by constructor|]. intros u v w [] []. constructor; auto. Qed.

Lemma job_ok_keeps u u' j : keeps u u' → job_ok u j → job_ok u' j.
Proof. intros [] H. destruct j; cbn in *; intuition. Qed.

Ltac keeps_by := constructor; unfold endpoint_ok, people_ok, rules_ok, hosts_ok, cached_ok; cbn; intuition auto.

Lemma keeps_sites u : keeps u (with_sites (sv_sites d) u).
Proof. keeps_by. Qed.
Lemma keeps_people u : keeps u (with_people (sv_devices d) (sv_sessions d) u).
Proof. keeps_by. Qed.
Lemma keeps_rules u : keeps u (with_rules (sv_policies d) (sv_blocked d) u).
Proof. keeps_by. Qed.
Lemma keeps_hosts u : hosts0 = [] → keeps u (with_hosts (sv_hosts d) u).
Proof. intros E. constructor; unfold endpoint_ok, people_ok, rules_ok, hosts_ok, cached_ok; rewrite ?E; cbn; intuition auto. Qed.
Lemma keeps_providers u : providers0 = [] → keeps u (with_providers (sv_providers d) u).
Proof. intros E. constructor; unfold endpoint_ok, people_ok, rules_ok, hosts_ok, cached_ok; rewrite ?E; cbn; intuition auto. Qed.
Lemma keeps_jobs l u : keeps u (with_jobs l u).
Proof. by constructor. Qed.
Lemma keeps_endpoint u : keeps u (endpoint_shown (sv_settings d) (sv_status d) u).
Proof. constructor; try done. unfold endpoint_ok. cbn. intros (H & _). split; [done|]. split; [by eexists|done]. Qed.
Lemma keeps_shown s st u : keeps u (people_shown s st u).
Proof.
  constructor; try done. unfold endpoint_ok. cbn. intros (H1 & [b ->] & H3). split; [done|]. split; [|done].
  eexists. unfold wg_lock. cbn. reflexivity.
Qed.

Definition target : vpn_page := refreshed (vpn_data_of (with_known hosts0 providers0 d)).

Lemma shown_target u : endpoint_ok u → people_ok u → rules_ok u → hosts_ok u → g_providers u = known_or providers0 (sv_providers d) →
  g_page (people_shown (sv_settings d) (sv_status d) u) = target.
Proof.
  intros (H1 & (b & H2) & H3 & H4 & H5) [H6 H7] [H8 H9] H10 H11. unfold people_shown, target, refreshVPN, data_of, vpn_data_of. cbn.
  unfold hosts_ok in H10. by rewrite H1, H2, H3, H4, H5, H6, H7, H8, H9, H10, H11.
Qed.

(** A job past its first requests will write the page. *)
Definition past_first (j : vpn_job) : Prop := match j with VFirst _ _ _ | VSites => False | _ => True end.
Definition at_first (j : vpn_job) : Prop := match j with VFirst _ _ _ => True | _ => False end.
(** What is left of a job fits the page it leaves; a job past its first
    requests that ends has written the page. *)
Definition left_ok (x : option vpn_job * vpn_ui) : Prop :=
  match x.1 with Some j => job_ok x.2 j ∧ past_first j | None => g_page x.2 = target end.

(** A reply: the job goes on past its first requests, or ends having written
    the page, or has not yet touched it. *)
Definition untouched (j : vpn_job) (r : vpn_reply) (u : vpn_ui) (x : option vpn_job * vpn_ui) : Prop :=
  g_page x.2 = g_page u ∧ ¬ past_first j
  ∧ match x.1 with Some j' => job_ok x.2 j' ∧ (at_first j' ∨ r = RFirstFails) | None => r = RFirstFails ∨ j = VSites end.
Definition moved (j : vpn_job) (r : vpn_reply) (u : vpn_ui) (x : option vpn_job * vpn_ui) : Prop := left_ok x ∨ untouched j r u x.

Lemma known_or_nil {A} (l l' : list A) : known_or l l' = [] → l = [].
Proof. by destruct l. Qed.
Lemma after_endpoint_ok u : cached_ok u → endpoint_ok u → left_ok (after_endpoint (sv_settings d) (sv_status d) u).
Proof.
  intros [Hh _] H. unfold after_endpoint, left_ok. cbn. destruct (g_hosts u) as [|h l] eqn:E; cbn.
  - split; [|done]. split_and!; try done. destruct Hh as [Hh|Hh]; [done|]. by eapply known_or_nil.
  - split; [|done]. unfold hosts_ok. rewrite E. split_and!; try done; [|by left]. destruct Hh as [<-|<-]; [|done]. done.
Qed.

Lemma after_tables_ok u : cached_ok u → endpoint_ok u → hosts_ok u → people_ok u → rules_ok u →
  left_ok (after_tables (sv_settings d) (sv_status d) u).
Proof.
  intros [_ Hp] H1 H2 H3 H4. unfold after_tables, left_ok. destruct (g_providers u) as [|x l] eqn:E; cbn [fst snd].
  - split; [|done]. cbn. split_and!; try done; try apply H3; try apply H4. destruct Hp as [Hp|Hp]; [done|]. by eapply known_or_nil.
  - apply shown_target; try done. rewrite E. by destruct Hp as [<-|<-].
Qed.

Lemma first_join_ok j r s st sites u : cached_ok u → known s (sv_settings d) → known st (sv_status d) →
  (sites = true → g_sites u = sv_sites d) → ¬ past_first j → moved j r u (first_join s st sites u) ∧ keeps u (first_join s st sites u).2.
Proof.
  intros Hc Hs Hst Hsi Hj. destruct s as [s|], st as [st|], sites; cbn in Hs, Hst; subst;
    try (split; [|done]; right; unfold untouched; cbn; split_and!; try done; auto; tauto).
  split; [left|by apply keeps_endpoint]. apply after_endpoint_ok; [by apply (k_cached _ _ (keeps_endpoint u))|].
  split; [by apply Hsi|]. split; [by eexists|done].
Qed.

Lemma people_join_ok de se u : known de (sv_devices d) → known se (sv_sessions d) →
  keeps u (people_join de se u) ∧ (is_Some de → is_Some se → people_ok (people_join de se u)).
Proof.
  intros Hd Hs. destruct de as [l|], se as [l'|]; cbn in Hd, Hs; subst; split;
    first [apply keeps_people | reflexivity | by intros _ _ | by intros ? [] | by intros []].
Qed.

Lemma tables_join_ok po bl de se u : cached_ok u → endpoint_ok u → hosts_ok u → known po (sv_policies d) → known bl (sv_blocked d) →
  known de (sv_devices d) → known se (sv_sessions d) → (is_Some de → is_Some se → people_ok u) →
  left_ok (tables_join (sv_settings d) (sv_status d) po bl de se u)
  ∧ keeps u (tables_join (sv_settings d) (sv_status d) po bl de se u).2.
Proof.
  intros Hc He Hh Hp Hb Hd Hs Hpe. destruct po as [p|], bl as [b|], de as [v|], se as [e|];
    try (split; [|done]; unfold left_ok; cbn [tables_join fst snd job_ok]; split; [|done]; split_and!; try done; tauto).
  cbn in Hp, Hb. subst p b. cbn [tables_join]. pose proof (keeps_rules u) as K. specialize (Hpe ltac:(done) ltac:(done)).
  split; [apply after_tables_ok; by (done || apply K || split)|]. unfold after_tables. cbn [with_rules g_providers].
  destruct (g_providers u); cbn [snd]; [done|]. by etransitivity; [|apply keeps_shown].
Qed.

Lemma vpn_continue_ok u j r x : told r → cached_ok u → job_ok u j → vpn_continue j r u = Some x → moved j r u x ∧ keeps u x.2.
Proof.
  intros Hr Hc Hj E. destruct j as [s st sites| |s st|s st po bl de se|s st]; [..|]; cbn in Hj; try done.
  - destruct Hj as (Hs & Hst & Hsi & _). destruct r; cbn in Hr; try (by destruct s, st, sites).
    + destruct s; [by destruct st, sites|]. assert (x = first_join (Some s0) st sites u) as -> by (by destruct st, sites; injection E).
      apply first_join_ok; try done. by intros [].
    + destruct st; [by destruct s, sites|]. assert (x = first_join s (Some st0) sites u) as -> by (by destruct s, sites; injection E).
      apply first_join_ok; try done. by intros [].
    + assert (x = (if sites then None else Some VSites, u)) as -> by (destruct s, st, sites; cbn in E; congruence).
      split; [|done]. right. unfold untouched. cbn. destruct sites; split_and!; auto.
    + destruct sites; [by destruct s, st|]. assert (x = first_join s st true (with_sites l u)) as -> by (by destruct s, st; injection E).
      subst l. pose proof (keeps_sites u) as K.
      destruct (first_join_ok (VFirst s st false) (RSites (sv_sites d)) s st true (with_sites (sv_sites d) u)) as [H1 H2];
        [by apply K|done..| |]; [by intros []|]. split; [done|by etransitivity].
  - destruct r; try done. injection E as <-. cbn in Hr. subst l. split; [|apply keeps_sites]. right. unfold untouched. cbn.
    split_and!; auto.
  - destruct Hj as (-> & -> & He & Hh). destruct r; try done. injection E as <-. cbn in Hr. subst l. pose proof (keeps_hosts u Hh) as K.
    split; [|done]. left. unfold left_ok. cbn [fst snd job_ok]. split; [|done]. split_and!; try done; [|by left]. unfold hosts_ok. by rewrite Hh.
  - destruct Hj as (-> & -> & He & Hh & Hp & Hb & Hd & Hs & Hpe & _). destruct r; cbn in Hr; try (by destruct po, bl, de, se).
    + destruct po; [by destruct bl, de, se|].
      assert (x = tables_join (sv_settings d) (sv_status d) (Some l) bl de se u) as -> by (by destruct bl, de, se; injection E).
      split; [left|]; by apply tables_join_ok.
    + destruct bl; [by destruct po, de, se|].
      assert (x = tables_join (sv_settings d) (sv_status d) po (Some l) de se u) as -> by (by destruct po, de, se; injection E).
      split; [left|]; by apply tables_join_ok.
    + destruct de; [by destruct po, bl, se|].
      assert (x = tables_join (sv_settings d) (sv_status d) po bl (Some l) se (people_join (Some l) se u)) as ->
        by (by destruct po, bl, se; injection E).
      destruct (people_join_ok (Some l) se u) as [K Hq]; [done..|]. destruct (tables_join_ok po bl (Some l) se (people_join (Some l) se u));
        try done; [by apply K..|]. split; [by left|by etransitivity].
    + destruct se; [by destruct po, bl, de|].
      assert (x = tables_join (sv_settings d) (sv_status d) po bl de (Some l) (people_join de (Some l) u)) as ->
        by (by destruct po, bl, de; injection E).
      destruct (people_join_ok de (Some l) u) as [K Hq]; [done..|]. destruct (tables_join_ok po bl de (Some l) (people_join de (Some l) u));
        try done; [by apply K..|]. split; [by left|by etransitivity].
  - destruct Hj as (-> & -> & He & Hh & Hp & Hrl & Hn). destruct r; try done. injection E as <-. cbn in Hr. subst l.
    pose proof (keeps_providers u Hn) as K. split; [|by etransitivity; [apply K|apply keeps_shown]].
    left. unfold left_ok. cbn [fst snd]. apply shown_target; try (by apply K). by rewrite Hn.
Qed.

(** ** Runs *)

Lemma jobs_keep u u' l : keeps u u' → Forall (job_ok u) l → Forall (job_ok u') l.
Proof. intros K. rewrite !list.Forall_forall. intros H j Hj. eapply job_ok_keeps; [exact K|by apply H]. Qed.

(** A page that was asked for is the server's, or will be: some call is past
    its first requests, or will get past them unless they fail. *)
Definition page_inv (asked failed : Prop) (u : vpn_ui) : Prop :=
  Exists past_first (g_jobs u) ∨ g_page u = target
  ∨ g_page u = page0 ∧ (asked → failed ∨ Exists at_first (g_jobs u)).
Record run_inv (asked failed : Prop) (u : vpn_ui) : Prop := {
  ri_cached : cached_ok u;
  ri_jobs : Forall (job_ok u) (g_jobs u);
  ri_page : page_inv asked failed u }.

Lemma put_back_perm i j (j' : option vpn_job) l : l !! i = Some j → l ≡ₚ j :: delete i l ∧ put_back i j' l ≡ₚ option_list j' ++ delete i l.
Proof.
  intros H. pose proof (lookup_lt_Some _ _ _ H) as Hl. pose proof (take_drop_middle _ _ _ H) as E.
  split; [by apply delete_Permutation|]. destruct j' as [j'|]; cbn [put_back option_list app]; [|done].
  rewrite insert_take_drop, delete_take_drop by done. symmetry. apply (Permutation_middle (take i l)).
Qed.
Lemma Exists_perm {A} (P : A → Prop) l l' : l ≡ₚ l' → Exists P l → Exists P l'.
Proof. intros Hp. rewrite !list.Exists_exists. intros (x & Hx & Px). exists x. by rewrite <- Hp. Qed.

Lemma page_inv_step asked failed u i j r j' u' : g_jobs u !! i = Some j → moved j r u (j', u') → page_inv asked failed u →
  page_inv asked (failed ∨ r = RFirstFails) (with_jobs (put_back i j' (g_jobs u)) u').
Proof.
  intros Hi Hm H. destruct (put_back_perm i j j' _ Hi) as [P1 P2].
  assert (∀ P, Exists P (option_list j' ++ delete i (g_jobs u)) → Exists P (g_jobs (with_jobs (put_back i j' (g_jobs u)) u'))) as Hput
    by (intros P; by apply Exists_perm).
  assert (∀ P, Exists P (g_jobs u) → P j ∨ Exists P (delete i (g_jobs u))) as Hold.
  { intros P HP. apply (Exists_perm _ _ _ P1) in HP. by apply List.Exists_cons in HP. }
  unfold page_inv. cbn [with_jobs g_page]. destruct Hm as [Hm|(Ep & Hj & Hm)]; cbn [fst snd] in *.
  - unfold left_ok in Hm. cbn [fst snd] in Hm. destruct j' as [j'|]; [|by right; left].
    left. apply Hput, List.Exists_cons. left. apply Hm.
  - rewrite Ep. destruct H as [H|[H|[H1 H2]]]; [left|by right; left|right; right].
    + destruct (Hold _ H) as [|H']; [done|]. apply Hput, list.Exists_app. by right.
    + split; [done|]. intros Ha. destruct (H2 Ha) as [|H']; [by left; left|]. destruct (Hold _ H') as [Hf|Hf].
      * destruct j' as [j'|]; [destruct Hm as [_ [Hm|Hm]]|destruct Hm as [Hm|Hm]]; [|by left; right..|by subst].
        right. apply Hput, List.Exists_cons. by left.
      * right. apply Hput, list.Exists_app. by right.
Qed.

Lemma reply_run_inv asked failed u i r : told r → run_inv asked failed u →
  run_inv asked (failed ∨ r = RFirstFails) (vpn_step u (VReply i r)).
Proof.
  intros Hr H.
  assert (run_inv asked (failed ∨ r = RFirstFails) u) as Hu.
  { destruct H as [H1 H2 H3]. constructor; [done|done|]. destruct H3 as [H3|[H3|[H3 H4]]]; [by left|by right; left|].
    right. right. split; [done|]. intros Ha. destruct (H4 Ha); auto. }
  cbn [vpn_step]. destruct (g_jobs u !! i) as [j|] eqn:Ei; [|done]. destruct H as [Hc Hj Hp].
  pose proof (Forall_lookup_1 _ _ _ _ Hj Ei) as Hji. destruct (vpn_continue j r u) as [[j' u']|] eqn:E; [|done].
  destruct (vpn_continue_ok u j r _ Hr Hc Hji E) as [Hl K]. pose proof (page_inv_step asked failed u i j r j' u' Ei Hl Hp) as Hpage.
  cbn [fst snd] in *. pose proof (jobs_keep u u' _ K Hj) as Hju.
  constructor; [by apply K| |exact Hpage]. apply (jobs_keep u'); [apply keeps_jobs|]. cbn [with_jobs g_jobs].
  destruct j' as [j'|]; cbn [put_back]; [|by apply Forall_delete]. apply Forall_insert; [done|].
  destruct Hl as [Hl|(_ & _ & Hl)]; apply Hl.
Qed.

Definition fails (es : list vpn_event) : Prop := ∃ i, VReply i RFirstFails ∈ es.
Lemma run_run_inv u es : g_jobs u = [] → g_hosts u = hosts0 → g_providers u = providers0 → g_page u = page0 → Forall told_event es →
  run_inv (VRefresh ∈ es) (fails es) (vpn_run u es).
Proof.
  intros Hj Hh Hp Hpage. induction es as [|e es IH] using rev_ind; intros He.
  - constructor; [split; by left|by cbn; rewrite Hj|]. right. right. split; [done|]. by intros H%not_elem_of_nil.
  - apply list.Forall_app in He as [He [Ht _]%list.Forall_cons]. specialize (IH He). unfold vpn_run in *. rewrite fold_left_app. cbn [fold_left].
    set (v := fold_left vpn_step es u) in *.
    assert (fails es → fails (es ++ [e])) as Hf by (intros [i Hi]; exists i; apply elem_of_app; by left).
    destruct e as [|i r]; cbn in Ht.
    + destruct IH as [H1 H2 H3]. constructor; [done| |].
      * cbn. apply list.Forall_app. split; [by eapply jobs_keep; [apply keeps_jobs|]|].
        constructor; [|done]. cbn. split_and!; try done. by left.
      * unfold page_inv. cbn [vpn_step with_jobs g_jobs g_page]. destruct H3 as [H3|[H3|[H3 _]]];
          [left; apply list.Exists_app; by left|by right; left|right; right]. split; [done|]. intros _. right.
        apply list.Exists_app. right. apply List.Exists_cons. by left.
    + destruct (reply_run_inv _ _ _ i r Ht IH) as [H1 H2 H3]. constructor; [done|done|].
      destruct H3 as [H3|[H3|[H3 H4]]]; [by left|by right; left|right; right]. split; [done|].
      intros [Ho|Ho%list_elem_of_singleton]%elem_of_app; [|done]. destruct (H4 Ho) as [[| ->]|]; [by left; apply Hf| |by right].
      left. exists i. apply elem_of_app. right. by left.
Qed.

(** ** Progress *)

Definition missing {A} (x : option A) : nat := match x with Some _ => 0 | None => 1 end.
(** The replies a job can still have. *)
Definition job_work (j : vpn_job) : nat :=
  match j with
  | VFirst s st sites => missing s + missing st + (if sites then 0 else 1) + 6
  | VSites => 1
  | VHosts _ _ => 6
  | VTables _ _ po bl de se => missing po + missing bl + missing de + missing se + 1
  | VProviders _ _ => 1
  end.
Definition work (l : list vpn_job) : nat := sum_list_with job_work l.

Lemma vpn_continue_work u j r j' u' : vpn_continue j r u = Some (j', u') →
  (match j' with Some j' => job_work j' | None => 0 end < job_work j)%nat.
Proof.
  destruct j as [s st sites| |s st|s st po bl de se|s st], r; cbn; try done;
    unfold first_join, tables_join, after_endpoint, after_tables; intros H; repeat (case_match; simplify_eq/=; try lia).
Qed.

Lemma put_back_work i j j' l : l !! i = Some j → (match j' with Some j' => job_work j' | None => 0 end < job_work j)%nat →
  (work (put_back i j' l) < work l)%nat.
Proof.
  intros Hi Hw. unfold work. assert (∀ P : list vpn_job, l = take i l ++ j :: drop (S i) l) as E by (intros _; by rewrite take_drop_middle).
  specialize (E []). destruct j' as [j'|]; cbn [put_back].
  - rewrite insert_take_drop by (by apply lookup_lt_Some in Hi). rewrite E at 3. rewrite !sum_list_with_app. cbn. lia.
  - rewrite delete_take_drop. rewrite E at 3. rewrite !sum_list_with_app. cbn. lia.
Qed.

(** A reply is either not waited for, or brings the page nearer to rest. *)
Lemma reply_work u i r : vpn_step u (VReply i r) = u ∨ (work (g_jobs (vpn_step u (VReply i r))) < work (g_jobs u))%nat.
Proof.
  cbn [vpn_step]. destruct (g_jobs u !! i) as [j|] eqn:Ei; [|by left]. destruct (vpn_continue j r u) as [[j' u']|] eqn:E; [|by left].
  right. cbn [with_jobs g_jobs]. eapply put_back_work; [done|]. by eapply vpn_continue_work.
Qed.

Ltac answer r := exists r; split; [done|]; cbn; repeat case_match; by eexists.

(** Every job waits for a reply the server can give. *)
Lemma job_waits u j : job_ok u j → ∃ r, told r ∧ is_Some (vpn_continue j r u).
Proof.
  destruct j as [[s|] st sites| |s st|s st [po|] bl de se|s st]; cbn; intros H.
  - destruct st as [st|]; [|answer (RStatus (sv_status d))]. destruct sites; [|answer (RSites (sv_sites d))].
    by destruct H as (_ & _ & _ & [?|[?|?]]).
  - answer (RSettings (sv_settings d)).
  - answer (RSites (sv_sites d)).
  - answer (RHosts (sv_hosts d)).
  - destruct bl as [bl|]; [|answer (RBlocked (sv_blocked d))]. destruct de as [de|]; [|answer (RDevices (sv_devices d))].
    destruct se as [se|]; [|answer (RSessions (sv_sessions d))]. by destruct H as (_ & _ & _ & _ & _ & _ & _ & _ & _ & [?|[?|[?|?]]]).
  - answer (RPolicies (sv_policies d)).
  - answer (RProviders (sv_providers d)).
Qed.

Lemma can_rest asked failed u : run_inv asked failed u → ∃ rs, Forall told_event rs ∧ (VRefresh ∉ rs) ∧ (length rs ≤ work (g_jobs u))%nat
  ∧ g_jobs (vpn_run u rs) = [].
Proof.
  remember (work (g_jobs u)) as n eqn:En. revert failed u En. induction n as [n IH] using lt_wf_ind. intros failed u -> H.
  destruct (g_jobs u) as [|j l] eqn:Ej; [exists []; split_and!; [done|apply not_elem_of_nil|cbn; lia|done]|].
  pose proof (ri_jobs _ _ _ H) as Hj. rewrite Ej in Hj. apply list.Forall_cons in Hj as [Hj _]. destruct (job_waits u j Hj) as (r & Hr & [[j' u'] Ex]).
  assert ((work (g_jobs (vpn_step u (VReply 0 r))) < work (j :: l))%nat) as Hw.
  { cbn [vpn_step]. rewrite Ej. cbn [lookup list_lookup]. rewrite Ex. cbn [with_jobs g_jobs].
    apply (put_back_work 0 j); [done|]. by eapply vpn_continue_work. }
  destruct (IH _ Hw _ _ eq_refl (reply_run_inv _ _ _ 0 r Hr H)) as (rs & H1 & H2 & H3 & H4).
  exists (VReply 0 r :: rs). split_and!; [by constructor|by rewrite not_elem_of_cons|cbn [length]; lia|done].
Qed.

End settled.

(** C9. Loading the VPN page settles.  From a moment at which none of its calls
    is under way, whatever the page shows and knows then, and while the server
    does not change: however many calls of [refreshVPN] overlap and in
    whatever order the replies come in, once all are answered the page is the
    one of the server's data, the network locked for its devices too, with
    the hosts and the providers the page already knew, which it does not ask
    for again, or else the server's; if the settings or the status of some
    call cannot be had, the page may instead be as it was at first, and never
    anything between.  Every reply that is waited for brings that nearer, and
    from any moment the replies the server owes, at most [work] of them, get
    there.  A change at the server while calls are under way can leave the
    page behind ([late_answer_stays]). *)
Theorem vpn_page_settles d u es : g_jobs u = [] → Forall (told_event d) es → let v := vpn_run u es in
  let page := refreshed (vpn_data_of (with_known (g_hosts u) (g_providers u) d)) in
  (g_jobs v = [] → g_page v = page ∨ g_page v = g_page u)
  ∧ (VRefresh ∈ es → ¬ fails es → g_jobs v = [] → g_page v = page)
  ∧ (∀ i r, vpn_step v (VReply i r) = v ∨ (work (g_jobs (vpn_step v (VReply i r))) < work (g_jobs v))%nat)
  ∧ ∃ rs, Forall (told_event d) rs ∧ (VRefresh ∉ rs) ∧ (length rs ≤ work (g_jobs v))%nat ∧ g_jobs (vpn_run v rs) = [].
Proof.
  intros Hj He v page. pose proof (run_run_inv d _ _ _ u es Hj eq_refl eq_refl eq_refl He) as H. fold v in H.
  assert (g_jobs v = [] → g_page v = page ∨ g_page v = g_page u ∧ (VRefresh ∈ es → fails es)) as Hrest.
  { intros E. destruct (ri_page _ _ _ _ _ _ _ H) as [Hp|[Hp|[Hp Hf]]]; [rewrite E in Hp; by apply List.Exists_nil in Hp|by left|].
    right. split; [done|]. intros Hr. destruct (Hf Hr) as [|Hx]; [done|]. rewrite E in Hx. by apply List.Exists_nil in Hx. }
  split_and!; [|..|apply reply_work|by eapply can_rest].
  - intros E. destruct (Hrest E) as [|[]]; auto.
  - intros Hr Hn E. destruct (Hrest E) as [|[_ Hx]]; [done|]. by destruct (Hn (Hx Hr)).
Qed.
End page.

(** ** The property at a concrete input *)

Definition blank_people : people_page :=
  {| vp_network_disabled := false; vp_add_disabled := false; vp_breakglass_hidden := true; vp_devices := []; vp_map := [];
     vp_portal_hidden := false; vp_waiting := false; vp_sessions := []; vp_sessions_text := []; vp_blocked := []; vp_leases := [];
     vp_lan := lan_load ∅; vp_lan_line := []; vp_policies := []; vp_policies_text := [] |}.
Definition blank_vpn : vpn_page :=
  {| vp_wg := wg_load ∅ 0; vp_line := ([], false); vp_pubkey := []; vp_reset_hidden := true; vp_people := blank_people; vp_sites := [];
     vp_note_hidden := true |}.
Definition vpn_unloaded : vpn_ui := VpnUi [] [] [] [] [] [] [] blank_vpn [].
Definition sample_server : vpn_server :=
  VpnServer {[js "wg_enabled" := js "1"; js "wg_port" := js "51820"]} some_status [] [some_device] [some_login] [] [] []
    [Provider 7 (js "work")].

(** Two calls overlap; their replies come in turns, the second one's first. *)
Definition two_refreshes : list vpn_event :=
  let d := sample_server in
  [VRefresh; VRefresh; VReply 1 (RSites (sv_sites d)); VReply 1 (RStatus (sv_status d)); VReply 0 (RSettings (sv_settings d));
   VReply 1 (RSettings (sv_settings d)); VReply 1 (RHosts (sv_hosts d)); VReply 0 (RSites (sv_sites d)); VReply 0 (RStatus (sv_status d));
   VReply 1 (RDevices (sv_devices d)); VReply 1 (RPolicies (sv_policies d)); VReply 1 (RSessions (sv_sessions d));
   VReply 0 (RHosts (sv_hosts d)); VReply 1 (RBlocked (sv_blocked d)); VReply 1 (RProviders (sv_providers d));
   VReply 0 (RBlocked (sv_blocked d)); VReply 0 (RPolicies (sv_policies d)); VReply 0 (RSessions (sv_sessions d));
   VReply 0 (RDevices (sv_devices d))].

(** A provider is known already, and is not asked for. *)
Definition provider_known : vpn_ui := VpnUi [] [] [] [] [] [] [Provider 8 (js "home")] blank_vpn [].
(** Two calls overlap and the status of the first cannot be had. *)
Definition one_fails : list vpn_event :=
  let d := sample_server in
  [VRefresh; VRefresh; VReply 0 RFirstFails; VReply 1 (RSites (sv_sites d)); VReply 1 (RStatus (sv_status d)); VReply 0 (RSites (sv_sites d));
   VReply 0 (RSettings (sv_settings d)); VReply 0 (RHosts (sv_hosts d)); VReply 0 (RDevices (sv_devices d)); VReply 0 (RPolicies (sv_policies d));
   VReply 0 (RSessions (sv_sessions d)); VReply 0 (RBlocked (sv_blocked d))].

Lemma vpn_page_settles_witness :
  let v := vpn_run 5000 ms id id (λ _ _, true) vpn_unloaded two_refreshes in
  g_jobs v = []
  ∧ g_page v = refreshVPN 5000 ms id id (λ _ _, true) (vpn_data_of sample_server)
  ∧ wf_network_disabled (vp_wg (g_page v)) = true ∧ map dr_name (vp_devices (vp_people (g_page v))) = [js "phone"]
  ∧ let w := vpn_run 5000 ms id id (λ _ _, true) provider_known one_fails in
    g_jobs w = [] ∧ g_page w = refreshVPN 5000 ms id id (λ _ _, true) (vpn_data_of (with_known [] [Provider 8 (js "home")] sample_server)).
Proof.
  intros v. assert (g_jobs v = []) as Hv by by_compute. split; [exact Hv|].
  destruct (vpn_page_settles 5000 ms id id (λ _ _, true) sample_server vpn_unloaded two_refreshes) as (_ & E & _).
  { reflexivity. } { unfold two_refreshes. repeat (apply list.Forall_cons; split; [cbn; done|]). apply list.Forall_nil. exact I. }
  fold v in E. specialize (E ltac:(apply list_elem_of_here)). assert (¬ fails two_refreshes) as Hf.
  { intros [i Hi]. unfold two_refreshes in Hi. cbv zeta in Hi. repeat (apply elem_of_cons in Hi as [Hi|Hi]; [discriminate Hi|]).
    by apply not_elem_of_nil in Hi. }
  specialize (E Hf Hv). split; [exact E|]. split; [rewrite E; by_compute|]. split; [rewrite E; by_compute|].
  intros w. assert (g_jobs w = []) as Hw by by_compute. split; [exact Hw|].
  destruct (vpn_page_settles 5000 ms id id (λ _ _, true) sample_server provider_known one_fails) as (E' & _).
  { reflexivity. } { unfold one_fails. repeat (apply list.Forall_cons; split; [cbn; done|]). apply list.Forall_nil. exact I. }
  fold w in E'. destruct (E' Hw) as [E1|E1]; [exact E1|]. exfalso. apply (f_equal (λ p, map dr_name (vp_devices (vp_people p)))) in E1.
  vm_compute in E1. discriminate E1.
Defined.

(** A call that was started before a change and answered after the one the
    change started leaves the page as it was before the change: here the
    device was switched off in between. *)
Example late_answer_stays :
  let off := VDevice 3 (js "phone") (js "sso") (js "10.77.0.9") false false (js "ann@example.com") (js "u-1") 7 [] [] in
  let d := sample_server in
  let first i := [VReply i (RSettings (sv_settings d)); VReply i (RStatus (sv_status d)); VReply i (RSites [])] in
  let tables i devices := [VReply i (RHosts []); VReply i (RPolicies []); VReply i (RBlocked []); VReply i (RSessions (sv_sessions d));
                           VReply i (RDevices devices)] in
  let v := vpn_run 5000 ms id id (λ _ _, true) vpn_unloaded
    ([VRefresh; VRefresh] ++ first 1%nat ++ tables 1%nat [off] ++ [VReply 1 (RProviders (sv_providers d))]
     ++ first 0%nat ++ tables 0%nat [some_device]) in
  g_jobs v = [] ∧ map dr_on (vp_devices (vp_people (g_page v))) = [true].
Proof. split; by_compute. Qed.
