(* ===== verification/Tables.v ===== *)
(** * The tables of the admin pages (web/app.js)

    Bans, access lists, identity providers, streams and certificates: what
    their rows show, the editors of providers and certificates, with what the
    server makes of a provider it is sent, and the instances of [Listing] for every table of the pages.  The editors of
    access lists and of streams are in Acl and Streams, those of the VPN page in
    Sites, Devices and Policies.

    Dates are the browser's: [date_ms] is the moment of a date text, [None]
    when it is none, [now] the present, [date_text] and [date_time_text] what
    is shown; [region_name] is the name of a country, [None] where the browser
    has none. *)

From Stdlib Require Import Ascii String ZArith NArith Lia.
From stdpp Require Import base list relations strings numbers.
From S2P Require Import Prelude JsString Regex Html Listings Editors Fields Subjects HostForm Acl Streams Sites Policies Settings Vpn.

Local Open Scope Z_scope.

(** ** Banned addresses *)

Record ban : Type := Ban {
  bn_ip : jstr; bn_country : jstr; bn_reason : jstr; bn_host : jstr; bn_failures : Z; bn_since : jstr; bn_until : jstr }.
Record ban_row : Type := BanRow { br_cells : list jstr; br_titles : list jstr; br_disabled : bool }.

Section bans.
Context (now : Z) (date_ms : jstr → option Z) (date_time_text : jstr → jstr) (region_name : jstr → option jstr).

Definition rel_text (abs : Z) : jstr :=
  if abs <? 60 then js_of_Z abs ++ js " s"
  else if abs <? 3600 then js_of_Z (round_div abs 60) ++ js " min"
  else if abs <? 86400 then js_of_Z (round_div abs 3600) ++ js " h"
  else js_of_Z (round_div abs 86400) ++ js " d".
Definition relTime (iso : jstr) : jstr :=
  match date_ms iso with
  | Some t =>
      let secs := round_div (t - now) 1000 in
      if secs <? 0 then rel_text (Z.abs secs) ++ js " ago" else js "in " ++ rel_text (Z.abs secs)
  | None => js "in NaN d"
  end.

Definition banCountry (code : jstr) : jstr :=
  if negb (truthy code) then js "-"
  else if bool_decide (code = js "LAN") then js "Local network"
  else if bool_decide (code = js "unknown") then js "Unknown"
  else default code (region_name code).
Definition mins (s : jstr) : jstr := js_of_Z (round_div (int_or (parse_int s) 0) 60).
Definition ban_hint (s : server_settings) : jstr :=
  if is_on s "ban_enabled" then
    js "after " ++ str_or (setting s "ban_threshold") (js "5") ++ js " refusals within "
    ++ mins (str_or (setting s "ban_window_sec") (js "300")) ++ js " min, for "
    ++ mins (str_or (setting s "ban_duration_sec") (js "3600")) ++ js " min"
  else js "auto-ban is off".
Definition ban_row_of (b : ban) : ban_row :=
  BanRow [bn_ip b; banCountry (bn_country b); str_or (bn_reason b) (js "-"); str_or (bn_host b) (js "-"); js_of_Z (bn_failures b);
          relTime (bn_since b); relTime (bn_until b)]
    [date_time_text (bn_since b); date_time_text (bn_until b)] false.

(** [loadBans] from its replies on, and the button that lifts a ban, which
    stays off until the reply. *)
Inductive ban_job : Type := BLoad | BLift (gen i : nat) (ip : jstr).
Inductive ban_reply : Type := BRows (l : list ban) (s : server_settings) | BOk | BFail (message : jstr).
Record bans_page : Type := BansPage {
  bp_bans : list ban; bp_rows : list ban_row; bp_gen : nat; bp_hint : jstr; bp_table_hidden : bool; bp_empty_hidden : bool; bp_empty : jstr;
  bp_lifted : list jstr; bp_jobs : list ban_job }.

Definition bans_loaded (l : list ban) (s : server_settings) (p : bans_page) : bans_page :=
  BansPage l (map ban_row_of l) (S (bp_gen p)) (ban_hint s) (bool_decide (l = [])) (negb (bool_decide (l = [])))
    (if is_on s "ban_enabled" then js "No addresses are banned right now."
     else js "Auto-ban is off, so nobody is banned. Turn it on under Settings, Auto-ban.")
    (bp_lifted p) (bp_jobs p).
Definition bans_failed (m : jstr) (p : bans_page) : bans_page :=
  BansPage (bp_bans p) (bp_rows p) (bp_gen p) (bp_hint p) true false m (bp_lifted p) (bp_jobs p).
Definition ban_button (i : nat) (off : bool) (p : bans_page) : bans_page :=
  BansPage (bp_bans p) (alter (λ r, BanRow (br_cells r) (br_titles r) off) i (bp_rows p)) (bp_gen p) (bp_hint p) (bp_table_hidden p)
    (bp_empty_hidden p) (bp_empty p) (bp_lifted p) (bp_jobs p).
Definition ban_jobs (l : list ban_job) (p : bans_page) : bans_page :=
  BansPage (bp_bans p) (bp_rows p) (bp_gen p) (bp_hint p) (bp_table_hidden p) (bp_empty_hidden p) (bp_empty p) (bp_lifted p) l.
Definition set_hint (m : jstr) (p : bans_page) : bans_page :=
  BansPage (bp_bans p) (bp_rows p) (bp_gen p) m (bp_table_hidden p) (bp_empty_hidden p) (bp_empty p) (bp_lifted p) (bp_jobs p).
Definition send_lift (ip : jstr) (p : bans_page) : bans_page :=
  BansPage (bp_bans p) (bp_rows p) (bp_gen p) (bp_hint p) (bp_table_hidden p) (bp_empty_hidden p) (bp_empty p) (bp_lifted p ++ [ip]) (bp_jobs p).

Inductive ban_event : Type := BOpen | BUnban (i : nat) | BReply (j : nat) (r : ban_reply).
(** The replies a request can have. *)
Definition ban_answers (j : ban_job) (r : ban_reply) : bool :=
  match j, r with BLoad, BOk | BLift _ _ _, BRows _ _ => false | _, _ => true end.
Definition ban_continue (j : ban_job) (r : ban_reply) (p : bans_page) : bans_page :=
  match j, r with
  | BLoad, BRows l s => bans_loaded l s p
  | BLoad, BFail m => bans_failed m p
  | BLift _ _ _, BOk => ban_jobs (bp_jobs p ++ [BLoad]) p
  | BLift gen i ip, BFail m =>
      set_hint (js "could not unban " ++ ip ++ js ": " ++ m) (if (gen =? bp_gen p)%nat then ban_button i false p else p)
  | _, _ => p
  end.
Definition ban_step (p : bans_page) (e : ban_event) : bans_page :=
  match e with
  | BOpen => ban_jobs (bp_jobs p ++ [BLoad]) p
  | BUnban i =>
      match bp_bans p !! i, bp_rows p !! i with
      | Some b, Some r =>
          if br_disabled r then p
          else ban_jobs (bp_jobs p ++ [BLift (bp_gen p) i (bn_ip b)]) (send_lift (bn_ip b) (ban_button i true p))
      | _, _ => p
      end
  | BReply j r =>
      match bp_jobs p !! j with
      | Some job => if ban_answers job r then ban_continue job r (ban_jobs (delete j (bp_jobs p)) p) else p
      | None => p
      end
  end.
Definition ban_run (p : bans_page) (es : list ban_event) : bans_page := fold_left ban_step es p.
End bans.

(** ** Access lists, as their table shows them *)

Definition rule_text (localeLeb : jstr → jstr → bool) (p : people) (r : acl_rule) : jstr :=
  ru_action r ++ js " "
  ++ match ru_vpn r with
     | Some v => js "VPN: " ++ describeSubject localeLeb p v
     | None => str_or (ru_cidr r) (str_or (ru_host r) (js "country:" ++ ru_country r))
     end.
Record acl_view : Type := AclView { av_name : jstr; av_satisfy : list piece; av_rules : jstr; av_users : jstr }.
Definition acl_view_of (localeLeb : jstr → jstr → bool) (p : people) (a : acl) : acl_view :=
  AclView (ac_name a) [Lit (jq "<span class=`badge badge--muted`>"); ev (ac_satisfy a); Lit (js "</span>")]
    (str_or (join [10%N] (map (rule_text localeLeb p) (ac_rules a))) (js "-"))
    (str_or (join (js ", ") (map us_name (ac_users a))) (js "-")).

(** ** Identity providers *)

(** [ip_hours]: zero when the server has none. *)
Record idp : Type := Idp {
  ip_name : jstr; ip_issuer : jstr; ip_client : jstr; ip_secret : jstr; ip_groups : jstr; ip_skip : bool; ip_scopes : list jstr; ip_hours : Z }.
Record idp_view : Type := IdpView { iv_name : jstr; iv_issuer : jstr; iv_client : jstr; iv_session : list piece }.
Definition idp_view_of (p : idp) : idp_view :=
  IdpView (ip_name p) (ip_issuer p) (ip_client p)
    [Lit (jq "<span class=`badge badge--muted`>"); Val (js_of_Z (if ip_hours p =? 0 then 12 else ip_hours p)); Lit (js "h</span>")].

Record idp_form : Type := IdpForm {
  i_name : jstr; i_issuer : jstr; i_client : jstr; i_secret : jstr; i_groups : jstr; i_session : jstr; i_skipverify : bool; i_scopes : jstr }.
Definition open_idp (p : option idp) : idp_form :=
  match p with
  | Some p => IdpForm (text_set (ip_name p)) (text_set (ip_issuer p)) (text_set (ip_client p)) [] (text_set (ip_groups p))
                (number_of (ip_hours p)) (ip_skip p) (text_set (join (js ", ") (ip_scopes p)))
  | None => IdpForm [] [] [] [] [] [] false []
  end.
(** [hours > 0] is false when the text has no number: the hours are left out
    then, and the server keeps its own. *)
Definition idp_submit (f : idp_form) : idp :=
  Idp (trim (i_name f)) (trim (i_issuer f)) (trim (i_client f)) (i_secret f) (trim (i_groups f)) (i_skipverify f) (commas_of (i_scopes f))
    (match parse_int (i_session f) with Some h => if 0 <? h then h else 0 | None => 0 end).

(** ** Streams *)

Record stream_view : Type := StreamView {
  sv_listen : list piece; sv_failed_title : option jstr; sv_proto : list piece; sv_forward : jstr; sv_sources : list piece; sv_on : bool }.
(** A stream as the server lists it: with its number, and its listeners,
    each with its key, its state and its error. *)
Record listed_stream : Type := ListedStream { ls_id : Z; ls_stream : stream; ls_listeners : list (jstr * jstr * jstr) }.

Definition muted (t : list piece) : list piece := Lit (jq "<span class=`badge badge--muted`>") :: t ++ [Lit (js "</span>")].
(** The listening address is set as text; [innerHTML +=] reads it back as
    markup, which digits and dashes survive. *)
Definition listen_cell (s : stream) : list piece :=
  let port := port_text (st_listenPort s) in
  let badges := (if truthy (st_sendProxyProtocol s) then [js "proxy-" ++ st_sendProxyProtocol s] else [])
    ++ (if st_terminateTls s then [js "tls-term"] else []) ++ (match st_sniRoutes s with [] => [] | _ => [js "sni"] end) in
  [Lit (js ":"); ev (port ++ (if st_listenPortEnd s =? 0 then [] else js "-" ++ js_of_Z (st_listenPortEnd s)))]
  ++ match badges with [] => [] | _ => Lit (js " ") :: join_tpl (js " ") (map (λ b, muted [ev b]) badges) end.
Definition failed_listeners (l : list (jstr * jstr * jstr)) : list (jstr * jstr * jstr) := List.filter (λ x, bool_decide (x.1.2 = js "failed")) l.
Definition sources_cell (acls : list (Z * jstr)) (s : stream) : list piece :=
  match st_accessListId s with
  | Some id =>
      [Lit (jq "<span class=`badge`>");
       ev (match List.find (λ a, a.1 =? id) acls with Some a => a.2 | None => js "access list" end); Lit (js "</span>")]
  | None =>
      match st_allowedCidrs s with
      | [] => [Lit (jq "<span class=`badge badge--warn` title=`No source restriction: anyone who can reach the port`>anyone</span>")]
      | l => [Lit (jq "<span class=`badge`>"); Val (js_of_nat (length l));
              Lit (js " CIDR" ++ (if (1 <? length l)%nat then js "s" else []) ++ js "</span>")]
      end
  end.
Definition stream_view_of (p : people) (acls : list (Z * jstr)) (x : listed_stream) : stream_view :=
  let s := ls_stream x in
  StreamView (listen_cell s)
    (match failed_listeners (ls_listeners x) with
     | [] => None
     | l => Some (join [10%N] (map (λ y, y.1.1 ++ js ": " ++ y.2) l))
     end)
    (muted [ev (if bool_decide (st_protocol s = js "both") then js "tcp + udp" else st_protocol s)])
    (st_forwardHost s ++ js ":" ++ js_of_Z (st_forwardPort s) ++ (if st_via s =? 0 then [] else js " via " ++ wgSiteName p (st_via s)))
    (sources_cell acls s) (st_enabled s).
Definition stream_on (b : bool) (s : stream) : stream :=
  Stream (st_listenPort s) (st_listenPortEnd s) (st_protocol s) (st_forwardHost s) (st_forwardPort s) (st_via s) (st_allowedCidrs s)
    (st_accessListId s) (st_sendProxyProtocol s) (st_acceptProxyProtocol s) (st_trustedProxies s) (st_terminateTls s) (st_certId s)
    (st_sniRoutes s) b.

(** ** Certificates *)

Record ccert : Type := Ccert { cc_id : Z; cc_name : jstr; cc_domains : list jstr; cc_notAfter : jstr }.
Definition ccert_row (now : Z) (date_ms : jstr → option Z) (date_text : jstr → jstr) (c : ccert) : list piece :=
  let expired := truthy (cc_notAfter c) && date_lt (date_ms (cc_notAfter c)) (Some now) in
  [Lit (js "<td>"); ev (cc_name c); Lit (jq "</td><td class=`domain`>"); ev (join (js ", ") (cc_domains c));
   Lit (jq "</td><td class=`domain`><span class=`badge " ++ (if expired then js "badge--danger" else js "badge--success") ++ jq "`>");
   ev (if truthy (cc_notAfter c) then date_text (cc_notAfter c) else js "-"); Lit (js "</span></td>")].

Record cert_form : Type := CertForm { c_name : jstr; c_cert : jstr; c_key : jstr }.
Definition open_cert (c : option ccert) : cert_form := CertForm (match c with Some c => text_set (cc_name c) | None => [] end) [] [].
Definition cert_submit (f : cert_form) : jstr * jstr * jstr := (trim (c_name f), c_cert f, c_key f).
(** The self-signed certificate: name, domains, days. *)
Definition selfsigned_submit (name domains days : jstr) : jstr * list jstr * Z := (trim name, lines_of domains, int_or (parse_int days) 825).
(** The reply to an import: what was made and what was changed, [None] where
    the reply leaves a number out. *)
Definition import_text (made changed : option Z * option Z * option Z) : jstr :=
  let n (x : option Z) := js_of_Z (default 0 x) in
  js "Imported: created " ++ n made.1.1 ++ js " hosts, " ++ n made.1.2 ++ js " access lists, " ++ n made.2 ++ js " streams; updated "
  ++ n changed.1.1 ++ js " hosts, " ++ n changed.1.2 ++ js " access lists, " ++ n changed.2 ++ js " streams.".

(** ** The tables as listings *)

#[local] Obligation Tactic := done.

Definition no_switch {R} (_ : R) : option bool := None.
Definition no_flip {R} (_ : bool) (r : R) : R := r.

Definition acl_row : Type := Z * acl.
#[export] Program Instance acl_listing : Listing acl_row :=
  {| row_id := fst; row_confirm r := Some (jq "Delete access list `" ++ ac_name r.2 ++ jq "`?"); row_switch := no_switch; row_flip := no_flip;
     fail_alerts := true; flip_back := false; load_falls_back := false |}.
Definition idp_row : Type := Z * idp.
#[export] Program Instance idp_listing : Listing idp_row :=
  {| row_id := fst; row_confirm r := Some (jq "Delete identity provider `" ++ ip_name r.2 ++ jq "`?"); row_switch := no_switch;
     row_flip := no_flip; fail_alerts := true; flip_back := false; load_falls_back := true |}.
(** A stream is put back without its listeners, with only [enabled] set. *)
#[export] Program Instance stream_listing : Listing listed_stream :=
  {| row_id := ls_id; row_confirm r := Some (js "Delete stream :" ++ port_text (st_listenPort (ls_stream r)) ++ js "?");
     row_switch r := Some (st_enabled (ls_stream r)); row_flip b r := ListedStream (ls_id r) (stream_on b (ls_stream r)) [];
     fail_alerts := false; flip_back := true; load_falls_back := false |}.
#[export] Program Instance ccert_listing : Listing ccert :=
  {| row_id := cc_id; row_confirm r := Some (jq "Delete certificate `" ++ cc_name r ++ jq "`?"); row_switch := no_switch; row_flip := no_flip;
     fail_alerts := true; flip_back := false; load_falls_back := false |}.
(** A token is revoked without a question. *)
Record token : Type := Token { tk_id : Z; tk_name : jstr; tk_created : jstr }.
#[export] Program Instance token_listing : Listing token :=
  {| row_id := tk_id; row_confirm _ := None; row_switch := no_switch; row_flip := no_flip; fail_alerts := false; flip_back := false;
     load_falls_back := true |}.
Definition policy_entry : Type := Z * policy.
#[export] Program Instance policy_listing : Listing policy_entry :=
  {| row_id := fst; row_confirm r := Some (js "Delete policy " ++ po_name r.2 ++ js "? Open connections that only it allowed are closed.");
     row_switch := no_switch; row_flip := no_flip; fail_alerts := true; flip_back := false; load_falls_back := true |}.
#[export] Program Instance site_listing : Listing vsite :=
  {| row_id x := wg_id (vs_site x);
     row_confirm x := Some (js "Delete site " ++ sd_name (wg_data (vs_site x)) ++ js "? Its configuration stops working at once.");
     row_switch := no_switch; row_flip := no_flip; fail_alerts := true; flip_back := false; load_falls_back := true |}.
Definition device_on (b : bool) (d : vdevice) : vdevice :=
  VDevice (vd_id d) (vd_name d) (vd_kind d) (vd_address d) b (vd_revoked d) (vd_email d) (vd_sub d) (vd_provider d) (vd_expires d) (vd_routes d).
#[export] Program Instance device_listing : Listing vdevice :=
  {| row_id := vd_id;
     row_confirm d := Some (js "Revoke " ++ vd_name d ++ js "? Its configuration stops working at once and can never be used again.");
     row_switch d := Some (vd_enabled d); row_flip := device_on; fail_alerts := true; flip_back := false; load_falls_back := true |}.

(** ** Properties *)

(** The server (OIDCProvider.Validate of internal/store/oidc.go and maskProvider
    of internal/admin/oidcproviders.go).  Its white space is Go's
    [unicode.IsSpace], which differs from the browser's by U+0085 and
    U+FEFF; [trim_slashes] is [strings.TrimRight(s, "/")].  A provider that
    is refused is [None]. *)
Definition go_space (c : N) : bool := (is_space c && negb (N.eqb c 65279)) || N.eqb c 133.
Definition go_trim (s : jstr) : jstr := rev (drop_while go_space (rev (drop_while go_space s))).
Definition trim_slashes (s : jstr) : jstr := rev (drop_while (N.eqb 47) (rev s)).
Arguments go_trim s : simpl never.
Arguments trim_slashes s : simpl never.
Definition with_secret (x : jstr) (p : idp) : idp :=
  Idp (ip_name p) (ip_issuer p) (ip_client p) x (ip_groups p) (ip_skip p) (ip_scopes p) (ip_hours p).
Definition provider_validate (p : idp) : option idp :=
  let name := go_trim (ip_name p) in
  let issuer := trim_slashes (go_trim (ip_issuer p)) in
  let client := go_trim (ip_client p) in
  let scopes := List.filter truthy (map go_trim (ip_scopes p)) in
  let groups := str_or (go_trim (ip_groups p)) (js "groups") in
  if negb (truthy name) then None
  else if negb (starts_with (js "http://") issuer) && negb (starts_with (js "https://") issuer) then None
  else if negb (truthy client) then None
  else if ip_hours p <? 0 then None
  else if 720 <? ip_hours p then None
  else Some (Idp name issuer client (ip_secret p) groups (ip_skip p) scopes (if ip_hours p =? 0 then 12 else ip_hours p)).
Definition secret_mask : jstr := js "********".
Definition provider_masked (p : idp) : idp := with_secret (if truthy (ip_secret p) then secret_mask else []) p.
(** A provider the server takes, as it is listed afterwards: a new one, or one
    listed as [old], whose secret is kept when none, or the mask, is sent.
    (A save can be refused for other reasons, such as another issuer while the
    VPN knows people of the old one.) *)
Definition provider_save (old : option idp) (p : idp) : option idp :=
  q ← provider_validate p;
  Some (provider_masked match old with
                        | Some o => if truthy (ip_secret q) && negb (bool_decide (ip_secret q = secret_mask)) then q else with_secret (ip_secret o) q
                        | None => q
                        end).

(** A provider whose texts the form's inputs show as they are. *)
Definition idp_ok (p : idp) : bool :=
  word (ip_name p) && word (ip_issuer p) && word (ip_client p) && word (ip_groups p) && list_words (ip_scopes p) && (0 <=? ip_hours p).
(** A form as typed: its inputs hold one line each, without U+0085, and the
    issuer is an address without spaces. *)
Definition next_line (c : N) : bool := N.eqb c 133.
Definition idp_typed (f : idp_form) : bool :=
  forallb (λ s, one_line s && forallb (λ c, negb (next_line c)) s) [i_name f; i_issuer f; i_client f; i_groups f; i_scopes f]
  && forallb (λ c, negb (is_space c)) (trim (i_issuer f)).

Lemma idp_round (p : idp) : idp_ok p = true → idp_submit (open_idp (Some p)) = with_secret [] p.
Proof.
  unfold idp_ok. rewrite !andb_true_iff. intros (((((Hn & Hi) & Hc) & Hg) & Hs) & Hh).
  destruct p as [name issuer client secret groups skip scopes hours]. cbn in *.
  destruct (text_set_word _ Hn) as [_ En], (text_set_word _ Hi) as [_ Ei], (text_set_word _ Hc) as [_ Ec], (text_set_word _ Hg) as [_ Eg].
  unfold idp_submit, open_idp, with_secret. cbn. rewrite En, Ei, Ec, Eg, (proj1 (commas_text _ Hs)).
  assert (match parse_int (number_of hours) with Some h => if 0 <? h then h else 0 | None => 0 end = hours) as ->; [|done].
  unfold number_of. destruct (Z.eqb_spec hours 0) as [->|Hz]; [done|]. rewrite number_set_int, parse_int_js_of_Z.
  apply Z.leb_le in Hh. destruct (Z.ltb_spec 0 hours); lia.
Qed.

Lemma pem_form_round (c : ccert) : word (cc_name c) = true → cert_submit (open_cert (Some c)) = (cc_name c, [], []).
Proof. intros H. destruct (text_set_word _ H) as [_ E]. unfold cert_submit, open_cert. cbn. by rewrite E. Qed.

(** The editors of providers and certificates ask for nothing more when they
    are opened; what is typed is any form.  Replacing a certificate starts
    from empty texts of both its parts. *)
Lemma no_loads {A} (la : list (Empty_set * A)) : la = [].
Proof. by destruct la as [|[[] _]]. Qed.

#[export, refine] Instance idp_editor : Editor unit idp idp idp_form Empty_set Empty_set idp_form := {
  open_form _ p _ := open_idp p; form_loads _ := []; form_loaded _ _ f := f; form_type g _ := g; form_read := idp_submit;
  form_ok _ p := idp_ok p = true; form_told _ _ _ := False; form_late := false; form_sends := with_secret [] }.
Proof. { intros env r f la H _ _. rewrite (no_loads la). by apply idp_round. } { done. } Defined.
#[export, refine] Instance cert_editor : Editor unit ccert (jstr * jstr * jstr) cert_form Empty_set Empty_set cert_form := {
  open_form _ c _ := open_cert c; form_loads _ := []; form_loaded _ _ f := f; form_type g _ := g; form_read := cert_submit;
  form_ok _ c := word (cc_name c) = true; form_told _ _ _ := False; form_late := false; form_sends c := (cc_name c, [], []) }.
Proof. { intros env r f la H _ _. rewrite (no_loads la). by apply pem_form_round. } { done. } Defined.

(** *** What the server keeps of a saved form *)

Definition plain (w : jstr) : bool := word w && forallb (λ c, negb (next_line c)) w.

Lemma go_trim_plain w : plain w = true → go_trim w = w.
Proof.
  unfold plain, word. rewrite !andb_true_iff. intros [[_ Ht%bool_decide_eq_true] Hn].
  destruct (trim_result w) as [E|Hw]; rewrite Ht in *; [by subst|].
  assert (∀ c, c ∈ w → is_space c = false → go_space c = false) as Hg.
  { intros c Hc Es. rewrite forallb_forall in Hn. specialize (Hn c (proj1 (list_elem_of_In _ _) Hc)).
    unfold go_space. rewrite Es. by apply negb_true_iff in Hn. }
  unfold go_trim. rewrite (drop_while_stop _ w), drop_while_stop; [apply rev_involutive|..]; unfold tidy in Hw.
  - destruct w as [|c t]; [done|]. apply andb_true_iff in Hw as [_ Hw].
    destruct (rev (c :: t)) as [|e u] eqn:E; [done|]. apply Hg; [|by apply negb_true_iff].
    apply list_elem_of_In, in_rev. rewrite E. by left.
  - destruct w as [|c t]; [done|]. apply andb_true_iff in Hw as [Hw _]. apply Hg; [by left|by apply negb_true_iff].
Qed.

Lemma forallb_sub {A} (ok : A → bool) a b c : forallb ok (a ++ b ++ c) = true → forallb ok b = true.
Proof. rewrite !forallb_app, !andb_true_iff. tauto. Qed.
Lemma plain_trim s : one_line s = true → forallb (λ c, negb (next_line c)) s = true → plain (trim s) = true.
Proof.
  intros H1 H2. unfold plain. rewrite trim_word by done. destruct (trim_sub s) as (a & b & E). rewrite E in H2. by apply forallb_sub in H2.
Qed.
Lemma plain_commas s : one_line s = true → forallb (λ c, negb (next_line c)) s = true →
  List.filter truthy (map go_trim (commas_of s)) = commas_of s.
Proof.
  intros H1 H2. pose proof (trim_all_tidy (split_ch 44 s)) as Ht. pose proof (commas_words s H1) as Hw.
  assert (Forall (λ w, plain w = true) (commas_of s)) as Hp.
  { apply list.Forall_forall. intros w Hi. unfold list_words in Hw. rewrite forallb_forall in Hw.
    specialize (Hw w (proj1 (list_elem_of_In _ _) Hi)). boolify. unfold plain, word.
    rewrite bool_decide_true by (by apply trim_tidy). assert (forallb (λ c, negb (next_line c)) w = true) as ->; [|by rewrite !andb_true_r].
    unfold commas_of, trim_all in Hi. apply list_elem_of_In, filter_In in Hi as [(x & <- & Hx%list_elem_of_In)%in_map_iff _].
    apply split_ch_sub in Hx as (a & b & E). rewrite E in H2. apply forallb_sub in H2.
    destruct (trim_sub x) as (a' & b' & E'). rewrite E' in H2. by apply forallb_sub in H2. }
  change (Forall (λ w, tidy w = true) (commas_of s)) in Ht. revert Ht Hp. generalize (commas_of s). clear.
  induction 1 as [|w l Hw _ IH]; inversion 1; [done|]. cbn [map List.filter]. rewrite go_trim_plain by done.
  rewrite IH by done. by destruct w.
Qed.

Lemma drop_while_idem {A} (p : A → bool) l : drop_while p (drop_while p l) = drop_while p l.
Proof. destruct (drop_while p l) as [|x t] eqn:E; [done|]. apply drop_while_head in E. cbn. by rewrite E. Qed.
Lemma trim_slashes_idem s : trim_slashes (trim_slashes s) = trim_slashes s.
Proof. unfold trim_slashes. by rewrite rev_involutive, drop_while_idem. Qed.
Lemma trim_slashes_sub s : ∃ b, s = trim_slashes s ++ b.
Proof.
  destruct (drop_while_suffix (N.eqb 47) (rev s)) as [k E]. exists (rev k). unfold trim_slashes.
  by rewrite <- rev_app_distr, <- E, rev_involutive.
Qed.

(** A text without white space is what [trim] leaves of it. *)
Lemma spaceless_word s : one_line s = true → forallb (λ c, negb (is_space c)) s = true → word s = true.
Proof.
  intros H1 H2. unfold word. rewrite H1, bool_decide_true; [done|]. rewrite forallb_forall in H2.
  destruct s as [|c t]; [done|]. apply trim_tidy. unfold tidy. rewrite (H2 c) by (by left).
  destruct (rev (c :: t)) as [|e u] eqn:E.
  - apply (f_equal (@length N)) in E. rewrite length_rev in E. done.
  - rewrite (H2 e); [done|]. apply in_rev. rewrite E. by left.
Qed.
Lemma plain_issuer s : plain s = true → forallb (λ c, negb (is_space c)) s = true → plain (trim_slashes s) = true.
Proof.
  unfold plain at 1. intros [[H1 _]%andb_true_iff H2]%andb_true_iff H3. destruct (trim_slashes_sub s) as [b E].
  assert (∀ ok : N → bool, forallb ok s = true → forallb ok (trim_slashes s) = true) as Hs.
  { intros ok. rewrite E at 1. rewrite forallb_app. by intros [? _]%andb_true_iff. }
  unfold plain. rewrite (Hs _ H2), andb_true_r. apply spaceless_word; [by apply (Hs _ H1)|by apply Hs].
Qed.

(** A provider as the server keeps what was typed. *)
Record provider_kept (p : idp) : Prop := {
  pk_name : plain (ip_name p) = true ∧ truthy (ip_name p) = true;
  pk_issuer : plain (ip_issuer p) = true ∧ trim_slashes (ip_issuer p) = ip_issuer p;
  pk_http : starts_with (js "http://") (ip_issuer p) || starts_with (js "https://") (ip_issuer p) = true;
  pk_client : plain (ip_client p) = true ∧ truthy (ip_client p) = true;
  pk_groups : plain (ip_groups p) = true ∧ truthy (ip_groups p) = true;
  pk_scopes : list_words (ip_scopes p) = true ∧ List.filter truthy (map go_trim (ip_scopes p)) = ip_scopes p;
  pk_hours : 0 < ip_hours p <= 720 }.

Lemma kept_ok p : provider_kept p → idp_ok p = true.
Proof.
  unfold plain. intros [[[Hn _]%andb_true_iff _] [[Hi _]%andb_true_iff _] _ [[Hc _]%andb_true_iff _] [[Hg _]%andb_true_iff _] [Hs _] Hh].
  unfold idp_ok. rewrite Hn, Hi, Hc, Hg, Hs. apply Z.leb_le. lia.
Qed.
Lemma kept_validate x p : provider_kept p → provider_validate (with_secret x p) = Some (with_secret x p).
Proof.
  intros [[Hn Hn'] [Hi Hi'] Hu [Hc Hc'] [Hg Hg'] [_ Hs] Hh]. destruct p as [name issuer client secret groups skip scopes hours]. cbn in *.
  unfold provider_validate, with_secret. cbn. rewrite !go_trim_plain, Hi', Hs, Hn', Hc' by done. cbn [negb].
  rewrite <- negb_orb. cbn in Hu. rewrite Hu. cbn [negb].
  destruct (Z.ltb_spec hours 0); [lia|]. destruct (Z.ltb_spec 720 hours); [lia|]. destruct (Z.eqb_spec hours 0); [lia|]. by destruct groups.
Qed.

Lemma typed_kept f q : idp_typed f = true → provider_validate (idp_submit f) = Some q → provider_kept q ∧ ip_secret q = i_secret f.
Proof.
  unfold idp_typed. cbn [forallb]. rewrite !andb_true_iff.
  intros [((Hn & Hn') & (Hi & Hi') & (Hc & Hc') & (Hg & Hg') & (Hs & Hs') & _) Hu].
  pose proof (plain_trim _ Hn Hn') as Pn. pose proof (plain_trim _ Hi Hi') as Pi. pose proof (plain_trim _ Hc Hc') as Pc.
  pose proof (plain_trim _ Hg Hg') as Pg. unfold provider_validate, idp_submit. cbn -[js].
  rewrite !go_trim_plain, plain_commas by done. rewrite <- negb_orb.
  destruct (truthy (trim (i_name f))) eqn:En; [|done]. cbn [negb].
  destruct (starts_with _ _ || starts_with _ _) eqn:Eu; [|done]. cbn [negb].
  destruct (truthy (trim (i_client f))) eqn:Ec; [|done]. cbn [negb].
  generalize (match parse_int (i_session f) with Some h => if 0 <? h then h else 0 | None => 0 end) as h. intros h.
  destruct (Z.ltb_spec h 0); [done|]. destruct (Z.ltb_spec 720 h); [done|].
  intros [= <-]. split; [|done].
  constructor; cbn -[js list_words]; [done|split; [by apply plain_issuer|apply trim_slashes_idem]|done|done| | |].
  - unfold str_or. by destruct (trim (i_groups f)).
  - by rewrite plain_commas, commas_words.
  - destruct (Z.eqb_spec h 0); lia.
Qed.

Lemma kept_secret x p : provider_kept p → provider_kept (with_secret x p).
Proof. by intros []. Qed.
Lemma saved_kept old f q : idp_typed f = true → provider_save old (idp_submit f) = Some q →
  provider_kept q ∧ (ip_secret q = [] ∨ ip_secret q = secret_mask).
Proof.
  intros Hf. unfold provider_save. destruct (provider_validate (idp_submit f)) as [v|] eqn:E; [|done]. cbn. intros [= <-].
  destruct (typed_kept _ _ Hf E) as [Hv _]. unfold provider_masked. split.
  - apply kept_secret. destruct old; [|done]. by destruct (_ && _); [|apply kept_secret].
  - cbn. destruct (truthy _); auto.
Qed.

(** C28. The editor of identity providers: opening a provider and saving it
    without a change sends it back as it is listed, without a secret.
    Whatever is typed into the form (an issuer without spaces, and no
    U+0085), if the server takes it for a new provider or for a listed one,
    the provider then listed is one the form shows as it is, and opening and
    saving that leaves everything the server lists of it, its default groups
    and hours, its issuer and that it has a secret, as it was. *)
Theorem idp_edit_identity (p : idp) (f : idp_form) (old : option idp) (q : idp) :
  (idp_ok p = true → idp_submit (open_idp (Some p)) = with_secret [] p)
  ∧ (idp_typed f = true → provider_save old (idp_submit f) = Some q →
     idp_ok q = true ∧ provider_save (Some q) (idp_submit (open_idp (Some q))) = Some q).
Proof.
  split; [apply idp_round|]. intros Hf Hq. destruct (saved_kept _ _ _ Hf Hq) as [Hk Hs]. pose proof (kept_ok _ Hk) as Ho. split; [done|].
  rewrite idp_round by done. unfold provider_save. rewrite kept_validate by done. destruct q. by destruct Hs as [E|E]; cbn in E; subst.
Qed.

(** ** Lifting bans *)

Section lifting.
Context (now : Z) (date_ms : jstr → option Z) (date_time_text : jstr → jstr) (region_name : jstr → option jstr).
Abbreviation step := (ban_step now date_ms date_time_text region_name).
Abbreviation run := (ban_run now date_ms date_time_text region_name).

Definition no_bans : bans_page := BansPage [] [] 0 [] false false [] [] [].
(** The buttons of the table shown whose request is under way. *)
Definition lifting (gen : nat) (l : list ban_job) : list nat :=
  omap (λ j, match j with BLift g i _ => if (g =? gen)%nat then Some i else None | BLoad => None end) l.

Record bans_ok (p : bans_page) : Prop := {
  bk_rows : length (bp_rows p) = length (bp_bans p);
  bk_once : NoDup (lifting (bp_gen p) (bp_jobs p));
  bk_off : ∀ i, i ∈ lifting (bp_gen p) (bp_jobs p) → br_disabled <$> bp_rows p !! i = Some true;
  bk_stuck : ∀ i, br_disabled <$> bp_rows p !! i = Some true →
    i ∈ lifting (bp_gen p) (bp_jobs p) ∨ BLoad ∈ bp_jobs p ∨ bp_table_hidden p = true;
  bk_gen : ∀ g i ip, BLift g i ip ∈ bp_jobs p → (g <= bp_gen p)%nat }.

Lemma lifting_app gen l l' : lifting gen (l ++ l') = lifting gen l ++ lifting gen l'.
Proof. apply omap_app. Qed.
Lemma lifting_perm gen l l' : l ≡ₚ l' → lifting gen l ≡ₚ lifting gen l'.
Proof. intros H. unfold lifting. by rewrite H. Qed.
Lemma lifting_old gen l : (∀ g i ip, BLift g i ip ∈ l → (g < gen)%nat) → lifting gen l = [].
Proof.
  induction l as [|j l IH]; intros H; [done|]. unfold lifting in *. cbn [omap list_omap]. rewrite IH; [|intros; eapply H; by right].
  destruct j as [|g i ip]; [done|]. specialize (H g i ip (list_elem_of_here _ _)). by destruct (Nat.eqb_spec g gen); [lia|].
Qed.

Lemma button_lookup i off p k :
  br_disabled <$> bp_rows (ban_button i off p) !! k = if decide (i = k) then (λ _, off) <$> bp_rows p !! k else br_disabled <$> bp_rows p !! k.
Proof.
  cbn. destruct (decide (i = k)) as [->|Hn]; [|by rewrite list_lookup_alter_ne]. rewrite list_lookup_alter_eq. by destruct (bp_rows p !! k).
Qed.

Lemma loaded_ok l s p : (∀ g i ip, BLift g i ip ∈ bp_jobs p → (g <= bp_gen p)%nat) →
  bans_ok (bans_loaded now date_ms date_time_text region_name l s p).
Proof.
  intros H5.
  assert (lifting (S (bp_gen p)) (bp_jobs p) = []) as E by (apply lifting_old; intros g i ip Hin%H5; lia).
  constructor; cbn [bans_loaded bp_rows bp_bans bp_gen bp_jobs bp_table_hidden]; rewrite ?E.
  - apply length_map.
  - by apply list.NoDup_nil.
  - by intros i ?%not_elem_of_nil.
  - intros i Hi. rewrite list_lookup_fmap in Hi. by destruct (l !! i).
  - intros g i ip Hin%H5. lia.
Qed.

Lemma ban_open_ok p : bans_ok p → bans_ok (ban_jobs (bp_jobs p ++ [BLoad]) p).
Proof.
  intros [H1 H2 H3 H4 H5].
  constructor; cbn [ban_jobs bp_rows bp_bans bp_gen bp_jobs bp_table_hidden]; rewrite ?lifting_app, ?app_nil_r; try done.
  - intros i Hi. right. left. apply elem_of_app. right. by left.
  - intros g i ip [Hin|Hin%list_elem_of_singleton]%elem_of_app; [by apply (H5 g i ip)|done].
Qed.

Lemma ban_press_ok p i r ip : bp_rows p !! i = Some r → br_disabled r = false → bans_ok p →
  bans_ok (ban_jobs (bp_jobs p ++ [BLift (bp_gen p) i ip]) (send_lift ip (ban_button i true p))).
Proof.
  intros Er Ed [H1 H2 H3 H4 H5].
  assert (lifting (bp_gen p) (bp_jobs p ++ [BLift (bp_gen p) i ip]) = lifting (bp_gen p) (bp_jobs p) ++ [i]) as El
    by (rewrite lifting_app; cbn; by rewrite Nat.eqb_refl).
  constructor; cbn [ban_jobs send_lift ban_button bp_bans bp_gen bp_jobs bp_table_hidden]; rewrite ?El.
  - cbn. by rewrite length_alter.
  - apply list.NoDup_app. split; [done|]. split; [|apply list.NoDup_singleton]. intros k Hk Hk'%list_elem_of_singleton. subst k.
    apply H3 in Hk. rewrite Er in Hk. cbn in Hk. congruence.
  - intros k Hk. change (br_disabled <$> bp_rows (ban_button i true p) !! k = Some true). rewrite button_lookup.
    destruct (decide (i = k)) as [<-|Hn]; [by rewrite Er|]. apply H3. apply elem_of_app in Hk as [?|Hk%list_elem_of_singleton]; congruence.
  - intros k. change (br_disabled <$> bp_rows (ban_button i true p) !! k = Some true →
      k ∈ lifting (bp_gen p) (bp_jobs p) ++ [i] ∨ BLoad ∈ bp_jobs p ++ [BLift (bp_gen p) i ip] ∨ bp_table_hidden p = true).
    rewrite button_lookup, !elem_of_app. destruct (decide (i = k)) as [<-|Hn]; [intros _; left; right; by left|].
    intros [?|[?|?]]%H4; [left; by left|right; left; by left|right; by right].
  - intros g k ip' [Hin|Hin%list_elem_of_singleton]%elem_of_app; [by apply (H5 g k ip')|by injection Hin as -> -> ->].
Qed.

(** What is left once one request is answered. *)
Lemma bans_served p job js' : bans_ok p → bp_jobs p ≡ₚ job :: js' →
  NoDup (lifting (bp_gen p) js') ∧ (∀ i, i ∈ lifting (bp_gen p) js' → br_disabled <$> bp_rows p !! i = Some true)
  ∧ (∀ g i ip, BLift g i ip ∈ js' → (g <= bp_gen p)%nat)
  ∧ (∀ i, br_disabled <$> bp_rows p !! i = Some true →
       i ∈ lifting (bp_gen p) [job] ∨ i ∈ lifting (bp_gen p) js' ∨ BLoad ∈ job :: js' ∨ bp_table_hidden p = true).
Proof.
  intros [H1 H2 H3 H4 H5] Ej. pose proof (lifting_perm (bp_gen p) _ _ Ej) as P.
  change (job :: js') with ([job] ++ js') in P. rewrite lifting_app in P. split_and!.
  - rewrite P in H2. by apply list.NoDup_app in H2 as (_ & _ & ?).
  - intros i Hi. apply H3. rewrite P. apply elem_of_app. by right.
  - intros g i ip Hin. apply (H5 g i ip). rewrite Ej. by right.
  - intros i [Hi|[Hi|?]]%H4; [rewrite P in Hi; apply elem_of_app in Hi as [?|?]; auto|rewrite Ej in Hi; auto|auto].
Qed.

Lemma ban_load_ok p js' r : bans_ok p → bp_jobs p ≡ₚ BLoad :: js' → ban_answers BLoad r = true →
  bans_ok (ban_continue now date_ms date_time_text region_name BLoad r (ban_jobs js' p)).
Proof.
  intros H Ej Ha. destruct (bans_served _ _ _ H Ej) as (S1 & S2 & S3 & S4).
  destruct r as [l s| |m]; [by apply (loaded_ok l s (ban_jobs js' p))|done|]. pose proof (bk_rows _ H) as H1.
  constructor; cbn [ban_continue bans_failed ban_jobs bp_rows bp_bans bp_gen bp_jobs bp_table_hidden]; try done.
  intros. by right; right.
Qed.

Lemma ban_done_ok p js' job : bans_ok p → bp_jobs p ≡ₚ job :: js' → bans_ok (ban_jobs (js' ++ [BLoad]) p).
Proof.
  intros H Ej. destruct (bans_served _ _ _ H Ej) as (S1 & S2 & S3 & S4). pose proof (bk_rows _ H).
  constructor; cbn [ban_jobs bp_rows bp_bans bp_gen bp_jobs bp_table_hidden]; rewrite ?lifting_app, ?app_nil_r; try done.
  - intros i _. right. left. apply elem_of_app. right. by left.
  - intros g i ip [Hin|Hin%list_elem_of_singleton]%elem_of_app; [by apply (S3 g i ip)|done].
Qed.

Lemma ban_fail_ok p js' g i ip m : bans_ok p → bp_jobs p ≡ₚ BLift g i ip :: js' →
  bans_ok (ban_continue now date_ms date_time_text region_name (BLift g i ip) (BFail m) (ban_jobs js' p)).
Proof.
  intros H Ej. destruct (bans_served _ _ _ H Ej) as (S1 & S2 & S3 & S4). pose proof (bk_once _ H) as Hd.
  rewrite (lifting_perm _ _ _ Ej) in Hd. change (BLift g i ip :: js') with ([BLift g i ip] ++ js') in Hd. rewrite lifting_app in Hd.
  cbn [lifting omap list_omap] in S4, Hd. cbn [ban_continue ban_jobs bp_gen].
  assert (∀ k, BLoad ∈ BLift g k ip :: js' → BLoad ∈ js') as Hl by (by intros k [?|?]%elem_of_cons).
  destruct (Nat.eqb_spec g (bp_gen p)) as [->|Hg]; cbn [app] in Hd.
  - constructor; cbn [set_hint ban_button ban_jobs bp_bans bp_gen bp_jobs bp_table_hidden]; try done.
    + cbn. rewrite length_alter. apply H.
    + intros k Hk. change (br_disabled <$> bp_rows (ban_button i false p) !! k = Some true). rewrite button_lookup.
      destruct (decide (i = k)) as [<-|Hn]; [by apply list.NoDup_cons in Hd as [? _]|by apply S2].
    + intros k. change (br_disabled <$> bp_rows (ban_button i false p) !! k = Some true →
        k ∈ lifting (bp_gen p) js' ∨ BLoad ∈ js' ∨ bp_table_hidden p = true).
      rewrite button_lookup. destruct (decide (i = k)) as [<-|Hn]; [by destruct (bp_rows p !! i)|].
      intros [Hk%list_elem_of_singleton|[?|[Hk%Hl|?]]]%S4; auto.
  - constructor; cbn [set_hint ban_jobs bp_rows bp_bans bp_gen bp_jobs bp_table_hidden]; try done; [apply H|].
    intros k [Hk%not_elem_of_nil|[?|[Hk%Hl|?]]]%S4; auto.
Qed.

Lemma ban_step_ok p e : bans_ok p → bans_ok (step p e).
Proof.
  intros H. destruct e as [|i|j r]; cbn [ban_step]; [by apply ban_open_ok| |].
  - destruct (bp_bans p !! i) as [b|]; [|done]. destruct (bp_rows p !! i) as [r|] eqn:Er; [|done].
    destruct (br_disabled r) eqn:Ed; [done|]. by eapply ban_press_ok.
  - destruct (bp_jobs p !! j) as [job|] eqn:Ej; [|done]. destruct (ban_answers job r) eqn:Ea; [|done].
    apply delete_Permutation in Ej.
    destruct job as [|g i ip]; [by apply ban_load_ok|]. destruct r as [| |m]; [done| |by apply ban_fail_ok].
    exact (ban_done_ok p _ _ H Ej).
Qed.

Lemma ban_run_ok es : ∀ p, bans_ok p → bans_ok (run p es).
Proof. induction es as [|e es IH]; intros p H; [done|]. by apply IH, ban_step_ok. Qed.

(** The page of banned addresses: after any events a ban of the table
    shown has at most one request to lift it under way, and its button is off
    while it has; a button that is off never stays so, since its request, or
    a load that replaces the table, is under way, or the table is hidden with
    the reason of a load that failed; and a request that fails turns its
    button on again and says which address and why. *)
Theorem bans_lifted_once es : let p := run no_bans es in
  NoDup (lifting (bp_gen p) (bp_jobs p))
  ∧ (∀ i, i ∈ lifting (bp_gen p) (bp_jobs p) → br_disabled <$> bp_rows p !! i = Some true)
  ∧ (∀ i, br_disabled <$> bp_rows p !! i = Some true →
       i ∈ lifting (bp_gen p) (bp_jobs p) ∨ BLoad ∈ bp_jobs p ∨ bp_table_hidden p = true)
  ∧ (∀ j i ip m, bp_jobs p !! j = Some (BLift (bp_gen p) i ip) →
       let p' := step p (BReply j (BFail m)) in
       br_disabled <$> bp_rows p' !! i = Some false ∧ bp_hint p' = js "could not unban " ++ ip ++ js ": " ++ m).
Proof.
  intros p. assert (bans_ok no_bans) as H0.
  { constructor; cbn; [done|by apply list.NoDup_nil|by intros i ?%not_elem_of_nil|done|by intros g i ip ?%not_elem_of_nil]. }
  apply (ban_run_ok es) in H0 as [H1 H2 H3 H4 H5]. split_and!; [done..|]. intros j i ip m Hj. cbv zeta. cbn [ban_step]. rewrite Hj.
  cbn [ban_answers ban_continue]. cbn [ban_jobs bp_gen]. rewrite Nat.eqb_refl. split; [|done].
  change (br_disabled <$> bp_rows (ban_button i false p) !! i = Some false). rewrite button_lookup, decide_True by done.
  assert (i ∈ lifting (bp_gen p) (bp_jobs p)) as Hi%H3;
    [|change (run no_bans es) with p in Hi; by destruct (bp_rows p !! i)].
  rewrite (lifting_perm _ _ _ (delete_Permutation _ _ _ Hj)). unfold lifting. cbn [omap list_omap]. rewrite Nat.eqb_refl. by left.
Qed.
End lifting.

(** ** The properties at concrete inputs *)

Definition sample_idp : idp :=
  Idp (js "Company") (js "https://id.example/") (js "quicgate") secret_mask (js "groups") false [js "openid"; js "email"] 8.
Definition typed_idp : idp_form :=
  IdpForm (js " Company ") (js "https://id.example/realms/main/") (js "qg") (js "s3cret") [] (js "-2") true (js "openid,, email ").
Definition listed_idp : idp :=
  Idp (js "Company") (js "https://id.example/realms/main") (js "qg") secret_mask (js "groups") true [js "openid"; js "email"] 12.

Lemma idp_edit_identity_witness :
  idp_ok sample_idp = true ∧ idp_submit (open_idp (Some sample_idp)) = with_secret [] sample_idp
  ∧ idp_typed typed_idp = true ∧ provider_save None (idp_submit typed_idp) = Some listed_idp
  ∧ provider_save (Some listed_idp) (idp_submit (open_idp (Some listed_idp))) = Some listed_idp.
Proof.
  assert (idp_ok sample_idp = true) as H1 by by_compute. assert (idp_typed typed_idp = true) as H2 by by_compute.
  assert (provider_save None (idp_submit typed_idp) = Some listed_idp) as H3 by by_compute.
  destruct (idp_edit_identity sample_idp typed_idp None listed_idp) as [T1 T2].
  split; [exact H1|]. split; [exact (T1 H1)|]. split; [exact H2|]. split; [exact H3|]. exact (proj2 (T2 H2 H3)).
Defined.
