(* ===== verification/Workbench.v ===== *)
(** * A table with its editor (web/app.js)

    A page that lists records and edits them is a table of Listings and an
    editor of Editors: the row's button opens the editor on the record shown,
    a save that succeeded closes it and loads the table again.  The server
    stores what both ask it to.  What the editor sends is what
    [submit_editor] makes of the event, nothing more being asked of it here.
    The theorem is about the whole: the store is what the user's own requests
    have made of it, and at rest the table shows that store if the newest
    list arrived last. *)

From Stdlib Require Import Ascii String ZArith NArith Lia.
From stdpp Require Import base list relations sets strings numbers.
From S2P Require Import Prelude JsString Listings Editors Tables.

Section bench.
Context {Env T R Q U L A F : Type} `{!Listing T} `{!Editor Env R Q U L A F}.
Abbreviation request := (table_request (R := T)).
Abbreviation tworld := (world (R := T)).
Abbreviation teditor := (editor (Q := Q) (L := L) (F := F)).
Abbreviation tevent := (editor_event (Env := Env) (R := R) (U := U) (A := A)).
(** What the server does for a switch or a delete, and for a record saved:
    [None] is a new one.  [record] is what the editor is given of a row. *)
Context (change : request → list T → list T) (store : option Z → Q → list T → list T) (record : T → R).

Definition bench_apply (q : request) (l : list T) : list T := match q with QSave f => f l | _ => change q l end.
(** What a request of the editor does to the store. *)
Definition stored (q : editor_request (Q := Q)) : list T → list T :=
  match q with EPost x => store None x | EPut id x => store (Some id) x | ERefresh => id end.

Record bench : Type := Bench { bn_world : tworld; bn_editor : teditor }.
Definition bench_table (e : table_event (R := T)) (w : tworld) : tworld :=
  World (w_srv w) (table_step (w_table w) e) (w_answers w) (w_news w).
(** What the editor sends in a step goes out with the table's requests. *)
Definition sent_now (s s' : teditor) : list (editor_request (Q := Q)) := drop (length (changes s)) (changes s').
Definition bench_send (l : list (editor_request (Q := Q))) (w : tworld) : tworld :=
  fold_left (λ w q, bench_table (TSave (stored q)) w) l w.

(** The saves among requests; the events of the table alone, and those of the
    editor that are neither an opening nor the answer to a save. *)
Definition is_saving (q : request) : bool := match q with QSave _ => true | _ => false end.
Definition savings (l : list request) : list request := List.filter is_saving l.
Definition table_only (e : table_event (R := T)) : bool := match e with TSave _ => false | _ => true end.
Definition editor_own (e : tevent) : bool :=
  match e with EvType _ | EvSubmit | EvClose | EvReply _ (ELoaded _) => true | _ => false end.

Inductive bench_step : bench → bench → Prop :=
  | BTable w s e : table_only e = true → bench_step (Bench w s) (Bench (bench_table e w) s)
  | BEdit w s env i r : tb_rows (w_table w) !! i = Some r →
      bench_step (Bench w s) (Bench w (editor_step s (EvOpen env (Some (row_id r, record r)))))
  | BNew w s env : bench_step (Bench w s) (Bench w (editor_step s (EvOpen env None)))
  | BEditor w s e : editor_own e = true →
      bench_step (Bench w s) (Bench (bench_send (sent_now s (editor_step s e)) w) (editor_step s e))
  | BServer w w' s : server_step bench_apply w w' → savings (under_way w') = savings (under_way w) →
      bench_step (Bench w s) (Bench w' s)
  | BSaved w s k i f : w_answers w !! k = Some (QSave f, TOk) → et_jobs s !! i = Some EJSave →
      bench_step (Bench w s) (Bench (deliver k (QSave f) TOk w) (editor_step s (EvReply i ESaved)))
  | BRefused w s k i f m : w_answers w !! k = Some (QSave f, TFail m) → et_jobs s !! i = Some EJSave →
      bench_step (Bench w s) (Bench (deliver k (QSave f) (TFail m) w) (editor_step s (EvReply i (EFail m)))).

Definition bench_opened (srv : list T) (f : F) : bench := Bench (opened srv) (closed_editor f).

(** ** Its parts run as they do alone *)

Lemma bench_send_runs l w : rtc (wstep bench_apply) w (bench_send l w).
Proof. revert w. induction l as [|q l IH]; intros w; [apply rtc_refl|]. eapply rtc_l; [apply WUser|apply IH]. Qed.

Lemma bench_world b b' : bench_step b b' → rtc (wstep bench_apply) (bn_world b) (bn_world b').
Proof.
  intros H. destruct H; cbn [bn_world]; try apply rtc_refl; try apply bench_send_runs; apply rtc_once.
  - apply WUser.
  - by apply WServer.
  - by apply WServer, WDeliver.
  - by apply WServer, WDeliver.
Qed.

Lemma bench_editor b b' : bench_step b b' → ∃ es, bn_editor b' = editor_run (bn_editor b) es.
Proof. intros H. destruct H; cbn [bn_editor]; first [by exists [] | by eexists [_]]. Qed.

Lemma bench_reaches srv f b : rtc bench_step (bench_opened srv f) b →
  rtc (wstep bench_apply) (opened srv) (bn_world b) ∧ ∃ es, bn_editor b = editor_run (closed_editor f) es.
Proof.
  intros H. apply rtc_nsteps in H as [n H]. revert b H. induction n as [|n IH]; intros b H.
  - inversion H; subst. split; [apply rtc_refl|by exists []].
  - apply nsteps_inv_r in H as (b1 & H & Hs). destruct (IH _ H) as [Hw [es Ee]]. split.
    + etransitivity; [exact Hw|by apply bench_world].
    + destruct (bench_editor _ _ Hs) as [es' E]. exists (es ++ es'). rewrite E, Ee. unfold editor_run. by rewrite fold_left_app.
Qed.

(** ** What the server has been asked, and what it did *)

Lemma savings_app l l' : savings (l ++ l') = savings l ++ savings l'.
Proof. apply List.filter_app. Qed.
Lemma savings_perm l l' : l ≡ₚ l' → savings l ≡ₚ savings l'.
Proof. intros H. unfold savings. induction H; cbn; repeat case_match; by try (econstructor; eauto). Qed.
Lemma savings_changes l : savings l = savings (changes_of l).
Proof. unfold savings, changes_of. induction l as [|q l IH]; [done|]. by destruct q; cbn; rewrite IH. Qed.
Lemma savings_none l : (∀ f, QSave f ∉ l) → savings l = [].
Proof.
  unfold savings. induction l as [|q l IH]; intros H; [done|]. cbn. rewrite IH by (intros f Hf; apply (H f); by right).
  destruct q as [| | |f]; try done. exfalso. apply (H f). by left.
Qed.
Lemma savings_served q l l' : changes_of l ≡ₚ q :: changes_of l' → (length (savings l) <= 1)%nat →
  savings l = (if is_saving q then [q] else []) ++ savings l'.
Proof.
  intros P Hl. rewrite (savings_changes l), (savings_changes l'). rewrite (savings_changes l) in Hl. apply savings_perm in P.
  unfold savings at 2 in P. cbn [List.filter] in P. destruct (is_saving q); fold (savings (changes_of l')) in P.
  - rewrite P in Hl. cbn in Hl. destruct (savings (changes_of l')); [|cbn in Hl; lia]. by apply Permutation_length_1_inv.
  - destruct (savings (changes_of l')) as [|x l1] eqn:E; [by apply Permutation_nil_r|].
    rewrite P in Hl. cbn in Hl. destruct l1; [|cbn in Hl; lia]. by apply Permutation_length_1_inv.
Qed.

(** [log] are the changes carried out, in order, and [over] the saves that
    were answered. *)
Record bench_ok (srv : list T) (b : bench) (log : list request) : Prop := {
  bo_store : w_srv (bn_world b) = fold_left (λ l q, bench_apply q l) log srv;
  bo_once : ∃ refused, changes_of (tb_sent (w_table (bn_world b))) ≡ₚ log ++ refused ++ changes_of (tb_jobs (w_table (bn_world b)));
  bo_sent : savings (tb_sent (w_table (bn_world b))) = map (λ q, QSave (stored q)) (changes (bn_editor b));
  bo_flight : length (savings (under_way (bn_world b))) = saves (et_jobs (bn_editor b));
  bo_one : (saves (et_jobs (bn_editor b)) <= 1)%nat;
  bo_order : ∃ over, savings (tb_sent (w_table (bn_world b))) = over ++ savings (tb_jobs (w_table (bn_world b)))
    ∧ savings log `sublist_of` over }.

(** The table is used, or the editor submitted. *)
Lemma bench_table_ok srv w s s' e log new : bench_ok srv (Bench w s) log →
  tb_jobs (table_step (w_table w) e) = tb_jobs (w_table w) ++ new → tb_sent (table_step (w_table w) e) = tb_sent (w_table w) ++ new →
  savings new = map (λ q, QSave (stored q)) (drop (length (changes s)) (changes s')) → changes s = take (length (changes s)) (changes s') →
  saves (et_jobs s') = (saves (et_jobs s) + length (savings new))%nat → (saves (et_jobs s') <= 1)%nat →
  bench_ok srv (Bench (bench_table e w) s') log.
Proof.
  intros [H1 (rf & H2) H3 H4 H5 (ov & H6 & H7)] Ej Es Hn Hc Hf Ho. cbn [bn_world bn_editor] in *.
  constructor; cbn [bn_world bn_editor bench_table w_srv w_table].
  - done.
  - exists rf. rewrite Ej, Es, !changes_of_app, H2. by rewrite <- !app_assoc.
  - rewrite Es, savings_app, H3, Hn, <- map_app. f_equal. rewrite Hc at 1. apply take_drop.
  - unfold under_way in *. cbn [bench_table w_table w_answers]. rewrite savings_app, length_app in H4.
    rewrite Ej, !savings_app, !length_app, Hf. lia.
  - done.
  - exists ov. rewrite Ej, Es, !savings_app, H6. by rewrite <- app_assoc.
Qed.

(** The editor moves without a change. *)
Lemma bench_quiet_ok srv w s s' log : bench_ok srv (Bench w s) log →
  saves (et_jobs s') = saves (et_jobs s) → changes s' = changes s → bench_ok srv (Bench w s') log.
Proof. intros [H1 H2 H3 H4 H5 H6] E1 E2. constructor; cbn [bn_world bn_editor] in *; rewrite ?E1, ?E2; done. Qed.

(** The server takes a step that is no answer to a save. *)
Lemma bench_server_ok srv w w' s log : server_step bench_apply w w' → savings (under_way w') = savings (under_way w) →
  bench_ok srv (Bench w s) log → ∃ log', bench_ok srv (Bench w' s) log'.
Proof.
  intros Hs Hu [H1 (rf & H2) H3 H4 H5 (ov & H6 & H7)]. cbn [bn_world bn_editor] in *.
  destruct (server_step_served _ _ _ Hs) as [o Ho]. destruct Ho as [E1 E2 E3|q ok Eq E1 E2 P].
  - exists log. assert (savings (tb_sent (w_table w')) = savings (tb_sent (w_table w))) as Ess by (by rewrite savings_changes, E2, <- savings_changes).
    constructor; cbn [bn_world bn_editor]; rewrite ?E1, ?E2, ?E3, ?Hu, ?Ess; try done; [by exists rf|].
    exists ov. by rewrite H6, savings_changes, <- E3, <- savings_changes.
  - exists (if ok then log ++ [q] else log).
    assert (length (savings (tb_jobs (w_table w))) <= 1)%nat as Hl.
    { unfold under_way in H4. rewrite savings_app, length_app in H4. lia. }
    pose proof (savings_served _ _ _ P Hl) as Ev.
    constructor; cbn [bn_world bn_editor]; rewrite ?E2, ?Hu; try done.
    + rewrite E1, H1. destruct ok; [by rewrite fold_left_app|done].
    + exists (if ok then rf else q :: rf). rewrite H2, P. destruct ok; cbn; [rewrite <- app_assoc; cbn|];
        [by rewrite <- (Permutation_middle rf)|by rewrite <- (Permutation_middle rf)].
    + exists (ov ++ if is_saving q then [q] else []). rewrite H6, Ev, <- app_assoc. split; [done|].
      destruct ok; [rewrite savings_app; apply sublist_app; [done|unfold savings; cbn; by destruct (is_saving q)]|].
      by apply sublist_inserts_r.
Qed.

(** The answer to a save arrives. *)
Lemma bench_answer_ok srv w s s' k f r log : w_answers w !! k = Some (QSave f, r) → changes s' = changes s →
  saves (et_jobs s) = S (saves (et_jobs s')) →
  bench_ok srv (Bench w s) log → bench_ok srv (Bench (deliver k (QSave f) r w) s') log.
Proof.
  intros Hk Hc Hs [H1 (rf & H2) H3 H4 H5 (ov & H6 & H7)]. cbn [bn_world bn_editor] in *.
  destruct (continue_changes (QSave f) r (w_table w)) as [E1 E2].
  assert (savings (tb_jobs (table_continue (QSave f) r (w_table w))) = savings (tb_jobs (w_table w))) as Ej
    by (by rewrite savings_changes, E2, <- savings_changes).
  assert (savings (tb_sent (table_continue (QSave f) r (w_table w))) = savings (tb_sent (w_table w))) as Es
    by (by rewrite savings_changes, E1, <- savings_changes).
  constructor; cbn [bn_world bn_editor deliver w_srv w_table]; rewrite ?E1, ?E2, ?Es, ?Ej, ?Hc; try done.
  - by exists rf.
  - unfold under_way in *. cbn [deliver w_table w_answers]. rewrite !savings_app, !length_app, Ej in *.
    rewrite map_delete. pose proof (savings_perm _ _ (delete_Permutation (map fst (w_answers w)) k (QSave f)
      ltac:(by rewrite list_lookup_fmap, Hk))) as P.
    apply Permutation_length in P. cbn in P. fold (savings (delete k (map fst (w_answers w)))) in P. unfold savings in *. lia.
  - lia.
  - by exists ov.
Qed.

(** The editor is submitted: it sends nothing while it is closed or a save is
    under way, and its record otherwise. *)
Lemma bench_submit_ok srv w s log : bench_ok srv (Bench w s) log →
  bench_ok srv (Bench (bench_send (sent_now s (editor_step s EvSubmit)) w) (editor_step s EvSubmit)) log.
Proof.
  intros Hb. assert (∀ s', s' = s → bench_ok srv (Bench (bench_send (sent_now s s') w) s') log) as Hq
    by (intros s' ->; unfold sent_now; by rewrite drop_all).
  destruct (et_hidden s) eqn:Hh; [apply Hq; unfold editor_step; by rewrite Hh|].
  destruct (existsb is_save (et_jobs s)) eqn:Hn; [apply Hq; unfold editor_step, submit_editor; by rewrite Hh, Hn|]. clear Hq.
  set (q := to_place (et_id s) (form_read (et_form s))).
  destruct (table_step_sends (w_table w) (TSave (stored q))) as (new & Ej & Es & ->).
  unfold editor_step. rewrite Hh, (submit_sends s Hn). fold q. set (s' := Edit _ _ _ _ _ _).
  assert (changes s' = changes s ++ [q]) as Ec.
  { unfold changes, s'. cbn [et_sent]. rewrite List.filter_app. cbn [List.filter]. unfold q. by rewrite to_place_change. }
  unfold sent_now. rewrite Ec, drop_app_length. cbn [bench_send fold_left].
  pose proof (saves_none _ Hn) as E0.
  eapply (bench_table_ok srv w s); [done|done|done|rewrite Ec, drop_app_length; done|by rewrite Ec, take_app_length|..];
    unfold s'; cbn [et_jobs]; unfold saves in *; rewrite List.filter_app, length_app, E0; cbn; lia.
Qed.

Lemma bench_step_ok srv b b' log : bench_step b b' → bench_ok srv b log → ∃ log', bench_ok srv b' log'.
Proof.
  intros H Hb. destruct H as [w s e He|w s env i r Hr|w s env|w s e He|w w' s Hs Hu|w s k i f Hk Hi|w s k i f m Hk Hi].
  - exists log. destruct (table_step_sends (w_table w) e) as (new & Ej & Es & Hn).
    assert (savings new = []) as E by (apply savings_none; by destruct e).
    eapply (bench_table_ok srv w s s); [done..| | |rewrite E; cbn; lia|apply Hb].
    + by rewrite E, drop_all.
    + by rewrite take_ge.
  - exists log. by eapply (bench_quiet_ok srv w s); [done|apply (quiet_step s (EvOpen env (Some (row_id r, record r))))..].
  - exists log. by eapply (bench_quiet_ok srv w s); [done|apply (quiet_step s (EvOpen env None))..].
  - exists log. destruct e as [env r|u| | |i r]; try done; [..|destruct r as [a| |m]; [|done..]].
    2: by apply bench_submit_ok.
    all: match goal with |- context [editor_step ?x ?e] => destruct (quiet_step x e I) as [Ej Ec] end;
      unfold sent_now; rewrite Ec, drop_all; by eapply bench_quiet_ok.
  - by eapply bench_server_ok.
  - exists log. destruct (answered_step s i ESaved Hi I). by eapply bench_answer_ok.
  - exists log. destruct (answered_step s i (EFail m) Hi I). by eapply bench_answer_ok.
Qed.
Lemma bench_reaches_ok srv f b : rtc bench_step (bench_opened srv f) b → ∃ log, bench_ok srv b log.
Proof.
  intros H. apply rtc_nsteps in H as [n H]. revert b H. induction n as [|n IH]; intros b H.
  - inversion H; subst. exists []. constructor; cbn; try done; [by exists []|lia|by exists []].
  - apply nsteps_inv_r in H as (b1 & H & Hs). destruct (IH _ H) as [log Hl]. by eapply bench_step_ok.
Qed.

(** C1. The page as a whole refines a list kept by the server: whatever is
    clicked and typed, whatever is opened and saved while other requests are
    under way, and whatever order the server answers and the replies arrive
    in, the store is the first one with some of the changes asked for carried
    out, each at most once, and among them the saves in the order in which they
    were submitted; at most one save is under way; and the table is empty or
    shows a list the server had since the page was opened.  As soon as nothing
    is under way and the newest list the server made is the one that arrived
    last ([NewsShown], see [table_shows_server] of Listings; nothing in the
    pages enforces it), the table shows exactly that store, and the editor
    waits for no save. *)
Theorem bench_refines srv f b : rtc bench_step (bench_opened srv f) b →
  ∃ log, w_srv (bn_world b) = fold_left (λ l q, bench_apply q l) log srv
    ∧ log ⊆+ changes_of (tb_sent (w_table (bn_world b)))
    ∧ savings log `sublist_of` map (λ q, QSave (stored q)) (changes (bn_editor b))
    ∧ (saves (et_jobs (bn_editor b)) <= 1)%nat
    ∧ (tb_rows (w_table (bn_world b)) = [] ∨ had bench_apply srv (bn_world b) (tb_rows (w_table (bn_world b))))
    ∧ (under_way (bn_world b) = [] → saves (et_jobs (bn_editor b)) = 0%nat
       ∧ (w_news (bn_world b) = NewsShown → tb_rows (w_table (bn_world b)) = w_srv (bn_world b))).
Proof.
  intros H. destruct (bench_reaches_ok _ _ _ H) as [log [H1 (rf & H2) H3 H4 H5 (ov & H6 & H7)]]. exists log.
  pose proof (proj1 (bench_reaches srv f b H)) as Hw.
  split; [done|]. split; [rewrite H2; apply submseteq_inserts_r; done|]. split; [|split; [done|split]].
  - rewrite <- H3, H6. by apply sublist_inserts_r.
  - by apply reached_past.
  - intros Hu. split; [by rewrite <- H4, Hu|]. intros Hf. by apply (at_rest bench_apply srv).
Qed.
End bench.

(** ** The page of the identity providers *)

(** The server of [provider_save]; it numbers new providers from 10, and a
    save it refuses changes nothing. *)
Definition provider_change (q : table_request (R := idp_row)) (l : list idp_row) : list idp_row :=
  match q with QDelete id => List.filter (λ r, negb (Z.eqb r.1 id)) l | _ => l end.
Definition provider_store (id : option Z) (p : idp) (l : list idp_row) : list idp_row :=
  match id with
  | Some id => map (λ r, if Z.eqb r.1 id then (id, default r.2 (provider_save (Some r.2) p)) else r) l
  | None => match provider_save None p with Some q => l ++ [(10%Z + Z.of_nat (length l), q)%Z] | None => l end
  end.
Abbreviation provider_apply := (bench_apply provider_change).
Abbreviation provider_step := (bench_step provider_change provider_store snd).
Definition sample_provider : idp := Idp (js "corp") (js "https://id") (js "quic") secret_mask (js "groups") false [] 12.
Definition renamed : idp_form := IdpForm (js " Corp ") (js "https://id") (js "quic") (js "s3cret") [] [] false [].

(** The provider is renamed and saved while another is being deleted; the
    server sees the save first, and the page hears of the delete first. *)
Definition sample_bench_end : bench (T := idp_row) (Q := idp) (L := Empty_set) (F := idp_form) :=
  Bench
    (World [(3%Z, Idp (js "Corp") (js "https://id") (js "quic") secret_mask (js "groups") false [] 12)]
       (Table [(3%Z, Idp (js "Corp") (js "https://id") (js "quic") secret_mask (js "groups") false [] 12)] [None] 3 []
          [QLoad; QDelete 4; QSave (stored provider_store (EPut 3 (idp_submit renamed))); QLoad; QLoad]
          [((4%Z, sample_provider), true)] []) [] NewsShown)
    (Edit (Some 3%Z) renamed true None [] [EPut 3 (idp_submit renamed); ERefresh]).

(** The page after a step, computed. *)
Ltac settle := match goal with |- rtc _ ?b _ => let b' := eval vm_compute in b in change b with b' end.
Ltac by_server rule i := settle; eapply rtc_l; [eapply BServer; [eapply (rule _ i); reflexivity|reflexivity]|].
Lemma sample_bench_run :
  rtc provider_step (bench_opened [(3%Z, sample_provider); (4%Z, sample_provider)] renamed) sample_bench_end.
Proof.
  unfold bench_opened. by_server (WLoad provider_apply) 0%nat. by_server (WDeliver provider_apply) 0%nat.
  eapply rtc_l; [by apply (BEdit _ _ _ _ _ tt 0 (3%Z, sample_provider))|].
  eapply rtc_l; [by apply (BEditor _ _ _ _ _ (EvType renamed))|].
  eapply rtc_l; [by apply (BTable _ _ _ _ _ (TRemove 1 true))|].
  eapply rtc_l; [by apply (BEditor _ _ _ _ _ EvSubmit)|].
  by_server (WChange provider_apply) 1%nat. by_server (WChange provider_apply) 0%nat. by_server (WDeliver provider_apply) 1%nat.
  eapply rtc_l; [by eapply (BSaved _ _ _ _ _ 0 0)|].
  do 2 (by_server (WLoad provider_apply) 0%nat; by_server (WDeliver provider_apply) 0%nat). apply rtc_refl.
Qed.

Lemma bench_refines_witness :
  rtc provider_step (bench_opened [(3%Z, sample_provider); (4%Z, sample_provider)] renamed) sample_bench_end
  ∧ under_way (bn_world sample_bench_end) = [] ∧ w_news (bn_world sample_bench_end) = NewsShown
  ∧ tb_rows (w_table (bn_world sample_bench_end)) = w_srv (bn_world sample_bench_end).
Proof.
  split; [exact sample_bench_run|]. split; [reflexivity|]. split; [reflexivity|].
  destruct (bench_refines provider_change provider_store snd _ _ _ sample_bench_run) as (log & _ & _ & _ & _ & _ & H).
  exact (proj2 (H eq_refl) eq_refl).
Defined.
