(* ===== verification/Maintenance.v ===== *)
(** * Backups, keys and tokens (web/app.js)

    The actions that stand alone: importing a configuration and restoring a
    backup, which share a line of text, resetting the server key, making an
    API token, loading the GeoIP database again and sending a test alert.
    Each asks for what it needs, sends at most one request, and shows the
    reply; replies come in any order.  A file is its content. *)

From Stdlib Require Import Ascii String ZArith NArith Lia.
From stdpp Require Import base list strings numbers.
From S2P Require Import Prelude JsString Settings Account Tables.

Local Open Scope Z_scope.

Inductive upkeep_request : Type :=
  | QImport (content : jstr) | QRestore (content : jstr) | QResetKey (password : jstr) | QToken (name : jstr) | QGeoReload
  | QSaveUrl (url : jstr) | QTestAlert.
(** What a reply says: the counts of an import, the certificates and the
    warnings of a restore, a token, nothing, or the text of a failure. *)
Inductive upkeep_reply : Type :=
  | KImported (made changed : option Z * option Z * option Z) | KRestored (certificates : jstr) (warnings : list jstr)
  | KToken (token : jstr) | KDone | KFail (message : jstr).
(** [up_status] is the line of import and restore, [None] while it is hidden;
    [up_reloads] counts the timers that will load the page again, [up_shown]
    what is loaded again after a success. *)
Record upkeep : Type := Upkeep {
  up_status : option jstr; up_token : option jstr; up_alert : flash; up_reloads : nat; up_jobs : list upkeep_request;
  up_sent : list upkeep_request; up_alerts : list jstr; up_refreshed : list upkeep_request }.

Definition upkeep_send (q : upkeep_request) (u : upkeep) : upkeep :=
  Upkeep (up_status u) (up_token u) (up_alert u) (up_reloads u) (up_jobs u ++ [q]) (up_sent u ++ [q]) (up_alerts u) (up_refreshed u).
Definition upkeep_jobs (l : list upkeep_request) (u : upkeep) : upkeep :=
  Upkeep (up_status u) (up_token u) (up_alert u) (up_reloads u) l (up_sent u) (up_alerts u) (up_refreshed u).
Definition upkeep_status (s : jstr) (u : upkeep) : upkeep :=
  Upkeep (Some s) (up_token u) (up_alert u) (up_reloads u) (up_jobs u) (up_sent u) (up_alerts u) (up_refreshed u).
Definition upkeep_alert (m : jstr) (u : upkeep) : upkeep :=
  Upkeep (up_status u) (up_token u) (up_alert u) (up_reloads u) (up_jobs u) (up_sent u) (up_alerts u ++ [m]) (up_refreshed u).
Definition upkeep_flash (f : flash) (u : upkeep) : upkeep :=
  Upkeep (up_status u) (up_token u) f (up_reloads u) (up_jobs u) (up_sent u) (up_alerts u) (up_refreshed u).
Definition upkeep_refresh (q : upkeep_request) (u : upkeep) : upkeep :=
  Upkeep (up_status u) (up_token u) (up_alert u) (up_reloads u) (up_jobs u) (up_sent u) (up_alerts u) (up_refreshed u ++ [q]).
Definition show_token (token : jstr) (u : upkeep) : upkeep :=
  Upkeep (up_status u) (Some (new_token_text token)) (up_alert u) (up_reloads u) (up_jobs u) (up_sent u) (up_alerts u) (up_refreshed u).
Definition reload_later (u : upkeep) : upkeep :=
  Upkeep (up_status u) (up_token u) (up_alert u) (S (up_reloads u)) (up_jobs u) (up_sent u) (up_alerts u) (up_refreshed u).

Definition restored_text (certificates : jstr) (warnings : list jstr) : jstr :=
  js "Restored (certificates " ++ str_or certificates (js "replaced") ++ js ")."
  ++ match warnings with [] => [] | _ => js " Warnings: " ++ join (js "; ") warnings ++ js "." end
  ++ js " Every admin session was signed out; sign in again with the restored credentials.".

(** The events: a file is chosen ([None] when the choice is cancelled), a
    question is answered, a prompt is answered ([None] when it is
    cancelled). *)
Inductive upkeep_event : Type :=
  | UImport (file : option jstr) | URestore (file : option jstr) (yes : bool) | UResetKey (yes : bool) (password : option jstr)
  | UToken (name : option jstr) | UGeoReload | UTestAlert (url : jstr) | UReply (i : nat) (r : upkeep_reply).

(** [if (!x) return] on a prompt. *)
Definition answered (x : option jstr) : option jstr := match x with Some s => if truthy s then Some s else None | None => None end.

(** Each handler, up to its request and from the reply on. *)
Definition import_change (file : option jstr) (u : upkeep) : upkeep :=
  match file with Some c => upkeep_send (QImport c) (upkeep_status (js "Importing...") u) | None => u end.
Definition import_reply (r : upkeep_reply) (u : upkeep) : upkeep :=
  match r with
  | KImported made changed => upkeep_status (import_text made changed) u
  | KFail m => upkeep_status (js "Import failed: " ++ m) u
  | _ => u
  end.
Definition restore_change (file : option jstr) (yes : bool) (u : upkeep) : upkeep :=
  match file with
  | Some c => if yes then upkeep_send (QRestore c) (upkeep_status (js "Restoring...") u) else u
  | None => u
  end.
Definition restore_reply (r : upkeep_reply) (u : upkeep) : upkeep :=
  match r with
  | KRestored certificates warnings => reload_later (upkeep_status (restored_text certificates warnings) u)
  | KFail m => upkeep_status (js "Restore failed: " ++ m) u
  | _ => u
  end.
Definition reset_key_click (yes : bool) (password : option jstr) (u : upkeep) : upkeep :=
  if yes then match answered password with Some p => upkeep_send (QResetKey p) u | None => u end else u.
Definition add_token_click (name : option jstr) (u : upkeep) : upkeep :=
  match answered name with Some n => upkeep_send (QToken n) u | None => u end.
Definition token_reply (q : upkeep_request) (r : upkeep_reply) (u : upkeep) : upkeep :=
  match r with KToken t => upkeep_refresh q (show_token t u) | KFail m => upkeep_alert m u | _ => u end.
(** Resetting the key and loading GeoIP again. *)
Definition done_reply (q : upkeep_request) (r : upkeep_reply) (u : upkeep) : upkeep :=
  match r with KDone => upkeep_refresh q u | KFail m => upkeep_alert m u | _ => u end.
Definition notify_test_click (url : jstr) (u : upkeep) : upkeep := upkeep_send (QSaveUrl (trim url)) u.
Definition notify_saved (r : upkeep_reply) (u : upkeep) : upkeep :=
  match r with
  | KDone => upkeep_send QTestAlert (upkeep_flash (saved None (up_alert u)).1 u)
  | KFail m => upkeep_flash (saved (Some m) (up_alert u)).1 u
  | _ => u
  end.
Definition notify_test_reply (r : upkeep_reply) (u : upkeep) : upkeep :=
  match r with
  | KDone => upkeep_flash (flashStatus (js "Test alert sent, check your notification channel") false (up_alert u)) u
  | KFail m => upkeep_flash (flashStatus m true (up_alert u)) u
  | _ => u
  end.

Definition upkeep_continue (q : upkeep_request) (r : upkeep_reply) (u : upkeep) : upkeep :=
  match q with
  | QImport _ => import_reply r u
  | QRestore _ => restore_reply r u
  | QToken _ => token_reply q r u
  | QResetKey _ | QGeoReload => done_reply q r u
  | QSaveUrl _ => notify_saved r u
  | QTestAlert => notify_test_reply r u
  end.
Definition upkeep_answers (q : upkeep_request) (r : upkeep_reply) : bool :=
  match q, r with
  | _, KFail _ | QImport _, KImported _ _ | QRestore _, KRestored _ _ | QToken _, KToken _
  | (QResetKey _ | QGeoReload | QSaveUrl _ | QTestAlert), KDone => true
  | _, _ => false
  end.

Definition upkeep_step (u : upkeep) (e : upkeep_event) : upkeep :=
  match e with
  | UImport file => import_change file u
  | URestore file yes => restore_change file yes u
  | UResetKey yes password => reset_key_click yes password u
  | UToken name => add_token_click name u
  | UGeoReload => upkeep_send QGeoReload u
  | UTestAlert url => notify_test_click url u
  | UReply i r =>
      match up_jobs u !! i with
      | Some q => if upkeep_answers q r then upkeep_continue q r (upkeep_jobs (delete i (up_jobs u)) u) else u
      | None => u
      end
  end.
Definition upkeep_run (u : upkeep) (es : list upkeep_event) : upkeep := fold_left upkeep_step es u.
Definition upkeep_html : upkeep := Upkeep None None no_flash 0 [] [] [] [].

(** ** What may not be undone is asked for *)

(** What replaces the whole configuration, and what makes the configuration
    of every site and device useless. *)
Definition destructive (q : upkeep_request) : bool := match q with QRestore _ | QResetKey _ => true | _ => false end.
Definition confirmed (e : upkeep_event) : option upkeep_request :=
  match e with
  | URestore (Some c) true => Some (QRestore c)
  | UResetKey true (Some p) => if truthy p then Some (QResetKey p) else None
  | _ => None
  end.
(** The restores that succeeded. *)
Definition restores (u : upkeep) (e : upkeep_event) : nat :=
  match e with
  | UReply i (KRestored _ _) => match up_jobs u !! i with Some (QRestore _) => 1 | _ => 0 end
  | _ => 0
  end%nat.

Lemma step_destructive u e :
  List.filter destructive (up_sent (upkeep_step u e))
  = List.filter destructive (up_sent u) ++ match confirmed e with Some q => [q] | None => [] end.
Proof.
  destruct e as [[c|]|[c|] []|[] [p|]|[n|]| |url|i r]; cbn -[js]; rewrite ?List.filter_app, ?app_nil_r; try done.
  - destruct (truthy p); cbn; by rewrite ?List.filter_app, ?app_nil_r.
  - unfold add_token_click, answered. destruct (truthy n); cbn; by rewrite ?List.filter_app, ?app_nil_r.
  - destruct (up_jobs u !! i) as [q|]; [|done]. destruct (upkeep_answers q r) eqn:E; [|done].
    by destruct q, r; try done; cbn; rewrite ?List.filter_app, ?app_nil_r.
Qed.

(** The server key is reset and a backup restored exactly as often as it was
    confirmed, in that order, with the file and the password given then,
    whatever else goes on. *)
Theorem destructive_confirmed es : List.filter destructive (up_sent (upkeep_run upkeep_html es)) = omap confirmed es.
Proof.
  induction es as [|e es IH] using rev_ind; [done|].
  unfold upkeep_run in *. rewrite fold_left_app. cbn [fold_left]. rewrite step_destructive, IH, omap_app.
  cbn. by destruct (confirmed e).
Qed.

(** The page is loaded again for a restore that succeeded, and only then. *)
Lemma reload_after_restore u e : up_reloads (upkeep_step u e) = (up_reloads u + restores u e)%nat.
Proof.
  destruct e as [[c|]|[c|] []|[] [p|]|[n|]| |url|i r]; cbn -[js]; try lia; try (destruct (answered _); cbn; lia).
  - by destruct (truthy p); cbn; lia.
  - unfold add_token_click, answered. by destruct (truthy n); cbn; lia.
  - destruct (up_jobs u !! i) as [q|]; [|destruct r; lia]. destruct (upkeep_answers q r) eqn:E; destruct q, r; try done; cbn; lia.
Qed.
