(* ===== verification/Docker.v ===== *)
(** * Docker, GeoIP and own addresses (web/app.js)

    What the Docker page shows of the endpoints and containers it is told
    of, the settings it saves, the state of the GeoIP database and its test
    box, and the addresses a ban never covers.  [json_ok] is [JSON.parse] not
    throwing, [countryName] the browser's name of a country. *)

From Stdlib Require Import Ascii String ZArith NArith Lia.
From stdpp Require Import base list gmap strings numbers.
From S2P Require Import Prelude JsString Html Fields HostForm Hosts Settings Acl Sites Vpn Tables.

Local Open Scope Z_scope.

(** ** The Docker page *)

Record endpoint : Type := Endpoint { ep_name : jstr; ep_connect : jstr; ep_address : jstr; ep_connected : bool; ep_error : jstr }.
Record container : Type := Container {
  dk_name : jstr; dk_endpoint : jstr; dk_routed : bool; dk_domains : list jstr; dk_upstream : jstr; dk_streams : list jstr;
  dk_warnings : list jstr }.

Definition endpoint_html (e : endpoint) : list piece :=
  badge (if ep_connected e then "badge--success" else "badge--danger") (if ep_connected e then "connected" else "disconnected")
  ++ [Lit (js " <b>"); ev (ep_name e); Lit (jq "</b> <span class=`mono hs-muted`>"); ev (ep_connect e);
      Lit (jq "</span> &rarr; <span class=`mono`>"); ev (ep_address e); Lit (js "</span>")]
  ++ (if truthy (ep_error e)
      then [Lit (jq "<br><span class=`form-error` style=`display:inline`>"); ev (ep_error e); Lit (js "</span>")] else []).
Definition endpoints_html (l : list endpoint) : list piece :=
  match l with
  | [] => [Lit (jq "<span class=`hs-muted`>No Docker hosts configured.</span>")]
  | _ => join_tpl (jq "<div style=`border-top:1px solid rgba(127,127,127,.25);margin:6px 0`></div>") (map endpoint_html l)
  end.
Definition docker_off : list piece :=
  [Lit (jq "Docker integration is <strong>disabled</strong>. Start quicgate with <span class=`mono`>QG_DOCKER=1</span> and the Docker socket mounted (<span class=`mono`>/var/run/docker.sock:ro</span>) to enable it.")].

Definition dash : list piece := [Lit (jq "<span class=`hs-muted`>&mdash;</span>")].
Definition detail_parts (c : container) : list (list piece) :=
  match dk_domains c with
  | [] => []
  | l => [join_tpl (js ", ") (map (λ d, [ev d]) l)
          ++ (if truthy (dk_upstream c) then [Lit (jq " <span class=`hs-muted`>&rarr; "); ev (dk_upstream c); Lit (js "</span>")] else [])]
  end
  ++ map (λ s, [Lit (jq "<span class=`mono`>"); ev s; Lit (js "</span>")]) (dk_streams c).
(** [parts.join('<br>') || dash]: one empty domain is an empty text. *)
Definition detail_cell (c : container) : list piece :=
  let l := join_tpl (js "<br>") (detail_parts c) in if truthy (tpl l) then l else dash.
Definition warn_cell (c : container) : list piece :=
  match dk_warnings c with
  | [] => dash
  | l => join_tpl (js "<br>") (map (λ w, badge "badge--danger" "!" ++ [Lit (js " "); ev w]) l)
  end.
Record container_row : Type := ContainerRow {
  kr_name : jstr; kr_host : list piece; kr_route : list piece; kr_detail : list piece; kr_warn : list piece; kr_convert : bool }.
Definition container_row_of (c : container) : container_row :=
  ContainerRow (dk_name c) [Lit (jq "<span class=`badge badge--muted`>"); ev (dk_endpoint c); Lit (js "</span>")]
    (if dk_routed c then badge "badge--success" "routed" else badge "badge--danger" "not routed") (detail_cell c) (warn_cell c) (dk_routed c).

(** The page: its status, as text or as markup, its two cards, the settings
    and the rows.  A refresh is two requests: the status, then the settings. *)
Inductive docker_status : Type := DkOff | DkOn (l : list endpoint) (cs : list container).
Inductive docker_job : Type := KStatus | KSettings (cs : list container) | KSave (reload : bool) | KAdopt.
Inductive docker_request : Type := KGet | KSet (values : put) | KConvert (endpoint name : jstr).
Inductive docker_reply : Type := KIs (s : docker_status) | KValues (s : server_settings) | KDone | KNo (message : jstr).
Record docker_page : Type := DockerPage {
  kp_status : jstr + list piece; kp_hidden : bool; kp_domain : jstr; kp_endpoints : jstr; kp_containers : list container;
  kp_rows : list container_row; kp_empty_hidden : bool; kp_sent : list docker_request; kp_jobs : list docker_job; kp_alerts : list jstr }.

Definition kp_text (t : jstr + list piece) (hidden : bool) (p : docker_page) : docker_page :=
  DockerPage t hidden (kp_domain p) (kp_endpoints p) (kp_containers p) (kp_rows p) (kp_empty_hidden p) (kp_sent p) (kp_jobs p) (kp_alerts p).
Definition kp_set_jobs (l : list docker_job) (p : docker_page) : docker_page :=
  DockerPage (kp_status p) (kp_hidden p) (kp_domain p) (kp_endpoints p) (kp_containers p) (kp_rows p) (kp_empty_hidden p) (kp_sent p) l (kp_alerts p).
Definition kp_send (q : docker_request) (j : docker_job) (p : docker_page) : docker_page :=
  DockerPage (kp_status p) (kp_hidden p) (kp_domain p) (kp_endpoints p) (kp_containers p) (kp_rows p) (kp_empty_hidden p) (kp_sent p ++ [q])
    (kp_jobs p ++ [j]) (kp_alerts p).
Definition kp_alert (m : jstr) (p : docker_page) : docker_page :=
  DockerPage (kp_status p) (kp_hidden p) (kp_domain p) (kp_endpoints p) (kp_containers p) (kp_rows p) (kp_empty_hidden p) (kp_sent p) (kp_jobs p)
    (kp_alerts p ++ [m]).
Definition kp_type (domain endpoints : jstr) (p : docker_page) : docker_page :=
  DockerPage (kp_status p) (kp_hidden p) domain endpoints (kp_containers p) (kp_rows p) (kp_empty_hidden p) (kp_sent p) (kp_jobs p) (kp_alerts p).
(** The settings, then the rows. *)
Definition docker_rows (s : server_settings) (cs : list container) (p : docker_page) : docker_page :=
  DockerPage (kp_status p) (kp_hidden p) (text_set (setting s "docker_default_domain")) (area_set (setting s "docker_endpoints")) cs
    (map container_row_of cs) (0 <? length cs)%nat (kp_sent p) (kp_jobs p) (kp_alerts p).

Definition docker_continue (j : docker_job) (r : docker_reply) (p : docker_page) : docker_page :=
  match j, r with
  | KStatus, KIs DkOff => kp_text (inr docker_off) true p
  | KStatus, KIs (DkOn l cs) => kp_send KGet (KSettings cs) (kp_text (inr (endpoints_html l)) false p)
  | KStatus, KNo m => kp_text (inl m) (kp_hidden p) p
  | KSettings cs, KValues s => docker_rows s cs p
  | KSave true, KDone | KAdopt, KDone => kp_send KGet KStatus p
  | KSave false, KDone => kp_alert (js "Saved. Restart quicgate to apply Docker host changes.") p
  | KSave _, KNo m | KAdopt, KNo m => kp_alert m p
  | _, _ => p
  end.

Section docker.
Context (json_ok : jstr → bool).

Inductive docker_event : Type :=
  | KRefresh | KTyped (domain endpoints : jstr) | KSaveDomain | KSaveEndpoints | KAdoptClick (i : nat) (confirmed : bool)
  | KReply (j : nat) (r : docker_reply).
Definition docker_step (p : docker_page) (e : docker_event) : docker_page :=
  match e with
  | KRefresh => kp_send KGet KStatus p
  | KTyped d e => kp_type (text_set d) (area_set e) p
  | KSaveDomain => kp_send (KSet [(js "docker_default_domain", trim (kp_domain p))]) (KSave true) p
  | KSaveEndpoints =>
      let v := trim (kp_endpoints p) in
      if truthy v && negb (json_ok v) then kp_alert (js "Docker hosts must be valid JSON") p
      else kp_send (KSet [(js "docker_endpoints", v)]) (KSave false) p
  | KAdoptClick i confirmed =>
      match kp_containers p !! i with
      | Some c => if dk_routed c && confirmed then kp_send (KConvert (dk_endpoint c) (dk_name c)) KAdopt p else p
      | None => p
      end
  | KReply j r =>
      match kp_jobs p !! j with
      | Some job => docker_continue job r (kp_set_jobs (delete j (kp_jobs p)) p)
      | None => p
      end
  end.
Definition docker_run (p : docker_page) (es : list docker_event) : docker_page := fold_left docker_step es p.
End docker.

(** ** GeoIP *)

Record geoip : Type := Geoip { ge_loaded : bool; ge_type : jstr; ge_built : jstr; ge_path : jstr; ge_error : jstr }.
Definition geoip_html (g : geoip) : list piece :=
  if ge_loaded g then
    badge "badge--success" "loaded" ++ [Lit (jq " <span class=`mono`>"); ev (str_or (ge_type g) (js "database")); Lit (js "</span>")]
    ++ (if truthy (ge_built g) then [Lit (js " &middot; built "); ev (ge_built g)] else [])
    ++ [Lit (jq " &middot; <span class=`hs-muted mono`>"); ev (ge_path g); Lit (js "</span>")]
  else
    badge "badge--danger" "not loaded" ++ [Lit (js " country rules are inactive")]
    ++ (if truthy (ge_path g) then [Lit (jq " &middot; expected at <span class=`mono`>"); ev (ge_path g); Lit (js "</span>")] else [])
    ++ (if truthy (ge_error g) then [Lit (jq "<br><span class=`hs-muted`>"); ev (ge_error g); Lit (js "</span>")] else []).
(** The test box: what a reply shows, a country, none, or an error. *)
Definition lookup_html (countryName : jstr → jstr) (r : jstr + jstr) : list piece :=
  match r with
  | inl c =>
      if truthy c then
        [Lit (js "&rarr; <b>"); ev c; Lit (jq "</b> <span class=`hs-muted`>"); ev (countryName c); Lit (js "</span>")]
      else [Lit (jq "&rarr; <span class=`hs-muted`>no country for this IP</span>")]
  | inr m => [Lit (jq "&rarr; <span class=`form-error` style=`display:inline`>"); ev m; Lit (js "</span>")]
  end.
(** ** Own addresses *)

Definition own_html (own : list (jstr * jstr)) : list piece :=
  let router := map fst (List.filter (λ a, bool_decide (a.2 = js "router")) own) in
  let local := map fst (List.filter (λ a, negb (bool_decide (a.2 = js "router"))) own) in
  match router with
  | [] => [Lit (jq "<span class=`hs-muted`>public address unknown (needs UPnP); add it under Never ban</span>")]
  | _ => Lit (js "public: ") :: join_tpl (js ", ") (map (λ a, [ev a]) router)
  end
  ++ match local with
     | [] => []
     | _ => [Lit (jq "<br><span title=`"); ev (join [10%N] local); Lit (jq "`>this machine: "); Val (js_of_nat (length local));
             Lit (js " address" ++ (if (length local =? 1)%nat then [] else js "es") ++ js "</span>")]
     end.

(** ** Markup *)

Lemma endpoint_ok e : contained (endpoint_html e).
Proof.
  unfold endpoint_html. apply contained_app; [destruct (ep_connected e); apply badge_contained; by_compute|].
  apply contained_app; [contained_by|]. destruct (truthy _); [contained_by|apply contained_nil].
Qed.
Lemma endpoints_ok l : contained (endpoints_html l).
Proof.
  unfold endpoints_html. destruct l as [|e l]; [contained_by|]. apply join_contained; [by_compute|]. apply map_contained, endpoint_ok.
Qed.
Lemma dash_ok : contained dash.
Proof. unfold dash. contained_by. Qed.
Lemma detail_parts_ok c : Forall contained (detail_parts c).
Proof.
  unfold detail_parts. apply list.Forall_app. split.
  - destruct (dk_domains c) as [|d l]; [by apply list.Forall_nil|]. apply list.Forall_singleton. apply contained_app.
    + apply join_contained; [by_compute|]. apply map_contained. intros x. cbv beta. contained_by.
    + destruct (truthy _); [contained_by|apply contained_nil].
  - apply map_contained. intros x. cbv beta. contained_by.
Qed.
Lemma detail_ok c : contained (detail_cell c).
Proof. unfold detail_cell. destruct (truthy _); [apply join_contained; [by_compute|apply detail_parts_ok]|apply dash_ok]. Qed.
Lemma warn_ok c : contained (warn_cell c).
Proof.
  unfold warn_cell. destruct (dk_warnings c) as [|w l]; [apply dash_ok|]. apply join_contained; [by_compute|].
  apply map_contained. intros x. apply contained_app; [apply badge_contained; by_compute|contained_by].
Qed.
Lemma geoip_ok g : contained (geoip_html g).
Proof.
  unfold geoip_html. destruct (ge_loaded g); (apply contained_app; [apply badge_contained; by_compute|]).
  - apply contained_app; [contained_by|]. apply contained_app; [|contained_by]. destruct (truthy _); [contained_by|apply contained_nil].
  - apply contained_app; [contained_by|]. apply contained_app; (destruct (truthy _); [contained_by|apply contained_nil]).
Qed.
Lemma lookup_ok countryName r : contained (lookup_html countryName r).
Proof. unfold lookup_html. destruct r as [c|m]; [destruct (truthy c)|]; contained_by. Qed.
Lemma own_ok own : contained (own_html own).
Proof.
  unfold own_html. apply contained_app.
  - destruct (map fst _) as [|a l]; [contained_by|]. apply contained_cons_lit; [by_compute|]. apply join_contained; [by_compute|].
    apply map_contained. intros x. cbv beta. contained_by.
  - destruct (map fst _) as [|a l]; [apply contained_nil|]. destruct (_ =? _)%nat; contained_by.
Qed.
