(* ===== verification/Overview.v ===== *)
(** * The overview's tiles, ports and lists (web/app.js, overview)

    What the overview shows besides its charts: the line under its title, the
    configuration and the features, the tiles with their numbers and
    sparklines, the table of listeners, and the lists of hosts, countries,
    protocols and refusals; and the buttons that show a chart of Traffic as a table.  [fmt_count] and
    [fmt_int] are the number formats of the locale, [region_name] the name of a country, [clock] the time of
    day. *)

From Stdlib Require Import Ascii String ZArith NArith Lia Sorted.
From Stdlib Require Import SpecFloat.
From stdpp Require Import base list strings numbers.
From S2P Require Import Prelude JsString Html Double Charts Traffic Account.

Local Open Scope Z_scope.

(** ** Title, configuration and features *)

(** [ovSubtitle]: the time since the start in whole minutes. *)
Definition uptime_text (secs : Z) : jstr :=
  let d := secs / 86400 in
  let h := secs mod 86400 / 3600 in
  let m := secs mod 3600 / 60 in
  if negb (d =? 0) then js_of_Z d ++ js " d " ++ js_of_Z h ++ js " h"
  else if negb (h =? 0) then js_of_Z h ++ js " h " ++ js_of_Z m ++ js " min"
  else js_of_Z m ++ js " min".
Definition dot_sep : jstr := [32; 32; 183; 32; 32]%N.
Definition ovSubtitle (now started : Z) (version error clock : jstr) (loaded : bool) : jstr :=
  join dot_sep
    ((if truthy version then [version_text version] else [])
     ++ (if started =? 0 then [] else [js "up " ++ uptime_text (Z.max 0 (now - started))])
     ++ (if truthy error then [js "refresh failed: " ++ error] else if loaded then [js "updated " ++ clock] else [])).

(** The counts of [GET /api/overview], zero where it has none. *)
Record ov_counts : Type := OvCounts {
  oc_hosts : Z; oc_hosts_on : Z; oc_with_acl : Z; oc_up : Z; oc_down : Z; oc_issued : Z; oc_failed : Z; oc_pending : Z; oc_streams : Z;
  oc_streams_on : Z; oc_acls : Z; oc_docker : option (Z * Z) }.
Definition config_row (page : string) (label value sub : jstr) (bad : bool) : list piece :=
  [Lit (jq "<button type=`button` class=`kv kv--link` data-goto=`" ++ js page ++ jq "`><span class=`kv__k`>"); ev label;
   Lit (jq "</span><span class=`kv__v`><span class=`kv__num`>"); ev value;
   Lit (jq "</span><span class=`kv__sub" ++ (if bad then js " is-bad" else []) ++ jq "`>"); ev sub; Lit (js "</span></span></button>")].
Definition config_html (c : ov_counts) : list piece :=
  let n := js_of_Z in
  config_row "hosts" (js "Proxy hosts") (n (oc_hosts c)) (n (oc_hosts_on c) ++ js " enabled") false
  ++ config_row "hosts" (js "Upstreams") (n (oc_up c) ++ js "/" ++ n (oc_up c + oc_down c))
       (if oc_down c =? 0 then js "all reachable" else n (oc_down c) ++ js " unreachable") (0 <? oc_down c)
  ++ config_row "certs" (js "Certificates") (n (oc_issued c))
       (if negb (oc_failed c =? 0) then n (oc_failed c) ++ js " failed"
        else if negb (oc_pending c =? 0) then n (oc_pending c) ++ js " pending" else js "issued") (0 <? oc_failed c)
  ++ config_row "streams" (js "Streams") (n (oc_streams c)) (n (oc_streams_on c) ++ js " enabled") false
  ++ config_row "access" (js "Access lists") (n (oc_acls c)) (n (oc_with_acl c) ++ js " hosts behind one") false
  ++ match oc_docker c with
     | Some (routed, containers) => config_row "docker" (js "Docker containers") (n routed ++ js "/" ++ n containers) (js "routed") false
     | None => []
     end.
Definition features : list (string * string) :=
  [("HTTP/3", "http3"); ("UPnP port mapping", "upnp"); ("Auto-ban", "autoban"); ("GeoIP", "geoip"); ("Forward authentication", "forwardAuth");
   ("Admin OIDC sign-in", "oidc"); ("Admin LDAP sign-in", "ldap"); ("Docker labels", "docker")]%string.
Definition feature_html (on : jstr → bool) (f : string * string) : list piece :=
  [Lit (jq "<div class=`kv`><span class=`kv__k`>"); ev (js f.1); Lit (jq "</span><span class=`kv__v`>");
   Lit (if on (js f.2) then jq "<span class=`sdot sdot--ok`></span>on"
        else jq "<span class=`sdot sdot--off`></span><span class=`hs-muted`>off</span>");
   Lit (js "</span></div>")].
Definition features_html (on : jstr → bool) : list piece := concat (map (feature_html on) features).

(** ** The tiles *)

(** The totals of a report. *)
Record totals : Type := Totals {
  to_in : f64; to_out : f64; to_requests : f64; to_status : jstr → f64; to_blocked : list (jstr * f64); to_protocols : jstr → f64;
  to_p50 : f64; to_p95 : f64; to_p99 : f64; to_peak_open : f64; to_connections : f64; to_open : f64; to_banned : Z }.
Record kpi : Type := Kpi {
  kp_label : jstr; kp_value : jstr; kp_sub : jstr; kp_title : jstr; kp_spark : list svg; kp_color : jstr; kp_level : jstr; kp_goto : jstr }.

Definition fsum (l : list f64) : f64 := fold_left fadd l f_zero.
Definition f8 : f64 := f_of_Z 8.
Definition f60 : f64 := f_of_Z 60.
Definition ge0 (x : f64) : bool := fleb f_zero x.
(** The seconds the report covers: of the points that were sampled. *)
Definition covered (rep : report) : f64 :=
  fold_left (λ a x, match x.2 with Some _ => fadd a (ovSpan (rp_secs rep) x.1) | None => a end)
    (imap pair (rp_series rep (js "in"))) f_zero.
Definition per_sec (rep : report) (n : f64) : f64 := if fltb f_zero (covered rep) then fdiv n (covered rep) else f_zero.
(** [Math.max(0, ...vals.filter(..))]. *)
Definition peak (vals : list val) : f64 := fmax_all (f_zero :: omap id vals).
Definition err_pct (t : totals) : f64 :=
  if f_truthy (to_requests t) then fmul (fdiv (to_status t (js "5xx")) (to_requests t)) (f_of_Z 100) else f_zero.
Definition err_level (p : f64) : jstr :=
  if fleb (f_of_Z 5) p then js "bad" else if fleb (f_of_Z 1) p then js "warn" else [].

Section overview.
Context (fmt_count fmt_int : f64 → jstr) (region_name : jstr → option jstr).

Definition tile_spark (values : list val) : list svg := sparkline (f_of_Z 160) (f_of_Z 34) values.
Definition kpi_tiles (t : totals) (rep : report) (o : range_opts) : list kpi :=
  let s k := rp_series rep k in
  let rates k mul g := ovRates (rp_secs rep) (s k) g mul in
  let g := ro_spark o in
  [ Kpi (js "Outbound") (fmt_bytes (to_out t)) (js "avg " ++ fmt_bits (per_sec rep (fmul (to_out t) f8)))
      (js "peak " ++ fmt_bits (peak (rates (js "out") f8 1%nat))) (tile_spark (rates (js "out") f8 g)) (js "var(--c-series-1)") [] [];
    Kpi (js "Inbound") (fmt_bytes (to_in t)) (js "avg " ++ fmt_bits (per_sec rep (fmul (to_in t) f8)))
      (js "peak " ++ fmt_bits (peak (rates (js "in") f8 1%nat))) (tile_spark (rates (js "in") f8 g)) (js "var(--c-series-2)") [] [];
    Kpi (js "Requests") (fmt_count (to_requests t)) (fmt_count (fmul (per_sec rep (to_requests t)) f60) ++ js " per minute") []
      (tile_spark (rates (js "requests") f60 g)) [] [] [];
    Kpi (js "Server errors") (if f_truthy (to_requests t) then fmt_pct (err_pct t) else js "-")
      (fmt_count (to_status t (js "5xx")) ++ js " responses") (fmt_int (to_status t (js "4xx")) ++ js " client errors (4xx)")
      (tile_spark (rates (js "5xx") f60 g)) [] (err_level (err_pct t)) [];
    Kpi (js "Blocked") (fmt_count (fsum (map snd (to_blocked t))))
      (if to_banned t =? 0 then js "none banned now" else fmt_int (f_of_Z (to_banned t)) ++ js " banned now")
      (js "See the banned addresses and why") (tile_spark (rates (js "blocked") f60 g)) [] [] (js "access");
    Kpi (js "Response p95") (if ge0 (to_p95 t) then fmt_ms (to_p95 t) else js "-")
      (if ge0 (to_p50 t) then js "p50 " ++ fmt_ms (to_p50 t) else js "no responses yet")
      (if ge0 (to_p99 t) then js "p99 " ++ fmt_ms (to_p99 t) else []) (tile_spark (ovPeaks (s (js "p95")) g)) [] [] [];
    Kpi (js "Connections") (fmt_int (to_open t)) (js "open now, peak " ++ fmt_int (to_peak_open t))
      (fmt_int (to_connections t) ++ js " opened in this range") (tile_spark (ovPeaks (s (js "open")) g)) [] [] [] ].

(** ** The listeners *)

Record port : Type := Port {
  po_port : Z; po_end : Z; po_proto : jstr; po_service : jstr; po_docker : bool; po_detail : jstr; po_exposed : option bool; po_state : jstr;
  po_error : jstr; po_in : f64; po_out : f64; po_connections : f64; po_open : f64; po_spark : list val }.
(** A cell: its text, the level of its dot, a badge, a title, a sparkline. *)
Record port_cell : Type := PortCell { pc_text : jstr; pc_dot : jstr; pc_badge : jstr; pc_title : jstr; pc_spark : list svg }.
Definition text_cell (t : jstr) : port_cell := PortCell t [] [] [] [].
Definition showExposure (ports : list port) : bool := existsb (λ p, match po_exposed p with Some _ => true | None => false end) ports.
Definition port_cols (exposure : bool) : list jstr :=
  map js ["Port"; "Service"; "Details"]%string ++ (if exposure then [js "Router"] else [])
  ++ map js ["State"; "Inbound"; "Outbound"; "Connections"; "Open"; "Traffic"]%string.
Definition port_row (exposure : bool) (p : port) : list port_cell :=
  [ text_cell (js_of_Z (po_port p) ++ (if po_end p =? 0 then [] else js "-" ++ js_of_Z (po_end p)) ++ js "/" ++ po_proto p);
    PortCell (po_service p) [] (if po_docker p then js "docker" else []) [] [];
    text_cell (po_detail p) ]
  ++ (if exposure then
        [match po_exposed p with
         | None => text_cell (js "-")
         | Some b => PortCell (if b then js " mapped" else js " not mapped") (if b then js "info" else js "off") [] [] []
         end]
      else [])
  ++ [ PortCell (js " " ++ po_state p) (if bool_decide (po_state p = js "listening") then js "ok" else js "bad") [] (po_error p) [];
       text_cell (fmt_bytes (po_in p)); text_cell (fmt_bytes (po_out p)); text_cell (fmt_count (po_connections p)); text_cell (fmt_int (po_open p));
       PortCell [] [] [] (js "peak " ++ fmt_bits (fmul (peak (po_spark p)) f8))
         (sparkline (f_of_Z 140) (f_of_Z 26) (map (fmap (λ v, fmul v f8)) (po_spark p))) ].
(** The head, the rows, and one note in place of none. *)
Definition ports_table (ports : list port) : list jstr * (jstr + list (list port_cell)) :=
  let e := showExposure ports in
  (port_cols e, match ports with [] => inl (js "No listeners.") | _ => inr (map (port_row e) ports) end).
Definition ports_sub (ports : list port) : jstr :=
  plural (count_if (λ p, bool_decide (po_state p = js "listening")) ports) (js "listener") (js "listeners") ++ js " running"
  ++ (if showExposure ports
      then js ", " ++ js_of_Z (count_if (λ p, default false (po_exposed p)) ports) ++ js " mapped on the router by UPnP" else [])
  ++ js ". Traffic is what went through each port in this range.".

(** ** The lists *)

Definition host_bar (h : jstr * f64 * f64 * f64) : bar_row :=
  let '(name, requests, errors, out) := h in
  Charts.BarRow (fmt_int requests ++ js " requests, " ++ fmt_bytes out ++ js " sent, " ++ fmt_int errors ++ js " server errors")
    (if bool_decide (name = js "_unmatched") then js "No matching host" else name) false
    (if f_truthy errors then fmt_pct (fmul (fdiv errors requests) (f_of_Z 100)) ++ js " 5xx" else []) requests.
Definition ovCountry (code : jstr) : jstr :=
  if bool_decide (code = js "LAN") then js "Local network"
  else if bool_decide (code = js "unknown") then js "Unknown"
  else default code (region_name code).
(** [/^[A-Z]{2}$/]. *)
Definition two_capitals (s : jstr) : bool :=
  match s with [a; b] => forallb (λ c, N.leb 65 c && N.leb c 90) [a; b] | _ => false end.
Definition country_bar (c : jstr * f64) : bar_row :=
  Charts.BarRow (fmt_int c.2 ++ js " requests") (ovCountry c.1) false (if two_capitals c.1 then c.1 else []) c.2.
Definition protocol_parts (t : totals) : list part :=
  map (λ x : string * string, Part (js x.1) (js x.2) (to_protocols t (js x.1)))
    [("HTTP/3", "var(--c-series-1)"); ("HTTP/2", "var(--c-series-2)"); ("HTTP/1.1", "var(--c-series-3)")]%string.

Definition BLOCK_REASONS : list (string * string) :=
  [("accessList", "Access lists"); ("banned", "Auto-ban"); ("rateLimit", "Rate limits"); ("exploit", "Exploit filter"); ("bot", "Bad bots");
   ("clientCert", "Client certificates"); ("sso", "Single sign-on"); ("forwardAuth", "Forward auth"); ("streamSource", "Stream source filters")]%string.
Definition reason_text (k : jstr) : jstr :=
  match List.find (λ r, bool_decide (js r.1 = k)) BLOCK_REASONS with Some r => js r.2 | None => k end.
(** The reasons that refused something, the largest first:
    [sort((a, b) => b[1] - a[1])]. *)
Definition blocked_sorted (t : totals) : list (jstr * f64) :=
  sort_by (λ a b, negb (fltb a.2 b.2)) (List.filter (λ x, fltb f_zero x.2) (to_blocked t)).
Definition blocked_bar (x : jstr * f64) : bar_row := Charts.BarRow (fmt_int x.2 ++ js " refused") (reason_text x.1) false [] x.2.
Definition blocked_sub (t : totals) : jstr :=
  let total := fsum (map snd (blocked_sorted t)) in
  if f_truthy total then
    fmt_int total ++ js " refused in this range"
    ++ (if to_banned t =? 0 then [] else js ", " ++ plural (to_banned t) (js "address") (js "addresses") ++ js " banned now") ++ js ". "
  else js "Requests and stream clients quicgate refused. ".

(** [ovRenderLists]: hosts, countries ([None] without a database), protocols
    and refusals. *)
Record ov_lists : Type := OvLists {
  ol_hosts : jstr + list bar; ol_countries : option (jstr + list bar);
  ol_protocols : jstr + list (jstr * jstr * jstr) * list (jstr * jstr * jstr * jstr); ol_blocked : jstr + list bar; ol_sub : jstr }.
Definition ovRenderLists (t : totals) (hosts : list (jstr * f64 * f64 * f64)) (countries : option (list (jstr * f64))) : ov_lists :=
  let none := js "No requests in this range yet." in
  OvLists (barList fmt_count none (map host_bar hosts)) (option_map (λ l, barList fmt_count none (map country_bar l)) countries)
    (shareBar fmt_count none (protocol_parts t))
    (barList fmt_count (js "Nothing refused in this range.") (map blocked_bar (blocked_sorted t))) (blocked_sub t).
End overview.

(** ** Properties *)

Section properties.
Context (fmt_count fmt_int : f64 → jstr) (region_name : jstr → option jstr).

Lemma port_row_length e p : length (port_row fmt_count fmt_int e p) = length (port_cols e).
Proof. by destruct e. Qed.

(** The tables and lists of the overview fit together: every row of the
    table of listeners has a cell for every column, with the exposure column
    there exactly when a listener has one to show; and the list of refusals
    has every reason that refused something and no other, none before a
    larger one, each with the number the engine gave. *)
Theorem overview_lists_fit (ports : list port) (t : totals) :
  (∀ row, match (ports_table fmt_count fmt_int ports).2 with inr rows => row ∈ rows | inl _ => False end →
     length row = length (ports_table fmt_count fmt_int ports).1)
  ∧ (js "Router" ∈ (ports_table fmt_count fmt_int ports).1 ↔ ∃ p b, p ∈ ports ∧ po_exposed p = Some b)
  ∧ Sorted (λ a b, f_le b.2 a.2) (blocked_sorted t)
  ∧ (∀ x, x ∈ blocked_sorted t ↔ x ∈ to_blocked t ∧ fltb f_zero x.2 = true)
  ∧ length (blocked_sorted t) = length (List.filter (λ x, fltb f_zero x.2) (to_blocked t)).
Proof.
  split_and!.
  - intros row. unfold ports_table. cbn [fst snd]. destruct ports as [|p ports]; [done|]. intros (q & -> & _)%list_elem_of_fmap.
    apply port_row_length.
  - cbn [ports_table fst]. transitivity (showExposure ports = true).
    + unfold port_cols. destruct (showExposure ports); (split; [|try done]); try done; try (intros _; apply (bool_decide_unpack _); by_compute).
      intros H. exfalso. revert H. apply (bool_decide_unpack _). by_compute.
    + unfold showExposure. rewrite existsb_exists. split.
      * intros (p & Hp%list_elem_of_In & Hb). destruct (po_exposed p) as [b|] eqn:E; [|done]. by exists p, b.
      * intros (p & b & Hp & E). exists p. split; [by apply list_elem_of_In|by rewrite E].
  - unfold blocked_sorted. apply (sort_by_sorted _ (λ a b : jstr * f64, f_le b.2 a.2)).
    + intros a b H. by apply negb_true_iff in H.
    + intros a b H. apply negb_false_iff in H. unfold f_le. destruct (fltb b.2 a.2) eqn:E; [|done]. exfalso.
      assert (num b.2) as Hn by (by destruct b.2). pose proof (fltb_trans _ _ _ Hn H E) as F. by rewrite fltb_irrefl in F.
  - intros x. unfold blocked_sorted. rewrite sort_by_perm, list_elem_of_In, filter_In, <- list_elem_of_In. done.
  - unfold blocked_sorted. by rewrite sort_by_perm.
Qed.
End properties.

(** ** Chart or table

    Each of the three charts can be shown as a table instead: the button
    beside it turns one into the other.  The table stands in a box that is
    made when the first report is rendered, and its rows are written only
    while it is shown.  [content] is what [ovRenderCharts] makes of a report
    for the range chosen ([Traffic.ov_content]): the rows with their head, and
    the data of the chart. *)

Section panel.
Context (offset : Z → Z) (fmt_bits fmt_count fmt_ms : f64 → jstr) (id : chart_id).
Notation content := (ov_content offset fmt_bits fmt_count fmt_ms id).

(** [pn_box] is whether the box is hidden, and its rows. *)
Record panel : Type := Panel {
  pn_range : range_opts; pn_report : option report; pn_table : bool; pn_box : option (bool * list (list jstr)); pn_chart_hidden : bool;
  pn_chart : option chart; pn_pressed : jstr; pn_button : jstr }.

Definition render_panel (rep : report) (p : panel) : panel :=
  let c := content (pn_range p) rep in
  let old := match pn_box p with Some b => b.2 | None => [] end in
  Panel (pn_range p) (pn_report p) (pn_table p) (Some (negb (pn_table p), if pn_table p then c.1 else old)) (pn_table p) (Some c.2)
    (pn_pressed p) (pn_button p).
Inductive panel_event : Type := PToggle | PRange (o : range_opts) | PReport (rep : report).
Definition toggle_panel (p : panel) : panel :=
  let on := negb (pn_table p) in
  let p := Panel (pn_range p) (pn_report p) on (pn_box p) (pn_chart_hidden p) (pn_chart p) (if on then js "true" else js "false")
             (if on then js "Chart" else js "Table") in
  match pn_report p with Some rep => render_panel rep p | None => p end.
Definition panel_step (p : panel) (e : panel_event) : panel :=
  match e with
  | PToggle => toggle_panel p
  | PRange o => Panel o (pn_report p) (pn_table p) (pn_box p) (pn_chart_hidden p) (pn_chart p) (pn_pressed p) (pn_button p)
  | PReport rep =>
      render_panel rep (Panel (pn_range p) (Some rep) (pn_table p) (pn_box p) (pn_chart_hidden p) (pn_chart p) (pn_pressed p) (pn_button p))
  end.
Definition panel_run (p : panel) (es : list panel_event) : panel := fold_left panel_step es p.
Definition panel_html (o : range_opts) : panel := Panel o None false None false None (js "false") (js "Table").

(** The button names the view it turns to; once there is a report, one of
    the two is shown, and it shows a report for a range, the same one. *)
Record panel_ok (p : panel) : Prop := {
  pk_pressed : pn_pressed p = if pn_table p then js "true" else js "false";
  pk_button : pn_button p = if pn_table p then js "Chart" else js "Table";
  pk_none : pn_report p = None → pn_box p = None ∧ pn_chart_hidden p = false;
  pk_shown : is_Some (pn_report p) → pn_chart_hidden p = pn_table p ∧ ∃ rows, pn_box p = Some (negb (pn_table p), rows)
    ∧ ∃ o rep, pn_chart p = Some (content o rep).2 ∧ (pn_table p = true → rows = (content o rep).1) }.

Lemma render_panel_ok rep p : is_Some (pn_report p) →
  pn_pressed p = (if pn_table p then js "true" else js "false") → pn_button p = (if pn_table p then js "Chart" else js "Table") →
  panel_ok (render_panel rep p).
Proof.
  intros [r E] H1 H2. constructor; try done; cbn; [by rewrite E|]. intros _. split; [done|].
  eexists. split; [done|]. exists (pn_range p), rep. split; [done|]. by intros ->.
Qed.

(** A chart is shown either drawn or as its table, never both and never
    neither, and the button says which other view it turns to. *)
Theorem chart_or_table o es : panel_ok (panel_run (panel_html o) es).
Proof.
  unfold panel_run. induction es as [|e es IH] using rev_ind; [constructor; try done; by intros []|].
  rewrite fold_left_app. cbn [fold_left]. set (p := fold_left panel_step es _) in *. clearbody p. destruct IH as [H1 H2 H3 H4].
  destruct e as [|o'|rep]; cbn [panel_step].
  - unfold toggle_panel. cbn [pn_report]. destruct (pn_report p) as [rep|] eqn:E; [apply render_panel_ok; cbn|constructor; cbn];
      rewrite ?E; try done; by destruct (pn_table p).
  - by constructor.
  - by apply render_panel_ok.
Qed.
End panel.
