(* ===== verification/Markup.v ===== *)
(** * What the pages write as markup

    Most of what the server sends is put on the page as text.  [page_markup]
    lists the places where it is written as markup, cell by cell and page by
    page, with the definitions that make it; the theorem is about them all.
    Left out are the places that write only the program's own texts (the
    rows of the editors, the menu of the themes, the cards of the guides), and
    the guides themselves, which Markdown is about: there a link target can
    add attributes to the renderer's own tags. *)

From Stdlib Require Import Ascii String ZArith NArith Lia.
From stdpp Require Import base list gmap strings numbers.
From S2P Require Import Prelude JsString Html Logs Subjects HostForm Acl Streams Hosts Vpn Tables Docker Traffic Overview.

Local Open Scope Z_scope.

(** The options of the country menu of an access rule: the names are the
    browser's, the codes the page's own. *)
Definition country_option (o : jstr * jstr) : list piece :=
  [Lit (jq "<option value=`" ++ o.1 ++ jq "`>"); ev o.2; Lit (js " (" ++ o.1 ++ js ")</option>")].
Definition country_menu (localeLeb : jstr → jstr → bool) (countryName : jstr → jstr) : list piece :=
  Lit (jq "<option value=``>Select a country...</option>")
  :: concat (map country_option (sort_by (λ a b, localeLeb a.2 b.2) (map (λ c, (c, countryName c)) COUNTRY_CODES))).

Section markup.
Context (toLowerCase date_text date_time_text countryName : jstr → jstr) (now : Z) (date_ms : jstr → option Z).
Context (localeLeb : jstr → jstr → bool) (time_text : jstr → jstr).
Context (is_today : jstr → bool) (time_string date_time_string : jstr → jstr).

Inductive page_markup : list piece → Prop :=
  | log_row withHost e : page_markup (row_pieces is_today time_string date_time_string withHost e)
  | attention_line o a : a ∈ attention o → page_markup (attn_pieces a)
  | configuration c : page_markup (config_html c)
  | feature_list on : page_markup (features_html on)
  | host_backends d h l : (upstream_cell d h).1 = TdHtml l → page_markup l
  | host_access d h : page_markup (access_cell d h)
  | host_certificate d h l : cert_cell toLowerCase date_text d h = TdHtml l → page_markup l
  | certificate_row c : page_markup (cert_row date_time_text c)
  | custom_certificate c : page_markup (ccert_row now date_ms date_text c)
  | list_satisfy p a : page_markup (av_satisfy (acl_view_of localeLeb p a))
  | provider_session p : page_markup (iv_session (idp_view_of p))
  | stream_listen s : page_markup (listen_cell s)
  | stream_proto p acls x : page_markup (sv_proto (stream_view_of p acls x))
  | stream_sources acls s : page_markup (sources_cell acls s)
  | site_state s x : page_markup (site_state_html now date_ms s x)
  | device_state s d : page_markup (badge_html (device_badge now date_ms s d))
  | device_owner pp d l : (owner_cell now date_ms date_text pp d).1 = inr l → page_markup l
  | session_state blocked s : page_markup (badge_html (session_badge now date_ms time_text blocked s))
  | docker_endpoints l : page_markup (endpoints_html l)
  | docker_disabled : page_markup docker_off
  | container_host c : page_markup (kr_host (container_row_of c))
  | container_route c : page_markup (kr_route (container_row_of c))
  | container_detail c : page_markup (detail_cell c)
  | container_warnings c : page_markup (warn_cell c)
  | geoip_state g : page_markup (geoip_html g)
  | geoip_lookup r : page_markup (lookup_html countryName r)
  | own_addresses own : page_markup (own_html own)
  | country_choice : page_markup (country_menu localeLeb countryName).

Lemma config_ok c : contained (config_html c).
Proof.
  assert (∀ page label value sub bad, page ∈ ["hosts"; "certs"; "streams"; "access"; "docker"]%string → contained (config_row page label value sub bad)) as H.
  { intros page label value sub bad Hp. split; [|unfold config_row; inerts_by]. unfold config_row.
    repeat (apply elem_of_cons in Hp as [->|Hp]; [destruct bad; tpl_end_by|]). by apply not_elem_of_nil in Hp. }
  unfold config_html. repeat apply contained_app; try (apply H; apply (bool_decide_unpack _); by_compute).
  destruct (oc_docker c) as [[r n]|]; [|apply contained_nil]. apply H. apply (bool_decide_unpack _). by_compute.
Qed.

Lemma features_ok on : contained (features_html on).
Proof.
  apply contained_concat, map_contained. intros f. unfold feature_html. destruct (on (js f.2)); contained_by.
Qed.

Lemma muted_ok s : contained (muted [ev s]).
Proof. unfold muted. cbn [app]. contained_by. Qed.

Lemma listen_ok s : contained (listen_cell s).
Proof.
  unfold listen_cell. apply contained_app; [contained_by|]. set (l := _ ++ _). destruct l as [|b l]; [apply contained_nil|].
  apply contained_cons_lit; [by_compute|]. apply join_contained; [by_compute|]. apply map_contained, muted_ok.
Qed.

Lemma sources_ok acls s : contained (sources_cell acls s).
Proof.
  unfold sources_cell. destruct (st_accessListId s); [contained_by|]. destruct (st_allowedCidrs s) as [|c l]; [contained_by|].
  destruct (1 <? length (c :: l))%nat; contained_by.
Qed.

Lemma ccert_ok c : contained (ccert_row now date_ms date_text c).
Proof. unfold ccert_row. destruct (truthy (cc_notAfter c) && _); contained_by. Qed.

Lemma country_code_ok c n : c ∈ COUNTRY_CODES → contained (country_option (c, n)).
Proof.
  intros Hc. assert (forallb (λ c, bool_decide (hrun HText (jq "<option value=`" ++ c ++ jq "`>") = HText
    ∧ hrun HText (js " (" ++ c ++ js ")</option>") = HText)) COUNTRY_CODES = true) as H by by_compute.
  rewrite forallb_forall in H. apply list_elem_of_In, H, bool_decide_eq_true in Hc as [H1 H2].
  unfold country_option. cbn [fst snd]. apply contained_cons_lit; [exact H1|]. apply contained_cons_val; [apply esc_inert|].
  apply contained_cons_lit; [exact H2|apply contained_nil].
Qed.
Lemma country_options_ok leb (name : jstr → jstr) codes : (∀ c n, c ∈ codes → contained (country_option (c, n))) →
  contained (concat (map country_option (sort_by leb (map (λ c, (c, name c)) codes)))).
Proof.
  intros H. apply contained_concat, List.Forall_map, list.Forall_forall. intros [c n] Hc. rewrite sort_by_perm in Hc.
  apply list_elem_of_fmap in Hc as (c' & [= -> ->] & Hc). by apply H.
Qed.
Lemma country_ok : contained (country_menu localeLeb countryName).
Proof. apply contained_cons_lit; [by_compute|]. apply country_options_ok. exact country_code_ok. Qed.

(** C8. No text from outside changes the markup of a page: wherever the pages
    write what the server, a client of a host, the browser or the user gave
    as markup (rows of the request log, the overview, the tables of hosts,
    certificates, lists, providers and streams, the VPN page, Docker, GeoIP
    and the country menu), the tags and attributes are the page's own, the
    same as if every such text were empty, and what follows is outside of
    every tag.  The one place left out is the view of the built-in guides,
    written by [renderMarkdown] (see Markdown): its tags are the renderer's
    own, but a link target can add attributes. *)
Theorem pages_contained l : page_markup l →
  same_markup (tpl l) (tpl (map blank l)) ∧ hrun HText (tpl l) = HText.
Proof.
  intros H. apply contained_markup. destruct H.
  - apply row_pieces_contained.
  - by eapply attention_contained.
  - apply config_ok.
  - apply features_ok.
  - pose proof (upstream_cell_ok d h) as T. by rewrite H in T.
  - apply access_cell_ok.
  - pose proof (cert_cell_ok toLowerCase date_text d h) as T. by rewrite H in T.
  - apply cert_row_ok.
  - apply ccert_ok.
  - unfold acl_view_of. cbn [av_satisfy]. contained_by.
  - unfold idp_view_of. cbn [iv_session]. contained_by.
  - apply listen_ok.
  - apply muted_ok.
  - apply sources_ok.
  - apply site_state_ok.
  - apply device_state_ok.
  - pose proof (owner_cell_ok now date_ms date_text pp d) as T. by rewrite H in T.
  - apply session_state_ok.
  - apply endpoints_ok.
  - unfold docker_off. contained_by.
  - unfold container_row_of. cbn [kr_host]. contained_by.
  - unfold container_row_of. cbn [kr_route]. destruct (dk_routed c); apply badge_contained; by_compute.
  - apply detail_ok.
  - apply warn_ok.
  - apply geoip_ok.
  - apply lookup_ok.
  - apply own_ok.
  - apply country_ok.
Qed.
End markup.

(** ** The property at a concrete input *)

Definition evil_container : container :=
  Container (js "web") (js "local") true [js "<img src=x>"; jq "a`onload=`x"] (js "</td>") [] [js "<script>"].

Lemma pages_contained_witness :
  page_markup id id id id 0 (λ _, None) (λ _ _, true) id (λ _, true) id id (detail_cell evil_container)
  ∧ same_markup (tpl (detail_cell evil_container)) (jq ", <span class=`hs-muted`>&rarr; </span>").
Proof.
  assert (page_markup id id id id 0 (λ _, None) (λ _ _, true) id (λ _, true) id id (detail_cell evil_container)) as H by constructor.
  split; [exact H|]. destruct (pages_contained id id id id 0 (λ _, None) (λ _ _, true) id (λ _, true) id id _ H) as [E _].
  unfold same_markup in *. destruct E as [-> ->]. split; by_compute.
Defined.
